(* ===== verification/_CoqProject ===== *)
-Q . S2P
Prelude.v
CppString.v
OrdMap.v
Proto.v
TaskQueue.v
Json.v
PGStore.v
ApiStatements.v
ApiServer.v
Scheduler.v
AnalysisScheduler.v
Server.v
ServerRows.v
StatusRace.v
Interleavings.v
ServerMain.v
ServerPool.v
OS.v
Watchdog.v
Profilers.v
Offcpu.v
Symbols.v
Batching.v
Collapsed.v
EbpfLoader.v
ProfilerFactory.v
ContinuousProfiler.v
ProfileWindow.v
PyText.v
Utf8.v
NlChat.v
Platform.v
PyRegex.v
NlParser.v
NlMeaning.v
FlameTree.v
TopN.v
Advisor.v
AnalysisPipeline.v
HeapDump.v
NlSentence.v
Routes.v
ContinuousView.v
ContainerInfo.v
CosClient.v
SelfStats.v
Agent.v
AgentThreads.v
System.v
Jobs.v
Liveness.v
Tests.v
CLayout.v
Vmlinux.v
MapBytes.v
