(* ===== verification/Prelude.v ===== *)
(** * Drop: the collection platform

    Drop profiles programs on many machines.  The API server (Go) records a task in
    PostgreSQL and hands it to drop_server (C++), which queues it for the agent of the
    machine; the agent (C++) asks for work with its heartbeat, runs a profiler, uploads
    the files through the API server and reports the result, which drop_server turns
    into transitions of the task's status.  The API server then starts the analysis
    scripts (Python, Go) on the files.  This development models the C and C++ of
    [src/drop], the server of [src/apiserver] and the analyses of [src/analysis], and
    proves what makes them correct, or where they are not.

    ** Parts and files

    - [Prelude]: the error monad [outcome] (a C++ function returns, throws, or is
      undefined), integers at their width, chunks of lists, hints.  [CppString]:
      std::string and the numeric conversions (find, rfind, substr, getline, fgets,
      stoi, stoull, to_string, snprintf), with the laws of printing and reading numbers
      and lines.  [OrdMap]: std::map as a sorted association list over a type class of
      strict orders.
    - [Proto]: every message of drop/common/proto.
    - [TaskQueue]: common/src/task_queue.h, the per-agent queue and the heartbeat
      tracker.
    - [PGStore]: common/src/task_queue.cpp, the status machine and every method of
      PGStore as the statements it issues on a connection with a transaction state;
      UpdateTaskStatus also as a machine that issues one statement a step, for calls
      that interleave (C3, [scan_online_exact], C34).
    - [Server]: server/main.cpp, one definition per gRPC handler, the scanner round and
      the start-up; executions are sequences of handler calls, scans and writes of the
      API server, one at a time (C11, [notify_result_transitions]).  [ServerRows]: what
      the handlers do to single rows, for the files below.  [ServerMain]: the flags,
      main, the scanner's loop, and how heartbeats and scans show an agent (C31).
    - [Json]: JSON values, what PostgreSQL's jsonb and Go's encoding/json do to them.
    - [ApiStatements]: apiserver/server/server.go, the Go update of a task and its
      transition table, and the statements the API server issues on the tables it shares
      with drop_server (C24).  [ApiServer]: the other tables of model.go, the Auth
      middleware and the handlers of handler.go for tasks, users, groups, agents and
      files; a statement names its columns and fails when one is missing.  [Scheduler]:
      scheduler.go and the handlers of schedules (C37).  [AnalysisScheduler]:
      analyzer.go and main of hotmethod_analyzer.py (C30).  [ProfileWindow]: uploads,
      segments and the merge of a time window ([profile_window_exact]).  [NlChat]: tasks
      from sentences, nl_handler.go.  [ContinuousView]: a flush of the continuous
      profiler through the routes to the profile of a window (C19).  [Routes]:
      apiserver/main.go, the configuration, the middleware and every route, who may do
      what through them, and the chat handlers about a task, one of them a stream (C22,
      C38, C33).
    - [StatusRace]: an update of the API server and one of drop_server on two
      connections, statement by statement, with row locks (C25).
    - [Interleavings]: any number of status updates of both servers, heartbeats and
      scans, statement by statement, the threads of drop_server on their one shared
      connection: what every interleaving keeps, and what calls that do not overlap keep
      beyond it (C4, C26).
    - [Platform]: the API server with its goroutines, drop_server and the analysis
      thread on one database, as a step relation whose steps are whole requests, calls
      and answers (C5, C6, C36).
    - [Utf8]: texts of code points, their encoding and the check of it.  [PyRegex]:
      Python's re, as the list of the ways a pattern can match in the order in which re
      tries them.  [NlParser]: nl_parser.py.  [NlMeaning]: what a sentence says, defined
      by positions in it without patterns, and that the parser finds exactly that (C17).
      [NlSentence]: the way of a sentence through nl_parser.py, NLChat and drop_server
      to the queue of an agent (C7).
    - [PyText]: the str, int, dict and sorted of Python the analyses use.  [FlameTree]:
      collapsed2tree.py (C18).  [TopN]: parse_topn of hotmethod_analyzer.py, and the way
      of an agent's file into both views (C29, [agent_profile_in_views]).  [Advisor]:
      the rules of rules.yaml with their regular expressions, decided by derivatives,
      and the suggestions they leave.  [AnalysisPipeline]: what hotmethod_analyzer.py
      does between its updates of the row: download, the pipelines, results and
      suggestions, with the Markdown and the diagnosis of analysis_advisor.py (C8, C23).
    - [HeapDump]: java_heap_analyzer/main.go, and a writer of the HPROF format with the
      sizes the format has (C20, C21).
    - [ServerPool]: common/src/server_pool.h.
    - [OS]: the interface of the operating system, a type class over an abstract world,
      and the monad [prog] of programs over it; [traced] records the children asked for,
      [sim] is a concrete world for evaluation.
    - [Watchdog]: the two threads and the child of the supervised wait that
      perf_profiler.cpp, async_profiler_profiler.cpp and script_runner.cpp repeat, as a
      step relation with time; waitpid may fail (C15).
    - [Profilers]: profiler.h and those three files ([record_success_evidence]); the
      contract of the interface is the class [ProfilerSpec].
    - [Offcpu]: common/bpf/offcpu.bpf.c, the kernel probe, as one step and as the map
      accesses that CPUs interleave (C27).
    - [Symbols]: symbol resolution of ebpf_loader.cpp; [Batching]: its batched lookup
      against one lookup per address (C16).
    - [Collapsed]: the folded-stack files (C28).
    - [EbpfLoader]: ebpf_loader.cpp and ebpf_profiler.cpp over the interface [BPF] of
      libbpf and the kernel's maps (C14, C32).
    - [ProfilerFactory]: profiler_factory.cpp, where the instances of [ProfilerSpec] are
      put together; its clients use only the class.
    - [ContinuousProfiler]: continuous_profiler.cpp ([flush_segment_effect]).
    - [ContainerInfo]: container_info.cpp.
    - [CosClient]: cos_client.cpp ([cos_upload_chain]).
    - [SelfStats]: the self monitoring of agent/main.cpp, with the doubles of SpecFloat.
    - [Agent]: the rest of agent/main.cpp: start-up, heartbeat rounds, worker, uploads
      (C10).
    - [AgentThreads]: the same threads at the grain of the mutex, the condition variable
      and the signal handler (C12, C13, C39).
    - [System]: server and agent together, the handlers of [Server] behind the calls of
      [Agent], over a network that loses messages (C9).  [Jobs]: the specification of
      that system as a queue of jobs, the refinement, and the two losses that break it
      (C1, C35).  [Liveness]: infinite fair runs (C2).
    - [Tests]: the unit tests of drop/tests evaluated on the definitions.
    - [CLayout], [Vmlinux]: the layout of C records and the kernel types of
      common/bpf/vmlinux.h that surround the probe.  [MapBytes]: the probe on memory and
      byte strings, and what the loader reads of it (C40).

    Records carry the fields of the structs and classes, definitions the names of the
    functions; a long function is cut at its loops and phases, and the header of each
    file says how.

    ** What the theorems show

    The system: whatever is lost, a task is executed at most once and in order (C9);
    when nothing is lost, the system is a first-come-first-served job queue whose state
    the database shows (C1), and with fair threads every created task ends DONE or
    FAILED (C2).
    The platform: whatever users, agents, hand-overs and analyses do one after the
    other, the database that the two servers share stays consistent (C5), and an
    accepted request is in the database and in the queue of its agent as it was asked
    for (C6), also when it was asked for in words (C7, and C17 for any text).  What
    comes in over HTTP are steps of that platform ([serve_platform]); a request without
    a user, or about a task its user does not see, changes nothing of it (C22; most
    routes that only read do not ask for the user, and C22 does not cover them).
    The server: an update of a task is atomic and audited whatever PostgreSQL answers
    (C3), the same from either server (C24), and serial between them where both lock
    (C25).  When statements of several updates interleave, statuses, audit rows and
    agents stay legal, and a DONE that no earlier update is still about to overwrite is
    final (C4, C26); that audit trails explain every status needs calls that do not
    overlap (C4), which the code does not ensure (C34).  Tasks are dispatched once and
    in order (C11); what a report and a scan do exactly ([notify_result_transitions],
    [scan_online_exact]; [upsert_agent_effect] for a heartbeat), and how soon a silent
    agent is seen to be gone (C31).
    The agent: a task ends DONE exactly when its profiler succeeded and the API server
    accepted every file (C10); failover ([heartbeat_failover]); no wake-up of the worker
    is lost, and a shutdown whose signal the main thread handles works off the queue and
    ends (C12, C13); the children it runs, their limits and their supervision (C15,
    [record_success_evidence], [watchdog_returns], [factory_contract],
    [profiler_limits]); uploads to object storage ([cos_upload_chain]); container
    detection and self monitoring ([container_info_consistent], [self_stat_fields]).
    The off-CPU profiler, end to end: the probe counts every switch (C27, but see
    [probe_concurrent] for several CPUs), loader and probe agree on the bytes of the map
    (C40), poll writes exactly the counts of a map that does not change meanwhile (C14)
    with names that keep the file well formed ([batch_symbols_total],
    [resolve_ksym_nearest], [user_maps_cache]) and do not depend on how the lookups are
    batched (C16), the file is read back without loss (C28), segments are flushed and
    the stop request is obeyed ([flush_segment_effect], [stop_ends_record]), and a
    recording that returns leaks no handle (C32).
    The views: what the continuous profiler had in memory is what the profile of a time
    window shows (C19, [profile_window_exact] for any segments), and the flame graph and
    the hot functions those of the file (C18, [agent_profile_in_views], C29); a tick
    settles every analysis it takes up (C30) and writes their results and nothing else
    (C23); an off-CPU file of an agent ends as its flame graph, its hot functions and
    the advice on them (C8), which is that of the first rule ([advice_first_rule_wins]);
    the stream that reports all this ends (C33); reading a heap dump ends on any bytes
    (C21), and gives what was written for dumps without roots whose class dumps have ten
    bytes of entries; others it misreads (C20).
    Where the code does not do what it means to: C34 (two threads on one connection),
    C35 and C36 (a lost reply, report or answer), C37 (cron rules), C38 (groups and
    uploads), [nl_tasks_lose_parameters] (the fallback parser of sentences), C39 (the
    signal handler), the second half of C25 (the lock GORM ignores), [probe_concurrent],
    [continuous_perf_collects_nothing], [cos_json_body_throws].

    ** Outside code

    PostgreSQL, GORM, viper, gin, its rate limiter, gRPC, MinIO, the cron library, the
    operating system, libbpf and the kernel are not under src: their answers are
    arguments (the records [update_env], [scan_env], [delivery], ...) or operations of
    the classes [OS], [BPF] and [RPC], with no law unless a theorem names one
    ([QuietMaps]: iteration of a map nobody else writes, though the probe stays attached
    while poll reads; [good_world]: the cached paths are single lines; [Addr2line]: two
    lines per address).  The order in which Go walks a map, the cron parser, Unicode's
    tables of digits and lower-case letters and the arithmetic of percentages are
    parameters of the definitions that use them; perf, the FlameGraph scripts, MinIO,
    json.dump and the reply of the language model are the record [tools].  [sim],
    [ksim], [asim] and [a2l_sim] are instances on which the witnesses evaluate.

    ** Bounds and fuel

    The loop of [collect_keys] has no bound in the code, since the probe can add keys
    behind it; it is followed for [counts_rounds] rounds, an arbitrary number that the
    world gives, and a loop that has not ended by then is [UB], never a result.  On
    quiet maps more rounds than the map has room are enough (C14).  [chunks],
    [fgets_all] and [stat_loop] have the length of their input as fuel, which the lemmas
    [chunks_concat], [fgets_all_id] and [stat_loop_fuel] show to be enough.
    [continuous_record] is given a number of rounds; [stop_ends_record] shows that it is
    the round in which stop() was called.  [parse_records] and [parseHeapDump] have the
    length of the file as fuel and one more: C21 proves it is enough.

    ** Not modelled

    Logging, flag parsing, the wire format of gRPC and protobuf; handlers of [Server]
    and [Platform] that interleave inside, beyond the statements of their database calls
    (they run one at a time; [Interleavings], [StatusRace] and the machine of [PGStore]
    show what holds and what can happen otherwise); a ROLLBACK that fails; two threads
    inside libpq at once (a statement is atomic); the file system and processes that two
    threads of the agent share at the same time (in [System] each step finds any world);
    a second signal while the handler runs; the rest of the generated vmlinux.h, and
    libbpf's relocation of its offsets beyond the one access of the probe ([MapBytes]).
    Of the API server: the headers and the wording of replies, the client of the object
    storage; of the analyses: the prompts for the language model, the SVG of the
    vendored FlameGraph scripts, command lines, Python's limit of recursion (beyond the
    default depth of a flame graph, [tree_depth_bound]), memory exhausted by a huge
    length in a heap dump.  The web front end. *)
From stdpp Require Export base gmap strings list fin_maps sorting.
From Stdlib Require Export ZArith Lia.

(** * C++ outcomes

    A C++ function of the source returns, throws one of the library's
    exceptions, or has undefined behaviour (signed overflow).  [outcome] is the
    error monad the models are written in, with stdpp's [x ← m; k] notation. *)

Inductive cpp_exn : Type :=
  | invalid_argument
  | out_of_range
  | filesystem_error.

Inductive outcome (A : Type) : Type :=
  | Ret (a : A)
  | Throw (e : cpp_exn)
  | UB (why : string).
Arguments Ret {A} _.
Arguments Throw {A} _.
Arguments UB {A} _.

#[global] Instance cpp_exn_eq_dec : EqDecision cpp_exn.
Proof. solve_decision. Defined.
#[global] Instance outcome_eq_dec {A} `{EqDecision A} : EqDecision (outcome A).
Proof. solve_decision. Defined.

#[global] Instance outcome_ret : MRet outcome := @Ret.
#[global] Instance outcome_bind : MBind outcome := λ A B f m,
  match m with Ret a => f a | Throw e => Throw e | UB w => UB w end.

(** [try { m } catch (...) { h }]: undefined behaviour is not caught. *)
Definition catch_all {A} (m : outcome A) (h : outcome A) : outcome A :=
  match m with Throw _ => h | _ => m end.

(** * Machine integers

    A w-bit integer is a [Z]; conversions between widths wrap around, signed
    addition outside the range is undefined. *)

Open Scope Z_scope.

Definition wrap_u (w z : Z) : Z := z mod 2 ^ w.
Definition wrap_s (w z : Z) : Z := (z + 2 ^ (w - 1)) mod 2 ^ w - 2 ^ (w - 1).

Definition to_u32 (z : Z) : Z := wrap_u 32 z.
Definition to_u64 (z : Z) : Z := wrap_u 64 z.
Definition to_i32 (z : Z) : Z := wrap_s 32 z.

Definition is_u32 (z : Z) : Prop := 0 <= z < 2 ^ 32.
Definition is_u64 (z : Z) : Prop := 0 <= z < 2 ^ 64.
Definition is_i32 (z : Z) : Prop := - 2 ^ 31 <= z < 2 ^ 31.

Definition i32_add (a b : Z) : outcome Z :=
  if bool_decide (- 2 ^ 31 <= a + b < 2 ^ 31) then Ret (a + b)
  else UB "signed overflow".

Lemma to_u32_range z : is_u32 (to_u32 z).
Proof. apply Z.mod_pos_bound. lia. Qed.

Lemma to_u64_range z : is_u64 (to_u64 z).
Proof. apply Z.mod_pos_bound. lia. Qed.

Lemma to_i32_range z : is_i32 (to_i32 z).
Proof.
  unfold is_i32, to_i32, wrap_s.
  pose proof (Z.mod_pos_bound (z + 2 ^ (32 - 1)) (2 ^ 32) ltac:(lia)). lia.
Qed.

Lemma to_u32_id z : is_u32 z → to_u32 z = z.
Proof. apply Z.mod_small. Qed.

Lemma to_u64_id z : is_u64 z → to_u64 z = z.
Proof. apply Z.mod_small. Qed.

Lemma to_i32_id z : is_i32 z → to_i32 z = z.
Proof.
  unfold is_i32, to_i32, wrap_s. intros H.
  rewrite Z.mod_small; lia.
Qed.

Lemma i32_add_ok a b : is_i32 (a + b) → i32_add a b = Ret (a + b).
Proof. unfold i32_add, is_i32. intros. by rewrite bool_decide_eq_true_2. Qed.

Lemma i32_add_ret a b c : i32_add a b = Ret c → c = a + b ∧ is_i32 c.
Proof. unfold i32_add, is_i32. case_bool_decide; naive_solver. Qed.

(** * Proof automation *)

Create HintDb drop discriminated.
#[export] Hint Resolve to_u32_range to_u64_range to_i32_range : drop.
#[export] Hint Resolve to_u32_id to_u64_id to_i32_id i32_add_ok : drop.

(** Case analysis on every [if]/[match] of the goal or of a hypothesis whose
    scrutinee is not itself such a term. *)
Ltac destruct_ifs :=
  repeat (case_match || case_bool_decide || case_decide).

(** Unfolds a monadic equation [m ≫= f = Ret b] into its steps. *)
Ltac inv_bind H :=
  repeat match type of H with
  | mbind _ ?m = Ret _ =>
      let E := fresh "Eb" in destruct m eqn:E; simpl in H; try discriminate
  end.

Lemma bind_Ret {A B} (m : outcome A) (f : A → outcome B) b :
  m ≫= f = Ret b ↔ ∃ a, m = Ret a ∧ f a = Ret b.
Proof. destruct m; naive_solver. Qed.

(** * Lists *)

Section lists.
Context {A : Type}.
Implicit Types l : list A.

(** [std::all_of] over the first [n] elements. *)
Definition all_of (p : A → bool) (l : list A) : bool := forallb p l.

(** Splits a list into consecutive chunks of at most [n] elements: the loop
    [while (start < size) { end = min(start + n, size); ...; start = end; }]. *)
Fixpoint chunks_fuel (fuel n : nat) (l : list A) : list (list A) :=
  match fuel, l with
  | _, [] => []
  | O, _ => []
  | S f, _ => take n l :: chunks_fuel f n (drop n l)
  end.
Definition chunks (n : nat) (l : list A) : list (list A) :=
  chunks_fuel (length l) n l.

Lemma chunks_fuel_concat fuel n l :
  (0 < n)%nat → (length l <= fuel)%nat → concat (chunks_fuel fuel n l) = l.
Proof.
  intros Hn. revert l. induction fuel as [|f IH]; intros [|x l] Hl; simpl in *;
    try done; try lia.
  destruct n as [|n]; [lia|]. simpl. f_equal.
  rewrite IH; [apply take_drop|]. rewrite length_drop. lia.
Qed.

Lemma chunks_concat n l : (0 < n)%nat → concat (chunks n l) = l.
Proof. intros. by apply chunks_fuel_concat. Qed.

Lemma chunks_fuel_length fuel n l c :
  c ∈ chunks_fuel fuel n l → (length c <= n)%nat.
Proof.
  revert l. induction fuel as [|f IH]; intros [|x l]; simpl; rewrite ?elem_of_nil; try done.
  intros [->|Hc]%elem_of_cons; [rewrite length_take; lia|eauto].
Qed.

Lemma chunks_length n l c : c ∈ chunks n l → (length c <= n)%nat.
Proof. apply chunks_fuel_length. Qed.

Lemma chunks_shape n l : (0 < n)%nat → Forall (λ c, c ≠ [] ∧ (length c <= n)%nat) (chunks n l).
Proof.
  intros Hn. apply Forall_forall. intros c Hc. split; [|by eapply chunks_length].
  unfold chunks in Hc. revert Hc. generalize (length l). intros fuel. revert l.
  induction fuel as [|f IH]; intros [|x l]; simpl; rewrite ?elem_of_nil; try done.
  intros [->|Hc]%elem_of_cons; [by destruct n; [lia|]|eauto].
Qed.
End lists.

#[export] Hint Resolve chunks_concat chunks_length : drop.

(** ** Lists sorted by a key, the largest first *)

(** The first elements of a sorted list are the largest. *)
Lemma sorted_take {A} (k : A → Z) n (l : list A) x y :
  StronglySorted (λ x y, k y <= k x)%Z l → x ∈ take n l → y ∈ drop n l → (k y <= k x)%Z.
Proof.
  intros Hs. revert n. induction Hs as [|z l Hs IH Hz]; intros n Hx Hy; [by rewrite take_nil in Hx; set_solver|].
  destruct n as [|n]; simpl in *; [set_solver|]. apply elem_of_cons in Hx as [->|Hx]; [|by eapply IH].
  rewrite Forall_forall in Hz. apply Hz. rewrite <-(take_drop n l). set_solver.
Qed.
