(* ===== verification/CppString.v ===== *)
(** The parts of the C++ string library the program uses, on [string]:
    [find]/[rfind]/[substr], [std::getline], trimming loops, [std::to_string],
    [std::stoi]/[std::stoull], the conversions of [snprintf("%lx")] and
    [std::hex], and [fgets].  [npos] is [None]. *)
From stdpp Require Import base strings list.
From Stdlib Require Import ZArith Lia Ascii.
From S2P Require Import Prelude.

Declare Scope cpp_scope.
Delimit Scope cpp_scope with cpp.
Local Open Scope string_scope.
Open Scope Z_scope.

(** * Characters *)

Definition ch_nl : ascii := "010".
Definition ch_cr : ascii := "013".
Definition ch_quote : ascii := "034".
Definition nl : string := String ch_nl "".
Definition quote : string := String ch_quote "".

(** [isspace] of the C locale. *)
Definition isspace (c : ascii) : bool :=
  let n := Z.of_N (N_of_ascii c) in (n =? 32) || ((9 <=? n) && (n <=? 13)).

(** The value of a digit in base 36; [None] for a character that is no digit. *)
Definition digit_val (c : ascii) : option Z :=
  let n := Z.of_N (N_of_ascii c) in
  if (48 <=? n) && (n <=? 57) then Some (n - 48)
  else if (97 <=? n) && (n <=? 122) then Some (n - 87)
  else if (65 <=? n) && (n <=? 90) then Some (n - 55)
  else None.

(** [isxdigit] *)
Definition isxdigit (c : ascii) : bool :=
  match digit_val c with Some d => d <? 16 | None => false end.

(** * Searching and slicing *)

(** [s.find(c)] *)
Fixpoint find_char (c : ascii) (s : string) : option nat :=
  match s with
  | "" => None
  | String a s' => if ascii_dec a c then Some O else S <$> find_char c s'
  end.

(** [s.rfind(c)] *)
Fixpoint rfind_char (c : ascii) (s : string) : option nat :=
  match s with
  | "" => None
  | String a s' =>
      match rfind_char c s' with
      | Some i => Some (S i)
      | None => if ascii_dec a c then Some O else None
      end
  end.

Fixpoint str_take (n : nat) (s : string) : string :=
  match n, s with
  | S n', String a s' => String a (str_take n' s')
  | _, _ => ""
  end.

Fixpoint str_drop (n : nat) (s : string) : string :=
  match n, s with
  | S n', String _ s' => str_drop n' s'
  | _, _ => s
  end.

(** [s.rfind(c, pos)]: the last occurrence at an index that is at most [pos]. *)
Definition rfind_upto (c : ascii) (s : string) (pos : nat) : option nat :=
  rfind_char c (str_take (S pos) s).

(** [s.find(c, pos)] *)
Definition find_from (c : ascii) (s : string) (pos : nat) : option nat :=
  (λ i, (pos + i)%nat) <$> find_char c (str_drop pos s).

(** [s.substr(pos)]: throws [std::out_of_range] past the end. *)
Definition substr (s : string) (pos : nat) : outcome string :=
  if bool_decide (pos <= String.length s)%nat then Ret (str_drop pos s)
  else Throw out_of_range.

(** [s.find(pat) != npos] *)
Fixpoint contains (pat s : string) : bool :=
  String.prefix pat s ||
  match s with "" => false | String _ s' => contains pat s' end.

(** [while (!s.empty() && p(s.front())) s.erase(0, 1);] *)
Fixpoint trim_front (p : ascii → bool) (s : string) : string :=
  match s with
  | String a s' => if p a then trim_front p s' else s
  | "" => ""
  end.

(** [while (!s.empty() && p(s.back())) s.pop_back();] *)
Fixpoint trim_back (p : ascii → bool) (s : string) : string :=
  match s with
  | "" => ""
  | String a s' =>
      match trim_back p s' with
      | "" => if p a then "" else String a ""
      | t => String a t
      end
  end.

Definition is_nl (a : ascii) : bool := bool_decide (a = ch_nl).
Definition is_crlf (a : ascii) : bool :=
  bool_decide (a = ch_nl) || bool_decide (a = ch_cr).
Definition is_blank (a : ascii) : bool := bool_decide (a = " "%char).

(** [path.substr(path.rfind('/') + 1)] ([npos + 1] is 0). *)
Definition basename (path : string) : string :=
  match rfind_char "/" path with
  | Some i => str_drop (S i) path
  | None => path
  end.

(** * Lines *)

(** The successive results of [while (std::getline(in, line, d))]. *)
Fixpoint getlines (d : ascii) (s : string) : list string :=
  match s with
  | "" => []
  | String a s' =>
      if ascii_dec a d then "" :: getlines d s'
      else match getlines d s' with
           | [] => [String a ""]
           | l :: r => String a l :: r
           end
  end.

(** [fgets(buf, n, f)] on the unread characters [s]: the characters read (at
    most [n - 1], up to and with the first newline) and the rest; [None] at end
    of file. *)
Fixpoint fgets_go (room : nat) (s : string) : string * string :=
  match room, s with
  | S r, String a s' =>
      if ascii_dec a ch_nl then (String a "", s')
      else let '(l, rest) := fgets_go r s' in (String a l, rest)
  | _, _ => ("", s)
  end.
Definition fgets (n : nat) (s : string) : option (string * string) :=
  match s with "" => None | _ => Some (fgets_go (pred n) s) end.

(** * Numbers *)

(** Digits of base [b] from the front of [s]: accumulated value, whether one
    digit was read, and the rest. *)
Fixpoint scan_digits (b : Z) (s : string) (acc : Z) (seen : bool) : Z * bool * string :=
  match s with
  | "" => (acc, seen, "")
  | String a s' =>
      match digit_val a with
      | Some d => if d <? b then scan_digits b s' (acc * b + d) true
                  else (acc, seen, s)
      | None => (acc, seen, s)
      end
  end.

(** Optional sign: [true] for a minus. *)
Definition scan_sign (s : string) : bool * string :=
  match s with
  | String "-" s' => (true, s')
  | String "+" s' => (false, s')
  | _ => (false, s)
  end.

(** [strtol]/[strtoull] in base 10 before the range check: the mathematical
    value read, [None] when no digit was found. *)
Definition strto (s : string) : option Z :=
  let '(neg, s1) := scan_sign (trim_front isspace s) in
  let '(v, seen, _) := scan_digits 10 s1 0 false in
  if seen then Some (if neg then - v else v) else None.

(** [std::stoi] *)
Definition stoi (s : string) : outcome Z :=
  match strto s with
  | None => Throw invalid_argument
  | Some v => if bool_decide (- 2 ^ 31 <= v < 2 ^ 31) then Ret v
              else Throw out_of_range
  end.

(** [std::stoull]: a minus sign negates modulo 2^64; a magnitude above
    [ULLONG_MAX] throws. *)
Definition stoull (s : string) : outcome Z :=
  match strto s with
  | None => Throw invalid_argument
  | Some v => if bool_decide (Z.abs v < 2 ^ 64) then Ret (to_u64 v)
              else Throw out_of_range
  end.

Definition digit_char (d : Z) : ascii :=
  if d <? 10 then ascii_of_N (Z.to_N (d + 48)) else ascii_of_N (Z.to_N (d + 87)).

Fixpoint print_go (fuel : nat) (b n : Z) (acc : string) : string :=
  match fuel with
  | O => acc
  | S f =>
      let acc' := String (digit_char (n mod b)) acc in
      if n <? b then acc' else print_go f b (n / b) acc'
  end.

(** Digits of [n >= 0] in base [b]; the fuel covers every digit. *)
Definition print_base (b n : Z) : string :=
  print_go (S (Z.to_nat (Z.log2 n))) b n "".

(** [std::to_string] *)
Definition to_string (z : Z) : string :=
  if z <? 0 then "-" +:+ print_base 10 (- z) else print_base 10 z.

(** [s.c_str()] as a C string: what precedes the first NUL. *)
Fixpoint c_str (s : string) : string :=
  match s with
  | "" => ""
  | String a s' => if ascii_dec a "000" then "" else String a (c_str s')
  end.

(** [snprintf("%lx")] *)
Definition to_hex (z : Z) : string := print_base 16 z.

(** [snprintf(buf, n, ...)] keeps at most [n - 1] characters. *)
Definition snprintf (n : nat) (s : string) : string := str_take (pred n) s.

(** * Lemmas *)

#[local] Arguments String.append : simpl nomatch.

Lemma length_of_chars l : String.length (String.string_of_list_ascii l) = length l.
Proof. induction l; simpl; auto. Qed.

Lemma str_app_nil_r s : s +:+ "" = s.
Proof. induction s; simpl; congruence. Qed.

Lemma str_app_assoc s1 s2 s3 : (s1 +:+ s2) +:+ s3 = s1 +:+ (s2 +:+ s3).
Proof. induction s1; simpl; congruence. Qed.

Lemma str_app_cons a s1 s2 : String a s1 +:+ s2 = String a (s1 +:+ s2).
Proof. done. Qed.

Lemma str_length_app s1 s2 :
  String.length (s1 +:+ s2) = (String.length s1 + String.length s2)%nat.
Proof. induction s1; simpl; congruence. Qed.

Lemma str_app_eq_nil s1 s2 : s1 +:+ s2 = "" → s1 = "" ∧ s2 = "".
Proof. by destruct s1, s2. Qed.

Lemma str_take_app s1 s2 : str_take (String.length s1) (s1 +:+ s2) = s1.
Proof. induction s1; simpl; [by destruct s2|congruence]. Qed.

Lemma str_drop_app s1 s2 : str_drop (String.length s1) (s1 +:+ s2) = s2.
Proof. by induction s1. Qed.

Lemma str_drop_app_S s1 a s2 :
  str_drop (S (String.length s1)) (s1 +:+ String a s2) = s2.
Proof. by induction s1. Qed.

Lemma str_take_drop n s : str_take n s +:+ str_drop n s = s.
Proof. revert s. induction n; intros [|a s]; simpl; congruence. Qed.

Lemma str_take_length n s :
  (String.length (str_take n s) = Nat.min n (String.length s))%nat.
Proof. revert s. induction n; intros [|a s]; simpl; auto. Qed.

Create Rewrite HintDb drop_str.
#[export] Hint Rewrite str_app_nil_r str_app_assoc str_app_cons : drop_str.

(** [c] does not occur in [s]. *)
Definition no_char (c : ascii) (s : string) : Prop := find_char c s = None.

#[global] Instance no_char_dec c s : Decision (no_char c s).
Proof. unfold no_char. solve_decision. Defined.

Lemma no_char_cons c a s : no_char c (String a s) ↔ a ≠ c ∧ no_char c s.
Proof.
  unfold no_char. simpl. destruct (ascii_dec a c); [naive_solver|].
  destruct (find_char c s); naive_solver.
Qed.

Lemma no_char_app c s1 s2 : no_char c (s1 +:+ s2) ↔ no_char c s1 ∧ no_char c s2.
Proof.
  induction s1 as [|a s1 IH]; simpl; [naive_solver|].
  rewrite !no_char_cons, IH. naive_solver.
Qed.

Lemma rfind_no_char c s : no_char c s → rfind_char c s = None.
Proof.
  induction s as [|a s IH]; [done|]. rewrite no_char_cons. intros [Ha Hs]. simpl.
  rewrite IH by done. by destruct (ascii_dec a c).
Qed.

Lemma rfind_app c s1 s2 :
  no_char c s2 → rfind_char c (s1 +:+ String c s2) = Some (String.length s1).
Proof.
  intros H. induction s1 as [|a s1 IH]; simpl.
  - rewrite rfind_no_char by done. by destruct (ascii_dec c c).
  - by rewrite IH.
Qed.

(** [rfind] splits the string around the last occurrence. *)
Lemma rfind_Some c s i :
  rfind_char c s = Some i →
  s = str_take i s +:+ String c (str_drop (S i) s) ∧ no_char c (str_drop (S i) s).
Proof.
  revert i. induction s as [|a s IH]; intros i; [done|].
  cbn [rfind_char].
  destruct (rfind_char c s) as [j|] eqn:E; intros Hi; simplify_eq/=.
  - destruct (IH _ eq_refl) as [Heq Hno]. split; [|done].
    by rewrite Heq at 1.
  - destruct (ascii_dec a c); simplify_eq/=. split; [done|].
    clear IH. revert E. unfold no_char. induction s as [|b s IHs]; simpl; [done|].
    destruct (rfind_char c s); [done|]. destruct (ascii_dec b c); [done|].
    intros _. by rewrite IHs.
Qed.

Lemma find_char_None_rfind c s : rfind_char c s = None → no_char c s.
Proof.
  unfold no_char. induction s as [|a s IH]; simpl; [done|].
  destruct (rfind_char c s); [done|]. destruct (ascii_dec a c); [done|].
  intros _. by rewrite IH.
Qed.

Lemma basename_no_slash s : no_char "/" (basename s).
Proof.
  unfold basename. destruct (rfind_char "/" s) eqn:E.
  - by apply rfind_Some in E as [_ ?].
  - by apply find_char_None_rfind.
Qed.

Lemma basename_app dir s : no_char "/" s → basename (dir +:+ String "/" s) = s.
Proof.
  intros H. unfold basename. rewrite rfind_app by done. apply str_drop_app_S.
Qed.

(** ** Substring search *)

Lemma prefix_true p s : String.prefix p s = true ↔ ∃ t, s = p +:+ t.
Proof.
  revert s. induction p as [|a p IH]; intros s; simpl.
  - destruct s; naive_solver.
  - destruct s as [|b s]; simpl; [naive_solver|].
    destruct (ascii_dec a b) as [->|Hne].
    + rewrite IH. split; intros [t Ht]; exists t; congruence.
    + split; [done|]. intros [t Ht]. congruence.
Qed.

Lemma contains_true p s : contains p s = true ↔ ∃ a b, s = a +:+ p +:+ b.
Proof.
  induction s as [|c s IH]; cbn [contains].
  - rewrite orb_false_r, prefix_true. split.
    + intros [t Ht]. exists "", t. done.
    + intros (a & b & Hab). symmetry in Hab. apply str_app_eq_nil in Hab as [-> Hb].
      exists b. done.
  - rewrite orb_true_iff, prefix_true, IH. split.
    + intros [[t Ht]|(a & b & ->)]; [by exists "", t|]. by exists (String c a), b.
    + intros (a & b & Hab). destruct a as [|d a]; simplify_eq/=; [left|right]; eauto.
Qed.

Lemma contains_app_l p s t : contains p s = true → contains p (s +:+ t) = true.
Proof.
  rewrite !contains_true. intros (a & b & ->). exists a, (b +:+ t).
  by rewrite !str_app_assoc.
Qed.

Lemma contains_app_r p s t : contains p t = true → contains p (s +:+ t) = true.
Proof.
  rewrite !contains_true. intros (a & b & ->). exists (s +:+ a), b.
  by rewrite !str_app_assoc.
Qed.

Lemma contains_self p : contains p p = true.
Proof. apply contains_true. exists "", "". simpl. by rewrite str_app_nil_r. Qed.

#[export] Hint Resolve contains_app_l contains_app_r contains_self : drop.

(** ** Trimming *)

Lemma trim_back_split p s :
  ∃ t, s = trim_back p s +:+ t ∧ forallb p (String.list_ascii_of_string t) = true.
Proof.
  induction s as [|a s (t & Ht & Hp)]; simpl; [by exists ""|].
  destruct (trim_back p s) as [|b u] eqn:E.
  - destruct (p a) eqn:Ea.
    + exists (String a s). simpl in *. rewrite Ea. split; [done|]. by rewrite Ht.
    + exists t. simpl in *. by rewrite Ht.
  - exists t. split; [|done]. rewrite Ht at 1. done.
Qed.

Lemma trim_back_last p s a t : trim_back p s = t +:+ String a "" → p a = false.
Proof.
  revert t. induction s as [|b s IH]; simpl; intros t H; [by destruct t|].
  destruct (trim_back p s) as [|c u] eqn:E.
  - destruct (p b) eqn:Eb; [by destruct t|].
    destruct t as [|? t]; simpl in H; [congruence|]. by destruct t.
  - destruct t as [|d t]; simpl in H; [congruence|]. eapply IH. by injection H.
Qed.

Lemma trim_back_id p s a : p a = false → trim_back p (s +:+ String a "") = s +:+ String a "".
Proof.
  intros Ha. induction s as [|b s IH]; simpl; [by rewrite Ha|].
  rewrite IH. by destruct s.
Qed.

(** ** Numbers *)

Lemma forall_digits (P : Z → bool) (b : nat) d :
  forallb P (Z.of_nat <$> seq 0 b) = true → 0 <= d < Z.of_nat b → P d = true.
Proof.
  intros H Hd. rewrite forallb_forall in H. apply H.
  apply list_elem_of_In, list_elem_of_fmap. exists (Z.to_nat d).
  split; [lia|]. apply elem_of_seq. lia.
Qed.

Lemma digit_char_val d : 0 <= d < 36 → digit_val (digit_char d) = Some d.
Proof.
  intros Hd.
  pose proof (forall_digits
    (λ d, bool_decide (digit_val (digit_char d) = Some d)) 36 d eq_refl Hd) as H.
  by apply bool_decide_eq_true in H.
Qed.

Lemma digit_char_plain d :
  0 <= d < 36 →
  isspace (digit_char d) = false ∧ digit_char d ≠ "-"%char ∧ digit_char d ≠ "+"%char ∧
  digit_char d ≠ " "%char ∧ digit_char d ≠ ch_nl ∧ digit_char d ≠ ";"%char.
Proof.
  intros Hd.
  pose proof (forall_digits
    (λ d, bool_decide (isspace (digit_char d) = false ∧ digit_char d ≠ "-"%char ∧
       digit_char d ≠ "+"%char ∧ digit_char d ≠ " "%char ∧ digit_char d ≠ ch_nl ∧
       digit_char d ≠ ";"%char))
    36 d eq_refl Hd) as H.
  by apply bool_decide_eq_true in H.
Qed.

(** Scanning what [print_go] printed reads the number back. *)
Lemma scan_print_go fuel b n acc seen :
  2 <= b <= 36 → 0 <= n < 2 ^ Z.of_nat fuel →
  scan_digits b (print_go fuel b n acc) 0 seen =
  scan_digits b acc n (match fuel with O => seen | _ => true end).
Proof.
  intros Hb. revert n acc seen. induction fuel as [|f IH]; intros n acc seen Hn.
  { simpl in *. by replace n with 0 by lia. }
  cbn [print_go]. rewrite Nat2Z.inj_succ, Z.pow_succ_r in Hn by lia.
  pose proof (Z.mod_pos_bound n b ltac:(lia)).
  destruct (Z.ltb_spec n b).
  - cbn [scan_digits]. rewrite Z.mod_small by lia. rewrite digit_char_val by lia.
    destruct (Z.ltb_spec n b); [|lia]. by replace (0 * b + n) with n by lia.
  - assert (0 < n / b) by (apply Z.div_str_pos; lia).
    assert (n / b <= n / 2) by (apply Z.div_le_compat_l; lia).
    assert (n / 2 < 2 ^ Z.of_nat f) by (apply Z.div_lt_upper_bound; lia).
    rewrite IH by lia. destruct f as [|f]; [simpl in *; lia|].
    cbn [scan_digits]. rewrite digit_char_val by lia.
    destruct (Z.ltb_spec (n mod b) b); [|lia].
    f_equal. rewrite (Z.div_mod n b) at 3 by lia. lia.
Qed.

Lemma print_base_bound n : 0 <= n → 0 <= n < 2 ^ Z.of_nat (S (Z.to_nat (Z.log2 n))).
Proof.
  intros Hn. split; [done|]. rewrite Nat2Z.inj_succ, Z2Nat.id by apply Z.log2_nonneg.
  destruct (decide (n = 0)) as [->|]; [done|]. apply Z.log2_spec. lia.
Qed.

Lemma scan_print_base b n rest seen :
  2 <= b <= 36 → 0 <= n →
  scan_digits b (print_go (S (Z.to_nat (Z.log2 n))) b n rest) 0 seen =
  scan_digits b rest n true.
Proof. intros Hb Hn. rewrite scan_print_go; auto using print_base_bound. Qed.

(** Every character printed is a digit. *)
Lemma print_go_digits fuel b n acc (P : ascii → Prop) :
  2 <= b <= 36 → 0 <= n →
  (∀ d, 0 <= d < 36 → P (digit_char d)) →
  Forall P (String.list_ascii_of_string acc) →
  Forall P (String.list_ascii_of_string (print_go fuel b n acc)).
Proof.
  intros Hb Hn HP. revert n acc Hn. induction fuel as [|f IH]; intros n acc Hn Hacc; [done|].
  cbn [print_go]. pose proof (Z.mod_pos_bound n b ltac:(lia)).
  assert (Forall P (String.list_ascii_of_string (String (digit_char (n mod b)) acc)))
    by (constructor; [apply HP; lia|done]).
  destruct (Z.ltb_spec n b); [done|]. apply IH; [apply Z.div_pos; lia|done].
Qed.

Lemma print_go_nonempty fuel b n acc : fuel ≠ O → print_go fuel b n acc ≠ "".
Proof.
  revert n acc. induction fuel as [|f IH]; intros n acc Hf; [done|]. cbn [print_go].
  destruct (Z.ltb_spec n b); [done|]. destruct f; [done|]. by apply IH.
Qed.

Lemma Forall_no_char c s :
  Forall (λ a, a ≠ c) (String.list_ascii_of_string s) → no_char c s.
Proof.
  induction s as [|a s IH]; simpl; [done|]. intros [? ?]%Forall_cons.
  apply no_char_cons. auto.
Qed.

Lemma print_base_no_char b n c :
  2 <= b <= 36 → 0 <= n → (∀ d, 0 <= d < 36 → digit_char d ≠ c) →
  no_char c (print_base b n).
Proof. intros. apply Forall_no_char, print_go_digits; auto. Qed.

Lemma print_base_no_space n : 0 <= n → no_char " " (print_base 10 n).
Proof. intros. apply print_base_no_char; [lia|done|]. apply digit_char_plain. Qed.

Lemma print_base_no_nl n : 0 <= n → no_char ch_nl (print_base 10 n).
Proof. intros. apply print_base_no_char; [lia|done|]. apply digit_char_plain. Qed.

Lemma print_base_head b n :
  2 <= b <= 36 → 0 <= n →
  ∃ d s, 0 <= d < 36 ∧ print_base b n = String (digit_char d) s.
Proof.
  intros Hb Hn.
  assert (Forall (λ a, ∃ d, 0 <= d < 36 ∧ a = digit_char d)
            (String.list_ascii_of_string (print_base b n))) as H.
  { apply print_go_digits; [done|done|eauto|constructor]. }
  destruct (print_base b n) as [|a s] eqn:E.
  { by apply print_go_nonempty in E. }
  simpl in H. apply Forall_cons in H as [(d & ? & ->) _]. eauto.
Qed.

(** [std::stoull]/[std::stoi] read back what [std::to_string] wrote. *)
Lemma strto_to_string z : strto (to_string z) = Some z.
Proof.
  unfold strto, to_string. destruct (Z.ltb_spec z 0).
  - change (scan_sign _) with (true, print_base 10 (- z)).
    unfold print_base. rewrite scan_print_base by lia. cbn. f_equal. lia.
  - destruct (print_base_head 10 z ltac:(lia) ltac:(lia)) as (d & s & Hd & Heq).
    destruct (digit_char_plain d Hd) as (Hsp & Hm & Hp & _).
    assert (trim_front isspace (print_base 10 z) = print_base 10 z) as ->.
    { rewrite Heq. simpl. by rewrite Hsp. }
    assert (scan_sign (print_base 10 z) = (false, print_base 10 z)) as ->.
    { rewrite Heq. unfold scan_sign. clear -Hm Hp.
      destruct (digit_char d) as [[] [] [] [] [] [] [] []]; done. }
    unfold print_base. rewrite scan_print_base by lia. done.
Qed.

Lemma stoull_to_string n : is_u64 n → stoull (to_string n) = Ret n.
Proof.
  intros Hn. unfold stoull. rewrite strto_to_string.
  rewrite bool_decide_eq_true_2 by (unfold is_u64 in *; lia).
  by rewrite to_u64_id.
Qed.

Lemma stoi_to_string n : is_i32 n → stoi (to_string n) = Ret n.
Proof.
  intros Hn. unfold stoi. rewrite strto_to_string.
  by rewrite bool_decide_eq_true_2 by (unfold is_i32 in *; lia).
Qed.

Lemma to_string_inj z1 z2 : to_string z1 = to_string z2 → z1 = z2.
Proof. intros H. apply (f_equal strto) in H. rewrite !strto_to_string in H. congruence. Qed.

Lemma to_string_nonempty z : to_string z ≠ "".
Proof.
  unfold to_string. destruct (z <? 0); [done|]. by apply print_go_nonempty.
Qed.

Lemma stoull_range s n : stoull s = Ret n → is_u64 n.
Proof. unfold stoull. destruct_ifs; intros; simplify_eq. apply to_u64_range. Qed.

(** ** Lines *)

Lemma getlines_line d l rest :
  no_char d l → getlines d (l +:+ String d rest) = l :: getlines d rest.
Proof.
  induction l as [|a l IH]; simpl; intros Hl.
  - by destruct (ascii_dec d d).
  - apply no_char_cons in Hl as [Ha Hl]. destruct (ascii_dec a d); [done|].
    by rewrite IH.
Qed.

Lemma getlines_nil d s : getlines d s = [] → s = "".
Proof. destruct s; simpl; [done|]. destruct_ifs; done. Qed.

(** A text written line by line is read back line by line. *)
Definition unlines (d : ascii) (ls : list string) : string :=
  foldr (λ l acc, l +:+ String d acc) "" ls.

Lemma getlines_unlines d ls :
  Forall (no_char d) ls → getlines d (unlines d ls) = ls.
Proof.
  induction 1 as [|l ls Hl _ IH]; [done|]. cbn [unlines foldr].
  rewrite getlines_line by done. by f_equal.
Qed.

Lemma getlines_no_char d s : Forall (no_char d) (getlines d s).
Proof.
  induction s as [|a s IH]; simpl; [done|]. destruct (ascii_dec a d) as [|Ha].
  - by constructor.
  - destruct (getlines d s) as [|l r].
    + constructor; [|done]. by apply no_char_cons.
    + apply Forall_cons in IH as [? ?]. constructor; [|done]. by apply no_char_cons.
Qed.

#[export] Hint Resolve stoull_to_string stoi_to_string to_string_nonempty : drop.
#[export] Hint Resolve print_base_no_space print_base_no_nl getlines_no_char : drop.

(** ** Reading by pieces *)

Lemma str_drop_length n s : String.length (str_drop n s) = (String.length s - n)%nat.
Proof. revert n. induction s as [|a s IH]; intros [|n]; simpl; auto. Qed.

Lemma c_str_id s : no_char "000"%char s → c_str s = s.
Proof.
  induction s as [|a s IH]; [done|]. intros [Ha Hs]%no_char_cons. cbn [c_str].
  destruct (ascii_dec a "000"); [done|]. by rewrite IH.
Qed.

(** What [fgets] reads and what it leaves make up the input, and with room for a
    character it reads at least one. *)
Lemma fgets_go_split room s : (fgets_go room s).1 +:+ (fgets_go room s).2 = s.
Proof.
  revert s. induction room as [|r IH]; intros [|a s]; try done. cbn [fgets_go].
  destruct (ascii_dec a ch_nl); [done|]. specialize (IH s).
  destruct (fgets_go r s) as [l rest]. cbn [fst snd] in *. by rewrite str_app_cons, IH.
Qed.

Lemma fgets_split n s l rest :
  (1 < n)%nat → fgets n s = Some (l, rest) → s = l +:+ rest ∧ (String.length rest < String.length s)%nat.
Proof.
  destruct s as [|a s]; [done|]. unfold fgets. destruct n as [|[|n]]; [lia|lia|]. intros _.
  intros [= Hf]. pose proof (fgets_go_split (S n) (String a s)) as Hs. cbn [fgets_go] in Hs.
  destruct (ascii_dec a ch_nl); [|destruct (fgets_go n s)]; simplify_eq; simpl fst in Hs; simpl snd in Hs;
    (split; [done|]); rewrite <-Hs, str_length_app; simpl; lia.
Qed.
