(* ===== verification/OrdMap.v ===== *)
(** [std::map]: association lists sorted by [operator<], with iteration in key
    order, [operator[]], [find], [erase] and the [upper_bound]/[--it] idiom.

    [StrictOrd] is what [std::map] asks of [operator<]; the keys the program
    uses (integers, strings, pairs, the eBPF stack key) are instances. *)
From stdpp Require Import base strings list.
From Stdlib Require Import ZArith Lia Ascii.
From S2P Require Import Prelude CppString.

Class StrictOrd (K : Type) := {
  ltb : K → K → bool;
  ltb_irrefl a : ltb a a = false;
  ltb_trans a b c : ltb a b = true → ltb b c = true → ltb a c = true;
  ltb_total a b : ltb a b = false → ltb b a = false → a = b;
}.

(** * Instances *)

#[global] Instance Z_ord : StrictOrd Z.
Proof. refine {| ltb := Z.ltb |}; intros; lia. Defined.

(** Lexicographic comparison of bytes, as [std::string::compare]. *)
Fixpoint str_ltb (s t : string) : bool :=
  match s, t with
  | _, "" => false
  | "", String _ _ => true
  | String a s', String b t' =>
      if (N_of_ascii a <? N_of_ascii b)%N then true
      else if (N_of_ascii b <? N_of_ascii a)%N then false
      else str_ltb s' t'
  end%string.

Lemma N_of_ascii_inj a b : N_of_ascii a = N_of_ascii b → a = b.
Proof. intros H. rewrite <-(ascii_N_embedding a), <-(ascii_N_embedding b). congruence. Qed.

Lemma str_ltb_irrefl s : str_ltb s s = false.
Proof. induction s as [|a s IH]; simpl; [done|]. rewrite N.ltb_irrefl. done. Qed.

Lemma str_ltb_trans s t u : str_ltb s t = true → str_ltb t u = true → str_ltb s u = true.
Proof.
  revert t u. induction s as [|a s IH]; intros [|b t] [|c u]; simpl; try done.
  destruct (N.ltb_spec (N_of_ascii a) (N_of_ascii b)),
    (N.ltb_spec (N_of_ascii b) (N_of_ascii c)),
    (N.ltb_spec (N_of_ascii a) (N_of_ascii c)),
    (N.ltb_spec (N_of_ascii b) (N_of_ascii a)),
    (N.ltb_spec (N_of_ascii c) (N_of_ascii b)),
    (N.ltb_spec (N_of_ascii c) (N_of_ascii a)); try done; try lia; eauto.
Qed.

Lemma str_ltb_total s t : str_ltb s t = false → str_ltb t s = false → s = t.
Proof.
  revert t. induction s as [|a s IH]; intros [|b t]; simpl; try done.
  destruct (N.ltb_spec (N_of_ascii a) (N_of_ascii b)),
    (N.ltb_spec (N_of_ascii b) (N_of_ascii a)); try done.
  intros. f_equal; [apply N_of_ascii_inj; lia|auto].
Qed.

#[global] Instance string_ord : StrictOrd string.
Proof.
  refine {| ltb := str_ltb |};
    [apply str_ltb_irrefl|apply str_ltb_trans|apply str_ltb_total].
Defined.

(** [std::pair]'s [operator<]. *)
#[global] Instance pair_ord {A B} `{StrictOrd A, StrictOrd B} : StrictOrd (A * B).
Proof.
  refine {| ltb := λ p q, ltb p.1 q.1 || (negb (ltb q.1 p.1) && ltb p.2 q.2) |}.
  - intros [a b]. simpl. by rewrite !ltb_irrefl.
  - intros [a1 b1] [a2 b2] [a3 b3]. simpl.
    destruct (ltb a1 a2) eqn:E12; simpl.
    + intros _. destruct (ltb a2 a3) eqn:E23; simpl.
      { by rewrite (ltb_trans _ _ _ E12 E23). }
      destruct (ltb a3 a2) eqn:E32; simpl; [done|].
      by rewrite <-(ltb_total _ _ E23 E32), E12.
    + destruct (ltb a2 a1) eqn:E21; simpl; [done|].
      rewrite (ltb_total _ _ E12 E21). destruct (ltb a2 a3); simpl; [done|].
      destruct (ltb a3 a2); simpl; [done|]. apply ltb_trans.
  - intros [a1 b1] [a2 b2]. simpl. rewrite !orb_false_iff.
    intros [E12 H1] [E21 H2]. rewrite E12, E21 in *. simpl in *.
    by rewrite (ltb_total _ _ E12 E21), (ltb_total _ _ H1 H2).
Defined.

Lemma ltb_asym {K} `{StrictOrd K} (a b : K) : ltb a b = true → ltb b a = false.
Proof.
  intros Hab. destruct (ltb b a) eqn:Hba; [|done].
  pose proof (ltb_trans _ _ _ Hab Hba) as Haa. by rewrite ltb_irrefl in Haa.
Qed.

(** * Maps *)

Section omap.
Context {K V : Type} `{StrictOrd K}.
Implicit Types (m : list (K * V)) (k : K).

(** [m.find(k)] *)
Fixpoint om_get k m : option V :=
  match m with
  | [] => None
  | (k', v) :: m' =>
      if ltb k k' then None else if ltb k' k then om_get k m' else Some v
  end.

(** [m[k] = f(m[k])], where [f] sees [None] for a key that is not there yet. *)
Fixpoint om_upd k (f : option V → V) m : list (K * V) :=
  match m with
  | [] => [(k, f None)]
  | (k', v) :: m' =>
      if ltb k k' then (k, f None) :: m
      else if ltb k' k then (k', v) :: om_upd k f m'
      else (k', f (Some v)) :: m'
  end.

(** [m[k] = v] *)
Definition om_set k v m : list (K * V) := om_upd k (λ _, v) m.

(** [m.erase(k)] *)
Fixpoint om_erase k m : list (K * V) :=
  match m with
  | [] => []
  | (k', v) :: m' =>
      if ltb k k' then m else if ltb k' k then (k', v) :: om_erase k m' else m'
  end.

(** [it = m.upper_bound(k); if (it == m.begin()) none; --it; *it] *)
Fixpoint om_floor k m : option (K * V) :=
  match m with
  | [] => None
  | (k', v) :: m' =>
      if ltb k k' then None
      else match om_floor k m' with Some p => Some p | None => Some (k', v) end
  end.

(** The keys are strictly increasing. *)
Fixpoint om_wf m : Prop :=
  match m with
  | [] => True
  | (k, _) :: m' => Forall (λ p, ltb k p.1 = true) m' ∧ om_wf m'
  end.

Lemma om_get_upd_eq k f m : om_get k (om_upd k f m) = Some (f (om_get k m)).
Proof.
  induction m as [|[k' v] m IH]; simpl; [by rewrite ltb_irrefl|].
  destruct (ltb k k') eqn:E1; simpl; [by rewrite ltb_irrefl|].
  destruct (ltb k' k) eqn:E2; simpl; by rewrite E1, E2.
Qed.

Lemma om_get_upd_ne k j f m : k ≠ j → om_get j (om_upd k f m) = om_get j m.
Proof.
  intros Hne. induction m as [|[k' v] m IH]; simpl.
  - destruct (ltb j k) eqn:E1; [done|]. destruct (ltb k j) eqn:E2; [done|].
    by destruct Hne; apply ltb_total.
  - destruct (ltb k k') eqn:E1; simpl.
    + destruct (ltb j k) eqn:E2; [by rewrite (ltb_trans _ _ _ E2 E1)|].
      destruct (ltb k j) eqn:E3; [done|]. by destruct Hne; apply ltb_total.
    + destruct (ltb k' k) eqn:E2; simpl.
      * by rewrite IH.
      * rewrite (ltb_total _ _ E2 E1) in *.
        destruct (ltb j k) eqn:E3, (ltb k j) eqn:E4; try done.
        by destruct Hne; apply ltb_total.
Qed.

Lemma om_upd_keys k f m (P : K → Prop) :
  P k → Forall (λ p, P p.1) m → Forall (λ p, P p.1) (om_upd k f m).
Proof.
  intros Hk. induction 1 as [|[k' v] m Hk' Hm IH]; simpl; [by constructor|].
  destruct (ltb k k'); [repeat (constructor; simpl in *; auto)|].
  destruct (ltb k' k); repeat (constructor; simpl in *; auto).
Qed.

Lemma om_upd_wf k f m : om_wf m → om_wf (om_upd k f m).
Proof.
  induction m as [|[k' v] m IH]; simpl; [done|]. intros [Hall Hwf].
  destruct (ltb k k') eqn:E1; simpl.
  - split; [|done]. constructor; [done|]. eapply Forall_impl; [exact Hall|].
    intros [k'' v''] ?. by eapply ltb_trans.
  - destruct (ltb k' k) eqn:E2; simpl; (split; [|by auto]); [|done].
    by apply (om_upd_keys k f m (λ j, ltb k' j = true)).
Qed.

Lemma om_get_below k m : Forall (λ p, ltb k p.1 = true) m → om_get k m = None.
Proof. destruct 1 as [|[k' v] m E]; simpl in *; [done|]. by rewrite E. Qed.

(** A sorted map is determined by its lookups. *)
Lemma om_ext m1 m2 :
  om_wf m1 → om_wf m2 → (∀ k, om_get k m1 = om_get k m2) → m1 = m2.
Proof.
  revert m2. induction m1 as [|[k1 v1] m1 IH]; intros [|[k2 v2] m2] Hw1 Hw2 Heq;
    simpl in *; [done| | |].
  - specialize (Heq k2). by rewrite ltb_irrefl in Heq.
  - specialize (Heq k1). by rewrite ltb_irrefl in Heq.
  - destruct Hw1 as [Ha1 Hw1], Hw2 as [Ha2 Hw2].
    assert (k1 = k2) as ->.
    { pose proof (Heq k1) as H1. pose proof (Heq k2) as H2. rewrite ltb_irrefl in H1, H2.
      destruct (ltb k1 k2) eqn:E12; [done|]. destruct (ltb k2 k1) eqn:E21; [done|].
      by apply ltb_total. }
    pose proof (Heq k2) as Hv. rewrite ltb_irrefl in Hv. simplify_eq. f_equal.
    apply IH; [done..|]. intros k. specialize (Heq k).
    destruct (ltb k k2) eqn:E1.
    + rewrite !om_get_below; [done| |];
        (eapply Forall_impl; [eassumption|]; intros [] ?; simpl in *; by eapply ltb_trans).
    + destruct (ltb k2 k) eqn:E2; [done|].
      rewrite (ltb_total _ _ E1 E2). by rewrite !om_get_below.
Qed.

Lemma om_elem_of k v m : om_wf m → (k, v) ∈ m ↔ om_get k m = Some v.
Proof.
  induction m as [|[k' v'] m IH]; simpl; [by rewrite elem_of_nil|].
  intros [Hall Hwf]. rewrite elem_of_cons, IH by done. split.
  - intros [Heq|Hget]; [simplify_eq; by rewrite ltb_irrefl|].
    assert (ltb k' k = true) as E.
    { apply IH in Hget; [|done]. rewrite Forall_forall in Hall. apply (Hall _ Hget). }
    by rewrite E, (ltb_asym _ _ E).
  - destruct (ltb k k') eqn:E1; [done|]. destruct (ltb k' k) eqn:E2; [auto|].
    rewrite (ltb_total _ _ E1 E2). intros; simplify_eq. auto.
Qed.

Lemma om_floor_Some k m k' v :
  om_wf m → om_floor k m = Some (k', v) →
  om_get k' m = Some v ∧ ltb k k' = false ∧
  ∀ j w, om_get j m = Some w → ltb k' j = true → ltb k j = true.
Proof.
  induction m as [|[k0 v0] m IH]; simpl; [done|]. intros [Hall Hwf].
  destruct (ltb k k0) eqn:E0; [done|].
  destruct (om_floor k m) as [[k1 v1]|] eqn:Ef; intros; simplify_eq.
  - destruct (IH Hwf eq_refl) as (Hget & Hle & Hmax).
    assert (ltb k0 k' = true) as E1.
    { apply om_elem_of in Hget; [|done]. rewrite Forall_forall in Hall. apply (Hall _ Hget). }
    rewrite E1, (ltb_asym _ _ E1). split; [done|]. split; [done|]. intros j w Hj Hlt.
    destruct (ltb j k0) eqn:E2; [done|]. destruct (ltb k0 j) eqn:E3; [eauto|].
    by rewrite (ltb_total _ _ E2 E3), (ltb_asym _ _ E1) in Hlt.
  - rewrite ltb_irrefl. split; [done|]. split; [done|]. intros j w Hj Hlt.
    rewrite Hlt, (ltb_asym _ _ Hlt) in Hj.
    destruct m as [|[k1 v1] m]; [done|]. simpl in *.
    destruct (ltb k k1) eqn:E1; [|by destruct (om_floor k m)].
    destruct (ltb j k1) eqn:E2; [done|]. destruct (ltb k1 j) eqn:E3.
    + by eapply ltb_trans.
    + by rewrite <-(ltb_total _ _ E3 E2).
Qed.

Lemma om_floor_None k m :
  om_wf m → om_floor k m = None → ∀ j w, om_get j m = Some w → ltb k j = true.
Proof.
  destruct m as [|[k0 v0] m]; simpl; [done|]. intros [Hall Hwf].
  destruct (ltb k k0) eqn:E0; [|by destruct (om_floor k m)]. intros _ j w.
  destruct (ltb j k0) eqn:E1; [done|]. destruct (ltb k0 j) eqn:E2; intros.
  - by eapply ltb_trans.
  - by rewrite <-(ltb_total _ _ E2 E1).
Qed.

Lemma om_erase_sub k m p : p ∈ om_erase k m → p ∈ m.
Proof.
  induction m as [|[k' v] m IH]; simpl; [done|].
  destruct (ltb k k'); [done|]. destruct (ltb k' k); rewrite ?elem_of_cons; naive_solver.
Qed.

Lemma om_erase_wf k m : om_wf m → om_wf (om_erase k m).
Proof.
  induction m as [|[k' v] m IH]; simpl; [done|]. intros [Hall Hwf].
  destruct (ltb k k'); [done|]. destruct (ltb k' k); simpl; [|done].
  split; [|auto]. apply Forall_forall. intros p Hp%om_erase_sub.
  by rewrite Forall_forall in Hall; apply Hall.
Qed.

Lemma om_get_erase_eq k m : om_wf m → om_get k (om_erase k m) = None.
Proof.
  induction m as [|[k' v] m IH]; simpl; [done|]. intros [Hall Hwf].
  destruct (ltb k k') eqn:E1; simpl; [by rewrite E1|].
  destruct (ltb k' k) eqn:E2; simpl.
  - rewrite E1, E2. auto.
  - rewrite (ltb_total _ _ E1 E2). by apply om_get_below.
Qed.

Lemma om_get_erase_ne k j m : om_wf m → k ≠ j → om_get j (om_erase k m) = om_get j m.
Proof.
  intros Hwf Hne. induction m as [|[k' v] m IH]; simpl; [done|]. destruct Hwf as [Hall Hwf].
  destruct (ltb k k') eqn:E1; simpl; [done|].
  destruct (ltb k' k) eqn:E2; simpl; [by rewrite IH|].
  rewrite (ltb_total _ _ E2 E1) in *.
  destruct (ltb j k) eqn:E3.
  - apply om_get_below. eapply Forall_impl; [exact Hall|].
    intros [] ?; simpl in *. by eapply ltb_trans.
  - destruct (ltb k j) eqn:E4; [done|]. by destruct Hne; apply ltb_total.
Qed.

(** Two updates at different keys commute. *)
Lemma om_upd_comm k1 k2 f g m :
  om_wf m → k1 ≠ k2 →
  om_upd k1 f (om_upd k2 g m) = om_upd k2 g (om_upd k1 f m).
Proof.
  intros Hwf Hne. apply om_ext; [by repeat apply om_upd_wf..|]. intros k.
  assert (k = k1 ∨ k ≠ k1 ∧ k = k2 ∨ k ≠ k1 ∧ k ≠ k2) as [->|[[? ->]|[? ?]]].
  { destruct (ltb k k1) eqn:A1, (ltb k1 k) eqn:A2, (ltb k k2) eqn:B1, (ltb k2 k) eqn:B2;
    repeat match goal with
    | H1 : ltb ?a ?b = false, H2 : ltb ?b ?a = false |- _ =>
        pose proof (ltb_total _ _ H1 H2); clear H1; subst
    end; rewrite ?ltb_irrefl in *; try discriminate; auto;
    try (right; left; split; [|done]; intros ->; by rewrite ltb_irrefl in * );
    right; right; split; intros ->; by rewrite ltb_irrefl in *. }
  - by rewrite om_get_upd_eq, !om_get_upd_ne, om_get_upd_eq by done.
  - by rewrite om_get_upd_ne, !om_get_upd_eq, om_get_upd_ne by done.
  - by rewrite !om_get_upd_ne by done.
Qed.
End omap.

#[export] Hint Resolve om_upd_wf om_erase_wf : drop.
#[export] Hint Resolve I : drop.
