(* ===== verification/Proto.v ===== *)
(** The protobuf messages of drop/common/proto (proto3: a missing scalar or
    string is zero or empty, a missing sub-message is [None] where the code asks
    for its presence with [has_]).  Field ranges are those of the proto types:
    [hz], [task_type], [profiler_type], [timeout_sec] are uint32, [duration] is
    uint64, [pid] is int32. *)
From stdpp Require Import base strings list.
From Stdlib Require Import ZArith SpecFloat.
From S2P Require Import Prelude.

(** [double]: binary64 *)
Definition f64 : Type := spec_float.

(** common.proto *)
Record PidStats := mkPidStats {
  ps_name : string;
  ps_pid : Z;
  ps_utime : Z;
  ps_stime : Z;
  ps_rss : Z;
  ps_cpu_percent : f64;
  ps_rss_mb : Z;
  ps_read_kbs : Z;
  ps_write_kbs : Z;
}.

Record File := mkFile {
  f_name : string;
  f_content : string;
}.

Record CosConfig := mkCosConfig {
  region : string;
  bucket : string;
  tmp_ak : string;
  tmp_sk : string;
  tmp_token : string;
  expire_ts : Z;
}.

Record RecordArgv := mkRecordArgv {
  hz : Z;
  duration : Z;
  pid : Z;
  callgraph : string;
  subprocess : bool;
  event : string;
}.

(** hotmethod.proto *)
Record Target := mkTarget {
  tg_sample_argv : RecordArgv;
  tg_profiler_type : Z;
  tg_task_id : string;
}.

Record TaskDesc := mkTaskDesc {
  task_id : string;
  task_type : Z;
  profiler_type : Z;
  sample_argv : RecordArgv;
  container_name : string;
  container_type : Z;
  timeout_sec : Z;
  cos_config : CosConfig;
  script_content : string;
}.

Record TaskResult := mkTaskResult {
  r_task_id : string;
  r_error_message : string;
  r_file : File;
  r_cos_key : string;
  r_self_pstats : list PidStats;
  r_children_pstats : list PidStats;
}.

(** healthcheck.proto *)
Inductive ServingStatus := UNKNOWN | SERVING | NOT_SERVING.

Record HealthCheckRequest := mkHealthCheckRequest {
  hc_host_name : string;
  hc_ip_addr : string;
  hc_uid : string;
  hc_agent_version : string;
  hc_self_pstats : PidStats;
  hc_children_pstats : PidStats;
}.

Record HealthCheckResponse := mkHealthCheckResponse {
  hc_status : ServingStatus;
  hc_pending : bool;
  hc_task_desc : option TaskDesc;
}.

(** control.proto *)
Record CreateTaskRequest := mkCreateTaskRequest {
  ct_target_ip : string;
  ct_service : string;
  ct_task_desc : TaskDesc;
}.

Record CreateTaskResponse := mkCreateTaskResponse {
  ct_success : bool;
  ct_message : string;
}.

Record FetchDataRequest := mkFetchDataRequest { fdr_task_id : string }.

Record FetchDataResponse := mkFetchDataResponse {
  fd_success : bool;
  fd_cos_key : string;
  fd_error_message : string;
}.

Record StatAgentRequest := mkStatAgentRequest { sa_target_ip : string }.

Record AgentInfo := mkAgentInfo {
  ai_host_name : string;
  ai_ip_addr : string;
  ai_online : bool;
  ai_uid : string;
  ai_agent_version : string;
}.

Record StatAgentResponse := mkStatAgentResponse { sa_agents : list AgentInfo }.

(** init.proto *)
Record RegisterAgentRequest := mkRegisterAgentRequest {
  ra_host_name : string;
  ra_ip_addr : string;
  ra_uid : string;
  ra_agent_version : string;
}.

Record RegisterAgentResponse := mkRegisterAgentResponse {
  ra_success : bool;
  ra_message : string;
  ra_assigned_uid : string;
}.

Record FetchConfigRequest := mkFetchConfigRequest { fcr_uid : string }.

Record FetchConfigResponse := mkFetchConfigResponse {
  fc_cos_config : CosConfig;
  fc_log_level : string;
}.

(** The default-constructed messages. *)
Definition default_pidstats : PidStats := mkPidStats "" 0 0 0 0 (S754_zero false) 0 0 0.
Definition default_file : File := mkFile "" "".
Definition default_cos : CosConfig := mkCosConfig "" "" "" "" "" 0.
Definition default_argv : RecordArgv := mkRecordArgv 0 0 0 "" false "".
Definition default_task : TaskDesc :=
  mkTaskDesc "" 0 0 default_argv "" 0 0 default_cos "".

(** A result with only these fields set. *)
Definition task_result (tid error_message cos_key : string) : TaskResult :=
  mkTaskResult tid error_message default_file cos_key [] [].

#[global] Instance CosConfig_eq_dec : EqDecision CosConfig.
Proof. solve_decision. Defined.
#[global] Instance RecordArgv_eq_dec : EqDecision RecordArgv.
Proof. solve_decision. Defined.
#[global] Instance TaskDesc_eq_dec : EqDecision TaskDesc.
Proof. solve_decision. Defined.

(** The proto ranges of the integers of a task. *)
Definition task_wf (t : TaskDesc) : Prop :=
  is_u32 (task_type t) ∧ is_u32 (profiler_type t) ∧ is_u32 (timeout_sec t) ∧
  is_u32 (hz (sample_argv t)) ∧ is_u64 (duration (sample_argv t)) ∧
  is_i32 (pid (sample_argv t)).
