(* ===== verification/TaskQueue.v ===== *)
(** task_queue.h: the in-memory per-agent task queue and the heartbeat tracker
    of drop_server.

    Both classes guard every method by one mutex, so the concurrent executions
    of their methods are the interleavings of atomic operations: a run is a list
    of operations, in the order in which the mutex was taken. *)
From stdpp Require Import base gmap strings list.
From Stdlib Require Import ZArith Lia.
From S2P Require Import Prelude Proto.

(** * TaskQueue *)

Section TaskQueue.
Abbreviation queues := (gmap string (list TaskDesc)).

Definition Push (target_ip : string) (desc : TaskDesc) (q : queues) : queues :=
  <[target_ip := default [] (q !! target_ip) ++ [desc]]> q.

Definition Pop (target_ip : string) (q : queues) : option TaskDesc * queues :=
  match q !! target_ip with
  | None | Some [] => (None, q)
  | Some (d :: rest) => (Some d, <[target_ip := rest]> q)
  end.

Definition Size (target_ip : string) (q : queues) : nat :=
  match q !! target_ip with None => O | Some l => length l end.

(** The queue of one agent; an agent with no entry has an empty queue. *)
Definition queue_of (ip : string) (q : queues) : list TaskDesc := default [] (q !! ip).

(** ** Operation sequences *)

Inductive queue_op := OpPush (ip : string) (d : TaskDesc) | OpPop (ip : string).

(** Runs the operations in order; the result lists what each [Pop] returned. *)
Fixpoint run_queue (ops : list queue_op) (q : queues)
    : list (string * option TaskDesc) * queues :=
  match ops with
  | [] => ([], q)
  | OpPush ip d :: ops' => run_queue ops' (Push ip d q)
  | OpPop ip :: ops' =>
      let '(r, q') := Pop ip q in
      let '(outs, q'') := run_queue ops' q' in ((ip, r) :: outs, q'')
  end.

(** What the operations pushed for [ip], in order. *)
Definition pushed_for (ip : string) (ops : list queue_op) : list TaskDesc :=
  omap (λ op, match op with
              | OpPush ip' d => if decide (ip' = ip) then Some d else None
              | OpPop _ => None
              end) ops.

(** What the [Pop]s handed out for [ip], in order. *)
Definition popped_for (ip : string) (outs : list (string * option TaskDesc)) : list TaskDesc :=
  omap (λ o, if decide (o.1 = ip) then o.2 else None) outs.

(** ** Lemmas *)

Lemma queue_of_Push ip ip' d q :
  queue_of ip (Push ip' d q) = queue_of ip q ++ (if decide (ip' = ip) then [d] else []).
Proof.
  unfold queue_of, Push. destruct (decide (ip' = ip)) as [->|].
  - by rewrite lookup_insert_eq.
  - by rewrite lookup_insert_ne, app_nil_r.
Qed.

(** [Pop] removes exactly the element it returns, from the front. *)
Lemma queue_of_Pop ip ip' q r q' :
  Pop ip' q = (r, q') →
  queue_of ip q = (if decide (ip' = ip) then option_list r else []) ++ queue_of ip q'.
Proof.
  unfold Pop, queue_of. intros H.
  destruct (q !! ip') as [[|d rest]|] eqn:E; simplify_eq; destruct (decide (ip' = ip)) as [->|];
    simplify_map_eq; try done.
Qed.

Lemma Pop_None ip q q' : Pop ip q = (None, q') → queue_of ip q = [] ∧ q' = q.
Proof. unfold Pop, queue_of. destruct (q !! ip) as [[|??]|]; naive_solver. Qed.

Lemma Pop_Some ip q d q' : Pop ip q = (Some d, q') → queue_of ip q = d :: queue_of ip q'.
Proof.
  intros H. rewrite (queue_of_Pop ip ip _ _ _ H). by rewrite decide_True by done.
Qed.

Lemma Size_queue_of ip q : Size ip q = length (queue_of ip q).
Proof. unfold Size, queue_of. by destruct (q !! ip). Qed.

Lemma run_queue_fifo ops q outs q' ip :
  run_queue ops q = (outs, q') →
  queue_of ip q ++ pushed_for ip ops = popped_for ip outs ++ queue_of ip q'.
Proof.
  revert q outs. induction ops as [|[ip' d|ip'] ops IH]; intros q outs H; simpl in *.
  - simplify_eq. by rewrite app_nil_r.
  - rewrite <-(IH _ _ H), queue_of_Push, <-(assoc_L (++)). f_equal.
    by destruct (decide (ip' = ip)).
  - destruct (Pop ip' q) as [r q1] eqn:EP.
    destruct (run_queue ops q1) as [outs1 q2] eqn:ER. simplify_eq.
    rewrite (queue_of_Pop ip _ _ _ _ EP), <-(assoc_L (++)), (IH _ _ ER), (assoc_L (++)).
    f_equal. simpl. destruct (decide (ip' = ip)) as [->|]; [|done]. by destruct r.
Qed.
End TaskQueue.

(** * HeartbeatTracker

    [std::chrono::steady_clock] ticks in nanoseconds; [duration_cast] to
    seconds truncates towards zero. *)

Section HeartbeatTracker.
Abbreviation last_hb := (gmap string Z).

Definition ns_per_sec : Z := 1000000000.

Definition Update (ip : string) (now : Z) (m : last_hb) : last_hb := <[ip := now]> m.

Definition online_at (now ts timeout_sec : Z) : bool :=
  Z.quot (now - ts) ns_per_sec <? timeout_sec.

Definition IsOnline (ip : string) (timeout_sec : Z) (now : Z) (m : last_hb) : bool :=
  match m !! ip with
  | None => false
  | Some ts => online_at now ts timeout_sec
  end.

(** The loop reads the clock once per entry: [clock i] is the [i]-th reading.
    The order of an [unordered_map] is that of [map_to_list]. *)
Definition AllAgents (timeout_sec : Z) (clock : nat → Z) (m : last_hb) : list (string * bool) :=
  imap (λ i e, (e.1, online_at (clock i) e.2 timeout_sec)) (map_to_list m).

(** A run of the tracker: heartbeats with the clock readings they took. *)
Definition run_updates (ups : list (string * Z)) (m : last_hb) : last_hb :=
  foldl (λ m u, Update u.1 u.2 m) m ups.

(** The reading of the last heartbeat of [ip]. *)
Definition last_beat (ip : string) (ups : list (string * Z)) : option Z :=
  last (omap (λ u, if decide (u.1 = ip) then Some u.2 else None) ups).

(** ** Lemmas *)

Lemma online_at_iff now ts timeout_sec :
  ts <= now → 0 < timeout_sec →
  online_at now ts timeout_sec = true ↔ now - ts < timeout_sec * ns_per_sec.
Proof.
  intros Hle Ht. unfold online_at, ns_per_sec. rewrite Z.ltb_lt.
  rewrite Z.quot_div_nonneg by lia.
  pose proof (Z.div_mod (now - ts) 1000000000 ltac:(lia)).
  pose proof (Z.mod_pos_bound (now - ts) 1000000000 ltac:(lia)). nia.
Qed.

Lemma run_updates_lookup ups m ip :
  run_updates ups m !! ip =
  match last_beat ip ups with Some t => Some t | None => m !! ip end.
Proof.
  unfold run_updates, last_beat. revert m.
  induction ups as [|[ip' t] ups IH] using rev_ind; intros m; [done|].
  rewrite foldl_app, omap_app. simpl. unfold Update.
  destruct (decide (ip' = ip)) as [->|]; simpl.
  - rewrite lookup_insert_eq, last_snoc. done.
  - by rewrite lookup_insert_ne, app_nil_r, IH by done.
Qed.
End HeartbeatTracker.

(** * Claims *)

(** For every interleaving of Push and Pop on an initially empty queue and
    every agent, the tasks pushed for the agent are exactly the tasks popped for
    it followed by the tasks still queued, in the same order: nothing is lost,
    duplicated, reordered or handed to another agent. *)
Theorem task_queue_fifo ops outs q' ip :
  run_queue ops ∅ = (outs, q') →
  pushed_for ip ops = popped_for ip outs ++ queue_of ip q'.
Proof. intros H. apply (run_queue_fifo _ _ _ _ ip) in H. done. Qed.

Lemma task_queue_fifo_witness :
  let t1 := mkTaskDesc "t1" 0 0 default_argv "" 0 0 default_cos "" in
  let t2 := mkTaskDesc "t2" 0 0 default_argv "" 0 0 default_cos "" in
  let ops := [OpPush "a" t1; OpPop "b"; OpPush "a" t2; OpPop "a"] in
  pushed_for "a" ops = [t1] ++ [t2].
Proof.
  intros t1 t2 ops.
  etransitivity.
  - apply (task_queue_fifo ops [("b", None); ("a", Some t1)] {["a" := [t2]]} "a").
    vm_compute. reflexivity.
  - vm_compute. reflexivity.
Defined.

(** After any sequence of heartbeats, an agent is online at time [now] with
    a positive timeout exactly when its last heartbeat lies less than the
    timeout back (the truncating conversion to seconds loses nothing); an agent
    that never sent one is offline. *)
Theorem heartbeat_online_iff ups ip timeout_sec now :
  0 < timeout_sec →
  Forall (λ u, u.2 <= now) ups →
  IsOnline ip timeout_sec now (run_updates ups ∅) = true ↔
  ∃ ts, last_beat ip ups = Some ts ∧ now - ts < timeout_sec * ns_per_sec.
Proof.
  intros Ht Hups. unfold IsOnline. rewrite run_updates_lookup, lookup_empty.
  destruct (last_beat ip ups) as [ts|] eqn:E; [|naive_solver].
  assert (ts <= now) as Hle.
  { unfold last_beat in E. apply last_Some in E as [l E].
    assert (ts ∈ l ++ [ts]) as Hts by (apply elem_of_app; right; by left).
    rewrite <-E in Hts. apply list_elem_of_omap in Hts as ([ip' ts'] & Hin & Heq).
    rewrite Forall_forall in Hups. specialize (Hups _ Hin).
    simpl in *. destruct (decide _); naive_solver. }
  rewrite (online_at_iff now ts timeout_sec Hle Ht). naive_solver.
Qed.

Lemma heartbeat_online_iff_witness :
  IsOnline "a" 30 (35 * ns_per_sec) (run_updates [("a", 1); ("a", 6 * ns_per_sec)] ∅) = true.
Proof.
  apply (heartbeat_online_iff [("a", 1); ("a", 6 * ns_per_sec)] "a" 30 (35 * ns_per_sec)).
  - lia.
  - repeat constructor; unfold ns_per_sec; simpl; lia.
  - exists (6 * ns_per_sec). split; [reflexivity|]. unfold ns_per_sec. lia.
Defined.
