(* ===== verification/Json.v ===== *)
(** JSON values, as PostgreSQL's jsonb columns and Go's encoding/json use them: the
    columns [request_params], [schedule_params] and [sub_t_ids], and the decoding of an
    object into the fields of a struct. *)
From stdpp Require Import base strings list sorting.
From Stdlib Require Import ZArith Ascii.
From S2P Require Import Prelude CppString OrdMap.

(** Numbers are integers: the structs of the API server have no other. *)
Inductive json : Type :=
  | JNull
  | JBool (b : bool)
  | JNum (z : Z)
  | JStr (s : string)
  | JArr (l : list json)
  | JObj (fields : list (string * json)).

(** * jsonb

    An object of a jsonb column keeps of equal keys the last, and its keys in order
    of their length, then of their bytes. *)

Definition key_le (a b : string * json) : Prop :=
  (String.length a.1 < String.length b.1)%nat ∨
  String.length a.1 = String.length b.1 ∧ ltb b.1 a.1 = false.
#[global] Instance key_le_dec : RelDecision key_le.
Proof. intros a b. unfold key_le. apply _. Defined.

Fixpoint last_keys (fields : list (string * json)) : list (string * json) :=
  match fields with
  | [] => []
  | (k, v) :: fields' =>
      if decide (k ∈ map fst fields') then last_keys fields' else (k, v) :: last_keys fields'
  end.

Definition jsonb (j : json) : json :=
  match j with JObj fields => JObj (merge_sort key_le (last_keys fields)) | _ => j end.

(** * Decoding an object into a struct

    [json.Unmarshal]: the entries in order; an entry goes to the field whose name it
    has, or has up to the case of letters; an entry of another type than the field
    leaves the field as it is. *)

Definition lower_char (c : ascii) : ascii :=
  let n := nat_of_ascii c in
  if decide ((65 <= n)%nat ∧ (n <= 90)%nat) then ascii_of_nat (n + 32) else c.
Fixpoint lower (s : string) : string :=
  match s with "" => "" | String c s' => String (lower_char c) (lower s') end.

(** The field an entry goes to, of the field names [names]. *)
Definition field_of (names : list string) (key : string) : option string :=
  if decide (key ∈ names) then Some key
  else head (filter (λ n, lower n = lower key) names).

Section unmarshal.
Context {A : Type} (names : list string) (set_field : string → json → A → A).

Definition unmarshal_fields (fields : list (string * json)) (a : A) : A :=
  foldl (λ a e, match field_of names e.1 with Some n => set_field n e.2 a | None => a end) a fields.

Definition unmarshal (j : json) (a : A) : A :=
  match j with JObj fields => unmarshal_fields fields a | _ => a end.
End unmarshal.

(** A Go [int] field and a [string] field of a struct. *)
Definition as_int (j : json) (old : Z) : Z :=
  match j with JNum z => if bool_decide (- 2 ^ 63 <= z < 2 ^ 63) then z else old | _ => old end.
Definition as_str (j : json) (old : string) : string :=
  match j with JStr s => s | _ => old end.

(** A [[]string]: an element of another type leaves the empty string. *)
Definition as_strings (j : json) : list string :=
  match j with JArr l => map (λ e, as_str e "") l | _ => [] end.

Definition marshal_strings (l : list string) : json := JArr (map JStr l).

Lemma as_strings_marshal l : as_strings (marshal_strings l) = l.
Proof. simpl. rewrite map_map. simpl. apply map_id. Qed.
