(* ===== verification/PGStore.v ===== *)
(** task_queue.cpp: the task status machine and PGStore, the PostgreSQL side of
    drop_server.

    The tables are the columns the statements touch.  A libpq connection is a
    [session]: the committed database and the state of its transaction.  What
    the server answers to a statement (success or failure, and its [NOW()]) is
    the oracle [pg_env]; the effect of a successful statement is written out.
    Times are microseconds. *)
From stdpp Require Import base gmap strings list sorting.
From Stdlib Require Import ZArith Lia.
From S2P Require Import Prelude CppString Json.

(** * The status machine *)

Definition kPending : Z := 0.
Definition kRunning : Z := 1.
Definition kUploading : Z := 2.
Definition kDone : Z := 3.
Definition kFailed : Z := 4.

Definition IsTransitionAllowed (old_status new_status : Z) : bool :=
  if old_status =? new_status then false
  else if (old_status =? kPending) && ((new_status =? kRunning) || (new_status =? kFailed)) then true
  else if (old_status =? kRunning) && ((new_status =? kUploading) || (new_status =? kFailed)) then true
  else if (old_status =? kUploading) && ((new_status =? kDone) || (new_status =? kFailed)) then true
  else if (old_status =? kFailed) && (new_status =? kPending) then true
  else false.

(** The diagram of docs/design.md, as a relation. *)
Inductive legal : Z → Z → Prop :=
  | legal_start : legal kPending kRunning
  | legal_abort : legal kPending kFailed
  | legal_upload : legal kRunning kUploading
  | legal_run_fail : legal kRunning kFailed
  | legal_done : legal kUploading kDone
  | legal_up_fail : legal kUploading kFailed
  | legal_retry : legal kFailed kPending.

Lemma IsTransitionAllowed_legal a b : IsTransitionAllowed a b = true ↔ legal a b.
Proof.
  split.
  - unfold IsTransitionAllowed, kPending, kRunning, kUploading, kDone, kFailed.
    repeat match goal with
    | |- context [Z.eqb ?x ?y] => destruct (Z.eqb_spec x y); subst; simpl
    end; intros; try discriminate; try lia; constructor.
  - by destruct 1.
Qed.

Lemma legal_ne a b : legal a b → a ≠ b.
Proof. by destruct 1. Qed.

Lemma legal_done_final b : ¬ legal kDone b.
Proof. by inversion 1. Qed.

Lemma legal_range a b : legal a b → 0 <= a <= 4 ∧ 0 <= b <= 4.
Proof. by destruct 1. Qed.

(** * Tables *)

Record agent_row := mkAgent {
  a_id : Z;
  a_hostname : string;
  a_ip_addr : string;
  a_online : bool;
  a_uid : string;
  a_version : string;
  a_last_hb : Z;
}.

(** The columns of [hotmethod_task] that only the API server and the analyzer use. *)
Record task_columns := mkColumns {
  c_name : string;
  c_type : Z;
  c_profiler_type : Z;
  c_target_ip : string;
  c_request_params : json;
  c_analysis_status : Z;
  c_uid : string;
  c_user_name : string;
  c_create_time : Z;
  c_master_task_tid : string;
  c_cos_key : string;
  c_deleted_at : option Z;
}.

Record task_row := mkTask {
  t_status : Z;
  t_status_info : string;
  t_begin_time : option Z;
  t_end_time : option Z;
  t_cols : task_columns;
}.

Record history_row := mkHistory {
  h_tid : string;
  h_old_status : Z;
  h_new_status : Z;
  h_reason : string;
  h_timestamp : Z;
}.

Record audit_row := mkAudit {
  l_agent_id : Z;
  l_event_type : string;
  l_reason : string;
  l_timestamp : Z;
}.

(** [hotmethod_task] has a unique index on [tid], [agent_info] on [ip_addr] and
    a serial primary key; the two log tables grow at the end. *)
Record database := mkDb {
  agent_info : list agent_row;
  agent_info_id_seq : Z;
  hotmethod_task : gmap string task_row;
  task_status_history : list history_row;
  agent_audit_log : list audit_row;
}.

Definition set_agents (f : list agent_row → list agent_row) (d : database) : database :=
  mkDb (f (agent_info d)) (agent_info_id_seq d) (hotmethod_task d)
    (task_status_history d) (agent_audit_log d).

Definition set_tasks (f : gmap string task_row → gmap string task_row) (d : database) : database :=
  mkDb (agent_info d) (agent_info_id_seq d) (f (hotmethod_task d))
    (task_status_history d) (agent_audit_log d).

Definition add_history (h : history_row) (d : database) : database :=
  mkDb (agent_info d) (agent_info_id_seq d) (hotmethod_task d)
    (task_status_history d ++ [h]) (agent_audit_log d).

Definition add_audit (a : audit_row) (d : database) : database :=
  mkDb (agent_info d) (agent_info_id_seq d) (hotmethod_task d)
    (task_status_history d) (agent_audit_log d ++ [a]).

(** * Sessions *)

(** The transaction state of a connection: none, one in progress with its
    uncommitted database, or one that a failed statement aborted. *)
Inductive txn_state := NoTxn | InTxn (work : database) | AbortedTxn.

Record session := mkSession {
  committed : database;
  txn : txn_state;
}.

(** What a statement sees. *)
Definition view (s : session) : database :=
  match txn s with InTxn w => w | _ => committed s end.

(** [PQexec(c, "BEGIN")]; inside a transaction it only warns. *)
Definition exec_begin (ok : bool) (s : session) : bool * session :=
  match ok, txn s with
  | true, NoTxn => (true, mkSession (committed s) (InTxn (committed s)))
  | true, InTxn _ => (true, s)
  | true, AbortedTxn => (false, s)
  | false, NoTxn => (false, s)
  | false, _ => (false, mkSession (committed s) AbortedTxn)
  end.

(** A data statement with effect [f]: applied to the transaction's database, or
    committed at once outside a transaction. *)
Definition exec_dml (ok : bool) (f : database → database) (s : session) : bool * session :=
  match ok, txn s with
  | true, NoTxn => (true, mkSession (f (committed s)) NoTxn)
  | true, InTxn w => (true, mkSession (committed s) (InTxn (f w)))
  | false, NoTxn => (false, s)
  | false, InTxn _ => (false, mkSession (committed s) AbortedTxn)
  | _, AbortedTxn => (false, s)
  end.

(** A query: its rows, or a failure. *)
Definition exec_query {A} (ok : bool) (q : database → A) (s : session) : option A * session :=
  match ok, txn s with
  | true, NoTxn => (Some (q (committed s)), s)
  | true, InTxn w => (Some (q w), s)
  | false, InTxn _ => (None, mkSession (committed s) AbortedTxn)
  | _, _ => (None, s)
  end.

(** [ROLLBACK], whose answer the code does not look at.  It fails only with the
    connection itself, and then PostgreSQL ends the transaction as it does here. *)
Definition exec_rollback (s : session) : session := mkSession (committed s) NoTxn.

(** [COMMIT] either succeeds or is reported as failed; after a reported failure
    the transaction may have been applied all the same ([applied], as when the
    connection is lost while the answer travels).  Committing an aborted
    transaction rolls it back and reports success. *)
Inductive commit_answer := CommitOk | CommitError (applied : bool).

Definition exec_commit (a : commit_answer) (s : session) : bool * session :=
  match txn s, a with
  | InTxn w, CommitOk => (true, mkSession w NoTxn)
  | InTxn w, CommitError true => (false, mkSession w NoTxn)
  | InTxn w, CommitError false => (false, mkSession (committed s) NoTxn)
  | _, CommitOk => (true, mkSession (committed s) NoTxn)
  | _, CommitError _ => (false, mkSession (committed s) NoTxn)
  end.

(** * UpdateTaskStatus *)

(** The answers of the server to the statements of one call. *)
Record update_env := mkUpdateEnv {
  u_begin : bool;
  u_select : bool;
  u_update : bool;
  u_insert : bool;
  u_commit : commit_answer;
  u_now : Z;
}.

(** [UPDATE hotmethod_task SET status, status_info, begin_time, end_time] *)
Definition update_row (new_status : Z) (reason : string) (now : Z) (r : task_row) : task_row :=
  mkTask new_status reason
    (if new_status =? kRunning then Some now else t_begin_time r)
    (if (new_status =? kDone) || (new_status =? kFailed) then Some now else t_end_time r)
    (t_cols r).

Definition UpdateTaskStatus (env : update_env) (tid : string) (new_status : Z)
    (reason : string) (s0 : session) : outcome session :=
  let '(ok, s1) := exec_begin (u_begin env) s0 in
  if negb ok then Ret s1 else
  let '(rows, s2) := exec_query (u_select env) (λ d, hotmethod_task d !! c_str tid) s1 in
  match rows with
  | None | Some None => Ret (exec_rollback s2)
  | Some (Some row) =>
      old_status ← stoi (to_string (t_status row));
      if negb (IsTransitionAllowed old_status new_status) then Ret (exec_rollback s2) else
      let '(ok, s3) := exec_dml (u_update env)
        (set_tasks (alter (update_row new_status (c_str reason) (u_now env)) (c_str tid))) s2 in
      if negb ok then Ret (exec_rollback s3) else
      let '(ok, s4) := exec_dml (u_insert env)
        (add_history (mkHistory (c_str tid) old_status new_status (c_str reason) (u_now env))) s3 in
      if negb ok then Ret (exec_rollback s4) else
      let '(_, s5) := exec_commit (u_commit env) s4 in
      Ret s5
  end.

(** ** The call as a sequence of statements

    The same function as a state machine that issues one statement per step,
    for executions in which several threads use the connection. *)

Inductive upd_pc :=
  | PcBegin
  | PcSelect
  | PcUpdate (old_status : Z)
  | PcInsert (old_status : Z)
  | PcCommit
  | PcRollback
  | PcDone (logged_success : bool)
  | PcThrown (e : cpp_exn).

Definition upd_step (env : update_env) (tid : string) (new_status : Z) (reason : string)
    (pc : upd_pc) (s : session) : upd_pc * session :=
  match pc with
  | PcBegin =>
      let '(ok, s') := exec_begin (u_begin env) s in
      (if ok then PcSelect else PcDone false, s')
  | PcSelect =>
      let '(rows, s') := exec_query (u_select env) (λ d, hotmethod_task d !! c_str tid) s in
      match rows with
      | None | Some None => (PcRollback, s')
      | Some (Some row) =>
          match stoi (to_string (t_status row)) with
          | Ret old_status =>
              (if IsTransitionAllowed old_status new_status then PcUpdate old_status
               else PcRollback, s')
          | Throw e => (PcThrown e, s')
          | UB _ => (PcThrown invalid_argument, s')
          end
      end
  | PcUpdate old_status =>
      let '(ok, s') := exec_dml (u_update env)
        (set_tasks (alter (update_row new_status (c_str reason) (u_now env)) (c_str tid))) s in
      (if ok then PcInsert old_status else PcRollback, s')
  | PcInsert old_status =>
      let '(ok, s') := exec_dml (u_insert env)
        (add_history (mkHistory (c_str tid) old_status new_status (c_str reason) (u_now env))) s in
      (if ok then PcCommit else PcRollback, s')
  | PcCommit =>
      let '(_, s') := exec_commit (u_commit env) s in (PcDone true, s')
  | PcRollback => (PcDone false, exec_rollback s)
  | PcDone _ | PcThrown _ => (pc, s)
  end.

Fixpoint upd_run (n : nat) (env : update_env) (tid : string) (new_status : Z) (reason : string)
    (pc : upd_pc) (s : session) : upd_pc * session :=
  match n with
  | O => (pc, s)
  | S n' =>
      let '(pc', s') := upd_step env tid new_status reason pc s in
      upd_run n' env tid new_status reason pc' s'
  end.

(** * Agents *)

Record upsert_env := mkUpsertEnv {
  ue_select : bool;
  ue_upsert : bool;
  ue_audit : bool;
  ue_now : Z;
  ue_audit_now : Z;
}.

Definition find_agent (ip : string) (d : database) : option agent_row :=
  head (filter (λ r, a_ip_addr r = ip) (agent_info d)).

(** [INSERT ... ON CONFLICT (ip_addr) DO UPDATE]: [nextval] is consumed whether
    or not the row is new. *)
Definition upsert_rows (ip hostname uid version : string) (now : Z) (d : database) : database :=
  let id := agent_info_id_seq d + 1 in
  let rows :=
    match find_agent ip d with
    | Some _ => map (λ r, if decide (a_ip_addr r = ip)
                          then mkAgent (a_id r) hostname ip true uid version now else r)
                  (agent_info d)
    | None => agent_info d ++ [mkAgent id hostname ip true uid version now]
    end in
  mkDb rows id (hotmethod_task d) (task_status_history d) (agent_audit_log d).

Definition UpsertAgent (env : upsert_env) (ip hostname uid version : string)
    (s0 : session) : session :=
  let '(sel, s1) := exec_query (ue_select env) (find_agent (c_str ip)) s0 in
  let '(was_offline, agent_id) :=
    match sel with
    | Some (Some r) => (negb (a_online r), Some (a_id r))
    | _ => (false, None)
    end in
  let '(_, s2) := exec_dml (ue_upsert env)
    (upsert_rows (c_str ip) (c_str hostname) (c_str uid) (c_str version) (ue_now env)) s1 in
  match was_offline, agent_id with
  | true, Some id =>
      (exec_dml (ue_audit env)
         (add_audit (mkAudit id "online" "heartbeat recovered" (ue_audit_now env))) s2).2
  | _, _ => s2
  end.

(** The answers during one scan: the two queries, and the [UPDATE] and [INSERT]
    of the [i]-th row of each loop. *)
Record scan_env := mkScanEnv {
  sc_query1 : bool;
  sc_now1 : Z;
  sc_update1 : nat → bool;
  sc_audit1 : nat → bool;
  sc_query2 : bool;
  sc_now2 : Z;
  sc_update2 : nat → bool;
  sc_audit2 : nat → bool;
  sc_audit_now : nat → Z;
}.

Definition us_per_sec : Z := 1000000.

Definition fresh (now timeout_sec : Z) (r : agent_row) : bool :=
  now - timeout_sec * us_per_sec <=? a_last_hb r.

Definition set_online (b : bool) (r : agent_row) : agent_row :=
  mkAgent (a_id r) (a_hostname r) (a_ip_addr r) b (a_uid r) (a_version r) (a_last_hb r).

(** [UPDATE agent_info SET online = b WHERE id = id] *)
Definition mark_rows (b : bool) (id : Z) (rows : list agent_row) : list agent_row :=
  map (λ r, if decide (a_id r = id) then set_online b r else r) rows.

Fixpoint scan_loop (b : bool) (event reason : string) (upd aud : nat → bool) (now : nat → Z)
    (i : nat) (rows : list agent_row) (s : session) : session :=
  match rows with
  | [] => s
  | r :: rows' =>
      let s1 := (exec_dml (upd i) (set_agents (mark_rows b (a_id r))) s).2 in
      let s2 := (exec_dml (aud i) (add_audit (mkAudit (a_id r) event reason (now i))) s1).2 in
      scan_loop b event reason upd aud now (S i) rows' s2
  end.

Definition ScanAgentHeartbeats (env : scan_env) (timeout_sec : Z) (s0 : session) : Z * session :=
  let '(res, s1) := exec_query (sc_query1 env)
    (λ d, filter (λ r, a_online r && negb (fresh (sc_now1 env) timeout_sec r)) (agent_info d)) s0 in
  match res with
  | None => (0, s1)
  | Some stale =>
      let s2 := scan_loop false "offline" (to_string timeout_sec +:+ "s无心跳")
        (sc_update1 env) (sc_audit1 env) (sc_audit_now env) 0 stale s1 in
      let '(res2, s3) := exec_query (sc_query2 env)
        (λ d, filter (λ r, negb (a_online r) && fresh (sc_now2 env) timeout_sec r) (agent_info d)) s2 in
      let s4 :=
        match res2 with
        | None => s3
        | Some back => scan_loop true "online" "heartbeat recovered"
            (sc_update2 env) (sc_audit2 env) (sc_audit_now env) 0 back s3
        end in
      (Z.of_nat (length stale), s4)
  end.

Record AgentRecord := mkAgentRecord {
  ar_hostname : string;
  ar_ip : string;
  ar_online : bool;
  ar_uid : string;
  ar_version : string;
}.

(** [ORDER BY id] *)
Definition by_id (r1 r2 : agent_row) : Prop := a_id r1 <= a_id r2.
#[global] Instance by_id_dec : RelDecision by_id.
Proof. intros r1 r2. unfold by_id. apply _. Defined.

Definition ListAgents (ok : bool) (s : session) : list AgentRecord * session :=
  let '(res, s1) := exec_query ok (λ d, merge_sort by_id (agent_info d)) s in
  match res with
  | None => ([], s1)
  | Some rows =>
      (map (λ r, mkAgentRecord (a_hostname r) (a_ip_addr r) (a_online r) (a_uid r)
                   (a_version r)) rows, s1)
  end.

(** * Specifications *)

(** Every status is one of the five of the status machine. *)
Definition statuses_ok (d : database) : Prop :=
  map_Forall (λ _ r, 0 <= t_status r <= 4) (hotmethod_task d).

(** The abstract update: one atomic conditional transition with its audit row. *)
Definition apply_transition (tid : string) (old_status new_status : Z) (reason : string)
    (now : Z) (d : database) : database :=
  add_history (mkHistory tid old_status new_status reason now)
    (set_tasks (alter (update_row new_status reason now) tid) d).

Definition env_commits (env : update_env) : bool :=
  u_begin env && u_select env && u_update env && u_insert env &&
  match u_commit env with CommitOk | CommitError true => true | CommitError false => false end.

Definition update_spec (env : update_env) (tid : string) (new_status : Z) (reason : string)
    (d : database) : database :=
  match hotmethod_task d !! tid with
  | None => d
  | Some row =>
      if IsTransitionAllowed (t_status row) new_status && env_commits env
      then apply_transition tid (t_status row) new_status reason (u_now env) d
      else d
  end.

(** The audit rows of a task lead from [a] to [b] by legal transitions. *)
Fixpoint chain (a : Z) (hs : list history_row) (b : Z) : Prop :=
  match hs with
  | [] => a = b
  | h :: hs' => h_old_status h = a ∧ legal a (h_new_status h) ∧ chain (h_new_status h) hs' b
  end.

Definition history_of (tid : string) (d : database) : list history_row :=
  filter (λ h, h_tid h = tid) (task_status_history d).

(** The row the API server writes when it creates a task has -1 as its old status. *)
Definition is_creation (h : history_row) : Prop := h_old_status h = -1.
#[global] Instance is_creation_dec h : Decision (is_creation h).
Proof. unfold is_creation. apply _. Defined.

(** The transitions of a task: its audit rows but for that of its creation. *)
Definition trail_of (tid : string) (d : database) : list history_row :=
  filter (λ h, ¬ is_creation h) (history_of tid d).

(** The audit trail of every task explains its status, and there is no audit
    row without a task. *)
Definition history_ok (d : database) : Prop :=
  (∀ tid row, hotmethod_task d !! tid = Some row →
     chain kPending (trail_of tid d) (t_status row)) ∧
  (∀ tid, hotmethod_task d !! tid = None → history_of tid d = []) ∧
  Forall (λ h, is_creation h → h_new_status h = kPending) (task_status_history d).

(** [agent_info]: distinct addresses, distinct ids below the sequence. *)
Definition agents_ok (d : database) : Prop :=
  NoDup (map a_ip_addr (agent_info d)) ∧ NoDup (map a_id (agent_info d)) ∧
  Forall (λ r, a_id r <= agent_info_id_seq d) (agent_info d).

(** ** Lemmas: the status update *)

Lemma statuses_ok_stoi d tid row :
  statuses_ok d → hotmethod_task d !! tid = Some row →
  stoi (to_string (t_status row)) = Ret (t_status row).
Proof. intros Hok Hrow. apply stoi_to_string. specialize (Hok _ _ Hrow). unfold is_i32. simpl in *. lia. Qed.

Lemma UpdateTaskStatus_atomic env tid new_status reason d :
  statuses_ok d →
  UpdateTaskStatus env tid new_status reason (mkSession d NoTxn) =
  Ret (mkSession (update_spec env (c_str tid) new_status (c_str reason) d) NoTxn).
Proof.
  intros Hok. unfold UpdateTaskStatus, update_spec, env_commits.
  destruct (hotmethod_task d !! c_str tid) as [row|] eqn:Hrow.
  - pose proof (statuses_ok_stoi _ _ _ Hok Hrow) as Hst.
    destruct (u_begin env); simpl; [|by rewrite andb_false_r].
    destruct (u_select env); simpl; [|by rewrite andb_false_r].
    rewrite Hrow, Hst. simpl.
    destruct (IsTransitionAllowed (t_status row) new_status); simpl; [|done].
    destruct (u_update env); simpl; [|done].
    destruct (u_insert env); simpl; [|done].
    by destruct (u_commit env) as [|[]].
  - destruct (u_begin env); simpl; [|done]. destruct (u_select env); simpl; [|done].
    by rewrite Hrow.
Qed.

Lemma history_of_apply tid tid' old_status new_status reason now d :
  history_of tid (apply_transition tid' old_status new_status reason now d) =
  history_of tid d ++
  (if decide (tid' = tid) then [mkHistory tid' old_status new_status reason now] else []).
Proof.
  unfold history_of, apply_transition. simpl. by rewrite filter_app.
Qed.

Lemma trail_of_apply tid tid' old_status new_status reason now d :
  old_status ≠ -1 →
  trail_of tid (apply_transition tid' old_status new_status reason now d) =
  trail_of tid d ++
  (if decide (tid' = tid) then [mkHistory tid' old_status new_status reason now] else []).
Proof.
  intros Hne. unfold trail_of. rewrite history_of_apply, filter_app. f_equal.
  case_decide; [|done]. rewrite filter_cons. by rewrite decide_True.
Qed.

Lemma chain_snoc a hs b h :
  chain a hs b → h_old_status h = b → legal b (h_new_status h) →
  chain a (hs ++ [h]) (h_new_status h).
Proof.
  revert a. induction hs as [|h' hs IH]; simpl; intros a; [naive_solver|].
  intros (? & ? & ?) ? ?. naive_solver.
Qed.

Lemma update_spec_lookup env tid new_status reason d tid' row' :
  hotmethod_task (update_spec env tid new_status reason d) !! tid' = Some row' →
  ∃ row, hotmethod_task d !! tid' = Some row ∧
    (t_status row' = t_status row ∨
     tid' = tid ∧ t_status row' = new_status ∧ legal (t_status row) new_status).
Proof.
  unfold update_spec. destruct (hotmethod_task d !! tid) as [row|] eqn:Hrow; [|eauto].
  destruct (IsTransitionAllowed _ _) eqn:Hal; simpl; [|eauto].
  destruct (env_commits env); [|eauto]. simpl. apply IsTransitionAllowed_legal in Hal.
  destruct (decide (tid = tid')) as [<-|Hne].
  - rewrite lookup_alter_eq, Hrow. intros; simplify_eq/=. eauto 10.
  - rewrite lookup_alter_ne by done. eauto.
Qed.

Lemma update_spec_statuses env tid new_status reason d :
  statuses_ok d → statuses_ok (update_spec env tid new_status reason d).
Proof.
  intros Hok tid' row' (row & Hrow & Hst)%update_spec_lookup.
  pose proof (Hok _ _ Hrow) as Hr. simpl in *.
  destruct Hst as [->|(_ & -> & Hl)]; [done|]. by apply legal_range in Hl as [_ ?].
Qed.

Lemma update_spec_history env tid new_status reason d :
  history_ok d → history_ok (update_spec env tid new_status reason d).
Proof.
  intros (Hchain & Hnone & Hcr). unfold update_spec.
  destruct (hotmethod_task d !! tid) as [row|] eqn:Hrow; [|done].
  destruct (IsTransitionAllowed _ _) eqn:Hal; simpl; [|done].
  destruct (env_commits env); [|done]. apply IsTransitionAllowed_legal in Hal.
  assert (t_status row ≠ -1) as Hst by (apply legal_range in Hal; lia).
  split; [|split]; [intros tid' row'|intros tid'|].
  - rewrite trail_of_apply by done. cbn [hotmethod_task apply_transition add_history set_tasks].
    intros Hrow'. destruct (decide (tid = tid')) as [<-|Hne].
    + rewrite lookup_alter_eq, Hrow in Hrow'. simplify_eq/=.
      eapply (chain_snoc _ _ _ (mkHistory _ _ _ _ _)); eauto.
    + rewrite lookup_alter_ne in Hrow' by done. rewrite app_nil_r. eauto.
  - rewrite history_of_apply. cbn [hotmethod_task apply_transition add_history set_tasks].
    rewrite lookup_alter_None. intros Hno. destruct (decide (tid = tid')) as [<-|]; [congruence|].
    rewrite app_nil_r. eauto.
  - apply Forall_app. split; [done|]. by apply Forall_singleton.
Qed.

Lemma update_spec_agents env tid new_status reason d :
  agent_info (update_spec env tid new_status reason d) = agent_info d ∧
  agent_info_id_seq (update_spec env tid new_status reason d) = agent_info_id_seq d.
Proof. unfold update_spec. by destruct_ifs. Qed.

(** A task that is DONE is not changed by any update. *)
Lemma update_spec_done env tid new_status reason d tid' row :
  hotmethod_task d !! tid' = Some row → t_status row = kDone →
  hotmethod_task (update_spec env tid new_status reason d) !! tid' = Some row.
Proof.
  intros Hrow Hdone. unfold update_spec.
  destruct (hotmethod_task d !! tid) as [row0|] eqn:Hrow0; [|done].
  destruct (IsTransitionAllowed _ _) eqn:Hal; simpl; [|done].
  destruct (env_commits env); [|done]. apply IsTransitionAllowed_legal in Hal.
  simpl. destruct (decide (tid = tid')) as [<-|]; [|by rewrite lookup_alter_ne].
  simplify_eq. rewrite Hdone in Hal. by apply legal_done_final in Hal.
Qed.

(** The statement machine, run alone, is the function. *)
Lemma upd_run_alone env tid new_status reason s :
  match UpdateTaskStatus env tid new_status reason s with
  | Ret s' => ∃ b, upd_run 6 env tid new_status reason PcBegin s = (PcDone b, s')
  | Throw e => ∃ s', upd_run 6 env tid new_status reason PcBegin s = (PcThrown e, s')
  | UB _ => True
  end.
Proof.
  unfold UpdateTaskStatus. cbn [upd_run upd_step].
  destruct (exec_begin _ _) as [ok1 s1]. destruct ok1; simpl; [|eauto].
  destruct (exec_query _ _ _) as [[[row|]|] s2]; simpl; [|eauto..].
  destruct (stoi _) as [old| |]; simpl; [|eauto..].
  destruct (IsTransitionAllowed _ _); simpl; [|eauto].
  destruct (exec_dml _ _ s2) as [ok3 s3]. destruct ok3; simpl; [|eauto].
  destruct (exec_dml _ _ s3) as [ok4 s4]. destruct ok4; simpl; [|eauto].
  destruct (exec_commit _ _) as [ok5 s5]. simpl. eauto.
Qed.

(** ** Lemmas: the agents *)

Lemma head_filter_map {A} (P : A → Prop) `{∀ x, Decision (P x)} (f : A → A) (l : list A) :
  (∀ x, x ∈ l → P (f x) ↔ P x) →
  head (filter P (map f l)) = f <$> head (filter P l).
Proof.
  induction l as [|x l IH]; intros Hf; [done|]. cbn [map]. rewrite !filter_cons.
  destruct (decide (P x)) as [Hx|Hx].
  - by rewrite decide_True by (apply Hf; [left|done]).
  - rewrite decide_False by (rewrite Hf; [done|left]). apply IH. intros. apply Hf. by right.
Qed.

Lemma find_agent_None ip d : find_agent ip d = None ↔ ip ∉ map a_ip_addr (agent_info d).
Proof.
  unfold find_agent. induction (agent_info d) as [|r l IH]; simpl.
  - split; [intros _; apply not_elem_of_nil|done].
  - rewrite filter_cons, not_elem_of_cons. destruct (decide _) as [Heq|Hne]; simpl.
    + split; [done|]. naive_solver.
    + rewrite IH. naive_solver.
Qed.

Lemma find_agent_ip ip d r : find_agent ip d = Some r → a_ip_addr r = ip ∧ r ∈ agent_info d.
Proof.
  unfold find_agent. intros H.
  assert (r ∈ filter (λ r, a_ip_addr r = ip) (agent_info d)) as Hr.
  { destruct (filter _ _); simplify_eq/=. by left. }
  by apply list_elem_of_filter in Hr.
Qed.

Definition upserted (ip hostname uid version : string) (now : Z) (d : database) : agent_row :=
  let id := match find_agent ip d with Some r => a_id r | None => agent_info_id_seq d + 1 end in
  mkAgent id hostname ip true uid version now.

Lemma find_agent_upsert ip hostname uid version now d ip' :
  find_agent ip' (upsert_rows ip hostname uid version now d) =
  if decide (ip' = ip) then Some (upserted ip hostname uid version now d)
  else find_agent ip' d.
Proof.
  unfold upsert_rows, upserted. destruct (find_agent ip d) as [r|] eqn:Hf.
  - unfold find_agent at 1. simpl. rewrite head_filter_map.
    2: { intros x Hx. destruct (decide (a_ip_addr x = ip)); simpl; by subst. }
    change (head _) with (find_agent ip' d). destruct (decide (ip' = ip)) as [->|Hne].
    + rewrite Hf. simpl. by rewrite decide_True by (by apply find_agent_ip in Hf as [? _]).
    + destruct (find_agent ip' d) as [r'|] eqn:Hf'; simpl; [|done].
      apply find_agent_ip in Hf' as [Hip _]. by rewrite decide_False by congruence.
  - unfold find_agent at 1. simpl. rewrite filter_app.
    destruct (decide (ip' = ip)) as [->|Hne].
    + unfold find_agent in Hf. destruct (filter _ (agent_info d)); [|done]. simpl.
      rewrite filter_cons, decide_True; done.
    + rewrite filter_cons, decide_False by (simpl; congruence). simpl.
      by rewrite app_nil_r.
Qed.

Lemma upsert_rows_agents_ok ip hostname uid version now d :
  agents_ok d → agents_ok (upsert_rows ip hostname uid version now d).
Proof.
  intros (Hip & Hid & Hseq). unfold upsert_rows, agents_ok.
  destruct (find_agent ip d) as [r|] eqn:Hf; simpl.
  - rewrite !map_map. split; [|split].
    + erewrite map_ext; [exact Hip|]. intros x. simpl. by destruct (decide _).
    + erewrite map_ext; [exact Hid|]. intros x. simpl. by destruct (decide _).
    + apply Forall_map. eapply Forall_impl; [exact Hseq|]. intros x Hx.
      destruct (decide _); simpl in *; lia.
  - apply find_agent_None in Hf. rewrite !map_app. simpl. split; [|split].
    + apply NoDup_app. split; [done|]. split; [|apply NoDup_singleton].
      intros x Hx ->%list_elem_of_singleton. done.
    + apply NoDup_app. split; [done|]. split; [|apply NoDup_singleton].
      intros x Hx ->%list_elem_of_singleton.
      apply list_elem_of_fmap in Hx as (y & Hy & Hin).
      rewrite Forall_forall in Hseq. specialize (Hseq _ Hin). simpl in *. lia.
    + apply Forall_app. split; [|by repeat constructor].
      eapply Forall_impl; [exact Hseq|]. simpl. lia.
Qed.

Lemma mark_rows_keys b id rows :
  map a_ip_addr (mark_rows b id rows) = map a_ip_addr rows ∧
  map a_id (mark_rows b id rows) = map a_id rows.
Proof.
  unfold mark_rows. rewrite !map_map.
  split; apply map_ext; intros r; by destruct (decide _).
Qed.

(** Marking the ids [ids] one after the other. *)
Lemma foldr_mark b ids rows :
  foldl (λ rs id, mark_rows b id rs) rows ids =
  map (λ r, if decide (a_id r ∈ ids) then set_online b r else r) rows.
Proof.
  revert rows. induction ids as [|id ids IH]; intros rows; cbn [foldl].
  - rewrite <-(map_id rows) at 1. apply map_ext. intros r.
    by rewrite decide_False by apply not_elem_of_nil.
  - rewrite IH. unfold mark_rows. rewrite map_map. apply map_ext. intros r.
    destruct (decide (a_id r = id)) as [->|Hne]; simpl.
    + rewrite (decide_True (P := id ∈ id :: ids)) by left. by destruct (decide _).
    + destruct (decide (a_id r ∈ ids)) as [Hin|Hin].
      * by rewrite decide_True by (by right).
      * by rewrite decide_False by (by rewrite not_elem_of_cons).
Qed.

(** A loop in which every statement succeeds, outside a transaction. *)
Lemma scan_loop_ok b event reason now i rows d :
  scan_loop b event reason (λ _, true) (λ _, true) now i rows (mkSession d NoTxn) =
  mkSession
    (mkDb (foldl (λ rs id, mark_rows b id rs) (agent_info d) (map a_id rows))
       (agent_info_id_seq d) (hotmethod_task d) (task_status_history d)
       (agent_audit_log d ++
          imap (λ j r, mkAudit (a_id r) event reason (now (i + j)%nat)) rows)) NoTxn.
Proof.
  revert i d. induction rows as [|r rows IH]; intros i d; simpl.
  - rewrite app_nil_r. by destruct d.
  - rewrite IH. simpl. rewrite <-(assoc_L (++)). simpl. rewrite Nat.add_0_r.
    do 4 f_equal. apply imap_ext. intros j x _. simpl. by rewrite Nat.add_succ_r.
Qed.

(** The rows a filter selected, found again by their ids. *)
Lemma select_by_id (P : agent_row → Prop) `{∀ r, Decision (P r)} (rows : list agent_row) r :
  NoDup (map a_id rows) → r ∈ rows → a_id r ∈ map a_id (filter P rows) ↔ P r.
Proof.
  intros Hnd Hr. rewrite list_elem_of_fmap. split.
  - intros (r' & Hid & [HP Hr']%list_elem_of_filter).
    assert (r' = r) as ->; [|done].
    apply list_elem_of_lookup in Hr as [j Hj]. apply list_elem_of_lookup in Hr' as [j' Hj'].
    assert (j = j') as <-; [|congruence].
    apply (NoDup_lookup _ j j' (a_id r) Hnd); rewrite list_lookup_fmap, ?Hj, ?Hj'; simpl; congruence.
  - intros HP. exists r. split; [done|]. by apply list_elem_of_filter.
Qed.

Lemma map_ext_elem {A B} (f g : A → B) l : (∀ x, x ∈ l → f x = g x) → map f l = map g l.
Proof.
  intros H. apply map_ext_in. intros x Hx. apply H. by apply list_elem_of_In.
Qed.

(** ** The heartbeat scan *)

Section scan.
Context (now timeout_sec : Z).

Definition stale (r : agent_row) : bool := a_online r && negb (fresh now timeout_sec r).
Definition back (r : agent_row) : bool := negb (a_online r) && fresh now timeout_sec r.
Definition mark_stale (r : agent_row) : agent_row := if stale r then set_online false r else r.

Lemma set_online_id r b : a_online r = b → set_online b r = r.
Proof. destruct r; simpl. by intros ->. Qed.

Lemma mark_stale_rows rows :
  NoDup (map a_id rows) →
  map (λ r, if decide (a_id r ∈ map a_id (filter stale rows)) then set_online false r else r) rows =
  map mark_stale rows.
Proof.
  intros Hnd. apply map_ext_elem. intros r Hr. unfold mark_stale.
  pose proof (select_by_id stale rows r Hnd Hr) as Hsel.
  destruct (decide _) as [Hin|Hin].
  - apply Hsel in Hin. by destruct (stale r).
  - destruct (stale r) eqn:E; [|done]. destruct Hin. apply Hsel. by rewrite E.
Qed.

Lemma filter_back_mark rows : filter back (map mark_stale rows) = filter back rows.
Proof.
  induction rows as [|r rows IH]; [done|]. cbn [map]. rewrite !filter_cons, IH.
  unfold mark_stale, stale, back.
  destruct (a_online r) eqn:E1; simpl; destruct (fresh now timeout_sec r) eqn:E2; simpl;
    rewrite ?E1, ?E2; simpl; try done.
  change (fresh now timeout_sec (set_online false r)) with (fresh now timeout_sec r).
  by rewrite E2.
Qed.

Lemma mark_back_rows rows :
  NoDup (map a_id rows) →
  map (λ r, if decide (a_id r ∈ map a_id (filter back rows)) then set_online true r else r)
    (map mark_stale rows) =
  map (λ r, set_online (fresh now timeout_sec r) r) rows.
Proof.
  intros Hnd. rewrite map_map. apply map_ext_elem. intros r Hr.
  assert (a_id (mark_stale r) = a_id r) as -> by (unfold mark_stale; by destruct (stale r)).
  pose proof (select_by_id back rows r Hnd Hr) as Hsel.
  destruct (decide _) as [Hin|Hin].
  - apply Hsel in Hin. unfold mark_stale, stale, back in *.
    destruct (a_online r), (fresh now timeout_sec r); simpl in *; done.
  - assert (back r = false) as Hb by (destruct (back r) eqn:E; [destruct Hin; apply Hsel; by rewrite E|done]).
    unfold mark_stale, stale, back in *.
    destruct (a_online r) eqn:E1, (fresh now timeout_sec r) eqn:E2; simpl in *;
      try done; by rewrite set_online_id.
Qed.

(** The answers of a healthy server whose clock stands at [now] for the queries. *)
Definition scan_env_ok (audit_now : nat → Z) : scan_env :=
  mkScanEnv true now (λ _, true) (λ _, true) true now (λ _, true) (λ _, true) audit_now.

Definition offline_audits (audit_now : nat → Z) (rows : list agent_row) : list audit_row :=
  imap (λ j r, mkAudit (a_id r) "offline" (to_string timeout_sec +:+ "s无心跳") (audit_now j)) rows.
Definition online_audits (audit_now : nat → Z) (rows : list agent_row) : list audit_row :=
  imap (λ j r, mkAudit (a_id r) "online" "heartbeat recovered" (audit_now j)) rows.

Lemma scan_healthy audit_now d :
  agents_ok d →
  ScanAgentHeartbeats (scan_env_ok audit_now) timeout_sec (mkSession d NoTxn) =
  (Z.of_nat (length (filter stale (agent_info d))),
   mkSession
     (mkDb (map (λ r, set_online (fresh now timeout_sec r) r) (agent_info d))
        (agent_info_id_seq d) (hotmethod_task d) (task_status_history d)
        (agent_audit_log d ++ offline_audits audit_now (filter stale (agent_info d))
           ++ online_audits audit_now (filter back (agent_info d)))) NoTxn).
Proof.
  intros (_ & Hnd & _). unfold ScanAgentHeartbeats, scan_env_ok. cbn [exec_query sc_query1 txn
    sc_update1 sc_audit1 sc_now1 sc_audit_now committed].
  rewrite scan_loop_ok. cbn [exec_query sc_query2 sc_update2 sc_audit2 sc_now2 txn committed agent_info].
  rewrite !foldr_mark, mark_stale_rows by done.
  change (filter (λ r, negb (a_online r) && fresh now timeout_sec r) (map mark_stale (agent_info d)))
    with (filter back (map mark_stale (agent_info d))).
  rewrite filter_back_mark, scan_loop_ok. cbn [agent_info agent_audit_log].
  rewrite foldr_mark, mark_back_rows by done. f_equal. f_equal. f_equal.
  by rewrite <-(assoc_L (++)).
Qed.
End scan.

Lemma UpsertAgent_healthy now audit_now ip hostname uid version d :
  UpsertAgent (mkUpsertEnv true true true now audit_now) ip hostname uid version (mkSession d NoTxn) =
  let d' := upsert_rows (c_str ip) (c_str hostname) (c_str uid) (c_str version) now d in
  mkSession
    match find_agent (c_str ip) d with
    | Some r => if a_online r then d'
                else add_audit (mkAudit (a_id r) "online" "heartbeat recovered" audit_now) d'
    | None => d'
    end NoTxn.
Proof.
  unfold UpsertAgent. simpl. destruct (find_agent (c_str ip) d) as [r|]; simpl; [|done].
  by destruct (a_online r).
Qed.

(** The row and the audit rows of the task an update names. *)
Lemma update_spec_row env tid new_status reason d row :
  env_commits env = true → hotmethod_task d !! tid = Some row →
  hotmethod_task (update_spec env tid new_status reason d) !! tid =
    Some (if IsTransitionAllowed (t_status row) new_status
          then update_row new_status reason (u_now env) row else row) ∧
  history_of tid (update_spec env tid new_status reason d) =
    history_of tid d ++
    (if IsTransitionAllowed (t_status row) new_status
     then [mkHistory tid (t_status row) new_status reason (u_now env)] else []).
Proof.
  intros Hc Hrow. unfold update_spec. rewrite Hrow, Hc, andb_true_r.
  destruct (IsTransitionAllowed _ _).
  - split; [by cbn; rewrite lookup_alter_eq, Hrow|].
    rewrite history_of_apply. by rewrite decide_True.
  - by rewrite app_nil_r.
Qed.

(** * Two calls on one connection

    PGStore has no lock, and gRPC runs handlers on several threads: two calls of
    UpdateTaskStatus can interleave their statements on the one connection. *)

Record update_call := mkCall {
  c_env : update_env;
  c_tid : string;
  c_new_status : Z;
  c_reason : string;
}.

Definition call_step (c : update_call) : upd_pc → session → upd_pc * session :=
  upd_step (c_env c) (c_tid c) (c_new_status c) (c_reason c).

(** [true] in the schedule is a step of the first call. *)
Fixpoint interleave (a b : update_call) (sched : list bool) (pa pb : upd_pc) (s : session)
    : upd_pc * upd_pc * session :=
  match sched with
  | [] => (pa, pb, s)
  | true :: sched' =>
      let '(pa', s') := call_step a pa s in interleave a b sched' pa' pb s'
  | false :: sched' =>
      let '(pb', s') := call_step b pb s in interleave a b sched' pa pb' s'
  end.

(** * Claims *)

(** The transition test of the C++ server is the status diagram of the
    design: it accepts exactly the seven transitions of the diagram, every
    status but DONE can reach DONE, and DONE cannot be left. *)
Theorem status_machine_diagram :
  (∀ a b, IsTransitionAllowed a b = true ↔ legal a b) ∧
  (∀ a, 0 <= a <= 4 → a ≠ kDone → rtc legal a kDone) ∧
  (∀ b, IsTransitionAllowed kDone b = false).
Proof.
  split; [apply IsTransitionAllowed_legal|]. split.
  - assert (rtc legal kUploading kDone) as H2 by (eapply rtc_l; [apply legal_done|done]).
    assert (rtc legal kRunning kDone) as H1 by (eapply rtc_l; [apply legal_upload|done]).
    assert (rtc legal kPending kDone) as H0 by (eapply rtc_l; [apply legal_start|done]).
    assert (rtc legal kFailed kDone) as H4 by (eapply rtc_l; [apply legal_retry|done]).
    intros a Ha Hne. unfold kDone in Hne.
    assert (a = 0 ∨ a = 1 ∨ a = 2 ∨ a = 4) as [->|[->|[->| ->]]] by lia; assumption.
  - intros b. destruct (IsTransitionAllowed kDone b) eqn:E; [|done].
    apply IsTransitionAllowed_legal in E. by apply legal_done_final in E.
Qed.

Definition no_columns : task_columns := mkColumns "" 0 0 "" JNull 0 "" "" 0 "" "" None.
Definition db1 : database :=
  mkDb [] 0 {["t1" := mkTask 1 "running" (Some 5) None no_columns]} [] [].
Definition env_fine : update_env := mkUpdateEnv true true true true CommitOk 9.

Lemma statuses_ok_db1 : statuses_ok db1.
Proof. apply map_Forall_singleton. simpl. lia. Qed.

(** C3: Whatever PostgreSQL answers to the statements of UpdateTaskStatus, the
    call returns with no transaction open and the database is the atomic
    conditional update: the row and its audit row are both written when the
    transition is legal and every statement (with the commit) took effect, and
    nothing is written otherwise. *)
Theorem update_task_status_refines env tid new_status reason d :
  statuses_ok d →
  UpdateTaskStatus env tid new_status reason (mkSession d NoTxn) =
  Ret (mkSession (update_spec env (c_str tid) new_status (c_str reason) d) NoTxn).
Proof. apply UpdateTaskStatus_atomic. Qed.

Lemma update_task_status_refines_witness :
  statuses_ok db1 ∧
  UpdateTaskStatus env_fine "t1" 2 "up" (mkSession db1 NoTxn) =
  Ret (mkSession (update_spec env_fine "t1" 2 "up" db1) NoTxn).
Proof.
  split; [apply statuses_ok_db1|].
  apply (update_task_status_refines env_fine "t1" 2 "up" db1). apply statuses_ok_db1.
Defined.

(** Issued without interference, the statements of UpdateTaskStatus reach
    the end of the call in at most six steps, with the result of the function. *)
Theorem update_statements_terminate env tid new_status reason d :
  statuses_ok d →
  ∃ logged, upd_run 6 env tid new_status reason PcBegin (mkSession d NoTxn) =
    (PcDone logged, mkSession (update_spec env (c_str tid) new_status (c_str reason) d) NoTxn).
Proof.
  intros Hok. pose proof (upd_run_alone env tid new_status reason (mkSession d NoTxn)) as H.
  by rewrite UpdateTaskStatus_atomic in H.
Qed.

Lemma update_statements_terminate_witness :
  ∃ logged, upd_run 6 env_fine "t1" 2 "up" PcBegin (mkSession db1 NoTxn) =
    (PcDone logged, mkSession (update_spec env_fine "t1" 2 "up" db1) NoTxn).
Proof. apply (update_statements_terminate env_fine "t1" 2 "up" db1). apply statuses_ok_db1. Defined.

(** C34: Two calls that share the connection are not isolated: there is a
    schedule, with a server that answers every statement with success, in which
    a legal update of one task logs success, its audit row is committed and yet
    the row of the task keeps its old status, because the ROLLBACK of the other
    call (an illegal transition of another task) ended the transaction. *)
Theorem shared_connection_loses_update :
  let d := mkDb [] 0 {["t1" := mkTask 3 "done" None None no_columns; "t2" := mkTask 1 "run" None None no_columns]} [] [] in
  let a := mkCall env_fine "t1" 1 "again" in
  let b := mkCall env_fine "t2" 4 "boom" in
  ∃ sched s,
    interleave a b sched PcBegin PcBegin (mkSession d NoTxn) = (PcDone false, PcDone true, s) ∧
    txn s = NoTxn ∧
    t_status <$> hotmethod_task (committed s) !! "t2" = Some 1 ∧
    history_of "t2" (committed s) = [mkHistory "t2" 1 4 "boom" 9].
Proof.
  exists [true; true; false; false; false; true; false; false].
  eexists. split; [vm_compute; reflexivity|]. vm_compute. done.
Qed.

(** A heartbeat upsert answered by a healthy server makes the agent's row
    the reported data, online, with a stable id; other agents keep their rows;
    the table stays well formed; and exactly when the agent was known and
    offline one "online" audit row is written. *)
Theorem upsert_agent_effect now audit_now ip hostname uid version d :
  agents_ok d →
  let s := UpsertAgent (mkUpsertEnv true true true now audit_now) ip hostname uid version
             (mkSession d NoTxn) in
  txn s = NoTxn ∧
  agents_ok (committed s) ∧
  find_agent (c_str ip) (committed s) =
    Some (upserted (c_str ip) (c_str hostname) (c_str uid) (c_str version) now d) ∧
  (∀ ip', ip' ≠ c_str ip → find_agent ip' (committed s) = find_agent ip' d) ∧
  agent_audit_log (committed s) = agent_audit_log d ++
    match find_agent (c_str ip) d with
    | Some r => if a_online r then [] else [mkAudit (a_id r) "online" "heartbeat recovered" audit_now]
    | None => []
    end.
Proof.
  intros Hok. rewrite UpsertAgent_healthy. cbn [txn committed].
  set (d' := upsert_rows _ _ _ _ _ _).
  assert (agents_ok d') as Hok' by (by apply upsert_rows_agents_ok).
  assert (∀ x, find_agent x d' = _) as Hf by (intros x; apply find_agent_upsert).
  assert (agent_audit_log d' = agent_audit_log d) as Hlog by done.
  assert (find_agent (c_str ip) d' = Some (upserted (c_str ip) (c_str hostname) (c_str uid) (c_str version) now d))
    as Hself by (by rewrite Hf, decide_True).
  assert (∀ ip', ip' ≠ c_str ip → find_agent ip' d' = find_agent ip' d)
    as Hother by (intros ? ?; by rewrite Hf, decide_False).
  split; [done|]. destruct (find_agent (c_str ip) d) as [r|]; [destruct (a_online r)|];
    cbn [agent_audit_log add_audit]; rewrite ?app_nil_r; repeat (split; [done|]); by rewrite ?Hlog.
Qed.

Lemma upsert_agent_effect_witness :
  find_agent "10.0.0.1" (committed
    (UpsertAgent (mkUpsertEnv true true true 7 8) "10.0.0.1" "h" "u" "v"
      (mkSession (mkDb [mkAgent 1 "h0" "10.0.0.1" false "u0" "v0" 3] 1 ∅ [] []) NoTxn))) =
  Some (mkAgent 1 "h" "10.0.0.1" true "u" "v" 7).
Proof.
  apply (upsert_agent_effect 7 8 "10.0.0.1" "h" "u" "v"
    (mkDb [mkAgent 1 "h0" "10.0.0.1" false "u0" "v0" 3] 1 ∅ [] [])).
  split; [apply NoDup_singleton|]. split; [apply NoDup_singleton|]. repeat constructor. done.
Defined.

(** A heartbeat scan answered by a healthy server leaves every agent online
    exactly when its last heartbeat is at most the timeout old, writes one
    "offline" audit row for each agent it took offline and one "online" row for
    each it brought back, and returns the number of the former. *)
Theorem scan_online_exact now timeout_sec audit_now d :
  agents_ok d →
  ScanAgentHeartbeats (scan_env_ok now audit_now) timeout_sec (mkSession d NoTxn) =
  (Z.of_nat (length (filter (stale now timeout_sec) (agent_info d))),
   mkSession
     (mkDb (map (λ r, set_online (fresh now timeout_sec r) r) (agent_info d))
        (agent_info_id_seq d) (hotmethod_task d) (task_status_history d)
        (agent_audit_log d
           ++ offline_audits timeout_sec audit_now (filter (stale now timeout_sec) (agent_info d))
           ++ online_audits audit_now (filter (back now timeout_sec) (agent_info d)))) NoTxn).
Proof. apply scan_healthy. Qed.

Lemma scan_online_exact_witness :
  (ScanAgentHeartbeats (scan_env_ok 40000000 (λ _, 5)) 30
     (mkSession (mkDb [mkAgent 1 "h" "a" true "" "" 1; mkAgent 2 "h" "b" false "" "" 20000000]
        2 ∅ [] []) NoTxn)).1 = 1.
Proof.
  rewrite (scan_online_exact 40000000 30 (λ _, 5)
    (mkDb [mkAgent 1 "h" "a" true "" "" 1; mkAgent 2 "h" "b" false "" "" 20000000] 2 ∅ [] [])).
  - reflexivity.
  - split; [|split]; cbn [map agent_info a_ip_addr a_id].
    + apply (bool_decide_unpack _). vm_compute. done.
    + apply (bool_decide_unpack _). vm_compute. done.
    + repeat constructor; done.
Defined.
