(* ===== verification/ApiStatements.v ===== *)
(** What the API server (apiserver/server) and the analyzer write to the tables they
    share with drop_server: the status update of server.go as its statements on a
    connection of its own, and the single statements of the other handlers. *)
From stdpp Require Import base gmap strings list.
From Stdlib Require Import ZArith Lia.
From S2P Require Import Prelude CppString Json PGStore.

(** * updateTaskStatus

    gorm adds [deleted_at IS NULL] to every statement on a model with soft deletion:
    a deleted row is not found. *)

Definition isTransitionAllowed (old new : Z) : bool :=
  if old =? new then false
  else if old =? kPending then (new =? kRunning) || (new =? kFailed)
  else if old =? kRunning then (new =? kUploading) || (new =? kFailed)
  else if old =? kUploading then (new =? kDone) || (new =? kFailed)
  else if old =? kFailed then new =? kPending
  else if old =? kDone then false
  else false.

Definition deleted (r : task_row) : bool := bool_decide (is_Some (c_deleted_at (t_cols r))).

(** [First] on [hotmethod_task WHERE tid = ?] *)
Definition find_live (tid : string) (d : database) : option task_row :=
  match hotmethod_task d !! tid with
  | Some r => if deleted r then None else Some r
  | None => None
  end.

Inductive api_error :=
  | BeginFailed
  | TaskNotFound
  | IllegalTransition (old new : Z)
  | UpdateFailed
  | HistoryFailed
  | CommitFailed.

(** [db.Transaction]: the error of the body rolls back and is returned. *)
Definition updateTaskStatus (env : update_env) (tid : string) (newStatus : Z) (reason0 : string)
    (s0 : session) : option api_error * session :=
  let reason := if decide (reason0 = "") then "no reason provided" else reason0 in
  let '(ok, s1) := exec_begin (u_begin env) s0 in
  if negb ok then (Some BeginFailed, s1) else
  let '(rows, s2) := exec_query (u_select env) (find_live tid) s1 in
  match rows with
  | None | Some None => (Some TaskNotFound, exec_rollback s2)
  | Some (Some task) =>
      if negb (isTransitionAllowed (t_status task) newStatus)
      then (Some (IllegalTransition (t_status task) newStatus), exec_rollback s2) else
      let oldStatus := t_status task in
      let '(ok, s3) := exec_dml (u_update env)
        (set_tasks (alter (update_row newStatus reason (u_now env)) tid)) s2 in
      if negb ok then (Some UpdateFailed, exec_rollback s3) else
      let '(ok, s4) := exec_dml (u_insert env)
        (add_history (mkHistory tid oldStatus newStatus reason (u_now env))) s3 in
      if negb ok then (Some HistoryFailed, exec_rollback s4) else
      let '(ok, s5) := exec_commit (u_commit env) s4 in
      (if ok then None else Some CommitFailed, s5)
  end.

(** * The other statements *)

Definition with_cols (f : task_columns → task_columns) (r : task_row) : task_row :=
  mkTask (t_status r) (t_status_info r) (t_begin_time r) (t_end_time r) (f (t_cols r)).

Definition set_analysis (status : Z) (c : task_columns) : task_columns :=
  mkColumns (c_name c) (c_type c) (c_profiler_type c) (c_target_ip c) (c_request_params c) status
    (c_uid c) (c_user_name c) (c_create_time c) (c_master_task_tid c) (c_cos_key c) (c_deleted_at c).
Definition set_cos_key (key : string) (c : task_columns) : task_columns :=
  mkColumns (c_name c) (c_type c) (c_profiler_type c) (c_target_ip c) (c_request_params c)
    (c_analysis_status c) (c_uid c) (c_user_name c) (c_create_time c) (c_master_task_tid c) key
    (c_deleted_at c).
Definition set_deleted (now : Z) (c : task_columns) : task_columns :=
  mkColumns (c_name c) (c_type c) (c_profiler_type c) (c_target_ip c) (c_request_params c)
    (c_analysis_status c) (c_uid c) (c_user_name c) (c_create_time c) (c_master_task_tid c)
    (c_cos_key c) (Some now).

Definition set_info (info : string) (r : task_row) : task_row :=
  mkTask (t_status r) info (t_begin_time r) (t_end_time r) (t_cols r).

(** Apply [f] to the row unless it is deleted. *)
Definition if_live (f : task_row → task_row) (r : task_row) : task_row :=
  if deleted r then r else f r.

Inductive api_stmt :=
  | InsertTask (tid info : string) (cols : task_columns)
  | InsertCreation (tid reason : string) (now : Z)
  | UpdateStatus (env : update_env) (tid : string) (newStatus : Z) (reason : string)
  | SetAnalysis (tid : string) (status : Z) (info : string)
  | SetAnalysisAny (tid : string) (status : Z) (info : string)
  | SetCosKey (tid key : string)
  | SoftDelete (tid : string) (now : Z).

(** The effect of a statement that succeeds.  The unique index on [tid] rejects a second
    row, also beside a deleted one.  [SetAnalysis] is the API server's update of
    analysis_status, [SetAnalysisAny] that of the analyzer, which does not ask whether
    the row is deleted. *)
Definition insert_task (tid info : string) (cols : task_columns) (d : database) : database :=
  match hotmethod_task d !! tid with
  | Some _ => d
  | None => set_tasks <[tid := mkTask kPending info None None cols]> d
  end.

Definition insert_creation (tid reason : string) (now : Z) : database → database :=
  add_history (mkHistory tid (-1) kPending reason now).

Definition analysis_row (status : Z) (info : string) (r : task_row) : task_row :=
  set_info info (with_cols (set_analysis status) r).

Definition api_effect (st : api_stmt) (d : database) : database :=
  match st with
  | InsertTask tid info cols => insert_task tid info cols d
  | InsertCreation tid reason now => insert_creation tid reason now d
  | UpdateStatus env tid n reason => committed (updateTaskStatus env tid n reason (mkSession d NoTxn)).2
  | SetAnalysis tid status info => set_tasks (alter (if_live (analysis_row status info)) tid) d
  | SetAnalysisAny tid status info => set_tasks (alter (analysis_row status info) tid) d
  | SetCosKey tid key => set_tasks (alter (if_live (with_cols (set_cos_key key))) tid) d
  | SoftDelete tid now => set_tasks (alter (if_live (with_cols (set_deleted now))) tid) d
  end.

(** A creation row is written after its task. *)
Definition api_pre (st : api_stmt) (d : database) : Prop :=
  match st with InsertCreation tid _ _ => is_Some (hotmethod_task d !! tid) | _ => True end.

(** * Lemmas *)

Lemma isTransitionAllowed_IsTransitionAllowed old new :
  isTransitionAllowed old new = IsTransitionAllowed old new.
Proof.
  unfold isTransitionAllowed, IsTransitionAllowed, kPending, kRunning, kUploading, kDone, kFailed.
  repeat match goal with
  | |- context [Z.eqb ?x ?y] => destruct (Z.eqb_spec x y); subst; simpl
  end; try lia; done.
Qed.

(** The update of a row that is not deleted is that of drop_server. *)
Definition api_update_spec (env : update_env) (tid : string) (n : Z) (reason0 : string)
    (d : database) : database :=
  let reason := if decide (reason0 = "") then "no reason provided" else reason0 in
  match find_live tid d with Some _ => update_spec env tid n reason d | None => d end.

Definition api_update_error (env : update_env) (tid : string) (n : Z) (d : database)
    : option api_error :=
  if negb (u_begin env) then Some BeginFailed else
  if negb (u_select env) then Some TaskNotFound else
  match find_live tid d with
  | None => Some TaskNotFound
  | Some r =>
      if negb (IsTransitionAllowed (t_status r) n) then Some (IllegalTransition (t_status r) n)
      else if negb (u_update env) then Some UpdateFailed
      else if negb (u_insert env) then Some HistoryFailed
      else match u_commit env with CommitOk => None | CommitError _ => Some CommitFailed end
  end.

Lemma find_live_Some tid d r :
  find_live tid d = Some r → hotmethod_task d !! tid = Some r ∧ deleted r = false.
Proof.
  unfold find_live. destruct (hotmethod_task d !! tid) as [r'|]; [|done].
  destruct (deleted r') eqn:E; naive_solver.
Qed.

Lemma updateTaskStatus_atomic env tid n reason d :
  updateTaskStatus env tid n reason (mkSession d NoTxn) =
  (api_update_error env tid n d, mkSession (api_update_spec env tid n reason d) NoTxn).
Proof.
  unfold updateTaskStatus, api_update_spec, api_update_error, update_spec, env_commits.
  destruct (find_live tid d) as [row|] eqn:Hf.
  - apply find_live_Some in Hf as Hr. destruct Hr as [Hrow _]. rewrite Hrow.
    destruct (u_begin env); simpl; [|by rewrite andb_false_r].
    destruct (u_select env); simpl; [|by rewrite andb_false_r].
    rewrite Hf, isTransitionAllowed_IsTransitionAllowed. simpl.
    destruct (IsTransitionAllowed _ _); simpl; [|done].
    destruct (u_update env); simpl; [|done]. destruct (u_insert env); simpl; [|done].
    by destruct (u_commit env) as [|[]].
  - destruct (u_begin env); simpl; [|done]. destruct (u_select env); simpl; [|done].
    by rewrite Hf.
Qed.

Lemma api_update_effect env tid n reason d :
  api_effect (UpdateStatus env tid n reason) d = api_update_spec env tid n reason d.
Proof. unfold api_effect. by rewrite updateTaskStatus_atomic. Qed.

Lemma api_update_cases env tid n reason d :
  api_update_spec env tid n reason d = d ∨
  ∃ reason', api_update_spec env tid n reason d = update_spec env tid n reason' d.
Proof. unfold api_update_spec. destruct (find_live tid d); eauto. Qed.

(** * Claims *)

(** C24: The Go server and the C++ server update a task in the same way: their transition
    tests agree on all numbers, and on a task that is not deleted updateTaskStatus and
    UpdateTaskStatus leave the same session whatever PostgreSQL answers to the
    statements, the Go one reporting success exactly when the transition is legal
    and every statement succeeded.  On a task that was deleted they part: the API
    server does not find it, drop_server goes on. *)
Theorem api_update_equals_server_update env tid n reason d :
  statuses_ok d → c_str tid = tid → c_str reason = reason → reason ≠ "" →
  let go := updateTaskStatus env tid n reason (mkSession d NoTxn) in
  let cpp := UpdateTaskStatus env tid n reason (mkSession d NoTxn) in
  (∀ old new, isTransitionAllowed old new = IsTransitionAllowed old new) ∧
  match hotmethod_task d !! tid with
  | Some r =>
      if deleted r then go.1 ≠ None ∧ go.2 = mkSession d NoTxn ∧ cpp = Ret (mkSession (update_spec env tid n reason d) NoTxn)
      else cpp = Ret go.2 ∧
        (go.1 = None ↔ legal (t_status r) n ∧ u_begin env = true ∧ u_select env = true ∧ u_update env = true ∧
                       u_insert env = true ∧ u_commit env = CommitOk)
  | None => go.1 ≠ None ∧ cpp = Ret go.2
  end.
Proof.
  intros Hok Htid Hreason Hne go cpp. split; [apply isTransitionAllowed_IsTransitionAllowed|].
  subst go cpp. rewrite updateTaskStatus_atomic, UpdateTaskStatus_atomic, Htid, Hreason by done. cbn [fst snd].
  unfold api_update_error, api_update_spec, find_live, update_spec. rewrite decide_False by done.
  destruct (hotmethod_task d !! tid) as [r|]; [destruct (deleted r)|].
  - split_and!; [|done..]. by destruct (u_begin env), (u_select env).
  - split; [done|]. rewrite <-IsTransitionAllowed_legal.
    destruct (u_begin env), (u_select env), (IsTransitionAllowed (t_status r) n), (u_update env), (u_insert env),
      (u_commit env); simpl; naive_solver.
  - split; [|done]. by destruct (u_begin env), (u_select env).
Qed.

Lemma api_update_equals_server_update_witness :
  UpdateTaskStatus env_fine "t1" 2 "up" (mkSession db1 NoTxn) =
  Ret (updateTaskStatus env_fine "t1" 2 "up" (mkSession db1 NoTxn)).2.
Proof.
  apply (api_update_equals_server_update env_fine "t1" 2 "up" db1).
  - apply statuses_ok_db1.
  - reflexivity.
  - reflexivity.
  - discriminate.
Defined.
