(* ===== verification/ApiServer.v ===== *)
(** apiserver: the REST server.  The tables of model.go that drop_server does not use,
    the requests of handler.go, and the handlers of tasks, users, groups and agents.

    A handler takes what the request carries (after gin's binding and the Auth
    middleware), the answers of PostgreSQL and the clock, and the state; it returns
    the reply, the new state and the goroutines it started.  Statements name their
    columns: one that names a column the table does not have fails. *)
From stdpp Require Import base gmap strings list sorting.
From Stdlib Require Import ZArith Lia Ascii.
From S2P Require Import Prelude CppString Json Proto PGStore ApiStatements.

(** * Tables *)

Inductive table :=
  | user_info_t | agent_info_t | hotmethod_task_t | multi_tasks_t | groups_t | group_members_t
  | analysis_suggestion_t | continuous_profile_segments_t.

Definition base_columns : list string := ["id"; "created_at"; "updated_at"; "deleted_at"].

(** The columns AutoMigrate creates: the [column:] tag of a field, or its name in snake
    case. *)
Definition columns (t : table) : list string :=
  match t with
  | user_info_t => base_columns ++ ["uid"; "name"; "groups"; "key"]
  | agent_info_t => base_columns ++ ["hostname"; "ip_addr"; "online"; "uid"; "gid"; "version";
      "environment"; "last_hb"]
  | hotmethod_task_t => base_columns ++ ["tid"; "name"; "type"; "profiler_type"; "target_ip";
      "request_params"; "status"; "status_info"; "analysis_status"; "uid"; "user_name";
      "create_time"; "begin_time"; "end_time"; "master_task_tid"; "cos_key"]
  | multi_tasks_t => ["t_id"; "sub_t_ids"; "type"; "status"; "analysis_status"; "trigger_type";
      "cron_expr"; "schedule_params"; "enabled"]
  | groups_t => ["gid"; "name"; "owner_id"]
  | group_members_t => ["gid"; "uid"]
  | analysis_suggestion_t => base_columns ++ ["t_id"; "func"; "suggestion"; "ai_suggestion"; "status"]
  | continuous_profile_segments_t => ["id"; "tid"; "start_ts"; "end_ts"; "s3_key"]
  end.

(** The columns a statement names are there. *)
Definition names_ok (t : table) (cols : list string) : bool :=
  forallb (λ c, bool_decide (c ∈ columns t)) cols.

Record user_row := mkUser { us_uid : string; us_name : string; us_groups : string }.

Record multi_task := mkMulti {
  mt_sub_tids : json;
  mt_type : Z;
  mt_status : Z;
  mt_analysis_status : Z;
  mt_trigger_type : Z;
  mt_cron_expr : string;
  mt_schedule_params : json;
  mt_enabled : bool;
}.

Record group_row := mkGroup { gr_gid : Z; gr_name : string; gr_owner_id : string }.

Record suggestion := mkSuggestion {
  sg_tid : string;
  sg_func : string;
  sg_suggestion : string;
  sg_ai_suggestion : string;
  sg_status : Z;
}.

Record segment := mkSegment {
  sg_id : Z;
  seg_tid : string;
  start_ts : Z;
  end_ts : Z;
  s3_key : string;
}.

(** The in-memory cron: [CronScheduler.entry] and the engine's own entries. *)
Record cron := mkCron {
  cr_entry : gmap string Z;
  cr_engine : gmap Z (string * string);
  cr_next_id : Z;
}.

(** [ap_grpc]: there is a connection to drop_server; [ap_store]: the object storage. *)
Record api := mkApi {
  ap_db : database;
  ap_users : gmap string user_row;
  ap_agent_gid : gmap Z Z;
  ap_multi : gmap string multi_task;
  ap_groups : list group_row;
  ap_groups_seq : Z;
  ap_members : gset (Z * string);
  ap_suggestions : list suggestion;
  ap_segments : list segment;
  ap_segments_seq : Z;
  ap_cron : cron;
  ap_grpc : bool;
  ap_store : option (gmap string string);
}.

Definition set_db (d : database) (a : api) : api :=
  mkApi d (ap_users a) (ap_agent_gid a) (ap_multi a) (ap_groups a) (ap_groups_seq a) (ap_members a)
    (ap_suggestions a) (ap_segments a) (ap_segments_seq a) (ap_cron a) (ap_grpc a) (ap_store a).
Definition set_users (u : gmap string user_row) (a : api) : api :=
  mkApi (ap_db a) u (ap_agent_gid a) (ap_multi a) (ap_groups a) (ap_groups_seq a) (ap_members a)
    (ap_suggestions a) (ap_segments a) (ap_segments_seq a) (ap_cron a) (ap_grpc a) (ap_store a).
Definition set_agent_gid (g : gmap Z Z) (a : api) : api :=
  mkApi (ap_db a) (ap_users a) g (ap_multi a) (ap_groups a) (ap_groups_seq a) (ap_members a)
    (ap_suggestions a) (ap_segments a) (ap_segments_seq a) (ap_cron a) (ap_grpc a) (ap_store a).
Definition set_multi (m : gmap string multi_task) (a : api) : api :=
  mkApi (ap_db a) (ap_users a) (ap_agent_gid a) m (ap_groups a) (ap_groups_seq a) (ap_members a)
    (ap_suggestions a) (ap_segments a) (ap_segments_seq a) (ap_cron a) (ap_grpc a) (ap_store a).
Definition add_group (name owner : string) (a : api) : api :=
  mkApi (ap_db a) (ap_users a) (ap_agent_gid a) (ap_multi a)
    (ap_groups a ++ [mkGroup (ap_groups_seq a + 1) name owner]) (ap_groups_seq a + 1)
    (ap_members a) (ap_suggestions a) (ap_segments a) (ap_segments_seq a) (ap_cron a) (ap_grpc a)
    (ap_store a).
Definition set_members (m : gset (Z * string)) (a : api) : api :=
  mkApi (ap_db a) (ap_users a) (ap_agent_gid a) (ap_multi a) (ap_groups a) (ap_groups_seq a) m
    (ap_suggestions a) (ap_segments a) (ap_segments_seq a) (ap_cron a) (ap_grpc a) (ap_store a).
Definition set_suggestions (l : list suggestion) (a : api) : api :=
  mkApi (ap_db a) (ap_users a) (ap_agent_gid a) (ap_multi a) (ap_groups a) (ap_groups_seq a)
    (ap_members a) l (ap_segments a) (ap_segments_seq a) (ap_cron a) (ap_grpc a) (ap_store a).
Definition add_segment (tid : string) (st en : Z) (key : string) (a : api) : api :=
  mkApi (ap_db a) (ap_users a) (ap_agent_gid a) (ap_multi a) (ap_groups a) (ap_groups_seq a)
    (ap_members a) (ap_suggestions a)
    (ap_segments a ++ [mkSegment (ap_segments_seq a + 1) tid st en key]) (ap_segments_seq a + 1)
    (ap_cron a) (ap_grpc a) (ap_store a).
Definition set_cron (c : cron) (a : api) : api :=
  mkApi (ap_db a) (ap_users a) (ap_agent_gid a) (ap_multi a) (ap_groups a) (ap_groups_seq a)
    (ap_members a) (ap_suggestions a) (ap_segments a) (ap_segments_seq a) c (ap_grpc a) (ap_store a).
Definition set_store (s : option (gmap string string)) (a : api) : api :=
  mkApi (ap_db a) (ap_users a) (ap_agent_gid a) (ap_multi a) (ap_groups a) (ap_groups_seq a)
    (ap_members a) (ap_suggestions a) (ap_segments a) (ap_segments_seq a) (ap_cron a) (ap_grpc a) s.

(** A statement of [ApiStatements], when it succeeds. *)
Definition run_stmt (ok : bool) (st : api_stmt) (a : api) : api :=
  if ok then set_db (api_effect st (ap_db a)) a else a.

(** * Requests and replies *)

Record CreateTaskReq := mkReq {
  rq_name : string;
  rq_type : Z;
  rq_profiler_type : Z;
  rq_target_ip : string;
  rq_pid : Z;
  rq_duration : Z;
  rq_hz : Z;
  rq_event : string;
}.

Definition zero_req : CreateTaskReq := mkReq "" 0 0 "" 0 0 0 "".

Definition marshal_req (r : CreateTaskReq) : json :=
  JObj [("name", JStr (rq_name r)); ("type", JNum (rq_type r));
        ("profiler_type", JNum (rq_profiler_type r)); ("target_ip", JStr (rq_target_ip r));
        ("pid", JNum (rq_pid r)); ("duration", JNum (rq_duration r)); ("hz", JNum (rq_hz r));
        ("event", JStr (rq_event r))].

Definition req_names : list string :=
  ["name"; "type"; "profiler_type"; "target_ip"; "pid"; "duration"; "hz"; "event"].

Definition set_req_field (n : string) (j : json) (r : CreateTaskReq) : CreateTaskReq :=
  let at_ := λ x, bool_decide (n = x) in
  mkReq (if at_ "name" then as_str j (rq_name r) else rq_name r)
    (if at_ "type" then as_int j (rq_type r) else rq_type r)
    (if at_ "profiler_type" then as_int j (rq_profiler_type r) else rq_profiler_type r)
    (if at_ "target_ip" then as_str j (rq_target_ip r) else rq_target_ip r)
    (if at_ "pid" then as_int j (rq_pid r) else rq_pid r)
    (if at_ "duration" then as_int j (rq_duration r) else rq_duration r)
    (if at_ "hz" then as_int j (rq_hz r) else rq_hz r)
    (if at_ "event" then as_str j (rq_event r) else rq_event r).

Definition unmarshal_req (j : json) : CreateTaskReq := unmarshal req_names set_req_field j zero_req.

(** HTTP status, the [code] of the body, its [data]. *)
Record reply (A : Type) := mkReply { http : Z; rcode : Z; rdata : option A }.
Arguments mkReply {A} _ _ _.
Arguments http {A} _.
Arguments rcode {A} _.
Arguments rdata {A} _.
Definition fail {A} (status c : Z) : reply A := mkReply status c None.
Definition done_with {A} (x : A) : reply A := mkReply 200 0 (Some x).

(** [go s.dispatchTask(tid, req)] *)
Definition goroutine : Type := string * CreateTaskReq.

(** * Auth

    The cookies of a request; [None] aborts it. *)
Definition Auth (devMode : bool) (uid name : string) : option (string * string) :=
  let '(uid, name) := if devMode && bool_decide (uid = "") then ("dev-uid", "developer") else (uid, name) in
  if bool_decide (uid = "") then None else Some (uid, name).

Definition AuthCheck (devMode : bool) (uid : string) : reply string :=
  if bool_decide (uid = "") && negb devMode then fail 401 4010001
  else done_with (if bool_decide (uid = "") then "dev-uid" else uid).

(** * Who sees what

    [uid = ? OR uid IN (SELECT uid FROM group_members WHERE gid IN (SELECT gid FROM
    group_members WHERE uid = ?))] *)
Definition shares_group (uid owner : string) (members : gset (Z * string)) : bool :=
  existsb (λ m, bool_decide (m.2 = owner) && bool_decide ((m.1, uid) ∈ members)) (elements members).
Definition visible (uid owner : string) (members : gset (Z * string)) : bool :=
  bool_decide (owner = uid) || shares_group uid owner members.

Definition find_visible (tid uid : string) (a : api) : option task_row :=
  match find_live tid (ap_db a) with
  | Some r => if visible uid (c_uid (t_cols r)) (ap_members a) then Some r else None
  | None => None
  end.

(** * Users *)

(** [found], [created]: the answers to the two statements. *)
Definition GetUser (found created : bool) (uid name : string) (a : api) : reply user_row * api :=
  match (if found then ap_users a !! uid else None) with
  | Some u => (done_with u, a)
  | None =>
      (** The unique index rejects a second row. *)
      if created && bool_decide (ap_users a !! uid = None)
      then let u := mkUser uid name "[]" in (done_with u, set_users (<[uid := u]> (ap_users a)) a)
      else (fail 500 5000001, a)
  end.

(** * Tasks *)

(** The random bytes of [crypto/rand]. *)
Definition tid_charset : list ascii :=
  String.list_ascii_of_string "abcdefghijklmnopqrstuvwxyz0123456789".
Definition genTID (randBytes : list Z) : string :=
  String.string_of_list_ascii
    (map (λ b, default "a"%char (tid_charset !! Z.to_nat (b mod 36))) (take 12 randBytes)).

(** The answers while a task is created: the clock, the two inserts, and the update
    that marks it FAILED. *)
Record create_env := mkCreateEnv {
  ce_rand : list Z;
  ce_now : Z;
  ce_insert : bool;
  ce_history : bool;
  ce_update : update_env;
}.

(** [s.db.Create(&task)] followed by the creation row; [None] when the insert fails. *)
Definition create_rows (env : create_env) (tid info : string) (cols : task_columns) (a : api) : option api :=
  if ce_insert env && bool_decide (hotmethod_task (ap_db a) !! tid = None) then
    let a1 := run_stmt true (InsertTask tid info cols) a in
    Some (run_stmt (ce_history env) (InsertCreation tid info (ce_now env)) a1)
  else None.

Definition new_columns (name : string) (type profiler_type : Z) (target_ip : string) (params : json)
    (uid user_name : string) (now : Z) (master : string) : task_columns :=
  mkColumns name type profiler_type target_ip (jsonb params) 0 uid user_name now master "" None.

(** [req] is [None] when the body does not bind. *)
Definition CreateTask (env : create_env) (req : option CreateTaskReq) (uid userName : string) (a : api)
    : reply string * api * list goroutine :=
  match req with
  | None => (fail 400 4000001, a, [])
  | Some req =>
      let tid := genTID (ce_rand env) in
      let cols := new_columns (rq_name req) (rq_type req) (rq_profiler_type req) (rq_target_ip req)
        (marshal_req req) uid userName (ce_now env) "" in
      match create_rows env tid "任务已创建" cols a with
      | None => (fail 500 5000002, a, [])
      | Some a1 =>
          if ap_grpc a1 then (done_with tid, a1, [(tid, req)])
          else
            let reason := "gRPC connection unavailable, cannot dispatch task to drop_server" in
            (done_with tid, run_stmt true (UpdateStatus (ce_update env) tid kFailed reason) a1, [])
      end
  end.

(** The rows of [hotmethod_task] in the order of creation, the newest first. *)
Definition newer (x y : string * task_row) : Prop :=
  c_create_time (t_cols y.2) <= c_create_time (t_cols x.2).
#[global] Instance newer_dec : RelDecision newer.
Proof. intros x y. unfold newer. apply _. Defined.

Definition visible_tasks (uid : string) (a : api) : list (string * task_row) :=
  filter (λ x, negb (deleted x.2) && visible uid (c_uid (t_cols x.2)) (ap_members a))
    (map_to_list (hotmethod_task (ap_db a))).

Record task_page := mkPage { pg_list : list (string * task_row); pg_total : Z; pg_page : Z }.

(** [page] and [page_size] as [strconv.Atoi] gives them; a negative limit or offset is
    none.  A statement that fails leaves its result empty. *)
Definition ListTasks (count_ok find_ok : bool) (uid : string) (page0 pageSize0 : Z) (a : api)
    : reply task_page :=
  let pageSize := if 100 <? pageSize0 then 100 else pageSize0 in
  let page := if page0 <? 1 then 1 else page0 in
  let tasks := merge_sort newer (visible_tasks uid a) in
  let rest := drop (Z.to_nat (wrap_s 64 ((page - 1) * pageSize))) tasks in
  done_with (mkPage
    (if negb find_ok then [] else if pageSize <? 0 then rest else take (Z.to_nat pageSize) rest)
    (if count_ok then Z.of_nat (length tasks) else 0) page).

(** Objects of the storage under a prefix, in some order. *)
Definition objects_under (prefix : string) (store : gmap string string) : list string :=
  filter (λ k, str_take (String.length prefix) k = prefix) (map fst (map_to_list store)).

(** [key[strings.LastIndex(key, "/")+1:]] *)
Definition base_name (key : string) : string :=
  match rfind_char "/"%char key with Some i => str_drop (S i) key | None => key end.

Definition GetTask (select_ok list_ok : bool) (tid uid : string) (a : api)
    : reply (task_row * option (list (string * string))) :=
  match (if select_ok then find_visible tid uid a else None) with
  | None => fail 404 4040001
  | Some task =>
      done_with (task,
        match ap_store a with
        | Some store =>
            let keys := if list_ok then objects_under (tid +:+ "/") store else [] in
            match keys with [] => None | _ => Some (map (λ k, (base_name k, k)) keys) end
        | None => None
        end)
  end.

(** [s.db.Where("tid = ?", tid).Delete(&model.AnalysisSuggestion{})] *)
Definition delete_suggestions (ok : bool) (tid : string) (a : api) : api :=
  if ok && names_ok analysis_suggestion_t ["tid"]
  then set_suggestions (filter (λ g, sg_tid g ≠ tid) (ap_suggestions a)) a else a.

(** The deletion of an object may fail ([obj_ok]); the handler does not look. *)
Definition DeleteTask (del_ok sug_ok list_ok : bool) (obj_ok : string → bool) (now : Z) (tid uid : string) (a : api)
    : reply string * api :=
  match (if del_ok then find_visible tid uid a else None) with
  | None => (fail 404 4040002, a)
  | Some _ =>
      let a1 := delete_suggestions sug_ok tid (run_stmt true (SoftDelete tid now) a) in
      (done_with tid,
       match ap_store a1 with
       | Some store =>
           let keys := if list_ok then objects_under (tid +:+ "/") store else [] in
           set_store (Some (foldr delete store (filter (λ key, obj_ok key = true) keys))) a1
       | None => a1
       end)
  end.

Definition RetryTask (select_ok : bool) (env : update_env) (tid uid : string) (a : api)
    : reply string * api * list goroutine :=
  let found :=
    match (if select_ok then find_live tid (ap_db a) else None) with
    | Some r => if bool_decide (c_uid (t_cols r) = uid) && (t_status r =? kFailed) then Some r else None
    | None => None
    end in
  match found with
  | None => (fail 400 4000002, a, [])
  | Some oldTask =>
      let '(err, s) := updateTaskStatus env tid kPending "用户触发重试" (mkSession (ap_db a) NoTxn) in
      let a1 := set_db (committed s) a in
      match err with
      | Some _ => (fail 500 5000003, a1, [])
      | None =>
          (done_with tid, a1,
           if ap_grpc a1 then [(tid, unmarshal_req (c_request_params (t_cols oldTask)))] else [])
      end
  end.

(** * dispatchTask *)

(** [uint32(x)], [uint64(x)], [int32(x)] of a Go [int] wrap around. *)
Definition dispatch_request (tid : string) (req : CreateTaskReq) : CreateTaskRequest :=
  mkCreateTaskRequest (rq_target_ip req) "hotmethod"
    (mkTaskDesc tid (to_u32 (rq_type req)) (to_u32 (rq_profiler_type req))
       (mkRecordArgv (to_u32 (rq_hz req)) (to_u64 (rq_duration req)) (to_i32 (rq_pid req)) "" false
          (rq_event req))
       "" 0 0 default_cos "").

(** What follows the call: [resp] is its response, or the text of its error. *)
Definition dispatch_outcome (env : update_env) (tid : string) (resp : CreateTaskResponse + string) (a : api) : api :=
  match resp with
  | inr err =>
      run_stmt true (UpdateStatus env tid kFailed ("gRPC ControlService.CreateTask failed: " +:+ err)) a
  | inl r =>
      if ct_success r then a
      else run_stmt true (UpdateStatus env tid kFailed ("drop_server rejected task: " +:+ ct_message r)) a
  end.

(** * Agents *)

Definition ListAgents (ok : bool) (uid : string) (a : api) : reply (list agent_row) :=
  done_with (if ok then filter (λ r, visible uid (a_uid r) (ap_members a)) (agent_info (ap_db a)) else []).

(** [proxied] is the answer of drop_server's StatAgent, when it answers. *)
Definition StatAgent (ok : bool) (proxied : option (list AgentInfo)) (ip : string) (a : api) : reply (list AgentInfo) :=
  match (if ap_grpc a then proxied else None) with
  | Some agents => done_with agents
  | None =>
      done_with (if negb ok then [] else map (λ r, mkAgentInfo (a_hostname r) (a_ip_addr r) (a_online r) (a_uid r) (a_version r))
        (filter (λ r, bool_decide (ip = "") || bool_decide (a_ip_addr r = ip)) (agent_info (ap_db a))))
  end.

Definition ListCosFiles (list_ok : bool) (tid : string) (a : api) : reply (list (string * string)) :=
  if bool_decide (tid = "") then fail 400 4000004 else
  match ap_store a with
  | None => fail 503 5030001
  | Some store =>
      if list_ok then done_with (map (λ k, (base_name k, k)) (objects_under (tid +:+ "/") store))
      else fail 500 5000004
  end.

(** * Groups *)

Definition CreateGroup (ins_ok mem_ok : bool) (name : option string) (uid : string) (a : api)
    : reply Z * api :=
  match name with
  | None => (fail 400 4000005, a)
  | Some name =>
      if ins_ok && bool_decide (Forall (λ g, gr_name g ≠ name) (ap_groups a)) then
        let a1 := add_group name uid a in
        let gid := ap_groups_seq a1 in
        (done_with gid, if mem_ok then set_members ({[(gid, uid)]} ∪ ap_members a1) a1 else a1)
      else (fail 500 5000005, a)
  end.

Definition ListGroups (pluck_ok find_ok : bool) (uid : string) (a : api) : reply (list group_row) :=
  done_with (if negb (pluck_ok && find_ok) then [] else filter (λ g, (gr_gid g, uid) ∈ ap_members a) (ap_groups a)).

Definition AddGroupMember (ok : bool) (req : option (Z * string)) (a : api) : reply unit * api :=
  match req with
  | None => (fail 400 4000006, a)
  | Some m => if ok then (done_with tt, set_members ({[m]} ∪ ap_members a) a) else (fail 500 5000006, a)
  end.

Definition RemoveGroupMember (ok : bool) (req : option (Z * string)) (a : api) : reply unit * api :=
  match req with
  | None => (fail 400 4000007, a)
  | Some m => (done_with tt, if ok then set_members (ap_members a ∖ {[m]}) a else a)
  end.

(** The request is the pair of gid and agent id. *)
Definition AddGroupAgent (ok : bool) (req : option (Z * Z)) (a : api) : reply unit * api :=
  match req with
  | None => (fail 400 4000008, a)
  | Some (gid, id) =>
      (done_with tt,
       if ok && bool_decide (id ∈ map a_id (agent_info (ap_db a)))
       then set_agent_gid (<[id := gid]> (ap_agent_gid a)) a else a)
  end.

Definition RemoveGroupAgent (ok : bool) (req : option (Z * Z)) (a : api) : reply unit * api :=
  match req with
  | None => (fail 400 4000009, a)
  | Some (gid, id) =>
      (done_with tt,
       if ok && bool_decide (id ∈ map a_id (agent_info (ap_db a))) && bool_decide (ap_agent_gid a !! id = Some gid)
       then set_agent_gid (<[id := 0]> (ap_agent_gid a)) a else a)
  end.

(** * Lemmas *)

(** ** What the handlers write to the shared tables: statements of [ApiStatements] *)

(** No handler writes the state of an analysis. *)
Definition no_analysis (st : api_stmt) : Prop :=
  match st with
  | InsertTask _ _ cols => c_analysis_status cols = 0
  | SetAnalysis _ _ _ | SetAnalysisAny _ _ _ => False
  | _ => True
  end.

Definition api_write (d d' : database) : Prop :=
  ∃ st, no_analysis st ∧ api_pre st d ∧ d' = api_effect st d.

Lemma run_stmt_write ok st a :
  no_analysis st → api_pre st (ap_db a) → rtc api_write (ap_db a) (ap_db (run_stmt ok st a)).
Proof. intros Hn Hpre. destruct ok; simpl; [|done]. apply rtc_once. by exists st. Qed.

Lemma ap_db_set_db d a : ap_db (set_db d a) = d.
Proof. done. Qed.

Lemma create_rows_write env tid info cols a a' :
  c_analysis_status cols = 0 →
  create_rows env tid info cols a = Some a' → rtc api_write (ap_db a) (ap_db a').
Proof.
  intros Hc. unfold create_rows. destruct (_ && _) eqn:E; [|done]. intros [= <-].
  apply andb_true_iff in E as [_ Hno%bool_decide_eq_true].
  etrans; [by apply (run_stmt_write true (InsertTask tid info cols))|].
  apply run_stmt_write; [done|]. simpl. unfold insert_task. rewrite Hno. simpl.
  rewrite lookup_insert_eq. by eexists.
Qed.

Lemma CreateTask_write env req uid name a r a' gs :
  CreateTask env req uid name a = (r, a', gs) → rtc api_write (ap_db a) (ap_db a').
Proof.
  unfold CreateTask. destruct req as [req|]; [|by intros; simplify_eq].
  destruct (create_rows _ _ _ _ _) as [a1|] eqn:E; [|by intros; simplify_eq].
  apply create_rows_write in E; [|done]. destruct (ap_grpc a1); intros; simplify_eq; [done|].
  etrans; [done|]. by apply run_stmt_write.
Qed.

Lemma DeleteTask_write b1 b2 b3 ok now tid uid a r a' :
  DeleteTask b1 b2 b3 ok now tid uid a = (r, a') → rtc api_write (ap_db a) (ap_db a').
Proof.
  unfold DeleteTask. destruct (if b1 then _ else _); [|by intros; simplify_eq].
  intros; simplify_eq.
  assert (ap_db (delete_suggestions b2 tid (run_stmt true (SoftDelete tid now) a)) =
          ap_db (run_stmt true (SoftDelete tid now) a)) as E
    by (unfold delete_suggestions; by destruct (_ && _)).
  destruct (ap_store _); cbn [set_store ap_db]; rewrite E; by apply run_stmt_write.
Qed.

Lemma update_write env tid n reason d :
  api_write d (committed (updateTaskStatus env tid n reason (mkSession d NoTxn)).2).
Proof. by exists (UpdateStatus env tid n reason). Qed.

Lemma RetryTask_write b env tid uid a r a' gs :
  RetryTask b env tid uid a = (r, a', gs) → rtc api_write (ap_db a) (ap_db a').
Proof.
  unfold RetryTask. intros H. pose proof (update_write env tid kPending "用户触发重试" (ap_db a)) as Hw.
  destruct (match (if b then _ else _) with Some _ => _ | None => _ end); [|by simplify_eq].
  destruct (updateTaskStatus _ _ _ _ _) as [err s]. simpl in Hw.
  destruct err; simplify_eq; by apply rtc_once.
Qed.

Lemma dispatch_outcome_write env tid resp a :
  rtc api_write (ap_db a) (ap_db (dispatch_outcome env tid resp a)).
Proof.
  unfold dispatch_outcome. destruct resp as [r|e]; [destruct (ct_success r); [done|]|];
    by apply run_stmt_write.
Qed.

(** ** Requests *)

Definition int64 (z : Z) : Prop := - 2 ^ 63 <= z < 2 ^ 63.
Definition req_wf (r : CreateTaskReq) : Prop :=
  int64 (rq_type r) ∧ int64 (rq_profiler_type r) ∧ int64 (rq_pid r) ∧ int64 (rq_duration r) ∧
  int64 (rq_hz r).

Lemma as_int_num z old : int64 z → as_int (JNum z) old = z.
Proof. intros Hz. simpl. by rewrite bool_decide_eq_true_2. Qed.

(** A request survives the way through the jsonb column, which reorders its keys. *)
Lemma unmarshal_marshal r : req_wf r → unmarshal_req (jsonb (marshal_req r)) = r.
Proof.
  intros (H1 & H2 & H3 & H4 & H5). destruct r as [nm ty pt ip pid du hz ev]. simpl in *.
  unfold unmarshal_req, marshal_req. cbn [jsonb last_keys rq_name rq_type rq_profiler_type
    rq_target_ip rq_pid rq_duration rq_hz rq_event map fst].
  cbv -[as_int as_str int64 Z.pow Z.opp]. by rewrite !as_int_num.
Qed.

(** A retry that succeeds sends what the row says. *)
Lemma RetryTask_sends env tid uid a r :
  find_live tid (ap_db a) = Some r → c_uid (t_cols r) = uid → t_status r = kFailed →
  api_update_error env tid kPending (ap_db a) = None → ap_grpc a = true →
  ∃ rep, RetryTask true env tid uid a =
    (rep, set_db (api_update_spec env tid kPending "用户触发重试" (ap_db a)) a,
     [(tid, unmarshal_req (c_request_params (t_cols r)))]) ∧ http rep = 200.
Proof.
  intros Hf Hu Hs He Hg. unfold RetryTask. rewrite Hf. rewrite (bool_decide_eq_true_2 _ Hu), Hs.
  change (true && (kFailed =? kFailed)) with true. cbn iota.
  rewrite updateTaskStatus_atomic, He. cbn [committed]. exists (done_with tid). split; [|done].
  change (ap_grpc (set_db _ a)) with (ap_grpc a). by rewrite Hg.
Qed.

(** ** Task ids *)

Lemma genTID_chars (P : ascii → Prop) bs :
  Forall P tid_charset → Forall P (String.list_ascii_of_string (genTID bs)).
Proof.
  intros HP. unfold genTID. rewrite String.list_ascii_of_string_of_list_ascii.
  apply Forall_map, Forall_true. intros b.
  destruct (tid_charset !! _) as [c|] eqn:E; simpl.
  - rewrite Forall_forall in HP. apply HP. by eapply list_elem_of_lookup_2.
  - by apply Forall_inv in HP.
Qed.

Lemma genTID_no_char bs c : Forall (λ a, a ≠ c) tid_charset → no_char c (genTID bs).
Proof. intros H. by apply Forall_no_char, genTID_chars. Qed.

(** A generated id is a C string and one path component. *)
Lemma genTID_clean bs : c_str (genTID bs) = genTID bs ∧ no_char "/"%char (genTID bs).
Proof.
  split; [apply c_str_id|]; apply genTID_no_char; apply (bool_decide_unpack _); vm_compute; done.
Qed.

Lemma genTID_length bs : (12 <= length bs)%nat → String.length (genTID bs) = 12%nat.
Proof. intros Hl. unfold genTID. rewrite length_of_chars, length_map, length_take. lia. Qed.

(** ** Pages *)

Lemma concat_pages {A} (n : nat) (l : list A) k :
  concat (map (λ p, take n (drop (p * n) l)) (seq 0 k)) = take (k * n) l.
Proof.
  induction k as [|k IH]; [done|]. rewrite seq_S, map_app, concat_app, IH. simpl.
  rewrite app_nil_r. rewrite <-(take_drop (k * n) (take (n + k * n) l)).
  rewrite take_take, skipn_firstn_comm. f_equal; f_equal; lia.
Qed.
