(* ===== verification/Scheduler.v ===== *)
(** apiserver/server/scheduler.go and the schedule handlers of handler.go: cron rules for
    continuous profiling, in the table [multi_tasks] and in the memory of the cron engine.

    The engine (robfig/cron) keeps functions by the number it gave them; which
    expressions it can parse is the parameter [parses]. *)
From stdpp Require Import base gmap strings list.
From Stdlib Require Import ZArith Lia.
From S2P Require Import Prelude CppString Json Proto PGStore ApiStatements ApiServer.

Definition TriggerCron : Z := 1.
Definition TaskTypeContinuous : Z := 1.

Section Scheduler.
Context (parses : string → bool).

(** * CronScheduler *)

Definition RemoveSchedule (mtTid : string) (c : cron) : cron :=
  match cr_entry c !! mtTid with
  | Some entryID => mkCron (delete mtTid (cr_entry c)) (delete entryID (cr_engine c)) (cr_next_id c)
  | None => c
  end.

(** The result says whether [AddFunc] returned an error. *)
Definition AddSchedule (mtTid cronExpr : string) (c : cron) : bool * cron :=
  let c1 := RemoveSchedule mtTid c in
  if parses cronExpr then
    let entryID := cr_next_id c1 + 1 in
    (true, mkCron (<[mtTid := entryID]> (cr_entry c1)) (<[entryID := (cronExpr, mtTid)]> (cr_engine c1)) entryID)
  else (false, c1).

Definition loadExistingSchedules (find_ok : bool) (a : api) : api :=
  if find_ok then
    set_cron
      (foldl (λ c e, if bool_decide (mt_cron_expr e.2 = "") then c else (AddSchedule e.1 (mt_cron_expr e.2) c).2)
         (ap_cron a)
         (filter (λ e, (mt_trigger_type e.2 =? TriggerCron) && mt_enabled e.2) (map_to_list (ap_multi a)))) a
  else a.

(** [db.Where("tid = ?", mtTid).First(&mt)] on [multi_tasks] *)
Definition first_multi_by_tid (ok : bool) (mtTid : string) (a : api) : option multi_task :=
  if ok && names_ok multi_tasks_t ["tid"] then ap_multi a !! mtTid else None.

(** [db.Model(&mt).Update("sub_tids", ...)] *)
Definition update_sub_tids (ok : bool) (mtTid : string) (subs : json) (a : api) : api :=
  if ok && names_ok multi_tasks_t ["sub_tids"] then
    set_multi (alter (λ mt, mkMulti subs (mt_type mt) (mt_status mt) (mt_analysis_status mt)
      (mt_trigger_type mt) (mt_cron_expr mt) (mt_schedule_params mt) (mt_enabled mt)) mtTid (ap_multi a)) a
  else a.

(** The function the engine calls.  [sel_ok], [upd_ok]: the answers to the statements on
    [multi_tasks]. *)
Definition dispatchContinuousTask (env : create_env) (sel_ok upd_ok : bool) (mtTid : string) (a : api)
    : api * list goroutine :=
  match first_multi_by_tid sel_ok mtTid a with
  | None => (a, [])
  | Some mt =>
      if negb (mt_enabled mt) then (a, []) else
      let p := unmarshal_req (mt_schedule_params mt) in
      let params := mkReq (rq_name p) TaskTypeContinuous (rq_profiler_type p) (rq_target_ip p) (rq_pid p)
        (rq_duration p) (rq_hz p) (rq_event p) in
      let tid := genTID (ce_rand env) in
      let cols := new_columns (rq_name params) TaskTypeContinuous (rq_profiler_type params)
        (rq_target_ip params) (marshal_req params) "cron-system" "cron-scheduler" (ce_now env) mtTid in
      match create_rows env tid "由定时规则自动创建" cols a with
      | None => (a, [])
      | Some a1 =>
          let a2 := update_sub_tids upd_ok mtTid
            (marshal_strings (as_strings (mt_sub_tids mt) ++ [tid])) a1 in
          if ap_grpc a2 then (a2, [(tid, params)])
          else
            (run_stmt true (UpdateStatus (ce_update env) tid kFailed
               "gRPC connection unavailable, cannot dispatch cron task") a2, [])
      end
  end.

(** * Handlers *)

Record CreateScheduleReq := mkScheduleReq {
  sr_name : string;
  sr_cron_expr : string;
  sr_type : Z;
  sr_profiler_type : Z;
  sr_target_ip : string;
  sr_pid : Z;
  sr_duration : Z;
  sr_hz : Z;
}.

Definition schedule_params (req : CreateScheduleReq) : CreateTaskReq :=
  mkReq (sr_name req) TaskTypeContinuous (sr_profiler_type req) (sr_target_ip req) (sr_pid req) 0 (sr_hz req) "".

Definition CreateScheduleTask (rand : list Z) (ins_ok : bool) (req : option CreateScheduleReq) (a : api)
    : reply (string * string) * api :=
  match req with
  | None => (fail 400 4000010, a)
  | Some req =>
      let tid := genTID rand in
      let mt := mkMulti (JArr []) (sr_type req) kPending 0 TriggerCron (sr_cron_expr req)
        (jsonb (marshal_req (schedule_params req))) true in
      if ins_ok && bool_decide (ap_multi a !! tid = None) then
        let a1 := set_multi (<[tid := mt]> (ap_multi a)) a in
        (done_with (tid, sr_cron_expr req), set_cron (AddSchedule tid (sr_cron_expr req) (ap_cron a1)).2 a1)
      else (fail 500 5000010, a)
  end.

(** [Order("created_at DESC")] *)
Definition ListSchedules (ok : bool) (a : api) : reply (list (string * multi_task)) :=
  done_with
    (if ok && names_ok multi_tasks_t ["trigger_type"; "created_at"]
     then filter (λ e, mt_trigger_type e.2 =? TriggerCron) (map_to_list (ap_multi a)) else []).

Definition find_schedule (tid : string) (a : api) : option multi_task :=
  match ap_multi a !! tid with
  | Some mt => if mt_trigger_type mt =? TriggerCron then Some mt else None
  | None => None
  end.

Definition set_enabled (b : bool) (mt : multi_task) : multi_task :=
  mkMulti (mt_sub_tids mt) (mt_type mt) (mt_status mt) (mt_analysis_status mt) (mt_trigger_type mt)
    (mt_cron_expr mt) (mt_schedule_params mt) b.

Definition ToggleSchedule (upd_ok sel_ok : bool) (tid : string) (enabled : option bool) (a : api)
    : reply (string * bool) * api :=
  match enabled with
  | None => (fail 400 4000013, a)
  | Some enabled =>
      match (if upd_ok && names_ok multi_tasks_t ["t_id"; "trigger_type"; "enabled"]
             then find_schedule tid a else None) with
      | None => (fail 404 4040013, a)
      | Some _ =>
          let a1 := set_multi (alter (set_enabled enabled) tid (ap_multi a)) a in
          let c :=
            if enabled then
              match first_multi_by_tid sel_ok tid a1 with
              | Some mt => if bool_decide (mt_cron_expr mt = "") then ap_cron a1
                           else (AddSchedule tid (mt_cron_expr mt) (ap_cron a1)).2
              | None => ap_cron a1
              end
            else RemoveSchedule tid (ap_cron a1) in
          (done_with (tid, enabled), set_cron c a1)
      end
  end.

Definition DeleteSchedule (ok : bool) (tid : string) (a : api) : reply string * api :=
  match (if ok && names_ok multi_tasks_t ["t_id"; "trigger_type"] then find_schedule tid a else None) with
  | None => (fail 404 4040014, a)
  | Some _ =>
      let a1 := set_multi (delete tid (ap_multi a)) a in
      (done_with tid, set_cron (RemoveSchedule tid (ap_cron a1)) a1)
  end.

(** * The invariant of the cron

    Every schedule that is registered has exactly one function in the engine, under the
    number the scheduler remembers, and every function belongs to such a schedule. *)

Definition cron_ok (c : cron) : Prop :=
  (∀ tid id, cr_entry c !! tid = Some id ↔ ∃ expr, cr_engine c !! id = Some (expr, tid)) ∧
  (∀ id, is_Some (cr_engine c !! id) → id <= cr_next_id c).

Definition cron_empty : cron := mkCron ∅ ∅ 0.

Lemma cron_empty_ok : cron_ok cron_empty.
Proof.
  split; cbn [cr_entry cr_engine cron_empty].
  - intros tid id. rewrite !lookup_empty. split; [done|]. by intros [expr ?].
  - intros id. rewrite lookup_empty. by intros [? ?].
Qed.

Lemma RemoveSchedule_ok tid c : cron_ok c → cron_ok (RemoveSchedule tid c).
Proof.
  intros [Hb Hn]. unfold RemoveSchedule. destruct (cr_entry c !! tid) as [i|] eqn:Ei; [|done].
  split; simpl.
  - intros tid' id. rewrite lookup_delete_Some, Hb. split.
    + intros [Hne [expr He]]. exists expr. rewrite lookup_delete_Some. split; [|done].
      intros <-. assert (cr_entry c !! tid' = Some i) as E by (apply Hb; eauto).
      apply Hb in Ei as [e1 E1], E as [e2 E2]. congruence.
    + intros [expr [Hne He]%lookup_delete_Some]. split; [|eauto]. intros <-.
      assert (cr_entry c !! tid = Some id) by (apply Hb; eauto). congruence.
  - intros id [x [_ Hx]%lookup_delete_Some]. apply Hn. eauto.
Qed.

Lemma RemoveSchedule_absent tid c : cr_entry (RemoveSchedule tid c) !! tid = None.
Proof.
  unfold RemoveSchedule. destruct (cr_entry c !! tid) eqn:E; simpl; [apply lookup_delete_eq|done].
Qed.

Lemma AddSchedule_ok tid expr c : cron_ok c → cron_ok (AddSchedule tid expr c).2.
Proof.
  intros Hc%(RemoveSchedule_ok tid). unfold AddSchedule. pose proof (RemoveSchedule_absent tid c) as Hno.
  set (c1 := RemoveSchedule tid c) in *. destruct (parses expr); [|done]. destruct Hc as [Hb Hn].
  assert (cr_engine c1 !! (cr_next_id c1 + 1) = None) as Hfresh.
  { destruct (cr_engine c1 !! (cr_next_id c1 + 1)) eqn:E; [|done].
    assert (cr_next_id c1 + 1 <= cr_next_id c1) by (apply Hn; eauto). lia. }
  split; simpl.
  - intros tid' id. destruct (decide (tid = tid')) as [<-|Hne].
    + rewrite lookup_insert_eq. destruct (decide (cr_next_id c1 + 1 = id)) as [<-|Hi].
      * rewrite lookup_insert_eq. split; [eauto|done].
      * rewrite lookup_insert_ne by done. split; [congruence|]. rewrite <-Hb. congruence.
    + rewrite (lookup_insert_ne _ tid) by done. rewrite Hb.
      destruct (decide (cr_next_id c1 + 1 = id)) as [<-|Hi].
      * rewrite lookup_insert_eq, Hfresh. split; [by intros [? ?]|intros [? ?]; congruence].
      * by rewrite lookup_insert_ne by done.
  - intros id. destruct (decide (cr_next_id c1 + 1 = id)) as [<-|Hi]; [intros _; lia|].
    rewrite lookup_insert_ne by done. intros ?%Hn. lia.
Qed.
End Scheduler.

(** ** Runs of the schedule handlers *)

(** One request to a schedule handler, or one call of the engine. *)
Inductive sched_step (parses : string → bool) : api → api → Prop :=
  | ss_create rand ok req a :
      sched_step parses a (CreateScheduleTask parses rand ok req a).2
  | ss_toggle ok1 ok2 tid en a :
      sched_step parses a (ToggleSchedule parses ok1 ok2 tid en a).2
  | ss_delete ok tid a :
      sched_step parses a (DeleteSchedule ok tid a).2
  | ss_fire env ok1 ok2 id expr tid a :
      cr_engine (ap_cron a) !! id = Some (expr, tid) →
      sched_step parses a (dispatchContinuousTask env ok1 ok2 tid a).1.

(** Neither [tid] nor [sub_tids] is a column of [multi_tasks]. *)
Lemma first_multi_None ok tid a : first_multi_by_tid ok tid a = None.
Proof. unfold first_multi_by_tid. by rewrite andb_false_r. Qed.

Lemma dispatchContinuousTask_nothing env ok1 ok2 tid a :
  dispatchContinuousTask env ok1 ok2 tid a = (a, []).
Proof. unfold dispatchContinuousTask. by rewrite first_multi_None. Qed.

(** What the handlers do to the engine. *)
Lemma ToggleSchedule_cron parses ok1 ok2 tid en a :
  ap_cron (ToggleSchedule parses ok1 ok2 tid en a).2 = ap_cron a ∨
  ap_cron (ToggleSchedule parses ok1 ok2 tid en a).2 = RemoveSchedule tid (ap_cron a) ∧ en = Some false.
Proof.
  unfold ToggleSchedule. destruct en as [[]|]; [| |by left].
  - case_match; [|by left]. rewrite first_multi_None. by left.
  - case_match; [|by left]. by right.
Qed.

Lemma ToggleSchedule_found parses ok2 tid b mt a :
  find_schedule tid a = Some mt →
  ToggleSchedule parses true ok2 tid (Some b) a =
  (done_with (tid, b),
   set_cron (if b then ap_cron a else RemoveSchedule tid (ap_cron a))
     (set_multi (alter (set_enabled b) tid (ap_multi a)) a)).
Proof.
  intros Hf. unfold ToggleSchedule. cbn [andb].
  change (names_ok multi_tasks_t ["t_id"; "trigger_type"; "enabled"]) with true. cbn iota.
  rewrite Hf, first_multi_None. by destruct b.
Qed.

Lemma find_schedule_enabled tid b mt a c :
  find_schedule tid a = Some mt →
  find_schedule tid (set_cron c (set_multi (alter (set_enabled b) tid (ap_multi a)) a)) =
  Some (set_enabled b mt).
Proof.
  unfold find_schedule. simpl. rewrite lookup_alter_eq. destruct (ap_multi a !! tid); [|done]. simpl.
  destruct (_ =? _); [|done]. by intros [= ->].
Qed.

Lemma sched_step_cron parses a a' :
  sched_step parses a a' → cron_ok (ap_cron a) → cron_ok (ap_cron a').
Proof.
  destruct 1 as [rand ok req a|ok1 ok2 tid en a|ok tid a|env ok1 ok2 id expr tid a _]; intros Hc.
  - unfold CreateScheduleTask. destruct req; [|done]. destruct (_ && _); [|done].
    by apply AddSchedule_ok.
  - destruct (ToggleSchedule_cron parses ok1 ok2 tid en a) as [->|[-> _]];
      [done|by apply RemoveSchedule_ok].
  - unfold DeleteSchedule. case_match; [|done]. by apply RemoveSchedule_ok.
  - by rewrite dispatchContinuousTask_nothing.
Qed.

Lemma sched_run_cron parses a a' :
  rtc (sched_step parses) a a' → cron_ok (ap_cron a) → cron_ok (ap_cron a').
Proof. induction 1; eauto using sched_step_cron. Qed.

Lemma loadExistingSchedules_ok parses ok a :
  cron_ok (ap_cron a) → cron_ok (ap_cron (loadExistingSchedules parses ok a)).
Proof.
  intros Hc. unfold loadExistingSchedules. destruct ok; [|done]. simpl.
  generalize (filter (λ e : string * multi_task, (mt_trigger_type e.2 =? TriggerCron) && mt_enabled e.2)
    (map_to_list (ap_multi a))) as l.
  revert Hc. generalize (ap_cron a) as c. intros c Hc l. revert c Hc.
  induction l as [|e l IH]; intros c Hc; [done|]. simpl. apply IH.
  destruct (bool_decide _); [done|by apply AddSchedule_ok].
Qed.

(** The tables the schedule handlers leave alone. *)
Lemma sched_step_db parses a a' : sched_step parses a a' → ap_db a' = ap_db a.
Proof.
  destruct 1 as [rand ok req a|ok1 ok2 tid en a|ok tid a|env ok1 ok2 id expr tid a _].
  - unfold CreateScheduleTask. destruct req; [|done]. by destruct (_ && _).
  - unfold ToggleSchedule. destruct en as [en|]; [|done]. by case_match.
  - unfold DeleteSchedule. by case_match.
  - by rewrite dispatchContinuousTask_nothing.
Qed.

(** * Claims *)

Definition api0 : api :=
  mkApi (mkDb [] 0 ∅ [] []) ∅ ∅ ∅ [] 0 ∅ [] [] 0 cron_empty true (Some ∅).

Definition sched1 : CreateScheduleReq := mkScheduleReq "nightly" "0 0 3 * * *" 1 3 "10.0.0.1" 42 0 99.
Definition rand1 : list Z := [0; 1; 2; 3; 4; 5; 6; 7; 8; 9; 10; 11].

(** C37: The bookkeeping of the cron rules is right and the rules have no effect: however
    schedules are created, toggled, deleted and fired after the start, every
    registered schedule has exactly one function in the engine and every function
    belongs to one, so a rule is never fired twice; but firing looks the rule up by
    a column that [multi_tasks] does not have and so never creates a task, and a
    schedule that was switched off is not registered again by switching it on. *)
Theorem schedules_registered_but_idle parses find_ok a0 a :
  ap_cron a0 = cron_empty →
  rtc (sched_step parses) (loadExistingSchedules parses find_ok a0) a →
  cron_ok (ap_cron a) ∧
  ap_db a = ap_db a0 ∧
  (∀ env ok1 ok2 tid, dispatchContinuousTask env ok1 ok2 tid a = (a, [])) ∧
  (∀ tid ok1 ok2 ok3 ok4 mt,
     find_schedule tid a = Some mt → ok1 = true → ok3 = true →
     let a1 := (ToggleSchedule parses ok1 ok2 tid (Some false) a).2 in
     let '(r, a2) := ToggleSchedule parses ok3 ok4 tid (Some true) a1 in
     http r = 200 ∧ mt_enabled <$> ap_multi a2 !! tid = Some true ∧ cr_entry (ap_cron a2) !! tid = None).
Proof.
  intros Hc Hrun. split_and!.
  - eapply sched_run_cron; [done|]. apply loadExistingSchedules_ok. rewrite Hc. apply cron_empty_ok.
  - assert (ap_db (loadExistingSchedules parses find_ok a0) = ap_db a0) as <- by (by destruct find_ok).
    clear Hc. induction Hrun as [|? ? ? Hs _ IH]; [done|]. rewrite IH. by eapply sched_step_db.
  - intros. apply dispatchContinuousTask_nothing.
  - intros tid ok1 ok2 ok3 ok4 mt Hf -> ->. rewrite (ToggleSchedule_found _ _ _ _ _ _ Hf). cbn [snd].
    erewrite ToggleSchedule_found by (by apply find_schedule_enabled). simpl.
    unfold find_schedule in Hf. destruct (ap_multi a !! tid) eqn:E; [|done].
    rewrite !lookup_alter_eq, E. split_and!; [done..|]. apply RemoveSchedule_absent.
Qed.

Lemma schedules_registered_but_idle_witness :
  let a1 := (CreateScheduleTask (λ _, true) rand1 true (Some sched1) api0).2 in
  cr_engine (ap_cron a1) !! 1 = Some ("0 0 3 * * *", "abcdefghijkl") ∧
  cron_ok (ap_cron a1) ∧ ap_db a1 = ap_db api0.
Proof.
  destruct (schedules_registered_but_idle (λ _, true) true api0
    (CreateScheduleTask (λ _, true) rand1 true (Some sched1) api0).2) as (Hc & Hd & _).
  - reflexivity.
  - apply rtc_once. change (loadExistingSchedules (λ _, true) true api0) with api0. apply ss_create.
  - split; [vm_compute; reflexivity|]. split; [exact Hc|exact Hd].
Defined.
