(* ===== verification/AnalysisScheduler.v ===== *)
(** The analysis of finished tasks: apiserver/server/analyzer.go, which looks every ten
    seconds for tasks that are DONE and not analysed, and the main function of
    analysis/drop_analyzer/hotmethod_analyzer.py, which it runs for each of them.

    What the script does between its updates of the row is the parameter [az_pipeline]
    here, which reads and writes the storage and the suggestions; [AnalysisPipeline] is
    its definition. *)
From stdpp Require Import base gmap strings list.
From Stdlib Require Import ZArith Lia.
From S2P Require Import Prelude CppString Json PGStore ApiStatements ApiServer.

Definition AnalysisStatusPending : Z := 0.
Definition AnalysisStatusRunning : Z := 1.
Definition AnalysisStatusSuccess : Z := 2.
Definition AnalysisStatusFailed : Z := 3.

(** * hotmethod_analyzer.py

    [az_dsn]: a DSN is configured; [az_mark], [az_select], [az_success], [az_failed]: the
    database answers the first update, the query and the last updates; [az_pipeline]:
    the work, with the text of the exception that it raises, if it does. *)

(** What the work touches: the object storage and the table of suggestions. *)
Definition outputs : Type := option (gmap string string) * list suggestion.
Definition outputs_of (a : api) : outputs := (ap_store a, ap_suggestions a).
Definition set_outputs (o : outputs) (a : api) : api := set_store o.1 (set_suggestions o.2 a).

Record analyzer_env := mkAnalyzerEnv {
  az_dsn : bool;
  az_mark : bool;
  az_select : bool;
  az_pipeline : string → task_row → outputs → option string * outputs;
  az_success : bool;
  az_failed : bool;
}.

(** [except Exception as e] *)
Definition analysis_failed (env : analyzer_env) (tid e : string) (a : api) : Z * api :=
  (1, run_stmt (az_failed env) (SetAnalysisAny tid AnalysisStatusFailed ("分析失败: " +:+ e)) a).

(** The exit code and the state.  An exception of the first update is not caught, and
    [sys.exit] passes [except Exception]. *)
Definition analyzer_main (env : analyzer_env) (tid : string) (a : api) : Z * api :=
  if negb (az_dsn env) then (1, a) else
  if negb (az_mark env) then (1, a) else
  let a1 := run_stmt true (SetAnalysisAny tid AnalysisStatusRunning "分析开始") a in
  if negb (az_select env) then analysis_failed env tid "database error" a1 else
  match hotmethod_task (ap_db a1) !! tid with
  | None => (1, a1)
  | Some task =>
      if bool_decide (c_cos_key (t_cols task) = "")
      then analysis_failed env tid ("Task " +:+ tid +:+ " has no cos_key (no upload data)") a1 else
      let '(raised, o) := az_pipeline env tid task (outputs_of a1) in
      let a2 := set_outputs o a1 in
      match raised with
      | Some e => analysis_failed env tid e a2
      | None =>
          if az_success env
          then (0, run_stmt true (SetAnalysisAny tid AnalysisStatusSuccess "分析完成") a2)
          else analysis_failed env tid "database error" a2
      end
  end.

(** * analyzer.go *)

Definition updateAnalysisStatus (ok : bool) (tid : string) (status : Z) (reason : string) (a : api)
    : bool * api :=
  (ok, run_stmt ok (SetAnalysis tid status reason) a).

(** [sp_started]: the child could be started; [sp_output]: the error and what it printed. *)
Record spawn_env := mkSpawnEnv {
  sp_mark : bool;
  sp_started : bool;
  sp_script : analyzer_env;
  sp_output : string;
  sp_failed : bool;
}.

Definition spawnAnalysis (env : spawn_env) (tid : string) (a : api) : api :=
  let '(ok, a1) := updateAnalysisStatus (sp_mark env) tid AnalysisStatusRunning "分析开始" a in
  if negb ok then a1 else
  let '(rc, a2) := if sp_started env then analyzer_main (sp_script env) tid a1 else (-1, a1) in
  if bool_decide (rc = 0) then a2
  else (updateAnalysisStatus (sp_failed env) tid AnalysisStatusFailed
          ("analysis failed: " +:+ sp_output env) a2).2.

(** The tasks the query of a tick finds. *)
Definition to_analyse (a : api) : list (string * task_row) :=
  filter (λ e, negb (deleted e.2) && (t_status e.2 =? kDone) &&
               (c_analysis_status (t_cols e.2) =? AnalysisStatusPending))
    (map_to_list (hotmethod_task (ap_db a))).

Definition tick_step (env : string → spawn_env) (a : api) (e : string * task_row) : api :=
  if bool_decide (c_cos_key (t_cols e.2) = "") then a else spawnAnalysis (env e.1) e.1 a.

Definition runAnalysisTick (find_ok : bool) (env : string → spawn_env) (a : api) : api :=
  if find_ok then foldl (tick_step env) a (to_analyse a) else a.

(** * Lemmas *)

Lemma run_stmt_db ok st a : ap_db (run_stmt ok st a) = if ok then api_effect st (ap_db a) else ap_db a.
Proof. by destruct ok. Qed.

(** Writing the analysis state of one row, twice. *)
Lemma set_tasks_twice f g d :
  set_tasks f (set_tasks g d) = set_tasks (λ m, f (g m)) d.
Proof. done. Qed.

Definition mark (tid : string) (st : Z) (info : string) (d : database) : database :=
  set_tasks (alter (analysis_row st info) tid) d.

Lemma mark_mark tid st1 i1 st2 i2 d : mark tid st2 i2 (mark tid st1 i1 d) = mark tid st2 i2 d.
Proof. unfold mark. rewrite set_tasks_twice. unfold set_tasks. f_equal. rewrite alter_alter_eq. by apply alter_ext. Qed.

Lemma mark_lookup tid st i d tid' :
  hotmethod_task (mark tid st i d) !! tid' =
  if decide (tid = tid') then analysis_row st i <$> hotmethod_task d !! tid else hotmethod_task d !! tid'.
Proof.
  unfold mark. simpl. case_decide; [subst; apply lookup_alter_eq|by apply lookup_alter_ne].
Qed.

(** For a row that is not deleted the two updates are the same. *)
Lemma api_mark_live tid st i d r :
  hotmethod_task d !! tid = Some r → deleted r = false → api_effect (SetAnalysis tid st i) d = mark tid st i d.
Proof.
  intros Hr Hd. unfold mark. simpl. unfold set_tasks. f_equal. apply alter_ext. intros r' Hr'.
  simplify_eq. unfold if_live. by rewrite Hd.
Qed.

Lemma mark_live tid st i d r :
  hotmethod_task d !! tid = Some r → deleted r = false →
  ∃ r', hotmethod_task (mark tid st i d) !! tid = Some r' ∧ deleted r' = false ∧ r' = analysis_row st i r.
Proof. intros Hr Hd. rewrite mark_lookup, decide_True, Hr by done. simpl. eauto. Qed.

(** Answers without failures of the database. *)
Definition healthy (env : spawn_env) : Prop :=
  sp_mark env = true ∧ sp_failed env = true ∧ az_dsn (sp_script env) = true ∧ az_mark (sp_script env) = true ∧
  az_select (sp_script env) = true ∧ az_success (sp_script env) = true ∧ az_failed (sp_script env) = true.

(** The script was started and its work raised nothing. *)
Definition analysis_works (env : spawn_env) (tid : string) (r : task_row) (o : outputs) : bool :=
  sp_started env &&
  match (az_pipeline (sp_script env) tid (analysis_row AnalysisStatusRunning "分析开始" r) o).1 with
  | None => true
  | Some _ => false
  end.

(** The API server's update after any other update of a row that is not deleted. *)
Lemma api_mark_marked tid st j st' i d r :
  hotmethod_task d !! tid = Some r → deleted r = false →
  api_effect (SetAnalysis tid st' i) (mark tid st j d) = mark tid st' i d.
Proof.
  intros Hr Hd. destruct (mark_live tid st j _ _ Hr Hd) as (r2 & Hr2 & Hd2 & _).
  rewrite (api_mark_live _ _ _ _ _ Hr2 Hd2). apply mark_mark.
Qed.

Lemma spawnAnalysis_effect env tid a r :
  healthy env → hotmethod_task (ap_db a) !! tid = Some r → deleted r = false → c_cos_key (t_cols r) ≠ "" →
  ∃ info, ap_db (spawnAnalysis env tid a) =
    mark tid (if analysis_works env tid r (outputs_of a) then AnalysisStatusSuccess else AnalysisStatusFailed) info (ap_db a).
Proof.
  intros (H1 & H2 & H3 & H4 & H5 & H6 & H7) Hr Hd Hk. unfold spawnAnalysis, updateAnalysisStatus, analysis_works.
  rewrite H1, H2. cbn [negb]. set (a1 := run_stmt true (SetAnalysis tid AnalysisStatusRunning "分析开始") a).
  assert (ap_db a1 = mark tid AnalysisStatusRunning "分析开始" (ap_db a)) as E1 by (by apply (api_mark_live _ _ _ _ r)).
  destruct (sp_started env); cbn [andb].
  2: { rewrite bool_decide_eq_false_2 by done. cbn [snd]. eexists. rewrite run_stmt_db, E1.
       by eapply api_mark_marked. }
  unfold analyzer_main. rewrite H3, H4, H5. cbn [negb].
  set (a2 := run_stmt true (SetAnalysisAny tid AnalysisStatusRunning "分析开始") a1).
  assert (ap_db a2 = mark tid AnalysisStatusRunning "分析开始" (ap_db a)) as E2.
  { unfold a2. rewrite run_stmt_db, E1. apply mark_mark. }
  rewrite E2, mark_lookup, decide_True, Hr by done.
  cbn [fmap option_fmap option_map t_cols analysis_row set_info with_cols set_analysis c_cos_key].
  rewrite bool_decide_eq_false_2 by done. change (set_info _ _) with (analysis_row AnalysisStatusRunning "分析开始" r).
  unfold analysis_failed. rewrite H6, H7. change (outputs_of a2) with (outputs_of a).
  destruct (az_pipeline _ _ _ _) as [[e|] o]; cbn [fst].
  - rewrite bool_decide_eq_false_2 by done. cbn [snd]. eexists. rewrite !run_stmt_db. change (ap_db (set_outputs o a2)) with (ap_db a2). rewrite E2.
    change (api_effect (SetAnalysisAny ?t ?s ?x) ?d) with (mark t s x d). rewrite mark_mark.
    by eapply api_mark_marked.
  - rewrite bool_decide_eq_true_2 by done. eexists. rewrite run_stmt_db.
    change (ap_db (set_outputs o a2)) with (ap_db a2). rewrite E2. apply mark_mark.
Qed.

(** What the script leaves in the storage and the suggestions. *)
Lemma outputs_run_stmt ok st a : outputs_of (run_stmt ok st a) = outputs_of a.
Proof. by destruct ok. Qed.

Lemma outputs_set_outputs o a : outputs_of (set_outputs o a) = o.
Proof. by destruct o. Qed.

Lemma spawnAnalysis_outputs env tid a r :
  healthy env → sp_started env = true → hotmethod_task (ap_db a) !! tid = Some r → deleted r = false →
  c_cos_key (t_cols r) ≠ "" →
  outputs_of (spawnAnalysis env tid a) =
    (az_pipeline (sp_script env) tid (analysis_row AnalysisStatusRunning "分析开始" r) (outputs_of a)).2.
Proof.
  intros (H1 & H2 & H3 & H4 & H5 & H6 & H7) Hs Hr Hd Hk. unfold spawnAnalysis, updateAnalysisStatus.
  rewrite H1, H2, Hs. cbn [negb]. unfold analyzer_main. rewrite H3, H4, H5. cbn [negb].
  rewrite !run_stmt_db, (api_mark_live _ _ _ _ r Hr Hd).
  change (api_effect (SetAnalysisAny ?t ?s ?x) ?d) with (mark t s x d). rewrite mark_mark, mark_lookup, decide_True, Hr by done.
  cbn [fmap option_fmap option_map t_cols analysis_row set_info with_cols set_analysis c_cos_key].
  rewrite bool_decide_eq_false_2 by done. change (set_info _ _) with (analysis_row AnalysisStatusRunning "分析开始" r).
  rewrite !outputs_run_stmt. unfold analysis_failed. rewrite H6, H7.
  destruct (az_pipeline _ _ _ _) as [[e|] o]; cbn [fst snd].
  - rewrite bool_decide_eq_false_2 by done. cbn [snd]. rewrite !outputs_run_stmt. apply outputs_set_outputs.
  - rewrite bool_decide_eq_true_2 by done. rewrite outputs_run_stmt. apply outputs_set_outputs.
Qed.

(** Whatever is answered, the outputs are those of the work, or as they were. *)
Ltac unchanged :=
  left; cbn [negb]; rewrite bool_decide_eq_false_2 by done; cbn [snd]; rewrite ?outputs_run_stmt; done.

Lemma spawnAnalysis_outputs_cases env tid a :
  outputs_of (spawnAnalysis env tid a) = outputs_of a ∨
  ∃ r, outputs_of (spawnAnalysis env tid a) = (az_pipeline (sp_script env) tid r (outputs_of a)).2.
Proof.
  unfold spawnAnalysis, updateAnalysisStatus, analyzer_main, analysis_failed.
  set (a1 := run_stmt (sp_mark env) _ a). assert (outputs_of a1 = outputs_of a) as E1 by apply outputs_run_stmt.
  destruct (sp_mark env); [|by left]. cbn [negb]. destruct (sp_started env); [|unchanged].
  destruct (az_dsn _); [|unchanged]. destruct (az_mark _); [|unchanged]. cbn [negb].
  set (a2 := run_stmt true _ a1). assert (outputs_of a2 = outputs_of a) as E2 by (rewrite <-E1; apply outputs_run_stmt).
  destruct (az_select _); [|unchanged]. cbn [negb]. destruct (hotmethod_task _ !! tid) as [r|]; [|unchanged].
  case_bool_decide; [unchanged|].
  right. exists r. rewrite <-E2. destruct (az_pipeline _ _ _ _) as [[e|] o]; cbn [snd].
  - rewrite bool_decide_eq_false_2 by done. cbn [snd]. rewrite !outputs_run_stmt. apply outputs_set_outputs.
  - destruct (az_success _).
    + rewrite bool_decide_eq_true_2 by done. rewrite outputs_run_stmt. apply outputs_set_outputs.
    + rewrite bool_decide_eq_false_2 by done. cbn [snd]. rewrite !outputs_run_stmt. apply outputs_set_outputs.
Qed.

(** A tick takes up the task. *)
Definition taken_up (r : task_row) : bool :=
  negb (deleted r) && (t_status r =? kDone) && (c_analysis_status (t_cols r) =? AnalysisStatusPending) &&
  negb (bool_decide (c_cos_key (t_cols r) = "")).

(** The row of a task after it was taken up, when the tasks [l] were; what the script
    finds is what the scripts before it left. *)
Definition settled (env : string → spawn_env) (a : api) (l : list (string * task_row)) (tid : string) (r r' : task_row) : Prop :=
  ∃ l1 l2 info, l = (l1 ++ (tid, r) :: l2)%list ∧ r' = analysis_row
    (if analysis_works (env tid) tid r (outputs_of (foldl (tick_step env) a l1))
     then AnalysisStatusSuccess else AnalysisStatusFailed) info r.

Lemma tick_loop env l a :
  (∀ tid, healthy (env tid)) → NoDup (map fst l) →
  (∀ tid r, (tid, r) ∈ l → hotmethod_task (ap_db a) !! tid = Some r ∧ deleted r = false) →
  let a' := foldl (tick_step env) a l in
  task_status_history (ap_db a') = task_status_history (ap_db a) ∧
  (∀ tid, tid ∉ map fst l → hotmethod_task (ap_db a') !! tid = hotmethod_task (ap_db a) !! tid) ∧
  (∀ tid r, (tid, r) ∈ l →
     if bool_decide (c_cos_key (t_cols r) = "") then hotmethod_task (ap_db a') !! tid = Some r
     else ∃ r', hotmethod_task (ap_db a') !! tid = Some r' ∧ settled env a l tid r r').
Proof.
  intros Henv. revert a. induction l as [|[tid r] l IH]; intros a Hnd Hl a'.
  { split_and!; [done..|]. by intros ? ? ?%not_elem_of_nil. }
  simpl in Hnd. apply NoDup_cons in Hnd as [Hni Hnd].
  destruct (Hl tid r) as [Hr Hd]; [by left|]. simpl in a'.
  set (a1 := tick_step env a (tid, r)) in *.
  assert (task_status_history (ap_db a1) = task_status_history (ap_db a) ∧
    (∀ tid', tid ≠ tid' → hotmethod_task (ap_db a1) !! tid' = hotmethod_task (ap_db a) !! tid') ∧
    if bool_decide (c_cos_key (t_cols r) = "") then hotmethod_task (ap_db a1) !! tid = Some r
    else ∃ r', hotmethod_task (ap_db a1) !! tid = Some r' ∧ settled env a ((tid, r) :: l) tid r r') as (Hh & Ho & Ht).
  { subst a1. unfold tick_step. cbn [fst snd]. case_bool_decide as Hk; [done|].
    destruct (spawnAnalysis_effect (env tid) tid a r (Henv tid) Hr Hd Hk) as [info ->]. split_and!; [done|..].
    - intros tid' Hne. by rewrite mark_lookup, decide_False.
    - eexists. rewrite mark_lookup, decide_True, Hr by done. split; [done|]. by exists [], l, info. }
  destruct (IH a1 Hnd) as (IHh & IHo & IHl).
  { intros tid' r' Hin. destruct (Hl tid' r') as [? ?]; [by right|]. split; [|done]. rewrite Ho; [done|].
    intros <-. apply Hni. by apply (list_elem_of_fmap_2 fst) in Hin. }
  subst a'. split_and!.
  - by rewrite IHh.
  - intros tid' [Hne Hni']%not_elem_of_cons. by rewrite IHo, Ho.
  - intros tid' r' [Heq|Hin]%elem_of_cons; [simplify_eq; by rewrite !IHo by done|].
    specialize (IHl tid' r' Hin). destruct (bool_decide (c_cos_key (t_cols r') = "")); [exact IHl|].
    destruct IHl as (r2 & Hr2 & l1 & l2 & info & -> & ->). eexists. split; [exact Hr2|].
    by exists ((tid, r) :: l1), l2, info.
Qed.

Lemma to_analyse_spec a tid r :
  (tid, r) ∈ to_analyse a ↔ hotmethod_task (ap_db a) !! tid = Some r ∧
    negb (deleted r) && (t_status r =? kDone) && (c_analysis_status (t_cols r) =? AnalysisStatusPending) = true.
Proof.
  unfold to_analyse. rewrite list_elem_of_filter, elem_of_map_to_list. simpl.
  destruct (_ && _); simpl; naive_solver.
Qed.

(** * Claims *)

(** C30: A tick of the analysis scheduler on a healthy database, however the scripts end,
    settles every task that is DONE, not deleted, not analysed and has an uploaded
    file: its analysis state is SUCCESS when the script was started and its work
    raised nothing and FAILED otherwise, never left RUNNING; all other rows are as
    they were, no status moves and no audit row is written. *)
Theorem analysis_tick_settles env a :
  (∀ tid, healthy (env tid)) →
  let a' := runAnalysisTick true env a in
  task_status_history (ap_db a') = task_status_history (ap_db a) ∧
  ∀ tid, match hotmethod_task (ap_db a) !! tid with
         | None => hotmethod_task (ap_db a') !! tid = None
         | Some r =>
             if taken_up r then ∃ r', hotmethod_task (ap_db a') !! tid = Some r' ∧ settled env a (to_analyse a) tid r r'
             else hotmethod_task (ap_db a') !! tid = Some r
         end.
Proof.
  intros Henv a'. subst a'. unfold runAnalysisTick.
  destruct (tick_loop env (to_analyse a) a Henv) as (Hh & Ho & Hl).
  { apply (NoDup_fmap_fst (to_analyse a)).
    - intros tid r1 r2 [? _]%to_analyse_spec [? _]%to_analyse_spec. congruence.
    - apply NoDup_filter, NoDup_map_to_list. }
  { intros tid r [? Hd]%to_analyse_spec. split; [done|]. by destruct (deleted r). }
  split; [done|]. intros tid.
  assert (∀ r, hotmethod_task (ap_db a) !! tid = Some r → taken_up r = false →
    hotmethod_task (ap_db (runAnalysisTick true env a)) !! tid = Some r) as Hkeep.
  { intros r Hr Hu. unfold taken_up in Hu. unfold runAnalysisTick.
    destruct (negb (deleted r) && (t_status r =? kDone) && (c_analysis_status (t_cols r) =? AnalysisStatusPending)) eqn:E.
    - specialize (Hl tid r (proj2 (to_analyse_spec a tid r) (conj Hr E))).
      simpl in Hu. destruct (bool_decide _); [done|by simpl in Hu].
    - rewrite Ho; [done|]. intros ([tid' r'] & -> & Hin)%list_elem_of_fmap. simpl in Hr.
      apply to_analyse_spec in Hin as [? ?]. congruence. }
  destruct (hotmethod_task (ap_db a) !! tid) as [r|] eqn:Hr.
  - destruct (taken_up r) eqn:Hu; [|by apply Hkeep]. unfold taken_up in Hu.
    apply andb_true_iff in Hu as [Hsel Hk].
    specialize (Hl tid r (proj2 (to_analyse_spec a tid r) (conj Hr Hsel))).
    by destruct (bool_decide _).
  - rewrite Ho; [done|]. intros ([tid' r'] & -> & Hin)%list_elem_of_fmap. simpl in Hr.
    apply to_analyse_spec in Hin as [? ?]. congruence.
Qed.

Definition done_row (key : string) : task_row :=
  mkTask kDone "up" (Some 1) (Some 2) (mkColumns "n" 0 3 "10.0.0.1" JNull 0 "u" "n" 0 "" key None).
Definition script_env (e : option string) : analyzer_env := mkAnalyzerEnv true true true (λ _ _ o, (e, o)) true true.
Definition spawn_ok (e : option string) : spawn_env := mkSpawnEnv true true (script_env e) "exit status 1" true.
Definition api_done : api :=
  mkApi (mkDb [] 0 {["t1" := done_row "t1/collapsed_ebpf.txt"; "t2" := done_row ""]} [] [])
    ∅ ∅ ∅ [] 0 ∅ [] [] 0 (mkCron ∅ ∅ 0) true None.

Lemma analysis_tick_settles_witness :
  ∃ r', hotmethod_task (ap_db (runAnalysisTick true (λ _, spawn_ok None) api_done)) !! "t1" = Some r' ∧
    settled (λ _, spawn_ok None) api_done (to_analyse api_done) "t1" (done_row "t1/collapsed_ebpf.txt") r'.
Proof.
  destruct (analysis_tick_settles (λ _, spawn_ok None) api_done) as [_ H].
  - intros tid. by split_and!.
  - apply (H "t1").
Defined.
