(* ===== verification/Server.v ===== *)
(** server/main.cpp: drop_server, its four gRPC services and the heartbeat
    scanner, over the task queue, the heartbeat tracker and PGStore.

    A handler is a function of the request, the gRPC context, the answers of the
    outside (clock readings, PostgreSQL) and the server's state; it returns the
    gRPC status, the response when the status is OK, and the new state.  The
    executions of the server are sequences of handler calls, scanner rounds and
    the writes of the API server to the same database ([server_step]). *)
From stdpp Require Import base gmap strings list relations.
From Stdlib Require Import ZArith Lia.
From S2P Require Import Prelude CppString Proto TaskQueue PGStore ApiStatements.

(** * State *)

(** [g_pg] is null, or a connected store (main resets it otherwise). *)
Record server := mkServer {
  g_task_queue : gmap string (list TaskDesc);
  g_hb_tracker : gmap string Z;
  g_pg : option session;
}.

Definition set_queue (q : gmap string (list TaskDesc)) (s : server) : server :=
  mkServer q (g_hb_tracker s) (g_pg s).
Definition set_hb (h : gmap string Z) (s : server) : server :=
  mkServer (g_task_queue s) h (g_pg s).
Definition set_pg (p : option session) (s : server) : server :=
  mkServer (g_task_queue s) (g_hb_tracker s) p.

(** * gRPC statuses and contexts *)

Inductive StatusCode := OK | CANCELLED | DEADLINE_EXCEEDED | UNIMPLEMENTED.

Record Status := mkStatus { code : StatusCode; message : string }.

Definition status_ok : Status := mkStatus OK "".
Definition is_ok (st : Status) : bool :=
  match code st with OK => true | _ => false end.

Record ServerContext := mkContext {
  IsCancelled : bool;
  ctx_deadline : Z;
  ctx_now : Z;
}.

Definition CheckDeadline (ctx : ServerContext) : Status :=
  if IsCancelled ctx then mkStatus CANCELLED "request cancelled by client"
  else if (0 <? ctx_deadline ctx) && (ctx_deadline ctx <? ctx_now ctx)
  then mkStatus DEADLINE_EXCEEDED "request deadline exceeded"
  else status_ok.

(** [if (g_pg && g_pg->Connected()) g_pg->UpdateTaskStatus(...)] *)
Definition pg_update (env : update_env) (tid : string) (new_status : Z) (reason : string)
    (s : server) : outcome server :=
  match g_pg s with
  | None => Ret s
  | Some sess =>
      sess' ← UpdateTaskStatus env tid new_status reason sess;
      Ret (set_pg (Some sess') s)
  end.

(** [if (g_pg && g_pg->Connected()) g_pg->UpsertAgent(...)] *)
Definition pg_upsert (env : upsert_env) (ip hostname uid version : string) (s : server) : server :=
  match g_pg s with
  | None => s
  | Some sess => set_pg (Some (UpsertAgent env ip hostname uid version sess)) s
  end.

(** * HealthCheckService *)

Record do_env := mkDoEnv {
  de_steady_now : Z;
  de_upsert : upsert_env;
  de_update : update_env;
}.

Definition HealthCheck_Do (ctx : ServerContext) (env : do_env) (req : HealthCheckRequest)
    (s : server) : outcome (Status * option HealthCheckResponse * server) :=
  let st := CheckDeadline ctx in
  if negb (is_ok st) then Ret (st, None, s) else
  let ip := hc_ip_addr req in
  let s1 := set_hb (Update ip (de_steady_now env) (g_hb_tracker s)) s in
  let s2 := pg_upsert (de_upsert env) ip (hc_host_name req) (hc_uid req)
              (hc_agent_version req) s1 in
  match Pop ip (g_task_queue s2) with
  | (Some desc, q) =>
      s3 ← pg_update (de_update env) (task_id desc) kRunning "Agent开始执行采集"
             (set_queue q s2);
      Ret (status_ok, Some (mkHealthCheckResponse SERVING true (Some desc)), s3)
  | (None, q) =>
      Ret (status_ok, Some (mkHealthCheckResponse SERVING false None), set_queue q s2)
  end.

(** * HotmethodService *)

Definition Hotmethod_Collect (ctx : ServerContext) (req : Target) (s : server) : Status * server :=
  let st := CheckDeadline ctx in
  if negb (is_ok st) then (st, s)
  else (mkStatus UNIMPLEMENTED "use HealthCheck.Do for task dispatch", s).

(** [env1] answers the first update, [env2] the second. *)
Definition NotifyResult (ctx : ServerContext) (env1 env2 : update_env) (req : TaskResult)
    (s : server) : outcome (Status * server) :=
  let st := CheckDeadline ctx in
  if negb (is_ok st) then Ret (st, s) else
  let tid := r_task_id req in
  s' ←
    (if decide (r_error_message req = "") then
       s1 ← pg_update env1 tid kUploading "采集完成，开始上传结果" s;
       if negb (bool_decide (r_cos_key req = "")) then
         pg_update env2 tid kDone ("Agent上传完成，cos_key=" +:+ r_cos_key req) s1
       else if bool_decide (f_name (r_file req) = "") then
         pg_update env2 tid kDone "Agent上报完成（无产出文件）" s1
       else
         pg_update env2 tid kDone ("Agent上报文件: " +:+ f_name (r_file req)) s1
     else pg_update env1 tid kFailed (r_error_message req) s);
  Ret (status_ok, s').

(** * ControlService *)

Definition CreateTask (ctx : ServerContext) (req : CreateTaskRequest) (s : server)
    : Status * option CreateTaskResponse * server :=
  let st := CheckDeadline ctx in
  if negb (is_ok st) then (st, None, s) else
  (status_ok, Some (mkCreateTaskResponse true "task queued"),
   set_queue (Push (ct_target_ip req) (ct_task_desc req) (g_task_queue s)) s).

Definition FetchData (ctx : ServerContext) (req : FetchDataRequest) (s : server)
    : Status * option FetchDataResponse * server :=
  let st := CheckDeadline ctx in
  if negb (is_ok st) then (st, None, s) else
  (status_ok,
   Some (mkFetchDataResponse false ""
     (match g_pg s with
      | Some _ => "FetchData not yet fully implemented - use MinIO presign"
      | None => "no PG connection"
      end)), s).

(** [hb_timeout] is the flag; [list_ok] the answer to [ListAgents]' query. *)
Definition StatAgent (ctx : ServerContext) (list_ok : bool) (clock : nat → Z) (hb_timeout : Z)
    (req : StatAgentRequest) (s : server) : Status * option StatAgentResponse * server :=
  let st := CheckDeadline ctx in
  if negb (is_ok st) then (st, None, s) else
  let filter_ip := sa_target_ip req in
  let keep := λ ip : string, bool_decide (filter_ip = "") || bool_decide (ip = filter_ip) in
  match g_pg s with
  | Some sess =>
      let '(agents, sess') := ListAgents list_ok sess in
      (status_ok,
       Some (mkStatAgentResponse (map (λ a, mkAgentInfo (ar_hostname a) (ar_ip a) (ar_online a)
                                         (ar_uid a) (ar_version a))
              (filter (λ a, keep (ar_ip a)) agents))),
       set_pg (Some sess') s)
  | None =>
      (status_ok,
       Some (mkStatAgentResponse (map (λ e, mkAgentInfo "" e.1 e.2 "" "")
              (filter (λ e, keep e.1) (AllAgents hb_timeout clock (g_hb_tracker s))))),
       s)
  end.

(** * InitService *)

Definition RegisterAgent (ctx : ServerContext) (env : upsert_env) (req : RegisterAgentRequest)
    (s : server) : Status * option RegisterAgentResponse * server :=
  let st := CheckDeadline ctx in
  if negb (is_ok st) then (st, None, s) else
  (status_ok,
   Some (mkRegisterAgentResponse true "registered"
     (if bool_decide (ra_uid req = "") then ra_ip_addr req else ra_uid req)),
   pg_upsert env (ra_ip_addr req) (ra_host_name req) (ra_uid req) (ra_agent_version req) s).

Definition FetchConfig (ctx : ServerContext) (req : FetchConfigRequest) (s : server)
    : Status * option FetchConfigResponse * server :=
  let st := CheckDeadline ctx in
  if negb (is_ok st) then (st, None, s) else
  (status_ok,
   Some (mkFetchConfigResponse (mkCosConfig "default" "drop-data" "" "" "" 0) "INFO"), s).

(** * Heartbeat scanner: one round of its loop *)

Definition HeartbeatScanner_round (env : scan_env) (hb_timeout : Z) (s : server) : server :=
  match g_pg s with
  | None => s
  | Some sess => set_pg (Some (ScanAgentHeartbeats env hb_timeout sess).2) s
  end.

(** * main: the initial state.  [connect] is what [PQconnectdb] gives. *)

Definition PGStore_connect (connect : option database) : option session :=
  match connect with None => None | Some d => Some (mkSession d NoTxn) end.

Definition server_main_init (pg_dsn : string) (connect : option database) : server :=
  mkServer ∅ ∅ (if bool_decide (pg_dsn = "") then None else PGStore_connect connect).

(** * Executions *)

Inductive label :=
  | Queued (ip : string) (d : TaskDesc)
  | Dispatched (ip : string) (d : TaskDesc)
  | Silent.

Definition on_db (f : database → database) (s : server) : server :=
  match g_pg s with
  | Some sess => set_pg (Some (mkSession (f (committed sess)) (txn sess))) s
  | None => s
  end.

Definition resp_label (ip : string) (resp : option HealthCheckResponse) : label :=
  match resp with
  | Some r => match hc_task_desc r with Some d => Dispatched ip d | None => Silent end
  | None => Silent
  end.

(** The handlers and the scanner of drop_server, one at a time. *)
Inductive drop_step : server → label → server → Prop :=
  | drop_do ctx env req st resp s s' :
      HealthCheck_Do ctx env req s = Ret (st, resp, s') →
      drop_step s (resp_label (hc_ip_addr req) resp) s'
  | drop_notify ctx env1 env2 req st s s' :
      NotifyResult ctx env1 env2 req s = Ret (st, s') →
      drop_step s Silent s'
  | drop_create ctx req st resp s s' :
      CreateTask ctx req s = (st, Some resp, s') →
      drop_step s (Queued (ct_target_ip req) (ct_task_desc req)) s'
  | drop_create_rejected ctx req st s s' :
      CreateTask ctx req s = (st, None, s') →
      drop_step s Silent s'
  | drop_stat ctx list_ok clock hb_timeout ip st resp s s' :
      StatAgent ctx list_ok clock hb_timeout ip s = (st, resp, s') →
      drop_step s Silent s'
  | drop_register ctx env req st resp s s' :
      RegisterAgent ctx env req s = (st, resp, s') →
      drop_step s Silent s'
  | drop_scan env hb_timeout s :
      drop_step s Silent (HeartbeatScanner_round env hb_timeout s).

(** With the statements of the API server and the analyzer on the same database.  A
    handler is one step here: its work on the queue is under the lock of the queue, and
    its database calls are taken as not overlapping those of other threads, which
    nothing in the code ensures (the file Interleavings takes the calls apart). *)
Inductive server_step : server → label → server → Prop :=
  | step_drop s l s' : drop_step s l s' → server_step s l s'
  | step_api stmt s :
      (∀ sess, g_pg s = Some sess → api_pre stmt (committed sess)) →
      server_step s Silent (on_db (api_effect stmt) s).

Definition step_do ctx env req st resp s s' H := step_drop _ _ _ (drop_do ctx env req st resp s s' H).
Definition step_notify ctx e1 e2 req st s s' H := step_drop _ _ _ (drop_notify ctx e1 e2 req st s s' H).
Definition step_create ctx req st resp s s' H := step_drop _ _ _ (drop_create ctx req st resp s s' H).
Definition step_register ctx env req st resp s s' H :=
  step_drop _ _ _ (drop_register ctx env req st resp s s' H).
Definition step_scan env hb_timeout s := step_drop _ _ _ (drop_scan env hb_timeout s).

(** Runs with their labels. *)
Inductive server_run : server → list label → server → Prop :=
  | run_nil s : server_run s [] s
  | run_cons s l s' ls s'' :
      server_step s l s' → server_run s' ls s'' → server_run s (l :: ls) s''.

Definition queued_for (ip : string) (ls : list label) : list TaskDesc :=
  omap (λ l, match l with
             | Queued ip' d => if decide (ip' = ip) then Some d else None
             | _ => None
             end) ls.
Definition dispatched_for (ip : string) (ls : list label) : list TaskDesc :=
  omap (λ l, match l with
             | Dispatched ip' d => if decide (ip' = ip) then Some d else None
             | _ => None
             end) ls.

(** * Invariant *)

Definition db_ok (d : database) : Prop := statuses_ok d ∧ history_ok d ∧ agents_ok d.

(** Between two handler calls no transaction is open, and the database is
    consistent. *)
Definition server_inv (s : server) : Prop :=
  match g_pg s with
  | None => True
  | Some sess => txn sess = NoTxn ∧ db_ok (committed sess)
  end.

(** * Lemmas *)

Definition sess_ok (s : session) : Prop := txn s = NoTxn ∧ db_ok (committed s).

(** [R] relates the committed databases of two sessions without transaction;
    every statement outside a transaction either leaves the database or applies
    its effect. *)
Lemma exec_dml_notxn ok f s :
  txn s = NoTxn →
  txn (exec_dml ok f s).2 = NoTxn ∧
  (committed (exec_dml ok f s).2 = committed s ∨
   committed (exec_dml ok f s).2 = f (committed s)).
Proof. intros H. unfold exec_dml. rewrite H. destruct ok; simpl; auto. Qed.

Lemma exec_query_notxn {A} ok (q : database → A) s :
  txn s = NoTxn → (exec_query ok q s).2 = s.
Proof. intros H. unfold exec_query. rewrite H. by destruct ok. Qed.

Section effects.
(** A reflexive, transitive relation on databases that the effects of the agent
    statements respect. *)
Context (R : database → database → Prop) `{!PreOrder R}.
Context (R_upsert : ∀ ip h u v now d, R d (upsert_rows ip h u v now d)).
Context (R_audit : ∀ a d, R d (add_audit a d)).
Context (R_mark : ∀ b id d, R d (set_agents (mark_rows b id) d)).

Definition sess_rel (s s' : session) : Prop := txn s' = NoTxn ∧ R (committed s) (committed s').

Lemma exec_dml_rel ok f s s' :
  sess_rel s s' → (∀ d, R d (f d)) → sess_rel s (exec_dml ok f s').2.
Proof.
  intros [Ht HR] Hf. destruct (exec_dml_notxn ok f s' Ht) as [Ht' [Hd|Hd]];
    (split; [done|]); rewrite Hd; [done|]. by transitivity (committed s').
Qed.

Lemma UpsertAgent_rel env ip h u v s :
  txn s = NoTxn → sess_rel s (UpsertAgent env ip h u v s).
Proof.
  intros Ht. assert (sess_rel s s) as Hs by (by split).
  unfold UpsertAgent. destruct (exec_query _ _ s) as [sel s1] eqn:Eq.
  pose proof (exec_query_notxn (ue_select env) (find_agent (c_str ip)) s Ht) as H1.
  rewrite Eq in H1. simpl in H1. subst s1.
  assert (∀ f, (∀ d, R d (f d)) → sess_rel s (exec_dml (ue_upsert env) f s).2) as Hu
    by (intros; by apply exec_dml_rel).
  specialize (Hu _ (R_upsert (c_str ip) (c_str h) (c_str u) (c_str v) (ue_now env))).
  destruct (exec_dml _ _ s) as [ok s2]. simpl in Hu.
  destruct sel as [[r|]|]; simpl; [|done..].
  destruct (a_online r); simpl; [done|]. by apply exec_dml_rel.
Qed.

Lemma scan_loop_rel b ev reason upd aud now i rows s s' :
  sess_rel s s' → sess_rel s (scan_loop b ev reason upd aud now i rows s').
Proof.
  revert i s'. induction rows as [|r rows IH]; intros i s' Hs; [done|].
  cbn [scan_loop]. apply IH. by repeat apply exec_dml_rel.
Qed.

Lemma ScanAgentHeartbeats_rel env timeout_sec s :
  txn s = NoTxn → sess_rel s (ScanAgentHeartbeats env timeout_sec s).2.
Proof.
  intros Ht. assert (sess_rel s s) as Hs by (by split). unfold ScanAgentHeartbeats.
  destruct (exec_query (sc_query1 env) _ s) as [res s1] eqn:Eq1.
  apply (f_equal snd) in Eq1. rewrite exec_query_notxn in Eq1 by done. simpl in Eq1. subst s1.
  destruct res as [rows|]; [|done].
  set (s2 := scan_loop _ _ _ _ _ _ _ _ s).
  assert (sess_rel s s2) as Hs2 by (by apply scan_loop_rel).
  destruct (exec_query (sc_query2 env) _ s2) as [res2 s3] eqn:Eq2.
  apply (f_equal snd) in Eq2. rewrite exec_query_notxn in Eq2 by apply Hs2.
  simpl in Eq2. subst s3. destruct res2; simpl; [|done]. by apply scan_loop_rel.
Qed.

(** The update statements of a handler, as a step of the same relation. *)
Context (R_ok : ∀ d d', R d d' → statuses_ok d → statuses_ok d').
Context (R_update : ∀ env tid n r d, R d (update_spec env tid n r d)).

(** What a server step does to the database. *)
Definition server_rel (s s' : server) : Prop :=
  match g_pg s, g_pg s' with
  | Some a, Some b => sess_rel a b
  | None, None => True
  | _, _ => False
  end.

Definition server_ready (s : server) : Prop :=
  match g_pg s with
  | None => True
  | Some a => txn a = NoTxn ∧ statuses_ok (committed a)
  end.

Lemma server_rel_refl s : server_ready s → server_rel s s.
Proof. unfold server_ready, server_rel. destruct (g_pg s); [|done]. intros [? ?]. by split. Qed.

Lemma server_rel_trans s1 s2 s3 : server_rel s1 s2 → server_rel s2 s3 → server_rel s1 s3.
Proof.
  unfold server_rel. destruct (g_pg s1), (g_pg s2), (g_pg s3); try done.
  intros [? ?] [? ?]. split; [done|]. etrans; eauto.
Qed.

Lemma server_rel_ready s s' : server_ready s → server_rel s s' → server_ready s'.
Proof.
  unfold server_rel, server_ready. destruct (g_pg s), (g_pg s'); try done.
  intros [? ?] [? ?]. split; eauto.
Qed.

Lemma pg_update_rel env tid n reason s :
  server_ready s → ∃ s', pg_update env tid n reason s = Ret s' ∧ server_rel s s' ∧
    g_task_queue s' = g_task_queue s.
Proof.
  unfold server_ready, server_rel, pg_update.
  destruct (g_pg s) as [sess|] eqn:E;
    [|intros _; eexists; split; [done|]; by rewrite E].
  intros [Ht Hok]. destruct sess as [d t]; simpl in *. subst t.
  rewrite UpdateTaskStatus_atomic by done. simpl. eexists. split; [done|].
  split; [|done]. by split; simpl.
Qed.

Lemma pg_upsert_rel env ip h u v s :
  server_ready s → server_rel s (pg_upsert env ip h u v s).
Proof.
  unfold server_ready, server_rel, pg_upsert. destruct (g_pg s) as [sess|] eqn:E; simpl.
  - intros [Ht _]. by apply UpsertAgent_rel.
  - by rewrite E.
Qed.

Lemma HealthCheck_Do_rel ctx env req s :
  server_ready s → ∃ st resp s', HealthCheck_Do ctx env req s = Ret (st, resp, s') ∧ server_rel s s'.
Proof.
  intros Hs. unfold HealthCheck_Do. destruct (negb _).
  { do 3 eexists. split; [done|]. by apply server_rel_refl. }
  set (s2 := pg_upsert _ _ _ _ _ _).
  assert (server_rel s s2) as H2 by (by apply (pg_upsert_rel _ _ _ _ _ (set_hb _ s))).
  destruct (Pop _ _) as [[desc|] q].
  - destruct (pg_update_rel (de_update env) (task_id desc) kRunning "Agent开始执行采集" (set_queue q s2))
      as (s3 & -> & H3 & _); [by apply (server_rel_ready s s2)|].
    simpl. do 3 eexists. split; [done|]. by apply (server_rel_trans s s2 s3).
  - do 3 eexists. split; [done|]. done.
Qed.

Lemma NotifyResult_rel ctx env1 env2 req s :
  server_ready s → ∃ st s', NotifyResult ctx env1 env2 req s = Ret (st, s') ∧ server_rel s s' ∧
    g_task_queue s' = g_task_queue s.
Proof.
  intros Hs. unfold NotifyResult. destruct (negb _).
  { do 2 eexists. split; [done|]. split; [by apply server_rel_refl|done]. }
  assert (∀ env n r s, server_ready s → ∃ s', pg_update env (r_task_id req) n r s = Ret s' ∧
    server_rel s s' ∧ g_task_queue s' = g_task_queue s) as Hupd
    by (intros; by apply pg_update_rel).
  destruct (decide _).
  - destruct (Hupd env1 kUploading "采集完成，开始上传结果" s Hs) as (s1 & -> & H1 & Hq1). simpl.
    assert (server_ready s1) as Hs1 by (by eapply server_rel_ready).
    assert (∀ r, ∃ st s', (x ← pg_update env2 (r_task_id req) kDone r s1; Ret (status_ok, x)) =
      Ret (st, s') ∧ server_rel s s' ∧ g_task_queue s' = g_task_queue s) as Hfin.
    { intros r. destruct (Hupd env2 kDone r s1 Hs1) as (s2 & -> & H2 & Hq2). simpl.
      do 2 eexists. split; [done|]. split; [by eapply server_rel_trans|congruence]. }
    destruct (negb _); [apply Hfin|]. destruct (bool_decide _); apply Hfin.
  - destruct (Hupd env1 kFailed (r_error_message req) s Hs) as (s1 & -> & H1 & Hq1). simpl. eauto.
Qed.

Lemma drop_step_rel s l s' : server_ready s → drop_step s l s' → server_rel s s'.
Proof.
  intros Hs. destruct 1 as [ctx env req st resp s s' H|ctx env1 env2 req st s s' H
    |ctx req st resp s s' H|ctx req st s s' H|ctx lo clock hbt ip st resp s s' H
    |ctx env req st resp s s' H|env hbt s].
  - destruct (HealthCheck_Do_rel ctx env req s Hs) as (? & ? & ? & H' & ?). congruence.
  - destruct (NotifyResult_rel ctx env1 env2 req s Hs) as (? & ? & H' & ? & _). congruence.
  - unfold CreateTask in H. destruct (negb _); simplify_eq. by apply (server_rel_refl s).
  - unfold CreateTask in H. destruct (negb _); simplify_eq. by apply server_rel_refl.
  - unfold StatAgent in H. destruct (negb _); simplify_eq; [by apply server_rel_refl|].
    destruct (g_pg s) as [sess|] eqn:E; simplify_eq; [|by apply server_rel_refl].
    destruct (ListAgents lo sess) as [ags sess'] eqn:EL. simplify_eq.
    unfold server_ready, server_rel in *. rewrite E in *. simpl. destruct Hs as [Ht ?].
    unfold ListAgents in EL. destruct (exec_query _ _ _) as [res s1] eqn:Eq.
    apply (f_equal snd) in Eq. rewrite exec_query_notxn in Eq by done. simpl in Eq. subst s1.
    destruct res; simplify_eq; by split.
  - unfold RegisterAgent in H. destruct (negb _); simplify_eq; [by apply server_rel_refl|].
    by apply pg_upsert_rel.
  - unfold server_ready, server_rel, HeartbeatScanner_round in *.
    destruct (g_pg s) as [sess|] eqn:E; [|by rewrite E].
    destruct Hs as [Ht ?]. by apply ScanAgentHeartbeats_rel.
Qed.

Lemma api_stmt_rel stmt s :
  server_ready s → (∀ d, api_pre stmt d → R d (api_effect stmt d)) →
  (∀ sess, g_pg s = Some sess → api_pre stmt (committed sess)) →
  server_rel s (on_db (api_effect stmt) s).
Proof.
  intros Hs HR H. unfold server_ready, server_rel, on_db in *.
  destruct (g_pg s) as [sess|] eqn:E; [|by rewrite E]. destruct Hs as [Ht ?].
  split; [done|]. apply HR. by apply H.
Qed.

Context (R_api : ∀ stmt d, api_pre stmt d → R d (api_effect stmt d)).

Lemma server_step_rel s l s' : server_ready s → server_step s l s' → server_rel s s'.
Proof.
  intros Hs Hstep. destruct Hstep as [s1 l' s1' H|stmt s1 H].
  - by apply (drop_step_rel _ _ _ Hs H).
  - by apply api_stmt_rel; [|apply R_api|].
Qed.

End effects.

(** ** Consistency of the database *)

Definition keeps_ok (d d' : database) : Prop :=
  (statuses_ok d → statuses_ok d') ∧ (history_ok d → history_ok d') ∧
  (agents_ok d → agents_ok d').

#[global] Instance keeps_ok_preorder : PreOrder keeps_ok.
Proof. split; [done|]. intros d1 d2 d3 (?&?&?) (?&?&?). unfold keeps_ok. auto. Qed.

Lemma set_agents_mark_ok b id d : agents_ok d → agents_ok (set_agents (mark_rows b id) d).
Proof.
  intros (Hip & Hid & Hseq). destruct (mark_rows_keys b id (agent_info d)) as [E1 E2].
  split; [|split]; simpl; [by rewrite E1|by rewrite E2|].
  unfold mark_rows. apply Forall_map. eapply Forall_impl; [exact Hseq|].
  intros r Hr. by destruct (decide _).
Qed.

Lemma keeps_ok_upsert ip h u v now d : keeps_ok d (upsert_rows ip h u v now d).
Proof. split; [done|]. split; [done|]. apply upsert_rows_agents_ok. Qed.

Lemma keeps_ok_audit a d : keeps_ok d (add_audit a d).
Proof. done. Qed.

Lemma keeps_ok_mark b id d : keeps_ok d (set_agents (mark_rows b id) d).
Proof. split; [done|]. split; [done|]. apply set_agents_mark_ok. Qed.

Lemma keeps_ok_update env tid n r d : keeps_ok d (update_spec env tid n r d).
Proof.
  split; [apply update_spec_statuses|]. split; [apply update_spec_history|].
  unfold agents_ok. by destruct (update_spec_agents env tid n r d) as [-> ->].
Qed.

(** A statement that changes only columns beside the status. *)
Lemma keeps_ok_columns f tid d :
  (∀ r, t_status (f r) = t_status r) → keeps_ok d (set_tasks (alter f tid) d).
Proof.
  intros Hf. split; [|split]; [| |done].
  - intros Hok tid' row' H. simpl in H. destruct (decide (tid = tid')) as [<-|].
    + rewrite lookup_alter_eq in H. apply fmap_Some in H as (r & Hr & ->).
      rewrite Hf. by apply (Hok tid).
    + rewrite lookup_alter_ne in H by done. by apply (Hok tid').
  - intros (Hchain & Hnone & Hcr). split; [|split]; [| |done].
    + intros tid' row' H. simpl in H.
      change (trail_of tid' (set_tasks (alter f tid) d)) with (trail_of tid' d).
      destruct (decide (tid = tid')) as [<-|].
      * rewrite lookup_alter_eq in H. apply fmap_Some in H as (r & Hr & ->). rewrite Hf. eauto.
      * rewrite lookup_alter_ne in H by done. eauto.
    + intros tid'. simpl. rewrite lookup_alter_None. apply Hnone.
Qed.

Lemma keeps_ok_insert_task tid info cols d : keeps_ok d (insert_task tid info cols d).
Proof.
  unfold insert_task. destruct (hotmethod_task d !! tid) eqn:Hno; [done|].
  split; [|split]; [| |done].
  - intros Hok. by apply map_Forall_insert_2.
  - intros (Hchain & Hnone & Hcr). split; [|split]; [| |done].
    + intros tid' row' H. simpl in H.
      change (trail_of tid' (set_tasks <[tid:=_]> d)) with (trail_of tid' d).
      destruct (decide (tid = tid')) as [<-|].
      * rewrite lookup_insert_eq in H. simplify_eq/=. unfold trail_of. by rewrite Hnone.
      * rewrite lookup_insert_ne in H by done. eauto.
    + intros tid'. simpl. intros [? ?]%lookup_insert_None. by apply Hnone.
Qed.

Lemma keeps_ok_insert_creation tid reason now d :
  is_Some (hotmethod_task d !! tid) → keeps_ok d (insert_creation tid reason now d).
Proof.
  intros [row Hrow]. split; [done|]. split; [|done]. intros (Hchain & Hnone & Hcr).
  assert (∀ tid', history_of tid' (insert_creation tid reason now d) = history_of tid' d ++
    (if decide (tid = tid') then [mkHistory tid (-1) kPending reason now] else [])) as Hh
    by (intros; unfold history_of; simpl; by rewrite filter_app).
  split; [|split].
  - intros tid' row' H. simpl in H. unfold trail_of. rewrite Hh, filter_app.
    replace (filter _ (if decide (tid = tid') then _ else _)) with (@nil history_row)
      by (case_decide; done).
    rewrite app_nil_r. by apply Hchain.
  - intros tid' Hno. rewrite Hh, decide_False by (intros ->; simpl in Hno; congruence).
    rewrite app_nil_r. by apply Hnone.
  - apply Forall_app. split; [done|]. by apply Forall_singleton.
Qed.

Lemma if_live_status f r : t_status (f r) = t_status r → t_status (if_live f r) = t_status r.
Proof. unfold if_live. by destruct (deleted r). Qed.

Lemma keeps_ok_api stmt d : api_pre stmt d → keeps_ok d (api_effect stmt d).
Proof.
  destruct stmt; intros Hpre; try (apply keeps_ok_columns; intros; by apply if_live_status).
  - apply keeps_ok_insert_task.
  - by apply keeps_ok_insert_creation.
  - rewrite api_update_effect. destruct (api_update_cases env tid newStatus reason d) as [->|[r ->]];
      [done|apply keeps_ok_update].
  - by apply keeps_ok_columns.
Qed.

Lemma keeps_ok_statuses d d' : keeps_ok d d' → statuses_ok d → statuses_ok d'.
Proof. by intros [? _]. Qed.

#[export] Hint Resolve keeps_ok_upsert keeps_ok_audit keeps_ok_mark keeps_ok_update
  keeps_ok_statuses keeps_ok_api : drop.

Lemma server_inv_ready s : server_inv s → server_ready s.
Proof.
  unfold server_inv, server_ready. destruct (g_pg s); [|done]. by intros (? & ? & _).
Qed.

(** ** DONE is final *)

(** Two rows of a task that differ in the columns of the API server at most. *)
Definition same_progress (r r' : task_row) : Prop :=
  t_status r' = t_status r ∧ t_begin_time r' = t_begin_time r ∧ t_end_time r' = t_end_time r.

Definition keeps_done (d d' : database) : Prop :=
  (statuses_ok d → statuses_ok d') ∧
  ∀ tid row, hotmethod_task d !! tid = Some row → t_status row = kDone →
    (∃ row', hotmethod_task d' !! tid = Some row' ∧ same_progress row row') ∧
    trail_of tid d' = trail_of tid d.

#[global] Instance same_progress_preorder : PreOrder same_progress.
Proof. split; [done|]. intros r1 r2 r3 (?&?&?) (?&?&?). split_and!; congruence. Qed.

#[global] Instance keeps_done_preorder : PreOrder keeps_done.
Proof.
  split.
  { intros d. split; [done|]. intros tid row Hrow _. split; [by exists row|done]. }
  intros d1 d2 d3 [? H1] [? H2]. split; [naive_solver|]. intros tid row Hrow Hdone.
  destruct (H1 tid row Hrow Hdone) as [(row2 & Hrow2 & Hp2) Ht2].
  assert (t_status row2 = kDone) as Hd2 by (destruct Hp2; congruence).
  destruct (H2 tid row2 Hrow2 Hd2) as [(row3 & Hrow3 & Hp3) Ht3].
  split; [|congruence]. exists row3. split; [done|]. by transitivity row2.
Qed.

(** The row of a task, when the server has a database. *)
Definition task_of (tid : string) (s : server) : option task_row :=
  match g_pg s with
  | Some sess => hotmethod_task (committed sess) !! tid
  | None => None
  end.

Lemma update_spec_done_trail env tid n r d tid' row :
  hotmethod_task d !! tid' = Some row → t_status row = kDone →
  trail_of tid' (update_spec env tid n r d) = trail_of tid' d.
Proof.
  intros Hrow Hdone. unfold update_spec.
  destruct (hotmethod_task d !! tid) as [row0|] eqn:Hrow0; [|done].
  destruct (IsTransitionAllowed _ _) eqn:Hal; simpl; [|done].
  destruct (env_commits env); [|done]. apply IsTransitionAllowed_legal in Hal.
  rewrite trail_of_apply by (apply legal_range in Hal; lia).
  rewrite decide_False, app_nil_r; [done|]. intros <-.
  assert (t_status row0 = kDone) as E by congruence. rewrite E in Hal. by apply legal_done_final in Hal.
Qed.

Lemma keeps_done_tasks d d' :
  hotmethod_task d' = hotmethod_task d → task_status_history d' = task_status_history d →
  keeps_done d d'.
Proof.
  intros Ht Hh. split; [unfold statuses_ok; by rewrite Ht|]. intros tid row Hrow _.
  split; [exists row; by rewrite Ht|]. unfold trail_of, history_of. by rewrite Hh.
Qed.

Lemma keeps_done_update env tid n r d : keeps_done d (update_spec env tid n r d).
Proof.
  split; [apply update_spec_statuses|]. intros tid' row Hrow Hdone. split.
  - exists row. split; [by apply update_spec_done|done].
  - by eapply update_spec_done_trail.
Qed.

Lemma keeps_done_columns f tid d :
  (∀ r, same_progress r (f r)) → keeps_done d (set_tasks (alter f tid) d).
Proof.
  intros Hf. split; [apply keeps_ok_columns; intros; by destruct (Hf r)|].
  intros tid' row Hrow _. split; [|done]. simpl. destruct (decide (tid = tid')) as [<-|].
  - rewrite lookup_alter_eq, Hrow. by exists (f row).
  - rewrite lookup_alter_ne by done. by exists row.
Qed.

Lemma if_live_progress f r : same_progress r (f r) → same_progress r (if_live f r).
Proof. unfold if_live. by destruct (deleted r). Qed.

Lemma keeps_done_api stmt d : api_pre stmt d → keeps_done d (api_effect stmt d).
Proof.
  intros Hpre. destruct stmt; try (apply keeps_done_columns; intros; by apply if_live_progress).
  - simpl. unfold insert_task. destruct (hotmethod_task d !! tid) eqn:Hno; [done|].
    split; [by apply map_Forall_insert_2|]. intros tid' row Hrow _. split; [|done].
    simpl. rewrite lookup_insert_ne by congruence. by exists row.
  - split; [done|]. intros tid' row Hrow _. split; [by exists row|]. unfold trail_of, history_of. simpl.
    rewrite filter_app, filter_app. rewrite (filter_cons _ (mkHistory _ _ _ _ _)).
    case_decide; [|by rewrite app_nil_r]. by rewrite app_nil_r.
  - rewrite api_update_effect. destruct (api_update_cases env tid newStatus reason d) as [->|[r ->]];
      [done|apply keeps_done_update].
  - by apply keeps_done_columns.
Qed.

(** ** Dispatch *)

Lemma pg_update_queue env tid n reason s s' :
  pg_update env tid n reason s = Ret s' → g_task_queue s' = g_task_queue s.
Proof.
  unfold pg_update. destruct (g_pg s); [|by intros; simplify_eq].
  intros (? & _ & ?)%bind_Ret. by simplify_eq.
Qed.

Lemma pg_upsert_queue env ip h u v s : g_task_queue (pg_upsert env ip h u v s) = g_task_queue s.
Proof. unfold pg_upsert. by destruct (g_pg s). Qed.

Lemma on_db_queue f s : g_task_queue (on_db f s) = g_task_queue s.
Proof. unfold on_db. by destruct (g_pg s). Qed.

Lemma NotifyResult_queue ctx env1 env2 req s st s' :
  NotifyResult ctx env1 env2 req s = Ret (st, s') → g_task_queue s' = g_task_queue s.
Proof.
  unfold NotifyResult. destruct (negb _); [by intros; simplify_eq|].
  intros (s2 & H & ?)%bind_Ret. simplify_eq. destruct (decide _).
  - apply bind_Ret in H as (s1 & H1%pg_update_queue & H2).
    repeat case_match; apply pg_update_queue in H2; congruence.
  - by apply pg_update_queue in H.
Qed.

(** The tasks one label queues or dispatches for [ip]. *)
Lemma drop_step_queue s l s' ip :
  drop_step s l s' →
  queue_of ip (g_task_queue s) ++ queued_for ip [l] =
  dispatched_for ip [l] ++ queue_of ip (g_task_queue s').
Proof.
  destruct 1 as [ctx env req st resp s s' H|ctx env1 env2 req st s s' H
    |ctx req st resp s s' H|ctx req st s s' H|ctx lo clock hbt ip' st resp s s' H
    |ctx env req st resp s s' H|env hbt s].
  - unfold HealthCheck_Do in H. destruct (negb _); simplify_eq/=; [by rewrite app_nil_r|].
    rewrite pg_upsert_queue in H. simpl in H.
    destruct (Pop (hc_ip_addr req) (g_task_queue s)) as [[desc|] q] eqn:EP.
    + apply bind_Ret in H as (s3 & H3%pg_update_queue & ?). simplify_eq/=.
      rewrite app_nil_r, (queue_of_Pop ip _ _ _ _ EP).
      by destruct (decide _).
    + simplify_eq/=. rewrite app_nil_r. by apply Pop_None in EP as [_ ->].
  - apply NotifyResult_queue in H. by rewrite H, app_nil_r.
  - unfold CreateTask in H. destruct (negb _); simplify_eq/=. rewrite queue_of_Push.
    by destruct (decide _).
  - unfold CreateTask in H. destruct (negb _); simplify_eq/=. by rewrite app_nil_r.
  - unfold StatAgent in H. destruct (negb _); simplify_eq/=; [by rewrite app_nil_r|].
    destruct (g_pg s); simplify_eq/=; [|by rewrite app_nil_r].
    destruct (ListAgents _ _); simplify_eq/=. by rewrite app_nil_r.
  - unfold RegisterAgent in H. destruct (negb _); simplify_eq/=; [by rewrite app_nil_r|].
    by rewrite pg_upsert_queue, app_nil_r.
  - unfold HeartbeatScanner_round. simpl. rewrite app_nil_r. by destruct (g_pg s).
Qed.

Lemma server_step_queue s l s' ip :
  server_step s l s' →
  queue_of ip (g_task_queue s) ++ queued_for ip [l] =
  dispatched_for ip [l] ++ queue_of ip (g_task_queue s').
Proof.
  intros [s1 l' s1' H|stmt s1 _]; [by apply drop_step_queue|].
  simpl. by rewrite app_nil_r, on_db_queue.
Qed.

Lemma server_run_queue s ls s' ip :
  server_run s ls s' →
  queue_of ip (g_task_queue s) ++ queued_for ip ls =
  dispatched_for ip ls ++ queue_of ip (g_task_queue s').
Proof.
  induction 1 as [s|s l s' ls s'' Hstep _ IH]; [by rewrite app_nil_r|].
  apply (server_step_queue _ _ _ ip) in Hstep.
  change (l :: ls) with ([l] ++ ls). unfold queued_for, dispatched_for in *.
  rewrite !omap_app, <-(assoc_L (++)), <-IH, !(assoc_L (++)). by f_equal.
Qed.

(** ** What NotifyResult does to the status *)

Definition moves (hs : list history_row) : list (Z * Z) :=
  map (λ h, (h_old_status h, h_new_status h)) hs.

(** The transitions a report causes, by the status it finds. *)
Definition report_moves (success : bool) (old_status : Z) : list (Z * Z) :=
  if success then
    if old_status =? kRunning then [(kRunning, kUploading); (kUploading, kDone)]
    else if old_status =? kUploading then [(kUploading, kDone)] else []
  else
    if (old_status =? kPending) || (old_status =? kRunning) || (old_status =? kUploading)
    then [(old_status, kFailed)] else [].

Definition report_status (success : bool) (old_status : Z) : Z :=
  match last (report_moves success old_status) with Some m => m.2 | None => old_status end.

Lemma pg_update_eq env tid n reason s d :
  g_pg s = Some (mkSession d NoTxn) → statuses_ok d →
  pg_update env tid n reason s =
  Ret (set_pg (Some (mkSession (update_spec env (c_str tid) n (c_str reason) d) NoTxn)) s).
Proof. intros E Hok. unfold pg_update. rewrite E, UpdateTaskStatus_atomic by done. done. Qed.

(** [d'] is [d] after a report on the task [tid] with row [row]. *)
Definition reported (success : bool) (tid : string) (d : database) (row : task_row) (d' : database) : Prop :=
  ∃ row', hotmethod_task d' !! tid = Some row' ∧
    t_status row' = report_status success (t_status row) ∧
    moves (history_of tid d') = moves (history_of tid d) ++ report_moves success (t_status row).

(** Case analysis on the five statuses of a row in range. *)
Ltac five_statuses row :=
  assert (t_status row = 0 ∨ t_status row = 1 ∨ t_status row = 2 ∨ t_status row = 3 ∨ t_status row = 4)
    as [E|[E|[E|[E|E]]]] by lia; rewrite ?E; cbn; rewrite ?E; cbn; rewrite ?E.

Lemma report_success env1 env2 tid r1 r2 s d row :
  env_commits env1 = true → env_commits env2 = true →
  g_pg s = Some (mkSession d NoTxn) → statuses_ok d → hotmethod_task d !! c_str tid = Some row →
  ∃ d', (s1 ← pg_update env1 tid kUploading r1 s; pg_update env2 tid kDone r2 s1) =
          Ret (set_pg (Some (mkSession d' NoTxn)) s) ∧ reported true (c_str tid) d row d'.
Proof.
  intros Hc1 Hc2 Hpg Hok Hrow. pose proof (Hok _ _ Hrow) as Hrange. simpl in Hrange.
  rewrite (pg_update_eq _ _ _ _ _ _ Hpg Hok). simpl.
  set (d1 := update_spec env1 (c_str tid) kUploading (c_str r1) d).
  rewrite (pg_update_eq _ _ _ _ _ d1) by (done || by apply update_spec_statuses).
  destruct (update_spec_row env1 (c_str tid) kUploading (c_str r1) d row Hc1 Hrow) as [Hrow1 Hh1].
  fold d1 in Hrow1, Hh1.
  destruct (update_spec_row env2 (c_str tid) kDone (c_str r2) d1 _ Hc2 Hrow1) as [Hrow2 Hh2].
  eexists. split; [done|]. eexists. split; [exact Hrow2|]. rewrite Hh2, Hh1.
  unfold moves. rewrite !map_app.
  five_statuses row; split; rewrite ?app_nil_r, <-?(assoc_L (++)); done.
Qed.

Lemma report_failure env tid reason s d row :
  env_commits env = true →
  g_pg s = Some (mkSession d NoTxn) → statuses_ok d → hotmethod_task d !! c_str tid = Some row →
  ∃ d', pg_update env tid kFailed reason s = Ret (set_pg (Some (mkSession d' NoTxn)) s) ∧
    reported false (c_str tid) d row d'.
Proof.
  intros Hc Hpg Hok Hrow. pose proof (Hok _ _ Hrow) as Hrange. simpl in Hrange.
  rewrite (pg_update_eq _ _ _ _ _ _ Hpg Hok).
  destruct (update_spec_row env (c_str tid) kFailed (c_str reason) d row Hc Hrow) as [Hrow1 Hh1].
  eexists. split; [done|]. eexists. split; [exact Hrow1|]. rewrite Hh1. unfold moves. rewrite map_app.
  by five_statuses row.
Qed.

Lemma NotifyResult_report ctx env1 env2 req s d row :
  is_ok (CheckDeadline ctx) = true →
  env_commits env1 = true → env_commits env2 = true →
  g_pg s = Some (mkSession d NoTxn) → statuses_ok d →
  hotmethod_task d !! c_str (r_task_id req) = Some row →
  let success := bool_decide (r_error_message req = "") in
  ∃ d' row',
    NotifyResult ctx env1 env2 req s =
      Ret (status_ok, set_pg (Some (mkSession d' NoTxn)) s) ∧
    hotmethod_task d' !! c_str (r_task_id req) = Some row' ∧
    t_status row' = report_status success (t_status row) ∧
    moves (history_of (c_str (r_task_id req)) d') =
      moves (history_of (c_str (r_task_id req)) d) ++ report_moves success (t_status row).
Proof.
  intros Hctx Hc1 Hc2 Hpg Hok Hrow success. unfold NotifyResult. rewrite Hctx. cbn [negb].
  subst success. destruct (decide (r_error_message req = "")) as [He|He].
  - rewrite (bool_decide_eq_true_2 _ He).
    destruct (negb _); [|destruct (bool_decide _)]; (edestruct report_success as (d' & -> & row' & Hrest);
      [exact Hc1|exact Hc2|exact Hpg|exact Hok|exact Hrow|]; by exists d', row').
  - rewrite (bool_decide_eq_false_2 _ He).
    destruct (report_failure env1 _ (r_error_message req) s d row Hc1 Hpg Hok Hrow)
      as (d' & -> & row' & Hrest). by exists d', row'.
Qed.

(** * Claims *)

Definition server0 : server :=
  mkServer ∅ ∅ (Some (mkSession
    (mkDb [] 0 {["t1" := mkTask 3 "done" (Some 1) (Some 2) no_columns]}
       [mkHistory "t1" (-1) 0 "c" 0; mkHistory "t1" 0 1 "a" 1; mkHistory "t1" 1 2 "b" 2; mkHistory "t1" 2 3 "c" 2] []) NoTxn)).

Lemma server0_inv : server_inv server0.
Proof.
  split; [done|]. split; [by apply map_Forall_singleton|]. split.
  - split; [|split]; [intros tid *; simpl..|].
    + intros [<- <-]%lookup_singleton_Some. vm_compute. repeat split; constructor.
    + intros Hno%lookup_singleton_None. unfold history_of. simpl.
      rewrite !filter_cons, !decide_False by done. done.
    + repeat (apply Forall_cons; split; [by unfold is_creation|]). by apply Forall_nil.
  - repeat split; constructor.
Qed.

Definition ctx0 : ServerContext := mkContext false 0 5.
Definition task1 : TaskDesc := mkTaskDesc "t1" 0 0 default_argv "" 0 0 default_cos "".
Definition beat (ip : string) : HealthCheckRequest := mkHealthCheckRequest "h" ip "u" "v" default_pidstats default_pidstats.
Definition env_do : do_env := mkDoEnv 1 (mkUpsertEnv true true true 1 1) env_fine.

(** C11: In every run of the server from an empty queue, for every agent the
    tasks created for it are those dispatched to it by heartbeats followed by
    those still queued, in order: a created task is dispatched at most once, only
    to its agent, and first come first served. *)
Theorem server_dispatch_fifo pg_dsn connect ls s' ip :
  server_run (server_main_init pg_dsn connect) ls s' →
  queued_for ip ls = dispatched_for ip ls ++ queue_of ip (g_task_queue s').
Proof. intros H. by apply (server_run_queue _ _ _ ip) in H. Qed.

Lemma run_example :
  ∃ s', server_run (server_main_init "" None) [Queued "a" task1; Dispatched "a" task1] s'.
Proof.
  eexists. eapply run_cons; [|eapply run_cons; [|apply run_nil]].
  - apply (step_create ctx0 (mkCreateTaskRequest "a" "" task1) status_ok
      (mkCreateTaskResponse true "task queued")). reflexivity.
  - apply (step_do ctx0 env_do (beat "a") status_ok
      (Some (mkHealthCheckResponse SERVING true (Some task1)))). vm_compute. reflexivity.
Qed.

Lemma server_dispatch_fifo_witness :
  let ls := [Queued "a" task1; Dispatched "a" task1] in
  ∃ s', server_run (server_main_init "" None) ls s' ∧
  queued_for "a" ls = dispatched_for "a" ls ++ queue_of "a" (g_task_queue s').
Proof.
  destruct run_example as [s' H]. exists s'. split; [exact H|].
  apply (server_dispatch_fifo "" None _ s' "a" H).
Defined.

(** No handler throws in a consistent state: Do and NotifyResult always
    return a gRPC status. *)
Theorem server_handlers_total s :
  server_inv s →
  (∀ ctx env req, ∃ st resp s', HealthCheck_Do ctx env req s = Ret (st, resp, s')) ∧
  (∀ ctx env1 env2 req, ∃ st s', NotifyResult ctx env1 env2 req s = Ret (st, s')).
Proof.
  intros Hinv%server_inv_ready. split; intros.
  - edestruct (HealthCheck_Do_rel keeps_ok) as (? & ? & ? & ? & _); eauto with drop.
  - edestruct (NotifyResult_rel keeps_ok) as (? & ? & ? & _); eauto with drop.
Qed.

Lemma server_handlers_total_witness :
  ∃ st resp s', HealthCheck_Do ctx0 env_do (beat "a") server0 = Ret (st, resp, s').
Proof. apply (server_handlers_total server0 server0_inv). Defined.

(** With a healthy database, a result report moves the task by exactly these
    audited transitions and to their last status: a success report takes a
    RUNNING task to UPLOADING and DONE and an UPLOADING one to DONE; an error
    report takes a PENDING, RUNNING or UPLOADING task to FAILED; every other
    report changes nothing (in particular a success report on a task that is
    still PENDING is dropped).  The call answers OK in all cases. *)
Theorem notify_result_transitions ctx env1 env2 req s d row :
  is_ok (CheckDeadline ctx) = true →
  env_commits env1 = true → env_commits env2 = true →
  g_pg s = Some (mkSession d NoTxn) → statuses_ok d →
  hotmethod_task d !! c_str (r_task_id req) = Some row →
  let success := bool_decide (r_error_message req = "") in
  ∃ d' row',
    NotifyResult ctx env1 env2 req s =
      Ret (status_ok, set_pg (Some (mkSession d' NoTxn)) s) ∧
    hotmethod_task d' !! c_str (r_task_id req) = Some row' ∧
    t_status row' = report_status success (t_status row) ∧
    moves (history_of (c_str (r_task_id req)) d') =
      moves (history_of (c_str (r_task_id req)) d) ++ report_moves success (t_status row).
Proof. apply NotifyResult_report. Qed.

Lemma notify_result_transitions_witness :
  let s := mkServer ∅ ∅ (Some (mkSession db1 NoTxn)) in
  let req := task_result "t1" "" "t1/perf.data" in
  ∃ d' row',
    NotifyResult ctx0 env_fine env_fine req s =
      Ret (status_ok, set_pg (Some (mkSession d' NoTxn)) s) ∧
    hotmethod_task d' !! "t1" = Some row' ∧ t_status row' = kDone ∧
    moves (history_of "t1" d') = [(1, 2); (2, 3)].
Proof.
  apply (notify_result_transitions ctx0 env_fine env_fine (task_result "t1" "" "t1/perf.data")
    (mkServer ∅ ∅ (Some (mkSession db1 NoTxn))) db1 (mkTask 1 "running" (Some 5) None no_columns));
    try reflexivity. apply statuses_ok_db1.
Defined.

(** A request that was cancelled or whose deadline has passed is answered
    with that status and changes nothing, in every handler. *)
Theorem rejected_requests_change_nothing ctx s :
  is_ok (CheckDeadline ctx) = false →
  (∀ env req, HealthCheck_Do ctx env req s = Ret (CheckDeadline ctx, None, s)) ∧
  (∀ env1 env2 req, NotifyResult ctx env1 env2 req s = Ret (CheckDeadline ctx, s)) ∧
  (∀ req, CreateTask ctx req s = (CheckDeadline ctx, None, s)) ∧
  (∀ lo clock t ip, StatAgent ctx lo clock t ip s = (CheckDeadline ctx, None, s)) ∧
  (∀ env req, RegisterAgent ctx env req s = (CheckDeadline ctx, None, s)) ∧
  (∀ r, Hotmethod_Collect ctx r s = (CheckDeadline ctx, s)) ∧
  (∀ r, FetchData ctx r s = (CheckDeadline ctx, None, s)) ∧
  (∀ r, FetchConfig ctx r s = (CheckDeadline ctx, None, s)).
Proof.
  intros H. unfold HealthCheck_Do, NotifyResult, CreateTask, StatAgent, RegisterAgent,
    Hotmethod_Collect, FetchData, FetchConfig. rewrite H. done.
Qed.

Lemma rejected_requests_change_nothing_witness :
  HealthCheck_Do (mkContext false 3 9) env_do (beat "a") server0 =
  Ret (mkStatus DEADLINE_EXCEEDED "request deadline exceeded", None, server0).
Proof. apply (rejected_requests_change_nothing (mkContext false 3 9) server0). reflexivity. Defined.
