(* ===== verification/ServerRows.v ===== *)
(** What the handlers of drop_server do to the rows of [hotmethod_task], one row at a
    time: the lemmas that the proofs about the whole system share. *)
From stdpp Require Import base gmap strings list relations.
From Stdlib Require Import ZArith Lia.
From S2P Require Import Prelude CppString Proto TaskQueue PGStore Server.

(** * The rows of the tasks

    What the handlers do to [hotmethod_task]. *)

Definition same_tasks (d d' : database) : Prop := hotmethod_task d' = hotmethod_task d.
#[global] Instance same_tasks_preorder : PreOrder same_tasks.
Proof. split; [done|]. unfold same_tasks. intros ???; congruence. Qed.

(** The status of a task. *)
Definition status_of (tid : string) (s : server) : option Z := t_status <$> task_of tid s.

Lemma status_of_task tid s s' : task_of tid s' = task_of tid s → status_of tid s' = status_of tid s.
Proof. unfold status_of. by intros ->. Qed.

Lemma pg_upsert_tasks env ip h u v s tid :
  server_inv s → task_of tid (pg_upsert env ip h u v s) = task_of tid s.
Proof.
  unfold server_inv, task_of, pg_upsert. destruct (g_pg s) as [sess|] eqn:E; simpl; [|by rewrite E].
  intros [Ht _]. destruct (UpsertAgent_rel same_tasks ltac:(done) ltac:(done) env ip h u v sess Ht) as [_ Hsame].
  by rewrite Hsame.
Qed.

Lemma pg_upsert_inv env ip h u v s : server_inv s → server_inv (pg_upsert env ip h u v s).
Proof.
  intros Hs. pose proof (pg_upsert_rel keeps_ok ltac:(eauto with drop) ltac:(eauto with drop)
    env ip h u v s (server_inv_ready s Hs)) as Hr. revert Hs Hr.
  unfold server_inv, server_rel, sess_rel, db_ok, keeps_ok. destruct (g_pg s), (g_pg (pg_upsert _ _ _ _ _ _)); naive_solver.
Qed.

Lemma update_spec_other env tid n r d tid' :
  tid' ≠ tid → hotmethod_task (update_spec env tid n r d) !! tid' = hotmethod_task d !! tid'.
Proof.
  intros Hne. unfold update_spec. destruct (hotmethod_task d !! tid) as [row|]; [|done].
  destruct (_ && _); [|done]. simpl. by rewrite lookup_alter_ne.
Qed.

Lemma pg_update_rows env tid n r s s' :
  server_inv s → pg_update env tid n r s = Ret s' →
  server_inv s' ∧ (∀ tid', tid' ≠ c_str tid → task_of tid' s' = task_of tid' s) ∧
  ∀ row, env_commits env = true → task_of (c_str tid) s = Some row →
    IsTransitionAllowed (t_status row) n = true →
    ∃ row', task_of (c_str tid) s' = Some row' ∧ t_status row' = n.
Proof.
  intros Hinv Hu. unfold server_inv, task_of in *. destruct (g_pg s) as [[d x]|] eqn:E.
  2: { unfold pg_update in Hu. rewrite E in Hu. simplify_eq. by rewrite E. }
  destruct Hinv as [Hx Hok]. simpl in Hx, Hok. subst x.
  rewrite (pg_update_eq _ _ _ _ _ _ E ltac:(apply Hok)) in Hu. simplify_eq/=. split; [split; [done|]|split].
  - destruct (keeps_ok_update env (c_str tid) n (c_str r) d) as (? & ? & ?), Hok as (? & ? & ?). unfold db_ok; auto.
  - intros tid' Hne. by apply update_spec_other.
  - intros row Hc Hrow Hal. destruct (update_spec_row env (c_str tid) n (c_str r) d row Hc Hrow) as [Hrow' _].
    rewrite Hal in Hrow'. eauto.
Qed.

(** Do: nothing waits, or the first waiting task is dispatched and marked RUNNING. *)
Lemma Do_rows ctx env req s st resp s' :
  server_inv s → HealthCheck_Do ctx env req s = Ret (st, resp, s') → is_ok (CheckDeadline ctx) = true →
  let q := queue_of (hc_ip_addr req) (g_task_queue s) in
  let q' := queue_of (hc_ip_addr req) (g_task_queue s') in
  st = status_ok ∧
  ((q = [] ∧ q' = [] ∧ resp = Some (mkHealthCheckResponse SERVING false None) ∧
    ∀ tid, task_of tid s' = task_of tid s) ∨
   ∃ t, q = t :: q' ∧ resp = Some (mkHealthCheckResponse SERVING true (Some t)) ∧
    (∀ tid, tid ≠ c_str (task_id t) → task_of tid s' = task_of tid s) ∧
    ∀ row, env_commits (de_update env) = true → task_of (c_str (task_id t)) s = Some row →
      t_status row = kPending →
      ∃ row', task_of (c_str (task_id t)) s' = Some row' ∧ t_status row' = kRunning).
Proof.
  intros Hinv Hdo Hctx. unfold HealthCheck_Do in Hdo. rewrite Hctx in Hdo. cbn [negb] in Hdo.
  set (s1 := set_hb _ s) in Hdo. assert (server_inv s1) as H1 by done.
  set (s2 := pg_upsert _ _ _ _ _ s1) in Hdo.
  assert (∀ tid, task_of tid s2 = task_of tid s) as Hs2 by (intros; by apply (pg_upsert_tasks _ _ _ _ _ s1)).
  assert (server_inv s2) as Hi2 by (by apply pg_upsert_inv).
  assert (g_task_queue s2 = g_task_queue s) as Hq2 by apply (pg_upsert_queue _ _ _ _ _ s1).
  rewrite Hq2 in Hdo. destruct (Pop _ _) as [[t|] q] eqn:EP.
  - apply bind_Ret in Hdo as (s3 & Hu & ?). simplify_eq. apply Pop_Some in EP.
    apply pg_update_queue in Hu as Hq. apply (pg_update_rows _ _ _ _ (set_queue q s2)) in Hu as (_ & Hother & Hrow); [|done].
    split; [done|]. right. exists t. rewrite Hq. split_and!; [done|done|intros tid Hne; rewrite (Hother tid Hne); apply Hs2|].
    intros row Hc Hr Hp. apply (Hrow row Hc); [rewrite <-Hs2 in Hr; exact Hr|by rewrite Hp].
  - apply Pop_None in EP as [Hnil ->]. simplify_eq. split; [done|]. left. split_and!; done.
Qed.

Lemma Notify_rows ctx env1 env2 req s st s' tid :
  server_inv s → NotifyResult ctx env1 env2 req s = Ret (st, s') → tid ≠ c_str (r_task_id req) →
  task_of tid s' = task_of tid s.
Proof.
  intros Hinv Hn Hne. unfold NotifyResult in Hn. destruct (negb _); [by simplify_eq|].
  apply bind_Ret in Hn as (s2 & Hu & ?). simplify_eq. destruct (decide _).
  - apply bind_Ret in Hu as (s1 & (Hi1 & Ho1 & _)%pg_update_rows & Hu); [|done]. rewrite <-Ho1 by done.
    repeat case_match; apply pg_update_rows in Hu as (_ & Ho & _); auto.
  - apply pg_update_rows in Hu as (_ & Ho & _); auto.
Qed.

Lemma Register_rows ctx env rq s st o s' tid :
  server_inv s → RegisterAgent ctx env rq s = (st, o, s') → task_of tid s' = task_of tid s.
Proof.
  intros Hinv Hr. unfold RegisterAgent in Hr. destruct (negb _); simplify_eq; [done|]. by apply pg_upsert_tasks.
Qed.

(** An illegal transition changes no row. *)
Lemma pg_update_illegal env tid n r s s' row :
  server_inv s → pg_update env tid n r s = Ret s' → task_of (c_str tid) s = Some row →
  IsTransitionAllowed (t_status row) n = false → task_of (c_str tid) s' = Some row.
Proof.
  intros Hinv Hu Hrow Hal. unfold server_inv, task_of in *. destruct (g_pg s) as [[d x]|] eqn:E; [|done].
  destruct Hinv as [Hx Hok]. simpl in *. subst x.
  rewrite (pg_update_eq _ _ _ _ _ _ E ltac:(apply Hok)) in Hu. simplify_eq/=.
  unfold update_spec. by rewrite Hrow, Hal.
Qed.

(** A row that is FAILED is not moved by a dispatch, nor by a report of success. *)
Lemma Do_failed_row ctx env req s st resp s' tid row :
  server_inv s → HealthCheck_Do ctx env req s = Ret (st, resp, s') →
  task_of tid s = Some row → t_status row = kFailed → task_of tid s' = Some row.
Proof.
  intros Hinv Hdo Hrow Hf. unfold HealthCheck_Do in Hdo. destruct (negb _); [by simplify_eq|].
  set (s2 := pg_upsert _ _ _ _ _ _) in Hdo.
  assert (task_of tid s2 = Some row) as H2 by (by rewrite <-Hrow; apply (pg_upsert_tasks _ _ _ _ _ (set_hb _ s))).
  assert (server_inv s2) as Hi2 by (by apply pg_upsert_inv).
  destruct (Pop _ _) as [[t|] q] eqn:EP; [|by simplify_eq].
  apply bind_Ret in Hdo as (s3 & Hu & ?). simplify_eq. destruct (decide (tid = c_str (task_id t))) as [->|Hne].
  - apply (pg_update_illegal _ _ _ _ (set_queue q s2) _ _ Hi2 Hu H2). by rewrite Hf.
  - apply (pg_update_rows _ _ _ _ (set_queue q s2)) in Hu as (_ & Hother & _); [|done]. by rewrite Hother.
Qed.

Lemma Notify_failed_row ctx env1 env2 req s st s' tid row :
  server_inv s → NotifyResult ctx env1 env2 req s = Ret (st, s') →
  task_of tid s = Some row → t_status row = kFailed → task_of tid s' = Some row.
Proof.
  intros Hinv Hn Hrow Hf. assert (∀ env n r s1 s2, n ≠ kPending → server_inv s1 → task_of tid s1 = Some row →
    pg_update env (r_task_id req) n r s1 = Ret s2 → server_inv s2 ∧ task_of tid s2 = Some row) as Hstep.
  { intros env n r s1 s2 Hnp Hi H1 Hu. pose proof (pg_update_rows _ _ _ _ _ _ Hi Hu) as (Hi2 & Hother & _).
    split; [done|]. destruct (decide (tid = c_str (r_task_id req))) as [->|Hne]; [|by rewrite Hother].
    apply (pg_update_illegal _ _ _ _ _ _ _ Hi Hu H1). rewrite Hf. destruct (IsTransitionAllowed _ _) eqn:E; [|done].
    apply IsTransitionAllowed_legal in E. by inversion E. }
  unfold NotifyResult in Hn. destruct (negb _); [by simplify_eq|].
  apply bind_Ret in Hn as (s2 & Hu & ?). simplify_eq. destruct (decide _).
  - apply bind_Ret in Hu as (s1 & [Hi1 H1]%Hstep & Hu); [|done..]. repeat case_match; by eapply Hstep in Hu as [_ ?].
  - by eapply Hstep in Hu as [_ ?].
Qed.

(** A step keeps the consistency of the database, and the connection. *)
Lemma server_step_pg s l s' :
  server_step s l s' → server_inv s → server_inv s' ∧ (g_pg s ≠ None → g_pg s' ≠ None).
Proof.
  intros Hstep Hinv. assert (server_rel keeps_ok s s') as Hrel.
  { eapply server_step_rel; [..|by apply server_inv_ready|exact Hstep]; eauto with drop. apply _. }
  revert Hinv Hrel. unfold server_rel, server_inv, sess_rel, db_ok, keeps_ok.
  destruct (g_pg s), (g_pg s'); naive_solver.
Qed.
