(* ===== verification/StatusRace.v ===== *)
(** Two status updates of one task on two connections: updateTaskStatus of the API server
    against UpdateTaskStatus of drop_server, statement by statement.

    PostgreSQL (READ COMMITTED): SELECT ... FOR UPDATE and UPDATE lock the row until the
    transaction ends, and wait while another one has it; a plain SELECT does neither;
    what a transaction wrote is seen by others after its COMMIT.  Whether the SELECT of
    the API server locks depends on GORM, which it asks with
    [Set("gorm:query_option", "FOR UPDATE")]: [rc_locks]. *)
From stdpp Require Import base gmap strings list relations.
From Stdlib Require Import ZArith Lia.
From S2P Require Import Prelude CppString Json PGStore ApiStatements Server.

Record rcall := mkRcall {
  rc_locks : bool;
  rc_live : bool;
  rc_new : Z;
  rc_reason : string;
  rc_now : Z;
}.

(** The call of drop_server, and that of the API server. *)
Definition cpp_call (new : Z) (reason : string) (now : Z) : rcall := mkRcall true false new reason now.
Definition go_call (locks : bool) (new : Z) (reason : string) (now : Z) : rcall := mkRcall locks true new reason now.

Inductive rpc := RSelect | RUpdate (old : Z) | RInsert (old : Z) | RCommit (old : Z) | RDone.

(** The holder of the row lock: [true] is the first call. *)
Record race := mkRace {
  ra_db : database;
  ra_lock : option bool;
  ra_pc : bool → rpc;
}.

Section race.
Context (tid : string) (call : bool → rcall).

Definition reads (c : rcall) (d : database) : option Z :=
  t_status <$> (if rc_live c then find_live tid d else hotmethod_task d !! tid).

Definition set_pc (who : bool) (pc : rpc) (f : bool → rpc) (w : bool) : rpc := if Bool.eqb w who then pc else f w.

Definition held_by_other (who : bool) (st : race) : bool := bool_decide (ra_lock st = Some (negb who)).

(** One statement of a call; nothing happens while it waits for the lock.  The writes
    reach the database with the COMMIT. *)
Definition race_step (who : bool) (st : race) : race :=
  let c := call who in
  match ra_pc st who with
  | RSelect =>
      if rc_locks c && held_by_other who st then st else
      match reads c (ra_db st) with
      | Some old =>
          if IsTransitionAllowed old (rc_new c)
          then mkRace (ra_db st) (if rc_locks c then Some who else ra_lock st) (set_pc who (RUpdate old) (ra_pc st))
          else mkRace (ra_db st) (ra_lock st) (set_pc who RDone (ra_pc st))
      | None => mkRace (ra_db st) (ra_lock st) (set_pc who RDone (ra_pc st))
      end
  | RUpdate old =>
      if held_by_other who st then st
      else mkRace (ra_db st) (Some who) (set_pc who (RInsert old) (ra_pc st))
  | RInsert old => mkRace (ra_db st) (ra_lock st) (set_pc who (RCommit old) (ra_pc st))
  | RCommit old =>
      mkRace (apply_transition tid old (rc_new c) (rc_reason c) (rc_now c) (ra_db st)) None
        (set_pc who RDone (ra_pc st))
  | RDone => st
  end.

Definition race_run (sched : list bool) (st : race) : race := foldl (λ st who, race_step who st) st sched.

Definition race_start (d : database) : race := mkRace d None (λ _, RSelect).
Definition finished (st : race) : Prop := ∀ who, ra_pc st who = RDone.

(** The call as one step. *)
Definition effect (c : rcall) (d : database) : database :=
  match reads c d with
  | Some old => if IsTransitionAllowed old (rc_new c)
                then apply_transition tid old (rc_new c) (rc_reason c) (rc_now c) d else d
  | None => d
  end.

(** ** Both lock: the calls are serial *)

(** The database when the calls that are done ran one after the other. *)
Definition serial (d : database) (f : bool → rpc) (db : database) : Prop :=
  (f true = RSelect ∧ f false = RSelect ∧ db = d) ∨
  (∃ who, f who = RDone ∧ f (negb who) = RSelect ∧ db = effect (call who) d) ∨
  (∃ who, f who = RDone ∧ f (negb who) = RDone ∧ db = effect (call (negb who)) (effect (call who) d)).

Inductive race_inv (d : database) : race → Prop :=
  | inv_idle st : ra_lock st = None → serial d (ra_pc st) (ra_db st) → race_inv d st
  | inv_active st who old :
      ra_lock st = Some who → ra_pc st who ∈ [RUpdate old; RInsert old; RCommit old] →
      reads (call who) (ra_db st) = Some old → IsTransitionAllowed old (rc_new (call who)) = true →
      serial d (set_pc who RSelect (ra_pc st)) (ra_db st) → race_inv d st.

Lemma set_pc_eq who pc f : set_pc who pc f who = pc.
Proof. unfold set_pc. by destruct who. Qed.
Lemma set_pc_ne who pc f : set_pc who pc f (negb who) = f (negb who).
Proof. unfold set_pc. by destruct who. Qed.

Lemma serial_ext d f g db : (∀ w, f w = g w) → serial d f db → serial d g db.
Proof. intros E. unfold serial. setoid_rewrite E. done. Qed.

Lemma serial_idle d f db who : serial d f db → f who = RSelect ∨ f who = RDone.
Proof.
  intros [(H1 & H2 & _)|[(w & H1 & H2 & _)|(w & H1 & H2 & _)]]; destruct who; try destruct w; simpl in *; auto.
Qed.

Lemma serial_done d f db who :
  f who = RSelect → serial d f db → serial d (set_pc who RDone f) (effect (call who) db).
Proof.
  intros Hw [(H1 & H2 & ->)|[(w & H1 & H2 & ->)|(w & H1 & H2 & _)]].
  - right; left. exists who. rewrite set_pc_eq, set_pc_ne. split_and!; [done| |done]. by destruct who.
  - assert (w = negb who) as -> by (destruct who, w; simpl in *; congruence). rewrite negb_involutive in *.
    right; right. exists (negb who). rewrite negb_involutive, set_pc_eq, set_pc_ne. done.
  - exfalso. destruct who, w; simpl in *; congruence.
Qed.

Lemma race_inv_step d st who :
  (∀ w, rc_locks (call w) = true) → race_inv d st → race_inv d (race_step who st).
Proof.
  intros Hlocks Hinv. destruct Hinv as [st Hl Hs|st w old Hl Hpc Hr Hal Hs].
  - destruct (serial_idle _ _ _ who Hs) as [Hw|Hw]; unfold race_step; rewrite Hw; [|by apply inv_idle].
    rewrite Hlocks. unfold held_by_other. rewrite Hl, bool_decide_eq_false_2 by done. simpl.
    pose proof (serial_done _ _ _ who Hw Hs) as Hd. unfold effect in Hd.
    destruct (reads (call who) (ra_db st)) as [old|] eqn:Er; [|by apply inv_idle].
    destruct (IsTransitionAllowed old _) eqn:Ea; [|by apply inv_idle].
    apply (inv_active _ _ who old); simpl; [done|rewrite set_pc_eq; set_solver|done..|].
    eapply serial_ext; [|exact Hs]. intros w. unfold set_pc. destruct (Bool.eqb_spec w who); by subst.
  - destruct (decide (who = w)) as [->|Hne].
    + unfold race_step. assert (held_by_other w st = false) as Hh
        by (unfold held_by_other; rewrite Hl; apply bool_decide_eq_false_2; by destruct w).
      assert (∀ pc, serial d (set_pc w RSelect (set_pc w pc (ra_pc st))) (ra_db st)) as Hs'.
      { intros pc. eapply serial_ext; [|exact Hs]. intros v. unfold set_pc. by destruct (Bool.eqb v w). }
      rewrite !elem_of_cons in Hpc. destruct Hpc as [-> |[-> |[-> |Hf]]]; [..|by apply not_elem_of_nil in Hf].
      * rewrite Hh. apply (inv_active _ _ w old); simpl; [done|rewrite set_pc_eq; set_solver|done..|apply Hs'].
      * apply (inv_active _ _ w old); simpl; [done|rewrite set_pc_eq; set_solver|done..|apply Hs'].
      * apply inv_idle; [done|]. simpl. pose proof (serial_done _ _ _ w (set_pc_eq w RSelect _) Hs) as Hd.
        unfold effect in Hd. rewrite Hr, Hal in Hd. eapply serial_ext; [|exact Hd].
        intros v. unfold set_pc. by destruct (Bool.eqb v w).
    + assert (who = negb w) as -> by (by destruct who, w).
      destruct (serial_idle _ _ _ (negb w) Hs) as [Hw|Hw]; rewrite set_pc_ne in Hw.
      * unfold race_step. rewrite Hw, Hlocks. unfold held_by_other. rewrite Hl, negb_involutive, bool_decide_eq_true_2 by done.
        by apply (inv_active _ _ w old).
      * unfold race_step. rewrite Hw. by apply (inv_active _ _ w old).
Qed.

Lemma race_serial d sched :
  (∀ w, rc_locks (call w) = true) → finished (race_run sched (race_start d)) →
  ∃ who, ra_db (race_run sched (race_start d)) = effect (call (negb who)) (effect (call who) d).
Proof.
  intros Hlocks Hfin. assert (race_inv d (race_run sched (race_start d))) as Hinv.
  { unfold race_run. assert (race_inv d (race_start d)) as H0 by (apply inv_idle; [done|by left]).
    revert H0. clear Hfin. generalize (race_start d). induction sched as [|who sched IH]; intros st H0; simpl; [done|].
    by apply IH, race_inv_step. }
  destruct Hinv as [st Hl [(H1 & _)|[(w & _ & H1 & _)|(w & _ & _ & H1)]]|st w old _ Hpc _ _ _].
  - by rewrite Hfin in H1.
  - by rewrite Hfin in H1.
  - by exists w.
  - rewrite Hfin in Hpc. rewrite !elem_of_cons in Hpc. destruct Hpc as [?|[?|[?|Hf]]]; try done.
    by apply not_elem_of_nil in Hf.
Qed.
End race.

(** A call as one step is the update of its server. *)
Lemma effect_cpp env tid new reason d :
  env_commits env = true → effect tid (cpp_call new reason (u_now env)) d = update_spec env tid new reason d.
Proof.
  intros He. unfold effect, reads, update_spec. simpl. destruct (hotmethod_task d !! tid) as [r|]; simpl; [|done].
  by rewrite He, andb_true_r.
Qed.

Lemma effect_go locks env tid new reason d :
  env_commits env = true → reason ≠ "" →
  effect tid (go_call locks new reason (u_now env)) d = api_update_spec env tid new reason d.
Proof.
  intros He Hne. unfold effect, reads, api_update_spec, find_live, update_spec. simpl. rewrite decide_False by done.
  destruct (hotmethod_task d !! tid) as [r|]; simpl; [|done]. destruct (deleted r); simpl; [done|].
  by rewrite He, andb_true_r.
Qed.

(** * Claims *)

(** The first call is that of the API server. *)
Definition go_against_cpp (locks : bool) (genv cenv : update_env) (gnew cnew : Z) (greason creason : string)
    (who : bool) : rcall :=
  if who then go_call locks gnew greason (u_now genv) else cpp_call cnew creason (u_now cenv).

Definition uploading : database := mkDb [] 0 {["t1" := mkTask 2 "up" (Some 1) None no_columns]} [] [].

(** C25: Updates of one task by the two servers at the same time are serial exactly because
    the rows are locked: if the API server's SELECT locks the row, then however the
    statements of the two transactions interleave, once both are through the database
    is the one update followed by the other.  If it does not lock (GORM 2 knows no
    query_option; the option is set and ignored), a task can be DONE and then FAILED: the
    API server reads UPLOADING, drop_server commits DONE, and the API server's update
    overwrites it, with an audit trail of two transitions from UPLOADING. *)
Theorem status_race :
  (∀ tid genv cenv gnew cnew greason creason d sched,
     env_commits genv = true → env_commits cenv = true → greason ≠ "" →
     let st := race_run tid (go_against_cpp true genv cenv gnew cnew greason creason) sched (race_start d) in
     finished st →
     ra_db st = update_spec cenv tid cnew creason (api_update_spec genv tid gnew greason d) ∨
     ra_db st = api_update_spec genv tid gnew greason (update_spec cenv tid cnew creason d)) ∧
  (∃ sched,
     let st := race_run "t1" (go_against_cpp false env_fine env_fine kFailed kDone "lost" "done") sched (race_start uploading) in
     finished st ∧ t_status <$> hotmethod_task (ra_db st) !! "t1" = Some kFailed ∧
     moves (history_of "t1" (ra_db st)) = [(kUploading, kDone); (kUploading, kFailed)]).
Proof.
  split.
  - intros tid genv cenv gnew cnew greason creason d sched Hg Hc Hne st Hfin.
    destruct (race_serial tid (go_against_cpp true genv cenv gnew cnew greason creason) d sched) as [[] Hdb];
      [by intros []|done|..]; fold st in Hdb; rewrite Hdb; simpl; [left|right]; by rewrite effect_go, effect_cpp.
  - exists [true; false; false; false; false; true; true; true]. vm_compute. split; [by intros []|done].
Qed.

Lemma status_race_witness :
  let st := race_run "t1" (go_against_cpp true env_fine env_fine kFailed kDone "lost" "done")
              [true; false; false; true; true; true; false] (race_start uploading) in
  ra_db st = update_spec env_fine "t1" kDone "done" (api_update_spec env_fine "t1" kFailed "lost" uploading) ∨
  ra_db st = api_update_spec env_fine "t1" kFailed "lost" (update_spec env_fine "t1" kDone "done" uploading).
Proof.
  apply (proj1 status_race "t1" env_fine env_fine kFailed kDone "lost" "done" uploading
    [true; false; false; true; true; true; false]); [reflexivity|reflexivity|discriminate|intros []; vm_compute; reflexivity].
Defined.

(** With the lock, drop_server waits for the API server's transaction and finds FAILED. *)
Example locked_race_waits :
  let st := race_run "t1" (go_against_cpp true env_fine env_fine kFailed kDone "lost" "done")
              [true; false; false; true; true; true; false] (race_start uploading) in
  finished st ∧ moves (history_of "t1" (ra_db st)) = [(kUploading, kFailed)].
Proof. vm_compute. split; [by intros []|done]. Qed.
