(* ===== verification/Interleavings.v ===== *)
(** Any number of status updates of both servers at the same time, statement by
    statement.

    The threads of drop_server all issue their statements on the one connection of
    PGStore, with no lock around the calls; every updateTaskStatus of the API server
    has a connection of its own.  A transaction is the list of its writes, which reach
    the database with the COMMIT, whoever sends it.  Row locks are left out: they only
    forbid some of the schedules, and what is shown holds of all of them. *)
From stdpp Require Import base gmap strings list relations.
From Stdlib Require Import ZArith Lia.
From S2P Require Import Prelude CppString Proto TaskQueue Json PGStore ApiStatements Server.

(** * Statements *)

(** [go] marks the update of the API server, which gorm restricts to live rows. *)
Inductive write :=
  | WStatus (go : bool) (tid : string) (new : Z) (reason : string) (now : Z)
  | WHistory (h : history_row)
  | WUpsert (ip hostname uid version : string) (now : Z)
  | WMark (online : bool) (id : Z)
  | WAudit (a : audit_row).

Definition apply_write (w : write) (d : database) : database :=
  match w with
  | WStatus go tid new reason now =>
      let f := update_row new reason now in
      set_tasks (alter (if go then if_live f else f) tid) d
  | WHistory h => add_history h d
  | WUpsert ip hostname uid version now => upsert_rows ip hostname uid version now d
  | WMark online id => set_agents (mark_rows online id) d
  | WAudit a => add_audit a d
  end.

Definition apply_writes (ws : list write) (d : database) : database :=
  foldl (λ d w, apply_write w d) d ws.

(** A connection: no transaction, one with its writes, one that a failed statement
    aborted. *)
Inductive conn := Idle | Open (ws : list write) | Failed.

Definition sees (c : conn) (d : database) : database :=
  match c with Open ws => apply_writes ws d | _ => d end.

Definition stmt_begin (ok : bool) (c : conn) : bool * conn :=
  match ok, c with
  | true, Idle => (true, Open [])
  | true, Open _ => (true, c)
  | true, Failed => (false, c)
  | false, Idle => (false, c)
  | false, _ => (false, Failed)
  end.

Definition stmt_write (ok : bool) (w : write) (c : conn) (d : database) : bool * conn * database :=
  match ok, c with
  | true, Idle => (true, Idle, apply_write w d)
  | true, Open ws => (true, Open (ws ++ [w]), d)
  | false, Idle => (false, Idle, d)
  | false, Open _ => (false, Failed, d)
  | _, Failed => (false, Failed, d)
  end.

Definition stmt_query {A} (ok : bool) (q : database → A) (c : conn) (d : database) : option A * conn :=
  match ok, c with
  | true, Idle => (Some (q d), c)
  | true, Open ws => (Some (q (apply_writes ws d)), c)
  | false, Open _ => (None, Failed)
  | _, _ => (None, c)
  end.

Definition stmt_commit (a : commit_answer) (c : conn) (d : database) : conn * database :=
  match c, a with
  | Open ws, (CommitOk | CommitError true) => (Idle, apply_writes ws d)
  | _, _ => (Idle, d)
  end.

(** * The calls *)

(** A status update: of which server, on which connection, with the answers of
    PostgreSQL to its statements. *)
Record ucall := mkUcall {
  uc_go : bool;
  uc_conn : nat;
  uc_env : update_env;
  uc_tid : string;
  uc_new : Z;
  uc_reason : string;
}.

Definition uc_key (u : ucall) : string := if uc_go u then uc_tid u else c_str (uc_tid u).
Definition uc_text (u : ucall) : string :=
  if uc_go u then if decide (uc_reason u = "") then "no reason provided" else uc_reason u
  else c_str (uc_reason u).

(** The row the SELECT of the call finds, the status it reads there, and the test. *)
Definition uc_find (u : ucall) (d : database) : option task_row :=
  if uc_go u then find_live (uc_key u) d else hotmethod_task d !! uc_key u.
Definition uc_read (u : ucall) (row : task_row) : outcome Z :=
  if uc_go u then Ret (t_status row) else stoi (to_string (t_status row)).
Definition uc_allowed (u : ucall) (old : Z) : bool :=
  if uc_go u then isTransitionAllowed old (uc_new u) else IsTransitionAllowed old (uc_new u).

(** One statement of a call. *)
Definition call_stmt (u : ucall) (pc : upd_pc) (c : conn) (d : database) : upd_pc * conn * database :=
  match pc with
  | PcBegin =>
      let '(ok, c') := stmt_begin (u_begin (uc_env u)) c in
      (if ok then PcSelect else PcDone false, c', d)
  | PcSelect =>
      let '(rows, c') := stmt_query (u_select (uc_env u)) (uc_find u) c d in
      match rows with
      | None | Some None => (PcRollback, c', d)
      | Some (Some row) =>
          match uc_read u row with
          | Ret old => (if uc_allowed u old then PcUpdate old else PcRollback, c', d)
          | Throw e => (PcThrown e, c', d)
          | UB _ => (PcThrown invalid_argument, c', d)
          end
      end
  | PcUpdate old =>
      let '(ok, c', d') := stmt_write (u_update (uc_env u))
        (WStatus (uc_go u) (uc_key u) (uc_new u) (uc_text u) (u_now (uc_env u))) c d in
      (if ok then PcInsert old else PcRollback, c', d')
  | PcInsert old =>
      let '(ok, c', d') := stmt_write (u_insert (uc_env u))
        (WHistory (mkHistory (uc_key u) old (uc_new u) (uc_text u) (u_now (uc_env u)))) c d in
      (if ok then PcCommit else PcRollback, c', d')
  | PcCommit =>
      let '(c', d') := stmt_commit (u_commit (uc_env u)) c d in (PcDone true, c', d')
  | PcRollback => (PcDone false, Idle, d)
  | PcDone _ | PcThrown _ => (pc, c, d)
  end.

(** * The machine *)

Record cx := mkCx {
  cx_db : database;
  cx_conn : nat → conn;
  cx_calls : list (ucall * upd_pc);
}.

Definition set_conn (i : nat) (c : conn) (f : nat → conn) (j : nat) : conn :=
  if decide (j = i) then c else f j.

Definition cx_init (d : database) : cx := mkCx d (λ _, Idle) [].

Definition is_agent_write (w : write) : bool :=
  match w with WUpsert _ _ _ _ _ | WMark _ _ | WAudit _ => true | _ => false end.
Definition is_update (stmt : api_stmt) : bool :=
  match stmt with UpdateStatus _ _ _ _ => true | _ => false end.

(** A thread enters an update, or goes on with one; UpsertAgent and the scanner issue
    their statements; the API server and the analyzer issue theirs. *)
Inductive cx_step : cx → cx → Prop :=
  | cx_enter u d cs calls :
      cx_step (mkCx d cs calls) (mkCx d cs (calls ++ [(u, PcBegin)]))
  | cx_stmt i u pc pc' c' d d' cs calls :
      calls !! i = Some (u, pc) →
      call_stmt u pc (cs (uc_conn u)) d = (pc', c', d') →
      cx_step (mkCx d cs calls) (mkCx d' (set_conn (uc_conn u) c' cs) (<[i := (u, pc')]> calls))
  | cx_agents i ok w ok' c' d d' cs calls :
      is_agent_write w = true →
      stmt_write ok w (cs i) d = (ok', c', d') →
      cx_step (mkCx d cs calls) (mkCx d' (set_conn i c' cs) calls)
  | cx_list i ok d cs calls :
      cx_step (mkCx d cs calls) (mkCx d (set_conn i (stmt_query ok agent_info (cs i) d).2 cs) calls)
  | cx_api stmt d cs calls :
      is_update stmt = false → api_pre stmt d →
      cx_step (mkCx d cs calls) (mkCx (api_effect stmt d) cs calls).

(** The next statement of the [i]-th call, and a schedule of such statements. *)
Definition cx_next (i : nat) (st : cx) : cx :=
  match cx_calls st !! i with
  | Some (u, pc) =>
      let '(pc', c', d') := call_stmt u pc (cx_conn st (uc_conn u)) (cx_db st) in
      mkCx d' (set_conn (uc_conn u) c' (cx_conn st)) (<[i := (u, pc')]> (cx_calls st))
  | None => st
  end.
Definition cx_exec (us : list ucall) (sched : list nat) (d : database) : cx :=
  foldl (λ st i, cx_next i st) (mkCx d (λ _, Idle) (map (λ u, (u, PcBegin)) us)) sched.

Lemma cx_next_run i st : rtc cx_step st (cx_next i st).
Proof.
  unfold cx_next. destruct st as [d cs calls]. simpl. destruct (calls !! i) as [[u pc]|] eqn:Hi; [|done].
  destruct (call_stmt _ _ _ _) as [[pc' c'] d'] eqn:Hc. apply rtc_once. by eapply cx_stmt.
Qed.

Lemma cx_exec_run us sched d : rtc cx_step (cx_init d) (cx_exec us sched d).
Proof.
  unfold cx_exec. trans (mkCx d (λ _, Idle) (map (λ u, (u, PcBegin)) us)).
  - induction us as [|u us IH] using rev_ind; [done|]. rewrite map_app.
    eapply rtc_r; [exact IH|]. apply cx_enter.
  - generalize (mkCx d (λ _, Idle) (map (λ u, (u, PcBegin)) us)).
    induction sched as [|i sched IH]; intros st; simpl; [done|]. etrans; [apply cx_next_run|apply IH].
Qed.

(** * The statements are those of the sessions

    Seen from one connection a transaction is a session, and a call of drop_server
    takes the steps of [upd_step]. *)

Definition session_of (c : conn) (d : database) : session :=
  mkSession d (match c with Idle => NoTxn | Open ws => InTxn (apply_writes ws d) | Failed => AbortedTxn end).

Lemma apply_writes_snoc ws w d : apply_writes (ws ++ [w]) d = apply_write w (apply_writes ws d).
Proof. unfold apply_writes. by rewrite foldl_app. Qed.

Lemma stmt_begin_session ok c d :
  exec_begin ok (session_of c d) = ((stmt_begin ok c).1, session_of (stmt_begin ok c).2 d).
Proof. by destruct ok, c. Qed.

Lemma stmt_query_session {A} ok (q : database → A) c d :
  exec_query ok q (session_of c d) = ((stmt_query ok q c d).1, session_of (stmt_query ok q c d).2 d).
Proof. by destruct ok, c. Qed.

Lemma stmt_write_session ok w f c d ok' c' d' :
  stmt_write ok w c d = (ok', c', d') → f = apply_write w →
  exec_dml ok f (session_of c d) = (ok', session_of c' d').
Proof.
  intros H ->. revert H. destruct ok, c; simpl; intros; simplify_eq/=; try done. unfold session_of. by rewrite apply_writes_snoc.
Qed.

Lemma stmt_commit_session a c d :
  (exec_commit a (session_of c d)).2 = session_of (stmt_commit a c d).1 (stmt_commit a c d).2.
Proof. destruct a as [|[]], c; done. Qed.

Lemma call_stmt_session u pc c d pc' c' d' :
  uc_go u = false → call_stmt u pc c d = (pc', c', d') →
  upd_step (uc_env u) (uc_tid u) (uc_new u) (uc_reason u) pc (session_of c d) = (pc', session_of c' d').
Proof.
  intros Hgo. unfold call_stmt, upd_step, uc_find, uc_read, uc_allowed, uc_key, uc_text. rewrite Hgo.
  destruct pc as [| |old|old| | |b|e].
  - rewrite stmt_begin_session. destruct (stmt_begin _ c) as [ok c1]. naive_solver.
  - rewrite stmt_query_session. destruct (stmt_query _ _ c d) as [[[row|]|] c1]; simpl; [|naive_solver..].
    destruct (stoi _); naive_solver.
  - destruct (stmt_write _ _ c d) as [[ok c1] d1] eqn:Hw.
    rewrite (stmt_write_session _ _ _ _ _ _ _ _ Hw) by reflexivity. naive_solver.
  - destruct (stmt_write _ _ c d) as [[ok c1] d1] eqn:Hw.
    rewrite (stmt_write_session _ _ _ _ _ _ _ _ Hw) by reflexivity. naive_solver.
  - pose proof (stmt_commit_session (u_commit (uc_env u)) c d) as Hc.
    destruct (stmt_commit _ c d) as [c1 d1]. destruct (exec_commit _ _). naive_solver.
  - naive_solver.
  - naive_solver.
  - naive_solver.
Qed.

(** A call of the API server whose statements nothing interrupts is its update. *)
Fixpoint call_run (n : nat) (u : ucall) (pc : upd_pc) (c : conn) (d : database) : upd_pc * conn * database :=
  match n with
  | O => (pc, c, d)
  | S n' => let '(pc', c', d') := call_stmt u pc c d in call_run n' u pc' c' d'
  end.

Lemma go_call_alone i env tid new reason d :
  ∃ logged, call_run 6 (mkUcall true i env tid new reason) PcBegin Idle d =
    (PcDone logged, Idle, api_update_spec env tid new reason d).
Proof.
  unfold api_update_spec, update_spec, env_commits. cbn [call_run call_stmt uc_env].
  destruct (find_live tid d) as [row|] eqn:Hf.
  - apply find_live_Some in Hf as Hr. destruct Hr as [Hrow Hlive]. rewrite Hrow.
    destruct (u_begin env); simpl; [|eexists; by rewrite andb_false_r].
    destruct (u_select env); simpl; [|eexists; by rewrite andb_false_r].
    unfold uc_find, uc_read, uc_allowed, uc_key. simpl. rewrite Hf, isTransitionAllowed_IsTransitionAllowed. simpl.
    destruct (IsTransitionAllowed _ _); simpl; [|by eexists].
    destruct (u_update env); simpl; [|by eexists]. destruct (u_insert env); simpl; [|by eexists].
    assert (∀ f, alter (if_live f) tid (hotmethod_task d) = alter f tid (hotmethod_task d)) as Halter.
    { intros f. apply alter_ext. intros r Hr. rewrite Hrow in Hr. simplify_eq. unfold if_live. by rewrite Hlive. }
    destruct (u_commit env) as [|[]]; simpl; eexists; [..|done];
      unfold apply_transition, set_tasks; by rewrite Halter.
  - destruct (u_begin env); simpl; [|by eexists]. destruct (u_select env); simpl; [|by eexists].
    unfold uc_find, uc_key. simpl. rewrite Hf. by eexists.
Qed.

(** * What no interleaving breaks *)

(** Every audit row is that of a creation or of a legal transition. *)
Definition audit_legal (d : database) : Prop :=
  Forall (λ h, (is_creation h ∧ h_new_status h = kPending) ∨ legal (h_old_status h) (h_new_status h))
    (task_status_history d).

Definition rows_ok (d : database) : Prop := statuses_ok d ∧ audit_legal d ∧ agents_ok d.

Definition write_ok (w : write) : Prop :=
  match w with
  | WStatus _ _ new _ _ => 0 <= new <= 4
  | WHistory h => legal (h_old_status h) (h_new_status h)
  | _ => True
  end.
Definition conn_ok (c : conn) : Prop := match c with Open ws => Forall write_ok ws | _ => True end.
Definition pc_ok (u : ucall) (pc : upd_pc) : Prop :=
  match pc with
  | PcUpdate old | PcInsert old => legal old (uc_new u)
  | PcThrown _ => False
  | _ => True
  end.

Definition cx_ok (st : cx) : Prop :=
  rows_ok (cx_db st) ∧ (∀ i, conn_ok (cx_conn st i)) ∧ Forall (λ e, pc_ok e.1 e.2) (cx_calls st).

Lemma chain_legal a hs b :
  chain a hs b → Forall (λ h, legal (h_old_status h) (h_new_status h)) hs.
Proof.
  revert a. induction hs as [|h hs IH]; simpl; intros a; [done|].
  intros (<- & Hl & Hc). constructor; eauto.
Qed.

Lemma db_ok_rows d : db_ok d → rows_ok d.
Proof.
  intros (Hs & (Hchain & Hnone & Hcr) & Ha). split; [done|]. split; [|done].
  apply Forall_forall. intros h Hh. rewrite Forall_forall in Hcr.
  destruct (decide (is_creation h)) as [Hc|Hc]; [left; split; [done|]; by apply Hcr|right].
  assert (h ∈ history_of (h_tid h) d) as Hin by (by apply list_elem_of_filter).
  destruct (hotmethod_task d !! h_tid h) as [row|] eqn:Hrow.
  - apply Hchain in Hrow. apply chain_legal in Hrow. rewrite Forall_forall in Hrow. apply Hrow.
    by apply list_elem_of_filter.
  - rewrite Hnone in Hin by done. by apply not_elem_of_nil in Hin.
Qed.

Lemma apply_write_ok w d : write_ok w → rows_ok d → rows_ok (apply_write w d).
Proof.
  intros Hw (Hs & Hl & Ha). destruct w as [go tid new reason now|h|ip hn uid ver now|b id|a]; simpl in *.
  - split; [|done]. intros tid' r' H. simpl in H. destruct (decide (tid = tid')) as [<-|].
    + rewrite lookup_alter_eq in H. apply fmap_Some in H as (r & Hr & ->). pose proof (Hs _ _ Hr).
      destruct go; [|done]. unfold if_live. by destruct (deleted r).
    + rewrite lookup_alter_ne in H by done. by apply (Hs tid').
  - split; [done|]. split; [|done]. apply Forall_app. split; [done|]. apply Forall_singleton. by right.
  - split; [done|]. split; [done|]. by apply upsert_rows_agents_ok.
  - split; [done|]. split; [done|]. by apply set_agents_mark_ok.
  - done.
Qed.

Lemma apply_writes_ok ws d : Forall write_ok ws → rows_ok d → rows_ok (apply_writes ws d).
Proof.
  intros Hws. revert d. induction Hws as [|w ws Hw _ IH]; intros d Hd; simpl; [done|].
  by apply IH, apply_write_ok.
Qed.

Lemma stmt_write_ok ok w c d ok' c' d' :
  stmt_write ok w c d = (ok', c', d') → write_ok w → conn_ok c → rows_ok d → conn_ok c' ∧ rows_ok d'.
Proof.
  destruct ok, c; simpl; intros ? Hw Hc Hd; simplify_eq/=; try done.
  - split; [done|]. by apply apply_write_ok.
  - split; [|done]. apply Forall_app. split; [done|]. by apply Forall_singleton.
Qed.

Lemma stmt_query_ok {A} ok (q : database → A) c d : conn_ok c → conn_ok (stmt_query ok q c d).2.
Proof. by destruct ok, c. Qed.

(** What a SELECT finds is a row with a status of the machine. *)
Lemma stmt_query_row ok u c d row c' :
  stmt_query ok (uc_find u) c d = (Some (Some row), c') → conn_ok c → rows_ok d →
  uc_read u row = Ret (t_status row) ∧ c' = c.
Proof.
  intros H Hc Hd. assert (∃ d', rows_ok d' ∧ uc_find u d' = Some row ∧ c' = c) as (d' & Hd' & Hf & ->).
  { destruct ok, c as [|ws|]; simpl in H; simplify_eq; eauto. exists (apply_writes ws d).
    split; [|done]. by apply apply_writes_ok. }
  split; [|done]. unfold uc_read. destruct (uc_go u) eqn:Hgo; [done|].
  unfold uc_find in Hf. rewrite Hgo in Hf. destruct Hd' as [Hs _]. by eapply statuses_ok_stoi.
Qed.

Lemma uc_allowed_legal u old : uc_allowed u old = true → legal old (uc_new u).
Proof.
  unfold uc_allowed. rewrite isTransitionAllowed_IsTransitionAllowed.
  destruct (uc_go u); apply IsTransitionAllowed_legal.
Qed.

Lemma call_stmt_ok u pc c d pc' c' d' :
  call_stmt u pc c d = (pc', c', d') → pc_ok u pc → conn_ok c → rows_ok d →
  pc_ok u pc' ∧ conn_ok c' ∧ rows_ok d'.
Proof.
  intros H Hpc Hc Hd. destruct pc as [| |old|old| | |b|e]; simpl in H.
  - destruct (u_begin _), c; simplify_eq/=; done.
  - destruct (stmt_query _ _ c d) as [rows c1] eqn:Hq.
    pose proof (stmt_query_ok (u_select (uc_env u)) (uc_find u) c d Hc) as Hc1. rewrite Hq in Hc1.
    destruct rows as [[row|]|]; [|by simplify_eq/=..].
    destruct (stmt_query_row _ _ _ _ _ _ Hq Hc Hd) as [Hr ->]. rewrite Hr in H.
    destruct (uc_allowed u _) eqn:Hal; simplify_eq/=; [|done]. split; [|done]. by apply uc_allowed_legal.
  - destruct (stmt_write _ _ c d) as [[ok c1] d1] eqn:Hw.
    apply stmt_write_ok in Hw as [? ?]; [|simpl in *; by apply legal_range in Hpc as [_ ?]|done..].
    destruct ok; by simplify_eq/=.
  - destruct (stmt_write _ _ c d) as [[ok c1] d1] eqn:Hw.
    apply stmt_write_ok in Hw as [? ?]; [|done..]. destruct ok; by simplify_eq/=.
  - destruct c as [|ws|], (u_commit _) as [|[]]; simplify_eq/=; try done;
      (split; [done|]; split; [done|]; by apply apply_writes_ok).
  - by simplify_eq/=.
  - by simplify_eq/=.
  - done.
Qed.

Lemma set_conn_forall (P : conn → Prop) i c f : P c → (∀ j, P (f j)) → ∀ j, P (set_conn i c f j).
Proof. intros. unfold set_conn. by case_decide. Qed.

Lemma api_rows_ok stmt d : is_update stmt = false → api_pre stmt d → rows_ok d → rows_ok (api_effect stmt d).
Proof.
  intros Hu Hpre (Hs & Hl & Ha). destruct (keeps_ok_api stmt d Hpre) as (Ks & _ & Ka).
  split; [by apply Ks|]. split; [|by apply Ka].
  destruct stmt; simpl in *; try done.
  - unfold insert_task. by destruct (hotmethod_task d !! tid).
  - apply Forall_app. split; [done|]. apply Forall_singleton. by left.
Qed.

Lemma cx_ok_step st st' : cx_step st st' → cx_ok st → cx_ok st'.
Proof.
  intros Hstep (Hd & Hc & Hcalls). destruct Hstep; simpl in *.
  - split; [done|]. split; [done|]. apply Forall_app. split; [done|]. by apply Forall_singleton.
  - pose proof (Forall_lookup_1 _ _ _ _ Hcalls H) as Hpc.
    destruct (call_stmt_ok _ _ _ _ _ _ _ H0 Hpc (Hc _) Hd) as (? & ? & ?).
    split; [done|]. split; [by apply set_conn_forall|]. by apply Forall_insert.
  - assert (write_ok w) as Hw by (by destruct w).
    destruct (stmt_write_ok _ _ _ _ _ _ _ H0 Hw (Hc i) Hd) as [? ?].
    split; [done|]. split; [by apply set_conn_forall|done].
  - split; [done|]. split; [|done]. apply set_conn_forall; [|done]. apply stmt_query_ok, Hc.
  - split; [by apply api_rows_ok|done].
Qed.

Lemma cx_ok_run st st' : rtc cx_step st st' → cx_ok st → cx_ok st'.
Proof. induction 1; eauto using cx_ok_step. Qed.

Lemma cx_ok_init d : db_ok d → cx_ok (cx_init d).
Proof. intros Hd. split; [by apply db_ok_rows|]. split; [done|by apply Forall_nil]. Qed.

(** * DONE is final for whoever reads it *)

Definition touches (w : write) : option string :=
  match w with WStatus _ tid _ _ _ => Some tid | WHistory h => Some (h_tid h) | _ => None end.

(** Past its SELECT and not yet through. *)
Definition writing (pc : upd_pc) : bool :=
  match pc with PcUpdate _ | PcInsert _ | PcCommit | PcRollback => true | _ => false end.

Definition in_flight (tid : string) (st : cx) : Prop :=
  ∃ k u pc, cx_calls st !! k = Some (u, pc) ∧ uc_key u = tid ∧ writing pc = true.

(** An uncommitted write to a task is that of a call under way on its connection. *)
Definition tracked (st : cx) : Prop :=
  ∀ i ws w tid, cx_conn st i = Open ws → w ∈ ws → touches w = Some tid →
  ∃ k u pc, cx_calls st !! k = Some (u, pc) ∧ uc_conn u = i ∧ uc_key u = tid ∧ writing pc = true.

(** A call on the connection of [u] that is not [u] itself before its SELECT. *)
Lemma set_conn_Open i c f j ws :
  set_conn i c f j = Open ws → (j = i ∧ c = Open ws) ∨ (j ≠ i ∧ f j = Open ws).
Proof. unfold set_conn. case_decide; auto. Qed.

(** What a statement of a call leaves pending: what was there, if the call is not
    through with it, and its own write. *)
Lemma call_stmt_pending u pc c d pc' c' d' ws w :
  call_stmt u pc c d = (pc', c', d') → c' = Open ws → w ∈ ws →
  ((∃ ws0, c = Open ws0 ∧ w ∈ ws0) ∧ (writing pc = true → writing pc' = true)) ∨
  (touches w = Some (uc_key u) ∧ writing pc' = true).
Proof.
  intros H -> Hw. destruct pc as [| |old|old| | |b|e]; simpl in H.
  - destruct (u_begin _), c; simplify_eq/=; [by apply not_elem_of_nil in Hw|left; eauto].
  - left. split; [|done].
    assert (∃ rows, stmt_query (u_select (uc_env u)) (uc_find u) c d = (rows, Open ws)) as [rows Hq].
    { destruct (stmt_query _ _ c d) as [rows c1]. exists rows. repeat case_match; congruence. }
    destruct (u_select _), c; simplify_eq/=; eauto.
  - destruct (u_update _), c as [|ws0|]; simplify_eq/=. apply elem_of_app in Hw as [Hw|Hw]; [left; eauto|right].
    apply list_elem_of_singleton in Hw as ->. done.
  - destruct (u_insert _), c as [|ws0|]; simplify_eq/=. apply elem_of_app in Hw as [Hw|Hw]; [left; eauto|right].
    apply list_elem_of_singleton in Hw as ->. done.
  - destruct c, (u_commit _) as [|[]]; simplify_eq/=.
  - simplify_eq/=.
  - simplify_eq/=. left. eauto.
  - simplify_eq/=. left. eauto.
Qed.

Lemma tracked_stmt i u pc pc' c' d d' cs calls :
  calls !! i = Some (u, pc) → call_stmt u pc (cs (uc_conn u)) d = (pc', c', d') →
  tracked (mkCx d cs calls) → tracked (mkCx d' (set_conn (uc_conn u) c' cs) (<[i := (u, pc')]> calls)).
Proof.
  intros Hi Hstmt Ht j ws w tid Hj Hw Htid. simpl in *.
  assert (i < length calls)%nat as Hlen by (by eapply lookup_lt_Some).
  apply set_conn_Open in Hj as [[-> ->]|[Hne Hj]].
  - destruct (call_stmt_pending _ _ _ _ _ _ _ _ _ Hstmt eq_refl Hw) as [[(ws0 & Hc & Hw0) Hpc]|[Hkey Hpc]].
    + destruct (Ht _ _ _ _ Hc Hw0 Htid) as (k & u1 & pc1 & Hk & ? & ? & ?). simpl in Hk.
      destruct (decide (k = i)) as [->|].
      * simplify_eq. exists i, u, pc'. rewrite list_lookup_insert_eq by done. auto.
      * exists k, u1, pc1. rewrite list_lookup_insert_ne by done. auto.
    + exists i, u, pc'. rewrite list_lookup_insert_eq by done. naive_solver congruence.
  - destruct (Ht _ _ _ _ Hj Hw Htid) as (k & u1 & pc1 & Hk & ? & ? & ?). simpl in Hk.
    exists k, u1, pc1. rewrite list_lookup_insert_ne by naive_solver. auto.
Qed.

Lemma tracked_step st st' : cx_step st st' → tracked st → tracked st'.
Proof.
  intros Hstep Ht. destruct Hstep; simpl in *.
  - intros j ws w tid Hj Hw Htid. destruct (Ht _ _ _ _ Hj Hw Htid) as (k & u1 & pc1 & Hk & Hrest).
    exists k, u1, pc1. split; [|done]. by apply lookup_app_l_Some.
  - by eapply tracked_stmt.
  - intros j ws w' tid Hj Hw Htid. apply set_conn_Open in Hj as [[-> ->]|[Hne Hj]]; [|by eapply Ht].
    destruct ok, (cs i) as [|ws0|] eqn:Hc; simplify_eq/=. apply elem_of_app in Hw as [Hw|Hw]; [by eapply Ht|].
    apply list_elem_of_singleton in Hw as ->. by destruct w.
  - intros j ws w' tid Hj Hw Htid. apply set_conn_Open in Hj as [[-> Hc]|[Hne Hj]]; [|by eapply Ht].
    destruct ok, (cs i) as [|ws0|] eqn:Hci; simplify_eq/=. by eapply Ht.
  - exact Ht.
Qed.

Lemma tracked_run d st : rtc cx_step (cx_init d) st → tracked st.
Proof.
  intros H. assert (∀ s0, rtc cx_step s0 st → tracked s0 → tracked st) as Hrun
    by (clear H; induction 1; eauto using tracked_step).
  by apply (Hrun _ H).
Qed.

(** Nothing is on its way to the task. *)
Definition settled (tid : string) (st : cx) : Prop :=
  (∀ i ws w, cx_conn st i = Open ws → w ∈ ws → touches w ≠ Some tid) ∧
  (∀ k u pc, cx_calls st !! k = Some (u, pc) → uc_key u = tid → ∀ old, pc ≠ PcUpdate old ∧ pc ≠ PcInsert old).

Lemma tracked_settled tid st : tracked st → ¬ in_flight tid st → settled tid st.
Proof.
  intros Ht Hno. split.
  - intros i ws w Hi Hw Htid. destruct (Ht _ _ _ _ Hi Hw Htid) as (k & u & pc & ? & ? & ? & ?). apply Hno. by exists k, u, pc.
  - intros k u pc Hk Hkey old. split; intros ->; apply Hno; eexists k, u, _; eauto.
Qed.

(** The task as it was found DONE. *)
Definition still_done (tid : string) (row : task_row) (hs : list history_row) (d : database) : Prop :=
  (∃ row', hotmethod_task d !! tid = Some row' ∧ same_progress row row') ∧ trail_of tid d = hs.

Lemma apply_write_untouched tid row hs w d :
  touches w ≠ Some tid → still_done tid row hs d → still_done tid row hs (apply_write w d).
Proof.
  intros Hw [Hrow Htr]. unfold still_done. destruct w as [go tid' new reason now|h| | |]; simpl in *; try done.
  - rewrite lookup_alter_ne by congruence. done.
  - split; [done|]. rewrite <-Htr. unfold trail_of, history_of. simpl.
    rewrite filter_app, (filter_cons_False _ h) by congruence. by rewrite filter_nil, app_nil_r.
Qed.

Lemma apply_writes_untouched tid row hs ws d :
  (∀ w, w ∈ ws → touches w ≠ Some tid) → still_done tid row hs d → still_done tid row hs (apply_writes ws d).
Proof.
  revert d. induction ws as [|w ws IH]; intros d Hws Hd; simpl; [done|].
  apply IH; [intros; apply Hws; by right|]. apply apply_write_untouched; [apply Hws; by left|done].
Qed.

(** A SELECT that finds the task DONE ends its call. *)
Lemma select_done u c d row hs pc' c' d' :
  t_status row = kDone → still_done (uc_key u) row hs (sees c d) →
  call_stmt u PcSelect c d = (pc', c', d') → ∀ old, pc' ≠ PcUpdate old ∧ pc' ≠ PcInsert old.
Proof.
  intros Hdone [(row' & Hrow & Hst & _) _] H old. simpl in H.
  assert (stmt_query (u_select (uc_env u)) (uc_find u) c d = (None, c') ∨
          stmt_query (u_select (uc_env u)) (uc_find u) c d = (Some (uc_find u (sees c d)), c')) as [Hq|Hq].
  { destruct (u_select _), c; simpl in *; repeat case_match; simplify_eq; auto. }
  { rewrite Hq in H. by simplify_eq. }
  rewrite Hq in H. destruct (uc_find u (sees c d)) as [r|] eqn:Hf; [|by simplify_eq].
  assert (r = row') as -> by (unfold uc_find in Hf; destruct (uc_go u); [apply find_live_Some in Hf as [Hf _]|]; congruence).
  assert (uc_read u row' = Ret kDone) as Hr by (unfold uc_read; rewrite Hst, Hdone; by destruct (uc_go u)).
  rewrite Hr in H. destruct (uc_allowed u kDone) eqn:Hal; [|by simplify_eq].
  apply uc_allowed_legal in Hal. by apply legal_done_final in Hal.
Qed.

(** The database after a statement is the one before, with one write of the call or
    with the writes of the connection. *)
Lemma call_stmt_db u pc c d pc' c' d' :
  call_stmt u pc c d = (pc', c', d') →
  d' = d ∨ d' = sees c d ∨
  (∃ w old, (pc = PcUpdate old ∨ pc = PcInsert old) ∧ touches w = Some (uc_key u) ∧ d' = apply_write w d).
Proof.
  intros H. destruct pc as [| |old|old| | |b|e]; simpl in H; try (by simplify_eq; auto).
  - destruct (stmt_begin _ c). simplify_eq. auto.
  - destruct (stmt_query _ _ c d). left. repeat case_match; congruence.
  - destruct (u_update _), c; simplify_eq/=; auto. right; right. eexists (WStatus _ _ _ _ _), old. split; [by left|]. split; reflexivity.
  - destruct (u_insert _), c; simplify_eq/=; auto. right; right. eexists (WHistory (mkHistory (uc_key u) _ _ _ _)), old.
    split; [by right|]. split; reflexivity.
  - destruct c, (u_commit _) as [|[]]; simplify_eq/=; auto.
Qed.

(** The state in which the task stays DONE. *)
Definition done_inv (tid : string) (row : task_row) (hs : list history_row) (st : cx) : Prop :=
  settled tid st ∧ still_done tid row hs (cx_db st).

Lemma done_inv_stmt tid row hs i u pc pc' c' d d' cs calls :
  t_status row = kDone → calls !! i = Some (u, pc) →
  call_stmt u pc (cs (uc_conn u)) d = (pc', c', d') →
  done_inv tid row hs (mkCx d cs calls) →
  done_inv tid row hs (mkCx d' (set_conn (uc_conn u) c' cs) (<[i := (u, pc')]> calls)).
Proof.
  intros Hdone Hi Hstmt [[Hconn Hcalls] Hd]. simpl in *.
  assert (still_done tid row hs (sees (cs (uc_conn u)) d)) as Hsees.
  { destruct (cs (uc_conn u)) eqn:Hc; simpl; [done| |done]. apply apply_writes_untouched; eauto. }
  split; [split|]; simpl.
  - intros j ws w Hj Hw Htid. apply set_conn_Open in Hj as [[-> ->]|[Hne Hj]]; [|by eapply Hconn].
    destruct (call_stmt_pending _ _ _ _ _ _ _ _ _ Hstmt eq_refl Hw) as [[(ws0 & Hc & Hw0) _]|[Hkey Hpc]];
      [by eapply Hconn|].
    assert (uc_key u = tid) as <- by congruence. 
    destruct pc as [| |old|old| | |b|e]; simpl in *; try (by simplify_eq).
    + destruct (stmt_begin _ _) as [[] ?]; by simplify_eq.
    + destruct (stmt_query _ _ _ _) as [rows c1] eqn:Hq.
      assert (c1 = Open ws) as -> by (repeat case_match; congruence).
      destruct (u_select _), (cs (uc_conn u)) as [|ws0|] eqn:Hc; simplify_eq/=. by eapply Hconn.
    + by destruct (Hcalls _ _ _ Hi eq_refl old).
    + by destruct (Hcalls _ _ _ Hi eq_refl old).
    + destruct (stmt_commit _ _ _); by simplify_eq.
  - intros k u1 pc1 Hk Hkey old. destruct (decide (k = i)) as [->|]; [|rewrite list_lookup_insert_ne in Hk by done; eauto].
    rewrite list_lookup_insert_eq in Hk by (by eapply lookup_lt_Some). simplify_eq.
    destruct pc as [| |old'|old'| | |b|e]; [| |by destruct (Hcalls _ _ _ Hi eq_refl old')..| | | |]; simpl in Hstmt.
    + destruct (stmt_begin _ _) as [[] ?]; by simplify_eq.
    + by eapply select_done.
    + destruct (stmt_commit _ _ _); by simplify_eq.
    + by simplify_eq.
    + by simplify_eq.
    + by simplify_eq.
  - destruct (call_stmt_db _ _ _ _ _ _ _ Hstmt) as [->|[->|(w & old & Hpc & Hw & ->)]]; [done..|].
    apply apply_write_untouched; [|done]. rewrite Hw. intros [= Hkey].
    destruct Hpc as [-> | ->]; by destruct (Hcalls _ _ _ Hi Hkey old).
Qed.

Lemma keeps_done_still tid row hs stmt d :
  t_status row = kDone → api_pre stmt d → still_done tid row hs d → still_done tid row hs (api_effect stmt d).
Proof.
  intros Hdone Hpre [(row' & Hrow & Hp) Htr]. destruct (keeps_done_api stmt d Hpre) as [_ K].
  assert (t_status row' = kDone) as Hd' by (destruct Hp; congruence).
  destruct (K tid row' Hrow Hd') as [(row2 & Hrow2 & Hp2) Ht2]. split; [|congruence].
  exists row2. split; [done|]. by transitivity row'.
Qed.

Lemma done_inv_step tid row hs st st' :
  t_status row = kDone → cx_step st st' → done_inv tid row hs st → done_inv tid row hs st'.
Proof.
  intros Hdone Hstep Hinv. pose proof Hinv as [[Hconn Hcalls] Hd]. destruct Hstep; simpl in *.
  - split; [split|]; [done| |done]. intros k u1 pc1 Hk Hkey old. simpl in Hk.
    apply lookup_app_Some in Hk as [Hk|[_ Hk]]; [by eapply Hcalls|].
    apply list_lookup_singleton_Some in Hk as [_ [= <- <-]]. done.
  - by eapply done_inv_stmt.
  - assert (touches w ≠ Some tid) as Hw by (by destruct w). split; [split|]; simpl; [|done|].
    + intros j ws w' Hj Hw'. apply set_conn_Open in Hj as [[-> ->]|[Hne Hj]]; [|by eapply Hconn].
      destruct ok, (cs i) as [|ws0|] eqn:Hc; simplify_eq/=. apply elem_of_app in Hw' as [Hw'|Hw']; [by eapply Hconn|].
      by apply list_elem_of_singleton in Hw' as ->.
    + destruct ok, (cs i); simplify_eq/=; try done. by apply apply_write_untouched.
  - split; [split|done]; simpl; [|done]. intros j ws w' Hj Hw'.
    apply set_conn_Open in Hj as [[-> Hc]|[Hne Hj]]; [|by eapply Hconn].
    destruct ok, (cs i) as [|ws0|] eqn:Hci; simplify_eq/=. by eapply Hconn.
  - split; [done|]. by apply keeps_done_still.
Qed.

Lemma done_inv_run tid row hs st st' :
  t_status row = kDone → rtc cx_step st st' → done_inv tid row hs st → done_inv tid row hs st'.
Proof. intros Hdone. induction 1; eauto using done_inv_step. Qed.

(** * One call at a time on the connection *)

(** The calls of PGStore. *)
Inductive store_call :=
  | SUpdate (env : update_env) (tid : string) (new : Z) (reason : string)
  | SUpsert (env : upsert_env) (ip hostname uid version : string)
  | SScan (env : scan_env) (timeout_sec : Z)
  | SList (ok : bool).

Definition exec_call (c : store_call) (s : session) : outcome session :=
  match c with
  | SUpdate env tid new reason => UpdateTaskStatus env tid new reason s
  | SUpsert env ip hostname uid version => Ret (UpsertAgent env ip hostname uid version s)
  | SScan env timeout_sec => Ret (ScanAgentHeartbeats env timeout_sec s).2
  | SList ok => Ret (ListAgents ok s).2
  end.

(** The calls of all threads in any order, none begun before the last has ended, and
    the statements of the API server and the analyzer between them. *)
Inductive db_step : session → session → Prop :=
  | db_call c s s' : exec_call c s = Ret s' → db_step s s'
  | db_api stmt s :
      api_pre stmt (committed s) →
      db_step s (mkSession (api_effect stmt (committed s)) (txn s)).

Lemma exec_call_keeps c s :
  txn s = NoTxn → statuses_ok (committed s) → ∃ s', exec_call c s = Ret s' ∧ sess_rel keeps_ok s s'.
Proof.
  intros Ht Hok. destruct c; simpl.
  - destruct s as [d t]. simpl in *. subst t. rewrite UpdateTaskStatus_atomic by done.
    eexists. split; [done|]. split; [done|]. apply keeps_ok_update.
  - eexists. split; [done|]. apply UpsertAgent_rel; eauto with drop; apply _.
  - eexists. split; [done|]. apply ScanAgentHeartbeats_rel; eauto with drop; apply _.
  - eexists. split; [done|]. unfold ListAgents. destruct (exec_query _ _ _) as [res s1] eqn:Eq.
    apply (f_equal snd) in Eq. rewrite exec_query_notxn in Eq by done. simpl in Eq. subst s1.
    by destruct res; split.
Qed.

Lemma db_step_ok s s' : db_step s s' → sess_ok s → sess_ok s'.
Proof.
  intros Hstep [Ht Hd]. destruct Hstep as [c s s' Hc|stmt s Hpre].
  - destruct (exec_call_keeps c s Ht) as (s1 & Hc1 & Ht1 & K1 & K2 & K3); [by destruct Hd|].
    assert (s1 = s') as -> by congruence. split; [done|]. destruct Hd as (? & ? & ?). split_and!; auto.
  - destruct (keeps_ok_api stmt _ Hpre) as (K1 & K2 & K3). split; [done|].
    destruct Hd as (? & ? & ?). split_and!; auto.
Qed.

Lemma db_run_ok s s' : rtc db_step s s' → sess_ok s → sess_ok s'.
Proof. induction 1; eauto using db_step_ok. Qed.

(** Every handler is a sequence of such calls, so that the calls of handlers that
    run at the same time are among the sequences. *)
Definition calls_of (s s' : server) : Prop :=
  match g_pg s, g_pg s' with
  | Some a, Some b => rtc db_step a b
  | None, None => True
  | _, _ => False
  end.

Lemma calls_of_refl s s' : g_pg s' = g_pg s → calls_of s s'.
Proof. unfold calls_of. intros ->. by destruct (g_pg s). Qed.

Lemma calls_of_trans s1 s2 s3 : calls_of s1 s2 → calls_of s2 s3 → calls_of s1 s3.
Proof. unfold calls_of. destruct (g_pg s1), (g_pg s2), (g_pg s3); try done. intros. by etrans. Qed.

Lemma pg_update_calls env tid n reason s s' :
  pg_update env tid n reason s = Ret s' → calls_of s s'.
Proof.
  unfold pg_update, calls_of. destruct (g_pg s) as [sess|] eqn:E; [|intros; simplify_eq; by rewrite E].
  intros (sess' & H & ?)%bind_Ret. simplify_eq. simpl. apply rtc_once. by apply (db_call (SUpdate env tid n reason)).
Qed.

Lemma pg_upsert_calls env ip h u v s : calls_of s (pg_upsert env ip h u v s).
Proof.
  unfold pg_upsert, calls_of. destruct (g_pg s) as [sess|] eqn:E; simpl; [|by rewrite E].
  apply rtc_once. by apply (db_call (SUpsert env ip h u v)).
Qed.

Lemma HealthCheck_Do_calls ctx env req s st resp s' :
  HealthCheck_Do ctx env req s = Ret (st, resp, s') → calls_of s s'.
Proof.
  unfold HealthCheck_Do. destruct (negb _); [intros; simplify_eq; by apply calls_of_refl|].
  set (s2 := pg_upsert _ _ _ _ _ _).
  assert (calls_of s s2) as H2
    by apply (pg_upsert_calls _ _ _ _ _ (set_hb _ s)).
  destruct (Pop _ _) as [[desc|] q].
  - intros (s3 & H3%pg_update_calls & ?)%bind_Ret. simplify_eq. by eapply calls_of_trans; [exact H2|].
  - intros. by simplify_eq.
Qed.

Lemma NotifyResult_calls ctx env1 env2 req s st s' :
  NotifyResult ctx env1 env2 req s = Ret (st, s') → calls_of s s'.
Proof.
  unfold NotifyResult. destruct (negb _); [intros; simplify_eq; by apply calls_of_refl|].
  intros (s2 & H & ?)%bind_Ret. simplify_eq. destruct (decide _).
  - apply bind_Ret in H as (s1 & H1%pg_update_calls & H2). eapply calls_of_trans; [exact H1|].
    repeat case_match; by eapply pg_update_calls.
  - by eapply pg_update_calls.
Qed.

Lemma drop_step_calls s l s' : drop_step s l s' → calls_of s s'.
Proof.
  destruct 1 as [ctx env req st resp s s' H|ctx env1 env2 req st s s' H
    |ctx req st resp s s' H|ctx req st s s' H|ctx lo clock hbt ip st resp s s' H
    |ctx env req st resp s s' H|env hbt s].
  - by eapply HealthCheck_Do_calls.
  - by eapply NotifyResult_calls.
  - unfold CreateTask in H. destruct (negb _); simplify_eq. by apply calls_of_refl.
  - unfold CreateTask in H. destruct (negb _); simplify_eq. by apply calls_of_refl.
  - unfold StatAgent in H. destruct (negb _); simplify_eq; [by apply calls_of_refl|].
    unfold calls_of. destruct (g_pg s) as [sess|] eqn:E; simplify_eq; [|by rewrite E].
    destruct (ListAgents lo sess) as [ags sess'] eqn:EL. simplify_eq. simpl. apply rtc_once.
    apply (db_call (SList lo)). simpl. by rewrite EL.
  - unfold RegisterAgent in H. destruct (negb _); simplify_eq; [by apply calls_of_refl|]. apply pg_upsert_calls.
  - unfold HeartbeatScanner_round, calls_of. destruct (g_pg s) as [sess|] eqn:E; [|by rewrite E].
    simpl. apply rtc_once. by apply (db_call (SScan env hbt)).
Qed.

Lemma server_run_calls s ls s' : server_run s ls s' → calls_of s s'.
Proof.
  induction 1 as [s|s l s' ls s'' Hstep _ IH]; [by apply calls_of_refl|].
  eapply calls_of_trans; [|exact IH]. destruct Hstep as [s l s' H|stmt s H]; [by eapply drop_step_calls|].
  unfold calls_of, on_db. destruct (g_pg s) as [sess|] eqn:E; [|by rewrite E].
  simpl. apply rtc_once. by apply db_api, H.
Qed.

(** * Claims *)

(** C4: What the database keeps while both servers write to it, from a consistent start.
    However the statements of any number of status updates of both servers, of the
    heartbeats and of the scanner interleave, on the shared connection of drop_server
    and on those of the API server, and whatever PostgreSQL answers: every status is one
    of the status machine, every audit row is a creation or a legal transition, the
    agents have distinct addresses and ids, and no update throws.  If the calls of
    PGStore do not overlap and the updates of the API server run as single steps, in any
    order, then also no transaction is left open and the audit trail of every task leads
    from PENDING to its status; the handlers of drop_server, whose calls may so
    interleave, are sequences of such calls.  (That calls do not overlap is what libpq
    asks of its users; nothing in the code ensures it.) *)
Theorem database_interleavings d :
  db_ok d →
  (∀ st, rtc cx_step (cx_init d) st →
     rows_ok (cx_db st) ∧ Forall (λ e, ∀ x, e.2 ≠ PcThrown x) (cx_calls st)) ∧
  (∀ s, rtc db_step (mkSession d NoTxn) s →
     txn s = NoTxn ∧ db_ok (committed s) ∧ ∀ c, ∃ s', exec_call c s = Ret s') ∧
  (∀ q hb ls s', server_run (mkServer q hb (Some (mkSession d NoTxn))) ls s' →
     ∃ s, g_pg s' = Some s ∧ rtc db_step (mkSession d NoTxn) s).
Proof.
  intros Hd. split; [|split].
  - intros st Hrun. destruct (cx_ok_run _ _ Hrun (cx_ok_init d Hd)) as (Hrows & _ & Hcalls).
    split; [done|]. eapply Forall_impl; [exact Hcalls|]. intros [u pc] Hpc x. simpl in *. by intros ->.
  - intros s Hrun. destruct (db_run_ok _ _ Hrun) as [Ht Hok]; [by split|]. split; [done|]. split; [done|].
    intros c. destruct (exec_call_keeps c s Ht) as (s' & ? & _); [by destruct Hok|]. eauto.
  - intros q hb ls s' Hrun%server_run_calls. unfold calls_of in Hrun. simpl in Hrun.
    destruct (g_pg s') as [s|]; [eauto|done].
Qed.

Definition db_running : database :=
  mkDb [] 0 {["t1" := mkTask 1 "run" (Some 1) None no_columns]} [mkHistory "t1" 0 1 "a" 1] [].

Lemma db_running_ok : db_ok db_running.
Proof.
  split; [by apply map_Forall_singleton|]. split.
  - split; [|split]; [intros tid *; simpl..|].
    + intros [<- <-]%lookup_singleton_Some. vm_compute. repeat split; constructor.
    + intros Hno%lookup_singleton_None. unfold history_of. simpl.
      rewrite !filter_cons, !decide_False by done. done.
    + repeat (apply Forall_cons; split; [by unfold is_creation|]). by apply Forall_nil.
  - repeat split; constructor.
Qed.

(** Two calls of drop_server on its connection and one of the API server. *)
Definition upload_t1 : ucall := mkUcall false 0 env_fine "t1" kUploading "up".
Definition restart_t1 : ucall := mkUcall false 0 env_fine "t1" kPending "again".
Definition fail_t1 : ucall := mkUcall true 1 env_fine "t1" kFailed "lost".

(** The refused call rolls the update of the other one back, whose audit row is
    committed all the same; and the API server overwrites what drop_server wrote. *)
Example overlap_breaks_trail :
  let rows := cx_db (cx_exec [upload_t1; restart_t1] [0; 0; 0; 1; 1; 1; 0; 0]%nat db_running) in
  let race := cx_db (cx_exec [upload_t1; fail_t1] [0; 1; 0; 1; 0; 0; 0; 1; 1; 1]%nat db_running) in
  t_status <$> hotmethod_task rows !! "t1" = Some 1 ∧ moves (history_of "t1" rows) = [(0, 1); (1, 2)] ∧
  t_status <$> hotmethod_task race !! "t1" = Some 4 ∧ moves (history_of "t1" race) = [(0, 1); (1, 2); (1, 4)].
Proof. vm_compute. done. Qed.

Lemma database_interleavings_witness :
  rows_ok (cx_db (cx_exec [upload_t1; restart_t1; fail_t1] [0; 0; 0; 1; 1; 2; 2; 1; 0; 2; 0; 2]%nat db_running)) ∧
  sess_ok (ScanAgentHeartbeats (scan_env_ok 1 (λ _, 1)) 30 (mkSession db_running NoTxn)).2.
Proof.
  split.
  - apply (proj1 (database_interleavings db_running db_running_ok)). apply cx_exec_run.
  - destruct (proj1 (proj2 (database_interleavings db_running db_running_ok))
      (ScanAgentHeartbeats (scan_env_ok 1 (λ _, 1)) 30 (mkSession db_running NoTxn)).2) as (H1 & H2 & _).
    + apply rtc_once. apply (db_call (SScan (scan_env_ok 1 (λ _, 1)) 30)). reflexivity.
    + split; assumption.
Defined.

(** C26: DONE is final for every update that reads it, however the statements of both
    servers interleave on the shared and the other connections: once a task is DONE and no
    update that has read it before is still under way, it stays DONE, with its begin and
    end times and without a further audited transition, whatever updates are begun, on
    whatever connections, and whatever else the API server and the analyzer write.  (An
    update that read the task before it was DONE can still overwrite it.) *)
Theorem done_final d st tid row st' :
  rtc cx_step (cx_init d) st →
  hotmethod_task (cx_db st) !! tid = Some row → t_status row = kDone →
  ¬ in_flight tid st →
  rtc cx_step st st' →
  (∃ row', hotmethod_task (cx_db st') !! tid = Some row' ∧ same_progress row row') ∧
  trail_of tid (cx_db st') = trail_of tid (cx_db st).
Proof.
  intros Hrun Hrow Hdone Hno Hrun'.
  assert (done_inv tid row (trail_of tid (cx_db st)) st) as Hinv.
  { split; [apply tracked_settled; [by eapply tracked_run|done]|]. split; [by exists row|done]. }
  apply (done_inv_run _ _ _ _ _ Hdone Hrun' Hinv).
Qed.

Definition db_done : database :=
  mkDb [] 0 {["t1" := mkTask 3 "done" (Some 1) (Some 2) no_columns]}
    [mkHistory "t1" 0 1 "a" 1; mkHistory "t1" 1 2 "b" 2; mkHistory "t1" 2 3 "c" 2] [].

Lemma done_final_witness :
  let st' := cx_exec [upload_t1; fail_t1] [0; 1; 0; 1; 0; 1; 1; 0]%nat db_done in
  ∃ row', hotmethod_task (cx_db st') !! "t1" = Some row' ∧
    same_progress (mkTask 3 "done" (Some 1) (Some 2) no_columns) row'.
Proof.
  apply (done_final db_done (cx_init db_done) "t1" (mkTask 3 "done" (Some 1) (Some 2) no_columns)).
  - apply rtc_refl.
  - reflexivity.
  - reflexivity.
  - intros (k & u & pc & Hk & _). by destruct k.
  - apply cx_exec_run.
Defined.
