(* ===== verification/ServerMain.v ===== *)
(** The process of drop_server (server/main.cpp): its flags, [main], the loop of the
    heartbeat scanner, and what heartbeats and scans together say about an agent.

    The answer of the server to "is this agent there" is the flag [online] of its row:
    a heartbeat sets it, a scan clears it when the last heartbeat is older than
    --hb_timeout, and StatAgent reports it. *)
From stdpp Require Import base gmap strings list.
From Stdlib Require Import ZArith Lia.
From S2P Require Import Prelude CppString Proto TaskQueue PGStore Server ServerRows.

Local Open Scope string_scope.

(** * Flags and main *)

Record server_flags := mkServerFlags {
  FLAGS_port : Z;
  FLAGS_pg_dsn : string;
  FLAGS_hb_timeout : Z;
  FLAGS_hb_scan_interval : Z;
}.
Definition default_server_flags : server_flags := mkServerFlags 50051 "" 30 10.

Definition listen_addr (f : server_flags) : string := "0.0.0.0:" +:+ to_string (FLAGS_port f).

(** [main] up to [server->Wait()]; [started] tells whether [BuildAndStart] gave a
    server (it gives a null pointer when the port cannot be bound). *)
Definition server_main (f : server_flags) (connect : option database) (started : string → bool) : outcome server :=
  let s := server_main_init (FLAGS_pg_dsn f) connect in
  if started (listen_addr f) then Ret s else UB "Wait() of a null server".

(** The loop of the scanner, one element per round. *)
Definition HeartbeatScanner (f : server_flags) (envs : list scan_env) (s : server) : server :=
  foldl (λ s env, HeartbeatScanner_round env (FLAGS_hb_timeout f) s) s envs.

(** * Heartbeats and scans of a healthy database *)

(** A heartbeat that is handled at [now], or a scan; times in microseconds. *)
Inductive presence :=
  | PBeat (now : Z) (req : HealthCheckRequest) (upd : update_env)
  | PScan (now : Z).

Definition beat_env (now : Z) (upd : update_env) : do_env := mkDoEnv now (mkUpsertEnv true true true now now) upd.

Definition presence_step (f : server_flags) (ctx : ServerContext) (ev : presence) (s : server) : outcome server :=
  match ev with
  | PBeat now req upd => r ← HealthCheck_Do ctx (beat_env now upd) req s; Ret r.2
  | PScan now => Ret (HeartbeatScanner_round (scan_env_ok now (λ _, now)) (FLAGS_hb_timeout f) s)
  end.

Fixpoint presence_run (f : server_flags) (ctx : ServerContext) (evs : list presence) (s : server) : outcome server :=
  match evs with
  | [] => Ret s
  | ev :: evs' => s' ← presence_step f ctx ev s; presence_run f ctx evs' s'
  end.

Definition agent_of (ip : string) (s : server) : option agent_row :=
  match g_pg s with Some sess => find_agent ip (committed sess) | None => None end.

(** The time of the last scan. *)
Definition last_scan (evs : list presence) : option Z :=
  last (omap (λ ev, match ev with PScan now => Some now | PBeat _ _ _ => None end) evs).

Definition beats (ip : string) (ev : presence) : bool :=
  match ev with PBeat _ req _ => bool_decide (c_str (hc_ip_addr req) = ip) | PScan _ => false end.

(** * Lemmas *)

Lemma pg_upsert_agents now ip h u v s d :
  g_pg s = Some (mkSession d NoTxn) →
  ∀ ip', agent_of ip' (pg_upsert (mkUpsertEnv true true true now now) ip h u v s) =
    if decide (ip' = c_str ip) then Some (upserted (c_str ip) (c_str h) (c_str u) (c_str v) now d) else find_agent ip' d.
Proof.
  intros E ip'. unfold agent_of, pg_upsert. rewrite E. cbn [g_pg set_pg]. rewrite UpsertAgent_healthy.
  cbn [committed]. rewrite <-find_agent_upsert.
  by destruct (find_agent (c_str ip) d) as [r|]; [destruct (a_online r)|].
Qed.

Lemma pg_update_agents env tid n r s s' ip :
  server_inv s → pg_update env tid n r s = Ret s' → agent_of ip s' = agent_of ip s.
Proof.
  unfold server_inv, agent_of. intros Hinv Hu. destruct (g_pg s) as [[d x]|] eqn:E.
  2: { unfold pg_update in Hu. rewrite E in Hu. simplify_eq. by rewrite E. }
  destruct Hinv as [Hx Hok]. simpl in Hx. subst x.
  rewrite (pg_update_eq _ _ _ _ _ _ E ltac:(apply Hok)) in Hu. simplify_eq/=.
  unfold find_agent. by rewrite (proj1 (update_spec_agents _ _ _ _ _)).
Qed.

Lemma Do_agents ctx now upd req s st resp s' d :
  server_inv s → g_pg s = Some (mkSession d NoTxn) → is_ok (CheckDeadline ctx) = true →
  HealthCheck_Do ctx (beat_env now upd) req s = Ret (st, resp, s') →
  ∀ ip, agent_of ip s' =
    if decide (ip = c_str (hc_ip_addr req))
    then Some (upserted (c_str (hc_ip_addr req)) (c_str (hc_host_name req)) (c_str (hc_uid req))
                 (c_str (hc_agent_version req)) now d)
    else find_agent ip d.
Proof.
  intros Hinv E Hctx Hdo ip. unfold HealthCheck_Do in Hdo. rewrite Hctx in Hdo. cbn [negb beat_env de_upsert de_steady_now de_update] in Hdo.
  set (s1 := set_hb _ s) in Hdo. assert (g_pg s1 = Some (mkSession d NoTxn)) as E1 by done.
  set (s2 := pg_upsert _ _ _ _ _ s1) in Hdo. assert (server_inv s2) as Hi2 by (by apply pg_upsert_inv).
  rewrite <-(pg_upsert_agents _ _ _ _ _ s1 d E1). fold s2. destruct (Pop _ _) as [[t|] q].
  - apply bind_Ret in Hdo as (s3 & Hu & ?). simplify_eq.
    by rewrite (pg_update_agents _ _ _ _ (set_queue q s2) s' ip Hi2 Hu).
  - by simplify_eq.
Qed.

Lemma scan_agents now timeout audit_now s d ip :
  g_pg s = Some (mkSession d NoTxn) → agents_ok d →
  agent_of ip (HeartbeatScanner_round (scan_env_ok now audit_now) timeout s) =
    (λ r, set_online (fresh now timeout r) r) <$> find_agent ip d.
Proof.
  intros E Hok. unfold agent_of, HeartbeatScanner_round. rewrite E, scan_healthy by done.
  simpl. unfold find_agent. simpl. by rewrite head_filter_map.
Qed.

(** The database is there and consistent. *)
Definition has_db (s : server) (d : database) : Prop := server_inv s ∧ g_pg s = Some (mkSession d NoTxn).

Lemma has_db_intro s : server_inv s → g_pg s ≠ None → ∃ d, has_db s d.
Proof.
  intros Hinv Hpg. pose proof Hinv as Hi. unfold server_inv in Hi. destruct (g_pg s) as [[d x]|] eqn:E; [|done].
  destruct Hi as [Hx _]. simpl in Hx. subst x. exists d. by split.
Qed.

Lemma has_db_agents s d : has_db s d → agents_ok d.
Proof. intros [Hinv E]. unfold server_inv in Hinv. rewrite E in Hinv. by destruct Hinv as (_ & _ & _ & ?). Qed.

Lemma presence_step_ok f ctx ev s d :
  has_db s d → is_ok (CheckDeadline ctx) = true →
  ∃ s' d', presence_step f ctx ev s = Ret s' ∧ has_db s' d' ∧
    ∀ ip, agent_of ip s' =
      match ev with
      | PBeat now req _ =>
          if decide (ip = c_str (hc_ip_addr req))
          then Some (upserted (c_str (hc_ip_addr req)) (c_str (hc_host_name req)) (c_str (hc_uid req))
                       (c_str (hc_agent_version req)) now d)
          else agent_of ip s
      | PScan now => (λ r, set_online (fresh now (FLAGS_hb_timeout f) r) r) <$> agent_of ip s
      end.
Proof.
  intros Hdb Hctx. pose proof (has_db_agents _ _ Hdb) as Hok. destruct Hdb as [Hinv E].
  assert (g_pg s ≠ None) as Hpg by congruence.
  assert (∀ ip, agent_of ip s = find_agent ip d) as Hag by (intros; unfold agent_of; by rewrite E).
  destruct ev as [now req upd|now]; simpl.
  - destruct (proj1 (server_handlers_total s Hinv) ctx (beat_env now upd) req) as (st & o & s' & Hdo). rewrite Hdo. simpl.
    destruct (server_step_pg _ _ _ (step_do _ _ _ _ _ _ _ Hdo) Hinv) as [Hinv' Hpg'].
    destruct (has_db_intro s' Hinv' (Hpg' Hpg)) as [d' Hd']. exists s', d'. split_and!; [done|done|].
    intros ip. rewrite Hag. by apply (Do_agents ctx now upd req s st o s').
  - destruct (server_step_pg _ _ _ (step_scan (scan_env_ok now (λ _, now)) (FLAGS_hb_timeout f) s) Hinv) as [Hinv' Hpg'].
    destruct (has_db_intro _ Hinv' (Hpg' Hpg)) as [d' Hd']. eexists _, d'. split_and!; [done|done|].
    intros ip. rewrite Hag. by apply scan_agents.
Qed.

(** After its last heartbeat the row of an agent changes only by scans. *)
Lemma presence_run_row f ctx evs s d ip r :
  has_db s d → is_ok (CheckDeadline ctx) = true → Forall (λ ev, beats ip ev = false) evs →
  agent_of ip s = Some r →
  ∃ s' d', presence_run f ctx evs s = Ret s' ∧ has_db s' d' ∧
    agent_of ip s' = Some match last_scan evs with
                          | Some now => set_online (fresh now (FLAGS_hb_timeout f) r) r
                          | None => r
                          end.
Proof.
  intros Hdb Hctx. revert s d r Hdb. induction evs as [|ev evs IH]; intros s d r Hdb Hev Hr.
  { exists s, d. by split_and!. }
  apply Forall_cons in Hev as [Hev Hevs].
  destruct (presence_step_ok f ctx ev s d Hdb Hctx) as (s1 & d1 & Hs1 & Hdb1 & Hag). cbn [presence_run]. rewrite Hs1. simpl.
  destruct ev as [now req upd|now]; specialize (Hag ip).
  - simpl in Hev. apply bool_decide_eq_false in Hev. rewrite decide_False in Hag by congruence. rewrite Hr in Hag.
    destruct (IH s1 d1 r Hdb1 Hevs Hag) as (s' & d' & ? & ? & ?). by exists s', d'.
  - rewrite Hr in Hag. simpl in Hag. destruct (IH s1 d1 _ Hdb1 Hevs Hag) as (s' & d' & ? & ? & Hrow).
    exists s', d'. split_and!; [done..|]. rewrite Hrow. unfold last_scan.
    cbn [omap list_omap]. rewrite last_cons. unfold omap. by destruct (last (list_omap _ _ _ evs)).
Qed.

(** * Claims *)

(** C31: How long it takes to notice that an agent is gone.  After the last heartbeat of
    an agent (at [seen], handled by a server with a healthy database), whatever other
    agents send, when the last scan before [now] is less than [period] ago: up to [seen]
    plus the timeout the agent is online, and from [seen] plus the timeout plus the
    period on it is offline; no call throws in between.  With the default flags: not
    before 30 s, and after 40 s at the latest. *)
Theorem offline_detection_bounds f ctx seen req upd evs s d now period :
  has_db s d → is_ok (CheckDeadline ctx) = true → 0 <= FLAGS_hb_timeout f →
  Forall (λ ev, beats (c_str (hc_ip_addr req)) ev = false) evs →
  (∀ t, last_scan evs = Some t → t <= now) →
  (seen + period <= now → ∃ t, last_scan evs = Some t ∧ now - period < t) →
  ∃ s' r, presence_run f ctx (PBeat seen req upd :: evs) s = Ret s' ∧
    agent_of (c_str (hc_ip_addr req)) s' = Some r ∧ a_last_hb r = seen ∧
    (now <= seen + FLAGS_hb_timeout f * us_per_sec → a_online r = true) ∧
    (seen + FLAGS_hb_timeout f * us_per_sec + period <= now → a_online r = false).
Proof.
  intros Hdb Hctx Ht Hev Hlast Hdense.
  destruct (presence_step_ok f ctx (PBeat seen req upd) s d Hdb Hctx) as (s1 & d1 & Hs1 & Hdb1 & Hag).
  specialize (Hag (c_str (hc_ip_addr req))). rewrite decide_True in Hag by done.
  destruct (presence_run_row f ctx evs s1 d1 _ _ Hdb1 Hctx Hev Hag) as (s' & d' & Hrun & _ & Hrow).
  exists s'. eexists. split; [cbn [presence_run]; by rewrite Hs1|]. split; [exact Hrow|].
  unfold us_per_sec in *. destruct (last_scan evs) as [t|]; simpl; (split; [done|]).
  - specialize (Hlast t eq_refl). unfold fresh, us_per_sec. simpl. split; intros Hnow; [apply Z.leb_le; lia|].
    destruct Hdense as (t' & [= <-] & Ht'); [lia|]. apply Z.leb_gt. lia.
  - split; intros Hnow; [done|]. destruct Hdense as (t' & ? & _); [lia|done].
Qed.

(** The server of the witness: an empty database, an agent that is seen at 1 s, another
    one at 35 s, scans every 10 s. *)
Definition empty_server : server := mkServer ∅ ∅ (Some (mkSession (mkDb [] 0 ∅ [] []) NoTxn)).

Lemma empty_server_db : has_db empty_server (mkDb [] 0 ∅ [] []).
Proof. split; [|done]. repeat split; try constructor; intros tid *; done. Qed.

Lemma offline_detection_bounds_witness :
  ∃ s' r, presence_run default_server_flags ctx0
      [PBeat 1000000 (beat "a") env_fine; PScan 10000000; PScan 20000000; PBeat 35000000 (beat "b") env_fine;
       PScan 40000000] empty_server = Ret s' ∧
    agent_of "a" s' = Some r ∧ a_last_hb r = 1000000 ∧
    (41000000 <= 1000000 + 30 * us_per_sec → a_online r = true) ∧
    (1000000 + 30 * us_per_sec + 10000000 <= 41000000 → a_online r = false).
Proof.
  apply (offline_detection_bounds default_server_flags ctx0 1000000 (beat "a") env_fine
    [PScan 10000000; PScan 20000000; PBeat 35000000 (beat "b") env_fine; PScan 40000000]
    empty_server (mkDb [] 0 ∅ [] []) 41000000 10000000).
  - apply empty_server_db.
  - reflexivity.
  - simpl. lia.
  - repeat constructor.
  - intros t [= <-]. lia.
  - intros _. exists 40000000. split; [reflexivity|lia].
Defined.

(** A port that is taken: [BuildAndStart] returns a null pointer, which [main] calls. *)
Example port_taken : server_main default_server_flags None (λ _, false) = UB "Wait() of a null server".
Proof. reflexivity. Qed.
