(* ===== verification/ServerPool.v ===== *)
(** server_pool.h: the agent's list of servers and the rotation on failure.

    A channel is identified by the address it was created for
    ([grpc::CreateChannel] is lazy and does not fail). *)
From stdpp Require Import base strings list.
From Stdlib Require Import ZArith Lia Ascii.
From S2P Require Import Prelude CppString.

Local Open Scope nat_scope.

Record ServerPool := mkPool {
  addrs : list string;
  current_idx : nat;
  channel : option string;
}.

Definition empty_pool : ServerPool := mkPool [] 0 None.

(** [idx % addrs.size()] on an empty vector is a division by zero. *)
Definition Connect (idx : nat) (p : ServerPool) : outcome ServerPool :=
  match addrs p with
  | [] => UB "modulo by zero"
  | _ =>
      let i := idx mod length (addrs p) in
      Ret (mkPool (addrs p) i (addrs p !! i))
  end.

Definition trim_blanks (s : string) : string := trim_back is_blank (trim_front is_blank s).

(** The addresses of a comma-separated list. *)
Definition parse_addrs (addr_list : string) : list string :=
  filter (λ a, a ≠ "") (map trim_blanks (getlines ","%char addr_list)).

Definition Init (addr_list : string) (p : ServerPool) : outcome ServerPool :=
  let l := addrs p ++ parse_addrs addr_list in
  let l' := match l with [] => ["127.0.0.1:50051"] | _ => l end in
  Connect 0 (mkPool l' (current_idx p) (channel p)).

Definition Failover (p : ServerPool) : outcome ServerPool :=
  match addrs p with
  | [] => UB "modulo by zero"
  | _ => Connect ((current_idx p + 1) mod length (addrs p)) p
  end.

Definition GetChannel (p : ServerPool) : option string := channel p.
(** [addrs[current_idx]] *)
Definition CurrentAddr (p : ServerPool) : option string := addrs p !! current_idx p.
Definition CurrentIdx (p : ServerPool) : nat := current_idx p.

Fixpoint failovers (n : nat) (p : ServerPool) : outcome ServerPool :=
  match n with O => Ret p | S n' => p' ← Failover p; failovers n' p' end.

(** * Invariant *)

(** There is a server, the index is in range and the channel is the one of the
    current server. *)
Definition pool_ok (p : ServerPool) : Prop :=
  current_idx p < length (addrs p) ∧ channel p = addrs p !! current_idx p.

Lemma Connect_ok idx p :
  addrs p ≠ [] →
  ∃ p', Connect idx p = Ret p' ∧ pool_ok p' ∧ addrs p' = addrs p ∧
    current_idx p' = idx mod length (addrs p).
Proof.
  unfold Connect. intros Hne.
  assert (length (addrs p) ≠ 0) by (by destruct (addrs p)).
  destruct (addrs p) as [|a l] eqn:E; [done|]. rewrite <-E in *.
  eexists. split; [done|]. split; [|done]. split; cbn [addrs current_idx channel]; [|done].
  by apply Nat.mod_upper_bound.
Qed.

Lemma Failover_ok p :
  pool_ok p →
  ∃ p', Failover p = Ret p' ∧ pool_ok p' ∧ addrs p' = addrs p ∧
    current_idx p' = (current_idx p + 1) mod length (addrs p).
Proof.
  intros [Hlt _]. unfold Failover. destruct (addrs p) as [|a l] eqn:E; [simpl in Hlt; lia|].
  rewrite <-E in *. destruct (Connect_ok ((current_idx p + 1) mod length (addrs p)) p)
    as (p' & H & Hok & Ha & Hi); [by rewrite E|].
  exists p'. split; [done|]. split; [done|]. split; [done|].
  rewrite Hi. apply Nat.Div0.mod_mod.
Qed.

Lemma failovers_ok n p :
  pool_ok p →
  ∃ p', failovers n p = Ret p' ∧ pool_ok p' ∧ addrs p' = addrs p ∧
    current_idx p' = (current_idx p + n) mod length (addrs p).
Proof.
  revert p. induction n as [|n IH]; intros p Hok.
  - exists p. split; [done|]. split; [done|]. split; [done|].
    rewrite Nat.add_0_r, Nat.mod_small; [done|]. apply Hok.
  - cbn [failovers]. destruct (Failover_ok p Hok) as (p1 & -> & Hok1 & Ha1 & Hi1).
    cbn [mbind outcome_bind]. destruct (IH p1 Hok1) as (p2 & -> & Hok2 & Ha2 & Hi2).
    exists p2. split; [done|]. split; [done|]. split; [congruence|].
    rewrite Hi2, Ha1, Hi1, Nat.Div0.add_mod_idemp_l. f_equal. lia.
Qed.

Lemma parse_addrs_wf l a :
  a ∈ parse_addrs l →
  a ≠ "" ∧ no_char ","%char a ∧ (∀ t, a ≠ t +:+ " ").
Proof.
  unfold parse_addrs. intros [Hne (s & -> & Hs)%list_elem_of_fmap]%list_elem_of_filter.
  split; [done|]. split.
  - assert (no_char ","%char s) as Hno.
    { pose proof (getlines_no_char ","%char l) as Hall. rewrite Forall_forall in Hall. by apply Hall. }
    unfold trim_blanks. destruct (trim_back_split is_blank (trim_front is_blank s)) as (t & Heq & _).
    assert (no_char ","%char (trim_front is_blank s)) as Hf.
    { clear -Hno. induction s as [|c s IH]; simpl; [done|].
      apply no_char_cons in Hno as [Hc Hno]. destruct (is_blank c); [auto|].
      by apply no_char_cons. }
    rewrite Heq in Hf. by apply no_char_app in Hf as [? _].
  - intros t Heq. by apply trim_back_last in Heq.
Qed.

Lemma trim_front_head p s a t : trim_front p s = String a t → p a = false.
Proof. induction s as [|c s IH]; simpl; [done|]. destruct (p c) eqn:E; [done|]. naive_solver. Qed.

Lemma trim_blanks_head s a t : trim_blanks s = String a t → a ≠ " "%char.
Proof.
  unfold trim_blanks. intros H ->.
  destruct (trim_back_split is_blank (trim_front is_blank s)) as (u & Heq & _).
  rewrite H in Heq. simpl in Heq. by apply trim_front_head in Heq.
Qed.

(** * Claims *)

(** Init always yields a usable pool connected to its first server: at least
    one address (the default when the list has none), every parsed address
    non-empty, without comma and without surrounding blanks. *)
Theorem server_pool_init addr_list :
  ∃ p, Init addr_list empty_pool = Ret p ∧ pool_ok p ∧ current_idx p = 0 ∧
    addrs p = (if decide (parse_addrs addr_list = []) then ["127.0.0.1:50051"]
               else parse_addrs addr_list) ∧
    ∀ a, a ∈ parse_addrs addr_list →
      a ≠ "" ∧ no_char ","%char a ∧ (∀ t, a ≠ t +:+ " ") ∧ (∀ t, a ≠ String " "%char t).
Proof.
  unfold Init. cbn [addrs empty_pool app].
  set (l' := match parse_addrs addr_list with [] => _ | _ => _ end).
  assert (l' ≠ []) as Hne by (subst l'; by destruct (parse_addrs addr_list)).
  destruct (Connect_ok 0 (mkPool l' 0 None) Hne) as (p & H & Hok & Ha & Hi).
  exists p. split; [done|]. split; [done|]. split; [by rewrite Hi, Nat.Div0.mod_0_l|].
  split; [rewrite Ha; simpl; subst l'; by destruct (parse_addrs addr_list)|].
  intros a Ha'. destruct (parse_addrs_wf _ _ Ha') as (? & ? & ?). repeat (split; [done|]).
  intros t ->. unfold parse_addrs in Ha'.
  apply list_elem_of_filter in Ha' as [_ (s & Hs & _)%list_elem_of_fmap].
  symmetry in Hs. by apply trim_blanks_head in Hs.
Qed.

(** Failover rotates: from a usable pool, [n] failovers end at the server
    [n] places further around the list, with its channel, and as many failovers
    as there are servers come back to the start, so every server is tried. *)
Theorem server_pool_rotation p n :
  pool_ok p →
  (∃ p', failovers n p = Ret p' ∧ pool_ok p' ∧ addrs p' = addrs p ∧
     current_idx p' = (current_idx p + n) mod length (addrs p)) ∧
  (∀ i, i < length (addrs p) → ∃ k p', k < length (addrs p) ∧
     failovers k p = Ret p' ∧ current_idx p' = i).
Proof.
  intros Hok. split; [by apply failovers_ok|]. intros i Hi. destruct Hok as [Hc Hch].
  set (L := length (addrs p)) in *. set (c := current_idx p) in *.
  exists ((i + L - c) mod L). destruct (failovers_ok ((i + L - c) mod L) p (conj Hc Hch))
    as (p' & H & _ & _ & Hi').
  exists p'. split; [apply Nat.mod_upper_bound; lia|]. split; [done|].
  rewrite Hi'. fold L c. rewrite Nat.Div0.add_mod_idemp_r.
  replace (c + (i + L - c)) with (i + 1 * L) by lia.
  rewrite Nat.Div0.mod_add. by apply Nat.mod_small.
Qed.

Lemma server_pool_rotation_witness :
  let p := mkPool ["a"; "b"; "c"] 1 (Some "b") in
  ∃ p', failovers 5 p = Ret p' ∧ pool_ok p' ∧ addrs p' = addrs p ∧ current_idx p' = 0.
Proof. apply (server_pool_rotation (mkPool ["a"; "b"; "c"] 1 (Some "b")) 5). split; simpl; [lia|done]. Defined.
