(* ===== verification/OS.v ===== *)
(** The operating system as the agent sees it: an interface over an abstract
    world.  The profilers, the uploaders and the continuous profiler are written
    against [OS]; a theorem that needs the file system to behave like one names
    [FSLaws].  [sim] is a concrete world (a map of files, a clock, and the scripted
    behaviour of the programs that will be run), an instance of both, on which
    the models compute. *)
From stdpp Require Import base gmap strings list.
From Stdlib Require Import ZArith Lia.
From S2P Require Import Prelude CppString.

(** * Child processes *)

(** What [waitpid] tells: an error with its [strerror] text, or how the child
    ended. *)
Inductive wait_result :=
  | WaitFailed (err : string)
  | Exited (status : Z)
  | Signaled (sig : Z).

(** [fork] failed, or the child ran; [timed_out] is the watchdog's flag. *)
Inductive run_outcome :=
  | ForkFailed (err : string)
  | Ran (timed_out : bool) (w : wait_result).

(** A child: the program handed to [exec], its arguments, the files its stdout
    and stderr go to ([None] is /dev/null), and the watchdog's limit in seconds
    ([None] when the parent waits without watchdog). *)
Record spawn_req := mkSpawn {
  sp_program : string;
  sp_argv : list string;
  sp_stdout : option string;
  sp_stderr : option string;
  sp_timeout : option Z;
}.

(** * The interface *)

Class OS (W : Type) := {
  (** [std::filesystem::create_directories]: [false] when it throws. *)
  os_mkdirs : string → W → bool * W;
  (** [std::filesystem::exists]: [None] when it throws (a directory of the path
      that may not be searched). *)
  os_exists : string → W → option bool;
  (** [file_size]: [None] when it throws. *)
  os_size : string → W → option Z;
  (** The whole content through an [ifstream]; [None] when it does not open. *)
  os_read : string → W → option string;
  (** Writes the file through an [ofstream] in truncating mode; [false] when it
      does not open. *)
  os_write : string → string → W → bool * W;
  (** [std::filesystem::remove]: [false] when it throws. *)
  os_remove : string → W → bool * W;
  os_chmod : string → W → option string * W;
  (** fork, exec, watch and wait. *)
  os_spawn : spawn_req → W → run_outcome * W;
  (** [popen] in read mode: what the command printed and the result of
      [pclose]; [None] when [popen] fails. *)
  os_popen : string → W → option (string * Z) * W;
  (** [pipe], [fork], [exec], [read] to the end and [waitpid], as
      UploadFileToAPI does: an error text, or the output and the wait result. *)
  os_pipe_run : list string → W → (string + string * wait_result) * W;
  (** [readlink("/proc/self/exe")] and [current_path()]. *)
  os_self_exe : W → option string;
  os_cwd : W → string;
  (** [canonical]: [None] when it throws. *)
  os_canonical : string → W → option string;
  os_getenv : string → W → option string;
  (** [system_clock] in seconds; [sleep_for]. *)
  os_now : W → Z;
  os_sleep : Z → W → W;
}.

Class FSLaws (W : Type) `{OS W} := {
  os_write_read p c w w' : os_write p c w = (true, w') → os_read p w' = Some c;
  os_write_exists p c w w' : os_write p c w = (true, w') → os_exists p w' = Some true;
}.

(** * Programs

    A piece of the agent: from a world to an outcome and the world it leaves,
    also when it throws. *)

Definition prog (W A : Type) : Type := W → outcome A * W.

#[global] Instance prog_ret W : MRet (prog W) := λ A a w, (Ret a, w).
#[global] Instance prog_bind W : MBind (prog W) := λ A B f m w,
  match m w with
  | (Ret a, w') => f a w'
  | (Throw e, w') => (Throw e, w')
  | (UB why, w') => (UB why, w')
  end.

(** A computation without effects; one that cannot throw; one that only reads. *)
Definition lift {W A} (o : outcome A) : prog W A := λ w, (o, w).
Definition act {W A} (f : W → A * W) : prog W A := λ w, let '(a, w') := f w in (Ret a, w').
Definition gets {W A} (f : W → A) : prog W A := λ w, (Ret (f w), w).
Definition modify {W} (f : W → W) : prog W unit := λ w, (Ret tt, f w).
(** A reading call of [std::filesystem] that throws on [None]. *)
Definition fs_gets {W A} (f : W → option A) : prog W A :=
  λ w, (match f w with Some a => Ret a | None => Throw filesystem_error end, w).
(** [try { m } catch (...) { h }] *)
Definition ptry {W A} (m h : prog W A) : prog W A :=
  λ w, match m w with (Throw _, w') => h w' | r => r end.

Section Calls.
Context {W : Type} `{OS W}.
Definition create_directories (p : string) : prog W unit :=
  λ w, let '(ok, w') := os_mkdirs p w in (if ok then Ret tt else Throw filesystem_error, w').
Definition fs_exists (p : string) : prog W bool := fs_gets (os_exists p).
Definition file_size (p : string) : prog W Z := fs_gets (os_size p).
Definition canonical (p : string) : prog W string := fs_gets (os_canonical p).
Definition spawn (r : spawn_req) : prog W run_outcome := act (os_spawn r).
Definition read_file (p : string) : prog W (option string) := gets (os_read p).
Definition write_file (p c : string) : prog W bool := act (os_write p c).
Definition remove_file (p : string) : prog W unit :=
  λ w, let '(ok, w') := os_remove p w in (if ok then Ret tt else Throw filesystem_error, w').
(** [unlink], whose result is not looked at. *)
Definition unlink_file (p : string) : prog W unit := modify (λ w, (os_remove p w).2).
Definition popen (cmd : string) : prog W (option (string * Z)) := act (os_popen cmd).
End Calls.

Lemma prog_bind_Ret {W A B} (m : prog W A) (f : A → prog W B) w b w' :
  (m ≫= f) w = (Ret b, w') ↔ ∃ a w1, m w = (Ret a, w1) ∧ f a w1 = (Ret b, w').
Proof. unfold mbind, prog_bind. destruct (m w) as [[] ?]; naive_solver. Qed.

(** The monad laws, world by world. *)
Lemma prog_bind_assoc {W A B C} (m : prog W A) (f : A → prog W B) (g : B → prog W C) w :
  ((m ≫= f) ≫= g) w = (m ≫= λ a, f a ≫= g) w.
Proof. unfold mbind, prog_bind. by destruct (m w) as [[] ?]. Qed.
Lemma prog_bind_mret {W A B} (a : A) (f : A → prog W B) w : (mret a ≫= f) w = f a w.
Proof. done. Qed.
Lemma prog_bind_ext {W A B} (m : prog W A) (f g : A → prog W B) w :
  (∀ a w', f a w' = g a w') → (m ≫= f) w = (m ≫= g) w.
Proof. intros E. unfold mbind, prog_bind. by destruct (m w) as [[] ?]; rewrite ?E. Qed.

(** One step of a run that is known to return. *)
Lemma prog_bind_step {W A B} (m : prog W A) (f : A → prog W B) w a w1 :
  m w = (Ret a, w1) → (m ≫= f) w = f a w1.
Proof. unfold mbind, prog_bind. by intros ->. Qed.

Lemma mret_Ret {W A} (a b : A) (w w' : W) : (mret a : prog W A) w = (Ret b, w') ↔ a = b ∧ w = w'.
Proof. unfold mret, prog_ret. naive_solver. Qed.

Lemma lift_Ret {W A} (o : outcome A) b (w w' : W) : lift o w = (Ret b, w') ↔ o = Ret b ∧ w = w'.
Proof. unfold lift. naive_solver. Qed.

Lemma gets_Ret {W A} (f : W → A) b (w w' : W) : gets f w = (Ret b, w') ↔ f w = b ∧ w = w'.
Proof. unfold gets. naive_solver. Qed.

Lemma fs_gets_Ret {W A} (f : W → option A) b (w w' : W) :
  fs_gets f w = (Ret b, w') ↔ f w = Some b ∧ w = w'.
Proof. unfold fs_gets. destruct (f w); naive_solver. Qed.

Lemma act_Ret {W A} (f : W → A * W) b w w' : act f w = (Ret b, w') ↔ f w = (b, w').
Proof. unfold act. destruct (f w); naive_solver. Qed.

(** Takes a run [p w = (Ret b, w')] apart, one bind, test or call at a time. *)
Ltac prog_inv1 :=
  match goal with
  | H : mbind _ _ _ = (Ret _, _) |- _ =>
      apply prog_bind_Ret in H as (? & ? & ? & H); cbv beta zeta in H
  | H : mret _ _ = (Ret _, _) |- _ => apply mret_Ret in H as [? ?]; simplify_eq
  | H : lift _ _ = (Ret _, _) |- _ => apply lift_Ret in H as [? ?]; simplify_eq
  | H : gets _ _ = (Ret _, _) |- _ => apply gets_Ret in H as [? ?]; simplify_eq
  | H : fs_gets _ _ = (Ret _, _) |- _ => apply fs_gets_Ret in H as [? ?]; simplify_eq
  | H : bool_decide _ = true |- _ => apply bool_decide_eq_true in H
  | H : bool_decide _ = false |- _ => apply bool_decide_eq_false in H
  | H : negb _ = true |- _ => apply negb_true_iff in H
  | H : negb _ = false |- _ => apply negb_false_iff in H
  | H : (if ?b then _ else _) _ = (Ret _, _) |- _ => destruct b eqn:?
  | H : (match ?x with _ => _ end) _ = (Ret _, _) |- _ => destruct x eqn:?
  end.
Ltac prog_inv := repeat (prog_inv1; simplify_eq).

(** * A world with more state beside it *)

(** A call of the world below. *)
Definition below {W X A} (f : W → A * W) (w : W * X) : A * (W * X) :=
  let '(a, w') := f w.1 in (a, (w', w.2)).

Definition prod_os {W X} `{OS W} : OS (W * X) := {|
  os_mkdirs p := below (os_mkdirs p);
  os_exists p w := os_exists p w.1;
  os_size p w := os_size p w.1;
  os_read p w := os_read p w.1;
  os_write p c := below (os_write p c);
  os_remove p := below (os_remove p);
  os_chmod p := below (os_chmod p);
  os_spawn r := below (os_spawn r);
  os_popen c := below (os_popen c);
  os_pipe_run a := below (os_pipe_run a);
  os_self_exe w := os_self_exe w.1;
  os_cwd w := os_cwd w.1;
  os_canonical p w := os_canonical p w.1;
  os_getenv v w := os_getenv v w.1;
  os_now w := os_now w.1;
  os_sleep d w := (os_sleep d w.1, w.2);
|}.

(** * A world that keeps the list of the children it was asked for *)

Definition traced (W : Type) : Type := W * list spawn_req.

#[global] Instance traced_os {W} `{OS W} : OS (traced W) := {|
  os_mkdirs := λ p w, let '(b, w') := os_mkdirs p w.1 in (b, (w', w.2));
  os_exists := λ p w, os_exists p w.1;
  os_size := λ p w, os_size p w.1;
  os_read := λ p w, os_read p w.1;
  os_write := λ p c w, let '(b, w') := os_write p c w.1 in (b, (w', w.2));
  os_remove := λ p w, let '(b, w') := os_remove p w.1 in (b, (w', w.2));
  os_chmod := λ p w, let '(b, w') := os_chmod p w.1 in (b, (w', w.2));
  os_spawn := λ r w, let '(b, w') := os_spawn r w.1 in (b, (w', w.2 ++ [r]));
  os_popen := λ c w, let '(b, w') := os_popen c w.1 in (b, (w', w.2));
  os_pipe_run := λ a w, let '(b, w') := os_pipe_run a w.1 in (b, (w', w.2));
  os_self_exe := λ w, os_self_exe w.1;
  os_cwd := λ w, os_cwd w.1;
  os_canonical := λ p w, os_canonical p w.1;
  os_getenv := λ v w, os_getenv v w.1;
  os_now := λ w, os_now w.1;
  os_sleep := λ d w, (os_sleep d w.1, w.2);
|}.

Lemma remove_file_trace {W} `{OS W} p (w : traced W) r w' :
  remove_file p w = (r, w') → w'.2 = w.2.
Proof. unfold remove_file. simpl. destruct (os_remove p w.1) as [[] ?]; naive_solver. Qed.

(** * A concrete world *)

Record sim := mkSim {
  files : gmap string string;
  clock : Z;
  env_vars : gmap string string;
  self_exe : option string;
  (** what the next children do: their outcome and the files they write *)
  children : list (run_outcome * list (string * string));
  (** what the next [popen]s answer *)
  popens : list (option (string * Z));
  (** what the next piped commands answer *)
  pipes : list (string + string * wait_result);
}.

Definition set_files (f : gmap string string) (w : sim) : sim :=
  mkSim f (clock w) (env_vars w) (self_exe w) (children w) (popens w) (pipes w).

Definition write_all (fs : list (string * string)) (m : gmap string string) : gmap string string :=
  foldl (λ m f, <[f.1 := f.2]> m) m fs.

#[global] Instance sim_os : OS sim := {|
  os_mkdirs := λ _ w, (true, w);
  os_exists := λ p w, Some (bool_decide (is_Some (files w !! p)));
  os_size := λ p w, (λ c, Z.of_nat (String.length c)) <$> files w !! p;
  os_read := λ p w, files w !! p;
  os_write := λ p c w, (true, set_files (<[p := c]> (files w)) w);
  os_remove := λ p w, (true, set_files (delete p (files w)) w);
  os_chmod := λ _ w, (None, w);
  os_spawn := λ _ w,
    match children w with
    | [] => (ForkFailed "Resource temporarily unavailable", w)
    | (r, fs) :: rest =>
        (r, mkSim (write_all fs (files w)) (clock w) (env_vars w) (self_exe w) rest
              (popens w) (pipes w))
    end;
  os_popen := λ _ w,
    match popens w with
    | [] => (None, w)
    | a :: rest =>
        (a, mkSim (files w) (clock w) (env_vars w) (self_exe w) (children w) rest (pipes w))
    end;
  os_pipe_run := λ _ w,
    match pipes w with
    | [] => (inl "fork failed", w)
    | a :: rest =>
        (a, mkSim (files w) (clock w) (env_vars w) (self_exe w) (children w) (popens w) rest)
    end;
  os_self_exe := λ w, self_exe w;
  os_cwd := λ _, "/opt/drop";
  os_canonical := λ p _, Some p;
  os_getenv := λ v w, env_vars w !! v;
  os_now := λ w, clock w;
  os_sleep := λ d w,
    mkSim (files w) (clock w + d) (env_vars w) (self_exe w) (children w) (popens w) (pipes w);
|}.

#[global] Instance sim_laws : FSLaws sim.
Proof.
  split; intros p c w w' H; simpl in H; simplify_eq; simpl.
  - apply lookup_insert_eq.
  - f_equal. apply bool_decide_eq_true. rewrite lookup_insert_eq. eauto.
Qed.

Definition sim0 : sim := mkSim ∅ 0 ∅ None [] [] [].
