(* ===== verification/Watchdog.v ===== *)
(** The watchdog that PerfProfiler, AsyncProfilerProfiler and ScriptRunner each
    run beside their child (the same code in the three files): one thread blocked
    in [waitpid], one waiting on a condition variable until the deadline, and
    the child.

    Between two waits the watchdog holds the mutex, so what it does after a
    wake-up is one step; the main thread sets [child_done] under the same mutex.
    Time is in nanoseconds and passes by [tick] steps. *)
From stdpp Require Import base list relations.
From Stdlib Require Import ZArith Lia.
From S2P Require Import Prelude OS.

Inductive signal := SIGTERM | SIGKILL.

(** The child: running; dead and not waited for; waited for, with the status it
    left. *)
Inductive child_state :=
  | Running
  | Zombie (w : wait_result)
  | Reaped (w : wait_result).

(** What a child can leave for [waitpid] to report. *)
Definition is_status (w : wait_result) : bool :=
  match w with WaitFailed _ => false | _ => true end.

(** The main thread: in [waitpid]; about to set [child_done]; in [join]; after a
    timeout, in the loop that reaps what is left of the process group; past it. *)
Inductive main_pc :=
  | MWait
  | MSetDone (w : wait_result)
  | MJoin (w : wait_result)
  | MDrain (w : wait_result)
  | MReturn (w : wait_result).

(** The watchdog: in the first [wait_until]; in the second one, until
    [kill_deadline]; finished. *)
Inductive wd_pc :=
  | WWait
  | WGrace (kill_deadline : Z)
  | WExit.

Record wstate := mkW {
  now : Z;
  child : child_state;
  main : main_pc;
  wd : wd_pc;
  child_done : bool;
  timed_out : bool;
  sent : list (signal * Z);
}.

Definition ns : Z := 1000000000.
Definition grace : Z := 5 * ns.

Definition start_state (start : Z) : wstate :=
  mkW start Running MWait WWait false false [].

Section Watchdog.
Context (start timeout_sec : Z).

Definition deadline : Z := start + timeout_sec * ns.

(** [stubborn] restricts the child to die only from SIGKILL. *)
Context (stubborn : bool).

Inductive wstep : wstate → wstate → Prop :=
  | w_tick t c m w d to ss dt :
      0 < dt →
      wstep (mkW t c m w d to ss) (mkW (t + dt) c m w d to ss)
  | w_child_exit t m w d to ss r :
      (stubborn = true → ∃ t', (SIGKILL, t') ∈ ss) → is_status r = true →
      wstep (mkW t Running m w d to ss) (mkW t (Zombie r) m w d to ss)
  (** [waitpid] returns with the child's status, *)
  | w_waitpid t r w d to ss :
      wstep (mkW t (Zombie r) MWait w d to ss) (mkW t (Reaped r) (MSetDone r) w d to ss)
  (** or fails and leaves the child as it is; either way the main thread *)
  | w_waitpid_failed t c err w d to ss :
      wstep (mkW t c MWait w d to ss) (mkW t c (MSetDone (WaitFailed err)) w d to ss)
  (** sets [child_done] under the lock and notifies, *)
  | w_set_done t c r w d to ss :
      wstep (mkW t c (MSetDone r) w d to ss) (mkW t c (MJoin r) w true to ss)
  (** and joins the watchdog. After a timeout it waits for what is left of the
      process group, without blocking, until there is nothing to reap. *)
  | w_join t c r d ss :
      wstep (mkW t c (MJoin r) WExit d false ss) (mkW t c (MReturn r) WExit d false ss)
  | w_join_timeout t c r d ss :
      wstep (mkW t c (MJoin r) WExit d true ss) (mkW t c (MDrain r) WExit d true ss)
  | w_drain_reap t r r' w d to ss :
      wstep (mkW t (Zombie r') (MDrain r) w d to ss) (mkW t (Reaped r') (MDrain r) w d to ss)
  | w_drain_end t c r w d to ss :
      (∀ r', c ≠ Zombie r') →
      wstep (mkW t c (MDrain r) w d to ss) (mkW t c (MReturn r) w d to ss)
  (** The watchdog: the predicate holds before the deadline, *)
  | w_done_in_time t c m to ss :
      wstep (mkW t c m WWait true to ss) (mkW t c m WExit true to ss)
  (** or the deadline passes first: SIGTERM, and the second wait, *)
  | w_timeout t c m to ss :
      deadline <= t →
      wstep (mkW t c m WWait false to ss)
            (mkW t c m (WGrace (t + grace)) false true (ss ++ [(SIGTERM, t)]))
  (** which ends with the child done, *)
  | w_grace_done t c m k to ss :
      wstep (mkW t c m (WGrace k) true to ss) (mkW t c m WExit true to ss)
  (** or with SIGKILL. *)
  | w_kill t c m k to ss :
      k <= t →
      wstep (mkW t c m (WGrace k) false to ss)
            (mkW t c m WExit false to (ss ++ [(SIGKILL, t)])).

Definition wreach (s : wstate) : Prop := rtc wstep (start_state start) s.

(** * The invariant *)

(** The signals sent, by the watchdog's position: none before the deadline;
    SIGTERM first; SIGKILL at most once and a full grace period later. *)
Definition signals_ok (s : wstate) : Prop :=
  match wd s with
  | WWait => sent s = [] ∧ timed_out s = false
  | WGrace k => timed_out s = true ∧
      ∃ t1, sent s = [(SIGTERM, t1)] ∧ deadline <= t1 <= now s ∧ k = t1 + grace
  | WExit =>
      (sent s = [] ∧ timed_out s = false ∧ child_done s = true) ∨
      (timed_out s = true ∧ ∃ t1, deadline <= t1 <= now s ∧
         ((sent s = [(SIGTERM, t1)] ∧ child_done s = true) ∨
          ∃ t2, sent s = [(SIGTERM, t1); (SIGKILL, t2)] ∧ t1 + grace <= t2 <= now s))
  end.

(** The result [waitpid] left, [r], against the child: the status it died with,
    once it is reaped; or a failure, which leaves it unreaped. *)
Definition waited (r : wait_result) (c : child_state) : Prop :=
  if is_status r then c = Reaped r else ∀ r', c ≠ Reaped r'.

(** [child_done] is set exactly after [waitpid] returned; the child is reaped by
    then unless [waitpid] failed; the main thread returns only after the watchdog
    ended, and a child [waitpid] failed on can be reaped only after a timeout. *)
Definition threads_ok (s : wstate) : Prop :=
  (∀ r, child s = Zombie r → is_status r = true) ∧
  match main s with
  | MWait => child_done s = false ∧ ∀ r, child s ≠ Reaped r
  | MSetDone r => child_done s = false ∧ waited r (child s)
  | MJoin r => child_done s = true ∧ waited r (child s)
  | MDrain r => child_done s = true ∧ wd s = WExit ∧ timed_out s = true ∧
      (is_status r = true → child s = Reaped r)
  | MReturn r => child_done s = true ∧ wd s = WExit ∧
      (is_status r = true → child s = Reaped r) ∧
      (timed_out s = false → waited r (child s))
  end.

Definition winv (s : wstate) : Prop := signals_ok s ∧ threads_ok s.

Lemma signals_ok_step s s' : winv s → wstep s s' → signals_ok s'.
Proof.
  unfold winv, signals_ok, threads_ok, grace. intros Hinv Hstep.
  destruct Hstep; simpl in *; try (destruct w; naive_solver lia);
    naive_solver lia.
Qed.

(** A child that dies before it is waited for agrees with the same results. *)
Lemma waited_dies r r' : waited r Running → waited r (Zombie r').
Proof. unfold waited. destruct (is_status r); congruence. Qed.

Lemma waited_status r c : waited r c → is_status r = true → c = Reaped r.
Proof. unfold waited. by destruct (is_status r). Qed.

Lemma threads_ok_step s s' : threads_ok s → wstep s s' → threads_ok s'.
Proof.
  unfold threads_ok. intros [Hz Hm] Hstep. destruct Hstep; simpl in *.
  2: { split; [congruence|]. destruct m; naive_solver eauto using waited_dies. }
  2: { split; [congruence|]. unfold waited. rewrite (Hz r eq_refl). naive_solver. }
  all: split; [naive_solver|]; try (destruct m); naive_solver eauto using waited_status.
Qed.

Lemma winv_step s s' : winv s → wstep s s' → winv s'.
Proof. intros [? ?]. split; [|by eapply threads_ok_step]. eapply signals_ok_step; [split|]; eauto. Qed.

Lemma wreach_inv s : wreach s → winv s.
Proof.
  unfold wreach. intros H.
  assert (∀ s0, rtc wstep s0 s → winv s0 → winv s) as Hpres.
  { clear H. induction 1; eauto using winv_step. }
  apply (Hpres _ H). unfold winv, signals_ok, threads_ok, start_state. simpl. done.
Qed.

(** * Termination *)

(** Steps left for the threads and the child; a [tick] leaves it unchanged and
    every other step lowers it. *)
Definition work_left (s : wstate) : nat :=
  match main s with
  | MWait => 4 | MSetDone _ => 3 | MJoin _ => 2 | MDrain _ => 1 | MReturn _ => 0
  end +
  match wd s with WWait => 2 | WGrace _ => 1 | WExit => 0 end +
  match child s with Running => 2 | Zombie _ => 1 | Reaped _ => 0 end.

Definition is_tick (s s' : wstate) : Prop :=
  ∃ dt, s' = mkW (now s + dt) (child s) (main s) (wd s) (child_done s) (timed_out s) (sent s).

Lemma wstep_decreases s s' :
  wstep s s' → is_tick s s' ∨ (work_left s' < work_left s)%nat.
Proof.
  destruct 1; unfold work_left, is_tick; simpl; try (right; lia). left. eauto.
Qed.

Lemma wait_until t s : ∃ s', rtc wstep s s' ∧ t <= now s' ∧
  child s' = child s ∧ main s' = main s ∧ wd s' = wd s ∧ child_done s' = child_done s ∧
  timed_out s' = timed_out s ∧ sent s' = sent s.
Proof.
  destruct s as [t0 c m w d to ss]. exists (mkW (t0 + Z.max 1 (t - t0)) c m w d to ss).
  split; [|simpl; split; [lia|done]]. apply rtc_once, w_tick. lia.
Qed.

(** The main thread past the join comes to its return. *)
Lemma drain_finishes t c r d to ss :
  ∃ s', rtc wstep (mkW t c (MDrain r) WExit d to ss) s' ∧ main s' = MReturn r.
Proof.
  destruct c as [|r'|r'].
  - eexists. split; [apply rtc_once, w_drain_end; congruence|done].
  - eexists. split; [eapply rtc_l; [apply w_drain_reap|]; apply rtc_once, w_drain_end; congruence|done].
  - eexists. split; [apply rtc_once, w_drain_end; congruence|done].
Qed.

Lemma join_finishes t c r d to ss :
  ∃ s', rtc wstep (mkW t c (MJoin r) WExit d to ss) s' ∧ main s' = MReturn r.
Proof.
  destruct to; [|eexists; split; [apply rtc_once, w_join|done]].
  destruct (drain_finishes t c r d true ss) as (s' & H & ?).
  exists s'. split; [|done]. eapply rtc_l; [apply w_join_timeout|done].
Qed.

Lemma done_finishes t c r w to ss :
  ∃ s', rtc wstep (mkW t c (MJoin r) w true to ss) s' ∧ main s' = MReturn r.
Proof.
  destruct (join_finishes t c r true to ss) as (s' & H & ?). exists s'. split; [|done].
  destruct w; [eapply rtc_l; [apply w_done_in_time|done]| |done].
  eapply rtc_l; [apply w_grace_done|done].
Qed.

(** Once [waitpid] has returned, the two threads finish by themselves. *)
Lemma waited_finishes s :
  winv s → main s ≠ MWait → ∃ s' r, rtc wstep s s' ∧ main s' = MReturn r.
Proof.
  destruct s as [t c m w d to ss]. unfold winv, threads_ok. simpl. intros [_ [_ Hm]] ?.
  destruct m as [|r|r|r|r]; [done| | | |].
  - destruct (done_finishes t c r w to ss) as (s' & Hs & ?). exists s', r.
    split; [|done]. eapply rtc_l; [apply w_set_done|done].
  - destruct Hm as [-> _]. destruct (done_finishes t c r w to ss) as (s' & Hs & ?). eauto.
  - destruct Hm as (_ & -> & _). destruct (drain_finishes t c r d to ss) as (s' & Hs & ?). eauto.
  - eexists _, r. split; [apply rtc_refl|done].
Qed.

(** A child that was sent SIGKILL dies and is waited for. *)
Lemma killed_waited s t :
  winv s → (SIGKILL, t) ∈ sent s → ∃ s', rtc wstep s s' ∧ main s' ≠ MWait.
Proof.
  intros [_ [_ Hm]] Hkill. destruct s as [t0 c m w d to ss]. simpl in *.
  destruct m; try (eexists; split; [apply rtc_refl|]; done).
  destruct c as [|r|r]; [| |naive_solver].
  - eexists. split; [eapply rtc_l; [apply w_child_exit with (r := Signaled 9); eauto|]|].
    + apply rtc_once, w_waitpid.
    + done.
  - eexists. split; [apply rtc_once, w_waitpid|done].
Qed.

Lemma rtc_inv s s' : winv s → rtc wstep s s' → winv s'.
Proof. intros Hs. induction 1; eauto using winv_step. Qed.

Lemma killed_finishes s t :
  winv s → (SIGKILL, t) ∈ sent s → ∃ s' r, rtc wstep s s' ∧ main s' = MReturn r.
Proof.
  intros Hinv Hkill. destruct (killed_waited s t Hinv Hkill) as (s1 & H1 & Hm).
  destruct (waited_finishes s1 (rtc_inv _ _ Hinv H1) Hm) as (s2 & r & H2 & ?).
  exists s2, r. split; [by etrans|done].
Qed.

(** [child_done] is set only by a main thread that has left [waitpid]. *)
Lemma done_left_waitpid s : winv s → child_done s = true → main s ≠ MWait.
Proof. intros [_ [_ Hm]] Hd E. rewrite E in Hm. naive_solver congruence. Qed.

(** A watchdog still in its second wait comes to its end. *)
Lemma grace_finishes s k :
  winv s → wd s = WGrace k → ∃ s' r, rtc wstep s s' ∧ main s' = MReturn r.
Proof.
  intros Hinv Hw. destruct (wait_until k s) as (s1 & H1 & Hk & Hc & Hm & Hw1 & Hd & Ht & Hs).
  pose proof (rtc_inv _ _ Hinv H1) as Hinv1. destruct s1 as [t1 c1 m1 w1 d1 to1 ss1]; simpl in *.
  rewrite Hw in Hw1. subst w1. destruct d1.
  - destruct (waited_finishes _ Hinv1 (done_left_waitpid _ Hinv1 eq_refl)) as (s2 & r & H2 & ?).
    exists s2, r. split; [by etrans|done].
  - assert (wstep (mkW t1 c1 m1 (WGrace k) false to1 ss1)
              (mkW t1 c1 m1 WExit false to1 (ss1 ++ [(SIGKILL, t1)]))) as A by (by apply w_kill).
    destruct (killed_finishes _ t1 (winv_step _ _ Hinv1 A)) as (s2 & r & H2 & ?).
    { simpl. apply elem_of_app. right. by left. }
    exists s2, r. split; [|done]. etrans; [exact H1|]. by eapply rtc_l.
Qed.

Lemma first_wait_finishes s :
  winv s → wd s = WWait → ∃ s' r, rtc wstep s s' ∧ main s' = MReturn r.
Proof.
  intros Hinv Hw.
  destruct (wait_until deadline s) as (s1 & H1 & Hk & Hc & Hm & Hw1 & Hd & Ht & Hs).
  pose proof (rtc_inv _ _ Hinv H1) as Hinv1. destruct s1 as [t1 c1 m1 w1 d1 to1 ss1]; simpl in *.
  rewrite Hw in Hw1. subst w1. destruct d1.
  - destruct (waited_finishes _ Hinv1 (done_left_waitpid _ Hinv1 eq_refl)) as (s2 & r & H2 & ?).
    exists s2, r. split; [by etrans|done].
  - assert (wstep (mkW t1 c1 m1 WWait false to1 ss1)
              (mkW t1 c1 m1 (WGrace (t1 + grace)) false true (ss1 ++ [(SIGTERM, t1)]))) as A
      by (by apply w_timeout).
    destruct (grace_finishes _ (t1 + grace) (winv_step _ _ Hinv1 A) eq_refl) as (s2 & r & H2 & ?).
    exists s2, r. split; [|done]. etrans; [exact H1|]. by eapply rtc_l.
Qed.

Lemma always_finishes s : winv s → ∃ s' r, rtc wstep s s' ∧ main s' = MReturn r.
Proof.
  intros Hinv. destruct (wd s) as [|k|] eqn:Hw;
    [by apply first_wait_finishes|by eapply grace_finishes|].
  destruct (child_done s) eqn:Hd; [eauto using waited_finishes, done_left_waitpid|].
  pose proof Hinv as [Hsig _]. unfold signals_ok in Hsig. rewrite Hw in Hsig.
  destruct Hsig as [(? & ? & ?)|(_ & t1 & _ & [[_ ?]|(t2 & Hs & _)])]; [congruence|congruence|].
  apply (killed_finishes s t2 Hinv). rewrite Hs. right. by left.
Qed.

(** ** What the invariant says of the signals *)

Lemma signals_sent_cases s :
  signals_ok s →
  sent s = [] ∨
  ∃ t1, start + timeout_sec * ns <= t1 ∧
    (sent s = [(SIGTERM, t1)] ∨ ∃ t2, t1 + 5 * ns <= t2 ∧ sent s = [(SIGTERM, t1); (SIGKILL, t2)]).
Proof.
  unfold signals_ok, deadline, grace. destruct (wd s).
  - intros [-> _]. by left.
  - intros (_ & t1 & -> & ? & _). right. exists t1. split; [lia|]. by left.
  - intros [(-> & _)|(_ & t1 & ? & [[-> _]|(t2 & -> & ?)])]; [by left| |];
      right; exists t1; (split; [lia|]); [by left|]. right. exists t2. split; [lia|done].
Qed.

Lemma signals_timed_out s : signals_ok s → timed_out s = negb (bool_decide (sent s = [])).
Proof.
  unfold signals_ok. destruct (wd s).
  - by intros [-> ->].
  - by intros (-> & t1 & -> & _).
  - by intros [(-> & -> & _)|(-> & t1 & _ & [[-> _]|(t2 & -> & _)])].
Qed.
End Watchdog.

(** * Claims *)

(** C15: In every interleaving of the child, the waiting thread and the watchdog,
    a failing [waitpid] included: no signal is sent before the deadline; SIGTERM
    comes first and at most once; SIGKILL follows at most once and at least five
    seconds later. When the call returns, the timeout flag is set exactly when
    SIGTERM was sent; if [waitpid] succeeded, the child is reaped and the result is
    the status it died with; if [waitpid] failed, nothing has reaped the child
    unless the timeout fired. *)
Theorem watchdog_signals start timeout_sec stubborn s :
  wreach start timeout_sec stubborn s →
  (sent s = [] ∨
   ∃ t1, start + timeout_sec * ns <= t1 ∧
     (sent s = [(SIGTERM, t1)] ∨ ∃ t2, t1 + 5 * ns <= t2 ∧ sent s = [(SIGTERM, t1); (SIGKILL, t2)])) ∧
  (∀ r, main s = MReturn r →
     timed_out s = negb (bool_decide (sent s = [])) ∧
     match r with
     | WaitFailed _ => sent s = [] → ∀ r', child s ≠ Reaped r'
     | _ => child s = Reaped r
     end).
Proof.
  intros [Hsig Hthr]%wreach_inv.
  assert (∀ r, main s = MReturn r → wd s = WExit ∧
    (is_status r = true → child s = Reaped r) ∧ (timed_out s = false → waited r (child s))) as Hret.
  { intros r Hr. unfold threads_ok in Hthr. rewrite Hr in Hthr. naive_solver. }
  split; [by eapply signals_sent_cases|]. intros r Hr. destruct (Hret r Hr) as (Hw & Hst & Hto).
  pose proof (signals_timed_out _ _ _ Hsig) as Hf. split; [done|].
  destruct r; [|by apply Hst..]. intros Hs. apply Hto. rewrite Hf, Hs. done.
Qed.

Lemma watchdog_signals_witness :
  let s := mkW (40 * ns) Running MWait (WGrace (45 * ns)) false true [(SIGTERM, 40 * ns)] in
  wreach 0 40 true s ∧
  (sent s = [] ∨ ∃ t1, 40 * ns <= t1 ∧
     (sent s = [(SIGTERM, t1)] ∨ ∃ t2, t1 + 5 * ns <= t2 ∧ sent s = [(SIGTERM, t1); (SIGKILL, t2)])).
Proof.
  assert (wreach 0 40 true
    (mkW (40 * ns) Running MWait (WGrace (45 * ns)) false true [(SIGTERM, 40 * ns)])) as H.
  - eapply rtc_l; [apply (w_tick 0 40 true 0 Running MWait WWait false false [] (40 * ns)); unfold ns; lia|].
    eapply rtc_l; [apply w_timeout; unfold deadline; lia|]. simpl. apply rtc_refl.
  - split; [exact H|]. apply (watchdog_signals 0 40 true _ H).
Defined.

(** The call cannot hang, even with a child that only dies from SIGKILL:
    from every reachable state the threads can run on to the return, and apart
    from the passing of time every step shortens the way there. *)
Theorem watchdog_returns start timeout_sec stubborn s :
  wreach start timeout_sec stubborn s →
  (∃ s' r, rtc (wstep start timeout_sec stubborn) s s' ∧ main s' = MReturn r) ∧
  (∀ s', wstep start timeout_sec stubborn s s' →
     is_tick s s' ∨ (work_left s' < work_left s)%nat).
Proof.
  intros H. split; [by eapply always_finishes, wreach_inv|]. eauto using wstep_decreases.
Qed.

Lemma watchdog_returns_witness :
  ∃ s' r, rtc (wstep 0 40 true) (start_state 0) s' ∧ main s' = MReturn r.
Proof. apply (watchdog_returns 0 40 true (start_state 0)). apply rtc_refl. Defined.
