(* ===== verification/Profilers.v ===== *)
(** The profilers that run a program: perf (perf_profiler.cpp), async-profiler
    (async_profiler_profiler.cpp) and the script runner (script_runner.cpp),
    behind the interface of profiler.h.

    Each [record] is a program over the operating system of [OS]; running a
    child under the watchdog is one call, [spawn], whose outcome is what
    [Watchdog] shows the two threads to return: the timeout flag and the result
    of [waitpid]. *)
From stdpp Require Import base strings list.
From Stdlib Require Import ZArith Lia Ascii.
From S2P Require Import Prelude CppString Proto OS.

Local Open Scope string_scope.

(** * The interface (profiler.h) *)

(** What a call of [record] can change besides the world: [*error_msg] and the
    member [collected_files_]. *)
Record rstate := mkR {
  error_msg : string;
  collected_files : list string;
}.

(** An object behind [IProfiler]; [collect_result] returns [collected_files_]. *)
Record IProfiler (W : Type) := mkIProfiler {
  p_record : TaskDesc → string → rstate → prog W (bool * rstate);
  p_type : Z;
}.
Arguments mkIProfiler {W} _ _.
Arguments p_record {W} _ _ _ _ _.
Arguments p_type {W} _.

Definition collect_result (st : rstate) : list string := collected_files st.

Definition set_err (e : string) (st : rstate) : rstate := mkR e (collected_files st).

(** [*error_msg = e; return false;] *)
Definition fail_with {W} (e : string) (st : rstate) : prog W (bool * rstate) :=
  mret (false, set_err e st).

(** The contract stated in profiler.h: a failure leaves a message, a success
    leaves files to collect. *)
Class ProfilerSpec {W} (p : IProfiler W) : Prop := {
  record_failure t dir st w st' w' :
    p_record p t dir st w = (Ret (false, st'), w') → error_msg st' ≠ "";
  record_success t dir st w st' w' :
    p_record p t dir st w = (Ret (true, st'), w') → collect_result st' ≠ [];
}.

(** * Diagnostics from a child's stderr *)

(** perf and async-profiler: [rfind('\n', size() - 2)] first ([size() - 2] wraps
    to [npos] for one character), then the trailing newlines are removed. *)
Definition stderr_tail (s : string) : outcome string :=
  if bool_decide (s = "") then Ret s else
  let last_nl :=
    if bool_decide (String.length s < 2)%nat then rfind_char ch_nl s
    else rfind_upto ch_nl s (String.length s - 2) in
  s1 ← match last_nl with Some i => substr s (S i) | None => Ret s end;
  Ret (trim_back is_nl s1).

(** script_runner.cpp removes the trailing newlines first. *)
Definition script_stderr_tail (s : string) : outcome string :=
  if bool_decide (s = "") then Ret s else
  let s1 := trim_back is_nl s in
  match rfind_char ch_nl s1 with Some i => substr s1 (S i) | None => Ret s1 end.

(** [if (!stderr_content.empty()) *error_msg += ": " + stderr_content;] *)
Definition with_detail (msg detail : string) : string :=
  if bool_decide (detail = "") then msg else msg +:+ ": " +:+ detail.

Section Profilers.
Context {W : Type} `{OS W}.
Implicit Types st : rstate.

(** The code after [watchdog.join()], up to the tests on the output: a failed
    [waitpid], the timeout, a non-zero exit status and a signal. [None] is "go
    on". *)
Definition child_failure (w : run_outcome) (timeout_msg exit_msg sig_msg stderr_path : string)
    (tail : string → outcome string) (st : rstate) : prog W (option rstate) :=
  match w with
  | ForkFailed e => mret (Some (set_err ("fork() failed: " +:+ e) st))
  | Ran timed_out wr =>
      let st1 := match wr with WaitFailed e => set_err ("waitpid failed: " +:+ e) st | _ => st end in
      if timed_out then mret (Some (set_err timeout_msg st1)) else
      match wr with
      | WaitFailed _ => mret (Some st1)
      | Exited c =>
          if bool_decide (c = 0) then mret None else
          content ← read_file stderr_path;
          detail ← lift (tail (default "" content));
          mret (Some (set_err (with_detail (exit_msg +:+ to_string c) detail) st1))
      | Signaled s => mret (Some (set_err (sig_msg +:+ to_string s) st1))
      end
  end.

(** The tests on the output file shared by perf and async-profiler. *)
Definition output_failure (path name : string) (st : rstate) : prog W (option rstate) :=
  there ← fs_exists path;
  if negb there then mret (Some (set_err (name +:+ " not found after collection") st)) else
  n ← file_size path;
  if bool_decide (n = 0) then mret (Some (set_err (name +:+ " is empty") st)) else mret None.

(** ** PerfProfiler *)

Definition perf_args (hz : Z) (callgraph event : string) (pid duration : Z) (perf_data_path : string) : list string :=
  ["perf"; "record"; "-F"; to_string hz; "--call-graph"; callgraph; "-e"; event] ++
  (if bool_decide (0 < pid) then ["-p"; to_string pid] else []) ++
  ["-o"; perf_data_path; "--"; "sleep"; to_string duration].

Definition perf_spawn (hz : Z) (callgraph event : string) (pid duration : Z)
    (perf_data_path output_dir : string) (timeout_sec : Z) : spawn_req :=
  mkSpawn "perf" (map c_str (perf_args hz callgraph event pid duration perf_data_path))
    None (Some (output_dir +:+ "/perf.stderr.log")) (Some timeout_sec).

Definition runPerf (hz : Z) (callgraph event : string) (pid duration : Z)
    (perf_data_path output_dir : string) (timeout_sec : Z) (st : rstate) : prog W (bool * rstate) :=
  r ← spawn (perf_spawn hz callgraph event pid duration perf_data_path output_dir timeout_sec);
  bad ← child_failure r ("collection timed out after " +:+ to_string timeout_sec +:+ "s")
    "perf record exited with code " "perf record killed by signal "
    (output_dir +:+ "/perf.stderr.log") stderr_tail st;
  match bad with
  | Some st' => mret (false, st')
  | None =>
      bad2 ← output_failure perf_data_path "perf.data" st;
      match bad2 with Some st' => mret (false, st') | None => mret (true, st) end
  end.

(** The parameters of a run, with the defaults of [record]: uint32 and uint64
    fields are converted to [int]. *)
Definition perf_hz (t : TaskDesc) : Z :=
  let hz := to_i32 (hz (sample_argv t)) in if bool_decide (hz <= 0) then 99 else hz.
Definition perf_duration (t : TaskDesc) : Z :=
  let d := to_i32 (duration (sample_argv t)) in if bool_decide (d <= 0) then 10 else d.
Definition or_default (s d : string) : string := if bool_decide (s = "") then d else s.

(** [int timeout_sec = task.timeout_sec(); if (timeout_sec <= 0) timeout_sec = duration + 30;] *)
Definition task_timeout (t : TaskDesc) (duration : Z) : outcome Z :=
  let timeout_sec := to_i32 (timeout_sec t) in
  if bool_decide (timeout_sec <= 0) then i32_add duration 30 else Ret timeout_sec.

Definition perf_record (t : TaskDesc) (output_dir : string) (st : rstate) : prog W (bool * rstate) :=
  let hz := perf_hz t in
  let duration := perf_duration t in
  let pid := pid (sample_argv t) in
  let callgraph := or_default (callgraph (sample_argv t)) "fp" in
  let event := or_default (event (sample_argv t)) "cpu-cycles" in
  create_directories output_dir;;
  let perf_data_path := output_dir +:+ "/perf.data" in
  timeout_sec ← lift (task_timeout t duration);
  let run pid st :=
    runPerf hz callgraph event pid duration perf_data_path output_dir timeout_sec st in
  r ← (if bool_decide (0 < pid) then
         r1 ← run pid st;
         let '(ok, st1) := r1 in
         if negb ok && contains "No such process" (error_msg st1) then run 0 st1 else mret r1
       else run 0 st);
  let '(ok, st') := r in
  if (ok : bool) then
    file_size perf_data_path;;
    mret (true, mkR (error_msg st') ["perf.data"])
  else mret (false, st').

Definition PerfProfiler : IProfiler W := mkIProfiler perf_record 0.

(** ** AsyncProfilerProfiler *)

Definition asprof_candidates : list string :=
  ["/opt/async-profiler/bin/asprof"; "/opt/drop/tools/async-profiler/bin/asprof";
   "/usr/local/bin/asprof"].

(** [std::filesystem::path(p).parent_path()] of an absolute normal path. *)
Definition parent_path (p : string) : string :=
  match rfind_char "/"%char p with
  | Some O => "/"
  | Some i => str_take i p
  | None => ""
  end.

(** [for (p : candidates) if (exists(p)) return p;] *)
Fixpoint first_existing (ps : list string) : prog W (option string) :=
  match ps with
  | [] => mret None
  | p :: ps' => there ← fs_exists p; if (there : bool) then mret (Some p) else first_existing ps'
  end.

Definition findAsprof : prog W string :=
  c ← first_existing asprof_candidates;
  match c with Some p => mret p | None =>
  exe ← gets os_self_exe;
  c2 ← (match exe with
        | None | Some "" => mret None
        | Some e =>
            let rel := parent_path (str_take 4095 e) +:+ "/../tools/async-profiler/bin/asprof" in
            there ← fs_exists rel;
            if (there : bool) then p ← canonical rel; mret (Some p) else mret None
        end);
  match c2 with Some p => mret p | None =>
  tools_dir ← gets (os_getenv "DROP_TOOLS_DIR");
  match tools_dir with
  | None => mret ""
  | Some d =>
      let p := d +:+ "/async-profiler/bin/asprof" in
      there ← fs_exists p;
      if (there : bool) then mret p else mret ""
  end end end.

Definition asprof_args (duration : Z) (output_path event : string) (interval_ns pid : Z) : list string :=
  ["asprof"; "-d"; to_string duration; "-f"; output_path; "-e"; event;
   "-i"; to_string interval_ns; to_string pid].

(** [1000000000 / hz] *)
Definition asprof_interval (hz : Z) : Z := 1000000000 `quot` hz.

(** After the wait: judge the child and its file. *)
Definition async_finish (output_dir : string) (timeout_sec : Z) (r : run_outcome) (st : rstate) : prog W (bool * rstate) :=
  let output_path := output_dir +:+ "/async_profiler.collapsed" in
  bad ← child_failure r ("async-profiler timed out after " +:+ to_string timeout_sec +:+ "s")
    "asprof exited with code " "asprof killed by signal "
    (output_dir +:+ "/asprof.stderr.log") stderr_tail st;
  match bad with Some st' => mret (false, st') | None =>
  bad2 ← output_failure output_path "async_profiler.collapsed" st;
  match bad2 with Some st' => mret (false, st') | None =>
  file_size output_path;;
  mret (true, mkR (error_msg st) ["async_profiler.collapsed"])
  end end.

Definition async_record (t : TaskDesc) (output_dir : string) (st : rstate) : prog W (bool * rstate) :=
  let pid := pid (sample_argv t) in
  let duration := perf_duration t in
  let hz := perf_hz t in
  let event := or_default (event (sample_argv t)) "cpu" in
  if bool_decide (pid <= 0) then fail_with "async-profiler requires a valid PID (pid > 0)" st else
  asprof ← findAsprof;
  if bool_decide (asprof = "") then
    fail_with "asprof binary not found. Install async-profiler to /opt/async-profiler/ or set DROP_TOOLS_DIR" st
  else
  create_directories output_dir;;
  let output_path := output_dir +:+ "/async_profiler.collapsed" in
  timeout_sec ← lift (task_timeout t duration);
  r ← spawn (mkSpawn asprof (map c_str (asprof_args duration output_path event (asprof_interval hz) pid))
        (Some (output_dir +:+ "/asprof.stdout.log")) (Some (output_dir +:+ "/asprof.stderr.log"))
        (Some timeout_sec));
  async_finish output_dir timeout_sec r st.

Definition AsyncProfilerProfiler : IProfiler W := mkIProfiler async_record 1.

(** ** ScriptRunner *)

Definition script_timeout (t : TaskDesc) : outcome Z :=
  let timeout_sec := to_i32 (timeout_sec t) in
  if bool_decide (timeout_sec <= 0) then
    let duration := to_i32 (duration (sample_argv t)) in
    i32_add (if bool_decide (0 < duration) then duration else 30) 30
  else Ret timeout_sec.

(** After the wait. *)
Definition script_finish (stderr_path : string) (timeout_sec : Z) (r : run_outcome) (st : rstate) : prog W (bool * rstate) :=
  bad ← child_failure r ("script timed out after " +:+ to_string timeout_sec +:+ "s")
    "script exited with code " "script killed by signal " stderr_path script_stderr_tail st;
  match bad with
  | Some st' => mret (false, st')
  | None => mret (true, mkR (error_msg st) ["script_output.txt"])
  end.

Definition script_record (t : TaskDesc) (output_dir : string) (st : rstate) : prog W (bool * rstate) :=
  if bool_decide (script_content t = "") then fail_with "script_content is empty" st else
  create_directories output_dir;;
  let script_path := output_dir +:+ "/script.sh" in
  opened ← write_file script_path (script_content t);
  if negb opened then fail_with ("failed to create script file: " +:+ script_path) st else
  moded ← act (os_chmod script_path);
  match moded with Some e => fail_with ("chmod failed: " +:+ e) st | None =>
  timeout_sec ← lift (script_timeout t);
  let stdout_path := output_dir +:+ "/script_output.txt" in
  let stderr_path := output_dir +:+ "/script_stderr.log" in
  r ← spawn (mkSpawn "/bin/sh" ["sh"; script_path] (Some stdout_path) (Some stderr_path)
        (Some timeout_sec));
  script_finish stderr_path timeout_sec r st
  end.

Definition ScriptRunner : IProfiler W := mkIProfiler script_record 5.
End Profilers.

(** * The contract holds *)

Section Contract.
Context {W : Type} `{OS W}.

Lemma with_detail_nonempty m d : m ≠ "" → with_detail m d ≠ "".
Proof.
  unfold with_detail. case_bool_decide; [done|]. by intros ? [? _]%str_app_eq_nil.
Qed.

Lemma child_failure_msg r tm em sm path tail st w st' w' :
  tm ≠ "" → em ≠ "" → sm ≠ "" →
  child_failure r tm em sm path tail st w = (Ret (Some st'), w') → error_msg st' ≠ "".
Proof.
  unfold child_failure, read_file. intros Htm Hem Hsm Hr.
  prog_inv; simpl; try done; try apply with_detail_nonempty;
    by intros [? _]%str_app_eq_nil.
Qed.

(** The child passed: it ran, in time, and exited with status 0. *)
Lemma child_failure_none r tm em sm path tail st w w' :
  child_failure r tm em sm path tail st w = (Ret None, w') → r = Ran false (Exited 0) ∧ w' = w.
Proof.
  unfold child_failure, read_file. intros Hr. prog_inv. naive_solver.
Qed.

Lemma output_failure_msg path name st w st' w' :
  output_failure path name st w = (Ret (Some st'), w') → error_msg st' ≠ "".
Proof.
  unfold output_failure, fs_exists, file_size. intros Hr.
  prog_inv; simpl; by intros [_ ?]%str_app_eq_nil.
Qed.

Lemma output_failure_none path name st w w' :
  output_failure path name st w = (Ret None, w') →
  w' = w ∧ os_exists path w = Some true ∧ ∃ n, os_size path w = Some n ∧ n ≠ 0.
Proof.
  unfold output_failure, fs_exists, file_size. intros Hr. prog_inv. naive_solver.
Qed.

Lemma runPerf_failure hz cg ev pid d path dir to st w st' w' :
  runPerf hz cg ev pid d path dir to st w = (Ret (false, st'), w') → error_msg st' ≠ "".
Proof.
  unfold runPerf. intros Hr. prog_inv; eauto using output_failure_msg.
  eapply child_failure_msg; [..|eassumption]; done.
Qed.

#[global] Instance PerfProfiler_spec : ProfilerSpec (W:=W) PerfProfiler.
Proof.
  split; intros t dir st w st' w' Hr; simpl in Hr; unfold perf_record in Hr; prog_inv;
    eauto using runPerf_failure.
  all: naive_solver.
Qed.

#[global] Instance AsyncProfiler_spec : ProfilerSpec (W:=W) AsyncProfilerProfiler.
Proof.
  split; intros t dir st w st' w' Hr; simpl in Hr; unfold async_record, async_finish, fail_with in Hr; prog_inv;
    eauto using output_failure_msg.
  eapply child_failure_msg; [..|eassumption]; done.
Qed.

#[global] Instance ScriptRunner_spec : ProfilerSpec (W:=W) ScriptRunner.
Proof.
  split; intros t dir st w st' w' Hr; simpl in Hr; unfold script_record, script_finish, fail_with in Hr; prog_inv;
    try done; try (by intros [? _]%str_app_eq_nil).
  eapply child_failure_msg; [..|eassumption]; done.
Qed.
(** The facts behind the calls of a successful run. *)
Ltac child_inv :=
  repeat match goal with
  | E : act (os_spawn _) _ = _ |- _ => apply (proj1 (act_Ret _ _ _ _)) in E
  | E : child_failure _ _ _ _ _ _ _ _ = (Ret None, _) |- _ =>
      apply child_failure_none in E as [? ?]; simplify_eq
  | E : output_failure _ _ _ _ = (Ret None, _) |- _ =>
      apply output_failure_none in E as (? & ? & ?); simplify_eq
  end.

Lemma runPerf_true hz cg ev pid d path dir to st w st' w' :
  runPerf hz cg ev pid d path dir to st w = (Ret (true, st'), w') ↔
  st' = st ∧ os_spawn (perf_spawn hz cg ev pid d path dir to) w = (Ran false (Exited 0), w') ∧
  os_exists path w' = Some true ∧ ∃ n, os_size path w' = Some n ∧ n ≠ 0.
Proof.
  unfold runPerf, spawn. split.
  - intros Hr. prog_inv. child_inv. naive_solver.
  - intros (-> & Hs & He & n & Hn & Hz). unfold mbind, prog_bind, act. rewrite Hs. simpl.
    unfold mret, prog_ret, output_failure, fs_exists, file_size, fs_gets, mbind, prog_bind.
    rewrite He. simpl. rewrite Hn. by rewrite bool_decide_eq_false_2.
Qed.

(** What a successful [record] shows: a child as described by [P] ended with status 0
    before the deadline; it was the last thing run, and left the world [w']. *)
Definition child_ok (P : spawn_req → Prop) (w' : W) : Prop :=
  ∃ req w1, P req ∧ os_spawn req w1 = (Ran false (Exited 0), w').

(** The commands of the three profilers for a task. *)
Definition is_perf_run (t : TaskDesc) (dir : string) (req : spawn_req) : Prop :=
  ∃ p timeout, (p = 0 ∨ p = pid (sample_argv t)) ∧ task_timeout t (perf_duration t) = Ret timeout ∧
    req = perf_spawn (perf_hz t) (or_default (callgraph (sample_argv t)) "fp")
      (or_default (event (sample_argv t)) "cpu-cycles") p (perf_duration t) (dir +:+ "/perf.data") dir timeout.
Definition is_asprof_run (t : TaskDesc) (dir : string) (req : spawn_req) : Prop :=
  sp_program req ≠ "" ∧
  sp_argv req = map c_str (asprof_args (perf_duration t) (dir +:+ "/async_profiler.collapsed")
    (or_default (event (sample_argv t)) "cpu") (asprof_interval (perf_hz t)) (pid (sample_argv t))) ∧
  ∃ timeout, task_timeout t (perf_duration t) = Ret timeout ∧ sp_timeout req = Some timeout.
Definition is_script_run (t : TaskDesc) (dir : string) (req : spawn_req) : Prop :=
  ∃ timeout, script_timeout t = Ret timeout ∧
    req = mkSpawn "/bin/sh" ["sh"; dir +:+ "/script.sh"] (Some (dir +:+ "/script_output.txt"))
      (Some (dir +:+ "/script_stderr.log")) (Some timeout).
Definition nonempty_file (path : string) (w : W) : Prop :=
  os_exists path w = Some true ∧ ∃ n, os_size path w = Some n ∧ n ≠ 0.

Lemma perf_record_true t dir st w st' w' :
  perf_record t dir st w = (Ret (true, st'), w') →
  child_ok (is_perf_run t dir) w' ∧ nonempty_file (dir +:+ "/perf.data") w' ∧ collect_result st' = ["perf.data"].
Proof.
  unfold perf_record, file_size. intros Hr. prog_inv.
  all: match goal with H : runPerf _ _ _ _ _ _ _ _ _ _ = (Ret (true, _), _) |- _ =>
         apply runPerf_true in H as (-> & ? & ? & ?) end.
  all: unfold child_ok, nonempty_file, is_perf_run; naive_solver.
Qed.

Lemma async_record_true t dir st w st' w' :
  async_record t dir st w = (Ret (true, st'), w') →
  child_ok (is_asprof_run t dir) w' ∧ nonempty_file (dir +:+ "/async_profiler.collapsed") w' ∧
  collect_result st' = ["async_profiler.collapsed"] ∧ 0 < pid (sample_argv t).
Proof.
  unfold async_record, async_finish, file_size, fail_with, spawn. intros Hr. prog_inv.
  child_inv. unfold child_ok, nonempty_file, is_asprof_run. split_and!; eauto; [|lia].
  eexists (mkSpawn _ _ _ _ _), _. split; [|eassumption]. simpl. eauto.
Qed.

Lemma script_record_true t dir st w st' w' :
  script_record t dir st w = (Ret (true, st'), w') →
  child_ok (is_script_run t dir) w' ∧ collect_result st' = ["script_output.txt"] ∧ script_content t ≠ "".
Proof.
  unfold script_record, script_finish, fail_with, spawn. intros Hr. prog_inv.
  child_inv. unfold child_ok, is_script_run. naive_solver.
Qed.
End Contract.

(** * The detail taken from stderr *)

Fixpoint newlines (k : nat) : string :=
  match k with O => "" | S k' => String ch_nl (newlines k') end.

Lemma newlines_snoc k : newlines (S k) = newlines k +:+ String ch_nl "".
Proof. induction k as [|k IH]; [done|]. simpl in *. rewrite str_app_cons. by f_equal. Qed.

Lemma str_snoc s : s ≠ "" → ∃ t a, s = t +:+ String a "".
Proof.
  induction s as [|a s IH]; [done|]. intros _. destruct (decide (s = "")) as [->|Hs].
  - by exists "", a.
  - destruct (IH Hs) as (t & b & ->). by exists (String a t), b.
Qed.

Lemma trim_back_snoc_nl s : trim_back is_nl (s +:+ String ch_nl "") = trim_back is_nl s.
Proof.
  induction s as [|a s IH]; [done|]. rewrite str_app_cons. cbn [trim_back]. by rewrite IH.
Qed.

Lemma trim_back_newlines s k : trim_back is_nl (s +:+ newlines k) = trim_back is_nl s.
Proof.
  induction k as [|k IH]; [by rewrite str_app_nil_r|].
  rewrite newlines_snoc, <-str_app_assoc. by rewrite trim_back_snoc_nl.
Qed.

Lemma trim_back_line pre line :
  line ≠ "" → no_char ch_nl line → trim_back is_nl (pre +:+ line) = pre +:+ line.
Proof.
  intros (t & a & ->)%str_snoc [_ [Ha _]%no_char_cons]%no_char_app.
  rewrite <-str_app_assoc. apply trim_back_id. unfold is_nl. by apply bool_decide_eq_false.
Qed.

(** The search of perf and async-profiler looks at all but the last character. *)
Lemma stderr_tail_snoc u a :
  u ≠ "" → stderr_tail (u +:+ String a "") =
    s1 ← match rfind_char ch_nl u with
         | Some i => substr (u +:+ String a "") (S i) | None => Ret (u +:+ String a "") end;
    Ret (trim_back is_nl s1).
Proof.
  intros Hu. unfold stderr_tail.
  assert (String.length (u +:+ String a "") = S (String.length u)) as Hl
    by (rewrite str_length_app; simpl; lia).
  assert (0 < String.length u)%nat by (destruct u; simpl; [done|lia]).
  rewrite bool_decide_eq_false_2 by (by intros [? ?]%str_app_eq_nil).
  rewrite bool_decide_eq_false_2 by lia. unfold rfind_upto. rewrite Hl.
  replace (S (S (String.length u) - 2)) with (String.length u) by lia.
  by rewrite str_take_app.
Qed.

Lemma substr_after p a s : substr (p +:+ String a s) (S (String.length p)) = Ret s.
Proof.
  unfold substr. rewrite bool_decide_eq_true_2 by (rewrite str_length_app; simpl; lia).
  by rewrite str_drop_app_S.
Qed.

Lemma stderr_tail_blank s : stderr_tail (s +:+ String ch_nl (String ch_nl "")) = Ret "".
Proof.
  change (String ch_nl (String ch_nl "")) with (String ch_nl "" +:+ String ch_nl "").
  rewrite <-str_app_assoc, stderr_tail_snoc by (by intros [? ?]%str_app_eq_nil).
  rewrite rfind_app by done. rewrite str_app_assoc, str_app_cons. by rewrite substr_after.
Qed.

(** [ends_line pre]: nothing, or text that ends in a newline. *)
Definition ends_line (pre : string) : Prop := pre = "" ∨ ∃ p, pre = p +:+ String ch_nl "".

Lemma rfind_line pre line :
  ends_line pre → no_char ch_nl line →
  (pre = "" ∧ rfind_char ch_nl (pre +:+ line) = None) ∨
  ∃ p, pre = p +:+ String ch_nl "" ∧ rfind_char ch_nl (pre +:+ line) = Some (String.length p).
Proof.
  intros [->|[p ->]] Hno.
  - left. split; [done|]. by apply rfind_no_char.
  - right. exists p. split; [done|]. rewrite str_app_assoc, str_app_cons. by apply rfind_app.
Qed.

Lemma stderr_tail_line pre u a :
  ends_line pre → no_char ch_nl u → pre +:+ u ≠ "" →
  stderr_tail ((pre +:+ u) +:+ String a "") = Ret (trim_back is_nl (u +:+ String a "")).
Proof.
  intros Hpre Hu Hne. rewrite stderr_tail_snoc by done.
  destruct (rfind_line pre u Hpre Hu) as [[-> ->]|(p & -> & ->)]; [done|].
  rewrite !str_app_assoc, str_app_cons. by rewrite substr_after.
Qed.

Lemma stderr_tail_ends pre line :
  ends_line pre → line ≠ "" → no_char ch_nl line → stderr_tail (pre +:+ line) = Ret line.
Proof.
  intros Hpre Hne Hno. pose proof (trim_back_line "" line Hne Hno) as Htrim.
  destruct (str_snoc line Hne) as (u & a & ->).
  pose proof Hno as [Hu Ha]%no_char_app. rewrite <-str_app_assoc.
  destruct (decide (pre +:+ u = "")) as [[-> ->]%str_app_eq_nil|Hpu].
  - apply no_char_cons in Ha as [Ha _]. simpl. unfold stderr_tail. simpl.
    destruct (ascii_dec a ch_nl); [done|]. simpl. unfold is_nl.
    by rewrite bool_decide_eq_false_2.
  - rewrite stderr_tail_line by done. by f_equal.
Qed.

Lemma script_tail_ends pre line k :
  ends_line pre → line ≠ "" → no_char ch_nl line →
  script_stderr_tail (pre +:+ line +:+ newlines k) = Ret line.
Proof.
  intros Hpre Hne Hno. unfold script_stderr_tail.
  rewrite bool_decide_eq_false_2 by (by intros [_ [? _]%str_app_eq_nil]%str_app_eq_nil).
  rewrite <-str_app_assoc, trim_back_newlines, trim_back_line by done. cbv zeta.
  destruct (rfind_line pre line Hpre Hno) as [[-> ->]|(p & -> & ->)]; [done|].
  rewrite str_app_assoc, str_app_cons. by rewrite substr_after.
Qed.

(** * Claims *)

(** What the profilers quote from a child's stderr that ends in a line [line]
    followed by [k] newlines: the script runner quotes that line for every [k];
    perf and async-profiler quote it when [k] is 0 or 1 and quote nothing when
    the output ends in an empty line, where the comment says "Take last non-empty line". *)
Theorem stderr_detail pre line k :
  ends_line pre → line ≠ "" → no_char ch_nl line →
  script_stderr_tail (pre +:+ line +:+ newlines k) = Ret line ∧
  stderr_tail (pre +:+ line +:+ newlines k) = Ret (if bool_decide (k <= 1)%nat then line else "").
Proof.
  intros Hpre Hne Hno. split; [by apply script_tail_ends|].
  destruct k as [|[|k]]; rewrite <-?str_app_assoc.
  - rewrite str_app_nil_r. by apply stderr_tail_ends.
  - change (newlines 1) with (String ch_nl "").
    rewrite stderr_tail_line by (done || by intros [? ?]%str_app_eq_nil).
    rewrite bool_decide_eq_true_2 by lia. f_equal. rewrite trim_back_snoc_nl.
    by apply (trim_back_line "").
  - rewrite !newlines_snoc, <-!str_app_assoc, bool_decide_eq_false_2 by lia.
    rewrite (str_app_assoc _ (String ch_nl "")). apply stderr_tail_blank.
Qed.

Lemma stderr_detail_witness :
  script_stderr_tail ("WARN" +:+ nl +:+ "Permission denied" +:+ nl +:+ nl) = Ret "Permission denied" ∧
  stderr_tail ("WARN" +:+ nl +:+ "Permission denied" +:+ nl +:+ nl) = Ret "".
Proof.
  apply (stderr_detail ("WARN" +:+ nl) "Permission denied" 2);
    [right; by exists "WARN"|done|reflexivity].
Defined.

(** When [record] reports success, the last child run was that profiler's
    command for the task and ended with status 0 before its deadline; perf and async-profiler moreover leave a non-empty output
    file, async-profiler had a positive PID and the script runner a script; and
    [collect_result] names exactly the file of that profiler. *)
Theorem record_success_evidence {W} `{OS W} t dir st w st' w' :
  (perf_record t dir st w = (Ret (true, st'), w') →
     child_ok (is_perf_run t dir) w' ∧ nonempty_file (dir +:+ "/perf.data") w' ∧ collect_result st' = ["perf.data"]) ∧
  (async_record t dir st w = (Ret (true, st'), w') →
     child_ok (is_asprof_run t dir) w' ∧ nonempty_file (dir +:+ "/async_profiler.collapsed") w' ∧
     collect_result st' = ["async_profiler.collapsed"] ∧ 0 < pid (sample_argv t)) ∧
  (script_record t dir st w = (Ret (true, st'), w') →
     child_ok (is_script_run t dir) w' ∧ collect_result st' = ["script_output.txt"] ∧ script_content t ≠ "").
Proof.
  split_and!; [apply perf_record_true|apply async_record_true|apply script_record_true].
Qed.

(** A world in which the next child writes perf.data and exits with 0. *)
Definition sim_perf : sim :=
  mkSim ∅ 0 ∅ None [(Ran false (Exited 0), [("/out/perf.data", "PERFILE2")])] [] [].
Definition task_pid (p : Z) : TaskDesc :=
  mkTaskDesc "t1" 0 0 (mkRecordArgv 99 10 p "" false "") "" 0 0 default_cos "".

Lemma record_success_evidence_witness :
  (perf_record (task_pid 42) "/out" (mkR "" []) sim_perf).1 = Ret (true, mkR "" ["perf.data"]) ∧
  nonempty_file "/out/perf.data" (perf_record (task_pid 42) "/out" (mkR "" []) sim_perf).2.
Proof.
  split; [vm_compute; reflexivity|].
  apply (proj1 (record_success_evidence (task_pid 42) "/out" (mkR "" []) sim_perf
    (mkR "" ["perf.data"]) (perf_record (task_pid 42) "/out" (mkR "" []) sim_perf).2)).
  vm_compute. reflexivity.
Defined.

(** The child_failure and output tests start no child. *)
Lemma tests_trace {W} `{OS W} :
  (∀ r tm em sm path tail st (w : traced W) b w', child_failure r tm em sm path tail st w = (Ret b, w') → w' = w) ∧
  (∀ path name st (w : traced W) b w', output_failure path name st w = (Ret b, w') → w' = w).
Proof.
  split; intros; unfold child_failure, output_failure, read_file, fs_exists, file_size in *;
    by prog_inv.
Qed.

Lemma runPerf_trace {W} `{OS W} hz cg ev pid d path dir to st (w : W) l r w' l' :
  runPerf hz cg ev pid d path dir to st (w, l) = (Ret r, (w', l')) →
  l' = (l ++ [perf_spawn hz cg ev pid d path dir to])%list.
Proof.
  unfold runPerf, spawn. intros Hr.
  apply prog_bind_Ret in Hr as (o & [w1 l1] & Hs & Hr).
  apply (proj1 (act_Ret _ _ _ _)) in Hs. simpl in Hs.
  destruct (os_spawn _ w) as [o' w2]. simplify_eq.
  destruct tests_trace as [Tc To]. prog_inv.
  all: repeat match goal with
    | E : child_failure _ _ _ _ _ _ _ _ = _ |- _ => apply Tc in E
    | E : output_failure _ _ _ _ = _ |- _ => apply To in E
    end; by simplify_eq.
Qed.

(** The perf commands a task runs, in every world: with no PID, one
    system-wide run; with a PID, one run with [-p], and a second, system-wide run
    exactly when the first failed with a message that says "No such process". *)
Theorem perf_record_commands {W} `{OS W} t dir st (w : W) l ok st' w' l' :
  perf_record t dir st (w, l) = (Ret (ok, st'), (w', l')) →
  ∃ timeout, task_timeout t (perf_duration t) = Ret timeout ∧
  let run pid := runPerf (W := traced W) (perf_hz t) (or_default (callgraph (sample_argv t)) "fp")
    (or_default (event (sample_argv t)) "cpu-cycles") pid (perf_duration t)
    (dir +:+ "/perf.data") dir timeout in
  let cmd pid := perf_spawn (perf_hz t) (or_default (callgraph (sample_argv t)) "fp")
    (or_default (event (sample_argv t)) "cpu-cycles") pid (perf_duration t)
    (dir +:+ "/perf.data") dir timeout in
  let p := pid (sample_argv t) in
  (p <= 0 ∧ l' = (l ++ [cmd 0])%list) ∨
  (0 < p ∧ ∃ w0 ok1 st1 w1, run p st (w0, l) = (Ret (ok1, st1), w1) ∧
     l' = (l ++ [cmd p] ++
       (if negb ok1 && contains "No such process" (error_msg st1) then [cmd 0] else []))%list).
Proof.
  unfold perf_record, create_directories. intros Hr.
  apply prog_bind_Ret in Hr as ([] & [w0 l0] & Hm & Hr). simpl in Hm.
  destruct (os_mkdirs dir w) as [[] w0']; simplify_eq.
  apply prog_bind_Ret in Hr as (timeout & [? ?] & Ht & Hr). apply lift_Ret in Ht as [Ht ?].
  simplify_eq. exists timeout. split; [done|]. cbv beta zeta in Hr |- *.
  apply prog_bind_Ret in Hr as ([ok2 st2] & [w2 l2] & Hrun & Hr).
  assert (l' = l2) as -> by (destruct ok2; unfold file_size in Hr; by prog_inv).
  clear Hr. destruct (bool_decide (0 < _)) eqn:Hp.
  - apply bool_decide_eq_true in Hp. right. split; [done|].
    apply prog_bind_Ret in Hrun as ([ok1 st1] & [wa la] & Hrun & Hr).
    eexists _, ok1, st1, (wa, la). split; [exact Hrun|].
    apply runPerf_trace in Hrun as ->. destruct (negb ok1 && _).
    + apply runPerf_trace in Hr. by rewrite <-app_assoc in Hr.
    + by apply mret_Ret in Hr as [? ?]; simplify_eq.
  - apply bool_decide_eq_false in Hp. left. split; [lia|]. by apply runPerf_trace in Hrun.
Qed.

(** The first run of perf finds no such process, the second one succeeds. *)
Definition sim_fallback : sim :=
  mkSim ∅ 0 ∅ None
    [(Ran false (Exited 255), [("/out/perf.stderr.log", "Error:" +:+ nl +:+ "No such process" +:+ nl)]);
     (Ran false (Exited 0), [("/out/perf.data", "PERFILE2")])] [] [].

Definition fallback_run : outcome (bool * rstate) * traced sim :=
  perf_record (task_pid 42) "/out" (mkR "" []) (sim_fallback, []).

Lemma perf_record_commands_witness :
  length fallback_run.2.2 = 2%nat ∧ ∃ timeout, task_timeout (task_pid 42) 10 = Ret timeout.
Proof.
  split; [vm_compute; reflexivity|].
  destruct (perf_record_commands (task_pid 42) "/out" (mkR "" []) sim_fallback [] true
    (mkR "perf record exited with code 255: No such process" ["perf.data"])
    fallback_run.2.1 fallback_run.2.2) as (timeout & Hto & _).
  - vm_compute. reflexivity.
  - exists timeout. exact Hto.
Defined.

(** The limits handed to the children, for every task:
    the frequency and the duration are positive [int]s, the watchdog's limit is
    positive when it is defined, and it is undefined (signed overflow) exactly when
    the task sets no limit and its duration is within 30 of the largest [int];
    async-profiler's interval is zero exactly above one gigahertz. *)
Theorem profiler_limits t :
  (1 <= perf_hz t < 2 ^ 31) ∧ (1 <= perf_duration t < 2 ^ 31) ∧
  (∀ n, task_timeout t (perf_duration t) = Ret n → 1 <= n < 2 ^ 31) ∧
  ((∃ why, task_timeout t (perf_duration t) = UB why) ↔
     to_i32 (timeout_sec t) <= 0 ∧ 2 ^ 31 - 30 <= perf_duration t) ∧
  (∀ n, script_timeout t = Ret n → 1 <= n < 2 ^ 31) ∧
  0 <= asprof_interval (perf_hz t) <= 1000000000 ∧
  (asprof_interval (perf_hz t) = 0 ↔ 1000000000 < perf_hz t).
Proof.
  assert (1 <= perf_hz t < 2 ^ 31) as Hhz
    by (unfold perf_hz; pose proof (to_i32_range (hz (sample_argv t))); unfold is_i32 in *; case_bool_decide; lia).
  assert (1 <= perf_duration t < 2 ^ 31) as Hd
    by (unfold perf_duration; pose proof (to_i32_range (duration (sample_argv t))); unfold is_i32 in *; case_bool_decide; lia).
  pose proof (to_i32_range (timeout_sec t)) as Ht. unfold is_i32 in Ht.
  split; [done|]. split; [done|]. split_and!.
  - unfold task_timeout. case_bool_decide; [intros n [-> ?]%i32_add_ret|naive_solver lia].
    unfold is_i32 in *. lia.
  - unfold task_timeout, i32_add. repeat case_bool_decide; naive_solver lia.
  - unfold script_timeout. case_bool_decide; [intros n [-> ?]%i32_add_ret|naive_solver lia].
    unfold is_i32 in *. case_bool_decide; lia.
  - unfold asprof_interval. apply Z.quot_pos; lia.
  - unfold asprof_interval. apply Z.quot_le_upper_bound; lia.
  - unfold asprof_interval. rewrite Z.quot_small_iff by lia. lia.
Qed.
