(* ===== verification/Offcpu.v ===== *)
(** The kernel side of the off-CPU profiler (drop/common/bpf/offcpu.bpf.c): the
    maps and the handler of the sched_switch tracepoint.

    The stack ids the kernel's [bpf_get_stackid] hands out are part of an event;
    a hash map of the kernel is a [gmap] with a capacity.  The handler is given
    twice: as one step, and as the three map accesses it is made of, which the
    CPUs interleave. *)
From stdpp Require Import base gmap list countable.
From Stdlib Require Import ZArith Lia.
From S2P Require Import Prelude.

(** [struct stack_key] *)
Record stack_key := mkSK {
  sk_pid : Z;
  sk_tgid : Z;
  user_stack_id : Z;
  kern_stack_id : Z;
}.

#[global] Instance stack_key_eq_dec : EqDecision stack_key.
Proof. solve_decision. Defined.
#[global] Instance stack_key_countable : Countable stack_key.
Proof.
  refine (inj_countable' (λ k, (sk_pid k, sk_tgid k, user_stack_id k, kern_stack_id k))
    (λ t, let '(a, b, c, d) := t in mkSK a b c d) _). by intros [].
Defined.

Definition MAX_ENTRIES : Z := 10240.

(** The maps [counts] and [target_pid] (at most one entry). *)
Record bpf_maps := mkMaps {
  counts : gmap stack_key Z;
  target_pid : option Z;
}.

(** [bpf_map_update_elem(&counts, k, v, BPF_ANY)]: a new key needs room; the error
    is not looked at. *)
Definition counts_update (k : stack_key) (v : Z) (c : gmap stack_key Z) : gmap stack_key Z :=
  if bool_decide (is_Some (c !! k)) || bool_decide (Z.of_nat (size c) < MAX_ENTRIES)
  then <[k := v]> c else c.

(** A switch: [ctx->prev_pid] and the two stack ids. *)
Record switch_event := mkEvent {
  ev_prev_pid : Z;
  ev_user_id : Z;
  ev_kern_id : Z;
}.

(** The part of the handler before the first access to [counts]: [None] when the
    filter drops the event. *)
Definition event_key (filter : option Z) (e : switch_event) : option stack_key :=
  let filter_tgid := default 0 filter in
  let prev_pid := to_u32 (ev_prev_pid e) in
  if bool_decide (filter_tgid ≠ 0) && bool_decide (prev_pid ≠ filter_tgid) then None
  else Some (mkSK prev_pid (if bool_decide (filter_tgid ≠ 0) then filter_tgid else prev_pid)
               (ev_user_id e) (ev_kern_id e)).

(** [__sync_fetch_and_add(val, 1)] on the element of [k]. *)
Definition fetch_and_add (k : stack_key) (c : gmap stack_key Z) : gmap stack_key Z :=
  match c !! k with Some v => <[k := to_u64 (v + 1)]> c | None => c end.

(** The rest, as one step. *)
Definition count_one (k : stack_key) (c : gmap stack_key Z) : gmap stack_key Z :=
  match c !! k with
  | Some _ => fetch_and_add k c
  | None => counts_update k 1 c
  end.

Definition trace_sched_switch (m : bpf_maps) (e : switch_event) : bpf_maps :=
  match event_key (target_pid m) e with
  | None => m
  | Some k => mkMaps (count_one k (counts m)) (target_pid m)
  end.

Definition occurrences (k : stack_key) (ks : list stack_key) : Z :=
  Z.of_nat (length (filter (λ k', k' = k) ks)).

Lemma occurrences_snoc k ks k' :
  occurrences k (ks ++ [k']) = occurrences k ks + (if bool_decide (k' = k) then 1 else 0).
Proof.
  unfold occurrences. rewrite filter_app, length_app. rewrite filter_cons, filter_nil.
  case_decide; case_bool_decide; simpl; try lia; done.
Qed.

(** The keys of the events the filter lets through. *)
Definition event_keys (filter : option Z) (es : list switch_event) : list stack_key :=
  omap (event_key filter) es.

(** [size] bounded; a present key has its number of events, modulo 2^64; an
    absent key either had none or met a full map. *)
Definition counts_exact (ks : list stack_key) (c : gmap stack_key Z) : Prop :=
  Z.of_nat (size c) <= MAX_ENTRIES ∧
  (∀ k v, c !! k = Some v → v = to_u64 (occurrences k ks) ∧ 1 <= occurrences k ks) ∧
  (∀ k, c !! k = None → 1 <= occurrences k ks → Z.of_nat (size c) = MAX_ENTRIES).

Lemma occurrences_pos k ks : 0 <= occurrences k ks.
Proof. unfold occurrences. lia. Qed.

Lemma count_one_exact ks c k :
  counts_exact ks c → counts_exact (ks ++ [k]) (count_one k c).
Proof.
  intros (Hsz & Hin & Hout). unfold count_one, counts_update, fetch_and_add.
  destruct (c !! k) as [v|] eqn:Hk.
  - split_and!.
    + by rewrite map_size_insert_Some.
    + intros k' v'. rewrite occurrences_snoc.
      destruct (decide (k = k')) as [->|Hne].
      * rewrite lookup_insert_eq, bool_decide_eq_true_2 by done. intros ?; simplify_eq.
        destruct (Hin _ _ Hk) as [-> ?]. split; [|lia]. unfold to_u64, wrap_u.
        by rewrite Zplus_mod_idemp_l.
      * rewrite lookup_insert_ne, bool_decide_eq_false_2 by done. rewrite Z.add_0_r. apply Hin.
    + intros k'. rewrite occurrences_snoc, map_size_insert_Some by done.
      destruct (decide (k = k')) as [->|Hne]; [by rewrite lookup_insert_eq|].
      rewrite lookup_insert_ne, bool_decide_eq_false_2 by done. rewrite Z.add_0_r. apply Hout.
  - rewrite (bool_decide_eq_false_2 (is_Some None)) by (by intros [? ?]). simpl.
    case_bool_decide as Hroom.
    + assert (occurrences k ks = 0) as H0.
      { destruct (decide (1 <= occurrences k ks)) as [H1|?]; [|pose proof (occurrences_pos k ks); lia].
        pose proof (Hout k Hk H1). lia. }
      split_and!.
      * rewrite map_size_insert_None by done. lia.
      * intros k' v'. rewrite occurrences_snoc. destruct (decide (k = k')) as [->|Hne].
        -- rewrite lookup_insert_eq, bool_decide_eq_true_2, H0 by done. intros ?; simplify_eq. done.
        -- rewrite lookup_insert_ne, bool_decide_eq_false_2 by done. rewrite Z.add_0_r. apply Hin.
      * intros k'. rewrite occurrences_snoc, map_size_insert_None by done.
        destruct (decide (k = k')) as [->|Hne]; [by rewrite lookup_insert_eq|].
        rewrite lookup_insert_ne, bool_decide_eq_false_2 by done. rewrite Z.add_0_r.
        intros Hn H1. pose proof (Hout k' Hn H1). lia.
    + split_and!; [done| |].
      * intros k' v' Hv. rewrite occurrences_snoc. destruct (decide (k = k')) as [->|Hne];
          [congruence|]. rewrite bool_decide_eq_false_2, Z.add_0_r by done. by apply Hin.
      * intros. lia.
Qed.

Lemma trace_keep_filter m e : target_pid (trace_sched_switch m e) = target_pid m.
Proof. unfold trace_sched_switch. by destruct (event_key _ e). Qed.

Definition run_probe (filter : option Z) (es : list switch_event) : bpf_maps :=
  foldl trace_sched_switch (mkMaps ∅ filter) es.

Lemma run_probe_exact filter es :
  target_pid (run_probe filter es) = filter ∧
  counts_exact (event_keys filter es) (counts (run_probe filter es)).
Proof.
  unfold run_probe, event_keys. induction es as [|e es [IHf IH]] using rev_ind.
  - simpl. split; [done|]. split_and!; [by rewrite map_size_empty|..].
    + intros k v. by rewrite lookup_empty.
    + intros k _. unfold occurrences. simpl. lia.
  - rewrite foldl_app, omap_app. cbn [foldl]. rewrite trace_keep_filter. split; [done|].
    revert IHf IH. generalize (foldl trace_sched_switch (mkMaps ∅ filter) es) as m. intros m IHf IH.
    unfold trace_sched_switch. rewrite IHf. simpl. destruct (event_key filter e) as [k|]; simpl.
    + by apply count_one_exact.
    + by rewrite app_nil_r.
Qed.

(** * The CPUs

    The handler runs on every CPU at once.  A CPU has looked [counts] up, and then
    adds atomically to the value it found, or writes 1. *)

Inductive cpu_state :=
  | CIdle
  | CFound (k : stack_key)
  | CMissed (k : stack_key).

(** The state: the map, what each CPU is doing, and the keys of the events begun. *)
Record probe_state := mkProbe {
  p_counts : gmap stack_key Z;
  p_cpus : list cpu_state;
  p_begun : list stack_key;
}.

Definition busy (k : stack_key) (c : cpu_state) : Z :=
  match c with
  | CIdle => 0
  | CFound k' | CMissed k' => if bool_decide (k' = k) then 1 else 0
  end.

(** The CPUs that have begun an event of key [k] and not yet counted it. *)
Fixpoint pending (k : stack_key) (cs : list cpu_state) : Z :=
  match cs with [] => 0 | c :: cs' => busy k c + pending k cs' end.

Lemma pending_insert k cs i c c' :
  cs !! i = Some c → pending k (<[i := c']> cs) = pending k cs - busy k c + busy k c'.
Proof.
  revert i. induction cs as [|x cs IH]; intros [|i] Hi; simpl in *; simplify_eq; [lia|].
  rewrite IH by done. lia.
Qed.

Section Cpus.
Context (filter : option Z).

Inductive cpu_step : probe_state → probe_state → Prop :=
  | cpu_drop s i e :
      p_cpus s !! i = Some CIdle → event_key filter e = None → cpu_step s s
  | cpu_lookup s i e k :
      p_cpus s !! i = Some CIdle → event_key filter e = Some k →
      cpu_step s (mkProbe (p_counts s)
        (<[i := match p_counts s !! k with Some _ => CFound k | None => CMissed k end]> (p_cpus s))
        (p_begun s ++ [k]))
  (** [__sync_fetch_and_add(val, 1)]: atomic, on the element found *)
  | cpu_add s i k :
      p_cpus s !! i = Some (CFound k) →
      cpu_step s (mkProbe (fetch_and_add k (p_counts s))
        (<[i := CIdle]> (p_cpus s)) (p_begun s))
  | cpu_insert s i k :
      p_cpus s !! i = Some (CMissed k) →
      cpu_step s (mkProbe (counts_update k 1 (p_counts s)) (<[i := CIdle]> (p_cpus s)) (p_begun s)).

Definition probe_start (ncpu : nat) : probe_state := mkProbe ∅ (replicate ncpu CIdle) [].
Definition probe_reach (ncpu : nat) : probe_state → Prop := rtc cpu_step (probe_start ncpu).

(** Nothing is counted that did not happen. *)
Definition probe_inv (s : probe_state) : Prop :=
  Z.of_nat (size (p_counts s)) <= MAX_ENTRIES ∧
  ∀ k, 0 <= default 0 (p_counts s !! k) ∧
       default 0 (p_counts s !! k) + pending k (p_cpus s) <= occurrences k (p_begun s).

Lemma to_u64_le v : 0 <= v → 0 <= to_u64 v <= v.
Proof.
  intros. pose proof (to_u64_range v). unfold is_u64, to_u64, wrap_u in *.
  pose proof (Z.mod_le v (2 ^ 64)). lia.
Qed.

Lemma cpu_step_inv s s' : probe_inv s → cpu_step s s' → probe_inv s'.
Proof.
  intros [Hsz Hk] Hst. destruct Hst as [s i e Hi He|s i e k Hi He|s i k Hi|s i k Hi].
  - done.
  - split; [done|]. intros k'. simpl. specialize (Hk k').
    rewrite (pending_insert _ _ _ _ _ Hi), occurrences_snoc.
    destruct (p_counts s !! k); simpl; case_bool_decide; lia.
  - unfold fetch_and_add. split; simpl.
    + destruct (p_counts s !! k) as [v|] eqn:Ev; [|done]. by rewrite map_size_insert_Some.
    + intros k'. specialize (Hk k'). rewrite (pending_insert _ _ _ _ _ Hi). simpl.
      destruct (p_counts s !! k) as [v|] eqn:Ev; [|case_bool_decide; lia].
      case_bool_decide as Heq; [subst k'|].
      * rewrite lookup_insert_eq. rewrite Ev in Hk. simpl in *. pose proof (to_u64_le (v + 1)). lia.
      * rewrite lookup_insert_ne by done. lia.
  - unfold counts_update. split; simpl.
    + destruct (_ || _) eqn:Hroom; [|done]. apply orb_true_iff in Hroom as [Hr|Hr];
        apply bool_decide_eq_true in Hr.
      * by rewrite map_size_insert_Some.
      * pose proof (map_size_insert k 1 (p_counts s)). destruct (p_counts s !! k); simpl in *; lia.
    + intros k'. specialize (Hk k'). rewrite (pending_insert _ _ _ _ _ Hi). simpl.
      destruct (_ || _); [|case_bool_decide; lia]. case_bool_decide as Heq; [subst k'|].
      * rewrite lookup_insert_eq. simpl. lia.
      * rewrite lookup_insert_ne by done. lia.
Qed.

Lemma pending_start k n : pending k (replicate n CIdle) = 0.
Proof. by induction n. Qed.

Lemma probe_reach_inv n s : probe_reach n s → probe_inv s.
Proof.
  unfold probe_reach. intros Hr. remember (probe_start n) as s0 eqn:E.
  assert (probe_inv s0) as H0.
  { subst s0. split; simpl; [by rewrite map_size_empty|].
    intros k. rewrite lookup_empty, pending_start. unfold occurrences. simpl. lia. }
  clear E. induction Hr; eauto using cpu_step_inv.
Qed.
End Cpus.

(** A filtered key is the filter's. *)
Lemma event_key_filter f e k :
  f ≠ 0 → event_key (Some f) e = Some k → sk_pid k = f ∧ sk_tgid k = f.
Proof.
  unfold event_key. simpl. intros Hf. rewrite !(bool_decide_eq_true_2 (f ≠ 0)) by done.
  simpl. case_bool_decide; [done|]. by intros ?; simplify_eq/=.
Qed.

Lemma occurrences_elem k ks : 1 <= occurrences k ks → k ∈ ks.
Proof.
  unfold occurrences. destruct (decide (k ∈ ks)) as [|Hn]; [done|]. intros H1.
  destruct (filter (λ k', k' = k) ks) as [|x l] eqn:E; [simpl in H1; lia|].
  assert (x ∈ filter (λ k', k' = k) ks) as Hx by (rewrite E; left).
  apply list_elem_of_filter in Hx as [-> ?]. done.
Qed.

(** * Claims *)

(** C27: After any sequence of scheduler switches, handled one after the other, the
    counts map holds for each of its keys the number of switches with that key
    (modulo 2^64); it never has more than 10240 keys, and a key that occurred is
    missing only when the map is full; with a PID filter every key is of that
    PID. *)
Theorem probe_counts_exact filter es :
  let c := counts (run_probe filter es) in
  Z.of_nat (size c) <= MAX_ENTRIES ∧
  (∀ k v, c !! k = Some v → v = to_u64 (occurrences k (event_keys filter es))) ∧
  (∀ k, k ∈ event_keys filter es → is_Some (c !! k) ∨ Z.of_nat (size c) = MAX_ENTRIES) ∧
  (∀ k f, filter = Some f → f ≠ 0 → is_Some (c !! k) → sk_pid k = f ∧ sk_tgid k = f).
Proof.
  destruct (run_probe_exact filter es) as [_ (Hsz & Hin & Hout)]. cbv zeta. split_and!.
  - done.
  - intros k v Hv. by apply Hin.
  - intros k Hk. destruct (counts (run_probe filter es) !! k) eqn:E; [by left|right].
    apply (Hout k E). unfold occurrences.
    assert (k ∈ base.filter (λ k', k' = k) (event_keys filter es)) as Hf
      by (by apply list_elem_of_filter).
    destruct (base.filter _ _); [by apply elem_of_nil in Hf|simpl; lia].
  - intros k f -> Hf [v Hv]. destruct (Hin k v Hv) as [_ Hocc%occurrences_elem].
    apply list_elem_of_omap in Hocc as (e & _ & He). eauto using event_key_filter.
Qed.

(** With the handler running on several CPUs at once, in every interleaving of
    its map accesses no key is counted more often than it occurred, and the map
    stays within its capacity; but a count can be lost: of two first switches with
    the same key on two CPUs, one is overwritten. *)
Theorem probe_concurrent filter ncpu s :
  probe_reach filter ncpu s →
  (∀ k, default 0 (p_counts s !! k) <= occurrences k (p_begun s)) ∧
  Z.of_nat (size (p_counts s)) <= MAX_ENTRIES ∧
  ∃ s' k, probe_reach None 2 s' ∧ p_cpus s' = [CIdle; CIdle] ∧
    p_counts s' !! k = Some 1 ∧ occurrences k (p_begun s') = 2.
Proof.
  intros Hr. destruct (probe_reach_inv _ _ _ Hr) as [Hsz Hk]. split_and!; [|done|].
  - intros k. destruct (Hk k) as [? Hb].
    assert (∀ cs, 0 <= pending k cs) as Hp; [|specialize (Hp (p_cpus s)); lia].
    induction cs as [|c cs IH]; simpl; [lia|]. destruct c; simpl; repeat case_bool_decide; lia.
  - set (e := mkEvent 7 1 2). set (k := mkSK 7 7 1 2).
    exists (mkProbe {[k := 1]} [CIdle; CIdle] [k; k]), k. split_and!; [|done|..].
    + eapply rtc_l; [apply (cpu_lookup None _ 0%nat e k); reflexivity|].
      eapply rtc_l; [apply (cpu_lookup None _ 1%nat e k); reflexivity|].
      eapply rtc_l; [apply (cpu_insert None _ 0%nat k); reflexivity|].
      eapply rtc_l; [apply (cpu_insert None _ 1%nat k); reflexivity|].
      vm_compute. apply rtc_refl.
    + reflexivity.
    + reflexivity.
Qed.

Lemma probe_concurrent_witness :
  Z.of_nat (size (p_counts (probe_start 2))) <= MAX_ENTRIES.
Proof. apply (probe_concurrent None 2 (probe_start 2)). apply rtc_refl. Defined.
