(* ===== verification/Symbols.v ===== *)
(** Symbol resolution of the eBPF loader (ebpf_loader.cpp): the kernel's symbol
    table, the memory maps of a process with their cache, and addr2line in
    batches. *)
From stdpp Require Import base strings list.
From Stdlib Require Import ZArith Lia Ascii.
From S2P Require Import Prelude CppString OrdMap OS.

Local Open Scope string_scope.

(** * Formatted input *)

(** [%lx] of scanf and [>> std::hex >> uint64_t] agree on what they read: white
    space, a sign, [0x], digits.  They differ on a value above 64 bits. *)
Definition scan_hex (s : string) : option (Z * string) :=
  let '(neg, s1) := scan_sign (trim_front isspace s) in
  let s2 := match s1 with
            | String "0" (String "x" r) | String "0" (String "X" r) => r
            | _ => s1 end in
  let '(v, seen, rest) := scan_digits 16 s2 0 false in
  if (seen : bool) then Some (if (neg : bool) then - v else v, rest) else None.

(** The stream fails on overflow. *)
Definition stream_hex (s : string) : option (Z * string) :=
  match scan_hex s with
  | Some (v, rest) => if bool_decide (Z.abs v < 2 ^ 64) then Some (to_u64 v, rest) else None
  | None => None
  end.

(** scanf saturates at [ULONG_MAX]. *)
Definition scanf_hex (s : string) : option (Z * string) :=
  match scan_hex s with
  | Some (v, rest) => Some (if bool_decide (Z.abs v < 2 ^ 64) then to_u64 v else 2 ^ 64 - 1, rest)
  | None => None
  end.

(** At most [n] characters that are not white space: the word and the rest. *)
Fixpoint take_word (n : nat) (s : string) : string * string :=
  match n, s with
  | S n', String a s' =>
      if isspace a then ("", s) else let '(w, r) := take_word n' s' in (String a w, r)
  | _, _ => ("", s)
  end.

(** [>> std::string] and [%ns] *)
Definition read_word (n : nat) (s : string) : option (string * string) :=
  match take_word n (trim_front isspace s) with
  | ("", _) => None
  | p => Some p
  end.

(** * Kernel symbols *)

(** [iss >> std::hex >> addr >> type >> name] *)
Definition parse_ksym (line : string) : option (Z * string) :=
  match stream_hex line with
  | None => None
  | Some (addr, r1) =>
      match trim_front isspace r1 with
      | "" => None
      | String _ r2 =>
          match read_word (String.length r2) r2 with
          | None => None
          | Some (name, _) => Some (addr, name)
          end
      end
  end.

Definition ksym_table (lines : list string) : list (Z * string) :=
  foldl (λ m l, match parse_ksym l with Some (a, n) => om_set a n m | None => m end) [] lines.

Section Kallsyms.
Context {W : Type} `{OS W}.
Definition ReadKallsyms : prog W (list (Z * string)) :=
  content ← read_file "/proc/kallsyms";
  mret (ksym_table (getlines ch_nl (default "" content))).
End Kallsyms.

Definition ResolveKsym (syms : list (Z * string)) (addr : Z) : string :=
  match om_floor addr syms with
  | None => "[unknown]"
  | Some (_, name) => name
  end.

(** * Memory maps of a process *)

Record UserSym := mkUserSym {
  us_start : Z;
  us_end : Z;
  us_offset : Z;
  us_path : string;
}.

(** [sscanf(line, "%lx-%lx %4s %lx %7s %lu", ...)] into zeroed variables: the
    conversions stop at the first one that fails.  [dev] and [inode] are not used
    afterwards. *)
Definition scan_maps_line (line : string) : Z * Z * string * Z :=
  match scanf_hex line with
  | None => (0, 0, "", 0)
  | Some (start, String "-" r1) =>
      match scanf_hex r1 with
      | None => (start, 0, "", 0)
      | Some (fin, r2) =>
          match read_word 4 r2 with
          | None => (start, fin, "", 0)
          | Some (perms, r3) =>
              match scanf_hex r3 with
              | None => (start, fin, perms, 0)
              | Some (off, _) => (start, fin, perms, off)
              end
          end
      end
  | Some (start, _) => (start, 0, "", 0)
  end.

(** The body of the reading loop; [None] is [continue]. *)
Definition parse_maps_line (line : string) : option UserSym :=
  match find_char "/"%char line with
  | None => None
  | Some idx =>
      let '(start, fin, perms, off) := scan_maps_line (c_str line) in
      let path := trim_back is_crlf (str_drop idx line) in
      if bool_decide (String.get 0 perms = Some "r"%char) && bool_decide (String.get 2 perms = Some "x"%char)
      then Some (mkUserSym start fin off path) else None
  end.

Definition parse_maps (content : string) : list UserSym :=
  omap parse_maps_line (getlines ch_nl content).

(** The globals [g_user_maps_cache] and [g_user_maps_lru]. *)
Record maps_cache := mkCache {
  mc_map : list (Z * list UserSym);
  mc_order : list Z;
}.
Definition cache0 : maps_cache := mkCache [] [].
Definition kMaxUserMapsCache : nat := 256.

Definition cache_insert (pid : Z) (r : list UserSym) (c : maps_cache) : maps_cache :=
  let c1 := match mc_order c with
            | oldest :: rest =>
                if bool_decide (kMaxUserMapsCache <= length (mc_map c))%nat
                then mkCache (om_erase oldest (mc_map c)) rest else c
            | [] => c
            end in
  mkCache (om_set pid r (mc_map c1)) (mc_order c1 ++ [pid]).

Section Maps.
Context {W : Type} `{OS W}.

Definition ReadUserMaps (pid : Z) (c : maps_cache) : prog W (list UserSym * maps_cache) :=
  match om_get pid (mc_map c) with
  | Some r => mret (r, c)
  | None =>
      content ← read_file ("/proc/" +:+ to_string pid +:+ "/maps");
      match content with
      | None => mret ([], c)
      | Some s => let r := parse_maps s in mret (r, cache_insert pid r c)
      end
  end.

(** * addr2line *)

(** [snprintf(buf, 128, "%s+0x%lx", basename, offset)] *)
Definition sym_fallback (path : string) (offset : Z) : string :=
  snprintf 128 (c_str (basename path) +:+ "+0x" +:+ to_hex offset).

Definition addr2line_cmd (path : string) (offsets : list Z) : string :=
  "addr2line -e " +:+ path +:+ " -f" +:+
  foldr (λ o acc, snprintf 32 (" 0x" +:+ to_hex o) +:+ acc) "" offsets +:+ " 2>/dev/null".

(** The symbols resolved so far, by path and file offset. *)
Definition symtab : Type := list ((string * Z) * string).

Definition is_known (f : string) : bool :=
  negb (bool_decide (f = "")) && negb (bool_decide (f = "??")) && negb (bool_decide (f = "?")).

(** Two lines per address are read from the pipe; [rest] is what is unread. *)
Fixpoint read_symbols (path : string) (offsets : list Z) (rest : string) (result : symtab) : symtab :=
  match offsets with
  | [] => result
  | o :: offsets' =>
      let '(func_name, r1) := match fgets 512 rest with
                              | Some (l, r) => (trim_back is_crlf (c_str l), r)
                              | None => ("", rest) end in
      let r2 := match fgets 512 r1 with Some (_, r) => r | None => r1 end in
      read_symbols path offsets' r2
        (om_set (path, o) (if is_known func_name then func_name else sym_fallback path o) result)
  end.

Definition resolve_chunk (path : string) (offsets : list Z) (result : symtab) : prog W symtab :=
  out ← popen (c_str (addr2line_cmd path offsets));
  mret match out with
       | None => foldl (λ r o, om_set (path, o) (sym_fallback path o) r) result offsets
       | Some (text, _) => read_symbols path offsets text result
       end.

Fixpoint resolve_chunks (path : string) (cs : list (list Z)) (result : symtab) : prog W symtab :=
  match cs with
  | [] => mret result
  | c :: cs' => r ← resolve_chunk path c result; resolve_chunks path cs' r
  end.

Fixpoint resolve_paths (by_path : list (string * list Z)) (result : symtab) : prog W symtab :=
  match by_path with
  | [] => mret result
  | (path, offsets) :: rest =>
      r ← resolve_chunks path (chunks 512 offsets) result;
      resolve_paths rest r
  end.

Definition group_by_path (to_resolve : list (string * Z)) : list (string * list Z) :=
  foldl (λ m p, om_upd p.1 (λ v, default [] v ++ [p.2])%list m) [] to_resolve.

Definition BatchResolveUserSymbols (to_resolve : list (string * Z)) : prog W symtab :=
  resolve_paths (group_by_path to_resolve) [].

(** ** One frame *)

Definition covers (addr : Z) (m : UserSym) : bool :=
  bool_decide (us_start m <= addr) && bool_decide (addr < us_end m).

(** [addr - m.start + m.offset] in uint64_t *)
Definition file_offset (addr : Z) (m : UserSym) : Z := to_u64 (addr - us_start m + us_offset m).

Definition first_cover (addr : Z) (maps : list UserSym) : option UserSym :=
  head (filter (λ m, covers addr m = true) maps).

Definition ResolveUserFrame (pid addr : Z) (resolved : symtab) (c : maps_cache) :
    prog W (string * maps_cache) :=
  r ← ReadUserMaps pid c;
  let '(maps, c') := r in
  mret (match first_cover addr maps with
        | None => snprintf 64 ("[unknown]:0x" +:+ to_hex addr)
        | Some m =>
            match om_get (us_path m, file_offset addr m) resolved with
            | Some f => f
            | None => sym_fallback (us_path m) (file_offset addr m)
            end
        end, c').
End Maps.

(** * Lemmas *)

Lemma om_set_wf {K V} `{StrictOrd K} (k : K) (v : V) m : om_wf m → om_wf (om_set k v m).
Proof. apply om_upd_wf. Qed.

Lemma om_get_set {K V} `{StrictOrd K} `{EqDecision K} (k j : K) (v : V) m :
  om_get j (om_set k v m) = if decide (j = k) then Some v else om_get j m.
Proof.
  unfold om_set. case_decide as E; [subst; by rewrite om_get_upd_eq|].
  by apply om_get_upd_ne.
Qed.

(** ** The kernel table *)

Lemma ksym_table_snoc ls l :
  ksym_table (ls ++ [l])%list =
    match parse_ksym l with Some (a, n) => om_set a n (ksym_table ls) | None => ksym_table ls end.
Proof. unfold ksym_table. by rewrite foldl_app. Qed.

Lemma ksym_table_wf ls : om_wf (ksym_table ls).
Proof.
  induction ls as [|l ls IH] using rev_ind; [done|].
  rewrite ksym_table_snoc. destruct (parse_ksym l) as [[]|]; [by apply om_set_wf|done].
Qed.

Lemma ksym_table_get ls a :
  om_get a (ksym_table ls) = snd <$> last (filter (λ p, p.1 = a) (omap parse_ksym ls)).
Proof.
  induction ls as [|l ls IH] using rev_ind; [done|].
  rewrite ksym_table_snoc, omap_app, filter_app. simpl.
  destruct (parse_ksym l) as [[a' n]|]; simpl.
  - rewrite om_get_set, filter_cons, filter_nil. simpl.
    case_decide; case_decide; try congruence.
    + by rewrite last_snoc.
    + by rewrite app_nil_r.
  - by rewrite app_nil_r.
Qed.

(** ** The cache *)

Definition cache_ok (c : maps_cache) : Prop :=
  om_wf (mc_map c) ∧ NoDup (mc_order c) ∧ (length (mc_map c) <= kMaxUserMapsCache)%nat ∧
  length (mc_order c) = length (mc_map c) ∧
  ∀ p, is_Some (om_get p (mc_map c)) ↔ p ∈ mc_order c.

Lemma om_set_length_new {V} (k : Z) (v : V) m :
  om_wf m → om_get k m = None → length (om_set k v m) = S (length m).
Proof.
  induction m as [|[k' v'] m IH]; [done|]. cbn [om_get om_wf]. intros [Hall Hwf].
  unfold om_set in *. cbn [om_upd]. destruct (ltb k k'); [done|].
  destruct (ltb k' k); [|done]. intros Hn. simpl. by rewrite IH.
Qed.

Lemma om_erase_length {V} (k : Z) (m : list (Z * V)) :
  om_wf m → is_Some (om_get k m) → S (length (om_erase k m)) = length m.
Proof.
  induction m as [|[k' v'] m IH]; cbn [om_get om_wf om_erase]; [by intros _ [? ?]|].
  intros [Hall Hwf]. destruct (ltb k k'); [by intros [? ?]|].
  destruct (ltb k' k); [|done]. intros Hs. simpl. by rewrite IH.
Qed.

Lemma cache_insert_ok pid r c :
  cache_ok c → om_get pid (mc_map c) = None → cache_ok (cache_insert pid r c).
Proof.
  intros (Hwf & Hnd & Hle & Hlen & Hdom) Hnew. unfold cache_insert.
  assert (∀ m o, om_wf m → NoDup o → (length m < kMaxUserMapsCache)%nat → length o = length m →
    (∀ p, is_Some (om_get p m) ↔ p ∈ o) → om_get pid m = None →
    cache_ok (mkCache (om_set pid r m) (o ++ [pid])%list)) as Hadd.
  { clear. intros m o Hwf Hnd Hlt Hlen Hdom Hnew. unfold cache_ok; simpl. split_and!.
    - by apply om_set_wf.
    - apply NoDup_app. split; [done|]. split; [|apply NoDup_singleton].
      intros x Hx ->%list_elem_of_singleton. apply Hdom in Hx as [? ?]. congruence.
    - rewrite om_set_length_new by done. lia.
    - rewrite length_app, om_set_length_new by done. simpl. lia.
    - intros p. rewrite om_get_set, elem_of_app, list_elem_of_singleton.
      case_decide; [naive_solver|]. rewrite Hdom. naive_solver. }
  destruct (mc_order c) as [|oldest rest] eqn:Eo.
  - cbv zeta. rewrite Eo. simpl in Hlen. apply Hadd; try done. unfold kMaxUserMapsCache. lia.
  - case_bool_decide as Hfull; simpl.
    + assert (is_Some (om_get oldest (mc_map c))) as Hold by (apply Hdom; left).
      apply NoDup_cons in Hnd as [Hni Hnd].
      pose proof (om_erase_length oldest (mc_map c) Hwf Hold). simpl in Hlen.
      apply Hadd; try done; [by apply om_erase_wf|lia|lia|..].
      * intros p. destruct (decide (oldest = p)) as [->|Hne].
        -- rewrite om_get_erase_eq by done. split; [by intros [? ?]|done].
        -- rewrite om_get_erase_ne, Hdom, elem_of_cons by done. naive_solver.
      * destruct (decide (oldest = pid)) as [->|Hne]; [by apply om_get_erase_eq|].
        by rewrite om_get_erase_ne.
    + rewrite Eo. apply Hadd; try done. lia.
Qed.

Lemma cache_insert_get pid r c : om_get pid (mc_map (cache_insert pid r c)) = Some r.
Proof. unfold cache_insert. cbv zeta. simpl. rewrite om_get_set. by rewrite decide_True. Qed.

(** ** Names without line breaks *)

Lemma no_char_prefix c s t : no_char c (s +:+ t) → no_char c s.
Proof. by intros [? _]%no_char_app. Qed.

Lemma no_char_take c n s : no_char c s → no_char c (str_take n s).
Proof. intros Hs. rewrite <-(str_take_drop n s) in Hs. by apply no_char_prefix in Hs. Qed.

Lemma no_char_drop c n s : no_char c s → no_char c (str_drop n s).
Proof. intros Hs. rewrite <-(str_take_drop n s) in Hs. by apply no_char_app in Hs as [_ ?]. Qed.

Lemma no_char_c_str c s : no_char c s → no_char c (c_str s).
Proof.
  induction s as [|a s IH]; simpl; [done|]. intros [Ha Hs]%no_char_cons.
  destruct (ascii_dec a "000"); [done|]. apply no_char_cons. auto.
Qed.

Lemma no_char_trim c p s : no_char c s → no_char c (trim_back p s).
Proof.
  intros Hs. destruct (trim_back_split p s) as (t & Ht & _). rewrite Ht in Hs.
  by apply no_char_prefix in Hs.
Qed.

Lemma no_char_basename c s : no_char c s → no_char c (basename s).
Proof. unfold basename. intros. case_match; [by apply no_char_drop|done]. Qed.

Lemma to_hex_no_nl z : 0 <= z → no_char ch_nl (to_hex z).
Proof. intros. apply print_base_no_char; [lia|done|]. apply digit_char_plain. Qed.

#[local] Hint Resolve no_char_take no_char_drop no_char_c_str no_char_trim no_char_basename to_hex_no_nl : drop.

(** A usable frame name. *)
Definition name_ok (s : string) : Prop := s ≠ "" ∧ no_char ch_nl s.

Lemma snprintf_nonempty n s : (1 < n)%nat → s ≠ "" → snprintf n s ≠ "".
Proof. destruct n as [|[|n]]; [lia..|]. by destruct s. Qed.

Lemma sym_fallback_ok path o : no_char ch_nl path → 0 <= o → name_ok (sym_fallback path o).
Proof.
  intros Hp Ho. unfold sym_fallback. split.
  - apply snprintf_nonempty; [lia|]. by intros [_ ?]%str_app_eq_nil.
  - apply no_char_take, no_char_app. split; [auto with drop|].
    apply no_char_app. split; [done|]. auto with drop.
Qed.

Lemma fgets_go_line room s :
  ∃ l0, no_char ch_nl l0 ∧ ((fgets_go room s).1 = l0 ∨ (fgets_go room s).1 = l0 +:+ String ch_nl "").
Proof.
  revert s. induction room as [|r IH]; intros s; [exists ""; split; [done|by left]|].
  destruct s as [|a s]; [exists ""; split; [done|by left]|]. cbn [fgets_go].
  destruct (ascii_dec a ch_nl) as [->|Ha]; [exists ""; split; [done|by right]|].
  destruct (IH s) as (l0 & Hno & Hl). destruct (fgets_go r s) as [l rest]. simpl in *.
  exists (String a l0). split; [by apply no_char_cons|]. destruct Hl as [->| ->]; auto.
Qed.

Lemma c_str_app s t : c_str (s +:+ t) = c_str s ∨ c_str (s +:+ t) = s +:+ c_str t.
Proof.
  induction s as [|a s IH]; [by right|]. rewrite !str_app_cons. simpl.
  destruct (ascii_dec a "000"); [by left|]. destruct IH as [->| ->]; auto.
Qed.

Lemma trim_back_crlf_snoc s : trim_back is_crlf (s +:+ String ch_nl "") = trim_back is_crlf s.
Proof.
  induction s as [|a s IH]; [done|]. rewrite str_app_cons. cbn [trim_back]. by rewrite IH.
Qed.

Lemma fgets_name n s l rest : fgets n s = Some (l, rest) → no_char ch_nl (trim_back is_crlf (c_str l)).
Proof.
  unfold fgets. destruct s as [|a s]; [done|]. intros Hf.
  destruct (fgets_go_line (pred n) (String a s)) as (l0 & Hno & Hl).
  assert ((fgets_go (pred n) (String a s)).1 = l) as El by (injection Hf as Hf; by rewrite Hf).
  rewrite El in Hl. destruct Hl as [->| ->]; [auto with drop|].
  destruct (c_str_app l0 (String ch_nl "")) as [->| ->]; [auto with drop|].
  simpl. rewrite trim_back_crlf_snoc. auto with drop.
Qed.

(** ** The table of a batch *)

(** [r] has an entry for exactly the pairs of [d], each a usable name. *)
Definition symtab_ok (d : list (string * Z)) (r : symtab) : Prop :=
  om_wf r ∧ (∀ q, is_Some (om_get q r) ↔ q ∈ d) ∧
  (∀ q f, om_get q r = Some f → no_char ch_nl q.1 → 0 <= q.2 → name_ok f).

Lemma symtab_set d r p o f :
  symtab_ok d r → (no_char ch_nl p → 0 <= o → name_ok f) →
  symtab_ok (d ++ [(p, o)])%list (om_set (p, o) f r).
Proof.
  intros (Hwf & Hdom & Hval) Hf. split_and!.
  - by apply om_set_wf.
  - intros q. rewrite om_get_set, elem_of_app, list_elem_of_singleton.
    case_decide; [naive_solver|]. rewrite Hdom. naive_solver.
  - intros q g. rewrite om_get_set. case_decide; [|apply Hval].
    intros; simplify_eq/=. auto.
Qed.

Lemma read_symbols_ok path offs rest d r :
  symtab_ok d r → symtab_ok (d ++ map (pair path) offs)%list (read_symbols path offs rest r).
Proof.
  revert rest d r. induction offs as [|o offs IH]; intros rest d r Hr; [by rewrite app_nil_r|].
  cbn [read_symbols map]. change ((path, o) :: map (pair path) offs) with ([(path, o)] ++ map (pair path) offs)%list.
  rewrite (app_assoc d).
  assert (∀ fn, no_char ch_nl fn → no_char ch_nl path → 0 <= o →
    name_ok (if is_known fn then fn else sym_fallback path o)) as Hname.
  { intros fn Hfn Hp Ho. unfold is_known. destruct (bool_decide (fn = "")) eqn:E; simpl;
      [by apply sym_fallback_ok|]. apply bool_decide_eq_false in E.
    destruct (_ && _); [by split|by apply sym_fallback_ok]. }
  destruct (fgets 512 rest) as [[l r1]|] eqn:Ef; apply IH, symtab_set; try done; intros; apply Hname; try done.
  by eapply fgets_name.
Qed.

Lemma fallback_symbols_ok path offs d r :
  symtab_ok d r →
  symtab_ok (d ++ map (pair path) offs)%list
    (foldl (λ r o, om_set (path, o) (sym_fallback path o) r) r offs).
Proof.
  revert d r. induction offs as [|o offs IH]; intros d r Hr; [by rewrite app_nil_r|].
  cbn [foldl map]. change ((path, o) :: map (pair path) offs) with ([(path, o)] ++ map (pair path) offs)%list.
  rewrite (app_assoc d). apply IH, symtab_set; [done|]. apply sym_fallback_ok.
Qed.

Section Batch.
Context {W : Type} `{OS W}.

Lemma resolve_chunks_ok path cs d r (w : W) :
  symtab_ok d r →
  ∃ r' w', resolve_chunks path cs r w = (Ret r', w') ∧
    symtab_ok (d ++ map (pair path) (concat cs))%list r'.
Proof.
  revert d r w. induction cs as [|c cs IH]; intros d r w Hr.
  - exists r, w. by rewrite app_nil_r.
  - cbn [resolve_chunks concat]. rewrite map_app, app_assoc.
    unfold resolve_chunk, popen, mbind, prog_bind, act.
    destruct (os_popen (c_str (addr2line_cmd path c)) w) as [[[text st]|] w1]; simpl; apply IH;
      [by apply read_symbols_ok|by apply fallback_symbols_ok].
Qed.

Definition pairs_of (g : list (string * list Z)) : list (string * Z) :=
  g ≫= λ p, map (pair p.1) p.2.

Lemma resolve_paths_ok g d r (w : W) :
  symtab_ok d r →
  ∃ r' w', resolve_paths g r w = (Ret r', w') ∧ symtab_ok (d ++ pairs_of g)%list r'.
Proof.
  revert d r w. induction g as [|[path offs] g IH]; intros d r w Hr.
  - exists r, w. by rewrite app_nil_r.
  - cbn [resolve_paths]. unfold mbind, prog_bind.
    destruct (resolve_chunks_ok path (chunks 512 offs) d r w Hr) as (r1 & w1 & -> & Hr1).
    rewrite chunks_concat in Hr1 by lia.
    change (pairs_of ((path, offs) :: g)) with (map (pair path) offs ++ pairs_of g)%list.
    rewrite app_assoc. by apply IH.
Qed.

Lemma group_by_path_pairs l q : q ∈ pairs_of (group_by_path l) ↔ q ∈ l.
Proof.
  assert (∀ g, om_wf g → om_wf (foldl (λ m p, om_upd p.1 (λ v, default [] v ++ [p.2])%list m) g l) ∧
    ∀ q, q ∈ pairs_of (foldl (λ m p, om_upd p.1 (λ v, default [] v ++ [p.2])%list m) g l) ↔
         q ∈ pairs_of g ∨ q ∈ l) as Hgen.
  2: { destruct (Hgen [] I) as [_ Hq]. unfold group_by_path. rewrite Hq. set_solver. }
  clear q. assert (∀ g (q : string * Z), om_wf g →
    q ∈ pairs_of g ↔ ∃ offs, om_get q.1 g = Some offs ∧ q.2 ∈ offs) as Hmem.
  { intros g [p o] Hwf. unfold pairs_of. rewrite list_elem_of_bind. setoid_rewrite <-om_elem_of; [|done].
    split.
    - intros ([p' offs] & (o' & [= -> ->] & Ho)%list_elem_of_fmap & Hin). eauto.
    - intros (offs & Hin & Ho). exists (p, offs). split; [|done]. by apply list_elem_of_fmap_2. }
  induction l as [|[p o] l IH]; intros g Hg; [split; [done|]; set_solver|].
  cbn [foldl]. destruct (IH (om_upd p (λ v, default [] v ++ [o])%list g)) as [Hwf Hq];
    [by apply om_upd_wf|]. split; [done|]. intros [p' o']. rewrite Hq, !Hmem, elem_of_cons
    by (done || by apply om_upd_wf). cbn [fst snd].
  destruct (decide (p = p')) as [->|Hne].
  - rewrite om_get_upd_eq. destruct (om_get p' g) as [offs|]; simpl.
    + setoid_rewrite (inj_iff Some). split.
      * intros [(? & <- & [?|?%list_elem_of_singleton]%elem_of_app)|?]; naive_solver.
      * intros [(? & <- & ?)|[[= ->]|?]]; [left; eexists; split; [done|]; apply elem_of_app; by left
          |left; eexists; split; [done|]; apply elem_of_app; right; by left|by right].
    + setoid_rewrite (inj_iff Some). split.
      * intros [(? & <- & ?%list_elem_of_singleton)|?]; naive_solver.
      * intros [(? & ? & ?)|[[= ->]|?]]; [done|left; eexists; split; [done|by left]|by right].
  - rewrite om_get_upd_ne by done. naive_solver.
Qed.

Lemma batch_resolve_ok l (w : W) :
  ∃ r w', BatchResolveUserSymbols l w = (Ret r, w') ∧ om_wf r ∧
    (∀ q, is_Some (om_get q r) ↔ q ∈ l) ∧
    (∀ q f, om_get q r = Some f → no_char ch_nl q.1 → 0 <= q.2 → name_ok f).
Proof.
  destruct (resolve_paths_ok (group_by_path l) [] [] w) as (r & w' & Hr & Hwf & Hdom & Hval).
  { split_and!; [done| |done]. intros q. simpl. split; [by intros [? ?]|by intros ?%elem_of_nil]. }
  exists r, w'. split_and!; try done. intros q. rewrite Hdom. apply group_by_path_pairs.
Qed.
End Batch.

(** * Claims *)

(** The kernel symbol of an address, for every content of /proc/kallsyms: the
    name of the greatest symbol address not above it, or [unknown] when every
    symbol is above; of several lines with one address, the last one counts. *)
Theorem resolve_ksym_nearest lines addr :
  let t := ksym_table lines in
  (∀ a, om_get a t = snd <$> last (filter (λ p, p.1 = a) (omap parse_ksym lines))) ∧
  ((ResolveKsym t addr = "[unknown]" ∧ ∀ a n, om_get a t = Some n → addr < a) ∨
   ∃ a, om_get a t = Some (ResolveKsym t addr) ∧ a <= addr ∧
     ∀ a' n, om_get a' t = Some n → a' <= addr → a' <= a).
Proof.
  cbv zeta. split; [apply ksym_table_get|]. unfold ResolveKsym.
  destruct (om_floor addr (ksym_table lines)) as [[a n]|] eqn:E.
  - right. destruct (om_floor_Some _ _ _ _ (ksym_table_wf lines) E) as (Hget & Hle & Hmax).
    exists a. simpl in *. split; [done|]. split; [lia|]. intros a' n' Ha' Hle'.
    destruct (decide (a < a')) as [Hlt|]; [|lia].
    assert ((addr <? a')%Z = true) by (apply (Hmax a' n' Ha'); simpl; lia). lia.
  - left. split; [done|]. intros a n Hget.
    pose proof (om_floor_None _ _ (ksym_table_wf lines) E a n Hget) as Hlt. simpl in Hlt. lia.
Qed.

(** Reading the memory maps of a process keeps the cache at most 256 entries,
    with the insertion order listing exactly its keys; what is returned is the
    cached entry, the parsed file, or nothing when the file cannot be opened; and
    once a process is cached the same answer comes back whatever its maps have
    become (nothing expires by time). *)
Theorem user_maps_cache {W} `{OS W} pid c (w : W) maps c' w' :
  cache_ok c →
  ReadUserMaps pid c w = (Ret (maps, c'), w') →
  w' = w ∧ cache_ok c' ∧
  ((om_get pid (mc_map c) = Some maps ∧ c' = c) ∨
   (om_get pid (mc_map c) = None ∧
    match os_read ("/proc/" +:+ to_string pid +:+ "/maps") w with
    | None => maps = [] ∧ c' = c
    | Some s => maps = parse_maps s ∧ c' = cache_insert pid maps c
    end)) ∧
  (is_Some (om_get pid (mc_map c')) → ∀ w2 : W, ReadUserMaps pid c' w2 = (Ret (maps, c'), w2)).
Proof.
  unfold ReadUserMaps, read_file. intros Hok Hr.
  destruct (om_get pid (mc_map c)) as [r|] eqn:E.
  - prog_inv. split_and!; [done|done|by left|]. intros _ w2. by rewrite E.
  - apply prog_bind_Ret in Hr as (content & w1 & [Hc ->]%gets_Ret & Hr). rewrite Hc.
    destruct content as [s|]; prog_inv.
    + split_and!; [done|by apply cache_insert_ok|by right|].
      intros _ w2. by rewrite cache_insert_get.
    + split_and!; [done|done|by right|]. rewrite E. by intros [? ?].
Qed.

Definition sim_maps : sim :=
  mkSim {["/proc/7/maps" := "00400000-00452000 r-xp 00001000 08:02 173521 /usr/bin/dbus-daemon" +:+ nl]}
    0 ∅ None [] [] [].

Lemma user_maps_cache_witness :
  let m := [mkUserSym 4194304 4530176 4096 "/usr/bin/dbus-daemon"] in
  cache_ok (cache_insert 7 m cache0) ∧
  ReadUserMaps 7 cache0 sim_maps = (Ret (m, cache_insert 7 m cache0), sim_maps).
Proof.
  assert (ReadUserMaps 7 cache0 sim_maps =
    (Ret ([mkUserSym 4194304 4530176 4096 "/usr/bin/dbus-daemon"],
      cache_insert 7 [mkUserSym 4194304 4530176 4096 "/usr/bin/dbus-daemon"] cache0), sim_maps)) as E
    by (vm_compute; reflexivity).
  split; [|exact E].
  apply (user_maps_cache 7 cache0 sim_maps _ _ _) with (2 := E).
  unfold cache_ok, cache0. simpl. split_and!; try done; [constructor|unfold kMaxUserMapsCache; lia|].
  intros p. split; [by intros [? ?]|by intros ?%elem_of_nil].
Defined.

(** The batched addr2line lookup returns whatever addr2line prints or fails to
    print, and its table has an entry for exactly the requested addresses; each
    is a non-empty name without line break, so that it cannot break a line of the
    output file. *)
Theorem batch_symbols_total {W} `{OS W} l (w : W) :
  ∃ r w', BatchResolveUserSymbols l w = (Ret r, w') ∧ om_wf r ∧
    (∀ q, is_Some (om_get q r) ↔ q ∈ l) ∧
    (∀ q f, om_get q r = Some f → no_char ch_nl q.1 → 0 <= q.2 → name_ok f).
Proof. apply batch_resolve_ok. Qed.
