(* ===== verification/Batching.v ===== *)
(** Batched symbol lookup against one lookup per address (ebpf_loader.cpp,
    BatchResolveUserSymbols).

    [resolve_each] is the reference: addr2line is run for each requested address on
    its own, in the order of the requests, with the single-address case of the same
    code.  [Addr2line] states what addr2line documents: for each address of the
    command line one line with the function and one with the position, whatever the
    other addresses are.  The batched routine groups the requests by binary and
    sends at most 512 addresses a run; the two tables are equal. *)
From stdpp Require Import base strings list.
From Stdlib Require Import ZArith Lia Ascii.
From S2P Require Import Prelude CppString OrdMap OS Symbols.

Local Open Scope string_scope.

(** * The reference *)

Section Reference.
Context {W : Type} `{OS W}.

Fixpoint resolve_each (l : list (string * Z)) (result : symtab) : prog W symtab :=
  match l with
  | [] => mret result
  | (path, offset) :: l' => r ← resolve_chunk path [offset] result; resolve_each l' r
  end.
End Reference.

(** * addr2line *)

(** What addr2line prints for the addresses [os] of the binary [path]. *)
Definition a2l_text (func loc : string → Z → string) (path : string) (os : list Z) : string :=
  foldr (λ o acc, func path o +:+ nl +:+ loc path o +:+ nl +:+ acc) "" os.

(** A line that fits into the buffer of 512 bytes with its line break. *)
Definition short_line (s : string) : Prop := no_char ch_nl s ∧ (String.length s <= 510)%nat.

Class Addr2line (W : Type) `{OS W} := {
  a2l_func : string → Z → string;
  a2l_loc : string → Z → string;
  (** the binaries the shell passes on as they are and addr2line can read *)
  a2l_binary : string → Prop;
  a2l_popen path os (w : W) :
    a2l_binary path → os ≠ [] → (length os <= 512)%nat → Forall is_u64 os →
    os_popen (c_str (addr2line_cmd path os)) w = (Some (a2l_text a2l_func a2l_loc path os, 0), w);
  a2l_func_line path o : short_line (a2l_func path o);
  a2l_loc_line path o : short_line (a2l_loc path o);
}.

(** The name of an address, whatever else is asked for. *)
Definition symbol_name (func : string → Z → string) (q : string * Z) : string :=
  let f := trim_back is_crlf (c_str (func q.1 q.2 +:+ nl)) in
  if is_known f then f else sym_fallback q.1 q.2.

Definition set_names (func : string → Z → string) (l : list (string * Z)) (r : symtab) : symtab :=
  foldl (λ r q, om_set q (symbol_name func q) r) r l.

(** * Lemmas *)

Lemma fgets_line n line rest :
  no_char ch_nl line → (S (String.length line) < n)%nat →
  fgets n (line +:+ nl +:+ rest) = Some (line +:+ nl, rest).
Proof.
  intros Hno Hlen. unfold fgets.
  assert (∀ room, (String.length line < room)%nat →
    fgets_go room (line +:+ nl +:+ rest) = (line +:+ nl, rest)) as Hgo.
  { clear Hlen. induction line as [|a line IH]; intros [|room] Hr; simpl in Hr; try lia.
    - done.
    - apply no_char_cons in Hno as [Ha Hno]. rewrite !str_app_cons. cbn [fgets_go].
      destruct (ascii_dec a ch_nl); [done|]. by rewrite IH by (done || lia). }
  rewrite <-Hgo with (room := pred n) by lia. by destruct line.
Qed.

Lemma read_symbols_text func loc path os rest r :
  (∀ p o, short_line (func p o)) → (∀ p o, short_line (loc p o)) →
  read_symbols path os (a2l_text func loc path os +:+ rest) r = set_names func (map (pair path) os) r.
Proof.
  intros Hf Hl. revert r. induction os as [|o os IH]; intros r; [done|].
  cbn [read_symbols a2l_text foldr]. rewrite !str_app_assoc.
  destruct (Hf path o) as [Hf1 Hf2], (Hl path o) as [Hl1 Hl2].
  rewrite fgets_line by (done || lia). rewrite fgets_line by (done || lia). apply IH.
Qed.

Lemma set_names_app func l1 l2 r : set_names func (l1 ++ l2) r = set_names func l2 (set_names func l1 r).
Proof. apply foldl_app. Qed.

Lemma set_names_wf func l r : om_wf r → om_wf (set_names func l r).
Proof. revert r. induction l as [|q l IH]; intros r Hr; [done|]. by apply IH, om_set_wf. Qed.

Lemma set_names_get func l r q :
  om_get q (set_names func l r) = if decide (q ∈ l) then Some (symbol_name func q) else om_get q r.
Proof.
  induction l as [|q' l IH] using rev_ind.
  - by rewrite decide_False by apply not_elem_of_nil.
  - rewrite set_names_app. simpl. rewrite om_get_set, IH.
    repeat case_decide; set_solver.
Qed.

Section Equivalence.
Context {W : Type} `{Addr2line W}.

(** A request: a binary addr2line can read and a file offset of 64 bits. *)
Definition request_ok (q : string * Z) : Prop := a2l_binary q.1 ∧ is_u64 q.2.

Lemma resolve_chunk_names path os r (w : W) :
  os ≠ [] → (length os <= 512)%nat → Forall request_ok (map (pair path) os) →
  resolve_chunk path os r w = (Ret (set_names a2l_func (map (pair path) os) r), w).
Proof.
  intros Hne Hlen Hp. apply (proj1 (Forall_map _ _ _)) in Hp.
  assert (a2l_binary path) by (destruct os; [done|]; apply Forall_cons in Hp as [[Hb _] _]; exact Hb).
  assert (Forall is_u64 os) by (eapply Forall_impl; [exact Hp|]; by intros ? [??]).
  unfold resolve_chunk, popen, act, mbind, prog_bind. rewrite a2l_popen by done. simpl.
  rewrite <-(read_symbols_text a2l_func a2l_loc path os "" r a2l_func_line a2l_loc_line).
  by rewrite str_app_nil_r.
Qed.

Lemma resolve_chunks_names path cs r (w : W) :
  Forall (λ c, c ≠ [] ∧ (length c <= 512)%nat) cs → Forall request_ok (map (pair path) (concat cs)) →
  resolve_chunks path cs r w = (Ret (set_names a2l_func (map (pair path) (concat cs)) r), w).
Proof.
  intros Hcs. revert r. induction Hcs as [|c cs [Hne Hlen] _ IH]; intros r Hp; [done|].
  cbn [resolve_chunks concat] in *. rewrite map_app in Hp |- *. apply Forall_app in Hp as [Hc Hp].
  rewrite (prog_bind_step _ _ _ _ _ (resolve_chunk_names path c r w Hne Hlen Hc)), IH by done.
  by rewrite set_names_app.
Qed.

Lemma resolve_paths_names g r (w : W) :
  Forall request_ok (pairs_of g) →
  resolve_paths g r w = (Ret (set_names a2l_func (pairs_of g) r), w).
Proof.
  revert r. induction g as [|[path os] g IH]; intros r Hg; [done|]. cbn [resolve_paths].
  change (pairs_of ((path, os) :: g)) with (map (pair path) os ++ pairs_of g)%list in *.
  apply Forall_app in Hg as [Hos Hg].
  rewrite <-(chunks_concat 512 os) in Hos by lia.
  rewrite (prog_bind_step _ _ _ _ _ (resolve_chunks_names path (chunks 512 os) r w
    (chunks_shape 512 os ltac:(lia)) Hos)), IH by done.
  rewrite chunks_concat by lia. by rewrite <-set_names_app.
Qed.

Lemma resolve_each_names l r (w : W) :
  Forall request_ok l → resolve_each l r w = (Ret (set_names a2l_func l r), w).
Proof.
  intros Hl. revert r. induction Hl as [|[path o] l Hp _ IH]; intros r; [done|]. cbn [resolve_each].
  rewrite (prog_bind_step _ _ _ _ _ (resolve_chunk_names path [o] r w ltac:(done) ltac:(simpl; lia)
    (Forall_cons_2 _ _ _ Hp (Forall_nil_2 _)))). by rewrite IH.
Qed.

(** The two tables are the one that gives each request its own name. *)
Lemma batch_each_names l (w : W) :
  Forall request_ok l →
  ∃ t, BatchResolveUserSymbols l w = (Ret t, w) ∧ resolve_each l [] w = (Ret t, w) ∧
    om_wf t ∧ ∀ q, om_get q t = if decide (q ∈ l) then Some (symbol_name a2l_func q) else None.
Proof.
  intros Hl. exists (set_names a2l_func l []). rewrite resolve_each_names by done.
  assert (Forall request_ok (pairs_of (group_by_path l))) as Hg.
  { apply Forall_forall. intros q Hq. rewrite group_by_path_pairs in Hq. eapply Forall_forall; [exact Hl|exact Hq]. }
  unfold BatchResolveUserSymbols. rewrite resolve_paths_names by done.
  split_and!; [|done|apply set_names_wf; constructor|intros q; apply set_names_get].
  do 2 f_equal. apply om_ext; [apply set_names_wf; constructor..|]. intros q.
  rewrite !set_names_get. repeat case_decide; try done; by rewrite group_by_path_pairs in *.
Qed.
End Equivalence.


(** * A concrete addr2line

    The world of [sim] with an addr2line that knows the two functions of /bin/app.
    The addresses are read back from the command line. *)

Record a2l_sim := mkA2lSim { a2l_below : sim }.

Fixpoint cmd_addrs (fuel : nat) (s : string) : list Z :=
  match fuel, s with
  | S f, String " " (String "0" (String "x" r)) =>
      let '(v, _, r') := scan_digits 16 r 0 false in v :: cmd_addrs f r'
  | _, _ => []
  end.

Definition app_func (_ : string) (o : Z) : string :=
  if (o <? 4096)%Z then "main" else if (o <? 8192)%Z then "worker_loop" else "??".
Definition app_loc (_ : string) (o : Z) : string := if (o <? 8192)%Z then "app.c:7" else "??:0".

Definition app_head : string := "addr2line -e /bin/app -f".

Definition app_popen (cmd : string) (w : a2l_sim) : option (string * Z) * a2l_sim :=
  if String.prefix app_head cmd then
    let args := str_drop (String.length app_head) cmd in
    (Some (a2l_text app_func app_loc "/bin/app" (cmd_addrs (String.length args) args), 0), w)
  else (Some ("", 256), w).

Definition lift_sim {A} (f : sim → A * sim) (w : a2l_sim) : A * a2l_sim :=
  let '(a, w') := f (a2l_below w) in (a, mkA2lSim w').

#[global] Instance a2l_sim_os : OS a2l_sim := {|
  os_mkdirs p := lift_sim (os_mkdirs p);
  os_exists p w := os_exists p (a2l_below w);
  os_size p w := os_size p (a2l_below w);
  os_read p w := os_read p (a2l_below w);
  os_write p c := lift_sim (os_write p c);
  os_remove p := lift_sim (os_remove p);
  os_chmod p := lift_sim (os_chmod p);
  os_spawn r := lift_sim (os_spawn r);
  os_popen := app_popen;
  os_pipe_run a := lift_sim (os_pipe_run a);
  os_self_exe w := os_self_exe (a2l_below w);
  os_cwd w := os_cwd (a2l_below w);
  os_canonical p w := os_canonical p (a2l_below w);
  os_getenv v w := os_getenv v (a2l_below w);
  os_now w := os_now (a2l_below w);
  os_sleep d w := mkA2lSim (os_sleep d (a2l_below w));
|}.

(** Printing a 64-bit number takes at most 16 hexadecimal digits. *)
Lemma print_go_length fuel n acc k :
  0 <= n < 16 ^ Z.of_nat (S k) →
  (String.length (print_go fuel 16 n acc) <= S k + String.length acc)%nat.
Proof.
  revert n acc k. induction fuel as [|f IH]; intros n acc k Hn; cbn [print_go]; [lia|].
  destruct (Z.ltb_spec n 16); [simpl; lia|].
  destruct k as [|k]; [simpl in Hn; lia|].
  etransitivity; [apply (IH _ _ k)|simpl; lia].
  rewrite Nat2Z.inj_succ, Z.pow_succ_r in Hn by lia.
  split; [apply Z.div_pos; lia|apply Z.div_lt_upper_bound; lia].
Qed.

Lemma print_go_app fuel b n acc rest :
  print_go fuel b n acc +:+ rest = print_go fuel b n (acc +:+ rest).
Proof.
  revert n acc. induction fuel as [|f IH]; intros n acc; cbn [print_go]; [done|].
  destruct (n <? b)%Z; [done|]. by rewrite IH.
Qed.

Lemma str_take_all n s : (String.length s <= n)%nat → str_take n s = s.
Proof. revert n. induction s as [|a s IH]; intros [|n] Hl; simpl in *; try done; [lia|]. by rewrite IH by lia. Qed.

Lemma addr_arg o : is_u64 o → snprintf 32 (" 0x" +:+ to_hex o) = " 0x" +:+ to_hex o.
Proof.
  intros Ho. unfold snprintf. apply str_take_all. rewrite str_length_app. unfold to_hex, print_base.
  pose proof (print_go_length (S (Z.to_nat (Z.log2 o))) o "" 15) as Hlen.
  unfold is_u64 in Ho. simpl in *. lia.
Qed.

(** The part of the command line after the options. *)
Definition cmd_tail (os : list Z) : string :=
  foldr (λ o acc, " 0x" +:+ to_hex o +:+ acc) " 2>/dev/null" os.

Lemma addr2line_cmd_tail path os :
  Forall is_u64 os → addr2line_cmd path os = "addr2line -e " +:+ path +:+ " -f" +:+ cmd_tail os.
Proof.
  intros Hos. unfold addr2line_cmd. do 3 f_equal.
  induction Hos as [|o os Ho _ IH]; [done|]. cbn [foldr cmd_tail].
  by rewrite addr_arg, !str_app_assoc, IH by done.
Qed.

Lemma cmd_addrs_tail os fuel : (length os <= fuel)%nat → Forall is_u64 os → cmd_addrs fuel (cmd_tail os) = os.
Proof.
  intros Hf Hos. revert fuel Hf. induction Hos as [|o os Ho Hos IH]; intros fuel Hf; simpl in Hf.
  { by destruct fuel. }
  destruct fuel as [|fuel]; [lia|]. cbn [cmd_tail foldr]. fold (cmd_tail os).
  unfold to_hex, print_base. rewrite print_go_app. rewrite !str_app_cons. cbn [cmd_addrs].
  change ("" +:+ ?s) with s. rewrite scan_print_base by (unfold is_u64 in Ho; lia).
  assert (scan_digits 16 ("" +:+ cmd_tail os) o true = (o, true, cmd_tail os)) as ->.
  { by destruct os. }
  by rewrite IH by lia.
Qed.

Lemma cmd_tail_plain os c :
  (∀ d, 0 <= d < 36 → digit_char d ≠ c) → no_char c " 0x" → no_char c " 2>/dev/null" →
  Forall is_u64 os → no_char c (cmd_tail os).
Proof.
  intros Hd Hx Hend Hos. induction Hos as [|o os Ho _ IH]; [done|]. cbn [cmd_tail foldr].
  apply no_char_app. split; [done|]. apply no_char_app. split; [|done].
  apply print_base_no_char; [lia|unfold is_u64 in Ho; lia|done].
Qed.

Lemma cmd_tail_length os : (length os <= String.length (cmd_tail os))%nat.
Proof.
  induction os as [|o os IH]; [simpl; lia|]. cbn [cmd_tail foldr length]. fold (cmd_tail os).
  rewrite !str_length_app. simpl. lia.
Qed.

#[global] Instance a2l_sim_addr2line : Addr2line a2l_sim.
Proof.
  refine {| a2l_func := app_func; a2l_loc := app_loc; a2l_binary := λ p, p = "/bin/app" |}.
  - intros path os w -> _ _ Hos. rewrite addr2line_cmd_tail by done.
    rewrite c_str_id.
    2: { change ("addr2line -e " +:+ "/bin/app" +:+ " -f" +:+ cmd_tail os) with (app_head +:+ cmd_tail os).
         apply no_char_app. split; [done|]. apply cmd_tail_plain; try done.
         intros d Hd. pose proof (digit_char_val d Hd) as Hv. intros E. by rewrite E in Hv. }
    change ("addr2line -e " +:+ "/bin/app" +:+ " -f" +:+ cmd_tail os) with (app_head +:+ cmd_tail os).
    cbn [os_popen a2l_sim_os]. unfold app_popen.
    rewrite (proj2 (prefix_true _ _)) by eauto. rewrite str_drop_app.
    by rewrite cmd_addrs_tail by (auto using cmd_tail_length).
  - intros path o. unfold app_func. repeat case_match; (split; [done|simpl; lia]).
  - intros path o. unfold app_loc. repeat case_match; (split; [done|simpl; lia]).
Defined.

(** * Claims *)

(** C16: Wherever addr2line prints two lines per address, each short enough for the
    512-byte buffer, the batched lookup (grouped by binary, at most 512 addresses
    a run) and one run per address give the same table: it has an entry for each
    request and for nothing else, the name addr2line knows for that address, or
    file name and offset where it knows none. *)
Theorem batch_equals_each {W} `{Addr2line W} l (w : W) :
  Forall request_ok l →
  ∃ t, BatchResolveUserSymbols l w = (Ret t, w) ∧ resolve_each l [] w = (Ret t, w) ∧
    om_wf t ∧ ∀ q, om_get q t = if decide (q ∈ l) then Some (symbol_name a2l_func q) else None.
Proof. apply batch_each_names. Qed.

Lemma batch_equals_each_witness :
  let l := [("/bin/app", 5000); ("/bin/app", 16); ("/bin/app", 2 ^ 64 - 1)] in
  ∃ t, BatchResolveUserSymbols l (mkA2lSim sim0) = (Ret t, mkA2lSim sim0) ∧
    om_get ("/bin/app", 5000) t = Some "worker_loop" ∧
    om_get ("/bin/app", 2 ^ 64 - 1) t = Some "app+0xffffffffffffffff" ∧
    om_get ("/bin/app", 17) t = None.
Proof.
  intros l. destruct (batch_equals_each l (mkA2lSim sim0)) as (t & Hb & _ & _ & Hget).
  - repeat constructor; unfold is_u64; simpl; lia.
  - exists t. split; [exact Hb|]. rewrite !Hget. split_and!; vm_compute; reflexivity.
Defined.

(** A name of more than 510 characters (a C++ template) is read in two pieces: its
    second half is taken for the position line, and every later address of the run
    gets the wrong name; here the position of the first. *)
Definition long_name : string := foldr String "" (replicate 600 "t"%char).

Example long_name_shifts :
  let text := a2l_text (λ _ o, if (o =? 1)%Z then long_name else "main") (λ _ o, "app.cpp:" +:+ to_string o) "/bin/app" [1; 2] in
  om_get ("/bin/app", 2) (read_symbols "/bin/app" [1; 2] text []) = Some "app.cpp:1".
Proof. vm_compute. reflexivity. Qed.
