(* ===== verification/Collapsed.v ===== *)
(** Collapsed stacks: the map from a folded stack to its sample count
    ([std::map<std::string, uint64_t>]) that EbpfLoader::poll and
    ContinuousProfiler build, the text file both write ("stack count" lines), and
    the reader ContinuousProfiler::merge_collapsed. *)
From stdpp Require Import base strings list.
From Stdlib Require Import ZArith Lia Ascii.
From S2P Require Import Prelude CppString OrdMap.

Local Open Scope string_scope.

Definition stacks : Type := list (string * Z).

(** [folded[stack] += count] (unsigned 64 bit) *)
Definition add_count (stack : string) (count : Z) (m : stacks) : stacks :=
  om_upd stack (λ v, to_u64 (default 0 v + count)) m.

Definition add_counts (l : list (string * Z)) (m : stacks) : stacks :=
  foldl (λ m p, add_count p.1 p.2 m) m l.

(** [out << stack << " " << count << "\n"] *)
Definition collapsed_line (p : string * Z) : string := p.1 +:+ " " +:+ to_string p.2.
Definition collapsed_text (m : stacks) : string :=
  foldr (λ p acc, collapsed_line p +:+ nl +:+ acc) "" m.

(** The body of the loop of [merge_collapsed]; [None] is [continue], also for what
    [catch (...)] catches. *)
Definition parse_collapsed (line : string) : option (string * Z) :=
  if bool_decide (line = "") then None else
  match rfind_char " "%char line with
  | None => None
  | Some last_space =>
      match substr line (S last_space) ≫= stoull with
      | Ret count => Some (str_take last_space line, count)
      | _ => None
      end
  end.

Definition merge_text (content : string) (m : stacks) : stacks :=
  foldl (λ m line, match parse_collapsed line with
                   | Some (s, c) => add_count s c m
                   | None => m end) m (getlines ch_nl content).

(** ** Well-formed maps *)

Definition stacks_ok (m : stacks) : Prop :=
  om_wf m ∧ Forall (λ p, no_char ch_nl p.1 ∧ is_u64 p.2) m.

(** The samples of a map. *)
Definition total (m : stacks) : Z := foldr (λ p acc, p.2 + acc) 0 m.

Lemma total_cons p m : total (p :: m) = p.2 + total m.
Proof. done. Qed.

Lemma total_app l1 l2 : total (l1 ++ l2)%list = total l1 + total l2.
Proof. induction l1 as [|[s c] l1 IH]; simpl; [done|]. rewrite IH. lia. Qed.

Lemma to_u64_add_l a b : to_u64 (to_u64 a + b) = to_u64 (a + b).
Proof. unfold to_u64, wrap_u. apply Zplus_mod_idemp_l. Qed.

Lemma to_u64_add_r a b : to_u64 (a + to_u64 b) = to_u64 (a + b).
Proof. unfold to_u64, wrap_u. apply Zplus_mod_idemp_r. Qed.

Lemma add_count_wf s c m : om_wf m → om_wf (add_count s c m).
Proof. apply om_upd_wf. Qed.

Lemma add_counts_wf l m : om_wf m → om_wf (add_counts l m).
Proof. revert m. induction l as [|p l IH]; simpl; auto using add_count_wf. Qed.

Lemma add_count_ok s c m : no_char ch_nl s → stacks_ok m → stacks_ok (add_count s c m).
Proof.
  intros Hs [Hwf Hall]. split; [by apply add_count_wf|]. unfold add_count. clear Hwf.
  induction m as [|[s' c'] m IH]; cbn [om_upd].
  - apply Forall_singleton. split; [done|apply to_u64_range].
  - pose proof Hall as [? ?]%Forall_cons. destruct (ltb s s').
    + apply Forall_cons. split; [|done]. split; [done|apply to_u64_range].
    + destruct (ltb s' s); constructor; auto. simpl in *. split; [tauto|apply to_u64_range].
Qed.

(** Samples are neither lost nor made up, modulo 2^64. *)
Lemma total_add_count s c m : to_u64 (total (add_count s c m)) = to_u64 (total m + c).
Proof.
  unfold add_count. induction m as [|[s' c'] m IH]; cbn [om_upd].
  - rewrite total_cons. cbn [fst snd]. by rewrite to_u64_add_l, Z.add_0_r.
  - destruct (ltb s s'); [|destruct (ltb s' s)]; rewrite !total_cons; cbn [fst snd].
    + rewrite to_u64_add_l. f_equal. simpl. lia.
    + rewrite <-to_u64_add_r, IH, to_u64_add_r. f_equal. lia.
    + rewrite to_u64_add_l. f_equal. simpl. lia.
Qed.

Lemma total_add_counts l m : to_u64 (total (add_counts l m)) = to_u64 (total m + total l).
Proof.
  revert m. induction l as [|[s c] l IH]; intros m; [by rewrite Z.add_0_r|].
  change (add_counts ((s, c) :: l) m) with (add_counts l (add_count s c m)).
  rewrite IH, <-to_u64_add_l. cbn [fst snd]. rewrite total_add_count, to_u64_add_l, total_cons.
  cbn [fst snd]. f_equal. lia.
Qed.

(** The count of one stack: the sum over its entries. *)
Definition count_of (s : string) (l : list (string * Z)) : Z :=
  total (filter (λ p, p.1 = s) l).

Lemma add_counts_get s l m :
  om_get s (add_counts l m) =
    match filter (λ p, p.1 = s) l with
    | [] => om_get s m
    | _ => Some (to_u64 (default 0 (om_get s m) + count_of s l))
    end.
Proof.
  revert m. induction l as [|[s' c] l IH]; intros m; [done|].
  change (add_counts ((s', c) :: l) m) with (add_counts l (add_count s' c m)). rewrite IH.
  unfold count_of. rewrite filter_cons. cbn [fst snd]. unfold add_count.
  case_decide as E; [subst s'|].
  - rewrite om_get_upd_eq. simpl. destruct (filter _ l) as [|q f]; [simpl; do 2 f_equal; lia|].
    rewrite to_u64_add_l. do 2 f_equal. unfold total. simpl. lia.
  - by rewrite om_get_upd_ne.
Qed.

(** ** The file *)

Lemma collapsed_text_lines m : collapsed_text m = unlines ch_nl (map collapsed_line m).
Proof.
  induction m as [|p m IH]; [done|]. unfold collapsed_text in *. cbn [foldr map unlines].
  rewrite IH. done.
Qed.

Lemma to_string_nonneg z : 0 <= z → to_string z = print_base 10 z.
Proof. unfold to_string. destruct (Z.ltb_spec z 0); [lia|done]. Qed.

Lemma collapsed_line_no_nl p : no_char ch_nl p.1 → is_u64 p.2 → no_char ch_nl (collapsed_line p).
Proof.
  intros Hs [Hc _]. unfold collapsed_line. apply no_char_app. split; [done|].
  apply no_char_cons. split; [done|]. rewrite to_string_nonneg by done. auto with drop.
Qed.

(** A written line is read back as it was. *)
Lemma parse_collapsed_line p : is_u64 p.2 → parse_collapsed (collapsed_line p) = Some p.
Proof.
  destruct p as [s c]. simpl. intros Hc. unfold parse_collapsed, collapsed_line. cbn [fst snd].
  change (" " +:+ to_string c) with (String " "%char (to_string c)).
  rewrite bool_decide_eq_false_2 by (by intros [_ ?]%str_app_eq_nil).
  assert (no_char " "%char (to_string c)) as Hsp
    by (rewrite to_string_nonneg by apply Hc; apply print_base_no_space; apply Hc).
  rewrite rfind_app by done. unfold substr.
  rewrite bool_decide_eq_true_2 by (rewrite str_length_app; simpl; lia).
  rewrite str_drop_app_S. simpl. rewrite stoull_to_string by done. by rewrite str_take_app.
Qed.

(** The lines may be in any order. *)
Lemma merge_text_lines m m0 :
  Forall (λ p, no_char ch_nl p.1 ∧ is_u64 p.2) m →
  merge_text (collapsed_text m) m0 = add_counts m m0.
Proof.
  intros Hall. unfold merge_text. rewrite collapsed_text_lines, getlines_unlines.
  - revert m0. induction Hall as [|p m [_ Hc] Hall IH]; intros m0; [done|].
    cbn [map foldl add_counts]. rewrite parse_collapsed_line by done.
    destruct p as [s c]. by rewrite IH.
  - apply Forall_map. eapply Forall_impl; [exact Hall|]. intros p [? ?]. by apply collapsed_line_no_nl.
Qed.

Lemma merge_text_collapsed m m0 : stacks_ok m → merge_text (collapsed_text m) m0 = add_counts m m0.
Proof. intros [_ Hall]. by apply merge_text_lines. Qed.

(** The entries of one stack in a map: at most one. *)
Lemma om_filter_key s (m : list (string * Z)) :
  om_wf m → filter (λ p, p.1 = s) m = match om_get s m with Some c => [(s, c)] | None => [] end.
Proof.
  induction m as [|[s' c'] m IH]; [done|]. cbn [om_wf om_get]. intros [Hall Hwf].
  rewrite filter_cons. cbn [fst]. case_decide as E.
  - subst s'. rewrite ltb_irrefl. f_equal. rewrite IH by done. by rewrite om_get_below.
  - destruct (ltb s s') eqn:E1.
    + rewrite IH by done. rewrite om_get_below; [done|].
      eapply Forall_impl; [exact Hall|]. intros q Hq. by eapply ltb_trans.
    + destruct (ltb s' s) eqn:E2; [by apply IH|].
      exfalso. apply E. symmetry. by apply ltb_total.
Qed.

Lemma add_counts_map s m m0 :
  om_wf m → om_get s (add_counts m m0) =
    match om_get s m with
    | None => om_get s m0
    | Some c => Some (to_u64 (default 0 (om_get s m0) + c))
    end.
Proof.
  intros Hwf. rewrite add_counts_get. unfold count_of. rewrite om_filter_key by done.
  destruct (om_get s m); [|done]. rewrite total_cons. cbn [snd]. by rewrite Z.add_0_r.
Qed.

(** Adding a well-formed map to the empty one gives it back. *)
Lemma add_counts_self m : stacks_ok m → add_counts m [] = m.
Proof.
  intros [Hwf Hall]. apply om_ext; [by apply add_counts_wf|done|]. intros s.
  rewrite add_counts_map by done. destruct (om_get s m) as [c|] eqn:E; [|done]. f_equal.
  apply to_u64_id. apply om_elem_of in E; [|done]. rewrite Forall_forall in Hall.
  by apply (Hall (s, c)).
Qed.

(** * Claims *)

(** C28: Writing a map of folded stacks and merging the file back: into an empty
    map it restores the map exactly; into any map it adds the counts stack by
    stack (modulo 2^64) and leaves the other stacks alone, so that no sample is
    lost; stack names may contain spaces, only line breaks are excluded. *)
Theorem collapsed_file_roundtrip m m0 :
  stacks_ok m →
  merge_text (collapsed_text m) [] = m ∧
  (∀ s, om_get s (merge_text (collapsed_text m) m0) =
     match om_get s m with
     | None => om_get s m0
     | Some c => Some (to_u64 (default 0 (om_get s m0) + c))
     end) ∧
  to_u64 (total (merge_text (collapsed_text m) m0)) = to_u64 (total m0 + total m).
Proof.
  intros Hm. rewrite !merge_text_collapsed by done. split_and!.
  - by apply add_counts_self.
  - intros s. by apply add_counts_map, Hm.
  - apply total_add_counts.
Qed.

Lemma collapsed_file_roundtrip_witness :
  merge_text (collapsed_text [("a b;c", 3); ("main;f", 4)]) [] = [("a b;c", 3); ("main;f", 4)].
Proof.
  apply (collapsed_file_roundtrip [("a b;c", 3); ("main;f", 4)] []). split.
  - simpl. split; [|done]. by repeat constructor.
  - apply Forall_cons. split; [by split|]. apply Forall_singleton. by split.
Defined.
