(* ===== verification/EbpfLoader.v ===== *)
(** The user-space side of the off-CPU profiler: EbpfLoader (ebpf_loader.cpp) and
    EbpfProfiler (ebpf_profiler.cpp).

    libbpf and the kernel maps are an interface, [BPF]: every call may change the
    world, so that switches can be recorded between two of them.  [QuietMaps]
    states what the kernel documents for maps that nobody else writes meanwhile;
    theorems on what is read name it. *)
From stdpp Require Import base strings list countable.
From Stdlib Require Import ZArith Lia Ascii.
From S2P Require Import Prelude CppString OrdMap OS Symbols Collapsed Offcpu Proto Profilers.

Local Open Scope string_scope.

(** * Keys of the counts map *)

(** [stack_key::operator<] *)
Definition stack_key_lt (a b : stack_key) : bool :=
  if bool_decide (sk_pid a ≠ sk_pid b) then bool_decide (sk_pid a < sk_pid b) else
  if bool_decide (sk_tgid a ≠ sk_tgid b) then bool_decide (sk_tgid a < sk_tgid b) else
  if bool_decide (user_stack_id a ≠ user_stack_id b)
  then bool_decide (user_stack_id a < user_stack_id b) else
  bool_decide (kern_stack_id a < kern_stack_id b).

Lemma stack_key_lt_spec a b :
  stack_key_lt a b = true ↔
  sk_pid a < sk_pid b ∨ (sk_pid a = sk_pid b ∧
    (sk_tgid a < sk_tgid b ∨ (sk_tgid a = sk_tgid b ∧
      (user_stack_id a < user_stack_id b ∨ (user_stack_id a = user_stack_id b ∧
        kern_stack_id a < kern_stack_id b))))).
Proof. unfold stack_key_lt. repeat case_bool_decide; lia. Qed.

#[global] Instance stack_key_ord : StrictOrd stack_key.
Proof.
  refine {| ltb := stack_key_lt |}.
  - intros a. destruct (stack_key_lt a a) eqn:E; [|done]. apply stack_key_lt_spec in E. lia.
  - intros a b c. rewrite !stack_key_lt_spec. lia.
  - intros [a1 a2 a3 a4] [b1 b2 b3 b4] H1 H2.
    assert (¬ stack_key_lt (mkSK a1 a2 a3 a4) (mkSK b1 b2 b3 b4) = true) as N1 by congruence.
    assert (¬ stack_key_lt (mkSK b1 b2 b3 b4) (mkSK a1 a2 a3 a4) = true) as N2 by congruence.
    rewrite stack_key_lt_spec in N1, N2. simpl in *. f_equal; lia.
Defined.

(** * libbpf and the kernel's maps *)

Class BPF (W : Type) := {
  (** [bpf_object__open]: the error text or an object. *)
  bpf_object_open : string → W → (string + Z) * W;
  (** [bpf_object__load], [bpf_map_update_elem]: [None] is success. *)
  bpf_object_load : Z → W → option string * W;
  bpf_object_close : Z → W → W;
  bpf_find_program : Z → string → W → option Z;
  bpf_find_map : Z → string → W → option Z;
  bpf_map_fd : Z → W → Z;
  bpf_program_attach : Z → W → (string + Z) * W;
  bpf_link_destroy : Z → W → W;
  (** the target_pid map: file descriptor, key, value *)
  target_pid_update : Z → Z → Z → W → option string * W;
  (** the counts map *)
  counts_next_key : Z → option stack_key → W → option stack_key * W;
  counts_lookup : Z → stack_key → W → option Z * W;
  counts_delete : Z → stack_key → W → W;
  (** how many rounds of the loop over its keys are followed *)
  counts_rounds : W → nat;
  (** the stack_traces map: the words of the value *)
  stack_lookup : Z → Z → W → option (list Z) * W;
  stack_delete : Z → Z → W → W;
  (** the globals of ebpf_loader.cpp *)
  user_maps_get : W → maps_cache;
  user_maps_put : maps_cache → W → W;
}.

Definition prod_bpf {W X} `{BPF W} : BPF (W * X) := {|
  bpf_object_open p := below (bpf_object_open p);
  bpf_object_load o := below (bpf_object_load o);
  bpf_object_close o w := (bpf_object_close o w.1, w.2);
  bpf_find_program o n w := bpf_find_program o n w.1;
  bpf_find_map o n w := bpf_find_map o n w.1;
  bpf_map_fd m w := bpf_map_fd m w.1;
  bpf_program_attach p := below (bpf_program_attach p);
  bpf_link_destroy l w := (bpf_link_destroy l w.1, w.2);
  target_pid_update fd k v := below (target_pid_update fd k v);
  counts_next_key fd p := below (counts_next_key fd p);
  counts_lookup fd k := below (counts_lookup fd k);
  counts_delete fd k w := (counts_delete fd k w.1, w.2);
  counts_rounds w := counts_rounds w.1;
  stack_lookup fd id := below (stack_lookup fd id);
  stack_delete fd id w := (stack_delete fd id w.1, w.2);
  user_maps_get w := user_maps_get w.1;
  user_maps_put c w := (user_maps_put c w.1, w.2);
|}.

(** [libbpf_print_fn]: the line that is logged (at INFO) for a message; [text] is what
    [vsnprintf] prints.  No level of the enumeration reaches the last branch. *)
Inductive libbpf_print_level := LIBBPF_WARN | LIBBPF_INFO | LIBBPF_DEBUG.

Definition libbpf_print_fn (level : libbpf_print_level) (text : string) : option string :=
  let buf := trim_back is_crlf (c_str (snprintf 512 text)) in
  match level with
  | LIBBPF_DEBUG => None
  | LIBBPF_WARN | LIBBPF_INFO => Some ("libbpf: " +:+ buf)
  end.

(** * State of a loader *)

Record Impl := mkImpl {
  obj : option Z;
  bpf_prog : option Z;
  link : option Z;
  counts_map : option Z;
  stack_map : option Z;
  target_pid_map : option Z;
  counts_fd : Z;
  stack_fd : Z;
  target_pid_fd : Z;
  loaded : bool;
  attached : bool;
}.
Definition impl0 : Impl := mkImpl None None None None None None (-1) (-1) (-1) false false.

Section Loader.
Context {W : Type} `{OS W} `{BPF W}.

(** Every operation: success, the error text, the state. *)
Definition lres : Type := bool * string * Impl.

Definition set_obj (o : option Z) (i : Impl) : Impl :=
  mkImpl o (bpf_prog i) (link i) (counts_map i) (stack_map i) (target_pid_map i) (counts_fd i)
    (stack_fd i) (target_pid_fd i) (loaded i) (attached i).

(** [bpf_object__close(impl_->obj); impl_->obj = nullptr; return false;] *)
Definition close_failed (o : Z) (e : string) (i : Impl) : prog W lres :=
  modify (bpf_object_close o);;
  mret (false, e, set_obj None i).

Definition set_prog (p : option Z) (i : Impl) : Impl :=
  mkImpl (obj i) p (link i) (counts_map i) (stack_map i) (target_pid_map i) (counts_fd i)
    (stack_fd i) (target_pid_fd i) (loaded i) (attached i).
Definition set_maps (c s t : option Z) (i : Impl) : Impl :=
  mkImpl (obj i) (bpf_prog i) (link i) c s t (counts_fd i) (stack_fd i) (target_pid_fd i)
    (loaded i) (attached i).

Definition load (bpf_o_path err : string) (i : Impl) : prog W lres :=
  if loaded i then mret (false, "BPF object already loaded", i) else
  opened ← act (bpf_object_open (c_str bpf_o_path));
  match opened with
  | inl e =>
      mret (false, "Failed to open BPF object: " +:+ bpf_o_path +:+ " (" +:+ e +:+ ")", set_obj None i)
  | inr o =>
      let i1 := set_obj (Some o) i in
      l ← act (bpf_object_load o);
      match l with Some e => close_failed o ("Failed to load BPF object: " +:+ e) i1 | None =>
      p ← gets (bpf_find_program o "trace_sched_switch");
      let i2 := set_prog p i1 in
      match p with
      | None => close_failed o "Failed to find BPF program 'trace_sched_switch'" i2
      | Some _ =>
          c ← gets (bpf_find_map o "counts");
          s ← gets (bpf_find_map o "stack_traces");
          t ← gets (bpf_find_map o "target_pid");
          let i3 := set_maps c s t i2 in
          match c, s with
          | Some cm, Some sm =>
              cfd ← gets (bpf_map_fd cm);
              sfd ← gets (bpf_map_fd sm);
              tfd ← (match t with Some tm => gets (bpf_map_fd tm) | None => mret (target_pid_fd i3) end);
              mret (true, err, mkImpl (obj i3) (bpf_prog i3) (link i3) c s t cfd sfd tfd true (attached i3))
          | _, _ => close_failed o "Failed to find required BPF maps (counts, stack_traces)" i3
          end
      end end
  end.

Definition set_link (l : option Z) (a : bool) (i : Impl) : Impl :=
  mkImpl (obj i) (bpf_prog i) l (counts_map i) (stack_map i) (target_pid_map i) (counts_fd i)
    (stack_fd i) (target_pid_fd i) (loaded i) a.

Definition attach (target_pid : Z) (err : string) (i : Impl) : prog W lres :=
  if negb (loaded i) then mret (false, "BPF object not loaded", i) else
  if attached i then mret (false, "Already attached", i) else
  bad ← (if bool_decide (0 < target_pid) && bool_decide (0 <= target_pid_fd i)
         then act (target_pid_update (target_pid_fd i) 0 (to_u32 target_pid)) else mret None);
  match bad with Some e => mret (false, "Failed to set target PID filter: " +:+ e, i) | None =>
  match bpf_prog i with
  | None => lift (UB "bpf_program__attach of a null program")
  | Some p =>
      l ← act (bpf_program_attach p);
      match l with
      | inl e => mret (false, "Failed to attach BPF program: " +:+ e, set_link None (attached i) i)
      | inr ln => mret (true, err, set_link (Some ln) true i)
      end
  end end.

Definition detach (i : Impl) : prog W Impl :=
  (match link i with Some l => modify (bpf_link_destroy l) | None => mret tt end);;
  mret (set_link None false i).

Definition unload (i : Impl) : prog W Impl :=
  (match obj i with Some o => modify (bpf_object_close o) | None => mret tt end);;
  mret (mkImpl None (bpf_prog i) (link i) (counts_map i) (stack_map i) (target_pid_map i)
    (-1) (-1) (-1) false (attached i)).

(** The destructor. *)
Definition destroy (i : Impl) : prog W unit :=
  i1 ← detach i; unload i1;; mret tt.

(** * poll *)

(** What phase 1 collects: [all_keys], [key_counts], [used_stack_ids]. *)
Record collected := mkCollected {
  all_keys : list stack_key;
  key_counts : list (stack_key * Z);
  used_stack_ids : list (Z * unit);
}.
Definition collected0 : collected := mkCollected [] [] [].

Definition use_id (id : Z) (ids : list (Z * unit)) : list (Z * unit) :=
  if bool_decide (0 <= id) then om_set id tt ids else ids.

Definition add_key (k : stack_key) (count : Z) (a : collected) : collected :=
  mkCollected (all_keys a ++ [k])%list (om_set k count (key_counts a))
    (use_id (user_stack_id k) (use_id (kern_stack_id k) (used_stack_ids a))).

(** Phase 1, the [while (true)] over [bpf_map_get_next_key]; [prev] is [None] on the
    first round.  The source gives the loop no bound, and the probe can go on adding
    keys: it is followed for [fuel] rounds, whatever their number, and has no result when
    it has not ended by then. *)
Fixpoint collect_keys (fuel : nat) (fd : Z) (prev : option stack_key) (a : collected) :
    prog W collected :=
  match fuel with
  | O => lift (UB "the keys have not ended")
  | S fuel' =>
      nk ← act (counts_next_key fd prev);
      match nk with
      | None => mret a
      | Some k =>
          c ← act (counts_lookup fd k);
          match c with
          | None | Some 0 => collect_keys fuel' fd (Some k) a
          | Some n => collect_keys fuel' fd (Some k) (add_key k n a)
          end
      end
  end.

(** The loop [for (i = 0; i < 64 && stack[i] != 0; i++)] over a zeroed buffer of 64
    words the value was copied to. *)
Fixpoint frames_upto (n : nat) (v : list Z) : list Z :=
  match n, v with
  | S n', a :: v' => if bool_decide (a = 0) then [] else a :: frames_upto n' v'
  | _, _ => []
  end.

#[global] Arguments frames_upto : simpl never.

(** [ReadUserMaps] on the global cache. *)
Definition cached_maps (pid : Z) : prog W (list UserSym) :=
  c ← gets user_maps_get;
  r ← ReadUserMaps pid c;
  modify (user_maps_put r.2);;
  mret r.1.

(** Phase 2: the user stacks, and the addresses to resolve. *)
Definition wanted (maps : list UserSym) (addrs : list Z) : list (string * Z) :=
  omap (λ a, (λ m, (us_path m, file_offset a m)) <$> first_cover a maps) addrs.

Definition user_stacks : Type := list ((Z * Z) * list Z).

Fixpoint collect_stacks (sfd : Z) (keys : list stack_key) (us : user_stacks)
    (todo : list (string * Z)) : prog W (user_stacks * list (string * Z)) :=
  match keys with
  | [] => mret (us, todo)
  | k :: keys' =>
      if bool_decide (0 <= user_stack_id k) then
        v ← act (stack_lookup sfd (user_stack_id k));
        match v with
        | None => collect_stacks sfd keys' us todo
        | Some v =>
            let addrs := frames_upto 64 v in
            maps ← cached_maps (sk_tgid k);
            collect_stacks sfd keys' (om_set (sk_tgid k, user_stack_id k) addrs us)
              (todo ++ wanted maps addrs)%list
        end
      else collect_stacks sfd keys' us todo
  end.

(** [std::reverse], then join with ";". *)
Definition push_frame (s f : string) : string :=
  (if bool_decide (s = "") then s else s +:+ ";") +:+ f.
Definition push_frames (s : string) (frames : list string) : string :=
  foldl push_frame s (reverse frames).

Fixpoint resolve_user (pid : Z) (addrs : list Z) (syms : symtab) : prog W (list string) :=
  match addrs with
  | [] => mret []
  | a :: addrs' =>
      c ← gets user_maps_get;
      r ← ResolveUserFrame pid a syms c;
      modify (user_maps_put r.2);;
      fs ← resolve_user pid addrs' syms;
      mret (r.1 :: fs)
  end.

(** Phase 3, the body of the loop up to [folded[stack_str] += count]. *)
Definition render_stack (sfd : Z) (ksyms : list (Z * string)) (us : user_stacks) (syms : symtab)
    (k : stack_key) : prog W string :=
  s1 ← (if bool_decide (0 <= kern_stack_id k) then
          v ← act (stack_lookup sfd (kern_stack_id k));
          mret match v with
               | None => ""
               | Some v => push_frames "" (ResolveKsym ksyms <$> frames_upto 64 v)
               end
        else mret "");
  s2 ← (if bool_decide (0 <= user_stack_id k) then
          match om_get (sk_tgid k, user_stack_id k) us with
          | None => mret s1
          | Some addrs => fs ← resolve_user (sk_tgid k) addrs syms; mret (push_frames s1 fs)
          end
        else mret s1);
  mret (if bool_decide (s2 = "") then "[unknown]" else s2).

Fixpoint fold_stacks (sfd : Z) (ksyms : list (Z * string)) (us : user_stacks) (syms : symtab)
    (counts : list (stack_key * Z)) (keys : list stack_key) (folded : stacks) : prog W stacks :=
  match keys with
  | [] => mret folded
  | k :: keys' =>
      s ← render_stack sfd ksyms us syms k;
      fold_stacks sfd ksyms us syms counts keys' (add_count s (default 0 (om_get k counts)) folded)
  end.

(** Phase 5. *)
Definition cleanup (cfd sfd : Z) (a : collected) : prog W unit :=
  modify (λ w, foldl (λ w k, counts_delete cfd k w) w (all_keys a));;
  modify (λ w, foldl (λ w id, stack_delete sfd id.1 w) w (used_stack_ids a)).

(** Phases 1 to 3: what was collected and the folded stacks. *)
Definition sample_maps (i : Impl) : prog W (collected * stacks) :=
  ksyms ← ReadKallsyms;
  rounds ← gets counts_rounds;
  a ← collect_keys rounds (counts_fd i) None collected0;
  st ← collect_stacks (stack_fd i) (all_keys a) [] [];
  let '(us, todo) := st in
  syms ← BatchResolveUserSymbols todo;
  folded ← fold_stacks (stack_fd i) ksyms us syms (key_counts a) (all_keys a) [];
  mret (a, folded).

Definition poll (duration_sec : Z) (output_path err : string) (i : Impl) : prog W (bool * string) :=
  if negb (attached i) then mret (false, "Not attached") else
  modify (os_sleep duration_sec);;
  r ← sample_maps i;
  let '(a, folded) := r in
  opened ← write_file output_path (collapsed_text folded);
  if negb opened then mret (false, "Failed to open output file: " +:+ output_path) else
  cleanup (counts_fd i) (stack_fd i) a;;
  mret (true, err).

(** * EbpfProfiler *)

(** [path / rest] for a relative [rest] *)
Definition path_div (path rest : string) : string :=
  if bool_decide (path = "") then rest
  else if bool_decide (rfind_char "/"%char path = Some (pred (String.length path)))
  then path +:+ rest else path +:+ "/" +:+ rest.

Definition ebpf_candidates : prog W (list string) :=
  cwd ← gets os_cwd;
  exe ← gets os_self_exe;
  mret ((match exe with
         | None | Some "" => []
         | Some e => [parent_path (str_take 4095 e) +:+ "/../common/bpf/offcpu.bpf.o"]
         end) ++
        ["/opt/drop/bpf/offcpu.bpf.o"; path_div cwd "common/bpf/offcpu.bpf.o";
         "/root/Drop/drop/common/bpf/offcpu.bpf.o"])%list.

(** The body of [record] between the construction and the destruction of [loader]:
    the result of [record], and the loader as it is then.  When [create_directories] or
    [file_size] throws, nothing in the agent catches the exception: the process ends in
    [std::terminate] without unwinding, and the destructor does not run. *)
Definition ebpf_session (path : string) (pid duration : Z) (output_dir : string) (st : rstate) :
    prog W (bool * rstate * Impl) :=
  l ← load path (error_msg st) impl0;
  let '(ok, e, i) := l in
  if negb ok then mret (false, set_err e st, i) else
  at_ ← attach pid e i;
  let '(ok, e, i) := at_ in
  if negb ok then mret (false, set_err e st, i) else
  create_directories output_dir;;
  let output_path := output_dir +:+ "/collapsed_ebpf.txt" in
  p ← poll duration output_path e i;
  let '(ok, e) := p in
  i1 ← detach i;
  i2 ← unload i1;
  if (ok : bool) then
    fs_gets (os_size output_path);;
    mret (true, mkR e ["collapsed_ebpf.txt"], i2)
  else mret (false, set_err e st, i2).

Definition ebpf_record (t : TaskDesc) (output_dir : string) (st : rstate) : prog W (bool * rstate) :=
  let duration := perf_duration t in
  let pid := pid (sample_argv t) in
  cs ← ebpf_candidates;
  c ← first_existing cs;
  match c with
  | None => fail_with "Cannot find offcpu.bpf.o (searched standard paths)" st
  | Some path =>
      r ← ebpf_session path pid duration output_dir st;
      let '(ok, st', i) := r in
      destroy i;;
      mret (ok, st')
  end.

Definition EbpfProfiler : IProfiler W := mkIProfiler ebpf_record 3.
End Loader.

(** * The contract of a profiler *)

Section Contract.
Context {W : Type} `{OS W} `{BPF W}.

(** Following the loop over the keys for longer does not change where it has ended. *)
Lemma collect_keys_more n m fd prev a (w : W) r w' :
  collect_keys n fd prev a w = (Ret r, w') → collect_keys (n + m) fd prev a w = (Ret r, w').
Proof.
  revert prev a w. induction n as [|n IH]; intros prev a w; [done|]. cbn [collect_keys Nat.add].
  unfold mbind, prog_bind, act. destruct (counts_next_key fd prev w) as [[k|] w1]; [|done].
  destruct (counts_lookup fd k w1) as [[[|c|c]|] w2]; apply IH.
Qed.

Lemma load_false path err i (w : W) e i' w' :
  load path err i w = (Ret (false, e, i'), w') → e ≠ "".
Proof.
  unfold load, close_failed. intros Hr.
  prog_inv; try done; try (by intros [? _]%str_app_eq_nil).
Qed.

Lemma attach_false p err i (w : W) e i' w' :
  attach p err i w = (Ret (false, e, i'), w') → e ≠ "".
Proof. unfold attach. intros Hr. prog_inv; try done; by intros [? _]%str_app_eq_nil. Qed.

Lemma poll_false d path err i (w : W) e w' :
  poll d path err i w = (Ret (false, e), w') → e ≠ "".
Proof. unfold poll. intros Hr. prog_inv; try done; by intros [? _]%str_app_eq_nil. Qed.

Lemma session_result path pid d dir st (w : W) ok st' i w' :
  ebpf_session path pid d dir st w = (Ret (ok, st', i), w') →
  if (ok : bool) then collected_files st' = ["collapsed_ebpf.txt"] else error_msg st' ≠ "".
Proof.
  unfold ebpf_session. intros Hr.
  apply prog_bind_Ret in Hr as ([[ok1 e1] i1] & w1 & Hl & Hr).
  destruct ok1; simpl in Hr; [|apply mret_Ret in Hr as [? ?]; simplify_eq; simpl; eauto using load_false].
  apply prog_bind_Ret in Hr as ([[ok2 e2] i2] & w2 & Ha & Hr).
  destruct ok2; simpl in Hr; [|apply mret_Ret in Hr as [? ?]; simplify_eq; simpl; eauto using attach_false].
  apply prog_bind_Ret in Hr as ([] & w3 & _ & Hr). apply prog_bind_Ret in Hr as ([ok3 e3] & w4 & Hp & Hr).
  prog_inv; simpl; eauto using poll_false.
Qed.

#[global] Instance EbpfProfiler_spec : ProfilerSpec (W:=W) EbpfProfiler.
Proof.
  assert (∀ t dir st (w : W) ok st' w', ebpf_record t dir st w = (Ret (ok, st'), w') →
    if (ok : bool) then collected_files st' = ["collapsed_ebpf.txt"] else error_msg st' ≠ "") as Hall.
  { intros t dir st w ok st' w'. unfold ebpf_record, fail_with. intros Hr. prog_inv.
    - by eapply session_result.
    - done. }
  split; intros t dir st w st' w' Hr; apply (Hall t dir st w) in Hr; [done|].
  unfold collect_result. by rewrite Hr.
Qed.
End Contract.

(** * The handles of libbpf

    A world that keeps the list of what was opened, attached and released. *)

Inductive handle_event :=
  | EOpen (o : Z)
  | EClose (o : Z)
  | EAttach (l : Z)
  | EDestroy (l : Z).

Definition tracked (W : Type) : Type := W * list handle_event.

Section Tracked.
Context {W : Type} `{OS W} `{BPF W}.

#[global] Instance tracked_os : OS (tracked W) := prod_os.

#[global] Instance tracked_bpf : BPF (tracked W) := {|
  bpf_object_open p w :=
    let '(r, w') := bpf_object_open p w.1 in
    (r, (w', w.2 ++ match r with inr o => [EOpen o] | inl _ => [] end)%list);
  bpf_object_load o := below (bpf_object_load o);
  bpf_object_close o w := (bpf_object_close o w.1, w.2 ++ [EClose o])%list;
  bpf_find_program o n w := bpf_find_program o n w.1;
  bpf_find_map o n w := bpf_find_map o n w.1;
  bpf_map_fd m w := bpf_map_fd m w.1;
  bpf_program_attach p w :=
    let '(r, w') := bpf_program_attach p w.1 in
    (r, (w', w.2 ++ match r with inr l => [EAttach l] | inl _ => [] end)%list);
  bpf_link_destroy l w := (bpf_link_destroy l w.1, w.2 ++ [EDestroy l])%list;
  target_pid_update fd k v := below (target_pid_update fd k v);
  counts_next_key fd p := below (counts_next_key fd p);
  counts_lookup fd k := below (counts_lookup fd k);
  counts_delete fd k w := (counts_delete fd k w.1, w.2);
  counts_rounds w := counts_rounds w.1;
  stack_lookup fd id := below (stack_lookup fd id);
  stack_delete fd id w := (stack_delete fd id w.1, w.2);
  user_maps_get w := user_maps_get w.1;
  user_maps_put c w := (user_maps_put c w.1, w.2);
|}.

(** Programs that touch no handle. *)
Definition keeps {A} (p : prog (tracked W) A) : Prop := ∀ w, (p w).2.2 = w.2.

Lemma keeps_bind {A B} (p : prog (tracked W) A) (f : A → prog (tracked W) B) :
  keeps p → (∀ a, keeps (f a)) → keeps (p ≫= f).
Proof.
  intros Hp Hf w. unfold mbind, prog_bind. specialize (Hp w).
  destruct (p w) as [[] w1]; simpl in *; [|done..]. by rewrite Hf.
Qed.
Lemma keeps_ret {A} (a : A) : keeps (mret a).
Proof. by intros w. Qed.
Lemma keeps_lift {A} (o : outcome A) : keeps (lift o).
Proof. by intros w. Qed.
Lemma keeps_gets {A} (f : tracked W → A) : keeps (gets f).
Proof. by intros w. Qed.
Lemma keeps_fs_gets {A} (f : tracked W → option A) : keeps (fs_gets f).
Proof. by intros w. Qed.
Lemma keeps_below {A} (f : W → A * W) : keeps (act (below f : tracked W → A * tracked W)).
Proof. intros w. unfold act, below. by destruct (f w.1). Qed.
Lemma keeps_call {A} (f : W → A * W) (g : tracked W → A * tracked W) :
  g = below f → keeps (act g).
Proof. intros ->. apply keeps_below. Qed.


(** Goes through the branches of a program. *)
Ltac keeps_go :=
  repeat match goal with
  | |- keeps (mbind _ _) => apply keeps_bind; [|intros]
  | |- keeps (mret _) => apply keeps_ret
  | |- keeps (lift _) => apply keeps_lift
  | |- keeps (gets _) => apply keeps_gets
  | |- keeps (fs_gets _) => apply keeps_fs_gets
  | |- keeps (act (below _)) => apply keeps_below
  | |- keeps (act _) => solve [eapply keeps_call; reflexivity]
  | |- keeps (match _ with _ => _ end) => case_match
  end.

Lemma keeps_cached_maps pid : keeps (cached_maps pid).
Proof. unfold cached_maps, ReadUserMaps, read_file. keeps_go; by intros w. Qed.

Lemma keeps_collect_keys fuel fd prev a : keeps (collect_keys fuel fd prev a).
Proof.
  revert prev a. induction fuel as [|fuel IH]; intros prev a; cbn [collect_keys]; keeps_go; apply IH.
Qed.

Lemma keeps_collect_stacks fd ks us todo : keeps (collect_stacks fd ks us todo).
Proof.
  revert us todo. induction ks as [|k ks IH]; intros us todo; cbn [collect_stacks]; keeps_go;
    try apply IH. apply keeps_cached_maps.
Qed.

Lemma keeps_batch l : keeps (BatchResolveUserSymbols l).
Proof.
  unfold BatchResolveUserSymbols. generalize (group_by_path l) ([] : symtab). intros g.
  induction g as [|[path offs] g IH]; intros r; cbn [resolve_paths]; keeps_go; [|apply IH].
  generalize (chunks 512 offs) as cs. intros cs. revert r.
  induction cs as [|c cs IHc]; intros r; cbn [resolve_chunks]; keeps_go; [|apply IHc].
  unfold resolve_chunk, popen. keeps_go.
Qed.

Lemma keeps_resolve_user pid addrs syms : keeps (resolve_user pid addrs syms).
Proof.
  induction addrs as [|a addrs IH]; cbn [resolve_user]; keeps_go; try apply IH; [|by intros w].
  unfold ResolveUserFrame, ReadUserMaps, read_file. keeps_go.
Qed.

Lemma keeps_sample i : keeps (sample_maps i).
Proof.
  unfold sample_maps, ReadKallsyms, read_file. keeps_go;
    auto using keeps_collect_keys, keeps_collect_stacks, keeps_batch.
  match goal with |- keeps (fold_stacks _ ?ks ?us ?syms ?cs ?keys ?f) =>
    generalize keys f; intros keys'; induction keys' as [|k keys' IH]; intros f' end;
    cbn [fold_stacks]; keeps_go; [|apply IH].
  unfold render_stack. keeps_go. apply keeps_resolve_user.
Qed.

Lemma keeps_poll d path err i : keeps (poll d path err i).
Proof.
  unfold poll, cleanup, write_file. keeps_go; try apply keeps_sample; intros w; try done.
  - simpl. generalize (all_keys c). intros ks. revert w.
    induction ks as [|k ks IH]; intros w; simpl; [done|]. by rewrite IH.
  - simpl. generalize (used_stack_ids c). intros ks. revert w.
    induction ks as [|k ks IH]; intros w; simpl; [done|]. by rewrite IH.
Qed.

Lemma load_log path err (w : tracked W) :
  ∃ ok e i w1, load path err impl0 w = (Ret (ok, e, i), w1) ∧ link i = None ∧ attached i = false ∧
  if (ok : bool) then ∃ o, obj i = Some o ∧ loaded i = true ∧ is_Some (bpf_prog i) ∧ w1.2 = (w.2 ++ [EOpen o])%list
  else obj i = None ∧ (w1.2 = w.2 ∨ ∃ o, w1.2 = (w.2 ++ [EOpen o; EClose o])%list).
Proof.
  destruct w as [w l]. unfold load, close_failed, mbind, prog_bind, act, gets, modify. simpl.
  destruct (bpf_object_open _ w) as [[e|o] w1]; simpl.
  { eexists _, _, _, _. split; [done|]. rewrite app_nil_r. eauto. }
  unfold below. simpl. destruct (bpf_object_load o w1) as [[e|] w2]; simpl.
  { eexists _, _, _, _. split; [done|]. rewrite <-app_assoc. simpl. eauto 6. }
  destruct (bpf_find_program o _ w2) as [p|]; simpl.
  2: { eexists _, _, _, _. split; [done|]. rewrite <-app_assoc. simpl. eauto 6. }
  destruct (bpf_find_map o "counts" w2) as [c|], (bpf_find_map o "stack_traces" w2) as [s|]; simpl;
    try (eexists _, _, _, _; split; [done|]; rewrite <-app_assoc; simpl; eauto 6; fail).
  destruct (bpf_find_map o "target_pid" w2); simpl; eexists _, _, _, _; (split; [done|]);
    simpl; eauto 8.
Qed.

Lemma attach_log p err i (w : tracked W) :
  loaded i = true → attached i = false → is_Some (bpf_prog i) → link i = None →
  ∃ ok e i' w1, attach p err i w = (Ret (ok, e, i'), w1) ∧ obj i' = obj i ∧
  if (ok : bool) then ∃ k, link i' = Some k ∧ w1.2 = (w.2 ++ [EAttach k])%list
  else link i' = None ∧ w1.2 = w.2.
Proof.
  intros Hl Ha [pr Hp] Hk. destruct w as [w l]. unfold attach, mbind, prog_bind, act.
  rewrite Hl, Ha, Hp. simpl. destruct (_ && _); simpl.
  - unfold below. simpl. destruct (target_pid_update _ _ _ w) as [[e|] w1]; simpl.
    + eexists _, _, _, _. split; [done|]. eauto.
    + destruct (bpf_program_attach pr w1) as [[e|k] w2]; eexists _, _, _, _; (split; [done|]); simpl;
        rewrite ?app_nil_r; eauto.
  - destruct (bpf_program_attach pr w) as [[e|k] w2]; eexists _, _, _, _; (split; [done|]); simpl;
      rewrite ?app_nil_r; eauto.
Qed.

Lemma release_log i (w : tracked W) :
  ∃ w1, destroy i w = (Ret tt, w1) ∧
    w1.2 = (w.2 ++ (match link i with Some k => [EDestroy k] | None => [] end) ++
                   (match obj i with Some o => [EClose o] | None => [] end))%list.
Proof.
  destruct w as [w l], i as [[o|] ? [k|]]; unfold destroy, detach, unload, mbind, prog_bind, modify;
    simpl; eexists; (split; [done|]); simpl;
    rewrite ?app_nil_r, <-?app_assoc; done.
Qed.

Lemma keeps_first_existing cs : keeps (first_existing cs).
Proof.
  induction cs as [|c cs IH]; cbn [first_existing]; unfold fs_exists; keeps_go. apply IH.
Qed.

Lemma keeps_candidates : keeps ebpf_candidates.
Proof. unfold ebpf_candidates. keeps_go. Qed.

(** What a call that returns adds to the list: nothing, an object, or an object and a
    link, each released, the link first. *)
Definition released (l l' : list handle_event) : Prop :=
  l' = l ∨ (∃ o, l' = l ++ [EOpen o; EClose o])%list ∨
  (∃ o k, l' = l ++ [EOpen o; EAttach k; EDestroy k; EClose o])%list.

(** What a call that does not return has left open by then, at most. *)
Definition held (l l' : list handle_event) : Prop :=
  released l l' ∨ ∃ o k, l' = (l ++ [EOpen o; EAttach k])%list.

(** Poll and the end of a session with an attached loader. *)
Lemma attached_log path d dir e st i o k (w : tracked W) l :
  obj i = Some o → link i = Some k → w.2 = (l ++ [EOpen o; EAttach k])%list →
  match (create_directories dir;;
         p ← poll d path e i;
         let '(ok, e) := p in
         i1 ← detach i; i2 ← unload i1;
         if (ok : bool) then fs_gets (os_size path);; mret (true, mkR e ["collapsed_ebpf.txt"], i2)
         else mret (false, set_err e st, i2)) w with
  | (Ret (ok, st', i'), w1) => obj i' = None ∧ link i' = None ∧
      w1.2 = (l ++ [EOpen o; EAttach k; EDestroy k; EClose o])%list
  | (_, w1) => held l w1.2
  end.
Proof.
  intros Ho Hk Hw.
  assert (keeps (create_directories dir : prog (tracked W) unit)) as Hmk.
  { intros v. unfold create_directories. simpl. unfold below. by destruct (os_mkdirs dir v.1) as [[] ?]. }
  specialize (Hmk w). unfold mbind at 1, prog_bind at 1.
  destruct (create_directories dir w) as [[[]|x|why] w1]; simpl in Hmk;
    [|right; exists o, k; congruence..].
  pose proof (keeps_poll d path e i w1) as Hp. unfold mbind at 1, prog_bind at 1.
  destruct (poll d path e i w1) as [[[ok e2]|x|why] w2]; simpl in Hp; [|right; exists o, k; congruence..].
  unfold detach, unload, mbind, prog_bind, modify. rewrite Hk. simpl. rewrite Ho. simpl.
  assert (w2.2 ++ [EDestroy k] ++ [EClose o] = (l ++ [EOpen o; EAttach k; EDestroy k; EClose o]))%list as Hl.
  { rewrite Hp, Hmk, Hw, <-!app_assoc. done. }
  rewrite <-!app_assoc, Hl. destruct ok; [|done]. unfold fs_gets. cbn [fst].
  destruct (os_size path _); [by simpl|]. left. right. right. eauto.
Qed.

Lemma session_log path pid d dir st (w : tracked W) :
  match ebpf_session path pid d dir st w with
  | (Ret (_, _, i), w1) => ∃ w2, destroy i w1 = (Ret tt, w2) ∧ released w.2 w2.2
  | (_, w1) => held w.2 w1.2
  end.
Proof.
  unfold ebpf_session. destruct (load_log path (error_msg st) w) as (ok & e & i & w1 & Hl & Hk & Ha & Hlog).
  rewrite (prog_bind_step _ _ _ _ _ Hl). destruct ok; cbn [negb].
  2: { destruct Hlog as [Ho Hlog]. destruct (release_log i w1) as (w2 & Hd & Hw2). exists w2. split; [exact Hd|].
       rewrite Hk, Ho, app_nil_r in Hw2. rewrite Hw2. unfold released. naive_solver. }
  destruct Hlog as (o & Ho & Hld & Hp & Hlog).
  destruct (attach_log pid e i w1 Hld Ha Hp Hk) as (ok & e' & i' & w2 & Hat & Ho' & Hlog').
  rewrite (prog_bind_step _ _ _ _ _ Hat). rewrite Ho in Ho'. destruct ok; cbn [negb]; cbv zeta.
  2: { destruct Hlog' as [Hk' Hlog']. destruct (release_log i' w2) as (w3 & Hd & Hw3). exists w3. split; [exact Hd|].
       rewrite Hk', Ho', Hlog', Hlog in Hw3. rewrite Hw3. right; left. exists o. by rewrite <-app_assoc. }
  destruct Hlog' as (k & Hk' & Hlog').
  assert (w2.2 = (w.2 ++ [EOpen o; EAttach k])%list) as Hw2 by (rewrite Hlog', Hlog; by rewrite <-app_assoc).
  pose proof (attached_log (dir +:+ "/collapsed_ebpf.txt") d dir e' st i' o k w2 w.2 Ho' Hk' Hw2) as Hend.
  match goal with |- match ?m with _ => _ end => destruct m as [[[[ok st'] i2]|x|why] w3] end; [|done..].
  destruct Hend as (Ho2 & Hk2 & Hw3). destruct (release_log i2 w3) as (w4 & Hd & Hw4). exists w4. split; [exact Hd|].
  rewrite Ho2, Hk2, !app_nil_r in Hw4. rewrite Hw4, Hw3. right; right. eauto.
Qed.
End Tracked.

(** * What poll reads

    The maps as the kernel documents them while nothing else writes them (poll reads
    with the probe still attached, so this is the case only while no switch of the
    traced process is counted): the keys come one after the other, each once, at most
    [MAX_ENTRIES], and the loop is followed for more rounds than that; reading changes
    nothing; a stack is made of 64-bit words.  The cache of memory maps is a
    variable of the program: running a command does not change it. *)
Class QuietMaps (W : Type) `{OS W} `{BPF W} := {
  map_keys : Z → W → list stack_key;
  map_keys_nodup fd w : NoDup (map_keys fd w);
  map_keys_bound fd w : Z.of_nat (length (map_keys fd w)) <= MAX_ENTRIES;
  rounds_enough w : MAX_ENTRIES < Z.of_nat (counts_rounds w);
  next_first fd w : counts_next_key fd None w = (head (map_keys fd w), w);
  next_after fd w l1 k l2 :
    map_keys fd w = (l1 ++ k :: l2)%list → counts_next_key fd (Some k) w = (head l2, w);
  lookup_quiet fd k w : (counts_lookup fd k w).2 = w;
  stack_quiet fd id w : (stack_lookup fd id w).2 = w;
  stack_words fd id w v : (stack_lookup fd id w).1 = Some v → Forall is_u64 v;
  cache_get_put c w : user_maps_get (user_maps_put c w) = c;
  cache_popen cmd w : user_maps_get (os_popen cmd w).2 = user_maps_get w;
}.

(** Names that fit on a line. *)
Definition maps_ok (m : list UserSym) : Prop := Forall (λ u, no_char ch_nl (us_path u)) m.
Definition cache_lines (c : maps_cache) : Prop := Forall (λ e, maps_ok e.2) (mc_map c).

Lemma om_get_value {K V} `{StrictOrd K} (k : K) (m : list (K * V)) v (P : V → Prop) :
  Forall (λ e, P e.2) m → om_get k m = Some v → P v.
Proof.
  induction 1 as [|[k' v'] m Hp _ IH]; simpl; [done|]. destruct (ltb k k'); [done|].
  destruct (ltb k' k); [done|]. naive_solver.
Qed.

Lemma om_set_values {K V} `{StrictOrd K} (k : K) (v : V) m (P : V → Prop) :
  Forall (λ e, P e.2) m → P v → Forall (λ e, P e.2) (om_set k v m).
Proof.
  unfold om_set. induction 1 as [|[k' v'] m Hp Hm IH]; cbn [om_upd]; intros Hv.
  - by apply Forall_singleton.
  - destruct (ltb k k'); [by repeat (constructor; try done)|].
    destruct (ltb k' k); constructor; auto.
Qed.

Lemma parse_maps_ok s : maps_ok (parse_maps s).
Proof.
  unfold parse_maps, maps_ok. apply Forall_forall. intros u (l & Hl & Hu)%list_elem_of_omap.
  pose proof (getlines_no_char ch_nl s) as Hall. rewrite Forall_forall in Hall.
  specialize (Hall l Hl). unfold parse_maps_line in Hu.
  destruct (find_char _ l) as [idx|]; [|done].
  destruct (scan_maps_line _) as [[[? ?] ?] ?]. destruct (_ && _); simplify_eq/=.
  by apply no_char_trim, no_char_drop.
Qed.

Lemma cache_insert_lines pid r c : cache_lines c → maps_ok r → cache_lines (cache_insert pid r c).
Proof.
  unfold cache_lines, cache_insert. intros Hc Hr. cbv zeta.
  destruct (mc_order c); simpl; [by apply om_set_values|].
  case_bool_decide; simpl; [|by apply om_set_values].
  apply om_set_values; [|done]. rewrite Forall_forall in Hc |- *.
  intros e He. by apply Hc, (om_erase_sub z).
Qed.

Section Poll.
Context {W : Type} `{QuietMaps W}.

Lemma read_maps_quiet pid c (w : W) :
  cache_lines c → ∃ m c', ReadUserMaps pid c w = (Ret (m, c'), w) ∧ maps_ok m ∧ cache_lines c'.
Proof.
  intros Hc. unfold ReadUserMaps. destruct (om_get pid (mc_map c)) as [m|] eqn:E.
  - eexists _, _. split; [done|]. split; [by eapply om_get_value in E|done].
  - unfold mbind, prog_bind, read_file, gets. destruct (os_read _ w) as [s|].
    + eexists _, _. split; [done|]. auto using parse_maps_ok, cache_insert_lines.
    + eexists _, _. split; [done|]. split; [constructor|done].
Qed.

(** ** Phase 1 *)

(** The keys with a count, in the kernel's order. *)
Definition recorded (fd : Z) (w : W) (ks : list stack_key) : list (stack_key * Z) :=
  omap (λ k, match (counts_lookup fd k w).1 with
             | None | Some 0 => None
             | Some n => Some (k, n)
             end) ks.

Definition add_keys (l : list (stack_key * Z)) (a : collected) : collected :=
  foldl (λ a p, add_key p.1 p.2 a) a l.

Lemma collect_keys_quiet fuel fd (w : W) l1 l2 a :
  map_keys fd w = (l1 ++ l2)%list → (length l2 < fuel)%nat →
  collect_keys fuel fd (last l1) a w = (Ret (add_keys (recorded fd w l2) a), w).
Proof.
  revert l1 l2 a. induction fuel as [|fuel IH]; intros l1 l2 a Hk Hf; [lia|].
  assert (counts_next_key fd (last l1) w = (head l2, w)) as Hn.
  { destruct l1 as [|k l1 _] using rev_ind; [by rewrite next_first, Hk|].
    rewrite last_snoc. rewrite <-app_assoc in Hk. by eapply next_after. }
  cbn [collect_keys]. unfold mbind, prog_bind, act. rewrite Hn.
  destruct l2 as [|k l2]; [done|]. cbn [head].
  pose proof (lookup_quiet fd k w) as Hq. unfold recorded. cbn [omap list_omap].
  destruct (counts_lookup fd k w) as [c w1]. simpl in Hq |- *. subst w1.
  change (k :: l2) with ([k] ++ l2)%list in Hk. rewrite app_assoc in Hk. simpl in Hf.
  rewrite <-(last_snoc k l1).
  destruct c as [n|]; [destruct n as [|n|n]|]; simpl; apply IH; (done || lia).
Qed.

Lemma add_keys_all l a : all_keys (add_keys l a) = (all_keys a ++ l.*1)%list.
Proof.
  revert a. induction l as [|[k n] l IH]; intros a; [by rewrite app_nil_r|].
  change (add_keys ((k, n) :: l) a) with (add_keys l (add_key k n a)). rewrite IH. simpl.
  by rewrite <-app_assoc.
Qed.

Lemma add_keys_get l a k :
  NoDup l.*1 →
  om_get k (key_counts (add_keys l a)) =
    match filter (λ p, p.1 = k) l with p :: _ => Some p.2 | [] => om_get k (key_counts a) end.
Proof.
  revert a. induction l as [|[k' n] l IH]; intros a; [done|].
  change (add_keys ((k', n) :: l) a) with (add_keys l (add_key k' n a)).
  cbn [fmap list_fmap fst]. intros [Hni Hnd]%NoDup_cons. rewrite IH by done.
  rewrite filter_cons. cbn [fst]. case_decide as E.
  - subst k'. assert (filter (λ p, p.1 = k) l = []) as ->.
    { destruct (filter (λ p, p.1 = k) l) as [|p f] eqn:E; [done|].
      assert (p ∈ filter (λ p, p.1 = k) l) as Hp by (rewrite E; left).
      apply list_elem_of_filter in Hp as [<- Hp]. destruct Hni.
      by apply list_elem_of_fmap_2. }
    simpl. rewrite om_get_set. by rewrite decide_True.
  - destruct (filter _ l); [|done]. simpl. rewrite om_get_set. rewrite decide_False; [done|congruence].
Qed.

Lemma recorded_keys fd (w : W) ks : (recorded fd w ks).*1 `sublist_of` ks.
Proof.
  unfold recorded. induction ks as [|k ks IH]; [done|]. cbn [omap list_omap].
  destruct ((counts_lookup fd k w).1) as [[| |]|]; simpl; auto using sublist_cons, sublist_skip.
Qed.

(** ** Phase 2 *)

Definition good_world (w : W) : Prop := cache_lines (user_maps_get w).
Definition todo_ok (l : list (string * Z)) : Prop := Forall (λ q, no_char ch_nl q.1 ∧ 0 <= q.2) l.

Lemma cached_maps_quiet pid (w : W) :
  good_world w → ∃ m w', cached_maps pid w = (Ret m, w') ∧ maps_ok m ∧ good_world w'.
Proof.
  intros Hw. unfold cached_maps, gets, modify, mbind, prog_bind, mret, prog_ret.
  destruct (read_maps_quiet pid (user_maps_get w) w Hw) as (m & c & -> & Hm & Hc). simpl.
  eexists _, _. split; [done|]. split; [done|]. unfold good_world. by rewrite cache_get_put.
Qed.

Lemma frames_upto_u64 n v : Forall is_u64 v → Forall is_u64 (frames_upto n v).
Proof.
  revert v. induction n as [|n IH]; intros [|a v] Hv; unfold frames_upto; fold frames_upto; try constructor.
  apply Forall_cons in Hv as [? ?]. case_bool_decide; [done|]. constructor; auto.
Qed.

Lemma first_cover_ok a maps m : maps_ok maps → first_cover a maps = Some m → no_char ch_nl (us_path m).
Proof.
  unfold first_cover. intros Hall Hm. apply head_Some_elem_of, list_elem_of_filter in Hm as [_ Hm].
  unfold maps_ok in Hall. rewrite Forall_forall in Hall. by apply Hall.
Qed.

Lemma file_offset_pos a m : 0 <= file_offset a m.
Proof. apply to_u64_range. Qed.

Lemma wanted_ok maps addrs : maps_ok maps → todo_ok (wanted maps addrs).
Proof.
  intros Hm. unfold wanted, todo_ok. apply Forall_forall.
  intros q (a & _ & (m & Hc & ->)%fmap_Some)%list_elem_of_omap. simpl.
  eauto using first_cover_ok, file_offset_pos.
Qed.

Lemma collect_stacks_quiet sfd ks us todo (w : W) :
  good_world w → Forall (λ e, Forall is_u64 e.2) us → todo_ok todo →
  ∃ us' todo' w', collect_stacks sfd ks us todo w = (Ret (us', todo'), w') ∧ good_world w' ∧
    Forall (λ e, Forall is_u64 e.2) us' ∧ todo_ok todo'.
Proof.
  revert us todo w. induction ks as [|k ks IH]; intros us todo w Hw Hus Htodo.
  { eexists _, _, _. split; [done|]. done. }
  cbn [collect_stacks]. case_bool_decide; [|by apply IH].
  unfold mbind at 1, prog_bind at 1. unfold act.
  pose proof (stack_quiet sfd (user_stack_id k) w) as Hq.
  pose proof (stack_words sfd (user_stack_id k) w) as Hv.
  destruct (stack_lookup _ _ w) as [[v|] w1]; simpl in *; subst w1; [|by apply IH].
  destruct (cached_maps_quiet (sk_tgid k) w Hw) as (m & w2 & Hm & Hok & Hw2).
  rewrite (prog_bind_step _ _ _ _ _ Hm). apply IH; [done| |].
  - apply om_set_values; [done|]. by apply frames_upto_u64, Hv.
  - apply Forall_app. split; [done|]. by apply wanted_ok.
Qed.

Lemma resolve_chunks_cache path cs r (w : W) r' w' :
  resolve_chunks path cs r w = (Ret r', w') → user_maps_get w' = user_maps_get w.
Proof.
  revert r w. induction cs as [|c cs IH]; intros r w Hr; cbn [resolve_chunks] in Hr.
  { by prog_inv. }
  apply prog_bind_Ret in Hr as (r1 & w1 & Hc & Hr). rewrite (IH _ _ Hr).
  unfold resolve_chunk, popen in Hc. apply prog_bind_Ret in Hc as (o & w2 & Ho & Hc). prog_inv.
  apply (proj1 (act_Ret _ _ _ _)) in Ho. rewrite <-(cache_popen (c_str (addr2line_cmd path c)) w).
  by rewrite Ho.
Qed.

Lemma batch_cache l (w : W) r w' :
  BatchResolveUserSymbols l w = (Ret r, w') → user_maps_get w' = user_maps_get w.
Proof.
  unfold BatchResolveUserSymbols. generalize (group_by_path l) ([] : symtab). intros g.
  revert w. induction g as [|[path offs] g IH]; intros w r0 Hr; cbn [resolve_paths] in Hr.
  { by prog_inv. }
  apply prog_bind_Ret in Hr as (r1 & w1 & Hc & Hr). rewrite (IH _ _ Hr).
  by eapply resolve_chunks_cache.
Qed.

(** ** Phase 3 *)

Lemma resolve_frame_ok pid addr syms c (w : W) :
  cache_lines c → 0 <= addr →
  (∀ q f, om_get q syms = Some f → no_char ch_nl q.1 → 0 <= q.2 → name_ok f) →
  ∃ s c', ResolveUserFrame pid addr syms c w = (Ret (s, c'), w) ∧ cache_lines c' ∧ no_char ch_nl s.
Proof.
  intros Hc Ha Hsyms. unfold ResolveUserFrame, mbind, prog_bind.
  destruct (read_maps_quiet pid c w Hc) as (m & c' & -> & Hm & Hc').
  eexists _, _. split; [done|]. split; [done|].
  destruct (first_cover addr m) as [u|] eqn:Hu.
  - pose proof (first_cover_ok _ _ _ Hm Hu) as Hno. pose proof (file_offset_pos addr u).
    destruct (om_get _ syms) as [f|] eqn:Hf; [by apply (Hsyms _ _ Hf)|by apply sym_fallback_ok].
  - apply no_char_take, no_char_app. split; [done|]. by apply to_hex_no_nl.
Qed.

Lemma resolve_user_ok pid addrs syms (w : W) :
  good_world w → Forall is_u64 addrs →
  (∀ q f, om_get q syms = Some f → no_char ch_nl q.1 → 0 <= q.2 → name_ok f) →
  ∃ fs w', resolve_user pid addrs syms w = (Ret fs, w') ∧ good_world w' ∧ Forall (no_char ch_nl) fs.
Proof.
  intros Hw Haddrs Hsyms. revert w Hw. induction Haddrs as [|a addrs [Ha _] _ IH]; intros w Hw.
  { eexists _, _. split; [done|]. split; [done|constructor]. }
  cbn [resolve_user]. unfold gets, modify, mbind, prog_bind.
  destruct (resolve_frame_ok pid a syms _ w Hw Ha Hsyms) as (s & c & -> & Hc & Hs). simpl.
  destruct (IH (user_maps_put c w)) as (fs & w' & Hr & Hw' & Hfs).
  { unfold good_world. by rewrite cache_get_put. }
  rewrite Hr. eexists _, _. split; [done|]. split; [done|]. by constructor.
Qed.

Lemma push_frames_no_nl s fs : no_char ch_nl s → Forall (no_char ch_nl) fs → no_char ch_nl (push_frames s fs).
Proof.
  unfold push_frames. intros Hs Hfs. apply Forall_reverse in Hfs. revert s Hs.
  induction Hfs as [|f rest Hf _ IH]; intros s Hs; simpl; [done|]. apply IH. unfold push_frame.
  apply no_char_app. split; [|done]. case_bool_decide; [done|]. by apply no_char_app.
Qed.

Lemma take_word_no_nl n s : no_char ch_nl (take_word n s).1.
Proof.
  revert s. induction n as [|n IH]; intros [|a s]; simpl; try done.
  destruct (isspace a) eqn:Ea; [done|]. specialize (IH s). destruct (take_word n s) as [w r].
  apply no_char_cons. split; [|done]. by intros ->.
Qed.

Lemma ksym_names lines : Forall (λ e, no_char ch_nl e.2) (ksym_table lines).
Proof.
  induction lines as [|l lines IH] using rev_ind; [constructor|].
  rewrite ksym_table_snoc. destruct (parse_ksym l) as [[a n]|] eqn:E; [|done].
  apply om_set_values; [done|]. unfold parse_ksym, read_word in E.
  destruct (stream_hex l) as [[? r1]|]; [|done]. destruct (trim_front _ r1) as [|? r2]; [done|].
  pose proof (take_word_no_nl (String.length r2) (trim_front isspace r2)) as Hw.
  destruct (take_word _ _) as [[] ?]; by simplify_eq.
Qed.

Lemma resolve_ksym_no_nl lines a : no_char ch_nl (ResolveKsym (ksym_table lines) a).
Proof.
  unfold ResolveKsym. destruct (om_floor a _) as [[a' n]|] eqn:E; [|done].
  apply om_floor_Some in E as (E & _); [|apply ksym_table_wf].
  by apply (om_get_value _ _ _ (no_char ch_nl) (ksym_names lines)) in E.
Qed.

Lemma render_stack_ok sfd lines us syms k (w : W) :
  good_world w → Forall (λ e, Forall is_u64 e.2) us →
  (∀ q f, om_get q syms = Some f → no_char ch_nl q.1 → 0 <= q.2 → name_ok f) →
  ∃ s w', render_stack sfd (ksym_table lines) us syms k w = (Ret s, w') ∧ good_world w' ∧ no_char ch_nl s.
Proof.
  intros Hw Hus Hsyms. unfold render_stack.
  assert (∃ s1, (if bool_decide (0 <= kern_stack_id k) then
      v ← act (stack_lookup sfd (kern_stack_id k));
      mret match v with None => "" | Some v =>
        push_frames "" (ResolveKsym (ksym_table lines) <$> frames_upto 64 v) end
    else mret "" : prog W string) w = (Ret s1, w) ∧ no_char ch_nl s1) as (s1 & Hs1 & Hno1).
  { case_bool_decide; [|by eexists]. unfold mbind, prog_bind, act, mret, prog_ret.
    pose proof (stack_quiet sfd (kern_stack_id k) w) as Hq.
    destruct (stack_lookup _ _ w) as [[v|] w1]; simpl in Hq; subst w1; [|by eexists].
    eexists. split; [done|]. apply push_frames_no_nl; [done|]. apply Forall_fmap, Forall_forall.
    intros a _. apply resolve_ksym_no_nl. }
  rewrite (prog_bind_step _ _ _ _ _ Hs1).
  assert (∃ s2 w2, (if bool_decide (0 <= user_stack_id k) then
      match om_get (sk_tgid k, user_stack_id k) us with
      | None => mret s1
      | Some addrs => fs ← resolve_user (sk_tgid k) addrs syms; mret (push_frames s1 fs) end
    else mret s1 : prog W string) w = (Ret s2, w2) ∧ good_world w2 ∧ no_char ch_nl s2) as (s2 & w2 & Hs2 & Hw2 & Hno2).
  { clear Hs1. destruct (bool_decide _); [|exists s1, w; split; [done|by split]].
    destruct (om_get _ us) as [addrs|] eqn:Ha; [|exists s1, w; split; [done|by split]].
    apply (om_get_value _ _ _ (Forall is_u64) Hus) in Ha.
    destruct (resolve_user_ok (sk_tgid k) addrs syms w Hw Ha Hsyms) as (fs & w' & Hr & Hw' & Hfs).
    rewrite (prog_bind_step _ _ _ _ _ Hr). eexists _, _. split; [done|].
    split; [done|]. by apply push_frames_no_nl. }
  rewrite (prog_bind_step _ _ _ _ _ Hs2). eexists _, _. split; [done|]. split; [done|].
  by destruct (bool_decide (s2 = "")).
Qed.

Lemma fold_stacks_ok sfd lines us syms cs keys folded (w : W) :
  good_world w → Forall (λ e, Forall is_u64 e.2) us →
  (∀ q f, om_get q syms = Some f → no_char ch_nl q.1 → 0 <= q.2 → name_ok f) →
  ∃ pairs w', fold_stacks sfd (ksym_table lines) us syms cs keys folded w =
      (Ret (add_counts pairs folded), w') ∧
    pairs.*2 = (λ k, default 0 (om_get k cs)) <$> keys ∧ Forall (λ p, no_char ch_nl p.1) pairs.
Proof.
  intros Hw Hus Hsyms. revert folded w Hw. induction keys as [|k keys IH]; intros folded w Hw.
  { by exists [], w. }
  cbn [fold_stacks].
  destruct (render_stack_ok sfd lines us syms k w Hw Hus Hsyms) as (s & w1 & Hr & Hw1 & Hs).
  rewrite (prog_bind_step _ _ _ _ _ Hr).
  destruct (IH (add_count s (default 0 (om_get k cs)) folded) w1 Hw1) as (pairs & w2 & -> & Hp & Hno).
  exists ((s, default 0 (om_get k cs)) :: pairs), w2. split; [done|]. split; [|by constructor].
  rewrite !fmap_cons. by rewrite Hp.
Qed.

Definition zsum (l : list Z) : Z := foldr Z.add 0 l.

Lemma total_zsum (l : list (string * Z)) : total l = zsum l.*2.
Proof. induction l as [|p l IH]; [done|]. rewrite total_cons, IH. done. Qed.

Lemma recorded_lookup (l : list (stack_key * Z)) :
  NoDup l.*1 →
  (λ k, default 0 (om_get k (key_counts (add_keys l collected0)))) <$> l.*1 = l.*2.
Proof.
  intros Hnd.
  assert (∀ l1 l2, l = (l1 ++ l2)%list →
    (λ k, default 0 (om_get k (key_counts (add_keys l collected0)))) <$> l2.*1 = l2.*2) as Hgen;
    [|by apply (Hgen [])].
  intros l1 l2. revert l1. induction l2 as [|[k n] l2 IH]; intros l1 Hl; [done|].
  rewrite !fmap_cons. cbn [fst snd]. f_equal.
  - rewrite add_keys_get by done.
    rewrite Hl, filter_app, filter_cons. cbn [fst]. rewrite decide_True by done.
    assert (filter (λ p, p.1 = k) l1 = []) as ->; [|done].
    rewrite Hl, fmap_app in Hnd. apply NoDup_app in Hnd as (_ & Hdis & _).
    destruct (filter (λ p, p.1 = k) l1) as [|p f] eqn:E; [done|].
    assert (p ∈ filter (λ p, p.1 = k) l1) as Hp by (rewrite E; left).
    apply list_elem_of_filter in Hp as [<- Hp]. destruct (Hdis p.1); [by apply list_elem_of_fmap_2|left].
  - apply (IH (l1 ++ [(k, n)])%list). by rewrite <-app_assoc.
Qed.

(** The keys with a count of the world [w]. *)
Definition samples_of (i : Impl) (w : W) : list (stack_key * Z) :=
  recorded (counts_fd i) w (map_keys (counts_fd i) w).

Lemma sample_maps_ok i (w : W) :
  good_world w →
  ∃ a folded w', sample_maps i w = (Ret (a, folded), w') ∧ stacks_ok folded ∧
    a = add_keys (samples_of i w) collected0 ∧
    to_u64 (total folded) = to_u64 (zsum (samples_of i w).*2).
Proof.
  intros Hw. unfold sample_maps.
  assert (NoDup (samples_of i w).*1) as Hnd
    by (eapply sublist_NoDup; [apply map_keys_nodup|apply recorded_keys]).
  assert (ReadKallsyms w = (Ret (ksym_table (getlines ch_nl (default "" (os_read "/proc/kallsyms" w)))), w))
    as Hk by done.
  rewrite (prog_bind_step _ _ _ _ _ Hk). clear Hk.
  rewrite (prog_bind_step (gets counts_rounds) _ w (counts_rounds w) w) by done.
  assert (collect_keys (counts_rounds w) (counts_fd i) None collected0 w =
    (Ret (add_keys (samples_of i w) collected0), w)) as Hc.
  { apply (collect_keys_quiet (counts_rounds w) (counts_fd i) w [] _ collected0); [done|].
    pose proof (map_keys_bound (counts_fd i) w). pose proof (rounds_enough w). lia. }
  rewrite (prog_bind_step _ _ _ _ _ Hc). clear Hc.
  set (a := add_keys (samples_of i w) collected0).
  destruct (collect_stacks_quiet (stack_fd i) (all_keys a) [] [] w Hw) as (us & todo & w1 & Hs & Hw1 & Hus & Htodo);
    [constructor|constructor|].
  rewrite (prog_bind_step _ _ _ _ _ Hs).
  destruct (batch_resolve_ok todo w1) as (syms & w2 & Hb & _ & _ & Hsyms).
  rewrite (prog_bind_step _ _ _ _ _ Hb).
  assert (good_world w2) as Hw2 by (unfold good_world; by rewrite (batch_cache _ _ _ _ Hb)).
  destruct (fold_stacks_ok (stack_fd i) (getlines ch_nl (default "" (os_read "/proc/kallsyms" w))) us syms
    (key_counts a) (all_keys a) [] w2 Hw2 Hus Hsyms) as (pairs & w3 & Hf & Hp & Hno).
  rewrite (prog_bind_step _ _ _ _ _ Hf). eexists a, _, w3. split; [done|]. split_and!; [|done|].
  - clear Hp Hf. revert Hno. assert (stacks_ok []) as H0' by (split; constructor). revert H0'.
    generalize ([] : stacks). induction pairs as [|[s c] pairs IH]; intros m Hm Hno; [done|].
    apply Forall_cons in Hno as [? ?]. apply IH; [by apply add_count_ok|done].
  - rewrite total_add_counts, (total_zsum pairs), Hp. subst a. rewrite add_keys_all. cbn [all_keys collected0 app].
    by rewrite recorded_lookup.
Qed.
End Poll.

(** * A concrete kernel

    The maps of [Offcpu] behind one object whose program, maps and link have fixed
    numbers; iteration follows the map's own order and starts over after a key
    that is gone. *)

Record ksim := mkKsim {
  k_base : sim;
  k_counts : gmap stack_key Z;
  k_stacks : gmap Z (list Z);
  k_cache : maps_cache;
}.

Definition k_keys (w : ksim) : list stack_key := take (Z.to_nat MAX_ENTRIES) (map_to_list (k_counts w)).*1.

Fixpoint next_in (k : stack_key) (l : list stack_key) : option stack_key :=
  match l with
  | [] => None
  | x :: l' => if decide (x = k) then head l' else next_in k l'
  end.

Definition lift_sim {A} (f : sim → A * sim) (w : ksim) : A * ksim :=
  let '(a, b) := f (k_base w) in (a, mkKsim b (k_counts w) (k_stacks w) (k_cache w)).

#[global] Instance ksim_os : OS ksim := {|
  os_mkdirs p := lift_sim (os_mkdirs p);
  os_exists p w := os_exists p (k_base w);
  os_size p w := os_size p (k_base w);
  os_read p w := os_read p (k_base w);
  os_write p c := lift_sim (os_write p c);
  os_remove p := lift_sim (os_remove p);
  os_chmod p := lift_sim (os_chmod p);
  os_spawn r := lift_sim (os_spawn r);
  os_popen c := lift_sim (os_popen c);
  os_pipe_run a := lift_sim (os_pipe_run a);
  os_self_exe w := os_self_exe (k_base w);
  os_cwd w := os_cwd (k_base w);
  os_canonical p w := os_canonical p (k_base w);
  os_getenv v w := os_getenv v (k_base w);
  os_now w := os_now (k_base w);
  os_sleep d w := mkKsim (os_sleep d (k_base w)) (k_counts w) (k_stacks w) (k_cache w);
|}.

#[global] Instance ksim_bpf : BPF ksim := {|
  bpf_object_open _ w := (inr 1, w);
  bpf_object_load _ w := (None, w);
  bpf_object_close _ w := w;
  bpf_find_program _ _ _ := Some 2;
  bpf_find_map _ _ _ := Some 3;
  bpf_map_fd m _ := m;
  bpf_program_attach _ w := (inr 4, w);
  bpf_link_destroy _ w := w;
  target_pid_update _ _ _ w := (None, w);
  counts_next_key _ prev w :=
    (match prev with
     | None => head (k_keys w)
     | Some k => if decide (k ∈ k_keys w) then next_in k (k_keys w) else head (k_keys w)
     end, w);
  counts_lookup _ k w := (k_counts w !! k, w);
  counts_delete _ k w := mkKsim (k_base w) (delete k (k_counts w)) (k_stacks w) (k_cache w);
  counts_rounds _ := Z.to_nat (MAX_ENTRIES + 1);
  stack_lookup _ id w := ((λ v : list Z, to_u64 <$> v) <$> k_stacks w !! id, w);
  stack_delete _ id w := mkKsim (k_base w) (k_counts w) (delete id (k_stacks w)) (k_cache w);
  user_maps_get := k_cache;
  user_maps_put c w := mkKsim (k_base w) (k_counts w) (k_stacks w) c;
|}.

Lemma next_in_after l1 k l2 : k ∉ l1 → next_in k (l1 ++ k :: l2)%list = head l2.
Proof.
  induction l1 as [|x l1 IH]; simpl; intros Hk; [by rewrite decide_True|].
  apply not_elem_of_cons in Hk as [? ?]. rewrite decide_False by done. auto.
Qed.

Lemma k_keys_nodup w : NoDup (k_keys w).
Proof.
  unfold k_keys. eapply sublist_NoDup; [apply (NoDup_fst_map_to_list (k_counts w))|]. apply sublist_take.
Qed.

#[global] Instance ksim_quiet : QuietMaps ksim.
Proof.
  refine {| map_keys := λ _, k_keys |}.
  - intros _. apply k_keys_nodup.
  - intros _ w. unfold k_keys. rewrite length_take. unfold MAX_ENTRIES. lia.
  - intros w. simpl. unfold MAX_ENTRIES. lia.
  - done.
  - intros fd w l1 k l2 Hk. simpl. pose proof (k_keys_nodup w) as Hnd. rewrite Hk in *.
    rewrite decide_True by set_solver. rewrite next_in_after; [done|].
    apply NoDup_app in Hnd as (_ & Hdis & _). intros Hin. apply (Hdis k Hin). left.
  - done.
  - done.
  - intros fd id w v. simpl. intros (v0 & _ & ->)%fmap_Some. apply Forall_fmap, Forall_forall.
    intros z _. apply to_u64_range.
  - done.
  - intros cmd w. simpl. unfold lift_sim. simpl. by destruct (popens (k_base w)).
Defined.

(** * Claims *)

(** C14: An attached poll always comes to its end on quiet maps, whatever addr2line
    and the files of /proc say, and neither loses nor invents samples: it tries to
    write a well-formed folded map whose counts add up (modulo 2^64) to the counts
    of the kernel's map at the end of the sampling period; if the file opens it
    succeeds and deletes exactly the keys it has read, else it reports the path
    and deletes nothing. *)
Theorem poll_conserves_samples {W} `{QuietMaps W} d path err i (w : W) :
  attached i = true → good_world (os_sleep d w) →
  let w1 := os_sleep d w in
  ∃ folded w2 ids,
    stacks_ok folded ∧ to_u64 (total folded) = to_u64 (zsum (samples_of i w1).*2) ∧
    poll d path err i w =
      match os_write path (collapsed_text folded) w2 with
      | (true, w3) =>
          (Ret (true, err),
           foldl (λ w id, stack_delete (stack_fd i) id w)
             (foldl (λ w k, counts_delete (counts_fd i) k w) w3 (samples_of i w1).*1) ids)
      | (false, w3) => (Ret (false, "Failed to open output file: " +:+ path), w3)
      end.
Proof.
  intros Ha Hw. cbv zeta.
  destruct (sample_maps_ok i (os_sleep d w) Hw) as (a & folded & w2 & Hs & Hok & -> & Htot).
  exists folded, w2, (used_stack_ids (add_keys (samples_of i (os_sleep d w)) collected0)).*1.
  split; [done|]. split; [done|].
  unfold poll. rewrite Ha. cbn [negb]. unfold modify at 1. unfold mbind at 1, prog_bind at 1.
  rewrite (prog_bind_step _ _ _ _ _ Hs). unfold write_file, act, mbind, prog_bind.
  destruct (os_write path _ w2) as [[] w3]; [|done]. simpl.
  unfold modify, mret, prog_ret. rewrite add_keys_all. cbn [all_keys collected0 app].
  generalize (used_stack_ids (add_keys (samples_of i (os_sleep d w)) collected0)) as ids.
  generalize (foldl (λ w k, counts_delete (counts_fd i) k w) w3 (samples_of i (os_sleep d w)).*1) as w4.
  intros w4 ids. do 2 f_equal. revert w4. induction ids as [|id ids IH]; intros w4; [done|]. apply IH.
Qed.

(** Two switches of one process, with a kernel stack of one frame. *)
Definition ksim_two : ksim :=
  mkKsim (set_files {["/proc/kallsyms" := "ffff1000 T schedule" +:+ nl]} sim0)
    {[mkSK 7 7 (-14) 5 := 2]} {[5 := [4294905872]]} cache0.
Definition impl_two : Impl := mkImpl (Some 1) (Some 2) (Some 4) (Some 3) (Some 3) (Some 3) 3 3 3 true true.

Lemma poll_conserves_samples_witness :
  ∃ folded, stacks_ok folded ∧ to_u64 (total folded) = 2.
Proof.
  destruct (poll_conserves_samples 10 "/o" "" impl_two ksim_two) as (folded & _ & _ & Hok & Htot & _).
  - reflexivity.
  - unfold good_world, cache_lines. simpl. constructor.
  - exists folded. split; [exact Hok|]. rewrite Htot. vm_compute. reflexivity.
Defined.

Example poll_two_output :
  files (k_base (poll 10 "/o" "" impl_two ksim_two).2) !! "/o" = Some ("schedule 2" +:+ nl).
Proof. vm_compute. reflexivity. Qed.

(** C32: Whatever libbpf answers, and however often the loop over the keys goes round:
    a recording with the eBPF profiler that returns has released every handle it got, in
    order: the list of handle operations grows by nothing, by one object opened and
    closed, or by one object and one link with the link destroyed before the object is
    closed.  A recording that does not return, because an exception ends the process or
    the loop over the keys has not ended, holds at most one object and its link. *)
Theorem ebpf_handles_released {W} `{OS W} `{BPF W} t dir st (w : W) l :
  match ebpf_record (W := tracked W) t dir st (w, l) with
  | (Ret _, (_, l')) => released l l'
  | (_, (_, l')) => held l l'
  end.
Proof.
  unfold ebpf_record. unfold mbind at 1, prog_bind at 1.
  assert ((ebpf_candidates (W := tracked W) (w, l)).2.2 = l) as Hk1 by apply (keeps_candidates (w, l)).
  destruct (ebpf_candidates (W := tracked W) (w, l)) as [[cs|x|why] [w1 l1]]; cbn [snd] in Hk1; subst l1;
    [|left; by left..].
  unfold mbind at 1, prog_bind at 1.
  assert ((first_existing (W := tracked W) cs (w1, l)).2.2 = l) as Hk2 by apply (keeps_first_existing cs (w1, l)).
  destruct (first_existing (W := tracked W) cs (w1, l)) as [[c|x|why] [w2 l2]]; cbn [snd] in Hk2; subst l2;
    [|left; by left..].
  destruct c as [path|]; [|by left].
  pose proof (session_log path (pid (sample_argv t)) (perf_duration t) dir st (w2, l)) as Hs.
  unfold mbind at 1, prog_bind at 1.
  destruct (ebpf_session _ _ _ _ _ _) as [[[[ok st'] i]|x|why] [w3 l3]]; [|exact Hs..].
  destruct Hs as ([w4 l4] & Hd & Hrel). by rewrite (prog_bind_step _ _ _ _ _ Hd).
Qed.

Definition ksim_ready : ksim :=
  mkKsim (set_files {["/opt/drop/bpf/offcpu.bpf.o" := "ELF"]} sim0) ∅ ∅ cache0.

Definition ready_run : outcome (bool * rstate) * tracked ksim :=
  ebpf_record (W := tracked ksim) (task_pid 42) "/out" (mkR "" []) (ksim_ready, []).

Example ready_run_events :
  ready_run = (Ret (true, mkR "" ["collapsed_ebpf.txt"]), (ready_run.2.1, [EOpen 1; EAttach 4; EDestroy 4; EClose 1])).
Proof. vm_compute. reflexivity. Qed.
