(* ===== verification/ProfilerFactory.v ===== *)
(** CreateProfiler (profiler_factory.cpp): the profiler of a type number. *)
From stdpp Require Import base strings list.
From Stdlib Require Import ZArith Lia.
From S2P Require Import Prelude Proto OS Profilers EbpfLoader.

Section Factory.
Context {W : Type} `{OS W} `{BPF W}.

(** [None] is the null pointer. *)
Definition CreateProfiler (profiler_type : Z) : option (IProfiler W) :=
  match profiler_type with
  | 0 => Some PerfProfiler
  | 1 => Some AsyncProfilerProfiler
  | 3 => Some EbpfProfiler
  | 5 => Some ScriptRunner
  | _ => None
  end.

Lemma CreateProfiler_cases n p :
  CreateProfiler n = Some p →
  (n = 0 ∧ p = PerfProfiler) ∨ (n = 1 ∧ p = AsyncProfilerProfiler) ∨
  (n = 3 ∧ p = EbpfProfiler) ∨ (n = 5 ∧ p = ScriptRunner).
Proof. unfold CreateProfiler. repeat case_match; naive_solver. Qed.

Lemma CreateProfiler_spec n p : CreateProfiler n = Some p → ProfilerSpec p.
Proof.
  intros [[_ ->]|[[_ ->]|[[_ ->]|[_ ->]]]]%CreateProfiler_cases; apply _.
Qed.
End Factory.

(** * Claims *)

(** The factory makes a profiler exactly for the types 0, 1, 3 and 5, of that
    type; and every profiler it makes keeps the contract of the interface in every
    world: when [record] returns false it has set a non-empty error message, when
    it returns true there are files to collect. *)
Theorem factory_contract {W} `{OS W} `{BPF W} n :
  (is_Some (CreateProfiler (W := W) n) ↔ n = 0 ∨ n = 1 ∨ n = 3 ∨ n = 5) ∧
  ∀ p, CreateProfiler (W := W) n = Some p →
    p_type p = n ∧
    ∀ t dir st w ok st' w', p_record p t dir st w = (Ret (ok, st'), w') →
      if (ok : bool) then collect_result st' ≠ [] else error_msg st' ≠ ""%string.
Proof.
  split.
  - split.
    + intros [p Hp%CreateProfiler_cases]. naive_solver.
    + intros [->|[->|[->| ->]]]; by eexists.
  - intros p Hp. split; [by apply CreateProfiler_cases in Hp as [[-> ->]|[[-> ->]|[[-> ->]|[-> ->]]]]|].
    intros t dir st w ok st' w' Hr. apply CreateProfiler_spec in Hp.
    destruct ok; [by eapply record_success|by eapply record_failure].
Qed.
