(* ===== verification/ContinuousProfiler.v ===== *)
(** ContinuousProfiler (continuous_profiler.cpp): short bursts of another profiler,
    merged in memory and flushed every five minutes as a segment that is uploaded
    and registered with the apiserver.

    [stop()] is called from another thread: [record_with_stop] is given, for every
    round, whether a call falls into it; [continuous_record] is the same loop cut
    off after a number of rounds, and [stop_ends_record] relates the two. *)
From stdpp Require Import base strings list.
From Stdlib Require Import ZArith Lia Ascii.
From S2P Require Import Prelude CppString OrdMap OS Collapsed Proto Profilers EbpfLoader ProfilerFactory.

Local Open Scope string_scope.

Definition kSegmentSeconds : Z := 300.
Definition kSampleBurstSeconds : Z := 30.

Record cstate := mkC {
  stacks_ : stacks;
  segment_start_ts : Z;
  apiserver_addr : string;
  flushed_files : list string;
}.

Definition set_stacks (m : stacks) (s : cstate) : cstate :=
  mkC m (segment_start_ts s) (apiserver_addr s) (flushed_files s).
Definition set_start (ts : Z) (s : cstate) : cstate :=
  mkC (stacks_ s) ts (apiserver_addr s) (flushed_files s).

(** [collect_result] of the continuous profiler. *)
Definition continuous_collect_result (s : cstate) : list string := flushed_files s.
(** [profiler_type()]: a wrapper has none of its own. *)
Definition continuous_profiler_type : Z := 0.

(** [while (fgets(buf, 64, pipe)) result += buf;] *)
Fixpoint fgets_all (fuel : nat) (s : string) : string :=
  match fuel with
  | O => ""
  | S f => match fgets 64 s with None => "" | Some (l, rest) => c_str l +:+ fgets_all f rest end
  end.

(** The answer of curl: the text with the trailing line breaks removed, and the
    status ([0] when [stoi] throws). *)
Definition curl_result (out : string) : string :=
  trim_back is_crlf (fgets_all (String.length out) out).
Definition http_code (result : string) : Z :=
  match stoi result with Ret c => c | _ => 0 end.

(** The path below the directory that holds the file's directory:
    [rfind('/')], then [rfind('/', last_slash - 1)] (which wraps at 0). *)
Definition relative_path (filepath : string) : outcome string :=
  let last_slash := rfind_char "/"%char filepath in
  let second_slash := match last_slash with
                      | Some (S i) => rfind_upto "/"%char filepath i
                      | _ => rfind_char "/"%char filepath end in
  match second_slash with
  | Some i => substr filepath (S i)
  | None => match last_slash with Some i => substr filepath (S i) | None => substr filepath 0 end
  end.

(** The sub-task of a burst. *)
Definition burst_hz (t : TaskDesc) : Z :=
  let hz := to_i32 (hz (sample_argv t)) in if bool_decide (hz <= 0) then 1 else hz.
Definition burst_task (t : TaskDesc) : TaskDesc :=
  let a := sample_argv t in
  mkTaskDesc (task_id t) 0 (profiler_type t)
    (mkRecordArgv (to_u32 (burst_hz t)) kSampleBurstSeconds (pid a) (callgraph a) (subprocess a) (event a))
    "" 0 (if bool_decide (0 < timeout_sec t) then kSampleBurstSeconds + 30 else 0) default_cos "".

(** The commands of an upload and of a registration. *)
Definition upload_command (addr tid filepath rel : string) : string :=
  let url := addr +:+ "/api/v1/tasks/" +:+ tid +:+ "/upload/" +:+ rel in
  "curl -sf -o /dev/null -w '%{http_code}' -F 'file=@" +:+ filepath +:+ "' '" +:+ url +:+
  "' 2>/dev/null".
Definition register_command (addr tid : string) (start_ts end_ts : Z) (s3_key : string) : string :=
  let url := addr +:+ "/api/v1/tasks/" +:+ tid +:+ "/segments" in
  let body := "{" +:+ quote +:+ "start_ts" +:+ quote +:+ ":" +:+ to_string start_ts +:+
              "," +:+ quote +:+ "end_ts" +:+ quote +:+ ":" +:+ to_string end_ts +:+
              "," +:+ quote +:+ "s3_key" +:+ quote +:+ ":" +:+ quote +:+ s3_key +:+ quote +:+ "}" in
  "curl -sf -o /dev/null -w '%{http_code}' -H 'Content-Type: application/json' -d '" +:+
  body +:+ "' '" +:+ url +:+ "' 2>/dev/null".

Section Continuous.
Context {W : Type} `{OS W} `{BPF W}.

Definition merge_collapsed (filepath : string) (s : cstate) : prog W cstate :=
  content ← read_file filepath;
  mret match content with
       | None => s
       | Some c => set_stacks (merge_text c (stacks_ s)) s
       end.

(** Both return success and, for the upload, [*cos_key]. *)
Definition upload_segment (tid filepath : string) (s : cstate) : prog W (bool * string) :=
  rel ← lift (relative_path filepath);
  out ← popen (c_str (upload_command (apiserver_addr s) tid filepath rel));
  match out with
  | None => mret (false, "popen failed")
  | Some (text, rc) =>
      let result := curl_result text in
      if negb (bool_decide (rc = 0)) || negb (bool_decide (http_code result = 200))
      then mret (false, "HTTP " +:+ result)
      else mret (true, tid +:+ "/" +:+ rel)
  end.

Definition register_segment (tid : string) (start_ts end_ts : Z) (s3_key : string) (s : cstate) :
    prog W bool :=
  out ← popen (c_str (register_command (apiserver_addr s) tid start_ts end_ts s3_key));
  mret match out with
       | None => false
       | Some (text, rc) =>
           bool_decide (rc = 0) && bool_decide (http_code (curl_result text) = 200)
       end.

Definition segment_file (output_dir : string) (s : cstate) : string :=
  output_dir +:+ "/" +:+ to_string (segment_start_ts s) +:+ "/collapsed.txt".

Definition flush_segment (tid output_dir : string) (s : cstate) : prog W (bool * string * cstate) :=
  now_ts ← gets os_now;
  let ts_str := to_string (segment_start_ts s) in
  create_directories (output_dir +:+ "/" +:+ ts_str);;
  let seg_file := segment_file output_dir s in
  opened ← write_file seg_file (collapsed_text (stacks_ s));
  if negb opened then mret (false, "cannot create segment file: " +:+ seg_file, s) else
  let s1 := set_stacks [] s in
  file_size seg_file;;
  up ← upload_segment tid seg_file s1;
  let '(uploaded, cos_key) := up in
  if negb uploaded then mret (false, "upload failed for segment " +:+ ts_str, s1) else
  registered ← register_segment tid (segment_start_ts s1) now_ts cos_key s1;
  if negb registered then mret (false, "register segment failed for " +:+ ts_str, s1) else
  mret (true, "", mkC (stacks_ s1) (segment_start_ts s1) (apiserver_addr s1)
                   (flushed_files s1 ++ [ts_str +:+ "/collapsed.txt"])%list).

(** The loop over the files of a burst. *)
Fixpoint merge_files (output_dir : string) (fs : list string) (s : cstate) : prog W cstate :=
  match fs with
  | [] => mret s
  | fname :: fs' =>
      let fpath := output_dir +:+ "/" +:+ fname in
      s1 ← (if contains "collapsed" fname then
              there ← fs_exists fpath;
              if (there : bool) then merge_collapsed fpath s else mret s
            else mret s);
      remove_file fpath;;
      merge_files output_dir fs' s1
  end.

(** One burst with the inner profiler [p]; a failed one is logged and forgotten. *)
Definition burst (p : IProfiler W) (t : TaskDesc) (output_dir : string) (s : cstate) : prog W cstate :=
  r ← p_record p (burst_task t) output_dir (mkR "" []);
  let '(ok, st) := r in
  if (ok : bool) then merge_files output_dir (collect_result st) s else mret s.

(** The flush at the end of a round. *)
Definition maybe_flush (t : TaskDesc) (output_dir : string) (s : cstate) : prog W cstate :=
  now_ts ← gets os_now;
  if bool_decide (kSegmentSeconds <= now_ts - segment_start_ts s) then
    r ← flush_segment (task_id t) output_dir s;
    mret (set_start now_ts r.2)
  else mret s.

(** One round of the loop. *)
Definition one_round (p : IProfiler W) (t : TaskDesc) (output_dir : string) (s : cstate) : prog W cstate :=
  s1 ← burst p t output_dir s;
  s2 ← maybe_flush t output_dir s1;
  modify (os_sleep 1);;
  mret s2.

(** The rounds until the stop request is seen; [inl] is the early return. *)
Fixpoint rounds (n : nat) (t : TaskDesc) (output_dir : string) (s : cstate) :
    prog W (string * cstate + cstate) :=
  match n with
  | O => mret (inr s)
  | S n' =>
      match CreateProfiler (profiler_type t) with
      | None => mret (inl ("unsupported inner profiler_type=" +:+ to_string (profiler_type t), s))
      | Some p => s' ← one_round p t output_dir s; rounds n' t output_dir s'
      end
  end.

(** After the loop: the last flush, whose failure is not looked at. *)
Definition final_flush (t : TaskDesc) (output_dir err : string) (s : cstate) : prog W (bool * string * cstate) :=
  if bool_decide (stacks_ s = []) then mret (true, err, s) else
  f ← flush_segment (task_id t) output_dir s;
  mret (true, err, f.2).

Definition continuous_record (n : nat) (t : TaskDesc) (output_dir err : string) (s : cstate) :
    prog W (bool * string * cstate) :=
  create_directories output_dir;;
  now_ts ← gets os_now;
  r ← rounds n t output_dir (set_start now_ts s);
  match r with
  | inl (e, s') => mret (false, e, s')
  | inr s' => final_flush t output_dir err s'
  end.

(** ** The object with its stop flag *)

Record ContinuousProfiler := mkCP {
  cp_state : cstate;
  stop_requested : bool;
}.

Definition stop (o : ContinuousProfiler) : ContinuousProfiler := mkCP (cp_state o) true.
Definition set_apiserver_addr (addr : string) (o : ContinuousProfiler) : ContinuousProfiler :=
  mkCP (mkC (stacks_ (cp_state o)) (segment_start_ts (cp_state o)) addr (flushed_files (cp_state o)))
    (stop_requested o).

(** [while (!stop_requested_.load())]; [calls] tells for each round whether [stop()]
    is called while it runs.  [None] is a loop that has not ended by then. *)
Fixpoint record_loop (calls : list bool) (t : TaskDesc) (output_dir : string) (o : ContinuousProfiler) :
    prog W (option (string * ContinuousProfiler + ContinuousProfiler)) :=
  if stop_requested o then mret (Some (inr o)) else
  match calls with
  | [] => mret None
  | called :: calls' =>
      match CreateProfiler (profiler_type t) with
      | None => mret (Some (inl ("unsupported inner profiler_type=" +:+ to_string (profiler_type t), o)))
      | Some p =>
          s' ← one_round p t output_dir (cp_state o);
          let o' := mkCP s' (stop_requested o) in
          record_loop calls' t output_dir (if called : bool then stop o' else o')
      end
  end.

Definition record_with_stop (calls : list bool) (t : TaskDesc) (output_dir err : string)
    (o : ContinuousProfiler) : prog W (option (bool * string * cstate)) :=
  create_directories output_dir;;
  now_ts ← gets os_now;
  r ← record_loop calls t output_dir (mkCP (set_start now_ts (cp_state o)) (stop_requested o));
  match r with
  | None => mret None
  | Some (inl (e, o')) => mret (Some (false, e, cp_state o'))
  | Some (inr o') => f ← final_flush t output_dir err (cp_state o'); mret (Some f)
  end.
End Continuous.

(** * Lemmas *)

Section Lemmas.
Context {W : Type} `{OS W} `{BPF W}.

Lemma merge_files_plain dir fs s (w : W) s' w' :
  Forall (λ f, contains "collapsed" f = false) fs →
  merge_files dir fs s w = (Ret s', w') → s' = s.
Proof.
  intros Hfs. revert s w. induction Hfs as [|f fs Hf _ IH]; intros s w Hr; cbn [merge_files] in Hr.
  - by prog_inv.
  - rewrite Hf in Hr. apply prog_bind_Ret in Hr as (s1 & w1 & [-> ->]%mret_Ret & Hr).
    apply prog_bind_Ret in Hr as ([] & w2 & _ & Hr). by eapply IH.
Qed.

(** The loop over [fgets] reads the whole answer of curl: the length of the text is
    fuel enough. *)
Lemma fgets_all_id fuel s :
  no_char "000"%char s → (String.length s <= fuel)%nat → fgets_all fuel s = s.
Proof.
  revert s. induction fuel as [|f IH]; intros s Hz Hlen; [by destruct s; simpl in *; [|lia]|].
  cbn [fgets_all]. destruct (fgets 64 s) as [[l rest]|] eqn:E; [|by destruct s].
  apply fgets_split in E as [-> Hlt]; [|lia]. apply no_char_app in Hz as [Hl Hr].
  rewrite c_str_id, IH by (done || lia). done.
Qed.

(** perf.data is not merged, and the sub-task of a burst has no script to run. *)
Lemma burst_plain p t dir s (w : W) s' w' :
  profiler_type t = 0 ∨ profiler_type t = 5 → CreateProfiler (profiler_type t) = Some p →
  burst p t dir s w = (Ret s', w') → s' = s.
Proof.
  intros Ht Hp Hr. unfold burst in Hr. apply prog_bind_Ret in Hr as ([ok st] & w1 & Hrec & Hr).
  destruct ok; [|by prog_inv]. eapply merge_files_plain; [|exact Hr].
  destruct Ht as [Ht|Ht]; rewrite Ht in Hp; injection Hp as <-.
  - apply perf_record_true in Hrec as (_ & _ & ->). by repeat constructor.
  - by apply script_record_true in Hrec as (_ & _ & Hscript).
Qed.

Lemma flush_effect tid dir s (w : W) ok e s' w' :
  flush_segment tid dir s w = (Ret (ok, e, s'), w') →
  (ok = false ∧ s' = s ∧ ∃ w1 w2, os_write (segment_file dir s) (collapsed_text (stacks_ s)) w1 = (false, w2)) ∨
  ((∃ w1 w2, os_write (segment_file dir s) (collapsed_text (stacks_ s)) w1 = (true, w2)) ∧
   stacks_ s' = [] ∧ segment_start_ts s' = segment_start_ts s ∧
   flushed_files s' = (flushed_files s ++
     if (ok : bool) then [to_string (segment_start_ts s) +:+ "/collapsed.txt"] else [])%list).
Proof.
  unfold flush_segment, write_file. intros Hr.
  apply prog_bind_Ret in Hr as (now & w1 & _ & Hr).
  apply prog_bind_Ret in Hr as ([] & w2 & _ & Hr).
  apply prog_bind_Ret in Hr as (opened & w3 & Hw & Hr).
  apply (proj1 (act_Ret _ _ _ _)) in Hw.
  destruct opened; cbn [negb] in Hr; [right|left; prog_inv; eauto].
  split; [eauto|]. prog_inv; simpl; rewrite ?app_nil_r; done.
Qed.

Lemma maybe_flush_empty t dir s (w : W) s' w' :
  maybe_flush t dir s w = (Ret s', w') → stacks_ s = [] → stacks_ s' = [].
Proof.
  unfold maybe_flush. intros Hr Hs. prog_inv; [|done]. simpl.
  destruct x as [[ok e] s2]. apply flush_effect in H1 as [(_ & -> & _)|(_ & ? & _)]; done.
Qed.

Lemma rounds_plain n t dir s (w : W) r w' :
  profiler_type t = 0 ∨ profiler_type t = 5 → stacks_ s = [] →
  rounds n t dir s w = (Ret r, w') → ∃ s', r = inr s' ∧ stacks_ s' = [].
Proof.
  intros Ht. revert s w. induction n as [|n IH]; intros s w Hs Hr; cbn [rounds] in Hr.
  { prog_inv. eauto. }
  destruct (CreateProfiler (profiler_type t)) as [p|] eqn:Hp; [|by destruct Ht as [Ht|Ht]; rewrite Ht in Hp].
  apply prog_bind_Ret in Hr as (s3 & w3 & Hround & Hr). eapply IH; [|exact Hr].
  unfold one_round in Hround. apply prog_bind_Ret in Hround as (s1 & w1 & Hb & Hround).
  apply prog_bind_Ret in Hround as (s2 & w2 & Hf & Hround). prog_inv.
  apply (burst_plain p t dir s w s1 w1 Ht Hp) in Hb as ->. by eapply maybe_flush_empty.
Qed.

(** ** The stop flag *)

(** The loop with a call of [stop()] in round [k] is the loop of [S k] rounds. *)
Lemma record_loop_stop k rest t dir s (w : W) :
  record_loop (replicate k false ++ true :: rest)%list t dir (mkCP s false) w =
  (r ← rounds (S k) t dir s;
   mret (Some match r with inl (e, s') => inl (e, mkCP s' false) | inr s' => inr (mkCP s' true) end)) w.
Proof.
  revert s w. induction k as [|k IH]; intros s w.
  - simpl. destruct (CreateProfiler _) as [p|]; [|done]. rewrite prog_bind_assoc.
    apply prog_bind_ext. intros s' w'. by destruct rest.
  - cbn [replicate app record_loop]. change (rounds (S (S k)) t dir s) with
      (match CreateProfiler (profiler_type t) with
       | None => mret (inl ("unsupported inner profiler_type=" +:+ to_string (profiler_type t), s))
       | Some p => s' ← one_round p t dir s; rounds (S k) t dir s'
       end : prog W (string * cstate + cstate)).
    cbn [stop_requested]. destruct (CreateProfiler _) as [p|] eqn:Hp; [|done].
    rewrite prog_bind_assoc. apply prog_bind_ext. intros s' w'. apply IH.
Qed.

Lemma record_loop_running k t dir s (w : W) r w' :
  is_Some (CreateProfiler (W := W) (profiler_type t)) →
  record_loop (replicate k false) t dir (mkCP s false) w = (Ret r, w') → r = None.
Proof.
  intros [p Hp]. revert s w. induction k as [|k IH]; intros s w Hr.
  - simpl in Hr. by prog_inv.
  - cbn [replicate record_loop stop_requested] in Hr. rewrite Hp in Hr.
    apply prog_bind_Ret in Hr as (s' & w1 & _ & Hr). by eapply IH.
Qed.
End Lemmas.

(** * Claims *)

(** A flush writes exactly the stacks in memory, from which reading the file
    back restores them; then the memory is empty whether or not the upload and the
    registration succeed, and the segment is listed exactly when both do; when the
    file cannot be created nothing is lost. *)
Theorem flush_segment_effect {W} `{OS W} tid dir s (w : W) ok e s' w' :
  stacks_ok (stacks_ s) →
  flush_segment tid dir s w = (Ret (ok, e, s'), w') →
  ∃ text, merge_text text [] = stacks_ s ∧
  ((ok = false ∧ s' = s ∧ ∃ w1 w2, os_write (segment_file dir s) text w1 = (false, w2)) ∨
   ((∃ w1 w2, os_write (segment_file dir s) text w1 = (true, w2)) ∧
    stacks_ s' = [] ∧ segment_start_ts s' = segment_start_ts s ∧
    flushed_files s' = (flushed_files s ++
      if (ok : bool) then [to_string (segment_start_ts s) +:+ "/collapsed.txt"] else [])%list)).
Proof.
  intros Hok Hr. exists (collapsed_text (stacks_ s)). split; [|by eapply flush_effect].
  rewrite merge_text_collapsed by done. by apply add_counts_self.
Qed.

(** A world in which curl answers 200 twice. *)
Definition sim_upload : sim := mkSim ∅ 1000 ∅ None [] [Some ("200", 0); Some ("200", 0)] [].
Definition cstate_one : cstate := mkC [("main;f", 4)] 700 "http://api" [].
Definition flush_run : outcome (bool * string * cstate) * sim :=
  flush_segment "t1" "/out" cstate_one sim_upload.

Lemma flush_segment_effect_witness :
  flush_run.1 = Ret (true, "", mkC [] 700 "http://api" ["700/collapsed.txt"]) ∧
  ∃ text, merge_text text [] = [("main;f", 4)].
Proof.
  split; [vm_compute; reflexivity|].
  destruct (flush_segment_effect "t1" "/out" cstate_one sim_upload true ""
    (mkC [] 700 "http://api" ["700/collapsed.txt"]) flush_run.2) as (text & Ht & _).
  - split; [split; constructor|]. apply Forall_singleton. by split.
  - vm_compute. reflexivity.
  - exists text. exact Ht.
Defined.

(** With perf (type 0, the default) or the script runner (type 5) as the inner
    profiler, continuous profiling never collects a stack: however long it runs and
    whatever the bursts record, the stacks in memory stay empty, since perf.data is
    not a collapsed file and the sub-task of a burst carries no script; every
    segment it writes is an empty file. *)
Theorem continuous_perf_collects_nothing {W} `{OS W} `{BPF W} n t dir s (w : W) r w' :
  profiler_type t = 0 ∨ profiler_type t = 5 → stacks_ s = [] →
  rounds n t dir s w = (Ret r, w') →
  ∃ s', r = inr s' ∧ stacks_ s' = [] ∧ collapsed_text (stacks_ s') = "".
Proof.
  intros Ht Hs Hr. destruct (rounds_plain n t dir s w r w' Ht Hs Hr) as (s' & -> & Hs').
  exists s'. by rewrite Hs'.
Qed.

(** Two perf bursts that succeed. *)
Definition ksim_perf : ksim :=
  mkKsim (mkSim ∅ 0 ∅ None
    [(Ran false (Exited 0), [("/out/perf.data", "PERFILE2")]);
     (Ran false (Exited 0), [("/out/perf.data", "PERFILE2")])] [] []) ∅ ∅ Symbols.cache0.
Definition cstate0 : cstate := mkC [] 0 "" [].
Definition perf_rounds : outcome (string * cstate + cstate) * ksim :=
  rounds 2 (task_pid 42) "/out" cstate0 ksim_perf.

Lemma continuous_perf_collects_nothing_witness :
  ∃ s', perf_rounds.1 = Ret (inr s') ∧ stacks_ s' = [] ∧ collapsed_text (stacks_ s') = "".
Proof.
  destruct (continuous_perf_collects_nothing 2 (task_pid 42) "/out" cstate0 ksim_perf
    (inr cstate0) perf_rounds.2) as (s' & E & Hs').
  - left. reflexivity.
  - reflexivity.
  - vm_compute. reflexivity.
  - exists s'. split; [|exact Hs']. rewrite <-E. vm_compute. reflexivity.
Defined.

(** A successful burst whose profiler leaves one collapsed file adds exactly
    the stacks of that file to the memory, so that no sample is lost (modulo
    2^64), and removes the file. *)
Theorem burst_merges_samples {W} `{OS W} p t dir s (w : W) st f m w1 w2 :
  p_record p (burst_task t) dir (mkR "" []) w = (Ret (true, st), w1) →
  collect_result st = [f] → contains "collapsed" f = true →
  os_exists (dir +:+ "/" +:+ f) w1 = Some true →
  os_read (dir +:+ "/" +:+ f) w1 = Some (collapsed_text m) → stacks_ok m →
  os_remove (dir +:+ "/" +:+ f) w1 = (true, w2) →
  ∃ s', burst p t dir s w = (Ret s', w2) ∧
    (∀ k, om_get k (stacks_ s') = match om_get k m with
                                  | None => om_get k (stacks_ s)
                                  | Some c => Some (to_u64 (default 0 (om_get k (stacks_ s)) + c))
                                  end) ∧
    to_u64 (total (stacks_ s')) = to_u64 (total (stacks_ s) + total m).
Proof.
  intros Hr Hc Hf He Hread Hm Hrm. exists (set_stacks (add_counts m (stacks_ s)) s).
  split; [|split; [intros k; by apply add_counts_map, Hm|apply total_add_counts]].
  unfold burst. rewrite (prog_bind_step _ _ _ _ _ Hr), Hc. cbn [merge_files].
  rewrite Hf. unfold fs_exists, fs_gets, merge_collapsed, read_file, gets, mbind, prog_bind.
  rewrite He. simpl. rewrite Hread. simpl. unfold remove_file. rewrite Hrm. by rewrite merge_text_collapsed.
Qed.

(** async-profiler installed; its next run writes two stacks. *)
Definition sim_async : sim :=
  mkSim {["/opt/async-profiler/bin/asprof" := "ELF"]} 0 ∅ None
    [(Ran false (Exited 0), [("/out/async_profiler.collapsed", "a;b 2" +:+ nl +:+ "main;f 4" +:+ nl)])] [] [].
Definition async_rec : outcome (bool * rstate) * sim :=
  p_record AsyncProfilerProfiler (burst_task (task_pid 42)) "/out" (mkR "" []) sim_async.

Lemma burst_merges_samples_witness :
  ∃ s', burst AsyncProfilerProfiler (task_pid 42) "/out" cstate_one sim_async =
          (Ret s', (os_remove "/out/async_profiler.collapsed" async_rec.2).2) ∧
    to_u64 (total (stacks_ s')) = 10.
Proof.
  destruct (burst_merges_samples AsyncProfilerProfiler (task_pid 42) "/out" cstate_one sim_async
    (mkR "" ["async_profiler.collapsed"]) "async_profiler.collapsed" [("a;b", 2); ("main;f", 4)] async_rec.2
    (os_remove "/out/async_profiler.collapsed" async_rec.2).2)
    as (s' & Hb & _ & Ht).
  - vm_compute. reflexivity.
  - reflexivity.
  - reflexivity.
  - vm_compute. reflexivity.
  - vm_compute. reflexivity.
  - split.
    + simpl. split; [|split; [constructor|exact I]]. apply Forall_singleton. reflexivity.
    + apply Forall_cons. split; [by split|]. apply Forall_singleton. by split.
  - reflexivity.
  - exists s'. split; [exact Hb|]. rewrite Ht. vm_compute. reflexivity.
Defined.

(** The stop request ends the loop after the round it falls into, neither
    earlier nor later: when [stop()] is called during round [k], [record] does
    exactly what the loop of [k + 1] rounds does, the last flush included; when it
    is called before, no burst is run; and while it is not called, [record] does not
    return however many rounds go by, as long as the inner profiler exists. *)
Theorem stop_ends_record {W} `{OS W} `{BPF W} k rest t dir err s (w : W) :
  record_with_stop (replicate k false ++ true :: rest)%list t dir err (mkCP s false) w =
    (r ← continuous_record (S k) t dir err s; mret (Some r)) w ∧
  record_with_stop rest t dir err (stop (mkCP s false)) w =
    (r ← continuous_record 0 t dir err s; mret (Some r)) w ∧
  (∀ n r w', is_Some (CreateProfiler (W := W) (profiler_type t)) →
     record_with_stop (replicate n false) t dir err (mkCP s false) w = (Ret r, w') → r = None).
Proof.
  split; [|split].
  - unfold record_with_stop, continuous_record. rewrite !prog_bind_assoc.
    apply prog_bind_ext. intros [] w1. rewrite !prog_bind_assoc. apply prog_bind_ext. intros now w2.
    cbn [cp_state stop_requested]. rewrite !prog_bind_assoc.
    unfold mbind at 1, prog_bind at 1. rewrite record_loop_stop.
    unfold mbind, prog_bind. destruct (rounds (S k) t dir (set_start now s) w2) as [[[[]|]| |] ?]; done.
  - unfold record_with_stop, continuous_record. rewrite !prog_bind_assoc.
    apply prog_bind_ext. intros [] w1. rewrite !prog_bind_assoc. apply prog_bind_ext. intros now w2.
    by destruct rest.
  - intros n r w' Hp Hr. unfold record_with_stop in Hr.
    apply prog_bind_Ret in Hr as ([] & w1 & _ & Hr). apply prog_bind_Ret in Hr as (now & w2 & _ & Hr).
    apply prog_bind_Ret in Hr as (o & w3 & Hl & Hr). apply record_loop_running in Hl as ->; [|done].
    by prog_inv.
Qed.
