(* ===== verification/ProfileWindow.v ===== *)
(** The files of the agents in apiserver/server/handler.go: UploadTaskFile, the segments
    of continuous profiling, and GetProfileWindow, which merges the folded stacks of
    the segments that overlap a window. *)
From stdpp Require Import base gmap strings list sorting.
From Stdlib Require Import ZArith Lia Ascii.
From S2P Require Import Prelude CppString OrdMap Json Proto PGStore ApiStatements Collapsed ApiServer Scheduler.


(** * UploadTaskFile *)

(** [strings.TrimPrefix(filename, "/")] *)
Definition trim_slash (filename : string) : string :=
  match filename with String "/"%char f => f | _ => filename end.

Definition has_suffix (suffix s : string) : bool :=
  bool_decide (str_drop (String.length s - String.length suffix) s = suffix) &&
  (String.length suffix <=? String.length s)%nat.

Definition content_type (filename : string) : string :=
  if has_suffix ".svg" filename then "image/svg+xml"
  else if has_suffix ".json" filename then "application/json"
  else if has_suffix ".txt" filename then "text/plain"
  else "application/octet-stream".

(** [file] is the content of the form's file, if there is one; [put_ok], [sel_ok] and
    [upd_ok] are the answers of the storage and of the two statements. *)
Definition UploadTaskFile (put_ok sel_ok upd_ok : bool) (tid filename0 : string) (file : option string)
    (a : api) : reply string * api :=
  if bool_decide (tid = "") || bool_decide (filename0 = "") then (fail 400 4000100, a) else
  let filename := trim_slash filename0 in
  match ap_store a with
  | None => (fail 503 5030100, a)
  | Some store =>
      match file with
      | None => (fail 400 4000101, a)
      | Some content =>
          let cosKey := tid +:+ "/" +:+ filename in
          if negb put_ok then (fail 500 5000100, a) else
          let a1 := set_store (Some (<[cosKey := content]> store)) a in
          (done_with cosKey,
           match (if sel_ok then find_live tid (ap_db a1) else None) with
           | Some task => if bool_decide (c_cos_key (t_cols task) = "")
                          then run_stmt upd_ok (SetCosKey tid cosKey) a1 else a1
           | None => a1
           end)
      end
  end.

(** * Segments *)

Definition CreateSegment (ok : bool) (tid : string) (req : option (Z * Z * string)) (a : api)
    : reply Z * api :=
  match req with
  | None => (fail 400 4000011, a)
  | Some (st, en, key) =>
      if ok then let a1 := add_segment tid st en key a in (done_with (ap_segments_seq a1), a1)
      else (fail 500 5000011, a)
  end.

(** [ORDER BY start_ts ASC] *)
Definition by_start (x y : segment) : Prop := start_ts x <= start_ts y.
#[global] Instance by_start_dec : RelDecision by_start.
Proof. intros x y. unfold by_start. apply _. Defined.

Definition ListSegments (ok : bool) (tid : string) (a : api) : reply (list segment) :=
  done_with (if ok then merge_sort by_start (filter (λ g, seg_tid g = tid) (ap_segments a)) else []).

(** * GetProfileWindow *)

(** [bufio.Scanner] with its defaults: lines without the line break and one carriage
    return before it, up to the first line of 64 kB or more, where it stops. *)
Definition drop_cr (l : string) : string :=
  match rfind_char ch_cr l with
  | Some i => if (S i =? String.length l)%nat then str_take i l else l
  | None => l
  end.
Definition max_token : nat := Z.to_nat 65536.
Fixpoint until_long (ls : list string) : list string :=
  match ls with
  | [] => []
  | l :: ls' => if (String.length l <? max_token)%nat then l :: until_long ls' else []
  end.
Definition scan_lines (content : string) : list string := map drop_cr (until_long (getlines ch_nl content)).

(** [strconv.ParseUint(s, 10, 64)] *)
Definition ParseUint (s : string) : option Z :=
  match scan_digits 10 s 0 false with
  | (v, true, "") => if v <? 2 ^ 64 then Some v else None
  | _ => None
  end.

(** The body of the loop over the lines. *)
Definition window_line (line : string) : option (string * Z) :=
  if bool_decide (line = "") then None else
  match rfind_char " "%char line with
  | None => None
  | Some lastSpace =>
      match ParseUint (str_drop (S lastSpace) line) with
      | Some count => Some (str_take lastSpace line, count)
      | None => None
      end
  end.

(** [merged[stack] += count] *)
Definition merge_count (stack : string) (count : Z) (m : gmap string Z) : gmap string Z :=
  <[stack := to_u64 (default 0 (m !! stack) + count)]> m.

Definition merge_object (m : gmap string Z) (content : string) : gmap string Z :=
  foldl (λ m line, match window_line line with Some (s, c) => merge_count s c m | None => m end)
    m (scan_lines content).

(** The segments of a task that overlap [start, end). *)
Definition overlaps (tid : string) (start end_ : Z) (g : segment) : bool :=
  bool_decide (seg_tid g = tid) && (start_ts g <? end_) && (start <? end_ts g).
Definition window_segments (tid : string) (start end_ : Z) (a : api) : list segment :=
  merge_sort by_start (filter (overlaps tid start end_) (ap_segments a)).

(** [get_ok]: the answers of the storage, by key; [range]: the order in which Go walks a
    map. *)
Definition GetProfileWindow (find_ok : bool) (get_ok : string → bool)
    (range : gmap string Z → list (string * Z)) (tid : string) (window : option (Z * Z)) (a : api)
    : reply string :=
  match window with
  | None => fail 400 4000012
  | Some (start, end_) =>
      if (start =? 0) || (end_ =? 0) then fail 400 4000012 else
      let segments := if find_ok then window_segments tid start end_ a else [] in
      match segments with
      | [] => fail 404 4040012
      | _ =>
          match ap_store a with
          | None => fail 503 5030012
          | Some store =>
              let merged := foldl (λ m g,
                match (if get_ok (s3_key g) then store !! s3_key g else None) with
                | Some content => merge_object m content
                | None => m
                end) ∅ segments in
              if bool_decide (merged = ∅) then fail 404 4040013
              else done_with (collapsed_text (range merged))
          end
      end
  end.

(** * Lemmas *)

Lemma drop_cr_id l : no_char ch_cr l → drop_cr l = l.
Proof. intros H. unfold drop_cr. by rewrite rfind_no_char. Qed.

(** A line that ends in a digit loses nothing. *)
Lemma drop_cr_app l s : no_char ch_cr s → s ≠ "" → drop_cr (l +:+ s) = l +:+ s.
Proof.
  intros Hs Hne. unfold drop_cr. destruct (rfind_char ch_cr (l +:+ s)) as [i|] eqn:E; [|done].
  destruct (Nat.eqb_spec (S i) (String.length (l +:+ s))) as [Hi|]; [|done]. exfalso.
  assert (i < String.length l)%nat as Hlt.
  { revert i E Hi. induction l as [|b l IH]; simpl; intros i E Hi.
    - by rewrite rfind_no_char in E.
    - destruct (rfind_char ch_cr (l +:+ s)) as [j|] eqn:Ej; [|destruct (ascii_dec b ch_cr)]; simplify_eq.
      + specialize (IH j eq_refl). lia.
      + lia. }
  rewrite str_length_app in Hi. destruct s; [done|]. simpl in Hi. lia.
Qed.

Lemma ParseUint_to_string n : is_u64 n → ParseUint (to_string n) = Some n.
Proof.
  intros Hn. unfold ParseUint. rewrite to_string_nonneg by apply Hn. unfold print_base.
  rewrite scan_print_base by (unfold is_u64 in Hn; lia). simpl.
  destruct (Z.ltb_spec n (2 ^ 64)); [done|]. unfold is_u64 in Hn. lia.
Qed.

Lemma to_string_no_cr n : 0 <= n → no_char ch_cr (to_string n).
Proof.
  intros Hn. rewrite to_string_nonneg by done. apply print_base_no_char; [lia|done|].
  intros d Hd. destruct (digit_char_plain d Hd) as (Hsp & _). intros E. rewrite E in Hsp. done.
Qed.

Lemma window_line_collapsed p : is_u64 p.2 → window_line (drop_cr (collapsed_line p)) = Some p.
Proof.
  destruct p as [s c]. simpl. intros Hc. unfold collapsed_line. cbn [fst snd].
  change (" " +:+ to_string c) with (String " "%char (to_string c)).
  assert (s +:+ String " "%char (to_string c) = (s +:+ " ") +:+ to_string c) as E
    by (by rewrite str_app_assoc).
  rewrite E, drop_cr_app, <-E by (apply to_string_no_cr, Hc || apply to_string_nonempty).
  unfold window_line. rewrite bool_decide_eq_false_2 by (by intros [_ ?]%str_app_eq_nil).
  rewrite rfind_app by (rewrite to_string_nonneg by apply Hc; apply print_base_no_space; apply Hc).
  rewrite str_drop_app_S, ParseUint_to_string by done. by rewrite str_take_app.
Qed.

(** A file as the agent writes it, with lines the scanner takes. *)
Definition file_ok (l : list (string * Z)) : Prop :=
  Forall (λ p, no_char ch_nl p.1 ∧ is_u64 p.2 ∧ (String.length (collapsed_line p) < max_token)%nat) l.

Definition merge_counts (l : list (string * Z)) (m : gmap string Z) : gmap string Z :=
  foldl (λ m p, merge_count p.1 p.2 m) m l.

Lemma until_long_id ls : Forall (λ l, (String.length l < max_token)%nat) ls → until_long ls = ls.
Proof.
  induction 1 as [|l ls Hl _ IH]; [done|]. cbn [until_long].
  destruct (Nat.ltb_spec (String.length l) max_token); [by rewrite IH|lia].
Qed.

Lemma merge_object_collapsed l m : file_ok l → merge_object m (collapsed_text l) = merge_counts l m.
Proof.
  intros Hl. unfold merge_object, scan_lines.
  rewrite collapsed_text_lines, getlines_unlines, until_long_id.
  - revert m. induction Hl as [|p l (_ & Hc & _) Hl IH]; intros m; [done|].
    cbn [map foldl merge_counts]. rewrite window_line_collapsed by done. destruct p as [s c]. by rewrite IH.
  - apply Forall_map. eapply Forall_impl; [exact Hl|]. by intros p (_ & _ & ?).
  - apply Forall_map. eapply Forall_impl; [exact Hl|]. intros p (? & ? & _). by apply collapsed_line_no_nl.
Qed.

Lemma merge_counts_app l1 l2 m : merge_counts (l1 ++ l2) m = merge_counts l2 (merge_counts l1 m).
Proof. apply foldl_app. Qed.

Lemma merge_counts_lookup s l m :
  merge_counts l m !! s =
    match filter (λ p, p.1 = s) l with
    | [] => m !! s
    | _ => Some (to_u64 (default 0 (m !! s) + count_of s l))
    end.
Proof.
  revert m. induction l as [|[s' c] l IH]; intros m; [done|].
  change (merge_counts ((s', c) :: l) m) with (merge_counts l (merge_count s' c m)). rewrite IH.
  unfold count_of. rewrite filter_cons. cbn [fst snd]. unfold merge_count.
  case_decide as E; [subst s'|].
  - rewrite lookup_insert_eq. simpl. destruct (filter _ l) as [|q f]; [simpl; do 2 f_equal; lia|].
    rewrite to_u64_add_l. do 2 f_equal. unfold total. simpl. lia.
  - by rewrite lookup_insert_ne.
Qed.

Lemma merge_counts_names l m s : is_Some (merge_counts l m !! s) ↔ s ∈ map fst l ∨ is_Some (m !! s).
Proof.
  rewrite merge_counts_lookup. destruct (filter (λ p, p.1 = s) l) as [|p f] eqn:E.
  - split; [by right|]. intros [Hin|]; [|done]. apply list_elem_of_fmap in Hin as (p & -> & Hp).
    assert (p ∈ filter (λ q : string * Z, q.1 = p.1) l) as Hf by (by apply list_elem_of_filter).
    rewrite E in Hf. by apply not_elem_of_nil in Hf.
  - split; [|eauto]. intros _. left.
    assert (p ∈ filter (λ p : string * Z, p.1 = s) l) as [<- Hp]%list_elem_of_filter by (rewrite E; by left).
    by apply list_elem_of_fmap_2.
Qed.

(** The text of a map of counts, in any order, read back by the agent's reader. *)
Lemma text_of_map l (m : gmap string Z) :
  l ≡ₚ map_to_list m → map_Forall (λ s c, no_char ch_nl s ∧ is_u64 c) m →
  ∀ s, om_get s (merge_text (collapsed_text l) []) = m !! s.
Proof.
  intros Hl Hm s. assert (Forall (λ p, no_char ch_nl p.1 ∧ is_u64 p.2) l) as Hall.
  { rewrite Hl. apply Forall_forall. intros [s' c] Hin%elem_of_map_to_list. by apply (Hm s' c). }
  rewrite merge_text_lines by done. rewrite add_counts_get. unfold count_of.
  assert (filter (λ p, p.1 = s) l ≡ₚ match m !! s with Some c => [(s, c)] | None => [] end) as Hf.
  { rewrite Hl. clear. induction m as [|s' c m Hno IH] using map_ind.
    - rewrite map_to_list_empty, lookup_empty. done.
    - rewrite map_to_list_insert, filter_cons by done. cbn [fst]. case_decide as E.
      + subst s'. rewrite lookup_insert_eq, IH, Hno. done.
      + by rewrite lookup_insert_ne by done. }
  destruct (m !! s) as [c|] eqn:E.
  - apply Permutation_singleton_r in Hf. rewrite Hf. rewrite total_cons. cbn. f_equal.
    rewrite Z.add_0_r. apply to_u64_id. by apply (Hm s c).
  - apply Permutation_nil_r in Hf. by rewrite Hf.
Qed.

(** The counts of a merge are 64-bit and its names those of the files. *)
Lemma merge_counts_ok l m :
  Forall (λ p, no_char ch_nl p.1) l →
  map_Forall (λ s c, no_char ch_nl s ∧ is_u64 c) m →
  map_Forall (λ s c, no_char ch_nl s ∧ is_u64 c) (merge_counts l m).
Proof.
  intros Hl. revert m. induction Hl as [|p l Hp Hl IH]; intros m Hm; [done|]. apply IH.
  apply map_Forall_insert_2; [|done]. split; [done|apply to_u64_range].
Qed.

(** The loop over the segments. *)
Lemma merge_segments (store : gmap string string) content segs m :
  Forall (λ g, store !! s3_key g = Some (collapsed_text (content g)) ∧ file_ok (content g)) segs →
  foldl (λ m g, match store !! s3_key g with Some c => merge_object m c | None => m end) m segs =
  merge_counts (concat (map content segs)) m.
Proof.
  intros H. revert m. induction H as [|g segs [Hg Hf] _ IH]; intros m; [done|].
  cbn [foldl map concat]. by rewrite Hg, merge_object_collapsed, merge_counts_app, IH.
Qed.

(** A line of 64 kB or more ends the reading of its file: what follows is dropped without
    an error. *)
Lemma long_line_drops_rest l p l' m :
  file_ok l → Forall (λ p, no_char ch_nl p.1 ∧ is_u64 p.2) (p :: l') →
  (max_token <= String.length (collapsed_line p))%nat →
  merge_object m (collapsed_text (l ++ p :: l')) = merge_object m (collapsed_text l).
Proof.
  intros Hl Hp Hlong. unfold merge_object, scan_lines. rewrite !collapsed_text_lines.
  assert (∀ ps, Forall (λ p, no_char ch_nl p.1 ∧ is_u64 p.2) ps →
    Forall (no_char ch_nl) (map collapsed_line ps)) as Hnl.
  { intros ps H. apply Forall_map. eapply Forall_impl; [exact H|]. intros q [? ?]. by apply collapsed_line_no_nl. }
  assert (Forall (λ p, no_char ch_nl p.1 ∧ is_u64 p.2) l) as Hl0.
  { eapply Forall_impl; [exact Hl|]. naive_solver. }
  rewrite !getlines_unlines by (apply Hnl; rewrite ?Forall_app; auto). do 2 f_equal.
  rewrite map_app. cbn [map]. clear -Hl Hlong. induction Hl as [|q l (_ & _ & Hq) Hl IH]; cbn [map app until_long].
  - destruct (Nat.ltb_spec (String.length (collapsed_line p)) max_token); [lia|done].
  - destruct (Nat.ltb_spec (String.length (collapsed_line q)) max_token); [by rewrite IH|lia].
Qed.

(** The key of an upload is the one the agent registers ([upload_segment] of
    [ContinuousProfiler]: the task id, a slash and the path below the directory of the
    task), and the object is there. *)
Lemma upload_key b1 b2 tid rel content a store :
  tid ≠ "" → ap_store a = Some store →
  let '(r, a') := UploadTaskFile true b1 b2 tid (String "/"%char rel) (Some content) a in
  rdata r = Some (tid +:+ "/" +:+ rel) ∧
  ap_store a' = Some (<[tid +:+ "/" +:+ rel := content]> store) ∧
  rtc api_write (ap_db a) (ap_db a').
Proof.
  intros Htid Hst. unfold UploadTaskFile. rewrite bool_decide_eq_false_2 by done. cbn [orb].
  rewrite bool_decide_eq_false_2 by done. rewrite Hst. cbn [negb trim_slash]. split; [done|].
  assert (∀ a1, ap_store (run_stmt b2 (SetCosKey tid (tid +:+ "/" +:+ rel)) a1) = ap_store a1) as E
    by (intros; by destruct b2).
  case_match; [|by split]. case_bool_decide; [|by split]. rewrite E. split; [done|].
  by apply (run_stmt_write b2 (SetCosKey tid (tid +:+ "/" +:+ rel)) (set_store _ a)).
Qed.

(** * Claims *)

(** The two segments of TestGetProfileWindow_Merge, uploaded and registered. *)
Definition put_segment (ts : Z) (l : list (string * Z)) (a : api) : api :=
  let rel := to_string ts +:+ "/collapsed.txt" in
  let a1 := (UploadTaskFile true true true "mergetest" ("/" +:+ rel) (Some (collapsed_text l)) a).2 in
  (CreateSegment true "mergetest" (Some (ts, ts + 300, "mergetest/" +:+ rel)) a1).2.
Definition seg_a : list (string * Z) := [("main;foo", 10); ("main;bar", 5)].
Definition seg_b : list (string * Z) := [("main;foo", 20); ("main;baz", 8)].
Definition api_merge : api := put_segment 1718500300 seg_b (put_segment 1718500000 seg_a api0).
Definition seg_content (g : segment) : list (string * Z) :=
  if start_ts g =? 1718500000 then seg_a else seg_b.

(** The profile of a time window: when the files of the segments that overlap the
    window hold folded stacks as the agent writes them, the answer is a file of the
    same format whose count of every stack is the sum of its counts over those
    segments (modulo 2^64), with no other stack in it, whatever order Go walks its
    map in; the agent's reader is used to read the answer. *)
Theorem profile_window_exact range tid start end_ a store content :
  (∀ m, range m ≡ₚ map_to_list m) → start ≠ 0 → end_ ≠ 0 → ap_store a = Some store →
  let segs := window_segments tid start end_ a in
  Forall (λ g, store !! s3_key g = Some (collapsed_text (content g)) ∧ file_ok (content g)) segs →
  let samples := concat (map content segs) in
  samples ≠ [] →
  segs ≡ₚ filter (overlaps tid start end_) (ap_segments a) ∧
  ∃ text, GetProfileWindow true (λ _, true) range tid (Some (start, end_)) a = done_with text ∧
    ∀ s, om_get s (merge_text text []) =
      if decide (s ∈ map fst samples) then Some (to_u64 (count_of s samples)) else None.
Proof.
  intros Hrange Hs He Hst segs Hsegs samples Hne. split; [apply merge_sort_Permutation|].
  pose proof (merge_segments store content segs ∅ Hsegs) as Hm. fold samples in Hm.
  assert (Forall (λ p, no_char ch_nl p.1) samples) as Hnl.
  { apply Forall_concat, Forall_map. eapply Forall_impl; [exact Hsegs|]. intros g [_ Hg].
    eapply Forall_impl; [exact Hg|]. naive_solver. }
  set (merged := merge_counts samples ∅) in *.
  exists (collapsed_text (range merged)). split.
  - unfold GetProfileWindow. destruct (Z.eqb_spec start 0); [done|]. destruct (Z.eqb_spec end_ 0); [done|].
    cbn [orb]. fold segs. destruct segs as [|g segs'] eqn:Eg; [by destruct Hne; subst samples|].
    rewrite <-Eg in *. rewrite Hst, Hm. case_bool_decide as E; [exfalso|done].
    destruct samples as [|[s c] l] eqn:Es; [done|].
    assert (is_Some (merged !! s)) as [? Hx] by (apply merge_counts_names; left; by left).
    by rewrite E, lookup_empty in Hx.
  - intros s. rewrite (text_of_map _ merged);
      [|apply Hrange|apply merge_counts_ok; [done|apply map_Forall_empty]].
    pose proof (merge_counts_names samples ∅ s) as Hn. fold merged in Hn.
    subst merged. case_decide as Hin.
    + rewrite merge_counts_lookup in *. destruct (filter _ samples) eqn:E; [|by rewrite lookup_empty].
      rewrite lookup_empty in *. assert (is_Some (@None Z)) as [? ?] by (apply Hn; by left). done.
    + destruct (merge_counts samples ∅ !! s) eqn:E; [|done]. exfalso.
      destruct (proj1 Hn) as [?|[? Hx]]; [by eexists|done|]. by rewrite lookup_empty in Hx.
Qed.

Lemma profile_window_exact_witness :
  ∃ text, GetProfileWindow true (λ _, true) map_to_list "mergetest" (Some (1718500000, 1718500600)) api_merge =
            done_with text ∧
    om_get "main;foo" (merge_text text []) = Some 30 ∧ om_get "main;baz" (merge_text text []) = Some 8.
Proof.
  destruct (profile_window_exact map_to_list "mergetest" 1718500000 1718500600 api_merge
    {["mergetest/1718500000/collapsed.txt" := collapsed_text seg_a;
      "mergetest/1718500300/collapsed.txt" := collapsed_text seg_b]} seg_content) as (_ & text & Hw & Hc).
  - done.
  - discriminate.
  - discriminate.
  - vm_compute. reflexivity.
  - apply (bool_decide_unpack _). vm_compute. reflexivity.
  - vm_compute. discriminate.
  - exists text. split; [exact Hw|]. rewrite !Hc. split; vm_compute; reflexivity.
Defined.

