(* ===== verification/PyText.v ===== *)
(** Python: the parts of [str], [int], [dict] and [sorted] that the scripts of analysis/
    use.  A [str] is the list of its code points. *)
From stdpp Require Import base strings list sorting.
From Stdlib Require Import ZArith Lia Ascii.
From S2P Require Import Prelude CppString OrdMap Collapsed.

Definition pystr : Type := list Z.

(** A text of ASCII characters. *)
Definition of_ascii (s : string) : pystr :=
  map (λ a, Z.of_N (N_of_ascii a)) (String.list_ascii_of_string s).

(** * Spaces and lines *)

Definition within (lo hi c : Z) : bool := (lo <=? c) && (c <=? hi).

(** [c.isspace()] *)
Definition py_isspace (c : Z) : bool :=
  within 9 13 c || within 28 32 c || (c =? 133) || (c =? 160) || (c =? 5760) || within 8192 8202 c ||
  (c =? 8232) || (c =? 8233) || (c =? 8239) || (c =? 8287) || (c =? 12288).

(** Where [splitlines] ends a line. *)
Definition py_linebreak (c : Z) : bool :=
  within 10 13 c || within 28 30 c || (c =? 133) || (c =? 8232) || (c =? 8233).

Fixpoint skip (p : Z → bool) (s : pystr) : pystr :=
  match s with
  | [] => []
  | c :: s' => if p c then skip p s' else s
  end.

Definition strip_by (p : Z → bool) (s : pystr) : pystr := reverse (skip p (reverse (skip p s))).
Definition strip : pystr → pystr := strip_by py_isspace.

(** Lines without their ends; "\r\n" is one end. *)
Fixpoint lines_by (brk : Z → bool) (s : pystr) : list pystr :=
  match s with
  | [] => []
  | c :: s' =>
      if brk c then
        match s' with
        | d :: s'' => if (c =? 13) && (d =? 10) then [] :: lines_by brk s'' else [] :: lines_by brk s'
        | [] => [[]]
        end
      else match lines_by brk s' with l :: ls => (c :: l) :: ls | [] => [[c]] end
  end.

Definition splitlines : pystr → list pystr := lines_by py_linebreak.

(** The lines of a text file (universal newlines); the readers strip them. *)
Definition file_lines : pystr → list pystr := lines_by (λ c, (c =? 10) || (c =? 13)).

(** [s.split(sep)] for a separator of one character. *)
Fixpoint split (sep : Z) (s : pystr) : list pystr :=
  match s with
  | [] => [[]]
  | c :: s' =>
      if c =? sep then [] :: split sep s'
      else match split sep s' with l :: ls => (c :: l) :: ls | [] => [[c]] end
  end.

(** [s.rsplit(" ", 1)], and [s] cut at [s.rfind(" ")]: [None] when there is no space. *)
Fixpoint rsplit_space (s : pystr) : option (pystr * pystr) :=
  match s with
  | [] => None
  | c :: s' =>
      match rsplit_space s' with
      | Some (a, b) => Some (c :: a, b)
      | None => if c =? 32 then Some ([], s') else None
      end
  end.

(** [frames[:n]] *)
Definition slice_to {A} (n : Z) (l : list A) : list A :=
  take (Z.to_nat (if n <? 0 then Z.of_nat (length l) + n else n)) l.

(** * int

    [udecimal] is the table of the decimal digits beyond ASCII. *)
Section py_int.
Context (udecimal : Z → option Z).

Definition decimal (c : Z) : option Z :=
  if c <? 128 then if within 48 57 c then Some (c - 48) else None else udecimal c.

(** The spaces that [int] ignores: not the separators 28 to 31. *)
Definition int_space (c : Z) : bool := py_isspace c && negb (within 28 31 c).

(** Digits with single underscores between them: the number and how many digits. *)
Fixpoint int_digits (acc : Z) (n : nat) (s : pystr) (after_digit : bool) : option (Z * nat) :=
  match s with
  | [] => if after_digit then Some (acc, n) else None
  | c :: s' =>
      if c =? 95 then if after_digit then int_digits acc n s' false else None
      else match decimal c with
           | Some d => int_digits (acc * 10 + d) (S n) s' true
           | None => None
           end
  end.

Definition max_str_digits : nat := 4300.

(** [int(s)]; [None] is ValueError. *)
Definition py_int (s : pystr) : option Z :=
  let s1 := strip_by int_space s in
  let '(neg, s2) := match s1 with
                    | c :: s' => if c =? 45 then (true, s') else if c =? 43 then (false, s') else (false, s1)
                    | [] => (false, s1)
                    end in
  match int_digits 0 0 s2 false with
  | Some (v, n) => if (max_str_digits <? n)%nat then None else Some (if neg : bool then - v else v)
  | None => None
  end.

(** A line of a collapsed file, "frame;frame count": its stack and count. *)
Definition stack_line (line0 : pystr) : option (pystr * Z) :=
  let line := strip line0 in
  match rsplit_space line with
  | None => None
  | Some (stack_str, count_str) => (λ count, (stack_str, count)) <$> py_int count_str
  end.
End py_int.

(** * dict: keys in the order of their insertion *)

(** [d[k] = d.get(k, 0) + v] *)
Fixpoint dict_add (k : pystr) (v : Z) (d : list (pystr * Z)) : list (pystr * Z) :=
  match d with
  | [] => [(k, v)]
  | (k', v') :: d' => if decide (k' = k) then (k', v' + v) :: d' else (k', v') :: dict_add k v d'
  end.

Fixpoint dict_get (k : pystr) (d : list (pystr * Z)) : option Z :=
  match d with
  | [] => None
  | (k', v') :: d' => if decide (k' = k) then Some v' else dict_get k d'
  end.

(** * sorted(d.items(), key=lambda x: -x[1]): stable *)

Fixpoint insert_desc (x : pystr * Z) (l : list (pystr * Z)) : list (pystr * Z) :=
  match l with
  | [] => [x]
  | y :: l' => if y.2 <=? x.2 then x :: l else y :: insert_desc x l'
  end.
Definition sorted_desc (l : list (pystr * Z)) : list (pystr * Z) := foldr insert_desc [] l.

(** * Lemmas *)

(** ** dict *)

Definition sum_counts (l : list Z) : Z := foldr Z.add 0 l.

Lemma sum_counts_app l1 l2 : sum_counts (l1 ++ l2) = sum_counts l1 + sum_counts l2.
Proof. induction l1 as [|x l1 IH]; simpl; [done|]. rewrite IH. lia. Qed.

Lemma dict_add_get k v d k' :
  dict_get k' (dict_add k v d) = if decide (k = k') then Some (default 0 (dict_get k d) + v) else dict_get k' d.
Proof.
  induction d as [|[k1 v1] d IH]; simpl.
  - by case_decide.
  - destruct (decide (k1 = k)) as [->|]; simpl.
    + by destruct (decide (k = k')).
    + rewrite IH. destruct (decide (k = k')) as [->|]; [|done]. by rewrite decide_False.
Qed.

Lemma dict_add_keys k v d :
  map fst (dict_add k v d) = if decide (k ∈ map fst d) then map fst d else (map fst d ++ [k])%list.
Proof.
  induction d as [|[k1 v1] d IH]; simpl; [done|]. destruct (decide (k1 = k)) as [->|]; simpl.
  - rewrite decide_True by set_solver. done.
  - rewrite IH. destruct (decide (k ∈ map fst d)).
    + by rewrite decide_True by set_solver.
    + by rewrite decide_False by set_solver.
Qed.

Lemma dict_get_None k d : dict_get k d = None ↔ k ∉ map fst d.
Proof.
  induction d as [|[k1 v1] d IH]; simpl; [set_solver|]. case_decide; set_solver.
Qed.

Lemma dict_get_elem k v d : NoDup (map fst d) → (k, v) ∈ d ↔ dict_get k d = Some v.
Proof.
  induction d as [|[k1 v1] d IH]; simpl; [set_solver|]. intros [Hn Hd]%NoDup_cons.
  rewrite elem_of_cons. case_decide as Hk.
  - subst. split; [|intros; left; congruence]. intros [|Hin]; [congruence|].
    destruct Hn. apply list_elem_of_fmap. by exists (k, v).
  - rewrite IH by done. naive_solver.
Qed.

(** ** sorted *)

Definition desc (x y : pystr * Z) : Prop := y.2 <= x.2.

Lemma insert_desc_perm x l : insert_desc x l ≡ₚ x :: l.
Proof.
  induction l as [|y l IH]; simpl; [done|]. destruct (_ <=? _); [done|]. rewrite IH. apply Permutation_swap.
Qed.

Lemma sorted_desc_perm l : sorted_desc l ≡ₚ l.
Proof. induction l as [|x l IH]; simpl; [done|]. by rewrite insert_desc_perm, IH. Qed.

Lemma insert_desc_sorted x l : StronglySorted desc l → StronglySorted desc (insert_desc x l).
Proof.
  induction 1 as [|y l Hs IH Hy]; simpl; [by repeat constructor|]. destruct (Z.leb_spec y.2 x.2) as [Hle|Hlt].
  - constructor; [by constructor|]. constructor; [done|]. eapply Forall_impl; [exact Hy|].
    unfold desc. intros z Hz. lia.
  - constructor; [done|]. rewrite insert_desc_perm. constructor; [unfold desc; lia|done].
Qed.

Lemma sorted_desc_sorted l : StronglySorted desc (sorted_desc l).
Proof. induction l; simpl; [constructor|]. by apply insert_desc_sorted. Qed.

(** ** strip, rsplit, lines *)

Lemma skip_id p s : (∀ c, head s = Some c → p c = false) → skip p s = s.
Proof. destruct s as [|c s]; simpl; [done|]. intros H. by rewrite (H c eq_refl). Qed.

Lemma strip_id p s :
  (∀ c, head s = Some c → p c = false) → (∀ c, last s = Some c → p c = false) → strip_by p s = s.
Proof.
  intros Hh Hl. unfold strip_by. rewrite (skip_id p s) by done. rewrite skip_id, reverse_involutive; [done|].
  intros c Hc. apply Hl. by rewrite <-head_reverse.
Qed.

Lemma Forall_ends {A} (P : A → Prop) (s : list A) :
  Forall P s → (∀ c, head s = Some c → P c) ∧ (∀ c, last s = Some c → P c).
Proof.
  intros H. split; intros c Hc; [by destruct H; simplify_eq/=|].
  apply last_Some in Hc as [s' ->]. apply Forall_app in H as [_ H]. by inversion H.
Qed.

Lemma last_app_ne {A} (l1 l2 : list A) : l2 ≠ [] → last (l1 ++ l2) = last l2.
Proof. intros Hne. rewrite last_app. destruct (last l2) eqn:E; [done|]. by apply last_None in E. Qed.

Lemma rsplit_space_app a b : 32 ∉ b → rsplit_space (a ++ 32 :: b) = Some (a, b).
Proof.
  intros Hb. assert (rsplit_space b = None) as Hn.
  { induction b as [|c b IH]; simpl; [done|]. rewrite IH by set_solver.
    destruct (Z.eqb_spec c 32); [set_solver|done]. }
  induction a as [|c a IH]; simpl; [by rewrite Hn|by rewrite IH].
Qed.

Definition py_unlines (ls : list pystr) : pystr := concat (map (λ l, l ++ [10])%list ls).

Lemma lines_by_line brk l rest :
  brk 10 = true → Forall (λ c, brk c = false) l → lines_by brk (l ++ 10 :: rest) = l :: lines_by brk rest.
Proof.
  intros H10. induction 1 as [|c l Hc _ IH]; cbn [app lines_by]; [|by rewrite Hc, IH].
  rewrite H10. by destruct rest.
Qed.

Lemma lines_by_last brk l : Forall (λ c, brk c = false) l → l ≠ [] → lines_by brk l = [l].
Proof.
  induction 1 as [|c l Hc Hl IH]; [done|]. intros _. cbn [lines_by]. rewrite Hc.
  destruct l as [|c' l]; [done|]. by rewrite IH.
Qed.

Lemma lines_by_unlines brk ls rest :
  brk 10 = true → Forall (Forall (λ c, brk c = false)) ls →
  lines_by brk (py_unlines ls ++ rest) = (ls ++ lines_by brk rest)%list.
Proof.
  intros H10. induction 1 as [|l ls Hl _ IH]; [done|]. unfold py_unlines in *. simpl.
  rewrite <-!(assoc_L (++)). cbn [app]. by rewrite lines_by_line, IH.
Qed.

(** A text of lines, the last one ended or not, read by [strip] and [splitlines]. *)
Lemma strip_unlines ls l :
  Forall (Forall (λ c, py_linebreak c = false)) (ls ++ [l]) →
  (∀ c, head (py_unlines (ls ++ [l])) = Some c → py_isspace c = false) →
  (∀ c, last l = Some c → py_isspace c = false) → l ≠ [] →
  splitlines (strip (py_unlines (ls ++ [l]))) = (ls ++ [l])%list.
Proof.
  intros Hall Hh Hlast Hne. unfold strip, strip_by. rewrite (skip_id _ (py_unlines _) Hh).
  assert (py_unlines (ls ++ [l]) = py_unlines ls ++ l ++ [10])%list as ->
    by (unfold py_unlines; rewrite map_app, concat_app; simpl; by rewrite app_nil_r).
  rewrite (assoc_L (++)), reverse_snoc. cbn [skip]. change (py_isspace 10) with true. cbn iota.
  replace (skip py_isspace (reverse (py_unlines ls ++ l))) with (reverse (py_unlines ls ++ l)).
  - rewrite reverse_involutive. apply Forall_app in Hall as [Hls Hl]. apply Forall_cons in Hl as [Hl _].
    unfold splitlines. rewrite lines_by_unlines by done. by rewrite lines_by_last.
  - symmetry. apply skip_id. intros c. rewrite head_reverse, last_app_ne by done. apply Hlast.
Qed.

(** ** Reading what the agent wrote *)

Lemma of_ascii_app s1 s2 : of_ascii (s1 +:+ s2) = (of_ascii s1 ++ of_ascii s2)%list.
Proof. unfold of_ascii. induction s1 as [|a s1 IH]; simpl; [done|]. by rewrite IH. Qed.

Lemma of_ascii_cons a s : of_ascii (String a s) = Z.of_N (N_of_ascii a) :: of_ascii s.
Proof. done. Qed.

Lemma of_ascii_inj s1 s2 : of_ascii s1 = of_ascii s2 → s1 = s2.
Proof.
  revert s2. induction s1 as [|a s1 IH]; intros [|b s2]; try done. rewrite !of_ascii_cons. intros [= H1 H2].
  f_equal; [|by apply IH]. apply N2Z.inj in H1. by rewrite <-(ascii_N_embedding a), H1, ascii_N_embedding.
Qed.

Section read.
Context (udecimal : Z → option Z).

Lemma digit_decimal a d :
  digit_val a = Some d → d < 10 → 0 <= d →
  let c := Z.of_N (N_of_ascii a) in c ≠ 95 ∧ decimal udecimal c = Some d ∧ py_isspace c = false.
Proof.
  intros Hd H10 H0 c. unfold digit_val in Hd. fold c in Hd.
  destruct ((48 <=? c) && (c <=? 57)) eqn:E; [|destruct_ifs; simplify_eq; lia].
  simplify_eq. split; [lia|]. unfold decimal, py_isspace, within. rewrite E.
  split; [by rewrite (proj2 (Z.ltb_lt c 128)) by lia|]. lia.
Qed.

Lemma digit_val_nonneg a d : digit_val a = Some d → 0 <= d.
Proof. unfold digit_val. destruct_ifs; intros; simplify_eq; lia. Qed.

(** What C++ scans as digits to the end, Python reads as digits. *)
Lemma int_digits_scan s acc n seen v :
  scan_digits 10 s acc seen = (v, true, "") →
  int_digits udecimal acc n (of_ascii s) seen = Some (v, (n + String.length s)%nat) ∧
  Forall (λ c, py_isspace c = false ∧ c ≠ 45 ∧ c ≠ 43) (of_ascii s).
Proof.
  revert acc n seen. induction s as [|a s IH]; intros acc n seen Hs; simpl in Hs.
  - simplify_eq. simpl. split; [|constructor]. by rewrite Nat.add_0_r.
  - destruct (digit_val a) as [d|] eqn:Ed; [|done]. destruct (Z.ltb_spec d 10); [|done].
    destruct (digit_decimal a d Ed) as (Hn & Hd & Hsp); [done|by eapply digit_val_nonneg|].
    rewrite of_ascii_cons. cbn [int_digits]. destruct (Z.eqb_spec (Z.of_N (N_of_ascii a)) 95); [done|].
    rewrite Hd. destruct (IH _ (S n) _ Hs) as [-> Hall]. split; [do 2 f_equal; simpl; lia|].
    constructor; [|done]. split; [done|]. split; intros Hc; rewrite Hc in Hd; done.
Qed.

Lemma scan_ascii s acc seen v :
  scan_digits 10 s acc seen = (v, true, "") → Forall (λ c, 48 <= c <= 57) (of_ascii s).
Proof.
  revert acc seen. induction s as [|a s IH]; intros acc seen Hs; simpl in Hs; [constructor|].
  destruct (digit_val a) as [d|] eqn:Ed; [|done]. destruct (Z.ltb_spec d 10); [|done].
  rewrite of_ascii_cons. constructor; [|by eapply IH]. unfold digit_val in Ed.
  destruct_ifs; simplify_eq; lia.
Qed.

Lemma to_string_ascii n : 0 <= n → Forall (λ c, 48 <= c <= 57) (of_ascii (to_string n)).
Proof.
  intros Hn. unfold to_string. destruct (Z.ltb_spec n 0); [lia|].
  apply (scan_ascii _ 0 false n). unfold print_base. by rewrite scan_print_base by lia.
Qed.

Lemma print_go_short k fuel b n acc :
  2 <= b → 0 <= n < b ^ Z.of_nat (S k) → (String.length (print_go fuel b n acc) <= S k + String.length acc)%nat.
Proof.
  intros Hb. revert fuel n acc. induction k as [|k IH]; intros fuel n acc Hn; destruct fuel as [|f]; simpl; try lia.
  - rewrite Z.pow_1_r in Hn. destruct (Z.ltb_spec n b); simpl; lia.
  - destruct (Z.ltb_spec n b); simpl; [lia|].
    assert (0 <= n / b < b ^ Z.of_nat (S k)) as Hd.
    { split; [apply Z.div_pos; lia|]. apply Z.div_lt_upper_bound; [lia|]. rewrite <-Z.pow_succ_r by lia.
      rewrite <-Nat2Z.inj_succ. apply Hn. }
    specialize (IH f (n / b) (String (digit_char (n mod b)) acc) Hd). simpl in IH. lia.
Qed.

Lemma length_of_ascii s : length (of_ascii s) = String.length s.
Proof. unfold of_ascii. rewrite length_map. induction s as [|a s IH]; simpl; [done|]. by rewrite IH. Qed.

Lemma to_string_short k n : 0 <= n < 10 ^ Z.of_nat (S k) → (length (of_ascii (to_string n)) <= S k)%nat.
Proof.
  intros Hn. rewrite length_of_ascii. unfold to_string, print_base. destruct (Z.ltb_spec n 0); [lia|].
  pose proof (print_go_short k (S (Z.to_nat (Z.log2 n))) 10 n "" ltac:(lia) Hn) as Hl. simpl in Hl |- *. lia.
Qed.

Lemma print_go_fuel_length fuel b n acc : (String.length (print_go fuel b n acc) <= fuel + String.length acc)%nat.
Proof.
  revert n acc. induction fuel as [|f IH]; intros n acc; simpl; [lia|]. destruct (_ <? _); simpl; [lia|].
  specialize (IH (n / b) (String (digit_char (n mod b)) acc)). simpl in IH. lia.
Qed.

Lemma to_string_chars c :
  0 <= c → Forall (λ x, py_isspace x = false ∧ x ≠ 45 ∧ x ≠ 43) (of_ascii (to_string c)).
Proof.
  intros Hc. unfold to_string. destruct (Z.ltb_spec c 0); [lia|].
  apply (int_digits_scan _ 0 0%nat false c). unfold print_base. by rewrite scan_print_base by lia.
Qed.

Lemma py_int_to_string c : is_u64 c → py_int udecimal (of_ascii (to_string c)) = Some c.
Proof.
  intros Hc. assert (0 <= c) as H0 by (unfold is_u64 in Hc; lia). pose proof (to_string_chars c H0) as Hch.
  destruct (Forall_ends _ _ Hch) as [Hh Hl]. unfold py_int. rewrite strip_id.
  2, 3: intros x Hx; unfold int_space; first [destruct (Hh x Hx) as [-> _]|destruct (Hl x Hx) as [-> _]]; done.
  assert (scan_digits 10 (to_string c) 0 false = (c, true, "")) as Hs.
  { unfold to_string, print_base. destruct (Z.ltb_spec c 0); [lia|]. by rewrite scan_print_base by lia. }
  destruct (int_digits_scan _ 0 0%nat false c Hs) as [Hd _].
  destruct (of_ascii (to_string c)) as [|x s] eqn:E; [done|]. destruct (Hh x eq_refl) as (_ & H45 & H43).
  destruct (Z.eqb_spec x 45); [done|]. destruct (Z.eqb_spec x 43); [done|]. rewrite Hd.
  destruct (Nat.ltb_spec max_str_digits (0 + String.length (to_string c))) as [Hlt|]; [exfalso|done].
  unfold to_string, print_base in Hlt. destruct (Z.ltb_spec c 0); [lia|].
  pose proof (print_go_fuel_length (S (Z.to_nat (Z.log2 c))) 10 c "") as Hlen. cbn [String.length] in Hlen.
  assert (Z.log2 c < 64) by (destruct (decide (c = 0)) as [->|]; [done|]; apply Z.log2_lt_pow2; unfold is_u64 in Hc; lia).
  unfold max_str_digits in Hlt. lia.
Qed.

(** Stacks of printable ASCII characters that do not begin with a space. *)
Definition printable (s : string) : Prop :=
  Forall (λ c, within 32 126 c = true) (of_ascii s) ∧ ∃ c s', of_ascii s = c :: s' ∧ c ≠ 32.

Definition agent_line (p : string * Z) : pystr := of_ascii (collapsed_line p).

Lemma agent_line_eq s c : agent_line (s, c) = (of_ascii s ++ 32 :: of_ascii (to_string c))%list.
Proof. unfold agent_line, collapsed_line. by rewrite !of_ascii_app. Qed.

Lemma agent_line_ends s c :
  printable s → 0 <= c →
  (∀ x, head (agent_line (s, c)) = Some x → py_isspace x = false) ∧
  (∀ x, last (agent_line (s, c)) = Some x → py_isspace x = false) ∧ agent_line (s, c) ≠ [].
Proof.
  intros [Hp (x0 & s' & E & Hx0)] Hc. rewrite agent_line_eq.
  destruct (Forall_ends _ _ (to_string_chars c Hc)) as [_ Hl]. split_and!.
  - rewrite E in *. intros x [= <-]. apply Forall_cons in Hp as [Hp _]. unfold within, py_isspace, within in *. lia.
  - intros x. rewrite last_app_ne by done. change (32 :: ?l) with ([32] ++ l)%list. rewrite last_app_ne.
    + intros Hx. by destruct (Hl x Hx).
    + destruct (to_string c) eqn:Et; [by apply to_string_nonempty in Et|done].
  - by rewrite E.
Qed.

Lemma stack_line_agent s c :
  printable s → is_u64 c → stack_line udecimal (agent_line (s, c)) = Some (of_ascii s, c).
Proof.
  intros Hs Hc. assert (0 <= c) as H0 by (unfold is_u64 in Hc; lia).
  destruct (agent_line_ends s c Hs H0) as (Hh & Hl & _). unfold stack_line, strip. rewrite strip_id by done.
  rewrite agent_line_eq, rsplit_space_app, py_int_to_string; [done..|].
  intros Hin. pose proof (to_string_chars c H0) as Hch. rewrite Forall_forall in Hch. by destruct (Hch 32 Hin).
Qed.

(** The characters of a line end no line. *)
Lemma agent_line_breaks brk s c :
  (∀ x, within 32 126 x = true → brk x = false) → printable s → 0 <= c →
  Forall (λ x, brk x = false) (agent_line (s, c)).
Proof.
  intros Hb [Hp _] Hc. rewrite agent_line_eq. apply Forall_app. split; [|constructor].
  - eapply Forall_impl; [exact Hp|]. auto.
  - by apply Hb.
  - unfold to_string. destruct (Z.ltb_spec c 0); [lia|]. unfold of_ascii. apply Forall_map, print_go_digits; [lia|done| |constructor].
    intros d Hd. apply Hb.
    by apply (forall_digits (λ d, within 32 126 (Z.of_N (N_of_ascii (digit_char d)))) 36 d eq_refl Hd).
Qed.

Lemma collapsed_text_unlines m : of_ascii (collapsed_text m) = py_unlines (map agent_line m).
Proof.
  induction m as [|p m IH]; [done|]. unfold collapsed_text, py_unlines in *. simpl.
  rewrite !of_ascii_app, IH. unfold agent_line. by rewrite <-(assoc_L (++)).
Qed.

Definition printable_stacks (m : stacks) : Prop := Forall (λ p, printable p.1 ∧ is_u64 p.2) m.

(** Both readers see the lines the agent wrote. *)
Lemma agent_lines m :
  printable_stacks m →
  file_lines (of_ascii (collapsed_text m)) = map agent_line m ∧
  splitlines (strip (of_ascii (collapsed_text m))) = map agent_line m.
Proof.
  intros Hm. rewrite collapsed_text_unlines.
  assert (∀ brk, (∀ x, within 32 126 x = true → brk x = false) →
    Forall (Forall (λ x, brk x = false)) (map agent_line m)) as Hb.
  { intros brk Hbrk. apply Forall_map. eapply Forall_impl; [exact Hm|]. intros [s c] [? ?].
    apply agent_line_breaks; [done..|]. unfold is_u64 in *. simpl in *. lia. }
  split.
  - rewrite <-(app_nil_r (py_unlines _)). unfold file_lines. rewrite lines_by_unlines; [by rewrite app_nil_r|done|].
    apply Hb. unfold within. lia.
  - destruct m as [|p m] using rev_ind; [done|]. clear IHm. rewrite map_app. simpl.
    apply Forall_app in Hm as [Hm Hp]. apply Forall_cons in Hp as [[Hs Hc] _]. destruct p as [s c]. simpl in *.
    assert (0 <= c) as H0 by (unfold is_u64 in Hc; lia). destruct (agent_line_ends s c Hs H0) as (Hh & Hl & Hne).
    apply strip_unlines; [|destruct m as [|[s' c'] m]|done..].
    + specialize (Hb py_linebreak). rewrite map_app in Hb. apply Hb. unfold within, py_linebreak, within. lia.
    + unfold py_unlines. simpl. destruct (agent_line (s, c)); [done|]. apply Hh.
    + apply Forall_cons in Hm as [[Hs' Hc'] _]. simpl in *.
      destruct (agent_line_ends s' c' Hs') as (Hh' & _ & Hne'); [unfold is_u64 in Hc'; lia|].
      unfold py_unlines. simpl. destruct (agent_line (s', c')); [done|]. apply Hh'.
Qed.

(** The entries of a file, as both readers parse them. *)
Lemma agent_entries m :
  printable_stacks m → omap (stack_line udecimal) (map agent_line m) = map (λ p, (of_ascii p.1, p.2)) m.
Proof.
  induction 1 as [|[s c] m [Hs Hc] _ IH]; [done|]. cbn [map omap list_omap].
  rewrite (stack_line_agent s c Hs Hc). simpl. f_equal. exact IH.
Qed.
End read.
