(* ===== verification/Utf8.v ===== *)
(** UTF-8: Python's texts (lists of code points) as the bytes that Go, PostgreSQL and the
    files see, and back. *)
From stdpp Require Import base strings list.
From Stdlib Require Import ZArith Lia Ascii.
From S2P Require Import Prelude CppString PyText.

(** The UTF-8 encoding of a character. *)
Definition utf8_bytes (c : Z) : list Z :=
  if c <? 128 then [c]
  else if c <? 2048 then [192 + c / 64; 128 + c mod 64]
  else if c <? 65536 then [224 + c / 4096; 128 + c / 64 mod 64; 128 + c mod 64]
  else [240 + c / 262144; 128 + c / 4096 mod 64; 128 + c / 64 mod 64; 128 + c mod 64].
Definition encode (s : pystr) : string :=
  String.string_of_list_ascii (map (λ b, ascii_of_N (Z.to_N b)) (s ≫= utf8_bytes)).

(** The characters of a text in UTF-8; the inverse of the encoding on valid texts, and
    the way to write Python's literals here. *)
Fixpoint utf8_chars (l : list Z) : pystr :=
  match l with
  | [] => []
  | b :: l1 =>
      if b <? 128 then b :: utf8_chars l1
      else match l1 with
           | [] => []
           | c :: l2 =>
               if b <? 224 then ((b - 192) * 64 + (c - 128)) :: utf8_chars l2
               else match l2 with
                    | [] => []
                    | d :: l3 =>
                        if b <? 240 then ((b - 224) * 4096 + (c - 128) * 64 + (d - 128)) :: utf8_chars l3
                        else match l3 with
                             | [] => []
                             | e :: l4 =>
                                 ((b - 240) * 262144 + (c - 128) * 4096 + (d - 128) * 64 + (e - 128)) :: utf8_chars l4
                             end
                    end
           end
  end.
Definition u (s : string) : pystr := utf8_chars (of_ascii s).
Arguments u : simpl never.

(** * Well-formed texts *)

Definition cont (c : ascii) : bool := let n := nat_of_ascii c in (128 <=? n)%nat && (n <? 192)%nat.
(** After the lead byte [lead]: no over-long forms, no surrogates, nothing above U+10FFFF. *)
Definition not_below (n lead bound : nat) (c : ascii) : bool := negb (n =? lead)%nat || (bound <=? nat_of_ascii c)%nat.
Definition below (n lead bound : nat) (c : ascii) : bool := negb (n =? lead)%nat || (nat_of_ascii c <? bound)%nat.
Fixpoint utf8_go (fuel : nat) (s : string) : bool :=
  match fuel with
  | O => bool_decide (s = "")
  | S f =>
      match s with
      | "" => true
      | String c s1 =>
          let n := nat_of_ascii c in
          if (n <? 128)%nat then utf8_go f s1
          else if (194 <=? n)%nat && (n <? 224)%nat then
            match s1 with String c1 s2 => cont c1 && utf8_go f s2 | _ => false end
          else if (224 <=? n)%nat && (n <? 240)%nat then
            match s1 with
            | String c1 (String c2 s3) =>
                cont c1 && cont c2 && not_below n 224 160 c1 && below n 237 160 c1 && utf8_go f s3
            | _ => false
            end
          else if (240 <=? n)%nat && (n <? 245)%nat then
            match s1 with
            | String c1 (String c2 (String c3 s4)) =>
                cont c1 && cont c2 && cont c3 && not_below n 240 144 c1 && below n 244 144 c1 && utf8_go f s4
            | _ => false
            end
          else false
      end
  end.
Definition utf8 (s : string) : bool := utf8_go (String.length s) s.

(** * Lemmas *)

(** A character that has an encoding. *)
Definition is_char (c : Z) : Prop := 0 <= c < 1114112 ∧ ¬ 55296 <= c < 57344.

Lemma utf8_bytes_range c : is_char c → Forall (λ b, 0 <= b < 256) (utf8_bytes c).
Proof.
  unfold is_char, utf8_bytes. intros Hc. destruct_ifs; repeat constructor; Z.to_euclidean_division_equations; lia.
Qed.

Lemma of_ascii_encode s : Forall is_char s → of_ascii (encode s) = s ≫= utf8_bytes.
Proof.
  intros Hs. unfold of_ascii, encode. rewrite String.list_ascii_of_string_of_list_ascii, map_map.
  induction Hs as [|c s Hc _ IH]; [done|]. cbn [mbind list_bind]. rewrite map_app, IH. f_equal.
  pose proof (utf8_bytes_range c Hc) as Hr. induction Hr as [|b l Hb _ IHl]; [done|]. cbn [map]. rewrite IHl. f_equal.
  rewrite N_ascii_embedding by lia. lia.
Qed.

Lemma utf8_chars_bytes c l : is_char c → utf8_chars (utf8_bytes c ++ l) = c :: utf8_chars l.
Proof.
  unfold is_char, utf8_bytes. intros Hc. destruct_ifs; cbn [app utf8_chars];
    repeat match goal with |- context [?x <? ?y] => destruct (Z.ltb_spec x y) as [?|?];
                           [try (exfalso; Z.to_euclidean_division_equations; lia)|try (exfalso; Z.to_euclidean_division_equations; lia)] end;
    f_equal; Z.to_euclidean_division_equations; lia.
Qed.

(** Python's argument is the message that Go encoded. *)
Lemma u_encode s : Forall is_char s → u (encode s) = s.
Proof.
  intros Hs. unfold u. rewrite of_ascii_encode by done. induction Hs as [|c s Hc _ IH]; [done|]. cbn [mbind list_bind].
  by rewrite utf8_chars_bytes, IH.
Qed.

Lemma encode_cons c s :
  encode (c :: s) = String.string_of_list_ascii (map (λ b, ascii_of_N (Z.to_N b)) (utf8_bytes c)) +:+ encode s.
Proof.
  unfold encode. cbn [mbind list_bind]. rewrite map_app.
  induction (map _ (utf8_bytes c)) as [|x l IH]; [done|]. simpl. by rewrite IH.
Qed.

Lemma encode_app s1 s2 : encode (s1 ++ s2) = encode s1 +:+ encode s2.
Proof. induction s1 as [|c s1 IH]; [done|]. cbn [app]. rewrite !encode_cons, IH. by rewrite str_app_assoc. Qed.

Lemma nat_of_byte b : 0 <= b < 256 → nat_of_ascii (ascii_of_N (Z.to_N b)) = Z.to_nat b.
Proof. intros Hb. unfold nat_of_ascii. rewrite N_ascii_embedding by lia. lia. Qed.

(** The parts of a character that its bytes carry. *)
Lemma utf8_parts c :
  is_char c →
  c < 128 ∨
  128 <= c < 2048 ∧ 2 <= c / 64 < 32 ∧ 0 <= c mod 64 < 64 ∨
  2048 <= c < 65536 ∧ 0 <= c / 4096 < 16 ∧ 0 <= c / 64 mod 64 < 64 ∧ 0 <= c mod 64 < 64 ∧
    (c / 4096 = 0 → 32 <= c / 64 mod 64) ∧ (c / 4096 = 13 → c / 64 mod 64 < 32) ∨
  65536 <= c ∧ 0 <= c / 262144 < 5 ∧ 0 <= c / 4096 mod 64 < 64 ∧ 0 <= c / 64 mod 64 < 64 ∧ 0 <= c mod 64 < 64 ∧
    (c / 262144 = 0 → 16 <= c / 4096 mod 64) ∧ (c / 262144 = 4 → c / 4096 mod 64 < 16).
Proof.
  unfold is_char. intros Hc. destruct (Z.lt_ge_cases c 128); [by left|right].
  destruct (Z.lt_ge_cases c 2048); [left|right]; [Z.to_euclidean_division_equations; lia|].
  destruct (Z.lt_ge_cases c 65536); [left|right]; split_and!; Z.to_euclidean_division_equations; lia.
Qed.

Ltac decide_bytes :=
  repeat match goal with
  | |- context [(?x <? ?y)%nat] => destruct (Nat.ltb_spec x y); [try (exfalso; lia)|try (exfalso; lia)]
  | |- context [(?x =? ?y)%nat] => destruct (Nat.eqb_spec x y); [try (exfalso; lia)|try (exfalso; lia)]
  | |- context [(?x <=? ?y)%nat] => destruct (Nat.leb_spec x y); [try (exfalso; lia)|try (exfalso; lia)]
  end; cbn [andb orb negb].

Lemma utf8_go_encode s f : Forall is_char s → (length s <= f)%nat → utf8_go f (encode s) = true.
Proof.
  intros Hs. revert f. induction Hs as [|c s Hc _ IH]; intros f Hf; [by destruct f|].
  destruct f as [|f]; simpl in Hf; [lia|]. rewrite encode_cons. specialize (IH f ltac:(lia)).
  assert (0 <= c) by apply Hc. unfold utf8_bytes. destruct (utf8_parts c Hc) as [Hp|[Hp|[Hp|Hp]]]; clear Hc;
    repeat match goal with |- context [c <? ?y] => destruct (Z.ltb_spec c y); [try lia|try lia] end;
    cbn [map String.string_of_list_ascii]; rewrite ?str_app_cons; change ("" +:+ ?s) with s;
    cbn [utf8_go]; unfold cont, below, not_below; rewrite ?nat_of_byte by lia; decide_bytes; exact IH.
Qed.

Lemma length_encode s : String.length (encode s) = length (s ≫= utf8_bytes).
Proof. unfold encode. rewrite length_of_chars. by rewrite length_map. Qed.

Lemma length_encode_ge s : (length s <= String.length (encode s))%nat.
Proof.
  rewrite length_encode. induction s as [|c s IH]; [done|]. cbn [mbind list_bind length]. rewrite length_app.
  unfold utf8_bytes at 1. destruct_ifs; simpl; lia.
Qed.

Lemma utf8_encode s : Forall is_char s → utf8 (encode s) = true.
Proof. intros Hs. apply utf8_go_encode; [done|apply length_encode_ge]. Qed.

Lemma ascii_bytes s : Forall (λ c, 0 <= c < 128) s → s ≫= utf8_bytes = s.
Proof.
  induction 1 as [|c s Hc _ IH]; [done|]. cbn [mbind list_bind]. rewrite IH. unfold utf8_bytes.
  by rewrite (proj2 (Z.ltb_lt c 128)) by lia.
Qed.

Lemma encode_of_ascii s : Forall (λ c, c < 128) (of_ascii s) → encode (of_ascii s) = s.
Proof.
  intros Hs. apply of_ascii_inj. assert (Forall (λ c, 0 <= c < 128) (of_ascii s)) as Ha.
  { unfold of_ascii in *. rewrite Forall_map in *. eapply Forall_impl; [exact Hs|]. simpl. lia. }
  rewrite of_ascii_encode, ascii_bytes; [done..|]. eapply Forall_impl; [exact Ha|]. unfold is_char. simpl. lia.
Qed.

Lemma ascii_is_char s : Forall (λ x, 0 <= x < 128) s → Forall is_char s.
Proof. intros Hs. eapply Forall_impl; [exact Hs|]. unfold is_char. simpl. lia. Qed.

Lemma chars_checked s : forallb (λ c, within 0 55295 c || within 57344 1114111 c) s = true → Forall is_char s.
Proof.
  induction s as [|x s IH]; cbn [forallb]; [constructor|]. intros [Hx Hs]%andb_true_iff. constructor; [|auto].
  unfold within, is_char in *. lia.
Qed.


(** Texts of ASCII characters are their own bytes. *)
Lemma utf8_chars_ascii l : Forall (λ c, 0 <= c < 128) l → utf8_chars l = l.
Proof. induction 1 as [|c l Hc _ IH]; cbn [utf8_chars]; [done|]. by rewrite (proj2 (Z.ltb_lt c 128)), IH by lia. Qed.

Lemma u_ascii s : Forall (λ c, 0 <= c < 128) (of_ascii s) → u s = of_ascii s.
Proof. apply utf8_chars_ascii. Qed.

Lemma utf8_ascii s : Forall (λ c, 0 <= c < 128) (of_ascii s) → utf8 s = true.
Proof.
  intros Hs. rewrite <-(encode_of_ascii s); [by apply utf8_encode, ascii_is_char|].
  eapply Forall_impl; [exact Hs|]. simpl. lia.
Qed.
