(* ===== verification/NlChat.v ===== *)
(** apiserver/server/nl_handler.go: tasks created from a sentence.  The intent comes from
    the script nl_parser.py (its answer, decoded from JSON, is an argument) or, when it
    fails, from [goNLFallback]. *)
From stdpp Require Import base gmap strings list.
From Stdlib Require Import ZArith Lia Ascii.
From S2P Require Import Prelude CppString Utf8 OrdMap Json Proto PGStore ApiStatements ApiServer Scheduler.

(** * Values of a [map[string]interface{}]

    A number of decoded JSON is a [float64] (here one with an integral value), a Go
    integer literal an [int]. *)
Inductive goval := GoInt (z : Z) | GoFloat (z : Z) | GoStr (s : string) | GoOther.

(** [v, _ := m[key].(float64)] and [.(string)] *)
Definition assert_float (v : option goval) : Z := match v with Some (GoFloat z) => z | _ => 0 end.
Definition assert_string (v : option goval) : string := match v with Some (GoStr s) => s | _ => "" end.

(** [int(f)], on amd64 *)
Definition float_to_int (z : Z) : Z := if bool_decide (- 2 ^ 63 <= z < 2 ^ 63) then z else - 2 ^ 63.

(** [strconv.Atoi] *)
Definition Atoi (s : string) : option Z :=
  let '(neg, s1) := scan_sign s in
  match scan_digits 10 s1 0 false with
  | (v, true, "") =>
      let z := if neg then - v else v in
      if bool_decide (- 2 ^ 63 <= z < 2 ^ 63) then Some z else None
  | _ => None
  end.

(** [strings.Index(s, pat)] *)
Fixpoint index_of (pat s : string) : option nat :=
  if String.prefix pat s then Some 0%nat
  else match s with "" => None | String _ s' => S <$> index_of pat s' end.

(** [strings.ToLower], as far as the keywords can tell: the letters of ASCII, and the
    capital I with a dot (two bytes), whose lower case is i. *)
Fixpoint ToLower (s : string) : string :=
  match s with
  | String "196" (String "176" s') => String "i" (ToLower s')
  | String c s' => String (lower_char c) (ToLower s')
  | "" => ""
  end.

Definition is_digit (c : ascii) : bool :=
  match digit_val c with Some d => d <? 10 | None => false end.

Fixpoint take_digits (s : string) : string :=
  match s with String c s' => if is_digit c then String c (take_digits s') else "" | "" => "" end.

(** [for numStart > 0 && isdigit(text[numStart-1]) { numStart-- }] *)
Fixpoint num_start (text : string) (n : nat) : nat :=
  match n with
  | S n' => match String.get n' text with
            | Some c => if is_digit c then num_start text n' else n
            | None => n
            end
  | O => O
  end.

(** [strings.TrimLeft(rest, "是为：: ")]: the runes of the cut set. *)
Fixpoint trim_cutset (fuel : nat) (s : string) : string :=
  match fuel with
  | O => s
  | S f =>
      match head (filter (λ r, String.prefix r s) ["是"; "为"; "："; ":"; " "]) with
      | Some r => trim_cutset f (str_drop (String.length r) s)
      | None => s
      end
  end.

(** One round of each of the two loops. *)
Definition fallback_duration (text suffix : string) (old : Z) : Z :=
  match index_of suffix text with
  | Some (S i) =>
      let start := num_start text i in
      match Atoi (String.substring start (S i - start) text) with
      | Some dur => if 0 <? dur then dur else old
      | None => old
      end
  | _ => old
  end.

Definition fallback_pid (text prefix : string) (old : Z) : Z :=
  match index_of prefix text with
  | Some idx =>
      let rest := str_drop (idx + String.length prefix) text in
      let digits := take_digits (trim_cutset (String.length rest) rest) in
      if bool_decide (digits = "") then old
      else match Atoi digits with Some pid => pid | None => old end
  | None => old
  end.

Definition fallback_profiler (text : string) : Z :=
  let lower := ToLower text in
  if contains "ebpf" lower || contains "off-cpu" lower || contains "阻塞" lower || contains "io" lower then 3
  else if contains "java" lower || contains "jvm" lower then 1
  else 0.

Definition goNLFallback (text : string) : gmap string goval :=
  {["pid" := GoInt (fallback_pid text "进程" (fallback_pid text "pid" (fallback_pid text "PID" 0)));
    "profiler_type" := GoInt (fallback_profiler text);
    "duration" := GoInt (fallback_duration text "秒钟" (fallback_duration text "秒" 10));
    "target_ip" := GoStr "127.0.0.1";
    "raw_text" := GoStr text]}.

(** [script]: the object nl_parser.py printed, when it ran and printed one. *)
Definition parseNLIntent (script : option (gmap string goval)) (text : string) : gmap string goval :=
  match script with Some m => m | None => goNLFallback text end.

Definition truncate (s : string) (maxLen : nat) : string :=
  if (String.length s <=? maxLen)%nat then s else str_take maxLen s.

(** * NLChat *)

(** [request_params] of such a task. *)
Definition nl_params (pid duration : Z) : json :=
  JObj [("pid", JNum pid); ("duration", JNum duration); ("hz", JNum 99); ("event", JStr "cpu")].

Record nl_intent := mkIntent { ni_pid : Z; ni_profiler : Z; ni_duration : Z; ni_ip : string }.

Definition read_intent (m : gmap string goval) : nl_intent :=
  let duration := assert_float (m !! "duration") in
  let targetIP := assert_string (m !! "target_ip") in
  mkIntent (float_to_int (assert_float (m !! "pid"))) (float_to_int (assert_float (m !! "profiler_type")))
    (float_to_int (if duration =? 0 then 10 else duration))
    (if bool_decide (targetIP = "") then "127.0.0.1" else targetIP).

Inductive nl_reply := NlText | NlTaskCreated (tid : string) | NlTaskSummary (tid : string).

(** [s.db.Where("tid = ?", tid).Find(&suggestions)] *)
Definition find_suggestions (ok : bool) (tid : string) (a : api) : list suggestion :=
  if ok && names_ok analysis_suggestion_t ["tid"] then filter (λ g, sg_tid g = tid) (ap_suggestions a) else [].

(** [parses_json]: [json.Unmarshal] accepts the text as an object. *)
Definition nlAnswerAboutTask (parses_json : string → bool) (sel_ok sug_ok : bool) (tid : string) (a : api) : nl_reply :=
  match (if sel_ok then find_live tid (ap_db a) else None) with
  | None => NlText
  | Some _ =>
      let sugs := find_suggestions sug_ok tid a in
      if existsb (λ g, (sg_status g =? 1) && bool_decide (sg_func g = "__ai_summary__") &&
                       parses_json (sg_ai_suggestion g)) sugs
      then NlTaskSummary tid
      else if existsb (λ g, sg_status g =? 0) sugs then NlTaskSummary tid else NlText
  end.

(** The message, and the task it is about if any. *)
Definition NLChat (env : create_env) (parses_json : string → bool) (sel_ok sug_ok : bool)
    (script : option (gmap string goval)) (req : option (string * string)) (uid userName : string) (a : api)
    : reply nl_reply * api * list goroutine :=
  match req with
  | None => (fail 400 4000200, a, [])
  | Some (msg, about) =>
      if (String.length msg =? 0)%nat || (1000 <? String.length msg)%nat then (fail 400 4000202, a, []) else
      let i := read_intent (parseNLIntent script msg) in
      if negb (bool_decide (about = "")) then (done_with (nlAnswerAboutTask parses_json sel_ok sug_ok about a), a, []) else
      let tid := genTID (ce_rand env) in
      let taskName := "NL: " +:+ truncate msg 100 in
      let cols := new_columns taskName 0 (ni_profiler i) (ni_ip i) (nl_params (ni_pid i) (ni_duration i)) uid userName
        (ce_now env) "" in
      match (if utf8 taskName then create_rows env tid "自然语言触发，任务已创建" cols a else None) with
      | None => (done_with NlText, a, [])
      | Some a1 =>
          (done_with (NlTaskCreated tid), a1,
           if ap_grpc a1 then
             [(tid, mkReq "" 0 (ni_profiler i) (ni_ip i) (ni_pid i) (ni_duration i) 99 "")]
           else [])
      end
  end.

Lemma NLChat_write env pj b1 b2 script req uid name a r a' gs :
  NLChat env pj b1 b2 script req uid name a = (r, a', gs) → rtc api_write (ap_db a) (ap_db a').
Proof.
  unfold NLChat. destruct req as [[msg about]|]; [|by intros; simplify_eq].
  destruct (_ || _); [by intros; simplify_eq|]. destruct (negb _); [by intros; simplify_eq|].
  destruct (utf8 _); [|by intros; simplify_eq].
  destruct (create_rows _ _ _ _ _) as [a1|] eqn:E; [|by intros; simplify_eq].
  apply create_rows_write in E; [|done]. by intros; simplify_eq.
Qed.

(** * Lemmas *)

Lemma assert_float_fallback text k : assert_float (goNLFallback text !! k) = 0.
Proof.
  unfold goNLFallback.
  repeat (first [rewrite lookup_insert | rewrite lookup_singleton]; case_decide; [done|]).
  by rewrite ?lookup_empty.
Qed.

Lemma find_suggestions_none ok tid a : find_suggestions ok tid a = [].
Proof. unfold find_suggestions. by rewrite andb_false_r. Qed.

(** * Claims *)

Definition nl_failed (uid : string) : task_row :=
  mkTask kFailed "boom" None (Some 9)
    (new_columns "NL: x" 0 3 "10.0.0.1" (nl_params 42 30) uid "n" 0 "").
Definition api_nl : api := set_db (mkDb [] 0 {["t1" := nl_failed "u"]} [] []) api0.

(** Tasks made from a sentence lose what the sentence said: the fallback parser
    stores Go integers where the handler expects floats, so whenever the script does
    not answer the task is a system-wide perf run of ten seconds on 127.0.0.1
    whatever was asked for; a retry of any such task sends a request without target
    and of profiler type 0, for no agent; and the answer to a question about a task
    is never a summary, because the suggestions are looked up by a column their
    table does not have. *)
Theorem nl_tasks_lose_parameters :
  (∀ text, read_intent (parseNLIntent None text) = mkIntent 0 0 10 "127.0.0.1") ∧
  (∀ env tid uid a r pid duration,
     find_live tid (ap_db a) = Some r → c_uid (t_cols r) = uid → t_status r = kFailed →
     c_request_params (t_cols r) = jsonb (nl_params pid duration) → int64 pid → int64 duration →
     api_update_error env tid kPending (ap_db a) = None → ap_grpc a = true →
     ∃ rep a', RetryTask true env tid uid a = (rep, a', [(tid, mkReq "" 0 0 "" pid duration 99 "cpu")]) ∧
       http rep = 200 ∧
       ct_target_ip (dispatch_request tid (mkReq "" 0 0 "" pid duration 99 "cpu")) = "") ∧
  (∀ pj b1 b2 tid a, nlAnswerAboutTask pj b1 b2 tid a = NlText).
Proof.
  split_and!.
  - intros text. unfold parseNLIntent, read_intent. rewrite !assert_float_fallback. done.
  - intros env tid uid a r pid duration Hf Hu Hs Hp Hi1 Hi2 He Hg.
    destruct (RetryTask_sends env tid uid a r Hf Hu Hs He Hg) as (rep & -> & Hh).
    rewrite Hp. exists rep, (set_db (api_update_spec env tid kPending "用户触发重试" (ap_db a)) a).
    split_and!; [|done..]. do 3 f_equal. cbv -[as_int as_str int64 Z.pow Z.opp]. by rewrite !as_int_num.
  - intros pj b1 b2 tid a. unfold nlAnswerAboutTask. rewrite find_suggestions_none. simpl. by case_match.
Qed.

Lemma nl_tasks_lose_parameters_witness :
  ∃ rep a', RetryTask true env_fine "t1" "u" api_nl = (rep, a', [("t1", mkReq "" 0 0 "" 42 30 99 "cpu")]) ∧
    http rep = 200 ∧ ct_target_ip (dispatch_request "t1" (mkReq "" 0 0 "" 42 30 99 "cpu")) = "".
Proof.
  apply (proj1 (proj2 nl_tasks_lose_parameters) env_fine "t1" "u" api_nl (nl_failed "u") 42 30);
    try reflexivity; by split.
Defined.

(** A message is cut after a hundred bytes, in the middle of a character when the text is
    Chinese; PostgreSQL rejects the name. *)
Example long_chinese_message_rejected :
  let msg := String.concat "" (repeat "采" 40) in
  NLChat (mkCreateEnv rand1 5 true true env_fine) (λ _, true) true true None (Some (msg, "")) "u" "n" api0 =
  (done_with NlText, api0, []).
Proof. vm_compute. reflexivity. Qed.
