(* ===== verification/Platform.v ===== *)
(** The API server and drop_server together, on one database: requests of users and
    agents, the goroutines that hand tasks over with ControlService.CreateTask, the
    analysis thread, and everything drop_server does.  The handlers of both servers run
    one at a time; a hand-over and an analysis are cut at their statements and calls,
    and interleave with everything else.  What two status updates can do to each other
    when their statements overlap is the subject of StatusRace and Interleavings. *)
From stdpp Require Import base gmap strings list relations.
From Stdlib Require Import ZArith Lia.
From S2P Require Import Prelude CppString OrdMap Json Proto TaskQueue PGStore ApiStatements Server ServerRows.
From S2P Require Import ApiServer Scheduler AnalysisScheduler ProfileWindow Utf8 NlChat.

(** * State *)

(** [go s.dispatchTask(tid, req)]: before the call, and with its answer. *)
Inductive go_state :=
  | GoCall (tid : string) (req : CreateTaskReq)
  | GoAnswer (tid : string) (resp : CreateTaskResponse + string).

Definition go_tid (g : go_state) : string := match g with GoCall tid _ | GoAnswer tid _ => tid end.

(** The analysis thread: the tasks of a tick still to do, with their cos_key, and the one
    whose script runs. *)
Inductive an_state :=
  | AnTodo (l : list (string * string))
  | AnRun (tid : string) (l : list (string * string)).

Definition an_tids (s : an_state) : list string :=
  match s with AnTodo l => map fst l | AnRun tid l => tid :: map fst l end.

Record platform := mkPf {
  pf_api : api;
  pf_server : server;
  pf_gos : list go_state;
  pf_an : an_state;
}.

(** The two servers use one database (drop_server may have none). *)
Definition with_api (a : api) (p : platform) : platform :=
  mkPf a (on_db (λ _, ap_db a) (pf_server p)) (pf_gos p) (pf_an p).
Definition with_server (s : server) (p : platform) : platform :=
  mkPf match g_pg s with Some sess => set_db (committed sess) (pf_api p) | None => pf_api p end
    s (pf_gos p) (pf_an p).
Definition with_gos (gs : list go_state) (p : platform) : platform :=
  mkPf (pf_api p) (pf_server p) gs (pf_an p).
Definition with_an (s : an_state) (p : platform) : platform :=
  mkPf (pf_api p) (pf_server p) (pf_gos p) s.

(** * Steps *)

(** A request to the API server (or a call of its cron engine). *)
Inductive api_request : api → api → list goroutine → Prop :=
  | ar_create env req uid name a r a' gs :
      ApiServer.CreateTask env req uid name a = (r, a', gs) → api_request a a' gs
  | ar_retry ok env tid uid a r a' gs :
      RetryTask ok env tid uid a = (r, a', gs) → api_request a a' gs
  | ar_nl env pj b1 b2 script req uid name a r a' gs :
      NLChat env pj b1 b2 script req uid name a = (r, a', gs) → api_request a a' gs
  | ar_delete b1 b2 b3 ok now tid uid a r a' :
      DeleteTask b1 b2 b3 ok now tid uid a = (r, a') → api_request a a' []
  | ar_upload b1 b2 b3 tid filename file a r a' :
      UploadTaskFile b1 b2 b3 tid filename file a = (r, a') → api_request a a' []
  | ar_segment ok tid req a r a' :
      CreateSegment ok tid req a = (r, a') → api_request a a' []
  | ar_schedule parses a a' : sched_step parses a a' → api_request a a' []
  | ar_user b1 b2 uid name a r a' : GetUser b1 b2 uid name a = (r, a') → api_request a a' []
  | ar_group b1 b2 name uid a r a' : CreateGroup b1 b2 name uid a = (r, a') → api_request a a' []
  | ar_member ok req a r a' :
      AddGroupMember ok req a = (r, a') ∨ RemoveGroupMember ok req a = (r, a') → api_request a a' []
  | ar_agent ok req a r a' :
      AddGroupAgent ok req a = (r, a') ∨ RemoveGroupAgent ok req a = (r, a') → api_request a a' [].

(** The answer a goroutine gets: drop_server's, when the call arrived and the answer came
    back, or the text of an error. *)
Definition go_answer (returned : bool) (err : string) (st : Status) (resp : option CreateTaskResponse)
    : CreateTaskResponse + string :=
  match returned, resp with
  | true, Some r => if is_ok st then inl r else inr err
  | _, _ => inr err
  end.

(** The call that dispatchTask makes, handled by drop_server; and what dispatchTask does
    with the answer. *)
Definition hand_over (returned : bool) (err : string) (ctx : ServerContext) (tid : string) (req : CreateTaskReq)
    (p : platform) : (CreateTaskResponse + string) * platform :=
  let '(st, resp, s') := Server.CreateTask ctx (dispatch_request tid req) (pf_server p) in
  (go_answer returned err st resp, with_server s' p).
Definition go_answered (env : update_env) (tid : string) (resp : CreateTaskResponse + string) (p : platform) : platform :=
  with_api (dispatch_outcome env tid resp (pf_api p)) p.

(** After a request: the goroutines it started. *)
Definition requested_by (a' : api) (gs : list goroutine) (p : platform) : platform :=
  with_gos (pf_gos p ++ map (λ g, GoCall g.1 g.2) gs) (with_api a' p).

Inductive pf_step : platform → platform → Prop :=
  (** drop_server: agents and the scanner. *)
  | pf_drop l s' p :
      drop_step (pf_server p) l s' → (∀ ip d, l ≠ Queued ip d) → pf_step p (with_server s' p)
  | pf_request a' gs p :
      api_request (pf_api p) a' gs → pf_step p (requested_by a' gs p)
  (** A hand-over: the call does not arrive, or drop_server handles it; then what follows. *)
  | pf_lost err tid req gs1 gs2 p :
      pf_gos p = gs1 ++ GoCall tid req :: gs2 →
      pf_step p (with_gos (gs1 ++ GoAnswer tid (inr err) :: gs2) p)
  | pf_call returned err ctx tid req answer p' gs1 gs2 p :
      pf_gos p = gs1 ++ GoCall tid req :: gs2 →
      hand_over returned err ctx tid req p = (answer, p') →
      pf_step p (with_gos (gs1 ++ GoAnswer tid answer :: gs2) p')
  | pf_answer env tid resp gs1 gs2 p :
      pf_gos p = gs1 ++ GoAnswer tid resp :: gs2 →
      pf_step p (with_gos (gs1 ++ gs2) (go_answered env tid resp p))
  (** The analysis thread. *)
  | pf_tick p :
      pf_an p = AnTodo [] →
      pf_step p (with_an (AnTodo (map (λ e, (e.1, c_cos_key (t_cols e.2))) (to_analyse (pf_api p)))) p)
  | pf_skip tid l p :
      pf_an p = AnTodo ((tid, "") :: l) → pf_step p (with_an (AnTodo l) p)
  | pf_mark ok tid key l p :
      pf_an p = AnTodo ((tid, key) :: l) → key ≠ "" →
      pf_step p (with_an (if (ok : bool) then AnRun tid l else AnTodo l)
        (with_api (updateAnalysisStatus ok tid AnalysisStatusRunning "分析开始" (pf_api p)).2 p))
  | pf_script st info tid l p :
      pf_an p = AnRun tid l →
      pf_step p (with_api (run_stmt true (SetAnalysisAny tid st info) (pf_api p)) p)
  | pf_script_output o tid l p :
      pf_an p = AnRun tid l → pf_step p (with_api (set_outputs o (pf_api p)) p)
  | pf_script_ok tid l p :
      pf_an p = AnRun tid l → pf_step p (with_an (AnTodo l) p)
  | pf_script_failed ok out tid l p :
      pf_an p = AnRun tid l →
      pf_step p (with_an (AnTodo l)
        (with_api (updateAnalysisStatus ok tid AnalysisStatusFailed ("analysis failed: " +:+ out) (pf_api p)).2 p)).

(** * Invariant *)

(** Only tasks that are DONE are analysed. *)
Definition analysis_ok (d : database) : Prop :=
  map_Forall (λ _ r, c_analysis_status (t_cols r) ≠ AnalysisStatusPending → t_status r = kDone) (hotmethod_task d).

Definition is_done (tid : string) (d : database) : Prop :=
  ∃ r, hotmethod_task d !! tid = Some r ∧ t_status r = kDone.

Definition has_row (tid : string) (d : database) : Prop := is_Some (hotmethod_task d !! tid).

Record pf_inv (p : platform) : Prop := mkPfInv {
  inv_db : db_ok (ap_db (pf_api p));
  inv_analysis : analysis_ok (ap_db (pf_api p));
  inv_shared : ∀ sess, g_pg (pf_server p) = Some sess → sess = mkSession (ap_db (pf_api p)) NoTxn;
  inv_gos : Forall (λ g, has_row (go_tid g) (ap_db (pf_api p))) (pf_gos p);
  inv_an : Forall (λ tid, is_done tid (ap_db (pf_api p))) (an_tids (pf_an p));
  inv_queue : ∀ ip, Forall (λ t, has_row (task_id t) (ap_db (pf_api p))) (queue_of ip (g_task_queue (pf_server p)));
}.

(** * How the database evolves *)

Definition evolves (d d' : database) : Prop :=
  keeps_ok d d' ∧ keeps_done d d' ∧ (analysis_ok d → analysis_ok d') ∧
  ∀ tid, has_row tid d → has_row tid d'.

#[global] Instance evolves_preorder : PreOrder evolves.
Proof.
  split; [intros d; split_and!; done|]. intros d1 d2 d3 (H1 & H2 & H3 & H4) (? & ? & ? & ?). unfold evolves.
  split_and!; [by transitivity d2|by transitivity d2|auto|auto].
Qed.

Lemma evolves_tasks d d' :
  keeps_ok d d' → hotmethod_task d' = hotmethod_task d → task_status_history d' = task_status_history d →
  evolves d d'.
Proof.
  intros Hok Ht Hh. split_and!; [done|by apply keeps_done_tasks|..].
  - unfold analysis_ok. by rewrite Ht.
  - unfold has_row. by rewrite Ht.
Qed.

(** Changing rows without changing the status or the analysis state. *)
Lemma evolves_columns f tid d :
  (∀ r, same_progress r (f r)) →
  (∀ r, hotmethod_task d !! tid = Some r → t_status r ≠ kDone →
     c_analysis_status (t_cols (f r)) = c_analysis_status (t_cols r)) →
  evolves d (set_tasks (alter f tid) d).
Proof.
  intros Hf Hc. split_and!.
  - apply keeps_ok_columns. intros r. by destruct (Hf r).
  - by apply keeps_done_columns.
  - intros Han tid' r' Hr'. simpl in Hr'. destruct (decide (tid = tid')) as [<-|].
    + rewrite lookup_alter_eq in Hr'. apply fmap_Some in Hr' as (r & Hr & ->). destruct (Hf r) as (-> & _).
      intros Ha. destruct (decide (t_status r = kDone)) as [|Hn]; [done|]. rewrite (Hc r Hr Hn) in Ha.
      by apply (Han tid r Hr).
    + rewrite lookup_alter_ne in Hr' by done. by apply (Han tid').
  - intros tid'. unfold has_row. simpl. destruct (decide (tid = tid')) as [<-|].
    + rewrite lookup_alter_eq. intros [r ->]. by eexists.
    + by rewrite lookup_alter_ne.
Qed.

Lemma evolves_update env tid n reason d : evolves d (update_spec env tid n reason d).
Proof.
  split_and!; [apply keeps_ok_update|apply keeps_done_update|..].
  - intros Han. unfold update_spec. destruct (hotmethod_task d !! tid) as [row|] eqn:Hrow; [|done].
    destruct (IsTransitionAllowed _ _) eqn:Hal; simpl; [|done]. destruct (env_commits env); [|done].
    apply IsTransitionAllowed_legal in Hal. intros tid' r' Hr'. simpl in Hr'.
    destruct (decide (tid = tid')) as [<-|]; [|rewrite lookup_alter_ne in Hr' by done; by apply (Han tid')].
    rewrite lookup_alter_eq, Hrow in Hr'. simplify_eq/=. intros Ha. exfalso.
    assert (t_status row = kDone) as Hd by (by apply (Han tid row Hrow)).
    rewrite Hd in Hal. by apply legal_done_final in Hal.
  - intros tid'. unfold update_spec. destruct (hotmethod_task d !! tid) as [row|] eqn:Hrow; [|done].
    destruct (_ && _); [|done]. unfold has_row. simpl. destruct (decide (tid = tid')) as [<-|].
    + rewrite lookup_alter_eq, Hrow. by eexists.
    + by rewrite lookup_alter_ne.
Qed.

Lemma evolves_stmt st d : no_analysis st → api_pre st d → evolves d (api_effect st d).
Proof.
  intros Hn Hpre. assert (keeps_ok d (api_effect st d) ∧ keeps_done d (api_effect st d)) as [Hok Hdone]
    by (split; [by apply keeps_ok_api|by apply keeps_done_api]).
  destruct st; try done.
  - split_and!; [done..| |]; simpl; unfold insert_task; destruct (hotmethod_task d !! tid) eqn:E; try done.
    + intros Han. apply map_Forall_insert_2; [|done]. simpl in *. by intros [].
    + intros tid'. unfold has_row. simpl. destruct (decide (tid = tid')) as [<-|].
      * rewrite lookup_insert_eq. by eexists.
      * by rewrite lookup_insert_ne.
  - rewrite api_update_effect. destruct (api_update_cases env tid newStatus reason d) as [->|[r ->]];
      [done|apply evolves_update].
  - apply evolves_columns; [intros; by apply if_live_progress|]. intros r _ _. unfold if_live. by destruct (deleted r).
  - apply evolves_columns; [intros; by apply if_live_progress|]. intros r _ _. unfold if_live. by destruct (deleted r).
Qed.

Lemma evolves_write d d' : rtc api_write d d' → evolves d d'.
Proof.
  induction 1 as [|d1 d2 d3 (st & Hn & Hpre & ->) _ IH]; [done|]. etrans; [|exact IH]. by apply evolves_stmt.
Qed.

(** The analysis thread writes rows of tasks that are DONE. *)
Lemma evolves_analysis st tid d :
  (∃ s i, st = SetAnalysis tid s i ∨ st = SetAnalysisAny tid s i) → is_done tid d → evolves d (api_effect st d).
Proof.
  intros (s & i & Hst) (r0 & Hr0 & Hd). destruct Hst as [-> | ->]; (apply evolves_columns;
    [intros; first [by apply if_live_progress | by split_and!]|intros r Hr Hn; congruence]).
Qed.

Lemma evolves_done tid d d' : evolves d d' → is_done tid d → is_done tid d'.
Proof.
  intros (_ & (_ & Hd) & _) (r & Hr & Hdone). destruct (Hd tid r Hr Hdone) as [(r' & Hr' & Hp) _].
  exists r'. split; [done|]. destruct Hp; congruence.
Qed.

Lemma evolves_drop s l s' :
  server_inv s → drop_step s l s' → server_rel evolves s s'.
Proof.
  intros Hinv Hstep. eapply drop_step_rel; [..|by apply server_inv_ready|exact Hstep].
  - apply _.
  - intros. by apply evolves_tasks; [apply keeps_ok_upsert|..].
  - intros. by apply evolves_tasks; [apply keeps_ok_audit|..].
  - intros. by apply evolves_tasks; [apply keeps_ok_mark|..].
  - intros d d' (Hok & _). by apply keeps_ok_statuses.
  - intros. apply evolves_update.
Qed.

(** ** The invariant is kept *)

Lemma inv_server p : pf_inv p → server_inv (pf_server p).
Proof.
  intros Hp. unfold server_inv. destruct (g_pg (pf_server p)) as [sess|] eqn:E; [|done].
  rewrite (inv_shared p Hp sess E). split; [done|]. apply (inv_db p Hp).
Qed.

(** Everything but the queue and the new goroutines follows from how the database
    evolves. *)
Lemma pf_inv_evolves p a s gs an :
  pf_inv p → evolves (ap_db (pf_api p)) (ap_db a) →
  (∀ sess, g_pg s = Some sess → sess = mkSession (ap_db a) NoTxn) →
  (∀ ip t, t ∈ queue_of ip (g_task_queue s) →
     t ∈ queue_of ip (g_task_queue (pf_server p)) ∨ has_row (task_id t) (ap_db a)) →
  Forall (λ g, g ∈ pf_gos p ∨ has_row (go_tid g) (ap_db a)) gs →
  Forall (λ tid, tid ∈ an_tids (pf_an p) ∨ is_done tid (ap_db a)) (an_tids an) →
  pf_inv (mkPf a s gs an).
Proof.
  intros [Hdb Han Hsh Hgos Hann Hq] Hev Hs Hq' Hgs' Han'. pose proof Hev as (Hok & _ & Hana & Hrows).
  split; simpl.
  - destruct Hdb as (? & ? & ?), Hok as (? & ? & ?). by split_and!; auto.
  - auto.
  - done.
  - rewrite Forall_forall in *. intros g Hg. destruct (Hgs' g Hg) as [?|]; [|done]. by apply Hrows, Hgos.
  - rewrite Forall_forall in *. intros tid Ht. destruct (Han' tid Ht) as [?|]; [|done].
    by eapply evolves_done, Hann.
  - intros ip. apply Forall_forall. intros t Ht. destruct (Hq' ip t Ht) as [Hin|]; [|done].
    specialize (Hq ip). rewrite Forall_forall in Hq. by apply Hrows, Hq.
Qed.

(** A change of the API server's state. *)
Lemma pf_inv_api p a gs an :
  pf_inv p → evolves (ap_db (pf_api p)) (ap_db a) →
  Forall (λ g, g ∈ pf_gos p ∨ has_row (go_tid g) (ap_db a)) gs →
  Forall (λ tid, tid ∈ an_tids (pf_an p) ∨ is_done tid (ap_db a)) (an_tids an) →
  pf_inv (mkPf a (pf_server (with_api a p)) gs an).
Proof.
  intros Hp Hev Hgs Han. apply (pf_inv_evolves p); try done.
  - intros sess. simpl. unfold on_db. destruct (g_pg (pf_server p)) as [sess0|] eqn:E; simpl.
    + intros [= <-]. by rewrite (inv_shared p Hp sess0 E).
    + congruence.
  - intros ip t. simpl. rewrite on_db_queue. by left.
Qed.

Lemma Forall_left {A} (P Q : A → Prop) (l : list A) :
  (∀ x, x ∈ l → P x) → Forall (λ x, P x ∨ Q x) l.
Proof. intros H. apply Forall_forall. intros x Hx. left. by apply H. Qed.

(** A step of drop_server. *)
Lemma server_evolves p s l :
  pf_inv p → drop_step (pf_server p) l s →
  evolves (ap_db (pf_api p)) (ap_db (pf_api (with_server s p))) ∧
  ∀ sess, g_pg s = Some sess → sess = mkSession (ap_db (pf_api (with_server s p))) NoTxn.
Proof.
  intros Hp Hstep. pose proof (evolves_drop _ _ _ (inv_server p Hp) Hstep) as Hrel.
  unfold server_rel, sess_rel in Hrel. simpl.
  destruct (g_pg (pf_server p)) as [s0|] eqn:E0, (g_pg s) as [s1|] eqn:E1; try done.
  rewrite (inv_shared p Hp s0 E0) in Hrel. destruct Hrel as [Ht Hr]. simpl in *. split; [done|].
  intros sess [= <-]. destruct s1; simpl in *. by subst.
Qed.

Lemma pf_inv_server p s l gs :
  pf_inv p → drop_step (pf_server p) l s →
  (∀ ip t, l = Queued ip t → has_row (task_id t) (ap_db (pf_api p))) →
  Forall (λ g, g ∈ pf_gos p ∨ has_row (go_tid g) (ap_db (pf_api p))) gs →
  pf_inv (mkPf (pf_api (with_server s p)) s gs (pf_an p)).
Proof.
  intros Hp Hstep Hl Hgs. destruct (server_evolves p s l Hp Hstep) as [Hev Hsh].
  apply (pf_inv_evolves p); try done.
  - intros ip t Ht. pose proof (drop_step_queue _ _ _ ip Hstep) as Hq.
    assert (t ∈ queue_of ip (g_task_queue (pf_server p)) ++ queued_for ip [l]) as [?|Hin]%elem_of_app
      by (rewrite Hq; apply elem_of_app; by right); [by left|right].
    unfold queued_for in Hin. destruct l as [ip' d| |]; simpl in Hin; try by apply not_elem_of_nil in Hin.
    destruct (decide (ip' = ip)) as [->|]; [|by apply not_elem_of_nil in Hin].
    apply list_elem_of_singleton in Hin as ->. destruct Hev as (_ & _ & _ & Hrows). apply Hrows. by eapply Hl.
  - rewrite Forall_forall in *. intros g Hg. destruct (Hgs g Hg); [by left|right].
    destruct Hev as (_ & _ & _ & Hrows). by apply Hrows.
  - apply Forall_left. done.
Qed.

(** ** Requests *)

Lemma create_rows_row env tid info cols a a' :
  create_rows env tid info cols a = Some a' → has_row tid (ap_db a').
Proof.
  unfold create_rows. destruct (_ && _) eqn:E; [|done]. intros [= <-].
  apply andb_true_iff in E as [_ Hno%bool_decide_eq_true].
  assert (has_row tid (insert_task tid info cols (ap_db a))) as Hr
    by (unfold has_row, insert_task; rewrite Hno; simpl; rewrite lookup_insert_eq; by eexists).
  by destruct (ce_history env).
Qed.

Lemma api_request_db a a' gs :
  api_request a a' gs → rtc api_write (ap_db a) (ap_db a') ∧ Forall (λ g, has_row g.1 (ap_db a')) gs.
Proof.
  destruct 1 as [env req uid name a r a' gs H|ok env tid uid a r a' gs H|env pj b1 b2 script req uid name a r a' gs H
    |b1 b2 b3 now tid uid a r a' H|b1 b2 b3 tid fn file a r a' H|ok tid req a r a' H|parses a a' H
    |b1 b2 uid name a r a' H|b1 b2 name uid a r a' H|ok req a r a' H|ok req a r a' H].
  - split; [by eapply CreateTask_write|]. unfold ApiServer.CreateTask in H.
    destruct req as [req|]; [|by simplify_eq].
    destruct (create_rows _ _ _ _ _) as [a1|] eqn:E; [|by simplify_eq]. apply create_rows_row in E.
    destruct (ap_grpc a1); simplify_eq; [|done]. by apply Forall_singleton.
  - pose proof (RetryTask_write _ _ _ _ _ _ _ _ H) as Hw. split; [done|]. unfold RetryTask in H.
    destruct ok; [|by simplify_eq]. destruct (find_live tid (ap_db a)) as [r0|] eqn:Hf; [|by simplify_eq].
    apply find_live_Some in Hf as [Hf _].
    assert (has_row tid (ap_db a')) as Hr by (apply (evolves_write _ _ Hw); by eexists).
    destruct (_ && _); [|by simplify_eq]. destruct (updateTaskStatus _ _ _ _ _) as [[e|] s]; [by simplify_eq|].
    destruct (ap_grpc _); simplify_eq; [|done]. by apply Forall_singleton.
  - split; [by eapply NLChat_write|]. unfold NLChat in H. destruct req as [[msg about]|]; [|by simplify_eq].
    destruct (_ || _); [by simplify_eq|]. destruct (negb _); [by simplify_eq|].
    destruct (utf8 _); [|by simplify_eq].
    destruct (create_rows _ _ _ _ _) as [a1|] eqn:E; [|by simplify_eq]. apply create_rows_row in E.
    simplify_eq. destruct (ap_grpc a'); [|done]. by apply Forall_singleton.
  - split; [by eapply DeleteTask_write|done].
  - split; [|done]. unfold UploadTaskFile in H. destruct (_ || _); [by simplify_eq|].
    destruct (ap_store a); [|by simplify_eq]. destruct file; [|by simplify_eq].
    destruct (negb b1); [by simplify_eq|]. simplify_eq. case_match; [|done]. case_bool_decide; [|done].
    by apply (run_stmt_write b3 (SetCosKey tid _) (set_store _ a)).
  - split; [|done]. unfold CreateSegment in H. destruct req as [[[? ?] ?]|]; [destruct ok|]; by simplify_eq.
  - split; [|done]. by rewrite (sched_step_db _ _ _ H).
  - split; [|done]. unfold GetUser in H. repeat case_match; by simplify_eq.
  - split; [|done]. unfold CreateGroup in H. repeat case_match; by simplify_eq.
  - split; [|done]. unfold AddGroupMember, RemoveGroupMember in H. destruct H as [H|H]; repeat case_match; by simplify_eq.
  - split; [|done]. unfold AddGroupAgent, RemoveGroupAgent in H. destruct H as [H|H]; repeat case_match; by simplify_eq.
Qed.

Lemma gos_replace p gs1 g g' gs2 (d : database) :
  pf_gos p = gs1 ++ g :: gs2 → has_row (go_tid g') d →
  Forall (λ x, x ∈ pf_gos p ∨ has_row (go_tid x) d) (gs1 ++ g' :: gs2).
Proof.
  intros -> Hr. apply Forall_app. split; [|apply Forall_cons; split; [by right|]]; apply Forall_left; set_solver.
Qed.

Lemma pf_step_inv p p' : pf_inv p → pf_step p p' → pf_inv p'.
Proof.
  intros Hp Hstep. assert (∀ x, x ∈ pf_gos p → has_row (go_tid x) (ap_db (pf_api p))) as Hgos
    by (apply Forall_forall, (inv_gos p Hp)).
  assert (∀ tid, tid ∈ an_tids (pf_an p) → is_done tid (ap_db (pf_api p))) as Hann
    by (apply Forall_forall, (inv_an p Hp)).
  destruct Hstep as [l s' p Hd Hl|a' gs p Hr|err tid req gs1 gs2 p Hg|ret err ctx tid req ans p' gs1 gs2 p Hg Hc
    |env tid resp gs1 gs2 p Hg|p Ha|tid l p Ha|ok tid key l p Ha Hk|st info tid l p Ha|o tid l p Ha|tid l p Ha|ok out tid l p Ha].
  - apply (pf_inv_server p s' l); [done..| |by apply Forall_left]. intros ip t E. by destruct (Hl ip t).
  - apply api_request_db in Hr as [Hw Hrows]. apply evolves_write in Hw.
    apply pf_inv_api; [done..| |by apply Forall_left]. apply Forall_app. split; [by apply Forall_left|].
    apply Forall_map. eapply Forall_impl; [exact Hrows|]. by right.
  - assert (has_row tid (ap_db (pf_api p))) as Hr by (apply (Hgos (GoCall tid req)); rewrite Hg; set_solver).
    apply (pf_inv_evolves p); try done; [by apply (inv_shared p Hp)|by left| |by apply Forall_left].
    by eapply gos_replace.
  - assert (has_row tid (ap_db (pf_api p))) as Hr by (apply (Hgos (GoCall tid req)); rewrite Hg; set_solver).
    unfold hand_over in Hc. destruct (Server.CreateTask _ _ _) as [[st [resp|]] s'] eqn:E; simplify_eq.
    + eapply (pf_inv_server p s' (Queued _ _)); [done|by eapply drop_create|by intros ? ? [= <- <-]|by eapply gos_replace].
    + eapply (pf_inv_server p s' Silent); [done|by eapply drop_create_rejected|done|by eapply gos_replace].
  - apply pf_inv_api; [done| | |by apply Forall_left].
    + apply evolves_write, dispatch_outcome_write.
    + apply Forall_left. rewrite Hg. set_solver.
  - apply (pf_inv_evolves p); try done; [by apply (inv_shared p Hp)|by left|by apply Forall_left|].
    simpl. rewrite map_map. simpl. apply Forall_map, Forall_forall. intros [tid r] [Hr Hs]%to_analyse_spec. right.
    exists r. split; [done|]. apply andb_true_iff in Hs as [[_ Hs]%andb_true_iff _]. lia.
  - apply (pf_inv_evolves p); try done; [by apply (inv_shared p Hp)|by left|by apply Forall_left|].
    apply Forall_left. rewrite Ha. simpl. set_solver.
  - assert (is_done tid (ap_db (pf_api p))) as Hd by (apply Hann; rewrite Ha; by left).
    apply pf_inv_api; [done| |by apply Forall_left|].
    + simpl. rewrite run_stmt_db. destruct ok; [|done]. eapply evolves_analysis; [|done]. eauto.
    + apply Forall_left. rewrite Ha. destruct ok; simpl; set_solver.
  - assert (is_done tid (ap_db (pf_api p))) as Hd by (apply Hann; rewrite Ha; by left).
    apply pf_inv_api; [done| |by apply Forall_left..]. rewrite run_stmt_db. eapply evolves_analysis; [|done]. eauto.
  - apply pf_inv_api; [done|done|by apply Forall_left..].
  - apply (pf_inv_evolves p); try done; [by apply (inv_shared p Hp)|by left|by apply Forall_left|].
    apply Forall_left. rewrite Ha. simpl. set_solver.
  - assert (is_done tid (ap_db (pf_api p))) as Hd by (apply Hann; rewrite Ha; by left).
    apply pf_inv_api; [done| |by apply Forall_left|].
    + simpl. rewrite run_stmt_db. destruct ok; [|done]. eapply evolves_analysis; [|done]. eauto.
    + apply Forall_left. rewrite Ha. simpl. set_solver.
Qed.

Lemma pf_step_evolves p p' : pf_inv p → pf_step p p' → evolves (ap_db (pf_api p)) (ap_db (pf_api p')).
Proof.
  intros Hp Hstep. assert (∀ tid, tid ∈ an_tids (pf_an p) → is_done tid (ap_db (pf_api p))) as Hann
    by (apply Forall_forall, (inv_an p Hp)).
  destruct Hstep as [l s' p Hd Hl|a' gs p Hr|err tid req gs1 gs2 p Hg|ret err ctx tid req ans p' gs1 gs2 p Hg Hc
    |env tid resp gs1 gs2 p Hg|p Ha|tid l p Ha|ok tid key l p Ha Hk|st info tid l p Ha|o tid l p Ha|tid l p Ha|ok out tid l p Ha];
    try done.
  - by apply (server_evolves p s' l).
  - apply api_request_db in Hr as [Hw _]. by apply evolves_write.
  - unfold hand_over in Hc. destruct (Server.CreateTask _ _ _) as [[st [resp|]] s'] eqn:E; simplify_eq;
      (eapply (server_evolves p s'); [done|]);
      [by eapply drop_create|by eapply drop_create_rejected].
  - apply evolves_write, dispatch_outcome_write.
  - simpl. rewrite run_stmt_db. destruct ok; [|done].
    eapply (evolves_analysis _ tid); [eauto|]. apply Hann. rewrite Ha. by left.
  - apply (evolves_analysis (SetAnalysisAny tid st info) tid); [eauto|]. apply Hann. rewrite Ha. by left.
  - simpl. rewrite run_stmt_db. destruct ok; [|done].
    eapply (evolves_analysis _ tid); [eauto|]. apply Hann. rewrite Ha. by left.
Qed.

Lemma pf_run_inv p p' :
  pf_inv p → rtc pf_step p p' → pf_inv p' ∧ evolves (ap_db (pf_api p)) (ap_db (pf_api p')).
Proof.
  intros Hp Hrun. induction Hrun as [|p p1 p2 Hs _ IH]; [done|].
  destruct IH as [IHi IHe]; [by eapply pf_step_inv|]. split; [done|].
  etrans; [by eapply pf_step_evolves|done].
Qed.

(** ** One task on its way to the agent *)

(** The numbers of a request fit the fields of the message. *)
Definition sendable (r : CreateTaskReq) : Prop :=
  is_u32 (rq_type r) ∧ is_u32 (rq_profiler_type r) ∧ is_u32 (rq_hz r) ∧
  0 <= rq_duration r < 2 ^ 63 ∧ is_i32 (rq_pid r).

(** The task the agent is to get for a request. *)
Definition requested (tid : string) (r : CreateTaskReq) : TaskDesc :=
  mkTaskDesc tid (rq_type r) (rq_profiler_type r)
    (mkRecordArgv (rq_hz r) (rq_duration r) (rq_pid r) "" false (rq_event r)) "" 0 0 default_cos "".

Lemma dispatch_exact tid r :
  sendable r → dispatch_request tid r = mkCreateTaskRequest (rq_target_ip r) "hotmethod" (requested tid r).
Proof.
  intros (? & ? & ? & ? & ?). unfold dispatch_request, requested. do 2 f_equal; eauto with drop.
  f_equal; eauto with drop. apply to_u64_id. unfold is_u64. lia.
Qed.

Lemma sendable_wf r : sendable r → req_wf r.
Proof. unfold sendable, req_wf, int64, is_u32, is_i32. lia. Qed.

(** The rows of a task that was just created. *)
Lemma create_rows_rows env tid info cols a a' :
  ce_history env = true → history_ok (ap_db a) → create_rows env tid info cols a = Some a' →
  hotmethod_task (ap_db a') !! tid = Some (mkTask kPending info None None cols) ∧
  history_of tid (ap_db a') = [mkHistory tid (-1) kPending info (ce_now env)] ∧
  ap_grpc a' = ap_grpc a.
Proof.
  intros Hh (_ & Hnone & _). unfold create_rows. destruct (_ && _) eqn:E; [|done]. rewrite Hh. intros [= <-].
  apply andb_true_iff in E as [_ Hno%bool_decide_eq_true]. simpl. unfold insert_creation, insert_task.
  rewrite Hno. simpl. rewrite lookup_insert_eq. split_and!; [done| |done]. unfold history_of. simpl.
  rewrite filter_app. change (filter _ (task_status_history _)) with (history_of tid (ap_db a)).
  rewrite Hnone by done. simpl. by rewrite filter_cons, decide_True.
Qed.

(** A hand-over that arrives in time. *)
Lemma hand_over_queue returned err ctx tid req p :
  is_ok (CheckDeadline ctx) = true → sendable req →
  hand_over returned err ctx tid req p =
    (if returned then inl (mkCreateTaskResponse true "task queued") else inr err,
     with_server (set_queue (Push (rq_target_ip req) (requested tid req) (g_task_queue (pf_server p))) (pf_server p)) p).
Proof.
  intros Hc Hs. unfold hand_over, Server.CreateTask. rewrite Hc. cbn [negb]. rewrite dispatch_exact by done.
  by destruct returned.
Qed.

(** A change of the queue alone leaves the API server as it is. *)
Lemma with_queue_api p q : pf_inv p → pf_api (with_server (set_queue q (pf_server p)) p) = pf_api p.
Proof.
  intros Hp. simpl. destruct (g_pg (pf_server p)) as [sess|] eqn:E; [|done].
  rewrite (inv_shared p Hp sess E). by destruct (pf_api p).
Qed.

Lemma with_api_queue p a : g_task_queue (pf_server (with_api a p)) = g_task_queue (pf_server p).
Proof. apply on_db_queue. Qed.

(** The steps of a hand-over, without its goroutine. *)
Lemma hand_over_inv returned err ctx tid req p :
  pf_inv p → has_row tid (ap_db (pf_api p)) → pf_inv (hand_over returned err ctx tid req p).2.
Proof.
  intros Hp Hr. unfold hand_over. destruct (Server.CreateTask _ _ _) as [[st [resp|]] s'] eqn:E; simpl.
  - eapply (pf_inv_server p s' (Queued _ _)); [done|by eapply drop_create|by intros ? ? [= <- <-]|by apply Forall_left].
  - eapply (pf_inv_server p s' Silent); [done|by eapply drop_create_rejected|done|by apply Forall_left].
Qed.

Lemma answered_inv env tid resp p : pf_inv p → pf_inv (go_answered env tid resp p).
Proof.
  intros Hp. apply pf_inv_api; [done|apply evolves_write, dispatch_outcome_write|by apply Forall_left..].
Qed.

Lemma answered_failed env tid err p row :
  find_live tid (ap_db (pf_api p)) = Some row → t_status row = kPending → env_commits env = true →
  ∃ reason, hotmethod_task (ap_db (pf_api (go_answered env tid (inr err) p))) !! tid =
    Some (update_row kFailed reason (u_now env) row).
Proof.
  intros Hf Hs Hc. unfold go_answered. cbn [pf_api with_api dispatch_outcome run_stmt set_db ap_db].
  rewrite api_update_effect. unfold api_update_spec. rewrite Hf. apply find_live_Some in Hf as [Hrow _].
  set (reason := if decide _ then _ else _). exists reason.
  rewrite (proj1 (update_spec_row env tid kFailed reason _ row Hc Hrow)), Hs. done.
Qed.

Lemma server_rows p tid :
  pf_inv p → g_pg (pf_server p) ≠ None → task_of tid (pf_server p) = hotmethod_task (ap_db (pf_api p)) !! tid.
Proof.
  intros Hp. unfold task_of. destruct (g_pg (pf_server p)) as [sess|] eqn:E; [|done].
  by rewrite (inv_shared p Hp sess E).
Qed.

Lemma with_api_pg p a : g_pg (pf_server p) ≠ None → g_pg (pf_server (with_api a p)) ≠ None.
Proof. simpl. unfold on_db. by destruct (g_pg (pf_server p)). Qed.

(** * Claims *)

Definition platform0 : platform := mkPf api0 (mkServer ∅ ∅ (Some (mkSession (ap_db api0) NoTxn))) [] (AnTodo []).

Lemma platform0_inv : pf_inv platform0.
Proof.
  split; simpl; try done.
  - split; [by intros ? ?|]. split; [split; [by intros ? ?|by split]|]. by repeat split; constructor.
  - by intros sess [= <-].
Qed.

Definition req0 : CreateTaskReq := mkReq "cpu" 0 0 "10.0.0.1" 42 10 99 "cycles".
Definition cenv0 : create_env := mkCreateEnv rand1 5 true true env_fine.
Definition created0 : reply string * api * list goroutine :=
  ApiServer.CreateTask cenv0 (Some req0) "u" "n" api0.

Lemma req0_sendable : sendable req0.
Proof. unfold sendable, is_u32, is_i32. simpl. lia. Qed.

(** The state after [req0], its hand-over still to come. *)
Definition platform1 : platform := requested_by created0.1.2 created0.2 platform0.

Lemma platform1_inv : pf_inv platform1.
Proof.
  apply (pf_step_inv platform0 _ platform0_inv). apply (pf_request created0.1.2 created0.2 platform0).
  exact (ar_create cenv0 (Some req0) "u" "n" api0 created0.1.1 created0.1.2 created0.2 eq_refl).
Qed.

(** C5: In every order in which users, agents, the hand-overs and the analysis thread
    can act, as long as no two of them work on the database at the same moment (each
    request, call of drop_server and answer of a hand-over is one step; the file
    Interleavings says what is left of this when their statements overlap), and whatever
    PostgreSQL, the network and the scripts answer, the platform stays consistent: the
    database ([db_ok]), one database seen by both servers, only tasks that are DONE are
    analysed or marked as analysed, and every task that is queued or being handed over
    has its row.  No row ever disappears, and along such a run a task that is DONE
    stays DONE. *)
Theorem platform_consistent p p' tid r :
  pf_inv p → rtc pf_step p p' → hotmethod_task (ap_db (pf_api p)) !! tid = Some r →
  pf_inv p' ∧ ∃ r', hotmethod_task (ap_db (pf_api p')) !! tid = Some r' ∧
    (t_status r = kDone → same_progress r r').
Proof.
  intros Hp Hrun Hr. destruct (pf_run_inv p p' Hp Hrun) as [Hp' (_ & (_ & Hd) & _ & Hrows)].
  split; [done|]. destruct (Hrows tid) as [r' Hr']; [by eexists|]. exists r'. split; [done|].
  intros Hdone. destruct (Hd tid r Hr Hdone) as [(r'' & Hr'' & Hp'') _]. congruence.
Qed.

Lemma platform_consistent_witness :
  let p2 := with_gos [] (go_answered env_fine "abcdefghijkl" (inr "down") platform1) in
  pf_inv p2 ∧ is_Some (hotmethod_task (ap_db (pf_api p2)) !! "abcdefghijkl").
Proof.
  assert (is_Some (hotmethod_task (ap_db (pf_api platform1)) !! "abcdefghijkl")) as [r Hr] by (vm_compute; by eexists).
  destruct (platform_consistent platform1 (with_gos [] (go_answered env_fine "abcdefghijkl" (inr "down") platform1))
    "abcdefghijkl" r platform1_inv) as [Hinv (r' & Hr' & _)].
  - apply (rtc_l _ _ (with_gos [GoAnswer "abcdefghijkl" (inr "down")] platform1)).
    + exact (pf_lost "down" "abcdefghijkl" req0 [] [] platform1 eq_refl).
    + apply rtc_once. exact (pf_answer env_fine "abcdefghijkl" (inr "down") [] [] (with_gos _ platform1) eq_refl).
  - exact Hr.
  - split; [exact Hinv|by exists r'].
Defined.

(** C6: A task that POST /tasks accepts reaches the queue of its agent as it was asked for.
    When the numbers fit the message and the hand-over arrives in time: the row is
    there, PENDING, owned by the caller, with the one audit row of its creation
    and parameters that a retry would read back as the request; the task is
    appended once to the queue of the target and of no other agent, with the
    requested type, profiler, frequency, duration, pid and event; the answer leaves
    the row alone; and drop_server's C strings name the task by the same id. *)
Theorem create_task_end_to_end env uenv ctx req uid name p r a' gs ip :
  pf_inv p → ap_grpc (pf_api p) = true → ce_history env = true → sendable req →
  is_ok (CheckDeadline ctx) = true →
  ApiServer.CreateTask env (Some req) uid name (pf_api p) = (r, a', gs) → http r = 200 →
  let tid := genTID (ce_rand env) in
  let p1 := requested_by a' gs p in
  let '(answer, p2) := hand_over true "" ctx tid req p1 in
  let p3 := go_answered uenv tid answer p2 in
  r = done_with tid ∧ pf_gos p1 = pf_gos p ++ [GoCall tid req] ∧ c_str tid = tid ∧
  pf_api p3 = a' ∧
  (∃ row, hotmethod_task (ap_db a') !! tid = Some row ∧ t_status row = kPending ∧
     c_uid (t_cols row) = uid ∧ unmarshal_req (c_request_params (t_cols row)) = req) ∧
  history_of tid (ap_db a') = [mkHistory tid (-1) kPending "任务已创建" (ce_now env)] ∧
  queue_of ip (g_task_queue (pf_server p3)) =
    queue_of ip (g_task_queue (pf_server p)) ++ (if decide (rq_target_ip req = ip) then [requested tid req] else []).
Proof.
  intros Hp Hg Hh Hs Hc Hcr Hr tid p1.
  assert (pf_inv p1) as Hp1 by (eapply pf_step_inv; [exact Hp|]; by eapply pf_request, ar_create).
  rewrite hand_over_queue by done. unfold ApiServer.CreateTask in Hcr.
  destruct (create_rows _ _ _ _ _) as [a1|] eqn:E; [|by simplify_eq].
  apply create_rows_rows in E as (Hrow & Hhist & Hgr); [|done|apply (inv_db p Hp)].
  rewrite Hgr, Hg in Hcr. simplify_eq. intros p3.
  split_and!; [done..|apply genTID_clean|exact (with_queue_api p1 _ Hp1)| |done|].
  - eexists. split; [exact Hrow|]. split_and!; [done..|]. by apply unmarshal_marshal, sendable_wf.
  - unfold p3, go_answered. rewrite with_api_queue. simpl. by rewrite queue_of_Push, on_db_queue.
Qed.

Lemma create_task_end_to_end_witness :
  let '(answer, p2) := hand_over true "" ctx0 "abcdefghijkl" req0 platform1 in
  queue_of "10.0.0.1" (g_task_queue (pf_server (go_answered env_fine "abcdefghijkl" answer p2))) =
  [requested "abcdefghijkl" req0].
Proof.
  pose proof (create_task_end_to_end cenv0 env_fine ctx0 req0 "u" "n" platform0 created0.1.1 created0.1.2 created0.2
    "10.0.0.1" platform0_inv eq_refl eq_refl req0_sendable eq_refl eq_refl eq_refl) as H.
  change (genTID (ce_rand cenv0)) with "abcdefghijkl" in H. cbv zeta in H.
  destruct (hand_over _ _ _ _ _ _) as [answer p2]. apply H.
Defined.

(** C36: When the hand-over of a task reaches drop_server but its answer does not come back
    (the deadline of 10 s, a broken connection), the API server marks the task FAILED
    although it is queued.  The next heartbeat of the agent still dispatches it, the
    row stays FAILED while the agent works and after it reports, and the retry that
    the FAILED task is offered queues the task a second time. *)
Theorem lost_answer_runs_failed_task err ctx env tid req uid p row :
  pf_inv p → g_pg (pf_server p) ≠ None → c_str tid = tid → sendable req →
  is_ok (CheckDeadline ctx) = true → env_commits env = true →
  find_live tid (ap_db (pf_api p)) = Some row → t_status row = kPending →
  queue_of (rq_target_ip req) (g_task_queue (pf_server p)) = [] →
  let '(answer, p1) := hand_over false err ctx tid req p in
  let p2 := go_answered env tid answer p1 in
  status_of tid (pf_server p2) = Some kFailed ∧
  (∀ ctx' denv hb st resp s',
     is_ok (CheckDeadline ctx') = true → hc_ip_addr hb = rq_target_ip req →
     HealthCheck_Do ctx' denv hb (pf_server p2) = Ret (st, resp, s') →
     resp = Some (mkHealthCheckResponse SERVING true (Some (requested tid req))) ∧
     status_of tid s' = Some kFailed ∧
     ∀ ctx'' env1 env2 res st' s'', NotifyResult ctx'' env1 env2 res s' = Ret (st', s'') →
       status_of tid s'' = Some kFailed) ∧
  (∀ env' ctx', ap_grpc (pf_api p) = true → c_uid (t_cols row) = uid → c_request_params (t_cols row) = jsonb (marshal_req req) →
     api_update_error env' tid kPending (ap_db (pf_api p2)) = None → is_ok (CheckDeadline ctx') = true →
     let '(_, a3, gs) := RetryTask true env' tid uid (pf_api p2) in
     gs = [(tid, req)] ∧
     queue_of (rq_target_ip req) (g_task_queue (pf_server (hand_over true "" ctx' tid req (requested_by a3 gs p2)).2)) =
       [requested tid req; requested tid req]).
Proof.
  intros Hp Hpg Htid Hs Hc He Hf Hst Hq. apply find_live_Some in Hf as Hlive. destruct Hlive as [Hrow Hdel].
  pose proof (hand_over_inv false err ctx tid req p Hp ltac:(by eexists)) as Hp1.
  rewrite hand_over_queue in Hp1 |- * by done. cbn iota. cbn [snd] in Hp1.
  set (p1 := with_server _ p) in *. intros p2. assert (pf_inv p2) as Hp2 by (by apply answered_inv).
  assert (pf_api p1 = pf_api p) as Ha by (by apply with_queue_api).
  assert (g_pg (pf_server p2) ≠ None) as Hpg2 by (by apply with_api_pg).
  destruct (answered_failed env tid err p1 row) as [reason Hrow2]; [by rewrite Ha|done..|]. fold p2 in Hrow2.
  set (row2 := update_row _ _ _ _) in Hrow2.
  assert (task_of tid (pf_server p2) = Some row2) as Ht2 by (by rewrite server_rows).
  assert (queue_of (rq_target_ip req) (g_task_queue (pf_server p2)) = [requested tid req]) as Hq2.
  { unfold p2. unfold go_answered. rewrite with_api_queue. simpl. by rewrite queue_of_Push, Hq, decide_True. }
  split_and!.
  - unfold status_of. by rewrite Ht2.
  - intros ctx' denv hb st resp s' Hc' Hip Hdo. pose proof (inv_server p2 Hp2) as Hi2.
    pose proof (Do_failed_row _ _ _ _ _ _ _ tid row2 Hi2 Hdo Ht2 eq_refl) as Ht3.
    destruct (Do_rows _ _ _ _ _ _ _ Hi2 Hdo Hc') as (_ & [(Hnil & _)|(t & Hcons & -> & _)]).
    + by rewrite Hip, Hq2 in Hnil.
    + rewrite Hip, Hq2 in Hcons. simplify_eq. split_and!; [done|unfold status_of; by rewrite Ht3|].
      intros ctx'' env1 env2 res st' s'' Hn. unfold status_of.
      rewrite (Notify_failed_row ctx'' env1 env2 res s' st' s'' tid row2); [done| |done..].
      eapply (server_step_pg _ _ _ (step_do _ _ _ _ _ _ _ Hdo) Hi2).
  - intros env' ctx' Hg Hu Hpar Herr Hc'.
    destruct (RetryTask_sends env' tid uid (pf_api p2) row2) as (rep & -> & _); [|done|done|exact Herr| |].
    + unfold find_live. rewrite Hrow2. change (deleted row2) with (deleted row). by rewrite Hdel.
    + change (ap_grpc (pf_api p1) = true). by rewrite Ha.
    + cbn [t_cols row2 update_row]. rewrite Hpar, unmarshal_marshal by (by apply sendable_wf). split; [done|].
      rewrite hand_over_queue by done. cbn [snd pf_server with_server g_task_queue set_queue].
      rewrite queue_of_Push, decide_True by done. unfold requested_by. cbn [pf_server with_gos].
      by rewrite with_api_queue, Hq2.
Qed.

Lemma lost_answer_runs_failed_task_witness :
  let '(answer, p1) := hand_over false "deadline exceeded" ctx0 "abcdefghijkl" req0 platform1 in
  status_of "abcdefghijkl" (pf_server (go_answered env_fine "abcdefghijkl" answer p1)) = Some kFailed.
Proof.
  assert (∃ row, find_live "abcdefghijkl" (ap_db (pf_api platform1)) = Some row ∧ t_status row = kPending)
    as (row & Hf & Hs) by (vm_compute; by eexists).
  pose proof (lost_answer_runs_failed_task "deadline exceeded" ctx0 env_fine "abcdefghijkl" req0 "u" platform1 row
    platform1_inv ltac:(discriminate) eq_refl req0_sendable eq_refl eq_refl Hf Hs eq_refl) as H.
  destruct (hand_over _ _ _ _ _ _) as [answer p1]. apply H.
Defined.
