(* ===== verification/PyRegex.v ===== *)
(** Python's [re.search] for the patterns of analysis/nl_parser.py: character classes with
    greedy quantifiers, sequences, alternatives and groups.  [runs] is the backtracking
    matcher: the ways to go on, in the order in which Python tries them; [search] takes
    the first way at the first position that has one.  [parse] says what a pattern
    matches without an order, and the lemmas relate the two. *)
From stdpp Require Import base list.
From Stdlib Require Import ZArith Lia.
From S2P Require Import Prelude PyText.

(** [PRep lo hi p]: from [lo] to [hi] characters of the class [p], as many as possible. *)
Inductive pat :=
  | PRep (lo : nat) (hi : option nat) (p : Z → bool)
  | PCat (a b : pat)
  | PAlt (a b : pat)
  | PGroup (n : nat) (a : pat).

(** What the groups matched, the last first. *)
Definition caps : Type := list (nat * pystr).

Definition group (n : nat) (cs : caps) : option pystr := (λ x, x.2.2) <$> list_find (λ g, g.1 = n) cs.

Definition one (p : Z → bool) : pat := PRep 1 (Some 1)%nat p.
Definition opt (p : Z → bool) : pat := PRep 0 (Some 1)%nat p.
Definition many (p : Z → bool) : pat := PRep 0 None p.
Definition some (p : Z → bool) : pat := PRep 1 None p.
Definition char (c : Z) : Z → bool := λ d, d =? c.
Definition one_of (l : pystr) : Z → bool := λ d, bool_decide (d ∈ l).
Definition lit (s : pystr) : pat := foldr (λ c r, PCat (one (char c)) r) (PRep 0 (Some 0)%nat (λ _, false)) s.

(** * The matcher *)

(** How many leading characters are in the class, up to [hi]. *)
Fixpoint span (hi : option nat) (p : Z → bool) (s : pystr) : nat :=
  match s with
  | [] => 0
  | c :: s' =>
      match hi with
      | Some O => 0
      | _ => if p c then S (span (pred <$> hi) p s') else 0
      end
  end.

(** The longest repetition first, then one character less at a time. *)
Fixpoint shrink (lo k : nat) (s : pystr) : list pystr :=
  if (k <? lo)%nat then [] else drop k s :: match k with O => [] | S k' => shrink lo k' s end.

Fixpoint runs (r : pat) (st : pystr * caps) : list (pystr * caps) :=
  match r with
  | PRep lo hi p => map (λ rest, (rest, st.2)) (shrink lo (span hi p st.1) st.1)
  | PCat a b => runs a st ≫= runs b
  | PAlt a b => (runs a st ++ runs b st)%list
  | PGroup n a =>
      map (λ st', (st'.1, (n, take (length st.1 - length st'.1) st.1) :: st'.2)) (runs a st)
  end.

(** Where the match begins, what is left after it, and its groups. *)
Fixpoint re_search (r : pat) (s : pystr) : option (pystr * pystr * caps) :=
  match runs r (s, []) with
  | (rest, cs) :: _ => Some (s, rest, cs)
  | [] => match s with [] => None | _ :: s' => re_search r s' end
  end.

(** * What a pattern matches *)

Definition at_most (hi : option nat) (k : nat) : Prop := match hi with Some h => k <= h | None => True end%nat.

Fixpoint parse (r : pat) (m : pystr) (cs : caps) : Prop :=
  match r with
  | PRep lo hi p => cs = [] ∧ Forall (λ c, p c = true) m ∧ (lo <= length m)%nat ∧ at_most hi (length m)
  | PCat a b => ∃ m1 m2 cs1 cs2, m = (m1 ++ m2)%list ∧ cs = (cs2 ++ cs1)%list ∧ parse a m1 cs1 ∧ parse b m2 cs2
  | PAlt a b => parse a m cs ∨ parse b m cs
  | PGroup n a => ∃ cs', cs = (n, m) :: cs' ∧ parse a m cs'
  end.

(** * Repetitions *)

Lemma elem_of_shrink lo k s rest : rest ∈ shrink lo k s ↔ ∃ i, (lo <= i <= k)%nat ∧ rest = drop i s.
Proof.
  revert rest. induction k as [|k IH]; intros rest; cbn [shrink];
    match goal with |- context [(?x <? lo)%nat] => destruct (Nat.ltb_spec x lo) as [Hlt|Hge] end.
  - split; [by intros ?%elem_of_nil|]. intros (i & ? & _). lia.
  - rewrite list_elem_of_singleton. split; [intros ->; exists 0%nat; split; [lia|done]|].
    intros (i & ? & ->). by replace i with 0%nat by lia.
  - split; [by intros ?%elem_of_nil|]. intros (i & ? & _). lia.
  - rewrite elem_of_cons, IH. split.
    + intros [->|(i & ? & ->)]; eexists; (split; [|done]); lia.
    + intros (i & ? & ->). destruct (decide (i = S k)) as [->|]; [by left|right]. exists i. split; [lia|done].
Qed.

Lemma span_taken hi p s :
  (span hi p s <= length s)%nat ∧ Forall (λ c, p c = true) (take (span hi p s) s) ∧ at_most hi (span hi p s).
Proof.
  revert hi. induction s as [|c s IH]; intros hi; cbn [span]; [destruct hi; simpl; auto with lia|].
  destruct hi as [[|h]|]; cbn [fmap option_fmap option_map].
  - simpl. auto with lia.
  - destruct (IH (Some (pred (S h)))) as (H1 & H2 & H3). destruct (p c) eqn:E; simpl in *; split_and!; auto with lia.
  - destruct (IH None) as (H1 & H2 & H3). destruct (p c) eqn:E; simpl in *; split_and!; auto with lia.
Qed.

Lemma span_longest hi p m rest :
  Forall (λ c, p c = true) m → at_most hi (length m) → (length m <= span hi p (m ++ rest))%nat.
Proof.
  revert hi. induction m as [|c m IH]; intros hi Hm Hhi; cbn [length app span]; [lia|].
  apply Forall_cons in Hm as [Hc Hm]. destruct hi as [[|h]|]; simpl in Hhi; [lia|..]; rewrite Hc.
  - cbn [fmap option_fmap option_map pred]. pose proof (IH (Some h) Hm). simpl in *. lia.
  - pose proof (IH None Hm I). simpl in *. lia.
Qed.

Lemma shrink_span lo hi p s rest :
  rest ∈ shrink lo (span hi p s) s ↔
  ∃ m, s = (m ++ rest)%list ∧ Forall (λ c, p c = true) m ∧ (lo <= length m)%nat ∧ at_most hi (length m).
Proof.
  rewrite elem_of_shrink. destruct (span_taken hi p s) as (H1 & H2 & H3). split.
  - intros (i & Hi & ->). exists (take i s). rewrite take_drop, length_take, Nat.min_l by lia. split_and!; [done| |lia|].
    + replace i with (i `min` span hi p s)%nat by lia. rewrite <-take_take. by apply Forall_take.
    + destruct hi; simpl in *; [lia|done].
  - intros (m & -> & Hm & Hlo & Hhi). exists (length m). split; [split; [done|by apply span_longest]|].
    by rewrite drop_app_length.
Qed.

(** * The matcher finds what the pattern matches *)

Lemma runs_spec r : ∀ s cs rest cs',
  (rest, cs') ∈ runs r (s, cs) ↔ ∃ m new, s = (m ++ rest)%list ∧ cs' = (new ++ cs)%list ∧ parse r m new.
Proof.
  induction r as [lo hi p|a IHa b IHb|a IHa b IHb|n a IHa]; intros s cs rest cs'; cbn [runs parse].
  - rewrite list_elem_of_fmap. simpl. setoid_rewrite shrink_span. split.
    + intros (x & [= -> ->] & m & -> & Hm). exists m, []. naive_solver.
    + intros (m & new & -> & -> & -> & Hm). exists rest. split; [done|]. eauto.
  - rewrite list_elem_of_bind. split.
    + intros ([s1 cs1] & (m2 & n2 & -> & -> & H2)%IHb & (m1 & n1 & -> & -> & H1)%IHa).
      exists (m1 ++ m2)%list, (n2 ++ n1)%list. rewrite <-!(assoc_L (++)). split_and!; [done..|]. by exists m1, m2, n1, n2.
    + intros (m & new & -> & -> & m1 & m2 & n1 & n2 & -> & -> & H1 & H2).
      exists ((m2 ++ rest)%list, (n1 ++ cs)%list). rewrite <-!(assoc_L (++)). split; [apply IHb|apply IHa]; eauto.
  - rewrite elem_of_app, IHa, IHb. naive_solver.
  - rewrite list_elem_of_fmap. split.
    + intros ([s1 cs1] & [= -> ->] & (m & new & -> & -> & Hm)%IHa). exists m, ((n, m) :: new). simpl.
      rewrite length_app, Nat.add_sub, take_app_length. split_and!; [done..|]. by exists new.
    + intros (m & new & -> & -> & new' & -> & Hm). exists (rest, (new' ++ cs)%list). simpl.
      rewrite length_app, Nat.add_sub, take_app_length. split; [done|]. apply IHa. eauto.
Qed.

Lemma runs_nil r s m rest cs : runs r (s, []) = [] → s = (m ++ rest)%list → ¬ parse r m cs.
Proof.
  intros E Hs Hp. assert ((rest, cs) ∈ runs r (s, [])) as Hin
    by (apply runs_spec; exists m, cs; by rewrite app_nil_r). rewrite E in Hin. by apply elem_of_nil in Hin.
Qed.

Lemma runs_cons r s rest cs l : runs r (s, []) = (rest, cs) :: l → ∃ m, s = (m ++ rest)%list ∧ parse r m cs.
Proof.
  intros E. assert ((rest, cs) ∈ runs r (s, [])) as (m & new & Hm & -> & Hp)%runs_spec by (rewrite E; by left).
  exists m. by rewrite app_nil_r.
Qed.

(** The text contains no match. *)
Definition absent (r : pat) (s : pystr) : Prop := ∀ pre m post cs, s = (pre ++ m ++ post)%list → ¬ parse r m cs.

Lemma re_search_None r s : re_search r s = None ↔ absent r s.
Proof.
  induction s as [|c s IH]; cbn [re_search]; destruct (runs r _) as [|[rest cs] l] eqn:E.
  - split; [|done]. intros _ pre m post cs Hs. apply (runs_nil _ [] m post cs E). by destruct pre, m.
  - split; [done|]. intros Ha. destruct (runs_cons _ _ _ _ _ E) as (m & Hs & Hp). by destruct (Ha [] m rest cs).
  - rewrite IH. split; intros Ha pre m post cs.
    + destruct pre as [|d pre]; simpl; intros Hs; [by apply (runs_nil _ _ m post cs E)|]. simplify_eq. by eapply Ha.
    + intros -> Hp. by apply (Ha (c :: pre) m post cs).
  - split; [done|]. intros Ha. destruct (runs_cons _ _ _ _ _ E) as (m & Hs & Hp). by destruct (Ha [] m rest cs).
Qed.

(** The leftmost match: nothing begins earlier. *)
Lemma re_search_Some r s start rest cs :
  re_search r s = Some (start, rest, cs) →
  head (runs r (start, [])) = Some (rest, cs) ∧
  ∃ pre m, s = (pre ++ start)%list ∧ start = (m ++ rest)%list ∧ parse r m cs ∧
    ∀ pre' m' post' cs', s = (pre' ++ m' ++ post')%list → parse r m' cs' → (length pre <= length pre')%nat.
Proof.
  induction s as [|c s IH]; cbn [re_search]; intros Hs;
    match type of Hs with context [runs ?r ?st] => destruct (runs r st) as [|[rest0 cs0] l] eqn:E end; simplify_eq.
  - split; [by rewrite E|]. destruct (runs_cons _ _ _ _ _ E) as (m & Hm & Hp). exists [], m.
    split_and!; [done..|]. simpl. lia.
  - destruct (IH Hs) as (Hh & pre & m & -> & -> & Hp & Hfirst). split; [done|]. exists (c :: pre), m.
    split_and!; [done..|]. intros [|d pre'] m' post' cs' Hs' Hp'; simpl in *.
    + by destruct (runs_nil _ _ m' post' cs' E).
    + simplify_eq. apply le_n_S. by eapply Hfirst.
  - split; [by rewrite E|]. destruct (runs_cons _ _ _ _ _ E) as (m & Hm & Hp). exists [], m.
    split_and!; [done..|]. simpl. lia.
Qed.

(** * The way that is taken

    [first_run]: the matcher's first choice, by the shape of the pattern. *)

Definition first_run (r : pat) (st st' : pystr * caps) : Prop := head (runs r st) = Some st'.

Definition stops (hi : option nat) (p : Z → bool) (m rest : pystr) : Prop :=
  hi = Some (length m) ∨ match rest with c :: _ => p c = false | [] => True end.

Lemma span_stops hi p m rest :
  Forall (λ c, p c = true) m → at_most hi (length m) → stops hi p m rest → span hi p (m ++ rest) = length m.
Proof.
  revert hi. induction m as [|c m IH]; intros hi Hm Hhi Hs; cbn [app].
  - destruct rest as [|c rest]; [done|]. cbn [span]. destruct Hs as [->|Hc]; [done|]. rewrite Hc.
    by destruct hi as [[]|].
  - apply Forall_cons in Hm as [Hc Hm]. cbn [span length] in *. rewrite Hc.
    destruct hi as [[|h]|]; cbn [at_most fmap option_fmap option_map pred] in *; [lia| |].
    + f_equal. apply IH; [done|simpl; lia|]. destruct Hs as [[= ->]|]; [by left|by right].
    + f_equal. apply IH; [done..|]. destruct Hs; [done|by right].
Qed.

Lemma first_rep lo hi p m rest cs :
  Forall (λ c, p c = true) m → (lo <= length m)%nat → at_most hi (length m) → stops hi p m rest →
  first_run (PRep lo hi p) ((m ++ rest)%list, cs) (rest, cs).
Proof.
  intros Hm Hlo Hhi Hs. unfold first_run. cbn [runs fst snd]. rewrite span_stops by done.
  destruct (length m) as [|k] eqn:E; cbn [shrink]; rewrite (proj2 (Nat.ltb_ge _ _)) by lia; cbn [map head];
    rewrite <-E, drop_app_length; done.
Qed.

Lemma first_cat a b st st1 st2 : first_run a st st1 → first_run b st1 st2 → first_run (PCat a b) st st2.
Proof.
  unfold first_run. cbn [runs]. destruct (runs a st) as [|st0 l]; [done|]. intros [= ->] Hb. cbn [mbind list_bind].
  by destruct (runs b st1).
Qed.

Lemma first_cat_inv a b st st2 :
  first_run (PCat a b) st st2 → ∃ st1, st1 ∈ runs a st ∧ first_run b st1 st2.
Proof.
  unfold first_run. cbn [runs]. induction (runs a st) as [|st1 l IH]; cbn [mbind list_bind]; [done|].
  destruct (runs b st1) as [|x l'] eqn:E; simpl.
  - intros (st' & ? & ?)%IH. exists st'. split; [by right|done].
  - intros [= ->]. exists st1. split; [by left|by rewrite E].
Qed.

Lemma first_alt_l a b st st' : first_run a st st' → first_run (PAlt a b) st st'.
Proof. unfold first_run. cbn [runs]. by destruct (runs a st). Qed.

Lemma first_alt_r a b st st' : runs a st = [] → first_run b st st' → first_run (PAlt a b) st st'.
Proof. unfold first_run. cbn [runs]. by intros ->. Qed.

Lemma first_group n a m rest cs cs' :
  first_run a ((m ++ rest)%list, cs) (rest, cs') → first_run (PGroup n a) ((m ++ rest)%list, cs) (rest, (n, m) :: cs').
Proof.
  unfold first_run. cbn [runs]. destruct (runs a _) as [|st l]; [done|]. intros [= ->]. cbn [map head fst snd].
  by rewrite length_app, Nat.add_sub, take_app_length.
Qed.

Lemma first_lit s rest cs : first_run (lit s) ((s ++ rest)%list, cs) (rest, cs).
Proof.
  induction s as [|c s IH]; cbn [lit foldr app].
  - apply (first_rep 0 (Some 0%nat) _ []); [constructor|done|simpl; lia|by left].
  - eapply first_cat; [|exact IH]. apply (first_rep 1 (Some 1%nat) _ [c]); [|done|simpl; lia|by left].
    apply Forall_singleton. apply Z.eqb_refl.
Qed.

(** The digits at the end of a pattern are taken as far as they go. *)
Lemma first_tail a n p start rest cs :
  first_run (PCat a (PGroup n (PRep 1 None p))) (start, []) (rest, cs) →
  match rest with c :: _ => p c = false | [] => True end.
Proof.
  intros ([s1 cs1] & _ & Hg)%first_cat_inv. unfold first_run in Hg. cbn [runs fst snd] in Hg.
  destruct (span None p s1) as [|k] eqn:E; [done|]. simpl in Hg. injection Hg as <- _.
  clear start cs1. revert s1 E. induction k as [|k IH]; intros [|c s1]; simpl; try done; destruct (p c) eqn:Ec; try done.
  - intros [= E]. rewrite drop_0. destruct s1 as [|d s1]; [done|]. simpl in E. by destruct (p d).
  - intros [= E]. by apply IH.
Qed.

(** ** Positions that are passed over *)

Fixpoint null (r : pat) : bool :=
  match r with
  | PRep lo _ _ => (lo =? 0)%nat
  | PCat a b => null a && null b
  | PAlt a b => null a || null b
  | PGroup _ a => null a
  end.

Fixpoint may_start (r : pat) (c : Z) : bool :=
  match r with
  | PRep _ _ p => p c
  | PCat a b => may_start a c || null a && may_start b c
  | PAlt a b => may_start a c || may_start b c
  | PGroup _ a => may_start a c
  end.

Lemma parse_start r m cs : parse r m cs → match m with [] => null r = true | c :: _ => may_start r c = true end.
Proof.
  revert m cs. induction r as [lo hi p|a IHa b IHb|a IHa b IHb|n a IHa]; intros m cs; cbn [parse null may_start].
  - intros (_ & Hm & Hlo & _). destruct m; [apply Nat.eqb_eq; simpl in Hlo; lia|by apply Forall_cons in Hm as [? _]].
  - intros (m1 & m2 & c1 & c2 & -> & _ & H1%IHa & H2%IHb). destruct m1; cbn [app]; [|by rewrite H1].
    rewrite H1. destruct m2; [done|]. rewrite H2. by rewrite orb_true_r.
  - intros [H%IHa|H%IHb]; destruct m; rewrite H; by rewrite ?orb_true_r.
  - intros (cs' & _ & H%IHa). done.
Qed.

Lemma re_search_pass r c s : runs r ((c :: s), []) = [] → re_search r (c :: s) = re_search r s.
Proof. intros E. cbn [re_search]. destruct (runs r _); [done|discriminate]. Qed.

Lemma re_search_skip r pre s :
  null r = false → Forall (λ c, may_start r c = false) pre → re_search r (pre ++ s) = re_search r s.
Proof.
  intros Hn. induction 1 as [|c pre Hc _ IH]; cbn [app re_search]; [done|].
  destruct (runs r _) as [|[rest cs] l] eqn:E; [done|]. apply runs_cons in E as (m & Hs & Hp%parse_start).
  destruct m; [congruence|]. simplify_eq/=. congruence.
Qed.

Lemma re_search_here r s rest cs : first_run r (s, []) (rest, cs) → re_search r s = Some (s, rest, cs).
Proof. unfold first_run. destruct s; cbn [re_search]; destruct (runs r _) as [|[]]; by intros [= -> ->]. Qed.
