(* ===== verification/NlParser.v ===== *)
(** analysis/nl_parser.py: what a sentence asks for.  A function that can raise returns
    [None] for the exception; the script then ends with an error.

    Python's tables of characters beyond ASCII are parameters: [udecimal], the decimal
    digits, and [ulower], the lower case. *)
From stdpp Require Import base list strings.
From Stdlib Require Import ZArith Lia Ascii.
From S2P Require Import Prelude CppString PyText Utf8 PyRegex.

Declare Scope pat_scope.
Infix "+r" := PCat (at level 50, left associativity) : pat_scope.
Infix "|r" := PAlt (at level 55, right associativity) : pat_scope.
Open Scope pat_scope.

(** * Text *)

(** [kw in text] *)
Fixpoint begins (kw s : pystr) : bool :=
  match kw, s with
  | [], _ => true
  | k :: kw', c :: s' => (k =? c) && begins kw' s'
  | _ :: _, [] => false
  end.
Fixpoint occurs_in (kw s : pystr) : bool :=
  begins kw s || match s with [] => false | _ :: s' => occurs_in kw s' end.

(** * Numbers *)

(** [a / b] rounded to an integer, halves to even. *)
Definition round_div (a b : Z) : Z :=
  let q := a / b in
  let r := a mod b in
  if 2 * r <? b then q else if b <? 2 * r then q + 1 else if Z.even q then q else q + 1.

(** [int(dt.timestamp())] for [us] microseconds since 1970: the quotient by 10^6 as a
    double (53 bits), cut. *)
Definition int_timestamp (us : Z) : Z :=
  let n := Z.abs us in
  let f := 52 - Z.log2 (n / 1000000) in
  let t := if n <? 1000000 then 0
           else if 0 <=? f then round_div (n * 2 ^ f) 1000000 / 2 ^ f
           else round_div n (1000000 * 2 ^ (- f)) * 2 ^ (- f) in
  if us <? 0 then - t else t.

(** The first instant of a [datetime], and the largest [timedelta]. *)
Definition datetime_min : Z := - 62135596800 * 1000000.
Definition timedelta_max_days : Z := 999999999.
Definition day_us : Z := 86400 * 1000000.

Section nl_parser.
Context (udecimal : Z → option Z) (ulower : Z → pystr).

Definition digit (c : Z) : bool := bool_decide (is_Some (decimal udecimal c)).
Definition in_class (s : string) (c : Z) : bool := one_of (u s) c || py_isspace c.

(** * extract_pid *)

Definition pid_word : pat := one (one_of (u "Pp")) +r one (one_of (u "Ii")) +r one (one_of (u "Dd")).
Definition digits : pat := PGroup 1 (some digit).

Definition pid_patterns : list pat :=
  [pid_word +r some (in_class "是为：:") +r digits;
   lit (u "进程") +r many (in_class "号为：:") +r digits;
   pid_word +r some py_isspace +r digits;
   lit (u "目标") +r some (in_class "是为：:") +r digits].

(** [int(m.group(1))] *)
Definition group_int (cs : caps) : option Z := py_int udecimal (default [] (group 1 cs)).

Fixpoint extract_pid_by (patterns : list pat) (text : pystr) : option (option Z) :=
  match patterns with
  | [] => Some None
  | p :: patterns' =>
      match re_search p text with
      | Some (_, _, cs) => Some <$> group_int cs
      | None => extract_pid_by patterns' text
      end
  end.
Definition extract_pid (text : pystr) : option (option Z) := extract_pid_by pid_patterns text.

(** * extract_profiler_type *)

Definition PROFILER_KEYWORDS : list (Z * list pystr) :=
  [(0, map u ["cpu"; "cpu采样"; "perf"; "cpu飙高"; "cpu高"; "cpu占用"; "占用cpu"; "cpu利用率"]);
   (1, map u ["java"; "jvm"; "async-profiler"; "java采样"; "java热点"]);
   (2, map u ["go"; "pprof"; "golang"]);
   (3, map u ["ebpf"; "off-cpu"; "offcpu"; "io"; "阻塞"; "卡顿"; "延迟"; "io等待"; "调度"])].

(** [text.lower()] *)
Definition lower_text (text : pystr) : pystr :=
  text ≫= λ c, if c <? 128 then [if within 65 90 c then c + 32 else c] else ulower c.

Fixpoint keyword_loop (table : list (Z * list pystr)) (text_lower : pystr) : option Z :=
  match table with
  | [] => None
  | (ptype, keywords) :: table' =>
      if existsb (λ kw, occurs_in kw text_lower) keywords then Some ptype else keyword_loop table' text_lower
  end.
Definition extract_profiler_type (text : pystr) : option Z := keyword_loop PROFILER_KEYWORDS (lower_text text).

(** * extract_time_range

    [now] in microseconds since 1970. *)

Definition relative_pattern : pat :=
  (lit (u "过去") |r lit (u "最近")) +r many py_isspace +r opt (one_of (u "一")) +r PGroup 1 (many digit) +r
  many py_isspace +r PGroup 2 (lit (u "分钟") |r lit (u "小时") |r lit (u "天")).
Definition last_hour_pattern : pat :=
  lit (u "上") +r opt (one_of (u "一")) +r opt (one_of (u "个")) +r lit (u "小时").

Definition unit_us (unit_ : pystr) : Z :=
  if bool_decide (unit_ = u "分钟") then 60 * 1000000
  else if bool_decide (unit_ = u "小时") then 3600 * 1000000
  else if bool_decide (unit_ = u "天") then day_us
  else 3600 * 1000000.

(** [now - timedelta(...)]; both can overflow. *)
Definition before (now delta : Z) : option Z :=
  if timedelta_max_days <? delta / day_us then None
  else if now - delta <? datetime_min then None
  else Some (now - delta).

Definition range_from (now start : Z) : option (Z * Z) := Some (int_timestamp start, int_timestamp now).

Definition extract_time_range (now : Z) (text : pystr) : option (option (Z * Z)) :=
  match re_search relative_pattern text with
  | Some (_, _, cs) =>
      let g1 := default [] (group 1 cs) in
      match (if bool_decide (g1 = []) then Some 1 else py_int udecimal g1) with
      | None => None
      | Some val => range_from now <$> before now (val * unit_us (default [] (group 2 cs)))
      end
  | None =>
      match re_search last_hour_pattern text with
      | Some _ => range_from now <$> before now (3600 * 1000000)
      | None =>
          Some (if occurs_in (u "今天") text then range_from now (now - now mod day_us) else None)
      end
  end.

(** * extract_duration, extract_target_ip *)

Definition sampling_pattern : pat :=
  (lit (u "采集") |r lit (u "采样") |r lit (u "持续") |r lit (u "时长")) +r many (in_class "为约：:") +r digits +r
  many py_isspace +r lit (u "秒").
Definition seconds_pattern : pat := digits +r many py_isspace +r lit (u "秒").

Definition extract_duration (text : pystr) : option Z :=
  match re_search sampling_pattern text with
  | Some (_, _, cs) => group_int cs
  | None =>
      match re_search seconds_pattern text with
      | Some (_, _, cs) => group_int cs
      | None => Some 10
      end
  end.

Definition octet : pat := PRep 1 (Some 3)%nat digit.
Definition ip_pattern : pat :=
  PGroup 1 (octet +r one (char 46) +r octet +r one (char 46) +r octet +r one (char 46) +r octet).
Definition extract_target_ip (text : pystr) : option pystr :=
  match re_search ip_pattern text with
  | Some (_, _, cs) => group 1 cs
  | None => None
  end.

(** * parse_intent *)

Record intent := mkPyIntent {
  pi_pid : Z;
  pi_profiler_type : Z;
  pi_duration : Z;
  pi_target_ip : option pystr;
  pi_time_range : option (Z * Z);
  pi_raw_text : pystr;
}.

(** [agents]: the field [ip_addr] of each of them, where it has one. *)
Definition parse_intent (now : Z) (text : pystr) (agents : list (option pystr)) : option intent :=
  match extract_pid text with
  | None => None
  | Some pid =>
      match extract_duration text with
      | None => None
      | Some duration =>
          match extract_time_range now text with
          | None => None
          | Some time_range =>
              let ip := match extract_target_ip text, agents with
                        | None, a :: _ => Some (default (u "127.0.0.1") a)
                        | ip, _ => ip
                        end in
              Some (mkPyIntent (default 0 pid) (default 0 (extract_profiler_type text)) duration ip time_range text)
          end
      end
  end.

(** * Numbers in a sentence *)

Definition value (ds : pystr) : Z := foldl (λ acc c, acc * 10 + default 0 (decimal udecimal c)) 0 ds.

Context (digits_not_spaces : ∀ c, is_Some (udecimal c) → py_isspace c = false).

Lemma digit_plain c : digit c = true → ∃ d, decimal udecimal c = Some d ∧ py_isspace c = false ∧ c ≠ 45 ∧ c ≠ 43 ∧ c ≠ 95.
Proof.
  unfold digit. rewrite bool_decide_eq_true. intros [d Hd]. exists d. split; [done|]. unfold decimal in Hd.
  destruct (Z.ltb_spec c 128) as [Hlt|Hge].
  - destruct (within 48 57 c) eqn:E; [|done]. unfold within in E. split; [|lia]. unfold py_isspace, within. lia.
  - split; [apply digits_not_spaces; by eexists|lia].
Qed.

Lemma int_digits_value ds acc n seen :
  Forall (λ c, digit c = true) ds → (ds = [] → seen = true) →
  int_digits udecimal acc n ds seen =
    Some (foldl (λ acc c, acc * 10 + default 0 (decimal udecimal c)) acc ds, (n + length ds)%nat).
Proof.
  intros Hds. revert acc n seen. induction Hds as [|c ds Hc _ IH]; intros acc n seen Hseen; cbn [int_digits foldl].
  - rewrite Hseen by done. simpl. by rewrite Nat.add_0_r.
  - destruct (digit_plain c Hc) as (d & Hd & _ & _ & _ & H95). rewrite (proj2 (Z.eqb_neq _ _) H95), Hd.
    rewrite IH by done. simpl. do 2 f_equal. lia.
Qed.

Lemma py_int_value ds :
  Forall (λ c, digit c = true) ds → ds ≠ [] → (length ds <= max_str_digits)%nat → py_int udecimal ds = Some (value ds).
Proof.
  intros Hds Hne Hlen. assert (Forall (λ c, py_isspace c = false ∧ c ≠ 45 ∧ c ≠ 43) ds) as Hch.
  { eapply Forall_impl; [exact Hds|]. intros c (d & _ & ? & ? & ? & _)%digit_plain. done. }
  destruct (Forall_ends _ _ Hch) as [Hh Hl]. unfold py_int. rewrite strip_id.
  2, 3: intros x Hx; unfold int_space; first [destruct (Hh x Hx) as [-> _]|destruct (Hl x Hx) as [-> _]]; done.
  destruct ds as [|c ds]; [done|]. destruct (Hh c eq_refl) as (_ & H45 & H43).
  rewrite (proj2 (Z.eqb_neq _ _) H45), (proj2 (Z.eqb_neq _ _) H43), int_digits_value by done.
  by rewrite (proj2 (Nat.ltb_ge _ _)).
Qed.

(** ** Keywords *)

Lemma begins_spec kw s : begins kw s = true ↔ ∃ b, s = (kw ++ b)%list.
Proof.
  revert s. induction kw as [|k kw IH]; intros s; cbn [begins]; [split; eauto|]. destruct s as [|c s].
  - split; [done|]. by intros [? ?].
  - rewrite andb_true_iff, Z.eqb_eq, IH. split; [by intros [-> [b ->]]; exists b|]. intros [b [= -> ->]]. eauto.
Qed.

Lemma contains_spec kw s : occurs_in kw s = true ↔ ∃ a b, s = (a ++ kw ++ b)%list.
Proof.
  induction s as [|c s IH]; cbn [occurs_in]; rewrite orb_true_iff, begins_spec.
  - split.
    + intros [[b Hb]|?]; [|done]. by exists [], b.
    + intros (a & b & Hs). left. exists b. by destruct a.
  - rewrite IH. split.
    + intros [[b Hb]|(a & b & ->)]; [by exists [], b|by exists (c :: a), b].
    + intros ([|d a] & b & Hs); [left; by exists b|right]. simplify_eq/=. by exists a, b.
Qed.

Definition mentions (text : pystr) (e : Z * list pystr) : Prop :=
  ∃ kw a b, kw ∈ e.2 ∧ lower_text text = (a ++ kw ++ b)%list.

Lemma mentions_existsb text e : existsb (λ kw, occurs_in kw (lower_text text)) e.2 = true ↔ mentions text e.
Proof.
  rewrite existsb_exists. unfold mentions. setoid_rewrite contains_spec. setoid_rewrite <-list_elem_of_In.
  split; [intros (kw & ? & a & b & ?); by exists kw, a, b|intros (kw & a & b & ? & ?); exists kw; eauto].
Qed.

End nl_parser.
