(* ===== verification/NlMeaning.v ===== *)
(** What a sentence says, in terms of its text alone, and that nl_parser.py finds exactly
    that: the numbers after their leading words, taken as far as their digits go, the
    profiler, the address and the time. *)
From stdpp Require Import base list strings.
From Stdlib Require Import ZArith Lia Ascii.
From S2P Require Import Prelude CppString PyText Utf8 PyRegex NlParser.

Section meaning.
Context (udecimal : Z → option Z) (ulower : Z → pystr).

(** * The meaning of a sentence *)

Definition is_digit (c : Z) : Prop := is_Some (decimal udecimal c).
Definition spaces (s : pystr) : Prop := Forall (λ c, py_isspace c = true) s.
Definition separators (l : string) (s : pystr) : Prop := Forall (λ c, c ∈ u l ∨ py_isspace c = true) s.

(** What may stand before a number, and after it. *)
Definition pid_lead (m : pystr) : Prop :=
  ∃ p i d s, m = [p; i; d] ++ s ∧ p ∈ u "Pp" ∧ i ∈ u "Ii" ∧ d ∈ u "Dd" ∧ s ≠ [] ∧ separators "是为：:" s.
Definition process_lead (m : pystr) : Prop := ∃ s, m = u "进程" ++ s ∧ separators "号为：:" s.
Definition target_lead (m : pystr) : Prop := ∃ s, m = u "目标" ++ s ∧ s ≠ [] ∧ separators "是为：:" s.
Definition sampling_lead (m : pystr) : Prop :=
  ∃ w s, m = w ++ s ∧ w ∈ [u "采集"; u "采样"; u "持续"; u "时长"] ∧ separators "为约：:" s.

Definition no_digit (post : pystr) : Prop := match post with c :: _ => ¬ is_digit c | [] => True end.
Definition seconds_follow (post : pystr) : Prop := ∃ s post', post = s ++ u "秒" ++ post' ∧ spaces s.

(** The number [n] at the position after [pre]. *)
Definition number_at (lead tail : pystr → Prop) (text pre : pystr) (n : Z) : Prop :=
  ∃ m ds post, text = pre ++ m ++ ds ++ post ∧ lead m ∧ ds ≠ [] ∧ Forall is_digit ds ∧ tail post ∧
    n = value udecimal ds.

(** The leftmost of the things that are at some position. *)
Definition leftmost {A} (at_ : pystr → A → Prop) (x : A) : Prop :=
  ∃ pre, at_ pre x ∧ ∀ pre' x', at_ pre' x' → (length pre <= length pre')%nat.
Definition nowhere {A} (at_ : pystr → A → Prop) : Prop := ∀ pre x, ¬ at_ pre x.

(** The first form that occurs says the number. *)
Fixpoint said (forms : list ((pystr → Prop) * (pystr → Prop))) (text : pystr) (n : option Z) : Prop :=
  match forms with
  | [] => n = None
  | (lead, tail) :: forms' =>
      (∃ k, leftmost (number_at lead tail text) k ∧ n = Some k) ∨
      nowhere (number_at lead tail text) ∧ said forms' text n
  end.

Definition pid_forms : list ((pystr → Prop) * (pystr → Prop)) :=
  [(pid_lead, no_digit); (process_lead, no_digit); (target_lead, no_digit)].
Definition duration_forms : list ((pystr → Prop) * (pystr → Prop)) :=
  [(sampling_lead, seconds_follow); (λ m, m = [], seconds_follow)].

(** The profiler: the first group of words of which one occurs. *)
Definition mentions_one (ws : list string) (text : pystr) : Prop :=
  ∃ w a b, w ∈ ws ∧ lower_text ulower text = a ++ u w ++ b.
Fixpoint profiler_said (groups : list (Z * list string)) (text : pystr) (t : option Z) : Prop :=
  match groups with
  | [] => t = None
  | (k, ws) :: groups' =>
      mentions_one ws text ∧ t = Some k ∨ ¬ mentions_one ws text ∧ profiler_said groups' text t
  end.
Definition profiler_words : list (Z * list string) :=
  [(0, ["cpu"; "perf"]); (1, ["java"; "jvm"; "async-profiler"]); (2, ["go"; "pprof"]);
   (3, ["ebpf"; "off-cpu"; "offcpu"; "io"; "阻塞"; "卡顿"; "延迟"; "调度"])].

(** Four numbers of one to three digits with dots between them; the last one goes on as
    long as it can. *)
Definition octet_text (s : pystr) : Prop := (1 <= length s <= 3)%nat ∧ Forall is_digit s.
Definition address_at (text pre ip : pystr) : Prop :=
  ∃ a b c d post, text = pre ++ ip ++ post ∧ ip = a ++ [46] ++ b ++ [46] ++ c ++ [46] ++ d ∧
    octet_text a ∧ octet_text b ∧ octet_text c ∧ octet_text d ∧ (length d = 3%nat ∨ no_digit post).

(** So many microseconds ago. *)
Definition ago_at (text pre : pystr) (k : Z) : Prop :=
  ∃ w s1 o ds s2 unit_ secs post,
    text = pre ++ w ++ s1 ++ o ++ ds ++ s2 ++ unit_ ++ post ∧
    w ∈ [u "过去"; u "最近"] ∧ spaces s1 ∧ o ∈ [[]; u "一"] ∧ Forall is_digit ds ∧ spaces s2 ∧
    (unit_, secs) ∈ [(u "分钟", 60); (u "小时", 3600); (u "天", 86400)] ∧
    k = (if bool_decide (ds = []) then 1 else value udecimal ds) * secs * 1000000.
Definition says_last_hour (text : pystr) : Prop :=
  ∃ pre o g post, text = pre ++ u "上" ++ o ++ g ++ u "小时" ++ post ∧ o ∈ [[]; u "一"] ∧ g ∈ [[]; u "个"].
Definition says_today (text : pystr) : Prop := ∃ a b, text = a ++ u "今天" ++ b.

(** The time from [start] on, in whole seconds. *)
Definition since (now start : Z) : option (Z * Z) := Some (int_timestamp start, int_timestamp now).
Definition time_said (now : Z) (text : pystr) (r : option (Z * Z)) : Prop :=
  (∃ k, leftmost (ago_at text) k ∧ datetime_min <= now - k ∧ r = since now (now - k)) ∨
  nowhere (ago_at text) ∧
    (says_last_hour text ∧ r = since now (now - 3600 * 1000000) ∨
     ¬ says_last_hour text ∧
       (says_today text ∧ r = since now (now - now mod (86400 * 1000000)) ∨ ¬ says_today text ∧ r = None)).

Definition address_said (text : pystr) (agents : list (option pystr)) (r : option pystr) : Prop :=
  (∃ ip, leftmost (address_at text) ip ∧ r = Some ip) ∨
  nowhere (address_at text) ∧ r = (default (u "127.0.0.1") <$> head agents).

Record means (now : Z) (text : pystr) (agents : list (option pystr)) (i : intent) : Prop := mkMeans {
  means_pid : ∃ n, said pid_forms text n ∧ pi_pid i = default 0 n;
  means_profiler : ∃ t, profiler_said profiler_words text t ∧ pi_profiler_type i = default 0 t;
  means_duration : ∃ n, said duration_forms text n ∧ pi_duration i = default 10 n;
  means_address : address_said text agents (pi_target_ip i);
  means_time : time_said now text (pi_time_range i);
  means_text : pi_raw_text i = text;
}.

(** * Lemmas *)

(** None of the Chinese characters of the forms is a digit, and no digit is a space. *)
Definition chinese : pystr := u "进程号目标是为：采集样持续时长约秒一分钟小天".
Context (chinese_not_digits : Forall (λ c, udecimal c = None) chinese).
Context (digits_not_spaces : ∀ c, is_Some (udecimal c) → py_isspace c = false).

Lemma digit_is_digit c : digit udecimal c = true ↔ is_digit c.
Proof. unfold digit. by rewrite bool_decide_eq_true. Qed.
Lemma digit_is_not_digit c : digit udecimal c = false ↔ ¬ is_digit c.
Proof. unfold digit. by rewrite bool_decide_eq_false. Qed.
Lemma Forall_digits s : Forall (λ c, digit udecimal c = true) s ↔ Forall is_digit s.
Proof. apply Forall_iff. apply digit_is_digit. Qed.

Lemma literal_not_digit c : c ∈ chinese ++ u "PpIiDd:." → ¬ is_digit c.
Proof.
  rewrite elem_of_app. unfold is_digit, decimal. intros [Hc|Hc].
  - assert (Forall (λ c, 128 <= c) chinese) as H128 by (vm_compute; repeat constructor; discriminate).
    rewrite Forall_forall in chinese_not_digits, H128. rewrite (proj2 (Z.ltb_ge c 128)) by (by apply H128).
    rewrite chinese_not_digits by done. by intros [].
  - assert (Forall (λ c, c < 128 ∧ within 48 57 c = false) (u "PpIiDd:.")) as Ha by (vm_compute; repeat constructor; discriminate).
    rewrite Forall_forall in Ha. destruct (Ha c Hc) as [Hlt Hw]. rewrite (proj2 (Z.ltb_lt c 128)), Hw by done. by intros [].
Qed.

Lemma space_not_digit c : py_isspace c = true → ¬ is_digit c.
Proof. intros Hs (d & _ & Hd & _)%digit_is_digit%digit_plain; [congruence|done]. Qed.

Lemma incl_literal s c : c ∈ s → forallb (λ x, bool_decide (x ∈ chinese ++ u "PpIiDd:.")) s = true → ¬ is_digit c.
Proof.
  intros Hc Hs. apply literal_not_digit. rewrite forallb_forall in Hs. setoid_rewrite <-list_elem_of_In in Hs.
  apply (bool_decide_eq_true_1 _ (Hs c Hc)).
Qed.

Lemma separators_not_digits l s :
  forallb (λ x, bool_decide (x ∈ chinese ++ u "PpIiDd:.")) (u l) = true → separators l s → Forall (λ c, ¬ is_digit c) s.
Proof.
  intros Hl Hs. eapply Forall_impl; [exact Hs|]. intros c [Hc|Hc]; [by eapply incl_literal|by apply space_not_digit].
Qed.
Lemma spaces_not_digits s : spaces s → Forall (λ c, ¬ is_digit c) s.
Proof. intros Hs. eapply Forall_impl; [exact Hs|]. apply space_not_digit. Qed.

(** ** Cutting a text at the end of a block *)

Definition stops_at (P : Z → Prop) (s : pystr) : Prop := match s with c :: _ => ¬ P c | [] => True end.

Lemma block_unique (P : Z → Prop) a b a' b' :
  Forall P a → Forall P a' → stops_at P b → stops_at P b' → a ++ b = a' ++ b' → a = a' ∧ b = b'.
Proof.
  revert a'. induction a as [|x a IH]; intros [|x' a'] Ha Ha' Hb Hb' E; simpl in E.
  - done.
  - subst b. by apply Forall_cons in Ha' as [? _].
  - subst b'. by apply Forall_cons in Ha as [? _].
  - injection E as -> E. apply Forall_cons in Ha as [_ Ha], Ha' as [_ Ha'].
    destruct (IH a' Ha Ha' Hb Hb' E) as [-> ->]. done.
Qed.

(** A block up to the first digit. *)
Lemma lead_unique a b a' b' :
  Forall (λ c, ¬ is_digit c) a → Forall (λ c, ¬ is_digit c) a' →
  stops_at (λ c, ¬ is_digit c) b → stops_at (λ c, ¬ is_digit c) b' → a ++ b = a' ++ b' → a = a' ∧ b = b'.
Proof. apply block_unique. Qed.

Lemma digits_start ds post : ds ≠ [] → Forall is_digit ds → stops_at (λ c, ¬ is_digit c) (ds ++ post).
Proof. intros Hne Hd. destruct ds as [|c ds]; [done|]. apply Forall_cons in Hd as [Hc _]. simpl. tauto. Qed.

Lemma prefix_same (text pre pre' s s' : pystr) :
  text = pre ++ s → text = pre' ++ s' → length pre = length pre' → pre = pre' ∧ s = s'.
Proof. intros -> E Hl. by apply app_inj_1 in E. Qed.

Lemma leftmost_unique {A} (at_ : pystr → A → Prop) x x' :
  (∀ pre pre' x x', at_ pre x → at_ pre' x' → length pre = length pre' → x = x') →
  leftmost at_ x → leftmost at_ x' → x = x'.
Proof.
  intros Hat (pre & H & Hmin) (pre' & H' & Hmin'). apply (Hat pre pre'); [done..|].
  pose proof (Hmin _ _ H'). pose proof (Hmin' _ _ H). lia.
Qed.
Lemma leftmost_somewhere {A} (at_ : pystr → A → Prop) x : leftmost at_ x → ¬ nowhere at_.
Proof. intros (pre & H & _) Hn. by apply (Hn pre x). Qed.

(** ** Numbers: what the search finds is what the text says *)

Lemma number_at_unique lead tail text pre pre' n n' :
  (∀ m, lead m → Forall (λ c, ¬ is_digit c) m) → (∀ post, tail post → no_digit post) →
  number_at lead tail text pre n → number_at lead tail text pre' n' → length pre = length pre' → n = n'.
Proof.
  intros Hlead Htail (m & ds & post & Ht & Hm & Hne & Hds & Hp & ->) (m' & ds' & post' & Ht' & Hm' & Hne' & Hds' & Hp' & ->) Hl.
  destruct (prefix_same _ _ _ _ _ Ht Ht' Hl) as [_ E].
  apply lead_unique in E as [_ E]; [|by auto using digits_start..].
  apply (block_unique is_digit) in E as [-> _]; [done|done|done|by apply Htail|by apply Htail].
Qed.

(** A pattern for a form: it matches where the form is, and its first way takes group 1 as
    the form has it. *)
Definition finds (p : pat) (lead tail : pystr → Prop) : Prop :=
  (∀ text pre n, number_at lead tail text pre n → ∃ m post cs, text = pre ++ m ++ post ∧ parse p m cs) ∧
  (∀ pre start rest cs, first_run p (start, []) (rest, cs) →
     ∃ m ds post, start = m ++ ds ++ post ∧ lead m ∧ ds ≠ [] ∧ Forall is_digit ds ∧ tail post ∧ group 1 cs = Some ds ∧
       number_at lead tail (pre ++ start) pre (value udecimal ds)).

Lemma search_finds p lead tail text :
  finds p lead tail → (length text <= max_str_digits)%nat →
  match re_search p text with
  | Some (_, _, cs) => ∃ n, group_int udecimal cs = Some n ∧ leftmost (number_at lead tail text) n
  | None => nowhere (number_at lead tail text)
  end.
Proof.
  intros [Hfind Hrun] Hlen. destruct (re_search p text) as [[[start rest] cs]|] eqn:E.
  - apply re_search_Some in E as (Hh & pre & m0 & -> & -> & Hm & Hfirst).
    destruct (Hrun pre _ _ _ Hh) as (m & ds & post & Es & _ & Hne & Hds & _ & Hg & Hat).
    exists (value udecimal ds). split.
    + unfold group_int. rewrite Hg. apply py_int_value; [done|by apply Forall_digits|done|].
      rewrite Es in Hlen. rewrite !length_app in Hlen. lia.
    + exists pre. split; [done|]. intros pre' n' Hn'. destruct (Hfind _ _ _ Hn') as (m' & post' & cs' & Ht & Hp). by eapply Hfirst.
  - rewrite re_search_None in E. intros pre n Hn. destruct (Hfind _ _ _ Hn) as (m & post & cs & Ht & Hp). by eapply E.
Qed.

(** A pattern that is a lead, then digits. *)
Definition lead_pattern (q : pat) (lead : pystr → Prop) : Prop :=
  ∀ m cs, parse q m cs ↔ ∃ m1 ds, m = m1 ++ ds ∧ lead m1 ∧ ds ≠ [] ∧ Forall is_digit ds ∧ cs = [(1%nat, ds)].

Lemma parse_digits m cs :
  parse (digits udecimal) m cs ↔ m ≠ [] ∧ Forall is_digit m ∧ cs = [(1%nat, m)].
Proof.
  cbn [digits parse some]. rewrite <-Forall_digits. split.
  - intros (cs' & -> & -> & Hm & Hl & _). split_and!; [intros ->; simpl in Hl; lia|done|done].
  - intros (Hne & Hm & ->). exists []. split_and!; try done. destruct m; simpl; [done|lia].
Qed.

Lemma lead_digits lp (lead : pystr → Prop) :
  (∀ m cs, parse lp m cs ↔ cs = [] ∧ lead m) → lead_pattern (lp +r digits udecimal) lead.
Proof.
  intros Hlp m cs. cbn [parse]. setoid_rewrite parse_digits. setoid_rewrite Hlp. split.
  - intros (m1 & m2 & cs1 & cs2 & -> & -> & [-> Hm1] & Hne & Hds & ->). by exists m1, m2.
  - intros (m1 & ds & -> & Hm1 & Hne & Hds & ->). by exists m1, ds, [], [(1%nat, ds)].
Qed.

Lemma lead_none : lead_pattern (digits udecimal) (λ m, m = []).
Proof.
  intros m cs. rewrite parse_digits. split.
  - intros (? & ? & ->). by exists [], m.
  - by intros (m1 & ds & -> & -> & ? & ? & ->).
Qed.

(** The digits end the pattern: greed takes them all. *)
Lemma finds_last lp (lead : pystr → Prop) :
  (∀ m cs, parse lp m cs ↔ cs = [] ∧ lead m) → finds (lp +r digits udecimal) lead no_digit.
Proof.
  intros Hlp. pose proof (lead_digits lp lead Hlp) as Hq. split.
  - intros text pre n (m & ds & post & -> & Hm & Hne & Hds & _). exists (m ++ ds), post, [(1%nat, ds)].
    rewrite <-(assoc_L (++)). split; [done|]. apply Hq. by exists m, ds.
  - intros pre start rest cs H. pose proof (first_tail _ _ _ _ _ _ H) as Hrest.
    assert ((rest, cs) ∈ runs (lp +r digits udecimal) (start, [])) as (m & new & -> & -> & Hp)%runs_spec
      by (unfold first_run in H; destruct (runs _ _); [done|]; injection H as ->; by left).
    rewrite app_nil_r in *. apply Hq in Hp as (m1 & ds & -> & Hm & Hne & Hds & ->).
    assert (no_digit rest) as Hnd by (destruct rest; [done|]; simpl; by apply digit_is_not_digit).
    exists m1, ds, rest. rewrite <-(assoc_L (++)). split_and!; [done..|]. by exists m1, ds, rest.
Qed.

Lemma parse_spaces m cs : parse (many py_isspace) m cs ↔ cs = [] ∧ spaces m.
Proof. cbn [parse many]. unfold spaces. split; [naive_solver|]. intros [-> ?]. split_and!; try done; lia. Qed.

Lemma parse_lit_iff s m cs : parse (lit s) m cs ↔ cs = [] ∧ m = s.
Proof.
  revert m cs. induction s as [|x s IH]; intros m cs; cbn [lit foldr parse].
  - split; [intros (-> & _ & _ & Hl); by destruct m; simpl in Hl; [|lia]|]. intros [-> ->]. split_and!; try done; simpl; lia.
  - fold (lit s). setoid_rewrite IH. split.
    + intros (m1 & m2 & cs1 & cs2 & -> & -> & (-> & Hm & Hlo & Hhi) & -> & ->).
      destruct m1 as [|y [|z m1]]; simpl in Hlo, Hhi; [lia| |lia]. apply Forall_cons in Hm as [Hy _].
      unfold char in Hy. apply Z.eqb_eq in Hy as ->. done.
    + intros [-> ->]. exists [x], s, [], []. split; [done|]. split; [done|]. split; [|done].
      split; [done|]. split; [|simpl; lia]. apply Forall_singleton. apply Z.eqb_refl.
Qed.

(** The word for seconds follows. *)
Lemma finds_seconds q lead : lead_pattern q lead → finds (q +r many py_isspace +r lit (u "秒")) lead seconds_follow.
Proof.
  unfold lead_pattern. intros Hq. assert (∀ m cs, parse (q +r many py_isspace +r lit (u "秒")) m cs ↔
    ∃ m1 ds s, m = m1 ++ ds ++ s ++ u "秒" ∧ lead m1 ∧ ds ≠ [] ∧ Forall is_digit ds ∧ spaces s ∧ cs = [(1%nat, ds)]) as Hp.
  { intros m cs. cbn [parse]. setoid_rewrite parse_lit_iff. setoid_rewrite parse_spaces. setoid_rewrite Hq. split.
    - intros (m12 & m3 & cs12 & cs3 & -> & -> & (m1 & m2 & cs1 & cs2 & -> & -> & (m0 & ds & -> & ? & ? & ? & ->) & -> & Hs) & -> & ->).
      exists m0, ds, m2. rewrite <-!(assoc_L (++)). done.
    - intros (m1 & ds & s & -> & ? & ? & ? & ? & ->). exists (m1 ++ ds ++ s), (u "秒"), [(1%nat, ds)], [].
      rewrite <-!(assoc_L (++)). split_and!; [done|done| |done|done].
      exists (m1 ++ ds), s, [(1%nat, ds)], []. rewrite <-!(assoc_L (++)). split_and!; [done|done| |done|done]. by exists m1, ds. }
  split.
  - intros text pre n (m & ds & post & -> & Hm & Hne & Hds & (s & post' & -> & Hs) & _).
    exists (m ++ ds ++ s ++ u "秒"), post', [(1%nat, ds)]. rewrite <-!(assoc_L (++)). split; [done|]. apply Hp. by exists m, ds, s.
  - intros pre start rest cs H.
    assert ((rest, cs) ∈ runs (q +r many py_isspace +r lit (u "秒")) (start, [])) as (m & new & -> & -> & Hm)%runs_spec
      by (unfold first_run in H; destruct (runs _ _); [done|]; injection H as ->; by left).
    rewrite app_nil_r in *. apply Hp in Hm as (m1 & ds & s & -> & Hm & Hne & Hds & Hs & ->).
    assert (seconds_follow (s ++ u "秒" ++ rest)) as Htail by (by exists s, rest).
    exists m1, ds, (s ++ u "秒" ++ rest). rewrite <-!(assoc_L (++)). split_and!; [done..|]. by exists m1, ds, (s ++ u "秒" ++ rest).
Qed.

(** ** The leads of the patterns *)

Lemma parse_rep lo hi (P : Z → bool) m cs :
  parse (PRep lo hi P) m cs ↔ cs = [] ∧ Forall (λ c, P c = true) m ∧ (lo <= length m)%nat ∧ at_most hi (length m).
Proof. done. Qed.

Lemma in_class_separators l s : Forall (λ c, in_class l c = true) s ↔ separators l s.
Proof. apply Forall_iff. intros c. unfold in_class, one_of. by rewrite orb_true_iff, bool_decide_eq_true. Qed.

Lemma parse_some_class l m cs : parse (some (in_class l)) m cs ↔ cs = [] ∧ m ≠ [] ∧ separators l m.
Proof.
  unfold some. rewrite parse_rep, in_class_separators. split; [|intros (-> & Hne & ?)].
  - intros (-> & ? & Hl & _). split_and!; [done| |done]. intros ->. simpl in Hl. lia.
  - split_and!; try done. destruct m; simpl; [done|lia].
Qed.
Lemma parse_many_class l m cs : parse (many (in_class l)) m cs ↔ cs = [] ∧ separators l m.
Proof. unfold many. rewrite parse_rep, in_class_separators. split; [naive_solver|]. intros [-> ?]. split_and!; try done. lia. Qed.
Lemma parse_one P m cs : parse (one P) m cs ↔ ∃ c, cs = [] ∧ m = [c] ∧ P c = true.
Proof.
  unfold one. rewrite parse_rep. split.
  - intros (-> & Hm & Hlo & Hhi). destruct m as [|c [|? ?]]; simpl in *; [lia| |lia]. exists c. by apply Forall_cons in Hm as [? _].
  - intros (c & -> & -> & Hc). split; [done|]. split; [by apply Forall_singleton|]. simpl. lia.
Qed.
Lemma parse_cat a b (A B : pystr → Prop) :
  (∀ m cs, parse a m cs ↔ cs = [] ∧ A m) → (∀ m cs, parse b m cs ↔ cs = [] ∧ B m) →
  ∀ m cs, parse (a +r b) m cs ↔ cs = [] ∧ ∃ m1 m2, m = m1 ++ m2 ∧ A m1 ∧ B m2.
Proof.
  intros Ha Hb m cs. cbn [parse]. setoid_rewrite Ha. setoid_rewrite Hb. split.
  - intros (m1 & m2 & cs1 & cs2 & -> & -> & [-> ?] & [-> ?]). split; [done|]. by exists m1, m2.
  - intros (-> & m1 & m2 & -> & ? & ?). by exists m1, m2, [], [].
Qed.

Lemma parse_pid_word m cs :
  parse pid_word m cs ↔ cs = [] ∧ ∃ p i d, m = [p; i; d] ∧ p ∈ u "Pp" ∧ i ∈ u "Ii" ∧ d ∈ u "Dd".
Proof.
  unfold pid_word. cbn [parse]. setoid_rewrite parse_one. unfold one_of. setoid_rewrite bool_decide_eq_true. split.
  - intros (m12 & m3 & cs12 & cs3 & -> & -> & (m1 & m2 & cs1 & cs2 & -> & -> & (p & -> & -> & ?) & (i & -> & -> & ?)) & d & -> & -> & ?).
    split; [done|]. by exists p, i, d.
  - intros (-> & p & i & d & -> & ? & ? & ?). exists [p; i], [d], [], []. split_and!; [done..| |by exists d].
    exists [p], [i], [], []. split_and!; [done|done|by exists p|by exists i].
Qed.

Lemma parse_pid_lead m cs : parse (pid_word +r some (in_class "是为：:")) m cs ↔ cs = [] ∧ pid_lead m.
Proof.
  rewrite (parse_cat _ _ _ _ parse_pid_word (parse_some_class "是为：:")). unfold pid_lead. apply and_iff_compat_l. split.
  - intros (m1 & s & -> & (p & i & d & -> & ?) & ?). exists p, i, d, s. naive_solver.
  - intros (p & i & d & s & -> & ? & ? & ? & ? & ?). exists [p; i; d], s. split_and!; [done| |done..]. by exists p, i, d.
Qed.
Lemma parse_process_lead m cs : parse (lit (u "进程") +r many (in_class "号为：:")) m cs ↔ cs = [] ∧ process_lead m.
Proof.
  rewrite (parse_cat _ _ _ _ (parse_lit_iff _) (parse_many_class _)).
  apply and_iff_compat_l. split; [by intros (? & s & -> & -> & ?); exists s|intros (s & -> & ?); by exists (u "进程"), s].
Qed.
Lemma parse_target_lead m cs : parse (lit (u "目标") +r some (in_class "是为：:")) m cs ↔ cs = [] ∧ target_lead m.
Proof.
  rewrite (parse_cat _ _ _ _ (parse_lit_iff _) (parse_some_class _)).
  apply and_iff_compat_l. split; [by intros (? & s & -> & -> & ?); exists s|intros (s & -> & ?); by exists (u "目标"), s].
Qed.
Lemma parse_sampling_lead m cs :
  parse ((lit (u "采集") |r lit (u "采样") |r lit (u "持续") |r lit (u "时长")) +r many (in_class "为约：:")) m cs ↔
  cs = [] ∧ sampling_lead m.
Proof.
  rewrite (parse_cat _ _ (λ m, m ∈ [u "采集"; u "采样"; u "持续"; u "时长"]) (separators "为约：:"));
    [|intros|apply parse_many_class].
  - apply and_iff_compat_l. split; intros (w & s & -> & ? & ?); by exists w, s.
  - cbn [parse]. rewrite !parse_lit_iff. set_unfold. tauto.
Qed.

(** ** The process id and the duration *)

Lemma pid_extracted text :
  (length text <= max_str_digits)%nat → ∃ n, extract_pid udecimal text = Some n ∧ said pid_forms text n.
Proof.
  intros Hlen. unfold extract_pid, pid_patterns. cbn [extract_pid_by said pid_forms].
  pose proof (search_finds _ _ _ text (finds_last _ _ parse_pid_lead) Hlen) as H1.
  destruct (re_search _ text) as [[[? ?] cs]|] eqn:E1.
  { destruct H1 as (n & -> & Hn). exists (Some n). split; [done|left]. by exists n. }
  pose proof (search_finds _ _ _ text (finds_last _ _ parse_process_lead) Hlen) as H2.
  destruct (re_search (lit (u "进程") +r _ +r _) text) as [[[? ?] cs]|].
  { destruct H2 as (n & -> & Hn). exists (Some n). split; [done|]. right. split; [done|left]. by exists n. }
  assert (re_search (pid_word +r some py_isspace +r digits udecimal) text = None) as ->.
  { apply re_search_None. rewrite re_search_None in E1. intros pre m post cs' Ht Hp. apply (E1 pre m post cs' Ht).
    destruct Hp as (m12 & m3 & cs12 & cs3 & -> & -> & (m1 & m2 & cs1 & cs2 & -> & -> & ? & (-> & Hs & ?)) & ?).
    exists (m1 ++ m2), m3, ([] ++ cs1), cs3. split_and!; [done..| |done]. exists m1, m2, cs1, [].
    split; [done|]. split; [done|]. split; [done|]. split; [done|]. split; [|done]. eapply Forall_impl; [exact Hs|]. intros c. unfold in_class. rewrite orb_true_iff. by right. }
  pose proof (search_finds _ _ _ text (finds_last _ _ parse_target_lead) Hlen) as H4.
  destruct (re_search (lit (u "目标") +r _ +r _) text) as [[[? ?] cs]|].
  - destruct H4 as (n & -> & Hn). exists (Some n). split; [done|]. right. split; [done|]. right. split; [done|left]. by exists n.
  - exists None. split; [done|]. right. split; [done|]. right. split; [done|]. by right.
Qed.

Lemma duration_extracted text :
  (length text <= max_str_digits)%nat →
  ∃ n, extract_duration udecimal text = Some (default 10 n) ∧ said duration_forms text n.
Proof.
  intros Hlen. unfold extract_duration. cbn [said duration_forms].
  pose proof (search_finds _ _ _ text (finds_seconds _ _ (lead_digits _ _ parse_sampling_lead)) Hlen) as H1.
  destruct (re_search (sampling_pattern udecimal) text) as [[[? ?] cs]|] eqn:E1; unfold sampling_pattern in E1; rewrite E1 in H1.
  { destruct H1 as (n & -> & Hn). exists (Some n). split; [done|left]. by exists n. }
  pose proof (search_finds _ _ _ text (finds_seconds _ _ lead_none) Hlen) as H2.
  destruct (re_search (seconds_pattern udecimal) text) as [[[? ?] cs]|] eqn:E2; unfold seconds_pattern in E2; rewrite E2 in H2.
  - destruct H2 as (n & -> & Hn). exists (Some n). split; [done|]. right. split; [done|left]. by exists n.
  - exists None. split; [done|]. right. split; [done|]. by right.
Qed.

(** A lead has no digits, and what follows a number does not begin with one. *)
Lemma literals_not_digits s : forallb (λ x, bool_decide (x ∈ chinese ++ u "PpIiDd:.")) s = true → Forall (λ c, ¬ is_digit c) s.
Proof. intros Hs. apply Forall_forall. intros c Hc. by eapply incl_literal. Qed.

Lemma pid_lead_plain m : pid_lead m → Forall (λ c, ¬ is_digit c) m.
Proof.
  intros (p & i & d & s & -> & Hp & Hi & Hd & _ & Hs). apply Forall_app. split; [|by eapply separators_not_digits, Hs].
  repeat (apply Forall_cons; split); [by eapply incl_literal..|constructor].
Qed.
Lemma process_lead_plain m : process_lead m → Forall (λ c, ¬ is_digit c) m.
Proof.
  intros (s & -> & Hs). apply Forall_app. split; [by apply literals_not_digits|by eapply separators_not_digits, Hs].
Qed.
Lemma target_lead_plain m : target_lead m → Forall (λ c, ¬ is_digit c) m.
Proof.
  intros (s & -> & _ & Hs). apply Forall_app. split; [by apply literals_not_digits|by eapply separators_not_digits, Hs].
Qed.
Lemma sampling_lead_plain m : sampling_lead m → Forall (λ c, ¬ is_digit c) m.
Proof.
  intros (w & s & -> & Hw & Hs). apply Forall_app. split; [|by eapply separators_not_digits, Hs].
  rewrite !elem_of_cons in Hw. destruct Hw as [->|[->|[->|[->|Hw]]]]; [by apply literals_not_digits..|].
  by apply not_elem_of_nil in Hw.
Qed.
Lemma seconds_follow_no_digit post : seconds_follow post → no_digit post.
Proof.
  intros (s & post' & -> & Hs). destruct Hs as [|c s Hc Hs]; simpl; [|by apply space_not_digit].
  apply (incl_literal (u "秒")); [by left|done].
Qed.

Lemma said_unique forms text n n' :
  Forall (λ f, (∀ m, f.1 m → Forall (λ c, ¬ is_digit c) m) ∧ ∀ post, f.2 post → no_digit post) forms →
  said forms text n → said forms text n' → n = n'.
Proof.
  induction 1 as [|[lead tail] forms [Hl Ht] _ IH]; simpl; [congruence|].
  intros [(k & Hk & ->)|[Hno Hn]] [(k' & Hk' & ->)|[Hno' Hn']].
  - f_equal. eapply leftmost_unique; [|exact Hk|exact Hk']. intros. by eapply number_at_unique.
  - by apply leftmost_somewhere in Hk.
  - by apply leftmost_somewhere in Hk'.
  - auto.
Qed.

Lemma pid_forms_ok :
  Forall (λ f, (∀ m, f.1 m → Forall (λ c, ¬ is_digit c) m) ∧ ∀ post, f.2 post → no_digit post) pid_forms.
Proof. repeat constructor; simpl; auto using pid_lead_plain, process_lead_plain, target_lead_plain. Qed.
Lemma duration_forms_ok :
  Forall (λ f, (∀ m, f.1 m → Forall (λ c, ¬ is_digit c) m) ∧ ∀ post, f.2 post → no_digit post) duration_forms.
Proof.
  repeat constructor; simpl; auto using sampling_lead_plain, seconds_follow_no_digit. intros m ->. constructor.
Qed.

(** ** The profiler *)

(** The words of a group stand for all its keywords, when each keyword contains a word. *)
Definition covers (ws : list string) (kws : list pystr) : bool :=
  forallb (λ kw, existsb (λ w, occurs_in (u w) kw) ws) kws && forallb (λ w, bool_decide (u w ∈ kws)) ws.

Lemma mentions_covers t ws kws text :
  covers ws kws = true → mentions ulower text (t, kws) ↔ mentions_one ws text.
Proof.
  unfold covers. rewrite andb_true_iff, !forallb_forall. intros [H1 H2]. setoid_rewrite <-list_elem_of_In in H1.
  setoid_rewrite <-list_elem_of_In in H2. unfold mentions, mentions_one. simpl. split.
  - intros (kw & a & b & Hkw & Hl). apply H1 in Hkw. apply existsb_exists in Hkw as (w & Hw & Ho).
    apply contains_spec in Ho as (a' & b' & ->). exists w, (a ++ a'), (b' ++ b). rewrite <-list_elem_of_In in Hw.
    split; [done|]. rewrite Hl, <-!(assoc_L (++)). done.
  - intros (w & a & b & Hw & Hl). exists (u w), a, b. split; [|done]. by apply (bool_decide_eq_true_1 _ (H2 w Hw)).
Qed.

Lemma keyword_loop_said table groups text :
  Forall2 (λ e g, e.1 = g.1 ∧ covers g.2 e.2 = true) table groups →
  profiler_said groups text (keyword_loop table (lower_text ulower text)).
Proof.
  induction 1 as [|[t kws] [t' ws] table groups [Ht Hc] _ IH]; cbn [keyword_loop profiler_said]; [done|].
  simpl in Ht, Hc. subst t'. pose proof (mentions_existsb ulower text (t, kws)) as Hm. cbn [snd] in Hm.
  rewrite (mentions_covers t ws kws text Hc) in Hm. destruct (existsb _ kws) eqn:E.
  - left. split; [by apply Hm|done].
  - right. split; [|done]. intros H%Hm. done.
Qed.

Lemma profiler_extracted text : profiler_said profiler_words text (extract_profiler_type ulower text).
Proof. apply keyword_loop_said. repeat constructor. Qed.

Lemma profiler_said_unique groups text t t' : profiler_said groups text t → profiler_said groups text t' → t = t'.
Proof. induction groups as [|[k ws] groups IH]; simpl; [congruence|]. naive_solver. Qed.

(** ** The address *)

Lemma parse_octet m cs : parse (octet udecimal) m cs ↔ cs = [] ∧ octet_text m.
Proof. unfold octet, octet_text. rewrite parse_rep, Forall_digits. simpl. naive_solver lia. Qed.
Lemma parse_dot m cs : parse (one (char 46)) m cs ↔ cs = [] ∧ m = [46].
Proof.
  rewrite parse_one. unfold char. split; [by intros (c & -> & -> & ->%Z.eqb_eq)|]. intros [-> ->]. by exists 46.
Qed.

Definition three_octets (m : pystr) : Prop :=
  ∃ a b c, m = a ++ [46] ++ b ++ [46] ++ c ++ [46] ∧ octet_text a ∧ octet_text b ∧ octet_text c.

Lemma parse_three m cs :
  parse (octet udecimal +r one (char 46) +r octet udecimal +r one (char 46) +r octet udecimal +r one (char 46)) m cs ↔
  cs = [] ∧ three_octets m.
Proof.
  rewrite (parse_cat _ _ _ _ (parse_cat _ _ _ _ (parse_cat _ _ _ _ (parse_cat _ _ _ _ (parse_cat _ _ _ _
    parse_octet parse_dot) parse_octet) parse_dot) parse_octet) parse_dot).
  apply and_iff_compat_l. split.
  - intros (? & ? & -> & (? & c & -> & (? & ? & -> & (? & b & -> & (a & ? & -> & ? & ->) & ?) & ->) & ?) & ->).
    exists a, b, c. rewrite <-!(assoc_L (++)). done.
  - intros (a & b & c & -> & ? & ? & ?). rewrite !(assoc_L (++)). repeat (eexists _, _; split_and!; [reflexivity| |try done]).
    all: try done.
Qed.

(** The first way through a repetition goes as far as it can. *)
Lemma first_rep_stops lo hi (P : Z → bool) s cs rest cs' :
  first_run (PRep lo hi P) (s, cs) (rest, cs') → ∃ m, s = m ++ rest ∧ cs' = cs ∧ Forall (λ c, P c = true) m ∧
    (lo <= length m)%nat ∧ at_most hi (length m) ∧ stops hi P m rest.
Proof.
  intros H. assert ((rest, cs') ∈ runs (PRep lo hi P) (s, cs)) as Hin
    by (unfold first_run in H; destruct (runs _ _); [done|]; injection H as ->; by left).
  apply runs_spec in Hin as (m & new & -> & -> & -> & Hm & Hlo & Hhi). exists m. split_and!; [done..|].
  unfold stops. destruct rest as [|c rest]; [by right|]. destruct (P c) eqn:Hc; [|by right].
  destruct (decide (hi = Some (length m))) as [?|Hne]; [by left|exfalso].
  assert (length (m ++ [c]) <= span hi P ((m ++ [c]) ++ rest))%nat as Hspan.
  { apply span_longest; [apply Forall_app; split; [done|by apply Forall_singleton]|].
    rewrite length_app. simpl. destruct hi; simpl in *; [|done]. assert (n ≠ length m) by congruence. lia. }
  unfold first_run in H. cbn [runs fst snd] in H. rewrite <-(assoc_L (++)) in Hspan. simpl in Hspan.
  rewrite length_app in Hspan. simpl in Hspan. destruct (span hi P (m ++ c :: rest)) as [|k] eqn:Ek; [lia|].
  cbn [shrink] in H. destruct (Nat.ltb_spec (S k) lo); [lia|]. cbn [map head] in H. injection H as H.
  apply (f_equal length) in H. rewrite length_drop, length_app in H. simpl in H. lia.
Qed.

Lemma first_group_inv n a s cs rest cs' :
  first_run (PGroup n a) (s, cs) (rest, cs') →
  ∃ cs0, first_run a (s, cs) (rest, cs0) ∧ cs' = (n, take (length s - length rest) s) :: cs0.
Proof.
  unfold first_run. cbn [runs]. destruct (runs a (s, cs)) as [|[r c] l]; [done|]. cbn [map head fst snd].
  intros [= -> <-]. by exists c.
Qed.

Lemma address_extracted text :
  match extract_target_ip udecimal text with
  | Some ip => leftmost (address_at text) ip
  | None => nowhere (address_at text)
  end.
Proof.
  assert (∀ pre ip, address_at text pre ip → ∃ post cs, text = pre ++ ip ++ post ∧ parse (ip_pattern udecimal) ip cs) as Hat.
  { intros pre ip (a & b & c & d & post & Ht & -> & Ha & Hb & Hc & Hd & _). eexists post, _. split; [done|].
    eexists. split; [done|]. exists (a ++ [46] ++ b ++ [46] ++ c ++ [46]), d, [], []. rewrite <-!(assoc_L (++)).
    split_and!; [done..| |by apply parse_octet]. apply parse_three. split; [done|]. by exists a, b, c. }
  unfold extract_target_ip. destruct (re_search (ip_pattern udecimal) text) as [[[start rest] cs]|] eqn:E.
  - apply re_search_Some in E as (Hh & pre & m & -> & -> & Hm & Hfirst).
    destruct Hm as (cs' & -> & _). change (group 1 ((1%nat, m) :: cs')) with (Some m).
    exists pre. split; [|intros pre' ip' Hip; destruct (Hat _ _ Hip) as (post' & cs'' & Ht & Hp); by eapply Hfirst].
    assert (first_run (octet udecimal +r one (char 46) +r octet udecimal +r one (char 46) +r octet udecimal +r one (char 46) +r
      octet udecimal) ((m ++ rest)%list, []) (rest, cs')) as Hrun.
    { by apply first_group_inv in Hh as (cs0 & Hrun & [= _ <-]). }
    apply first_cat_inv in Hrun as ([s1 cs1] & (m1 & new & Hs & -> & Hm1)%runs_spec & Hlast).
    apply parse_three in Hm1 as [-> (a & b & c & -> & Ha & Hb & Hc)].
    apply first_rep_stops in Hlast as (d & -> & _ & Hd & Hlo & Hhi & Hstop).
    rewrite (assoc_L (++)) in Hs. apply app_inv_tail in Hs as ->.
    exists a, b, c, d, rest. rewrite <-!(assoc_L (++)). split_and!; [done..| |].
    + split; [simpl in *; lia|by apply Forall_digits].
    + destruct Hstop as [[= Hl]|Hstop]; [by left|right]. destruct rest; [done|]. by apply digit_is_not_digit.
  - rewrite re_search_None in E. intros pre ip Hip. destruct (Hat _ _ Hip) as (post & cs & Ht & Hp). by eapply E.
Qed.

Lemma dot_not_digit s : stops_at is_digit ([46] ++ s).
Proof. apply (literal_not_digit 46). apply elem_of_app. right. by vm_compute; repeat constructor. Qed.

Lemma octet_dot_unique a a' s s' :
  octet_text a → octet_text a' → a ++ [46] ++ s = a' ++ [46] ++ s' → a = a' ∧ s = s'.
Proof.
  intros [_ Ha] [_ Ha'] E. apply (block_unique is_digit) in E as [-> E]; [|done|done|apply dot_not_digit..].
  by injection E.
Qed.

Lemma last_octet_unique d d' post post' :
  octet_text d → octet_text d' → length d = 3%nat ∨ no_digit post → length d' = 3%nat ∨ no_digit post' →
  d ++ post = d' ++ post' → d = d'.
Proof.
  assert (∀ d d' post post', octet_text d → octet_text d' → length d = 3%nat ∨ no_digit post →
    d ++ post = d' ++ post' → (length d' <= length d)%nat) as Hle.
  { clear d d' post post'. intros d d' post post' [? Hd] [? Hd'] [Hl|Hp] E; [lia|]. destruct (decide (length d' <= length d)%nat); [done|].
    exfalso. assert (d' = d ++ drop (length d) d') as Ed.
    { rewrite <-(take_drop (length d) d') at 1. f_equal. apply (f_equal (take (length d))) in E.
      rewrite take_app_length, take_app_le in E by lia. done. }
    destruct (drop (length d) d') as [|c x] eqn:Ex; [rewrite app_nil_r in Ed; subst; lia|].
    rewrite Ed in E, Hd'. rewrite <-(assoc_L (++)) in E. apply app_inv_head in E. subst post.
    apply Forall_app in Hd' as [_ Hx]. by apply Forall_cons in Hx as [? _]. }
  intros Hd Hd' Hp Hp' E. assert (length d = length d') as Hl.
  { pose proof (Hle _ _ _ _ Hd Hd' Hp E). pose proof (Hle _ _ _ _ Hd' Hd Hp' (eq_sym E)). lia. }
  by apply app_inj_1 in E as [-> _].
Qed.

Lemma address_at_unique text pre pre' ip ip' :
  address_at text pre ip → address_at text pre' ip' → length pre = length pre' → ip = ip'.
Proof.
  intros (a & b & c & d & post & Ht & -> & Ha & Hb & Hc & Hd & Hp) (a' & b' & c' & d' & post' & Ht' & -> & Ha' & Hb' & Hc' & Hd' & Hp') Hl.
  destruct (prefix_same _ _ _ _ _ Ht Ht' Hl) as [_ E]. rewrite <-!(assoc_L (++)) in E.
  apply octet_dot_unique in E as [-> E]; [|done..]. apply octet_dot_unique in E as [-> E]; [|done..].
  apply octet_dot_unique in E as [-> E]; [|done..]. by rewrite (last_octet_unique d d' post post').
Qed.

(** ** The time *)

Lemma parse_opt c m cs : parse (opt (one_of [c])) m cs ↔ cs = [] ∧ m ∈ [[]; [c]].
Proof.
  unfold opt. rewrite parse_rep. split.
  - intros (-> & Hm & _ & Hl). split; [done|]. destruct m as [|d [|? ?]]; simpl in Hl; [by left| |lia].
    apply Forall_cons in Hm as [Hd _]. unfold one_of in Hd. apply bool_decide_eq_true, list_elem_of_singleton in Hd as ->.
    right. by left.
  - intros [-> Hm]. rewrite !elem_of_cons in Hm. destruct Hm as [->|[->|Hm]]; [by split_and!; simpl; try done; lia| |by apply not_elem_of_nil in Hm].
    split; [done|]. split; [|simpl; lia]. apply Forall_singleton. apply bool_decide_eq_true. by left.
Qed.

Definition units : list (pystr * Z) := [(u "分钟", 60); (u "小时", 3600); (u "天", 86400)].

Lemma units_us un secs : (un, secs) ∈ units → unit_us un = secs * 1000000.
Proof. unfold units. rewrite !elem_of_cons. intros [[= -> ->]|[[= -> ->]|[[= -> ->]|H]]]; [reflexivity..|by apply not_elem_of_nil in H]. Qed.

Lemma parse_unit m cs :
  parse (lit (u "分钟") |r lit (u "小时") |r lit (u "天")) m cs ↔ cs = [] ∧ ∃ secs, (m, secs) ∈ units.
Proof.
  cbn [parse]. rewrite !parse_lit_iff. unfold units. split.
  - intros [[-> ->]|[[-> ->]|[-> ->]]]; (split; [done|]); [exists 60|exists 3600|exists 86400]; repeat constructor.
  - intros [-> [secs H]]. rewrite !elem_of_cons in H. destruct H as [[= -> _]|[[= -> _]|[[= -> _]|H]]]; [tauto..|by apply not_elem_of_nil in H].
Qed.

Lemma parse_number m cs : parse (PGroup 1 (many (digit udecimal))) m cs ↔ Forall is_digit m ∧ cs = [(1%nat, m)].
Proof.
  cbn [parse many]. rewrite <-Forall_digits. split; [by intros (cs' & -> & -> & Hm & _)|].
  intros [Hm ->]. exists []. split_and!; try done. lia.
Qed.
Lemma parse_unit_group m cs :
  parse (PGroup 2 (lit (u "分钟") |r lit (u "小时") |r lit (u "天"))) m cs ↔ ∃ secs, (m, secs) ∈ units ∧ cs = [(2%nat, m)].
Proof.
  split.
  - intros (cs' & -> & [-> [secs ?]]%parse_unit). by exists secs.
  - intros (secs & ? & ->). exists []. split; [done|]. apply parse_unit. eauto.
Qed.
Lemma parse_past m cs : parse (lit (u "过去") |r lit (u "最近")) m cs ↔ cs = [] ∧ m ∈ [u "过去"; u "最近"].
Proof. cbn [parse]. rewrite !parse_lit_iff. set_unfold. tauto. Qed.

Lemma parse_relative m cs :
  parse (relative_pattern udecimal) m cs ↔
  ∃ w s1 o ds s2 un secs, m = w ++ s1 ++ o ++ ds ++ s2 ++ un ∧ w ∈ [u "过去"; u "最近"] ∧ spaces s1 ∧ o ∈ [[]; u "一"] ∧
    Forall is_digit ds ∧ spaces s2 ∧ (un, secs) ∈ units ∧ cs = [(2%nat, un); (1%nat, ds)].
Proof.
  pose proof (parse_cat _ _ _ _ (parse_cat _ _ _ _ parse_past parse_spaces) (parse_opt (hd 0 (u "一")))) as Hhead.
  split.
  - intros (m5 & un & cs5 & csu & -> & -> & (m4 & s2 & cs4 & css & -> & -> & (m3 & ds & cs3 & csd & -> & -> & Hh & Hd) & Hs2) & Hu).
    apply Hhead in Hh as (-> & ? & o & -> & (w & s1 & -> & Hw & Hs1) & Ho). apply parse_number in Hd as [Hd ->].
    apply parse_spaces in Hs2 as [-> Hs2]. apply parse_unit_group in Hu as (secs & Hu & ->).
    exists w, s1, o, ds, s2, un, secs. rewrite <-!(assoc_L (++)). done.
  - intros (w & s1 & o & ds & s2 & un & secs & -> & Hw & Hs1 & Ho & Hds & Hs2 & Hu & ->).
    exists (w ++ s1 ++ o ++ ds ++ s2), un, [(1%nat, ds)], [(2%nat, un)]. rewrite <-!(assoc_L (++)). split; [done|]. split; [done|].
    split; [|by apply parse_unit_group; exists secs].
    exists (w ++ s1 ++ o ++ ds), s2, [(1%nat, ds)], []. rewrite <-!(assoc_L (++)). split; [done|]. split; [done|].
    split; [|by apply parse_spaces]. exists (w ++ s1 ++ o), ds, [], [(1%nat, ds)]. rewrite <-!(assoc_L (++)).
    split; [done|]. split; [done|]. split; [|by apply parse_number]. apply Hhead. split; [done|].
    exists (w ++ s1), o. rewrite <-!(assoc_L (++)). split; [done|]. split; [|done]. by exists w, s1.
Qed.

(** A match of the relative form says [ago_at], and the other way round. *)
Definition group_ago (cs : caps) : Z :=
  (if bool_decide (default [] (group 1 cs) = []) then 1 else value udecimal (default [] (group 1 cs))) *
  unit_us (default [] (group 2 cs)).

Lemma relative_ago pre m post cs :
  parse (relative_pattern udecimal) m cs → ago_at (pre ++ m ++ post) pre (group_ago cs).
Proof.
  intros (w & s1 & o & ds & s2 & un & secs & -> & Hw & Hs1 & Ho & Hds & Hs2 & Hu & ->)%parse_relative.
  exists w, s1, o, ds, s2, un, secs, post. rewrite <-!(assoc_L (++)). split_and!; [done..|]. unfold group_ago.
  change (group 1 _) with (Some ds). change (group 2 _) with (Some un). simpl. rewrite (units_us un secs Hu). lia.
Qed.
Lemma ago_relative text pre k :
  ago_at text pre k → ∃ m post cs, text = pre ++ m ++ post ∧ parse (relative_pattern udecimal) m cs.
Proof.
  intros (w & s1 & o & ds & s2 & un & secs & post & -> & Hw & Hs1 & Ho & Hds & Hs2 & Hu & ->).
  exists (w ++ s1 ++ o ++ ds ++ s2 ++ un), post, [(2%nat, un); (1%nat, ds)]. rewrite <-!(assoc_L (++)). split; [done|].
  apply parse_relative. by exists w, s1, o, ds, s2, un, secs.
Qed.

Lemma parse_last_hour text :
  says_last_hour text ↔ ¬ absent last_hour_pattern text.
Proof.
  pose proof (parse_cat _ _ _ _ (parse_cat _ _ _ _ (parse_cat _ _ _ _ (parse_lit_iff (u "上")) (parse_opt (hd 0 (u "一"))))
    (parse_opt (hd 0 (u "个")))) (parse_lit_iff (u "小时"))) as Hp. split.
  - intros (pre & o & g & post & -> & Ho & Hg) Ha. apply (Ha pre (u "上" ++ o ++ g ++ u "小时") post []).
    { by rewrite <-!(assoc_L (++)). }
    apply Hp. split; [done|]. exists (u "上" ++ o ++ g), (u "小时"). rewrite <-!(assoc_L (++)). split; [done|]. split; [|done].
    exists (u "上" ++ o), g. rewrite <-!(assoc_L (++)). split; [done|]. split; [|done]. by exists (u "上"), o.
  - intros Hno. destruct (re_search last_hour_pattern text) as [[[start rest] cs]|] eqn:E.
    + apply re_search_Some in E as (_ & pre & m & -> & -> & Hm & _).
      apply Hp in Hm as (-> & ? & ? & -> & (? & g & -> & (? & o & -> & -> & Ho) & Hg) & ->).
      exists pre, o, g, rest. rewrite <-!(assoc_L (++)). done.
    + by rewrite re_search_None in E.
Qed.

(** The last instant of a [datetime]. *)
Definition datetime_max : Z := 253402300800 * 1000000 - 1.

Lemma before_cases now delta :
  0 <= now <= datetime_max → before now delta = if now - delta <? datetime_min then None else Some (now - delta).
Proof.
  intros Hnow. unfold before. destruct (Z.ltb_spec timedelta_max_days (delta / day_us)) as [Hlt|_]; [|done].
  destruct (Z.ltb_spec (now - delta) datetime_min) as [|Hge]; [done|exfalso].
  pose proof (Z.mul_div_le delta day_us eq_refl). unfold timedelta_max_days, day_us, datetime_min, datetime_max in *. nia.
Qed.

Lemma time_extracted now text :
  0 <= now <= datetime_max → (length text <= max_str_digits)%nat →
  match extract_time_range udecimal now text with
  | None => ∃ k, leftmost (ago_at text) k ∧ now - k < datetime_min
  | Some r => time_said now text r
  end.
Proof.
  intros Hnow Hlen. unfold extract_time_range. destruct (re_search (relative_pattern udecimal) text) as [[[start rest] cs]|] eqn:E.
  - apply re_search_Some in E as (_ & pre & m & -> & -> & Hm & Hfirst).
    assert (leftmost (ago_at (pre ++ m ++ rest)) (group_ago cs)) as Hleft.
    { exists pre. split; [by apply relative_ago|]. intros pre' k' (m' & post' & cs' & Ht & Hp)%ago_relative. by eapply Hfirst. }
    apply parse_relative in Hm as (w & s1 & o & ds & s2 & un & secs & -> & _ & _ & _ & Hds & _ & _ & ->).
    unfold group_ago in Hleft. change (group 1 _) with (Some ds) in *. change (group 2 _) with (Some un) in *. simpl in *.
    assert ((if bool_decide (ds = []) then Some 1 else py_int udecimal ds) =
      Some (if bool_decide (ds = []) then 1 else value udecimal ds)) as ->.
    { case_bool_decide; [done|]. apply py_int_value; [done|by apply Forall_digits|done|]. rewrite !length_app in Hlen. lia. }
    rewrite before_cases by done. destruct (Z.ltb_spec (now - (if bool_decide (ds = []) then 1 else value udecimal ds) * unit_us un) datetime_min);
      cbn [fmap option_fmap option_map range_from]; [eauto|]. left. eauto.
  - rewrite re_search_None in E. assert (nowhere (ago_at text)) as Hno.
    { intros pre k (m & post & cs & Ht & Hp)%ago_relative. by eapply E. }
    pose proof (parse_last_hour text) as Hhour. rewrite <-re_search_None in Hhour.
    destruct (re_search last_hour_pattern text) as [x|].
    + assert ((now - 3600 * 1000000 <? datetime_min) = false) as Hb by (unfold datetime_min; lia).
      rewrite before_cases, Hb by done. right. split; [done|]. left. split; [by apply Hhour|done].
    + assert (¬ says_last_hour text) as Hnl by (rewrite Hhour; tauto). right. split; [done|]. right. split; [done|].
      pose proof (contains_spec (u "今天") text) as Htoday. fold (says_today text) in Htoday.
      destruct (occurs_in _ text); [left|right]; (split; [|done]); [by apply Htoday|]. intros H%Htoday. done.
Qed.

(** Spaces before an empty number count to the first block. *)
Lemma ago_at_normal text pre k :
  ago_at text pre k →
  ∃ w s1 o ds s2 un secs post, text = pre ++ w ++ s1 ++ o ++ ds ++ s2 ++ un ++ post ∧
    w ∈ [u "过去"; u "最近"] ∧ spaces s1 ∧ o ∈ [[]; u "一"] ∧ Forall is_digit ds ∧ spaces s2 ∧ (un, secs) ∈ units ∧
    (o ++ ds = [] → s2 = []) ∧ k = (if bool_decide (ds = []) then 1 else value udecimal ds) * secs * 1000000.
Proof.
  intros (w & s1 & o & ds & s2 & un & secs & post & -> & Hw & Hs1 & Ho & Hds & Hs2 & Hu & ->).
  destruct (decide (o ++ ds = [])) as [He|Hne].
  - apply app_nil in He as [-> ->]. exists w, (s1 ++ s2), [], [], [], un, secs, post. rewrite <-!(assoc_L (++)).
    split; [done|]. split; [done|]. split; [by apply Forall_app|].
    split; [by left|]. split; [constructor|]. split; [constructor|]. done.
  - exists w, s1, o, ds, s2, un, secs, post. split_and!; done.
Qed.

Lemma unit_head un secs : (un, secs) ∈ units → ∃ c un', un = c :: un' ∧ ¬ is_digit c ∧ py_isspace c = false ∧ c ≠ hd 0 (u "一").
Proof.
  unfold units. rewrite !elem_of_cons.
  intros [[= -> _]|[[= -> _]|[[= -> _]|H]]]; [..|by apply not_elem_of_nil in H];
    (eexists _, _; split; [reflexivity|]; split; [apply literal_not_digit, elem_of_app; left; by vm_compute; repeat constructor|by vm_compute]).
Qed.

Lemma unit_unique un un' secs secs' post post' :
  (un, secs) ∈ units → (un', secs') ∈ units → un ++ post = un' ++ post' → secs = secs'.
Proof.
  unfold units. rewrite !elem_of_cons. intros H H' E.
  destruct H as [[= -> ->]|[[= -> ->]|[[= -> ->]|H]]], H' as [[= -> ->]|[[= -> ->]|[[= -> ->]|H']]];
    try done; try (by apply not_elem_of_nil in H); try (by apply not_elem_of_nil in H'); vm_compute in E; congruence.
Qed.

(** Where the blocks end. *)
Lemma ago_stops o ds s2 un secs post :
  o ∈ [[]; u "一"] → Forall is_digit ds → spaces s2 → (un, secs) ∈ units → (o ++ ds = [] → s2 = []) →
  stops_at (λ c, py_isspace c = true) (o ++ ds ++ s2 ++ un ++ post) ∧ stops_at is_digit (s2 ++ un ++ post) ∧
  stops_at (λ c, py_isspace c = true) (un ++ post) ∧
  (o = [] → stops_at (λ c, c = hd 0 (u "一")) (ds ++ s2 ++ un ++ post)).
Proof.
  intros Ho Hds Hs2 Hu Hn. destruct (unit_head un secs Hu) as (c & un' & -> & Hc1 & Hc2 & Hc3).
  assert (∀ x, is_digit x → py_isspace x ≠ true ∧ x ≠ hd 0 (u "一")) as Hdig.
  { intros x Hx. split; [intros Hsp; by apply (space_not_digit x)|]. intros ->. revert Hx. apply literal_not_digit.
    apply elem_of_app. left. by vm_compute; repeat constructor. }
  split_and!.
  - rewrite !elem_of_cons in Ho. destruct Ho as [->|[->|Ho]]; [|by vm_compute|by apply not_elem_of_nil in Ho].
    destruct Hds as [|d ds Hd _]; simpl in *; [|by apply Hdig]. rewrite Hn by done. simpl. congruence.
  - destruct Hs2 as [|x s2 Hx _]; simpl; [done|]. by apply space_not_digit.
  - simpl. congruence.
  - intros ->. destruct Hds as [|d ds Hd _]; simpl in *; [|by apply Hdig]. rewrite Hn by done. done.
Qed.

(** What stands after the word for the past: the number and the unit are determined. *)
Lemma ago_tail_unique s1 o ds s2 un secs post s1' o' ds' s2' un' secs' post' :
  spaces s1 → o ∈ [[]; u "一"] → Forall is_digit ds → spaces s2 → (un, secs) ∈ units → (o ++ ds = [] → s2 = []) →
  spaces s1' → o' ∈ [[]; u "一"] → Forall is_digit ds' → spaces s2' → (un', secs') ∈ units → (o' ++ ds' = [] → s2' = []) →
  s1 ++ o ++ ds ++ s2 ++ un ++ post = s1' ++ o' ++ ds' ++ s2' ++ un' ++ post' → ds = ds' ∧ secs = secs'.
Proof.
  intros Hs1 Ho Hds Hs2 Hu Hn Hs1' Ho' Hds' Hs2' Hu' Hn' E.
  destruct (ago_stops o ds s2 un secs post) as (A1 & A2 & A3 & A4); [done..|].
  destruct (ago_stops o' ds' s2' un' secs' post') as (B1 & B2 & B3 & B4); [done..|].
  apply (block_unique (λ c, py_isspace c = true)) in E as [_ E]; [|done..].
  assert (ds ++ s2 ++ un ++ post = ds' ++ s2' ++ un' ++ post') as E2.
  { rewrite !elem_of_cons in Ho, Ho'. destruct Ho as [->|[->|Ho]]; [| |by apply not_elem_of_nil in Ho];
      (destruct Ho' as [->|[->|Ho']]; [| |by apply not_elem_of_nil in Ho']).
    - done.
    - exfalso. specialize (A4 eq_refl). simpl in E. rewrite E in A4. by vm_compute in A4.
    - exfalso. specialize (B4 eq_refl). simpl in E. rewrite <-E in B4. by vm_compute in B4.
    - by apply app_inv_head in E. }
  apply (block_unique is_digit) in E2 as [-> E2]; [|done..]. split; [done|].
  apply (block_unique (λ c, py_isspace c = true)) in E2 as [_ E2]; [|done..]. by eapply unit_unique.
Qed.

Lemma ago_at_unique text pre pre' k k' :
  ago_at text pre k → ago_at text pre' k' → length pre = length pre' → k = k'.
Proof.
  intros (w & s1 & o & ds & s2 & un & secs & post & Ht & Hw & Hs1 & Ho & Hds & Hs2 & Hu & Hn & ->)%ago_at_normal
    (w' & s1' & o' & ds' & s2' & un' & secs' & post' & Ht' & Hw' & Hs1' & Ho' & Hds' & Hs2' & Hu' & Hn' & ->)%ago_at_normal Hl.
  destruct (prefix_same _ _ _ _ _ Ht Ht' Hl) as [_ E].
  assert (∀ x, x ∈ [u "过去"; u "最近"] → length x = 2%nat) as Hlen.
  { intros x. rewrite !elem_of_cons. intros [->|[->|Hx]]; [done..|by apply not_elem_of_nil in Hx]. }
  apply app_inj_1 in E as [_ E]; [|by rewrite (Hlen w), (Hlen w')].
  destruct (ago_tail_unique s1 o ds s2 un secs post s1' o' ds' s2' un' secs' post') as [-> ->]; done.
Qed.

Lemma time_said_unique now text r r' : time_said now text r → time_said now text r' → r = r'.
Proof.
  intros [(k & Hk & _ & ->)|[Hno H]] [(k' & Hk' & _ & ->)|[Hno' H']].
  - by rewrite (leftmost_unique _ _ _ (ago_at_unique text) Hk Hk').
  - by apply leftmost_somewhere in Hk.
  - by apply leftmost_somewhere in Hk'.
  - naive_solver.
Qed.

Lemma address_said_unique text agents r r' : address_said text agents r → address_said text agents r' → r = r'.
Proof.
  intros [(ip & H & ->)|[Hno ->]] [(ip' & H' & ->)|[Hno' ->]].
  - by rewrite (leftmost_unique _ _ _ (address_at_unique text) H H').
  - by apply leftmost_somewhere in H.
  - by apply leftmost_somewhere in H'.
  - done.
Qed.

Lemma means_unique now text agents i i' : means now text agents i → means now text agents i' → i = i'.
Proof.
  intros [(n & Hn & Hpid) (t & Ht & Hprof) (m & Hm & Hdur) Ha Hti Hraw]
         [(n' & Hn' & Hpid') (t' & Ht' & Hprof') (m' & Hm' & Hdur') Ha' Hti' Hraw'].
  rewrite (said_unique _ _ _ _ pid_forms_ok Hn Hn') in Hpid. rewrite (said_unique _ _ _ _ duration_forms_ok Hm Hm') in Hdur.
  rewrite (profiler_said_unique _ _ _ _ Ht Ht') in Hprof. pose proof (address_said_unique _ _ _ _ Ha Ha').
  pose proof (time_said_unique _ _ _ _ Hti Hti'). destruct i, i'. simpl in *. congruence.
Qed.
End meaning.

(** * Claims *)

(** C17: The parser of sentences returns for every text (of at most 4300 characters), except
    where the text asks for a time before the year 1, and what it returns is what the text
    says, which is unique.  The process id is the number after the leftmost "PID" with
    separators, else after "process", else after "target", with all its digits; the
    duration the number before "seconds" after a word for sampling, else the first number
    before "seconds", else 10; the profiler the first group with a word in the lower-case
    text, else perf; the address the leftmost one of four numbers of up to three digits,
    else that of the first agent; the time from so many minutes, hours or days ago, or from
    an hour ago, or from midnight, to now, or none. *)
Theorem nl_parse_exact udecimal ulower now text agents :
  Forall (λ c, udecimal c = None) chinese → (∀ c, is_Some (udecimal c) → py_isspace c = false) →
  0 <= now <= datetime_max → (length text <= max_str_digits)%nat →
  match parse_intent udecimal ulower now text agents with
  | None => ∃ k, leftmost (ago_at udecimal text) k ∧ now - k < datetime_min
  | Some i => means udecimal ulower now text agents i ∧ ∀ i', means udecimal ulower now text agents i' → i' = i
  end.
Proof.
  intros Hch Hsp Hnow Hlen. unfold parse_intent.
  destruct (pid_extracted udecimal ulower Hsp text Hlen) as (pid & -> & Hpid).
  destruct (duration_extracted udecimal Hch Hsp text Hlen) as (dur & -> & Hdur).
  pose proof (time_extracted udecimal ulower Hch Hsp now text Hnow Hlen) as Ht.
  destruct (extract_time_range _ _ _) as [range|]; [|done].
  match goal with |- means _ _ _ _ _ ?j ∧ _ => assert (means udecimal ulower now text agents j) as Hm end.
  - constructor; simpl; [by exists pid|eexists; split; [apply profiler_extracted|done]|by exists dur| |done|done].
    pose proof (address_extracted udecimal text) as Ha. destruct (extract_target_ip _ _) as [ip|]; [left; by exists ip|].
    right. split; [done|]. by destruct agents.
  - split; [exact Hm|]. intros i' Hi'. exact (means_unique udecimal ulower Hch Hsp _ _ _ _ _ Hi' Hm).
Qed.

Definition sentence0 : pystr := u "最近30分钟进程号：1234的Java应用卡顿，采样20秒".

Lemma nl_parse_exact_witness :
  pi_pid <$> parse_intent (λ _, None) (λ c, [c]) 0 sentence0 [Some (u "10.0.0.1")] = Some 1234 ∧
  ∀ i', means (λ _, None) (λ c, [c]) 0 sentence0 [Some (u "10.0.0.1")] i' → pi_pid i' = 1234.
Proof.
  assert (pi_pid <$> parse_intent (λ _, None) (λ c, [c]) 0 sentence0 [Some (u "10.0.0.1")] = Some 1234) as E by reflexivity.
  split; [exact E|].
  pose proof (nl_parse_exact (λ _, None) (λ c, [c]) 0 sentence0 [Some (u "10.0.0.1")]
    ltac:(vm_compute; repeat constructor) ltac:(by intros ? []) ltac:(unfold datetime_max; lia)
    ltac:(apply Nat.leb_le; reflexivity)) as H.
  destruct (parse_intent _ _ _ _ _) as [i|]; [|discriminate]. injection E as <-.
  intros i' Hi'. by rewrite (proj2 H i' Hi').
Defined.
