(* ===== verification/FlameTree.v ===== *)
(** analysis/drop_analyzer/collapsed2tree.py: collapsed stacks as the tree of a flame
    graph.  The nodes are dicts that the script updates in place; each is reachable
    from its parent only, so an update of a node is an update of the tree. *)
From stdpp Require Import base strings list.
From Stdlib Require Import ZArith Lia.
From S2P Require Import Prelude CppString OrdMap Collapsed PyText.

Inductive tree := Node (name : pystr) (value : Z) (children : list tree).

Definition tname (t : tree) : pystr := match t with Node n _ _ => n end.
Definition tvalue (t : tree) : Z := match t with Node _ v _ => v end.
Definition tchildren (t : tree) : list tree := match t with Node _ _ cs => cs end.

(** The first child called [frame], or a new one at the end; [f] goes on from there. *)
Fixpoint in_child (frame : pystr) (f : tree → tree) (cs : list tree) : list tree :=
  match cs with
  | [] => [f (Node frame 0 [])]
  | c :: cs' => if decide (tname c = frame) then f c :: cs' else c :: in_child frame f cs'
  end.

(** The walk of one stack. *)
Fixpoint add_stack (frames : list pystr) (count : Z) (t : tree) : tree :=
  match frames, t with
  | [], Node n v cs => Node n (v + count) cs
  | frame :: frames', Node n v cs => Node n v (in_child frame (add_stack frames' count) cs)
  end.

(** The stack a line adds, with its count. *)
Definition tree_entry (udecimal : Z → option Z) (max_depth : Z) (line : pystr) : option (list pystr * Z) :=
  match stack_line udecimal line with
  | None => None
  | Some (stack_str, count) =>
      if count <=? 0 then None else
      let frames := split 59 stack_str in
      Some (if max_depth <? Z.of_nat (length frames) then slice_to max_depth frames else frames, count)
  end.

(** The sum of the children, each already propagated.  Python ends a recursion that is
    too deep with RecursionError, at about 500 levels here (a level takes two of the
    1000 frames); that is left out.  [tree_depth_bound] below: the levels are at most one more
    than [max_depth], by default 200, so only a larger option [--max-depth] can meet
    the limit. *)
Fixpoint _propagate (t : tree) : tree :=
  match t with
  | Node n v cs => Node n (v + sum_counts (map (λ c, tvalue (_propagate c)) cs)) (map _propagate cs)
  end.

Definition root0 : tree := Node (of_ascii "root") 0 [].

Definition collapsed_to_tree (udecimal : Z → option Z) (max_depth : Z) (text : pystr) : tree :=
  _propagate (foldl (λ t e, add_stack e.1 e.2 t) root0
    (omap (tree_entry udecimal max_depth) (splitlines (strip text)))).

(** * What the tree means *)

(** The node at a path. *)
Definition child (frame : pystr) (t : tree) : option tree :=
  head (filter (λ c, tname c = frame) (tchildren t)).
Fixpoint node_at (path : list pystr) (t : tree) : option tree :=
  match path with
  | [] => Some t
  | frame :: path' => match child frame t with Some c => node_at path' c | None => None end
  end.

(** Siblings have distinct names. *)
Inductive tree_ok : tree → Prop :=
  | node_ok n v cs : NoDup (map tname cs) → Forall tree_ok cs → tree_ok (Node n v cs).

(** The samples of the stacks that pass through a path. *)
Definition through (path : list pystr) (entries : list (list pystr * Z)) : list (list pystr * Z) :=
  filter (λ e, path `prefix_of` e.1) entries.
Definition samples (entries : list (list pystr * Z)) : Z := sum_counts (map snd entries).

(** * Lemmas *)

(** [add_stack] and [_propagate] together add the count to every node on the way. *)
Fixpoint add_way (frames : list pystr) (count : Z) (t : tree) : tree :=
  match frames, t with
  | [], Node n v cs => Node n (v + count) cs
  | frame :: frames', Node n v cs => Node n (v + count) (in_child frame (add_way frames' count) cs)
  end.

Lemma in_child_map frame (f g : tree → tree) cs :
  (∀ c, tname c = frame → _propagate (f c) = g (_propagate c)) →
  map _propagate (in_child frame f cs) = in_child frame g (map _propagate cs).
Proof.
  intros Hf. induction cs as [|c cs IH]; simpl.
  - by rewrite (Hf (Node frame 0 [])).
  - assert (tname (_propagate c) = tname c) as -> by (by destruct c). case_decide; simpl; [by rewrite Hf|by rewrite IH].
Qed.

Lemma in_child_sum frame (f : tree → tree) count cs :
  (∀ c, tvalue (_propagate (f c)) = tvalue (_propagate c) + count) →
  sum_counts (map (λ c, tvalue (_propagate c)) (in_child frame f cs)) =
  sum_counts (map (λ c, tvalue (_propagate c)) cs) + count.
Proof.
  intros Hf. induction cs as [|c cs IH]; simpl; [rewrite Hf; simpl; lia|].
  case_decide; simpl; [rewrite Hf; lia|rewrite IH; lia].
Qed.

Lemma propagate_add frames count t :
  _propagate (add_stack frames count t) = add_way frames count (_propagate t).
Proof.
  revert t. induction frames as [|frame frames IH]; intros [n v cs]; simpl; [f_equal; lia|].
  rewrite (in_child_sum frame _ count) by (intros [n' v' cs']; rewrite IH; by destruct frames).
  f_equal; [lia|]. by apply in_child_map.
Qed.

Lemma propagate_foldl entries t :
  _propagate (foldl (λ t e, add_stack e.1 e.2 t) t entries) =
  foldl (λ t e, add_way e.1 e.2 t) (_propagate t) entries.
Proof. revert t. induction entries as [|e es IH]; intros t; simpl; [done|]. by rewrite IH, propagate_add. Qed.

Lemma tname_add_way frames count t : tname (add_way frames count t) = tname t.
Proof. by destruct frames, t. Qed.

Lemma child_in_child frame f n v cs frame' :
  (∀ c, tname (f c) = tname c) →
  child frame' (Node n v (in_child frame f cs)) =
  if decide (frame = frame') then Some (f (default (Node frame 0 []) (child frame (Node n v cs))))
  else child frame' (Node n v cs).
Proof.
  intros Hf. unfold child. cbn [tchildren]. induction cs as [|c cs IH]; cbn [in_child].
  - rewrite filter_cons, Hf. simpl. by case_decide.
  - destruct (decide (tname c = frame)) as [Hc|Hc].
    + rewrite !filter_cons, Hf, Hc. rewrite (decide_True (P := frame = frame)) by done. by case_decide.
    + rewrite !(filter_cons _ c), (decide_False (P := tname c = frame)) by done.
      destruct (decide (tname c = frame')) as [Hc'|Hc']; [by rewrite decide_False by congruence|done].
Qed.

(** The node at a path, after one stack. *)
Lemma node_at_add_way frames count t path :
  tvalue <$> node_at path (add_way frames count t) =
  if decide (path `prefix_of` frames) then Some (default 0 (tvalue <$> node_at path t) + count)
  else tvalue <$> node_at path t.
Proof.
  revert t frames. induction path as [|p path IH]; intros [n v cs] frames.
  { rewrite decide_True by apply prefix_nil. by destruct frames. }
  destruct frames as [|frame frames]; cbn [add_way node_at].
  { rewrite decide_False by (intros [? ?]; done). done. }
  rewrite child_in_child by apply tname_add_way. destruct (decide (frame = p)) as [->|Hne].
  - rewrite IH.
    assert (∀ A (x y : A), (if decide (path `prefix_of` frames) then x else y) =
      if decide (p :: path `prefix_of` p :: frames) then x else y) as <-
      by (intros A x y; destruct (decide (path `prefix_of` frames)), (decide (p :: path `prefix_of` p :: frames));
          try done; exfalso; eauto using prefix_cons, prefix_cons_inv_2).
    change (child p (Node n (v + count) cs)) with (child p (Node n v cs)).
    destruct (child p (Node n v cs)) as [c|]; simpl; [done|].
    destruct path as [|q path]; [by rewrite !decide_True by apply prefix_nil|done].
  - rewrite decide_False by (intros ?%prefix_cons_inv_1; congruence). done.
Qed.

Lemma through_cons path e es :
  through path (e :: es) = if decide (path `prefix_of` e.1) then e :: through path es else through path es.
Proof. unfold through. by rewrite filter_cons. Qed.

Lemma through_nil es : through [] es = es.
Proof.
  induction es as [|e es IH]; [done|]. by rewrite through_cons, decide_True, IH by apply prefix_nil.
Qed.

(** The node at a path, after all stacks. *)
Lemma node_at_foldl path entries t :
  tvalue <$> node_at path (foldl (λ t e, add_way e.1 e.2 t) t entries) =
  match node_at path t, through path entries with
  | None, [] => None
  | o, es => Some (default 0 (tvalue <$> o) + samples es)
  end.
Proof.
  revert t. induction entries as [|e es IH]; intros t; simpl.
  { destruct (node_at path t); simpl; [f_equal; unfold samples; simpl; lia|done]. }
  rewrite IH, through_cons. pose proof (node_at_add_way e.1 e.2 t path) as Hw.
  destruct (decide (path `prefix_of` e.1)).
  - destruct (node_at path (add_way e.1 e.2 t)) as [x|]; [|done]. simpl in Hw |- *. apply (inj Some) in Hw.
    rewrite Hw. destruct (node_at path t); simpl; (f_equal; unfold samples; simpl; lia).
  - destruct (node_at path (add_way e.1 e.2 t)), (node_at path t); simplify_eq/=; [by rewrite Hw|done].
Qed.

Lemma foldl_root entries : tvalue (foldl (λ t e, add_way e.1 e.2 t) root0 entries) = samples entries.
Proof.
  pose proof (node_at_foldl [] entries root0) as H. cbn [node_at] in H. rewrite through_nil in H.
  by destruct entries; apply (inj Some) in H.
Qed.

(** Names stay distinct. *)
Lemma in_child_names frame f cs :
  (∀ c, tname (f c) = tname c) →
  map tname (in_child frame f cs) =
  if decide (frame ∈ map tname cs) then map tname cs else (map tname cs ++ [frame])%list.
Proof.
  intros Hf. induction cs as [|c cs IH]; simpl; [by rewrite Hf|].
  destruct (decide (tname c = frame)) as [Hc|Hc]; simpl.
  - rewrite Hf, decide_True by set_solver. done.
  - rewrite IH. destruct (decide (frame ∈ map tname cs)).
    + by rewrite decide_True by set_solver.
    + by rewrite decide_False by set_solver.
Qed.

Lemma in_child_Forall (P : tree → Prop) frame f cs :
  (∀ c, P c → P (f c)) → P (Node frame 0 []) → Forall P cs → Forall P (in_child frame f cs).
Proof. intros Hf H0. induction 1; simpl; [by repeat constructor; auto|]. case_decide; constructor; auto. Qed.

Lemma add_way_ok frames count t : tree_ok t → tree_ok (add_way frames count t).
Proof.
  revert t. induction frames as [|frame frames IH]; intros t Ht; destruct Ht as [n v cs Hnd Hall]; simpl;
    [by constructor|]. constructor.
  - rewrite in_child_names by apply tname_add_way. case_decide; [done|].
    apply NoDup_app. split_and!; [done|set_solver|apply NoDup_singleton].
  - apply in_child_Forall; [done| |done]. by repeat constructor.
Qed.

Lemma foldl_add_way_ok entries t : tree_ok t → tree_ok (foldl (λ t e, add_way e.1 e.2 t) t entries).
Proof. revert t. induction entries; simpl; auto using add_way_ok. Qed.

(** * Recursion depth *)

(** The levels of a tree, which [_propagate] descends. *)
Fixpoint depth (t : tree) : nat :=
  match t with Node _ _ cs => S (list_max (map depth cs)) end.

Lemma in_child_depth frame f cs n :
  (∀ c, depth c <= Nat.max 1 n → depth (f c) <= n)%nat → (list_max (map depth cs) <= n)%nat → (1 <= n)%nat →
  (list_max (map depth (in_child frame f cs)) <= n)%nat.
Proof.
  intros Hf Hcs Hn. induction cs as [|c cs IH].
  - pose proof (Hf (Node frame 0 [])) as H1. simpl in *. lia.
  - simpl in *. case_decide; simpl; [pose proof (Hf c); lia|]. lia.
Qed.

Lemma add_stack_depth frames count t n :
  (depth t <= n)%nat → (S (length frames) <= n)%nat → (depth (add_stack frames count t) <= n)%nat.
Proof.
  revert t n. induction frames as [|frame frames IH]; intros [nm v cs] n Ht Hn; [done|]. simpl in *.
  destruct n as [|n]; [lia|]. apply le_n_S, in_child_depth; [|lia..]. intros c Hc. apply IH; lia.
Qed.

Lemma propagate_depth t : depth (_propagate t) = depth t.
Proof.
  revert t. fix IH 1. intros [nm v cs]. cbn [_propagate depth]. do 2 f_equal.
  induction cs as [|c cs IHcs]; [done|]. cbn [map]. by rewrite IH, IHcs.
Qed.

Lemma tree_depth_bound udecimal max_depth text :
  0 <= max_depth →
  Z.of_nat (depth (collapsed_to_tree udecimal max_depth text)) <= max_depth + 1.
Proof.
  intros Hm. unfold collapsed_to_tree. rewrite propagate_depth.
  assert (Forall (λ e, Z.of_nat (length e.1) <= max_depth)
    (omap (tree_entry udecimal max_depth) (splitlines (strip text)))) as Hall.
  { rewrite Forall_forall. intros e (line & _ & He)%list_elem_of_omap. unfold tree_entry in He.
    destruct (stack_line udecimal line) as [[stack count]|]; [|done].
    destruct (count <=? 0); [done|]. simplify_eq/=. destruct (Z.ltb_spec max_depth (Z.of_nat (length (split 59 stack)))).
    - unfold slice_to. repeat case_match; rewrite ?length_take; lia.
    - done. }
  assert (depth root0 <= Z.to_nat (max_depth + 1))%nat as H0 by (simpl; lia).
  revert H0. generalize root0. induction Hall as [|e es He _ IH]; intros t Ht; simpl; [lia|].
  apply IH, add_stack_depth; lia.
Qed.

(** * Claims *)

(** The stacks of a text, as the tree takes them. *)
Definition tree_entries (udecimal : Z → option Z) (max_depth : Z) (text : pystr) : list (list pystr * Z) :=
  omap (tree_entry udecimal max_depth) (splitlines (strip text)).

Lemma flame_tree_root udecimal max_depth text :
  tvalue (collapsed_to_tree udecimal max_depth text) = samples (tree_entries udecimal max_depth text).
Proof. unfold collapsed_to_tree. rewrite propagate_foldl. apply foldl_root. Qed.

(** C18: The flame graph tree counts every sample once at every node it passes through: for
    any text, the tree has a node at a path exactly when some counted stack (cut at
    the maximal depth) begins with that path, the value of the node is the sum of the
    counts of these stacks, the root has the sum of all counts, and siblings have
    distinct names, so a node is determined by its path. *)
Theorem flame_tree_exact udecimal max_depth text path :
  let t := collapsed_to_tree udecimal max_depth text in
  let entries := tree_entries udecimal max_depth text in
  tree_ok t ∧ tvalue t = samples entries ∧
  tvalue <$> node_at path t =
    match path, through path entries with
    | _ :: _, [] => None
    | _, es => Some (samples es)
    end.
Proof.
  intros t entries. assert (t = foldl (λ t e, add_way e.1 e.2 t) root0 entries) as ->
    by apply (propagate_foldl entries root0).
  clearbody entries. split_and!.
  - apply foldl_add_way_ok. by repeat constructor.
  - apply foldl_root.
  - rewrite node_at_foldl. destruct path as [|p path]; by destruct (through _ _).
Qed.
