(* ===== verification/TopN.v ===== *)
(** parse_topn of analysis/drop_analyzer/hotmethod_analyzer.py: the hottest functions of a
    collapsed file. *)
From stdpp Require Import base strings list sorting.
From Stdlib Require Import ZArith Lia.
From S2P Require Import Prelude CppString OrdMap Collapsed PyText FlameTree.

Section topn.
(** The table of decimal digits beyond ASCII, and the floating-point value
    [round(self_val / total * 100, 2)]. *)
Context (udecimal : Z → option Z) {F : Type} (percentage : Z → Z → F).

Record top_entry := mkTop {
  te_func : pystr;
  te_self : Z;
  te_inclusive : Z;
  te_percentage : F;
}.

Record topn_state := mkTopState {
  func_self : list (pystr * Z);
  func_inclusive : list (pystr * Z);
  ts_total : Z;
}.

(** [frames[-1]] and [frames[0]]; [split] gives at least one. *)
Definition self_func (stack : pystr) : pystr := default [] (last (split 59 stack)).
Definition top_func (stack : pystr) : pystr := default [] (head (split 59 stack)).

(** The body of the loop for a line that parses. *)
Definition topn_count (st : topn_state) (e : pystr * Z) : topn_state :=
  mkTopState (dict_add (self_func e.1) e.2 (func_self st)) (dict_add (top_func e.1) e.2 (func_inclusive st))
    (ts_total st + e.2).

Definition topn_scan (text : pystr) : topn_state :=
  foldl topn_count (mkTopState [] [] 0) (omap (stack_line udecimal) (file_lines text)).

Definition parse_topn (text : pystr) (top_n : Z) : list top_entry :=
  let st := topn_scan text in
  if ts_total st =? 0 then [] else
  map (λ x, mkTop x.1 x.2 (default x.2 (dict_get x.1 (func_inclusive st))) (percentage x.2 (ts_total st)))
    (slice_to top_n (sorted_desc (func_self st))).

(** * What the list means *)

(** The counts of the entries that [key] sends to [f]. *)
Definition counts_of (key : pystr → pystr) (f : pystr) (entries : list (pystr * Z)) : list Z :=
  map snd (filter (λ e, key e.1 = f) entries).
Definition self_of := counts_of self_func.
Definition outermost_of := counts_of top_func.

(** * Lemmas *)

Lemma counts_of_cons key f e es :
  counts_of key f (e :: es) = if decide (key e.1 = f) then e.2 :: counts_of key f es else counts_of key f es.
Proof. unfold counts_of. rewrite filter_cons. by case_decide. Qed.

(** A dict filled with [d[key(x)] += v]. *)
Lemma dict_fill key entries d f :
  NoDup (map fst d) →
  let d' := foldl (λ d e, dict_add (key e.1) e.2 d) d entries in
  NoDup (map fst d') ∧
  dict_get f d' =
    match dict_get f d, counts_of key f entries with
    | None, [] => None
    | o, l => Some (default 0 o + sum_counts l)
    end.
Proof.
  revert d. induction entries as [|e es IH]; intros d Hd; simpl.
  { split; [done|]. destruct (dict_get f d); simpl; [f_equal; lia|done]. }
  assert (NoDup (map fst (dict_add (key e.1) e.2 d))) as Hd'.
  { rewrite dict_add_keys. case_decide; [done|]. apply NoDup_app. split_and!; [done|set_solver|apply NoDup_singleton]. }
  destruct (IH _ Hd') as [HN ->]. split; [done|]. rewrite dict_add_get, counts_of_cons.
  destruct (decide (key e.1 = f)) as [<-|]; [|done].
  destruct (dict_get (key e.1) d); simpl; f_equal; lia.
Qed.

Lemma topn_scan_fill entries st :
  foldl topn_count st entries =
  mkTopState (foldl (λ d e, dict_add (self_func e.1) e.2 d) (func_self st) entries)
    (foldl (λ d e, dict_add (top_func e.1) e.2 d) (func_inclusive st) entries)
    (ts_total st + sum_counts (map snd entries)).
Proof.
  revert st. induction entries as [|e es IH]; intros st; simpl.
  - destruct st; simpl. f_equal. lia.
  - rewrite IH. simpl. f_equal. lia.
Qed.

Lemma sorted_take_sorted n (l : list (pystr * Z)) : StronglySorted desc l → StronglySorted desc (take n l).
Proof.
  intros Hs. revert n. induction Hs as [|z l Hs IH Hz]; intros [|n]; simpl; constructor; [done|].
  by apply Forall_take.
Qed.

Lemma StronglySorted_top (g : pystr * Z → top_entry) l :
  (∀ x, te_self (g x) = x.2) → StronglySorted desc l → StronglySorted (λ x y, te_self y <= te_self x) (map g l).
Proof.
  intros Hg. induction 1 as [|x l Hs IH Hx]; simpl; constructor; [done|]. apply Forall_map.
  eapply Forall_impl; [exact Hx|]. intros y. unfold desc. by rewrite !Hg.
Qed.

End topn.
Arguments top_entry F : clear implicits.

(** The dict of self times, sorted. *)
Lemma listed entries f v :
  let d := foldl (λ d e, dict_add (self_func e.1) e.2 d) [] entries in
  NoDup (map fst (sorted_desc d)) ∧
  ((f, v) ∈ sorted_desc d ↔ self_of f entries ≠ [] ∧ v = sum_counts (self_of f entries)).
Proof.
  intros d. destruct (dict_fill self_func entries [] f) as [Hnd Hget]; [constructor|]. fold d in Hnd, Hget.
  split; [by rewrite sorted_desc_perm|]. rewrite sorted_desc_perm, dict_get_elem, Hget by done. simpl.
  fold (self_of f entries). destruct (self_of f entries) as [|c l]; [naive_solver|]. split; [|naive_solver].
  intros [= <-]. split; [done|]. simpl. lia.
Qed.

(** The same for any number of them. *)
Lemma listed_take entries k :
  let S := sorted_desc (foldl (λ d e, dict_add (self_func e.1) e.2 d) [] entries) in
  NoDup (map fst (take k S)) ∧
  Forall (λ x, self_of x.1 entries ≠ [] ∧ x.2 = sum_counts (self_of x.1 entries)) (take k S) ∧
  ∀ f, self_of f entries ≠ [] → f ∈ map fst (take k S) ∨
    length (take k S) = k ∧ Forall (λ x, sum_counts (self_of f entries) <= x.2) (take k S).
Proof.
  intros S. split_and!.
  - destruct (listed entries [] 0) as [Hnd _]. fold S in Hnd. rewrite <-(take_drop k S), map_app in Hnd.
    by apply NoDup_app in Hnd as [? _].
  - apply Forall_forall. intros [f v] Hin. apply (listed entries f v). fold S. rewrite <-(take_drop k S). set_solver.
  - intros f Hf. assert ((f, sum_counts (self_of f entries)) ∈ S) as Hin by (by apply (proj2 (listed entries f (sum_counts (self_of f entries))))).
    rewrite <-(take_drop k S) in Hin. apply elem_of_app in Hin as [Hin|Hin]; [left|right].
    + apply list_elem_of_fmap. by exists (f, sum_counts (self_of f entries)).
    + split.
      * apply length_take_le. destruct (decide (k <= length S)%nat) as [|Hk]; [done|].
        rewrite drop_ge in Hin by lia. set_solver.
      * apply Forall_forall. intros x Hx. apply (sorted_take snd k S x (f, _)); [apply sorted_desc_sorted|done..].
Qed.

(** * Claims *)

(** The lines of a file that count. *)
Definition topn_entries (udecimal : Z → option Z) (text : pystr) : list (pystr * Z) :=
  omap (stack_line udecimal) (file_lines text).

(** C29: The list of hot functions is right about self time: for any file, unless the
    counts sum to 0, it has at most [top_n] functions, each once, by decreasing
    self time, the self time of a function is the sum of the counts of the stacks
    it ends, and a function that is missing has at most the self time of those
    that are listed.  What it calls inclusive is not the time of the stacks through
    the function: it is the time of the stacks that start with it, or the self
    time when there are none. *)
Theorem topn_exact {F} udecimal (percentage : Z → Z → F) text top_n :
  0 <= top_n →
  let entries := topn_entries udecimal text in
  let total := sum_counts (map snd entries) in
  let res := parse_topn udecimal percentage text top_n in
  (total = 0 → res = []) ∧
  (total ≠ 0 →
  Forall (λ e, self_of (te_func e) entries ≠ [] ∧
    te_self e = sum_counts (self_of (te_func e) entries) ∧
    te_inclusive e = match outermost_of (te_func e) entries with [] => te_self e | l => sum_counts l end ∧
    te_percentage e = percentage (te_self e) total) res ∧
  NoDup (map te_func res) ∧ StronglySorted (λ x y, te_self y <= te_self x) res ∧
  Z.of_nat (length res) <= top_n ∧
  ∀ f, self_of f entries ≠ [] → f ∈ map te_func res ∨
    Z.of_nat (length res) = top_n ∧ Forall (λ e, sum_counts (self_of f entries) <= te_self e) res).
Proof.
  intros Hn entries total res. unfold res, parse_topn, topn_scan. rewrite topn_scan_fill.
  cbn [ts_total func_self func_inclusive]. rewrite Z.add_0_l. fold (topn_entries udecimal text). fold entries total.
  destruct (Z.eqb_spec total 0) as [Ht|Ht]; [by split|split; [done|intros _]]. unfold slice_to. rewrite (proj2 (Z.ltb_ge top_n 0)) by done.
  destruct (listed_take entries (Z.to_nat top_n)) as (Hnd & Hall & Hmiss).
  set (S := sorted_desc _) in *. set (g := λ x, mkTop _ _ _ _).
  assert (map te_func (map g (take (Z.to_nat top_n) S)) = map fst (take (Z.to_nat top_n) S)) as Hfst by (by rewrite map_map).
  split_and!.
  - apply Forall_map. eapply Forall_impl; [exact Hall|]. intros x [Hne Hx]. split_and!; [done..| |done]. simpl.
    destruct (dict_fill top_func entries [] x.1) as [_ ->]; [constructor|]. simpl.
    fold (outermost_of x.1 entries). by destruct (outermost_of x.1 entries).
  - by rewrite Hfst.
  - apply StronglySorted_top; [done|]. apply sorted_take_sorted, sorted_desc_sorted.
  - rewrite length_map, length_take. lia.
  - intros f Hf. rewrite Hfst, length_map. destruct (Hmiss f Hf) as [?|[Hlen Hle]]; [by left|right].
    split; [lia|]. by apply Forall_map.
Qed.

Lemma topn_exact_witness :
  let text := of_ascii (collapsed_text [("main;work", 1); ("main;work;leaf", 10)]) in
  te_func <$> parse_topn (λ _, None) (λ a b, (a, b)) text 1 = [of_ascii "leaf"] ∧
  NoDup (map te_func (parse_topn (λ _, None) (λ a b, (a, b)) text 1)).
Proof.
  intros text. split; [vm_compute; reflexivity|].
  destruct (topn_exact (λ _, None) (λ a b, (a, b)) text 1 ltac:(lia)) as [_ H].
  destruct H as (_ & Hnd & _); [vm_compute; discriminate|exact Hnd].
Defined.

(** [work] is on the stack for 11 samples; the list says 1. *)
Example topn_inclusive_wrong :
  (λ e, (te_self e, te_inclusive e)) <$>
    parse_topn (λ _, None) (λ a b, (a, b)) (of_ascii (collapsed_text [("main;work", 1); ("main;work;leaf", 10)])) 30 =
  [(10, 10); (1, 1)].
Proof. vm_compute. reflexivity. Qed.

(** What the agent's eBPF and continuous profiles say reaches the views unchanged: for a
    file the agent writes with printable stacks that are not too deep and positive
    counts, both Python readers see exactly its stacks and counts, and the root of the
    flame graph and the total of the hot functions are the samples of the profile. *)
Theorem agent_profile_in_views udecimal max_depth m :
  printable_stacks m →
  Forall (λ p, 0 < p.2 ∧ Z.of_nat (length (split 59 (of_ascii p.1))) <= max_depth) m →
  let text := of_ascii (collapsed_text m) in
  topn_entries udecimal text = map (λ p, (of_ascii p.1, p.2)) m ∧
  tree_entries udecimal max_depth text = map (λ p, (split 59 (of_ascii p.1), p.2)) m ∧
  ts_total (topn_scan udecimal text) = total m ∧
  tvalue (collapsed_to_tree udecimal max_depth text) = total m.
Proof.
  intros Hm Hpos text. destruct (agent_lines udecimal m Hm) as [Hf Hs].
  assert (topn_entries udecimal text = map (λ p, (of_ascii p.1, p.2)) m) as Htop
    by (unfold topn_entries, text; by rewrite Hf, agent_entries).
  assert (tree_entries udecimal max_depth text = map (λ p, (split 59 (of_ascii p.1), p.2)) m) as Htree.
  { unfold tree_entries, text. rewrite Hs. clear -Hm Hpos. induction m as [|[s c] m IH]; [done|].
    apply Forall_cons in Hm as [[Hs Hc] Hm]. apply Forall_cons in Hpos as [[H0 Hd] Hpos]. cbn [map omap list_omap].
    unfold tree_entry at 1. simpl in *. rewrite stack_line_agent by done.
    destruct (Z.leb_spec c 0); [lia|]. destruct (Z.ltb_spec max_depth (Z.of_nat (length (split 59 (of_ascii s))))); [lia|].
    f_equal. by apply IH. }
  assert (∀ (A : Type) (h : string * Z → A * Z), (∀ p, (h p).2 = p.2) → sum_counts (map snd (map h m)) = total m) as Hsum.
  { intros A h Hh. clear -Hh. induction m as [|p m IH]; simpl; [done|]. by rewrite IH, Hh. }
  split_and!; [done..| |].
  - unfold topn_scan. rewrite topn_scan_fill. simpl. fold (topn_entries udecimal text). rewrite Htop. by apply Hsum.
  - rewrite flame_tree_root, Htree. by apply Hsum.
Qed.

Lemma agent_profile_in_views_witness :
  let m := [("main;work", 1); ("main;work;leaf", 10)] in
  tvalue (collapsed_to_tree (λ _, None) 200 (of_ascii (collapsed_text m))) = 11.
Proof.
  apply (agent_profile_in_views (λ _, None) 200 [("main;work", 1); ("main;work;leaf", 10)]).
  - repeat (apply Forall_cons; split; [split; [split; [apply (bool_decide_unpack _); vm_compute; done|]|vm_compute; done]|]);
      [by do 2 eexists..|apply Forall_nil; done].
  - repeat (apply Forall_cons; split; [vm_compute; done|]). by apply Forall_nil.
Defined.
