(* ===== verification/Advisor.v ===== *)
(** The rule engine of analysis/analysis_advisor.py with the rules of analysis/rules.yaml,
    and the table analysis_suggestion between the analyzer and the API server. *)
From stdpp Require Import base strings list.
From Stdlib Require Import ZArith Lia Ascii.
From S2P Require Import Prelude CppString Json PGStore ApiStatements ApiServer PyText Utf8.

(** * re

    The regular expressions of the rules.  [ufold l c]: the character [c], beyond ASCII,
    is the literal [l] but for its case. *)
Inductive re :=
  | REps
  | RLit (l : Z)
  | RAny
  | RAll
  | RCat (r1 r2 : re)
  | RAlt (r1 r2 : re)
  | RStar (r : re)
  | RNone.

Definition to_lower (c : Z) : Z := if within 65 90 c then c + 32 else c.

Section re.
Context (ufold : Z → Z → bool).

(** One character: a literal under IGNORECASE, [.] (no newline), and any at all. *)
Definition lit_match (l c : Z) : bool := if c <? 128 then to_lower l =? to_lower c else ufold l c.

Inductive lang : re → pystr → Prop :=
  | lang_eps : lang REps []
  | lang_lit l c : lit_match l c = true → lang (RLit l) [c]
  | lang_any c : c ≠ 10 → lang RAny [c]
  | lang_all c : lang RAll [c]
  | lang_cat r1 r2 s1 s2 : lang r1 s1 → lang r2 s2 → lang (RCat r1 r2) (s1 ++ s2)
  | lang_alt_l r1 r2 s : lang r1 s → lang (RAlt r1 r2) s
  | lang_alt_r r1 r2 s : lang r2 s → lang (RAlt r1 r2) s
  | lang_star_nil r : lang (RStar r) []
  | lang_star_cons r s1 s2 : lang r s1 → lang (RStar r) s2 → lang (RStar r) (s1 ++ s2).

(** The same, decided with derivatives. *)
Fixpoint nullable (r : re) : bool :=
  match r with
  | REps | RStar _ => true
  | RLit _ | RAny | RAll | RNone => false
  | RCat r1 r2 => nullable r1 && nullable r2
  | RAlt r1 r2 => nullable r1 || nullable r2
  end.

Fixpoint deriv (c : Z) (r : re) : re :=
  match r with
  | REps | RNone => RNone
  | RLit l => if lit_match l c then REps else RNone
  | RAny => if c =? 10 then RNone else REps
  | RAll => REps
  | RCat r1 r2 =>
      let d := RCat (deriv c r1) r2 in if nullable r1 then RAlt d (deriv c r2) else d
  | RAlt r1 r2 => RAlt (deriv c r1) (deriv c r2)
  | RStar r => RCat (deriv c r) (RStar r)
  end.

Fixpoint fullmatch (r : re) (s : pystr) : bool :=
  match s with [] => nullable r | c :: s' => fullmatch (deriv c r) s' end.

(** [re.search(pattern, s, re.IGNORECASE)] *)
Definition search (r : re) (s : pystr) : bool := fullmatch (RCat (RStar RAll) (RCat r (RStar RAll))) s.

(** ** Lemmas *)

Lemma cat_inv r1 r2 s : lang (RCat r1 r2) s → ∃ s1 s2, s = (s1 ++ s2)%list ∧ lang r1 s1 ∧ lang r2 s2.
Proof. inversion 1; subst; eauto. Qed.

Lemma nullable_lang r : nullable r = true ↔ lang r [].
Proof.
  induction r; simpl; try (split; [done|by inversion 1]).
  - split; [constructor|done].
  - rewrite andb_true_iff, IHr1, IHr2. split.
    + intros [? ?]. by apply (lang_cat _ _ [] []).
    + intros (s1 & s2 & E & ? & ?)%cat_inv. symmetry in E. by apply app_eq_nil in E as [-> ->].
  - rewrite orb_true_iff, IHr1, IHr2. split; [intros [?|?]; [by apply lang_alt_l|by apply lang_alt_r]|].
    inversion 1; subst; auto.
  - split; [constructor|done].
Qed.

Lemma star_cons r c s :
  lang (RStar r) (c :: s) → ∃ s1 s2, s = (s1 ++ s2)%list ∧ lang r (c :: s1) ∧ lang (RStar r) s2.
Proof.
  intros H. remember (RStar r) as rs eqn:Er. remember (c :: s) as cs eqn:Es. revert s Es.
  induction H as [| | | | | | |r'|r' s1 s2 H1 _ H2 IH]; intros t Es; simplify_eq.
  destruct s1 as [|c1 s1]; simplify_eq/=; [by apply IH|]. by exists s1, s2.
Qed.

Lemma deriv_lang r c s : lang (deriv c r) s ↔ lang r (c :: s).
Proof.
  revert s. induction r as [|l| | |r1 IH1 r2 IH2|r1 IH1 r2 IH2|r IH|]; intros s; simpl.
  - split; by inversion 1.
  - destruct (lit_match l c) eqn:E; split; inversion 1; subst; try done; [by constructor|constructor|congruence].
  - destruct (Z.eqb_spec c 10); split; inversion 1; subst; try done; by constructor.
  - split; inversion 1; subst; constructor.
  - assert (lang (RCat (deriv c r1) r2) s ↔ ∃ s1 s2, s = (s1 ++ s2)%list ∧ lang r1 (c :: s1) ∧ lang r2 s2) as Hcat.
    { split.
      - intros (s1 & s2 & -> & ? & ?)%cat_inv. exists s1, s2. by rewrite <-IH1.
      - intros (s1 & s2 & -> & ? & ?). constructor; [by apply IH1|done]. }
    assert (lang (RCat r1 r2) (c :: s) ↔ lang (RCat (deriv c r1) r2) s ∨ lang r1 [] ∧ lang r2 (c :: s)) as ->.
    { rewrite Hcat. split.
      - intros (s1 & s2 & E & ? & ?)%cat_inv. destruct s1 as [|c1 s1]; simplify_eq/=; eauto 10.
      - intros [(s1 & s2 & -> & ? & ?)|[? ?]]; [by apply (lang_cat r1 r2 (c :: s1) s2)|by apply (lang_cat r1 r2 [])]. }
    rewrite <-nullable_lang, <-IH2. destruct (nullable r1); [|naive_solver].
    split; [inversion 1; subst; auto|]. intros [?|[_ ?]]; [by apply lang_alt_l|by apply lang_alt_r].
  - split; inversion 1; subst; first [by apply lang_alt_l, IH1|by apply lang_alt_r, IH2].
  - split.
    + intros (s1 & s2 & -> & H1%IH & ?)%cat_inv. by apply (lang_star_cons r (c :: s1)).
    + intros (s1 & s2 & -> & ? & ?)%star_cons. constructor; [by apply IH|done].
  - split; by inversion 1.
Qed.

Lemma fullmatch_lang r s : fullmatch r s = true ↔ lang r s.
Proof.
  revert r. induction s as [|c s IH]; intros r; simpl; [apply nullable_lang|]. by rewrite IH, deriv_lang.
Qed.

Lemma lang_all_any s : lang (RStar RAll) s.
Proof. induction s as [|c s IH]; [constructor|]. apply (lang_star_cons RAll [c] s); [constructor|done]. Qed.

(** [search] looks for a match anywhere. *)
Lemma search_spec r s : search r s = true ↔ ∃ a m b, s = (a ++ m ++ b)%list ∧ lang r m.
Proof.
  unfold search. rewrite fullmatch_lang. split.
  - intros (a & mb & -> & _ & (m & b & -> & ? & _)%cat_inv)%cat_inv. by exists a, m, b.
  - intros (a & m & b & -> & ?). constructor; [apply lang_all_any|]. constructor; [done|apply lang_all_any].
Qed.
End re.

(** * The rules *)

(** The value of [regex]: empty, refused by [re], or an expression. *)
Inductive pattern := NoPattern | BadPattern | Pattern (r : re).

Record rule := mkRule {
  ru_regex : pattern;
  ru_advice : string;
  ru_severity : option string;
}.

(** A word, [.*], [.*word.*], and alternatives of these. *)
Definition lits (s : string) : re := foldr (λ c r, RCat (RLit c) r) REps (of_ascii s).
Definition dots : re := RStar RAny.
Definition around (s : string) : re := RCat dots (RCat (lits s) dots).
Definition any_of (words : list string) : re := foldr RAlt RNone (map around words).

Definition rules_yaml : list rule :=
  [mkRule (Pattern (any_of ["malloc"]))
     "频繁的malloc调用可能导致内存碎片和性能下降。考虑使用jemalloc/tcmalloc替代glibc malloc，或使用对象池减少分配次数。"
     (Some "warn");
   mkRule (Pattern (any_of ["free"]))
     "大量free调用通常与malloc配对出现。检查是否存在频繁的内存分配/释放，考虑内存池或复用策略。"
     (Some "info");
   mkRule (Pattern (any_of ["lock"; "mutex"; "pthread_mutex"]))
     "锁竞争是常见的性能瓶颈。考虑使用读写锁、无锁数据结构、或RCU机制减少临界区持有时间。"
     (Some "warn");
   mkRule (Pattern (RCat dots (RCat (lits "spin") (RCat (RAlt (RLit 95) REps) (RCat (lits "lock") dots)))))
     "自旋锁在竞争激烈时会浪费CPU周期。建议评估是否可用互斥锁替代，或减少临界区大小。"
     (Some "warn");
   mkRule (Pattern (any_of ["schedule"; "cond_wait"; "futex"]))
     "大量调度/等待调用表明线程可能存在阻塞。检查I/O操作、锁竞争或不必要的同步点。"
     (Some "info");
   mkRule (Pattern (any_of ["memcpy"; "memmove"]))
     "大量内存拷贝可能是数据结构设计问题。考虑零拷贝技术、引用传递、或优化数据局部性。"
     (Some "info");
   mkRule (Pattern (any_of ["read"; "write"; "recv"; "send"]))
     "高频I/O操作可能是瓶颈。考虑批量读写、使用io_uring、或减少系统调用次数。"
     (Some "warn");
   mkRule (Pattern (any_of ["epoll_wait"; "select"; "poll"]))
     "频繁的I/O多路复用调用本身开销不大，但关注其返回的就绪事件数量，判断是否有I/O风暴。"
     (Some "info");
   mkRule (Pattern (any_of ["fork"; "clone"]))
     "进程创建开销较大且可能导致COW问题。考虑使用线程池或协程替代频繁创建进程。"
     (Some "warn");
   mkRule (Pattern (any_of ["GC"; "gc_"]))
     "GC暂停可能影响延迟敏感型应用。考虑减少对象分配、调整GC参数、或使用无GC的语言层方案。"
     (Some "warn");
   mkRule (Pattern (any_of ["HashMap"; "hash_map"; "unordered_map"]))
     "哈希表操作热点可能源于哈希冲突或rehash。评估装载因子、选择更好的哈希函数、或使用开放寻址实现。"
     (Some "info");
   mkRule (Pattern (any_of ["regex"; "RegExp"]))
     "正则表达式可能是性能陷阱。考虑使用编译后的正则、或改用字符串匹配/状态机方案。"
     (Some "info");
   mkRule (Pattern (any_of ["strlen"; "strcmp"; "strcpy"]))
     "频繁的字符串操作可能是瓶颈。考虑缓存字符串长度、使用更高效的字符串库、或减少不必要的拷贝。"
     (Some "info");
   mkRule (Pattern (any_of ["serialize"; "deserialize"; "json_"; "protobuf"]))
     "序列化/反序列化热点。考虑使用更紧凑的二进制格式、零拷贝反序列化、或缓存序列化结果。"
     (Some "info");
   mkRule (Pattern (any_of ["Object."; "ClassLoader"]))
     "Java对象分配或类加载热点。检查是否创建了过多临时对象，考虑对象复用或使用原始类型。"
     (Some "info");
   mkRule (Pattern (any_of ["Connection"; "PreparedStatement"; "executeQuery"]))
     "数据库操作热点。考虑使用连接池、批量操作、预编译缓存、或减少N+1查询。"
     (Some "warn")].

(** * match_rules *)

Section rules.
Context (ufold : Z → Z → bool) {F : Type}.

Record item := mkItem { it_func : pystr; it_percentage : F }.
Record advice_row := mkAdvice {
  ad_func : pystr;
  ad_percentage : F;
  ad_advice : string;
  ad_severity : string;
}.

(** The inner loop: [continue] for a rule without pattern or advice and for a pattern
    that [re] refuses. *)
Fixpoint rule_loop (rules : list rule) (func : pystr) : option rule :=
  match rules with
  | [] => None
  | r :: rules' =>
      if bool_decide (ru_advice r = "") then rule_loop rules' func else
      match ru_regex r with
      | NoPattern | BadPattern => rule_loop rules' func
      | Pattern p => if search ufold p func then Some r else rule_loop rules' func
      end
  end.

Definition match_rules (topn : list item) (rules : list rule) : list advice_row :=
  foldl (λ results it,
    match rule_loop rules (it_func it) with
    | Some r => (results ++ [mkAdvice (it_func it) (it_percentage it) (ru_advice r)
                               (default "info" (ru_severity r))])%list
    | None => results
    end) [] topn.

(** A rule that speaks about a function. *)
Definition applies (func : pystr) (r : rule) : Prop :=
  ru_advice r ≠ "" ∧ ∃ p, ru_regex r = Pattern p ∧ search ufold p func = true.

Lemma rule_loop_None rules func : rule_loop rules func = None ↔ Forall (λ r, ¬ applies func r) rules.
Proof.
  induction rules as [|r rules IH]; cbn [rule_loop]; [done|]. rewrite Forall_cons, <-IH. unfold applies.
  case_bool_decide; [naive_solver|]. destruct (ru_regex r) as [| |p]; [naive_solver..|].
  destruct (search ufold p func) eqn:E.
  - split; [done|]. intros [[] _]. eauto.
  - split; [|by intros [_ ?]]. intros Hn. split; [|done]. intros (_ & p0 & [= <-] & ?). congruence.
Qed.

Lemma rule_loop_Some rules func r :
  rule_loop rules func = Some r ↔
  ∃ before after, rules = (before ++ r :: after)%list ∧ Forall (λ r, ¬ applies func r) before ∧ applies func r.
Proof.
  split.
  - induction rules as [|r0 rules IH]; cbn [rule_loop]; [done|]. intros Hr.
    assert (applies func r0 ∧ r0 = r ∨ ¬ applies func r0 ∧ rule_loop rules func = Some r) as Hcase.
    { revert Hr. unfold applies. case_bool_decide; [naive_solver|]. destruct (ru_regex r0) as [| |p]; [naive_solver..|].
      destruct (search ufold p func) eqn:E; [naive_solver|]. intros Hr. right. split; [|done].
      intros (_ & p0 & [= <-] & ?). congruence. }
    destruct Hcase as [[? ->]|[Hn Hr']]; [by exists [], rules|].
    destruct (IH Hr') as (b & a & -> & ? & ?). exists (r0 :: b), a. split_and!; [done|by constructor|done].
  - intros (b & a & -> & Hb & Ha). induction Hb as [|r0 b Hn _ IH]; cbn [rule_loop app].
    + destruct Ha as [? (p & -> & ->)]. by rewrite bool_decide_eq_false_2.
    + unfold applies in Hn. case_bool_decide; [done|]. destruct (ru_regex r0) as [| |p]; [done..|].
      destruct (search ufold p func) eqn:E; [|done]. destruct Hn. eauto.
Qed.

Lemma match_rules_eq topn rules :
  match_rules topn rules = omap (λ it,
    (λ r, mkAdvice (it_func it) (it_percentage it) (ru_advice r) (default "info" (ru_severity r))) <$>
      rule_loop rules (it_func it)) topn.
Proof.
  unfold match_rules. set (f := λ results it, _). set (g := λ it, _ <$> _).
  assert (∀ l, foldl f l topn = (l ++ omap g topn)%list) as H; [|apply H].
  induction topn as [|it topn IH]; intros l; simpl; [by rewrite app_nil_r|]. rewrite IH. unfold f, g.
  destruct (rule_loop rules (it_func it)); simpl; [by rewrite <-(assoc_L (++))|done].
Qed.
End rules.
Arguments item F : clear implicits.
Arguments advice_row F : clear implicits.

(** * The table of suggestions *)

(** A function name that its column takes: 512 characters, none of them NUL. *)
Definition storable (func : pystr) : bool := (length func <=? 512)%nat && negb (existsb (Z.eqb 0) func).

(** [insert_suggestions] on the rows of the table: one transaction; [None] when it fails.
    [ai] is the text of the diagnosis. *)
Definition insert_suggestions {F} (ok : bool) (tid : string) (rule_matches : list (advice_row F)) (ai : option string)
    (rows : list suggestion) : option (list suggestion) :=
  if ok && forallb (λ m, storable (ad_func m)) rule_matches then
    Some (rows ++
      map (λ m, mkSuggestion tid (encode (ad_func m)) (ad_advice m) "" 0) rule_matches ++
      match ai with Some text => [mkSuggestion tid "__ai_summary__" "" text 1] | None => [] end)%list
  else None.

(** [Order("status ASC, id ASC")] *)
Fixpoint insert_by_status (g : suggestion) (l : list suggestion) : list suggestion :=
  match l with
  | [] => [g]
  | h :: l' => if sg_status g <=? sg_status h then g :: l else h :: insert_by_status g l'
  end.
Definition by_status (l : list suggestion) : list suggestion := foldr insert_by_status [] l.

Definition ListSuggestions (ok : bool) (tid : string) (a : api) : reply (list suggestion) :=
  done_with (if ok && names_ok analysis_suggestion_t ["t_id"; "status"; "id"]
             then by_status (filter (λ g, sg_tid g = tid) (ap_suggestions a)) else []).

(** * Lemmas *)

Lemma by_status_rules l1 l2 :
  Forall (λ g, sg_status g = 0) l1 → Forall (λ g, sg_status g = 1) l2 → by_status (l1 ++ l2) = (l1 ++ l2)%list.
Proof.
  intros H1 H2. assert (by_status l2 = l2) as Hl2.
  { induction H2 as [|g l2 Hg H2 IH]; [done|]. simpl. rewrite IH. destruct H2; simpl; [done|].
    by rewrite (proj2 (Z.leb_le _ _)) by lia. }
  induction H1 as [|g l1 Hg H1 IH]; [done|]. simpl. fold (by_status (l1 ++ l2)). rewrite IH.
  destruct (l1 ++ l2)%list as [|h t] eqn:E; [done|]. cbn [insert_by_status].
  assert (0 <= sg_status h) as Hh.
  { assert (Forall (λ g, 0 <= sg_status g) (h :: t)) as Hall; [|by apply Forall_cons in Hall as [? _]].
    rewrite <-E. apply Forall_app. split; (eapply Forall_impl; [eassumption|]); simpl; lia. }
  by rewrite (proj2 (Z.leb_le _ _)) by lia.
Qed.

(** What the engine calls a spin lock it also calls a lock. *)
Definition spin_lock : re := RCat dots (RCat (lits "spin") (RCat (RAlt (RLit 95) REps) (RCat (lits "lock") dots))).
Definition locks : re := any_of ["lock"; "mutex"; "pthread_mutex"].

Lemma spin_lock_locks ufold f : search ufold spin_lock f = true → search ufold locks f = true.
Proof.
  rewrite !search_spec. intros (a & m & b & -> & Hm).
  apply cat_inv in Hm as (d1 & m1 & -> & _ & Hm). apply cat_inv in Hm as (sp & m2 & -> & _ & Hm).
  apply cat_inv in Hm as (us & m3 & -> & _ & Hm). apply cat_inv in Hm as (lk & d2 & -> & Hlk & _).
  exists (a ++ d1 ++ sp ++ us)%list, lk, (d2 ++ b)%list. split; [by rewrite <-!(assoc_L (++))|].
  apply lang_alt_l. apply (lang_cat ufold dots _ []); [constructor|]. rewrite <-(app_nil_r lk).
  constructor; [done|constructor].
Qed.

Definition spin_advice : string :=
  "自旋锁在竞争激烈时会浪费CPU周期。建议评估是否可用互斥锁替代，或减少临界区大小。".

Lemma spin_advice_index i r : rules_yaml !! i = Some r → ru_advice r = spin_advice → i = 3%nat.
Proof.
  intros Hi Ha. assert (Forall (λ i, ru_advice <$> rules_yaml !! i = Some spin_advice → i = 3%nat) (seq 0 16)) as Hall
    by (apply (bool_decide_unpack _); vm_compute; done).
  rewrite Forall_forall in Hall. apply Hall; [|by rewrite Hi; simpl; f_equal].
  apply lookup_lt_Some in Hi. apply elem_of_seq. simpl in Hi. lia.
Qed.

Lemma rules_yaml_spin ufold f r : rule_loop ufold rules_yaml f = Some r → ru_advice r ≠ spin_advice.
Proof.
  intros Hr Hadv. apply rule_loop_Some in Hr as (before & after & Hrules & Hbefore & Hr).
  assert (rules_yaml !! length before = Some r) as Hi by (by rewrite Hrules, list_lookup_middle).
  apply spin_advice_index in Hi as Hlen; [|done]. assert (before = take 3 rules_yaml) as ->
    by (by rewrite Hrules, <-Hlen, take_app_length).
  rewrite Hlen in Hi. injection Hi as <-. destruct Hr as [_ (p & [= <-] & Hs)]. apply spin_lock_locks in Hs.
  simpl in Hbefore. do 2 apply Forall_cons in Hbefore as [_ Hbefore]. apply Forall_cons in Hbefore as [Hn _].
  apply Hn. split; [done|]. by exists locks.
Qed.

(** * Claims *)

(** The rule engine gives every hot function at most one piece of advice, in the order of
    the functions: that of the first rule whose expression occurs in its name; a
    function gets none only when no rule applies.  With the rules as shipped the
    advice on spin locks is never given, because every such name also matches the
    rule on locks before it. *)
Theorem advice_first_rule_wins {F} ufold (topn : list (item F)) rules :
  let res := match_rules ufold topn rules in
  map ad_func res `sublist_of` map it_func topn ∧
  Forall (λ a, ∃ before r after, rules = (before ++ r :: after)%list ∧ applies ufold (ad_func a) r ∧
    Forall (λ r', ¬ applies ufold (ad_func a) r') before ∧
    ad_advice a = ru_advice r ∧ ad_severity a = default "info" (ru_severity r)) res ∧
  Forall (λ it, it_func it ∉ map ad_func res → Forall (λ r, ¬ applies ufold (it_func it) r) rules) topn ∧
  Forall (λ a, ad_advice a ≠ spin_advice) (match_rules ufold topn rules_yaml).
Proof.
  intros res. unfold res. rewrite !match_rules_eq. split_and!.
  - clear res. induction topn as [|it topn IH]; simpl; [constructor|].
    destruct (rule_loop ufold rules (it_func it)); simpl; by constructor.
  - apply Forall_forall. intros a (it & _ & Ha)%list_elem_of_omap. apply fmap_Some in Ha as (r & Hr & ->). simpl.
    apply rule_loop_Some in Hr as (b & af & -> & ? & ?). by exists b, r, af.
  - apply Forall_forall. intros it Hit Hno. apply rule_loop_None.
    destruct (rule_loop ufold rules (it_func it)) as [r|] eqn:E; [|done]. destruct Hno. apply list_elem_of_fmap.
    eexists. split; [|apply list_elem_of_omap; exists it; split; [done|]; by rewrite E]. done.
  - apply Forall_forall. intros a (it & _ & Ha)%list_elem_of_omap. apply fmap_Some in Ha as (r & Hr & ->). simpl.
    by eapply rules_yaml_spin.
Qed.

Example spin_lock_named :
  (λ a, ad_severity a) <$> match_rules (λ _ _, false) [mkItem (of_ascii "_raw_spin_lock") 1] rules_yaml = ["warn"] ∧
  (ad_advice <$> match_rules (λ _ _, false) [mkItem (of_ascii "_raw_spin_lock") 1] rules_yaml) ≠ [spin_advice].
Proof. by vm_compute. Qed.

(** The rows of one task, among others. *)
Lemma filter_rows (P : suggestion → Prop) `{∀ g, Decision (P g)} l1 l2 :
  Forall (λ g, ¬ P g) l1 → Forall P l2 → filter P (l1 ++ l2) = l2.
Proof.
  intros H1 H2. rewrite filter_app. assert (filter P l1 = []) as ->.
  { induction H1 as [|g l Hg _ IH]; [done|]. by rewrite filter_cons, decide_False. }
  induction H2 as [|g l Hg _ IH]; [done|]. simpl in *. by rewrite filter_cons, decide_True, IH.
Qed.

Lemma suggestions_listed_rows tid rules_rows ai_rows a :
  Forall (λ g, sg_tid g ≠ tid) (ap_suggestions a) →
  Forall (λ g, sg_tid g = tid ∧ sg_status g = 0) rules_rows → Forall (λ g, sg_tid g = tid ∧ sg_status g = 1) ai_rows →
  ListSuggestions true tid (set_suggestions (ap_suggestions a ++ rules_rows ++ ai_rows) a) =
    done_with (rules_rows ++ ai_rows)%list.
Proof.
  intros Ha Hr Hi. unfold ListSuggestions. cbn [ap_suggestions set_suggestions andb].
  change (names_ok _ _) with true. cbn iota. f_equal. rewrite filter_rows; [|done|].
  - apply by_status_rules; [eapply Forall_impl; [exact Hr|]|eapply Forall_impl; [exact Hi|]]; naive_solver.
  - apply Forall_app. split; [eapply Forall_impl; [exact Hr|]|eapply Forall_impl; [exact Hi|]]; naive_solver.
Qed.

(** Stored suggestions are listed as they were written, the rules first and the diagnosis
    last; one function name that does not fit loses them all. *)
Theorem suggestions_listed {F} tid (ms : list (advice_row F)) ai a :
  Forall (λ g, sg_tid g ≠ tid) (ap_suggestions a) →
  match insert_suggestions true tid ms (Some ai) (ap_suggestions a) with
  | Some rows => rdata (ListSuggestions true tid (set_suggestions rows a)) =
      Some (map (λ m, mkSuggestion tid (encode (ad_func m)) (ad_advice m) "" 0) ms ++
            [mkSuggestion tid "__ai_summary__" "" ai 1])%list
  | None => Exists (λ m, storable (ad_func m) = false) ms
  end.
Proof.
  intros Ha. unfold insert_suggestions. cbn [andb]. destruct (forallb _ ms) eqn:E.
  - rewrite suggestions_listed_rows; [done..|by apply Forall_map, Forall_true|by repeat constructor].
  - clear Ha. induction ms as [|m ms IH]; [done|]. simpl in E. apply andb_false_iff in E as [E|E].
    + by apply Exists_cons_hd.
    + apply Exists_cons_tl. by apply IH.
Qed.
