(* ===== verification/AnalysisPipeline.v ===== *)
(** The work of analysis/drop_analyzer/hotmethod_analyzer.py between its updates of the row:
    fetching the upload, the three pipelines, the results in the storage and the
    suggestions; with the Markdown and the heuristic diagnosis of
    analysis/analysis_advisor.py.

    perf, the FlameGraph scripts, MinIO and the language model are not in the repository:
    their answers are the record [tools].  The files of the temporary directory are a
    map from names to contents. *)
From stdpp Require Import base gmap strings list.
From Stdlib Require Import ZArith Lia Ascii.
From S2P Require Import Prelude CppString Json PGStore ApiStatements ApiServer AnalysisScheduler.
From S2P Require Import OrdMap Collapsed PyText Utf8 FlameTree TopN Advisor.

(** * Python's exceptions, and the state that survives them *)

Definition py (A : Type) : Type := (A + pystr)%type.
Definition pyio (A : Type) : Type := outputs → py A * outputs.

#[global] Instance pyio_ret : MRet pyio := λ A x o, (inl x, o).
#[global] Instance pyio_bind : MBind pyio := λ A B f m o,
  match m o with
  | (inl x, o') => f x o'
  | (inr e, o') => (inr e, o')
  end.
Definition raise {A} (e : pystr) : pyio A := λ o, (inr e, o).
Definition answer {A} (r : py A) : pyio A := λ o, (r, o).

Section Pipeline.
(** Python's digits beyond ASCII and the letters that are ASCII but for their case; the
    percentages: their value, their text and how they compare; the confidences of the
    heuristic. *)
Context (udecimal : Z → option Z) (ufold : Z → Z → bool) {F : Type} (percentage : Z → Z → F).
Context (show : F → pystr) (above : F → Z → bool) (show_percent : F → pystr).
Context (f_0_1 f_0_4 : F) (clamp : F → F).

Definition hot_list : Type := list (@top_entry F).

(** * analysis_advisor.py *)

Record ai_result := mkAi {
  ai_diagnosis : pystr;
  ai_evidence : pystr;
  ai_recommendation : pystr;
  ai_confidence : F;
}.

Definition _fallback_diagnosis (l : hot_list) : ai_result :=
  match l with
  | [] => mkAi (u "No significant hot functions detected in this profile.") (u "Top N list is empty.") (u "N/A") f_0_1
  | top :: _ =>
      let func := te_func top in
      let pct := te_percentage top in
      let diag := (u "The hottest function is `" ++ func ++ u "` consuming " ++ show pct ++ u "% of CPU samples. ")%list in
      mkAi
        (diag ++ if above pct 30 then u "This is a severe hotspot that likely dominates performance."
                 else if above pct 15 then u "This is a moderate hotspot worth investigating."
                 else u "The profile appears relatively flat with no dominant hotspot.")%list
        (u "`" ++ func ++ u "` at " ++ show pct ++ u "% self-time")%list
        (u "Review the flame graph for the full call path leading to this function.")
        f_0_4
  end.

(** [answered]: the object in the model's reply with its missing fields filled; nothing
    when there is no key, no module, no reply or no object in it. *)
Definition ask_llm (answered : option ai_result) (l : hot_list) : ai_result :=
  match answered with
  | Some r => mkAi (ai_diagnosis r) (ai_evidence r) (ai_recommendation r) (clamp (ai_confidence r))
  | None => _fallback_diagnosis l
  end.

(** ["\n".join(lines)] *)
Fixpoint join (lines : list pystr) : pystr :=
  match lines with
  | [] => []
  | [l] => l
  | l :: lines' => (l ++ 10 :: join lines')%list
  end.

Definition line_of (s : pystr) : pystr := (s ++ [10])%list.

Definition severity_icon (severity : string) : pystr :=
  if bool_decide (severity = "critical") then u "🔴" else if bool_decide (severity = "warn") then u "🟡" else u "🔵".

Definition generate_suggestions_md (matches : list (advice_row F)) : pystr :=
  match matches with
  | [] => line_of (u "No rule-based suggestions for the top hot functions.")
  | _ =>
      join (line_of (u "# Rule-Based Analysis Suggestions") ::
        (matches ≫= λ m,
           [line_of (u "## " ++ severity_icon (ad_severity m) ++ u " `" ++ ad_func m ++ u "` (" ++ show (ad_percentage m) ++ u "%)");
            line_of (u "**Severity:** " ++ u (ad_severity m));
            line_of (u (ad_advice m))]))%list
  end.

Definition generate_ai_suggestion_md (r : ai_result) : pystr :=
  join [line_of (u "# AI-Powered Analysis"); line_of (u "**Confidence:** " ++ show_percent (ai_confidence r));
        line_of (u "## Diagnosis"); line_of (ai_diagnosis r); line_of (u "## Evidence"); line_of (ai_evidence r);
        line_of (u "## Recommendation"); line_of (ai_recommendation r)]%list.

(** * The tools *)

Record tools := mkTools {
  tl_perf_script : string → py (Z * pystr * pystr);       (** exit status, output, errors *)
  tl_perl : string → list string → string → py (Z * string);  (** tool, arguments, input *)
  tl_which : string → option string;
  tl_isfile : string → bool;
  tl_home : string;
  tl_find : string → py pystr;                            (** output of find / *)
  tl_get : string → option pystr;                         (** an error of MinIO, if any *)
  tl_put : string → string → option pystr;                (** key and content type *)
  tl_rules : list rule;                                   (** rules.yaml; empty when it is missing *)
  tl_llm : py (option ai_result);                         (** the configuration can be broken *)
  tl_insert : bool;
  tl_dump_topn : hot_list → pystr;                            (** json.dump *)
  tl_dump_ai : ai_result → pystr;
}.

Context (tl : tools).

(** [_find_tool] *)
Definition candidates (name : string) : list string :=
  ["/opt/FlameGraph/" +:+ name; "/usr/local/bin/" +:+ name; "/root/FlameGraph/" +:+ name; tl_home tl +:+ "/FlameGraph/" +:+ name].

Definition _find_tool (name : string) : py string :=
  match tl_which tl name with
  | Some path => inl path
  | None =>
      match filter (λ c, tl_isfile tl c = true) (candidates name) with
      | c :: _ => inl c
      | [] =>
          match tl_find tl name with
          | inr e => inr e
          | inl out =>
              match filter (λ l, l ≠ []) (split 10 (strip out)) with
              | line :: _ => inl (encode line)
              | [] => inr (u "Cannot find " ++ u name ++ u ". Install FlameGraph tools.")%list
              end
          end
      end
  end.

Definition workdir : Type := gmap string string.

(** A file opened as text. *)
Definition read_text (content : string) : py pystr :=
  if utf8 content then inl (u content) else inr (u "'utf-8' codec can't decode").

Definition file (dir : workdir) (name : string) : py string :=
  match dir !! name with Some c => inl c | None => inr (u "No such file or directory: " ++ u name)%list end.

(** [subprocess.run(["perl", tool] + args, stdin=..., stdout=...)] *)
Definition run_perl (name : string) (args : list string) (input : string) (failed : string) : pyio string :=
  tool ← answer (_find_tool name);
  '(rc, out) ← answer (tl_perl tl tool args input);
  if bool_decide (rc = 0) then mret out else raise (u failed).

(** The hot functions of a file and their [top.json]. *)
Definition write_topn (name : string) (dir : workdir) : pyio (workdir * hot_list) :=
  content ← answer (file dir name);
  text ← answer (read_text content);
  let l := parse_topn udecimal percentage text 30 in
  mret (<["top.json" := encode (tl_dump_topn tl l)]> dir, l).

(** * The pipelines: the directory, the artifacts and the hot functions *)

Definition analyze_perf (dir : workdir) : pyio (workdir * list string * hot_list) :=
  data ← answer (file dir "perf.data");
  '(rc, out, err) ← answer (tl_perf_script tl data);
  if negb (bool_decide (rc = 0)) then raise (u "perf script failed: " ++ strip err)%list else
  let script := encode out in
  collapsed ← run_perl "stackcollapse-perf.pl" [] script "stackcollapse-perf.pl failed";
  svg ← run_perl "flamegraph.pl" ["--title"; "CPU Flame Graph"; "--width"; "1200"] collapsed "flamegraph.pl failed";
  '(dir', l) ← write_topn "collapsed.txt"
    (<["flamegraph.svg" := svg]> (<["collapsed.txt" := collapsed]> (<["perf.script.txt" := script]> dir)));
  mret (dir', ["perf.script.txt"; "collapsed.txt"; "flamegraph.svg"; "top.json"], l).

Definition analyze_async_profiler (dir : workdir) : pyio (workdir * list string * hot_list) :=
  collapsed ← answer (file dir "async_profiler.collapsed");
  svg ← run_perl "flamegraph.pl"
    ["--color"; "java"; "--title"; "Java Flame Graph (async-profiler)"; "--width"; "1200"] collapsed
    "flamegraph.pl failed for async-profiler data";
  '(dir', l) ← write_topn "async_profiler.collapsed" (<["flamegraph_java.svg" := svg]> dir);
  mret (dir', ["async_profiler.collapsed"; "flamegraph_java.svg"; "top.json"], l).

Definition analyze_ebpf (dir : workdir) : pyio (workdir * list string * hot_list) :=
  collapsed ← answer (file dir "collapsed_ebpf.txt");
  svg ← run_perl "flamegraph.pl"
    ["--color"; "io"; "--title"; "Off-CPU Flame Graph"; "--width"; "1200"; "--countname"; "microseconds"] collapsed
    "flamegraph.pl failed for eBPF data";
  '(dir', l) ← write_topn "collapsed_ebpf.txt" (<["flamegraph_offcpu.svg" := svg]> dir);
  mret (dir', ["collapsed_ebpf.txt"; "flamegraph_offcpu.svg"; "top.json"], l).

(** [os.rename("perf.data", name)] in the directory. *)
Definition renamed (name : string) (content : string) : workdir := {[name := content]}.

Definition analyze (profiler_type : Z) (content : string) : pyio (workdir * list string * hot_list) :=
  if profiler_type =? 0 then analyze_perf {["perf.data" := content]}
  else if profiler_type =? 1 then analyze_async_profiler (renamed "async_profiler.collapsed" content)
  else if profiler_type =? 3 then analyze_ebpf (renamed "collapsed_ebpf.txt" content)
  else raise (u "Unsupported profiler_type=" ++ u (to_string profiler_type))%list.

(** * Storage and suggestions *)

Definition download_file (key : string) : pyio string := λ o,
  match tl_get tl key with
  | Some e => (inr e, o)
  | None =>
      match o.1 ≫= λ store, store !! key with
      | Some c => (inl c, o)
      | None => (inr (u "NoSuchKey"), o)
      end
  end.

Definition upload_file (key content content_type : string) : pyio unit := λ o,
  match tl_put tl key content_type, o.1 with
  | Some e, _ => (inr e, o)
  | None, Some store => (inl tt, (Some (<[key := content]> store), o.2))
  | None, None => (inr (u "NoSuchBucket"), o)
  end.

Definition ends_with (suffix s : string) : bool :=
  bool_decide (str_drop (String.length s - String.length suffix) s = suffix) && (String.length suffix <=? String.length s)%nat.

Definition artifact_type (art : string) : string :=
  if ends_with ".svg" art then "image/svg+xml"
  else if ends_with ".json" art then "application/json"
  else if ends_with ".txt" art then "text/plain"
  else if ends_with ".md" art then "text/markdown"
  else "application/octet-stream".

Fixpoint upload_artifacts (tid : string) (dir : workdir) (artifacts : list string) : pyio unit :=
  match artifacts with
  | [] => mret tt
  | art :: artifacts' =>
      content ← answer (file dir art);
      _ ← upload_file (tid +:+ "/" +:+ art) content (artifact_type art);
      upload_artifacts tid dir artifacts'
  end.

(** [try: insert_suggestions(...) except Exception: print] *)
Definition store_suggestions (tid : string) (matches : list (advice_row F)) (ai : ai_result) : pyio unit := λ o,
  (inl tt, (o.1, default o.2 (insert_suggestions (tl_insert tl) tid matches (Some (encode (tl_dump_ai tl ai))) o.2))).

(** What is read back from [top.json] is the list that was written. *)
Definition suggest (tid : string) (l : hot_list) : pyio unit :=
  let rule_matches := match_rules ufold (map (λ e, mkItem (te_func e) (te_percentage e)) l) (tl_rules tl) in
  _ ← upload_file (tid +:+ "/suggestions.md") (encode (generate_suggestions_md rule_matches)) "text/markdown";
  answered ← answer (tl_llm tl);
  let ai_result := ask_llm answered l in
  _ ← upload_file (tid +:+ "/ai_suggestion.md") (encode (generate_ai_suggestion_md ai_result)) "text/markdown";
  store_suggestions tid rule_matches ai_result.

(** The body of the [try]. *)
Definition analysis_job (tid : string) (task : task_row) : pyio unit :=
  content ← download_file (c_cos_key (t_cols task));
  '(dir, artifacts, l) ← analyze (c_profiler_type (t_cols task)) content;
  _ ← upload_artifacts tid dir artifacts;
  suggest tid l.

Definition analysis_pipeline (tid : string) (task : task_row) (o : outputs) : option string * outputs :=
  match analysis_job tid task o with
  | (inl _, o') => (None, o')
  | (inr e, o') => (Some (encode e), o')
  end.

(** * What a script touches

    Objects under the id of its task with the names of results, and new suggestions of its
    task. *)

Definition result_names : list string :=
  ["perf.script.txt"; "collapsed.txt"; "flamegraph.svg"; "top.json"; "async_profiler.collapsed"; "flamegraph_java.svg";
   "collapsed_ebpf.txt"; "flamegraph_offcpu.svg"; "suggestions.md"; "ai_suggestion.md"].

Definition result_key (tid key : string) : Prop := ∃ name, name ∈ result_names ∧ key = tid +:+ "/" +:+ name.

Record framed (tid : string) (o o' : outputs) : Prop := mkFramed {
  fr_store : ∀ key, ¬ result_key tid key → o'.1 ≫= lookup key = o.1 ≫= lookup key;
  fr_there : is_Some o.1 ↔ is_Some o'.1;
  fr_rows : ∃ rows, o'.2 = (o.2 ++ rows)%list ∧ Forall (λ g, sg_tid g = tid) rows;
}.

#[global] Instance framed_preorder tid : PreOrder (framed tid).
Proof.
  split.
  - intros o. split; [done..|]. exists []. by rewrite app_nil_r.
  - intros o1 o2 o3 [s1 i1 (r1 & E1 & F1)] [s2 i2 (r2 & E2 & F2)]. split.
    + intros key Hk. by rewrite s2, s1.
    + by rewrite i1.
    + exists (r1 ++ r2)%list. rewrite E2, E1, (assoc_L (++)). split; [done|]. by apply Forall_app.
Qed.

(** A computation that touches no more, and whose result has the property [Q] when it has one. *)
Definition does {A} (tid : string) (m : pyio A) (Q : A → Prop) : Prop :=
  ∀ o, framed tid o (m o).2 ∧ match (m o).1 with inl x => Q x | inr _ => True end.

Lemma does_ret {A} tid (x : A) (Q : A → Prop) : Q x → does tid (mret x) Q.
Proof. by intros Hx o. Qed.
Lemma does_answer {A} tid (r : py A) : does tid (answer r) (λ _, True).
Proof. intros o. split; [done|]. by destruct r. Qed.
Lemma does_raise {A} tid e (Q : A → Prop) : does tid (raise e) Q.
Proof. by intros o. Qed.
Lemma does_bind {A B} tid (m : pyio A) (f : A → pyio B) Q R :
  does tid m Q → (∀ x, Q x → does tid (f x) R) → does tid (m ≫= f) R.
Proof.
  intros Hm Hf o. destruct (Hm o) as [Ho HQ]. unfold mbind, pyio_bind. destruct (m o) as [[x|e] o1]; [|done].
  destruct (Hf x HQ o1) as [Ho1 HR]. split; [by etrans|done].
Qed.

Lemma does_upload tid name content ct :
  name ∈ result_names → does tid (upload_file (tid +:+ "/" +:+ name) content ct) (λ _, True).
Proof.
  intros Hn [store rows]. unfold upload_file. destruct (tl_put _ _ _), store as [store|]; simpl; try done.
  split; [|done]. split; simpl; [|by split; eauto|exists []; by rewrite app_nil_r]. intros key Hk.
  apply lookup_insert_ne. intros <-. apply Hk. by exists name.
Qed.

Lemma does_artifacts tid dir artifacts :
  Forall (λ art, art ∈ result_names) artifacts → does tid (upload_artifacts tid dir artifacts) (λ _, True).
Proof.
  induction 1 as [|art artifacts Ha _ IH]; cbn [upload_artifacts]; [by apply does_ret|].
  eapply does_bind; [apply does_answer|intros content _]. by eapply does_bind; [apply does_upload|].
Qed.

Lemma does_suggestions tid matches ai : does tid (store_suggestions tid matches ai) (λ _, True).
Proof.
  intros [store rows]. split; [|done]. split; simpl; [done|done|]. unfold insert_suggestions. destruct (_ && _); simpl.
  - eexists. split; [done|]. apply Forall_app. split; [by apply Forall_map, Forall_true|by repeat constructor].
  - exists []. by rewrite app_nil_r.
Qed.

Lemma does_perl tid name args input failed : does tid (run_perl name args input failed) (λ _, True).
Proof.
  unfold run_perl. repeat (eapply does_bind; [apply does_answer|]; intros ? _). case_match.
  case_bool_decide; [by apply does_ret|apply does_raise].
Qed.

Lemma does_topn tid name dir : does tid (write_topn name dir) (λ _, True).
Proof. unfold write_topn. repeat (eapply does_bind; [apply does_answer|]; intros ? _). by apply does_ret. Qed.

Definition named (r : workdir * list string * hot_list) : Prop := Forall (λ art, art ∈ result_names) r.1.2.

Ltac analysis :=
  repeat (eapply does_bind; [first [apply does_answer|apply does_perl|apply does_topn]|]; intros ? _;
          repeat case_match);
  first [apply does_raise|apply does_ret; repeat constructor; unfold result_names; set_solver].

Lemma does_analyze tid profiler_type content : does tid (analyze profiler_type content) named.
Proof.
  unfold analyze. destruct_ifs; [unfold analyze_perf|unfold analyze_async_profiler|unfold analyze_ebpf|]; analysis.
Qed.

Lemma does_suggest tid l : does tid (suggest tid l) (λ _, True).
Proof.
  unfold suggest. eapply does_bind; [apply does_upload; unfold result_names; set_solver|intros _ _].
  eapply does_bind; [apply does_answer|intros answered _].
  eapply does_bind; [apply does_upload; unfold result_names; set_solver|intros _ _]. apply does_suggestions.
Qed.

Lemma does_download tid key : does tid (download_file key) (λ _, True).
Proof. intros [store rows]. unfold download_file. destruct (tl_get _ _); simpl; [done|]. by destruct (_ ≫= _). Qed.

Lemma does_job tid task : does tid (analysis_job tid task) (λ _, True).
Proof.
  unfold analysis_job. eapply does_bind; [apply does_download|intros content _].
  eapply does_bind; [apply does_analyze|intros [[dir artifacts] l] Hn].
  eapply does_bind; [by apply does_artifacts|intros _ _]. apply does_suggest.
Qed.

Lemma pipeline_framed tid task o : framed tid o (analysis_pipeline tid task o).2.
Proof.
  destruct (does_job tid task o) as [Hf _]. unfold analysis_pipeline. by destruct (analysis_job tid task o) as [[]].
Qed.

(** * A run whose tools answer *)

Lemma bind_inl {A B} (m : pyio A) (f : A → pyio B) o x o' : m o = (inl x, o') → (m ≫= f) o = f x o'.
Proof. intros E. unfold mbind, pyio_bind. by rewrite E. Qed.

Lemma upload_ok key content ct store rows :
  tl_put tl key ct = None → upload_file key content ct (Some store, rows) = (inl tt, (Some (<[key := content]> store), rows)).
Proof. intros E. unfold upload_file. by rewrite E. Qed.

Lemma upload_artifacts_ok tid dir artifacts store rows :
  (∀ key ct, tl_put tl key ct = None) → Forall (λ art, is_Some (dir !! art)) artifacts →
  upload_artifacts tid dir artifacts (Some store, rows) =
    (inl tt, (Some (foldl (λ st art, <[tid +:+ "/" +:+ art := default "" (dir !! art)]> st) store artifacts), rows)).
Proof.
  intros Hput Hdir. revert store. induction Hdir as [|art artifacts [c Hc] _ IH]; intros store; cbn [upload_artifacts foldl]; [done|].
  rewrite (bind_inl _ _ _ c (Some store, rows)) by (unfold answer, file; by rewrite Hc).
  rewrite (bind_inl _ _ _ tt _ (upload_ok _ _ _ _ _ (Hput _ _))), IH. by rewrite Hc.
Qed.

Lemma collapsed_text_ascii m : printable_stacks m → Forall (λ c, 0 <= c < 128) (of_ascii (collapsed_text m)).
Proof.
  intros Hm. rewrite collapsed_text_unlines. unfold py_unlines. apply Forall_concat, Forall_map, Forall_map.
  eapply Forall_impl; [exact Hm|]. intros [s c] [Hs Hc]. simpl in *. apply Forall_app. split; [|by repeat constructor].
  assert (Forall (λ x, negb (within 32 126 x) = false) (agent_line (s, c))) as Hl.
  { apply agent_line_breaks; [by intros x ->|done|unfold is_u64 in Hc; lia]. }
  eapply Forall_impl; [exact Hl|]. simpl. intros x. unfold within. lia.
Qed.

Definition ebpf_args : list string :=
  ["--color"; "io"; "--title"; "Off-CPU Flame Graph"; "--width"; "1200"; "--countname"; "microseconds"].

(** The hot functions of an agent's profile, and the advice on them. *)
Definition hot (m : stacks) : hot_list := parse_topn udecimal percentage (of_ascii (collapsed_text m)) 30.
Definition advice (m : stacks) : list (advice_row F) :=
  match_rules ufold (map (λ e, mkItem (te_func e) (te_percentage e)) (hot m)) (tl_rules tl).

Section ebpf.
Context (m : stacks) (path svg : string) (answered : option ai_result).
Context (Hm : printable_stacks m) (Hget : ∀ key, tl_get tl key = None) (Hput : ∀ key ct, tl_put tl key ct = None).
Context (Hfind : _find_tool "flamegraph.pl" = inl path).
Context (Hperl : tl_perl tl path ebpf_args (collapsed_text m) = inl (0, svg)).
Context (Hllm : tl_llm tl = inl answered) (Hins : tl_insert tl = true).
Context (Hnames : Forall (λ e, storable (te_func e) = true) (hot m)).

Definition ebpf_dir : workdir :=
  <["top.json" := encode (tl_dump_topn tl (hot m))]> (<["flamegraph_offcpu.svg" := svg]>
    (renamed "collapsed_ebpf.txt" (collapsed_text m))).

Lemma analyze_ebpf_ok o :
  analyze 3 (collapsed_text m) o =
    (inl (ebpf_dir, ["collapsed_ebpf.txt"; "flamegraph_offcpu.svg"; "top.json"], hot m), o).
Proof.
  change (analyze 3 (collapsed_text m)) with (analyze_ebpf (renamed "collapsed_ebpf.txt" (collapsed_text m))).
  unfold analyze_ebpf.
  rewrite (bind_inl _ _ _ (collapsed_text m) o) by reflexivity.
  rewrite (bind_inl _ _ _ svg o).
  2: { unfold run_perl. rewrite (bind_inl _ _ _ path o) by (unfold answer; by rewrite Hfind).
       by rewrite (bind_inl _ _ _ (0, svg) o) by (unfold answer; by rewrite <-Hperl). }
  unfold write_topn. unfold mbind at 1. unfold pyio_bind at 1.
  rewrite (bind_inl _ _ _ (collapsed_text m) o) by reflexivity.
  rewrite (bind_inl _ _ _ (of_ascii (collapsed_text m)) o); [done|]. unfold answer, read_text.
  by rewrite utf8_ascii, u_ascii by (by apply collapsed_text_ascii).
Qed.

Lemma advice_storable : forallb (λ r, storable (ad_func r)) (advice m) = true.
Proof.
  unfold advice. rewrite match_rules_eq. pose proof Hnames as Hn. clear Hnames.
  induction Hn as [|e l He _ IH]; [done|].
  cbn [map omap list_omap it_func]. destruct (rule_loop _ _ _); cbn [fmap option_fmap option_map forallb ad_func];
    [rewrite He|]; exact IH.
Qed.

(** The objects and the rows that the work leaves. *)
Definition ebpf_store (tid : string) (store : gmap string string) : gmap string string :=
  <[tid +:+ "/ai_suggestion.md" := encode (generate_ai_suggestion_md (ask_llm answered (hot m)))]>
  (<[tid +:+ "/suggestions.md" := encode (generate_suggestions_md (advice m))]>
  (<[tid +:+ "/top.json" := encode (tl_dump_topn tl (hot m))]>
  (<[tid +:+ "/flamegraph_offcpu.svg" := svg]>
  (<[tid +:+ "/collapsed_ebpf.txt" := collapsed_text m]> store)))).
Definition ebpf_rows (tid : string) : list suggestion :=
  (map (λ r, mkSuggestion tid (encode (ad_func r)) (ad_advice r) "" 0) (advice m) ++
   [mkSuggestion tid "__ai_summary__" "" (encode (tl_dump_ai tl (ask_llm answered (hot m)))) 1])%list.

Lemma ebpf_job tid task store rows :
  c_profiler_type (t_cols task) = 3 → store !! c_cos_key (t_cols task) = Some (collapsed_text m) →
  analysis_pipeline tid task (Some store, rows) = (None, (Some (ebpf_store tid store), (rows ++ ebpf_rows tid)%list)).
Proof.
  intros Ht Hs. unfold analysis_pipeline, analysis_job.
  rewrite (bind_inl _ _ _ (collapsed_text m) (Some store, rows)) by (unfold download_file; rewrite Hget; simpl; by rewrite Hs).
  rewrite Ht, (bind_inl _ _ _ _ _ (analyze_ebpf_ok _)).
  erewrite bind_inl by (apply upload_artifacts_ok; [done|by repeat constructor]).
  unfold suggest. fold (advice m). rewrite (bind_inl _ _ _ _ _ (upload_ok _ _ _ _ _ (Hput _ _))).
  rewrite (bind_inl _ _ _ answered _) by (unfold answer; by rewrite Hllm).
  rewrite (bind_inl _ _ _ _ _ (upload_ok _ _ _ _ _ (Hput _ _))).
  unfold store_suggestions, insert_suggestions. rewrite Hins, advice_storable. cbn [andb fst snd default from_option].
  reflexivity.
Qed.
End ebpf.
End Pipeline.

(** * The whole tick *)

(** [framed] for the tasks of a tick. *)
Definition tick_framed (tids : list string) (o o' : outputs) : Prop :=
  (∀ key, (∀ tid, tid ∈ tids → ¬ result_key tid key) → o'.1 ≫= lookup key = o.1 ≫= lookup key) ∧
  ∃ rows, o'.2 = (o.2 ++ rows)%list ∧ Forall (λ g, sg_tid g ∈ tids) rows.

Lemma tick_framed_step tids tid o o1 o2 :
  framed tid o o1 → tick_framed tids o1 o2 → tick_framed (tid :: tids) o o2.
Proof.
  intros [Hs _ (r1 & E1 & F1)] [Hk (r2 & E2 & F2)]. split.
  - intros key Hn. rewrite Hk by (intros; apply Hn; by right). apply Hs, Hn. by left.
  - exists (r1 ++ r2)%list. rewrite E2, E1, (assoc_L (++)). split; [done|]. apply Forall_app. split.
    + eapply Forall_impl; [exact F1|]. intros g ->. by left.
    + eapply Forall_impl; [exact F2|]. intros g Hg. by right.
Qed.

(** * Claims *)

(** C8: An off-CPU task is analysed as its agent recorded it.  When the upload of a finished
    eBPF task is what the agent writes and the tools answer, the analysis ends
    SUCCESS; the storage then holds the list of the hot functions of exactly the
    uploaded stacks, the flame graph that the FlameGraph script made of them, and the
    upload itself; and the API server lists, in the order of the hot functions, the
    advice of the rules on each, followed by the diagnosis. *)
Theorem ebpf_analysis_end_to_end {F} udecimal ufold (percentage : Z → Z → F) show above show_percent f_0_1 f_0_4 clamp
    (tl : tools) m path svg answered tid a r store :
  let work := analysis_pipeline udecimal ufold percentage show above show_percent f_0_1 f_0_4 clamp tl in
  let env := mkSpawnEnv true true (mkAnalyzerEnv true true true work true true) "" true in
  let functions := hot udecimal percentage m in
  printable_stacks m → (∀ key, tl_get tl key = None) → (∀ key ct, tl_put tl key ct = None) →
  _find_tool tl "flamegraph.pl" = inl path → tl_perl tl path ebpf_args (collapsed_text m) = inl (0, svg) →
  tl_llm tl = inl answered → tl_insert tl = true → Forall (λ e, storable (te_func e) = true) functions →
  hotmethod_task (ap_db a) !! tid = Some r → deleted r = false → c_profiler_type (t_cols r) = 3 →
  c_cos_key (t_cols r) ≠ "" → ap_store a = Some store → store !! c_cos_key (t_cols r) = Some (collapsed_text m) →
  Forall (λ g, sg_tid g ≠ tid) (ap_suggestions a) →
  let a' := spawnAnalysis env tid a in
  omap (stack_line udecimal) (file_lines (of_ascii (collapsed_text m))) = map (λ p, (of_ascii p.1, p.2)) m ∧
  (∃ r', hotmethod_task (ap_db a') !! tid = Some r' ∧ c_analysis_status (t_cols r') = AnalysisStatusSuccess) ∧
  (∃ store', ap_store a' = Some store' ∧
     store' !! (tid +:+ "/top.json") = Some (encode (tl_dump_topn tl functions)) ∧
     store' !! (tid +:+ "/flamegraph_offcpu.svg") = Some svg ∧
     store' !! (tid +:+ "/collapsed_ebpf.txt") = Some (collapsed_text m)) ∧
  ListSuggestions true tid a' = done_with
    (map (λ x, mkSuggestion tid (encode (ad_func x)) (ad_advice x) "" 0)
       (match_rules ufold (map (λ e, mkItem (te_func e) (te_percentage e)) functions) (tl_rules tl)) ++
     [mkSuggestion tid "__ai_summary__" ""
        (encode (tl_dump_ai tl (ask_llm show above f_0_1 f_0_4 clamp answered functions))) 1])%list.
Proof.
  intros work env functions Hm Hget Hput Hfind Hperl Hllm Hins Hnames Hr Hd Ht Hk Hst Hup Hsug a'.
  assert (healthy env) as Hh by done.
  destruct (spawnAnalysis_effect env tid a r Hh Hr Hd Hk) as [info Hdb].
  pose proof (spawnAnalysis_outputs env tid a r Hh eq_refl Hr Hd Hk) as Hout.
  unfold outputs_of at 2 in Hout. rewrite Hst in Hout.
  unfold analysis_works, outputs_of in Hdb. rewrite Hst in Hdb. cbn [sp_started sp_script az_pipeline env andb] in Hdb, Hout.
  unfold work in Hdb, Hout.
  rewrite (ebpf_job udecimal ufold percentage show above show_percent f_0_1 f_0_4 clamp tl m path svg answered) in Hdb, Hout by done.
  cbn [fst snd] in Hdb, Hout. split_and!.
  - destruct (agent_lines udecimal m Hm) as [-> _]. by apply agent_entries.
  - unfold a'. rewrite Hdb, mark_lookup, decide_True, Hr by done. by eexists.
  - unfold outputs_of in Hout. fold a' in Hout. injection Hout as Hs _. rewrite Hs. eexists. split; [done|].
    unfold ebpf_store. split_and!;
      repeat rewrite lookup_insert_ne by (intros ?%(inj (String.append tid)); discriminate); apply lookup_insert_eq.
  - unfold outputs_of in Hout. fold a' in Hout. injection Hout as _ Hrows.
    assert (ListSuggestions true tid a' = ListSuggestions true tid (set_suggestions (ap_suggestions a') a)) as -> by done.
    rewrite Hrows. unfold ebpf_rows. apply suggestions_listed_rows; [done|by apply Forall_map, Forall_true|by repeat constructor].
Qed.

(** A small world: one function, two rules, no language model. *)
Definition tools0 : @tools unit :=
  mkTools (λ _, inr []) (λ _ _ input, inl (0, "<svg>" +:+ input)) (λ _, Some "/usr/bin/flamegraph.pl") (λ _, false) "/root"
    (λ _, inr []) (λ _, None) (λ _ _, None) rules_yaml (inl None) true (λ _, u "[]") (λ _, u "{}").
Definition profile0 : stacks := [("main;pthread_mutex_lock", 3)].
Definition api_ebpf : api :=
  set_store (Some {["t1/collapsed_ebpf.txt" := collapsed_text profile0]}) api_done.

Lemma ebpf_analysis_end_to_end_witness :
  let work := analysis_pipeline (λ _, None) (λ _ _, false) (λ _ _, tt) (λ _, []) (λ _ _, false) (λ _, []) tt tt id tools0 in
  let env := mkSpawnEnv true true (mkAnalyzerEnv true true true work true true) "" true in
  let a' := spawnAnalysis env "t1" api_ebpf in
  ∃ r', hotmethod_task (ap_db a') !! "t1" = Some r' ∧ c_analysis_status (t_cols r') = AnalysisStatusSuccess.
Proof.
  apply (ebpf_analysis_end_to_end (λ _, None) (λ _ _, false) (λ _ _, tt) (λ _, []) (λ _ _, false) (λ _, []) tt tt id tools0
    profile0 "/usr/bin/flamegraph.pl" ("<svg>" +:+ collapsed_text profile0) None "t1" api_ebpf (done_row "t1/collapsed_ebpf.txt")
    {["t1/collapsed_ebpf.txt" := collapsed_text profile0]}); try reflexivity; try done.
  - repeat constructor; try (by vm_compute). eexists _, _. split; [reflexivity|done].
  - vm_compute. repeat constructor.
Defined.

(** C23: An analysis writes its results and nothing else.  Whatever the tools, the storage and the
    database answer, and wherever the scripts fail, a tick of the scheduler changes no
    object but the ten result files of the tasks it took up, so no upload of any other
    task, and adds suggestions of those tasks after the ones that are there. *)
Theorem analysis_writes_only_results {F} udecimal ufold (percentage : Z → Z → F) show above show_percent f_0_1 f_0_4 clamp
    (tl : string → tools) find_ok env a :
  (∀ tid, az_pipeline (sp_script (env tid)) =
     analysis_pipeline udecimal ufold percentage show above show_percent f_0_1 f_0_4 clamp (tl tid)) →
  let a' := runAnalysisTick find_ok env a in
  let tids := map fst (to_analyse a) in
  (∀ key, (∀ tid, tid ∈ tids → ¬ result_key tid key) → ap_store a' ≫= lookup key = ap_store a ≫= lookup key) ∧
  ∃ rows, ap_suggestions a' = (ap_suggestions a ++ rows)%list ∧ Forall (λ g, sg_tid g ∈ tids) rows.
Proof.
  intros Henv a' tids. assert (tick_framed tids (outputs_of a) (outputs_of a')) as Hf; [|exact Hf].
  unfold a', runAnalysisTick. destruct find_ok; [|split; [done|]; exists []; by rewrite app_nil_r].
  unfold tids. clear a' tids. generalize (to_analyse a) as l. intros l. revert a.
  induction l as [|[tid r] l IH]; intros a; [split; [done|]; exists []; by rewrite app_nil_r|].
  cbn [foldl map]. eapply tick_framed_step; [|apply IH]. unfold tick_step. cbn [fst snd]. case_bool_decide; [done|].
  destruct (spawnAnalysis_outputs_cases (env tid) tid a) as [->|[r' ->]]; [done|]. rewrite Henv. apply pipeline_framed.
Qed.

Lemma analysis_writes_only_results_witness :
  let work := analysis_pipeline (λ _, None) (λ _ _, false) (λ _ _, tt) (λ _, []) (λ _ _, false) (λ _, []) tt tt id tools0 in
  let env := mkSpawnEnv true true (mkAnalyzerEnv true true true work true true) "" true in
  ap_store (runAnalysisTick true (λ _, env) api_ebpf) ≫= lookup "other/perf.data" = None.
Proof.
  intros work env.
  destruct (analysis_writes_only_results (λ _, None) (λ _ _, false) (λ _ _, tt) (λ _, []) (λ _ _, false) (λ _, []) tt tt id
    (λ _, tools0) true (λ _, env) api_ebpf ltac:(done)) as [H _].
  rewrite H; [reflexivity|]. intros tid Hin (name & Hn & Hk).
  change (tid ∈ ["t1"; "t2"]) in Hin || change (tid ∈ ["t2"; "t1"]) in Hin.
  rewrite !elem_of_cons in Hin. destruct Hin as [->|[->|Hin]]; [discriminate..|by apply elem_of_nil in Hin].
Defined.
