(* ===== verification/HeapDump.v ===== *)
(** analysis/java_heap_analyzer/main.go: the parser of Java heap dumps (HPROF) and its
    summary.  A file is the list of its bytes; reading beyond its end is the only error
    of a read.  The map of strings, a global of the program, is part of the state. *)
From stdpp Require Import base gmap strings list sorting.
From Stdlib Require Import ZArith Lia.
From S2P Require Import Prelude CppString.

Definition bytes : Type := list Z.

(** * Results

    [PPanic] is an index out of range; [PFuel] does not happen with the fuel [Parse]
    gives. *)
Inductive hprof_error :=
  | ReadFailed (what : string)
  | InvalidMagic
  | UnexpectedIdSize (n : Z)
  | UnknownSubRecord (tag remaining : Z).

Inductive presult (A : Type) := POk (x : A) | PErr (e : hprof_error) | PPanic | PFuel.
Arguments POk {A} x.
Arguments PErr {A} e.
Arguments PPanic {A}.
Arguments PFuel {A}.

#[global] Instance presult_ret : MRet presult := @POk.
#[global] Instance presult_bind : MBind presult := λ A B f m,
  match m with POk x => f x | PErr e => PErr e | PPanic => PPanic | PFuel => PFuel end.

(** * Bytes *)

(** [binary.BigEndian] *)
Definition be (l : bytes) : Z := foldl (λ acc b, acc * 256 + b) 0 l.

(** [io.ReadFull] of [n] bytes, and the rest of the file. *)
Definition readFull (what : string) (n : Z) (r : bytes) : presult (bytes * bytes) :=
  if Z.of_nat (length r) <? n then PErr (ReadFailed what)
  else POk (take (Z.to_nat n) r, drop (Z.to_nat n) r).

(** [buf[off : off+n]] *)
Definition slice (buf : bytes) (off n : Z) : presult bytes :=
  if Z.of_nat (length buf) <? off + n then PPanic
  else POk (take (Z.to_nat n) (drop (Z.to_nat off) buf)).

(** * State *)

Record ClassInfo := mkClass { ClassSerialNum : Z; ClassObjID : Z; ClassName : bytes }.

Inductive object_type := instance | objarray | primarray.
Record HeapObject := mkObj { ob_ID : Z; ob_ClassID : Z; ob_Size : Z; ob_Type : object_type }.

Record clsAccum := mkAccum { ac_name : bytes; ac_count : Z; ac_totalSize : Z }.

Record HPROFParser := mkParser {
  classes : gmap Z ClassInfo;
  objects : list HeapObject;
  sizeByCls : gmap Z clsAccum;
  totalSize : Z;
  totalObj : Z;
  idSize : Z;
  stringMap : gmap Z bytes;
}.

Definition NewHPROFParser : HPROFParser := mkParser ∅ [] ∅ 0 0 0 ∅.

Definition set_idSize (n : Z) (p : HPROFParser) : HPROFParser :=
  mkParser (classes p) (objects p) (sizeByCls p) (totalSize p) (totalObj p) n (stringMap p).
Definition set_string (id : Z) (s : bytes) (p : HPROFParser) : HPROFParser :=
  mkParser (classes p) (objects p) (sizeByCls p) (totalSize p) (totalObj p) (idSize p) (<[id := s]> (stringMap p)).
Definition set_class (c : ClassInfo) (p : HPROFParser) : HPROFParser :=
  mkParser (<[ClassObjID c := c]> (classes p)) (objects p) (sizeByCls p) (totalSize p) (totalObj p) (idSize p)
    (stringMap p).

Definition readID (p : HPROFParser) (buf : bytes) : Z :=
  if idSize p =? 8 then be (take 8 buf) else be (take 4 buf).

(** * Objects *)

Definition unknown : bytes := [117; 110; 107; 110; 111; 119; 110].

(** [int64] and [int] counters. *)
Definition addObject (obj : HeapObject) (p : HPROFParser) : HPROFParser :=
  let clsName := match classes p !! ob_ClassID obj with Some cls => ClassName cls | None => unknown end in
  let acc := default (mkAccum clsName 0 0) (sizeByCls p !! ob_ClassID obj) in
  mkParser (classes p) (objects p ++ [obj])
    (<[ob_ClassID obj := mkAccum (ac_name acc) (wrap_s 64 (ac_count acc + 1))
                           (wrap_s 64 (ac_totalSize acc + ob_Size obj))]> (sizeByCls p))
    (wrap_s 64 (totalSize p + ob_Size obj)) (wrap_s 64 (totalObj p + 1)) (idSize p) (stringMap p).

(** Sub-record tags. *)
Definition subRootUnknown := 255.
Definition subRootJniGlobal := 1.
Definition subRootJniLocal := 2.
Definition subRootJavaFrame := 3.
Definition subRootNativeStack := 4.
Definition subRootStickyClass := 5.
Definition subRootThreadBlock := 6.
Definition subRootMonitorUsed := 7.
Definition subRootThreadObj := 8.
Definition subClassDump := 32.
Definition subInstanceDump := 33.
Definition subObjArrayDump := 34.
Definition subPrimArrayDump := 35.

Definition is_root (tag : Z) : bool :=
  bool_decide (tag ∈ [subRootUnknown; subRootJniGlobal; subRootJniLocal; subRootJavaFrame; subRootNativeStack;
    subRootStickyClass; subRootThreadBlock; subRootMonitorUsed; subRootThreadObj]).

Definition rootSubRecordSize (p : HPROFParser) (tag : Z) : Z :=
  let base := idSize p + 4 in
  if tag =? subRootJniGlobal then base + idSize p
  else if (tag =? subRootJniLocal) || (tag =? subRootJavaFrame) then base + 4 + 4
  else if (tag =? subRootNativeStack) || (tag =? subRootThreadBlock) then base + 4
  else if tag =? subRootThreadObj then base + 4 + 4
  else base.

Definition classDumpSize (p : HPROFParser) : Z := 7 * idSize p + 4 + 4 + 4 + 4 + 4 + 4.

Definition primTypeSize (t : Z) : Z :=
  if t =? 4 then 1 else if t =? 5 then 2 else if t =? 6 then 4 else if t =? 7 then 8
  else if t =? 8 then 1 else if t =? 9 then 2 else if t =? 10 then 4 else if t =? 11 then 8 else 1.

(** The object, the bytes consumed after the tag, and the rest of the file. *)
Definition parseInstanceDump (p : HPROFParser) (r : bytes) : presult (HeapObject * Z * bytes) :=
  let hlen := idSize p + 4 + idSize p + 4 in
  '(header, r1) ← readFull "reading instance dump header" hlen r;
  b1 ← slice header 0 (idSize p);
  b2 ← slice header (idSize p + 4) (idSize p);
  b3 ← slice header (idSize p + 4 + idSize p) 4;
  let numFields := be b3 in
  let obj := mkObj (readID p b1) (readID p b2) numFields instance in
  '(_, r2) ← readFull "reading instance data" numFields r1;
  POk (obj, hlen + numFields, r2).

Definition parseObjArrayDump (p : HPROFParser) (r : bytes) : presult (HeapObject * Z * bytes) :=
  let hlen := idSize p + 4 + 4 + idSize p in
  '(header, r1) ← readFull "reading obj array dump header" hlen r;
  b1 ← slice header 0 (idSize p);
  b2 ← slice header (idSize p + 4) 4;
  b3 ← slice header (idSize p + 4 + 4) (idSize p);
  let numElements := be b2 in
  let size := to_u32 (numElements * idSize p) in
  let obj := mkObj (readID p b1) (readID p b3) size objarray in
  '(_, r2) ← readFull "reading obj array elements" (numElements * idSize p) r1;
  POk (obj, hlen + numElements * idSize p, r2).

Definition parsePrimArrayDump (p : HPROFParser) (r : bytes) : presult (HeapObject * Z * bytes) :=
  let hlen := idSize p + 4 + 4 + 1 in
  '(header, r1) ← readFull "reading prim array dump header" hlen r;
  b1 ← slice header 0 (idSize p);
  b2 ← slice header (idSize p + 4) 4;
  b3 ← slice header (idSize p + 4 + 4) 1;
  let numElements := be b2 in
  let elemSize := primTypeSize (be b3) in
  let size := to_u32 (numElements * elemSize) in
  let obj := mkObj (readID p b1) 0 size primarray in
  '(_, r2) ← readFull "reading prim array elements" (numElements * elemSize) r1;
  POk (obj, hlen + numElements * elemSize, r2).

(** * Records *)

Definition parseString (p : HPROFParser) (length : Z) (r : bytes) : presult (HPROFParser * bytes) :=
  '(buf, r1) ← readFull "reading string record" length r;
  b ← slice buf 0 (idSize p);
  POk (set_string (readID p b) (drop (Z.to_nat (idSize p)) buf) p, r1).

(** [strings.HasPrefix(s, "L") && strings.HasSuffix(s, ";")], then without both; then
    "/" becomes ".". *)
Definition class_name (s : bytes) : bytes :=
  let s1 := if bool_decide (head s = Some 76) && bool_decide (last s = Some 59)
            then take (length s - 2) (drop 1 s) else s in
  map (λ c, if c =? 47 then 46 else c) s1.

Definition parseLoadClass (p : HPROFParser) (length : Z) (r : bytes) : presult (HPROFParser * bytes) :=
  '(buf, r1) ← readFull "reading load class record" length r;
  b1 ← slice buf 0 4;
  b2 ← slice buf 4 (idSize p);
  b3 ← slice buf (4 + idSize p + 4) (idSize p);
  let className := default [] (stringMap p !! readID p b3) in
  POk (set_class (mkClass (be b1) (readID p b2) (class_name className)) p, r1).

(** The body of the loop of parseHeapDump, after the tag. *)
Definition sub_record (p : HPROFParser) (tag remaining : Z) (r : bytes) : presult (HPROFParser * Z * bytes) :=
  if is_root tag then
    let size := rootSubRecordSize p tag in
    '(_, r1) ← readFull "reading root sub-record" size r; POk (p, remaining - size, r1)
  else if tag =? subClassDump then
    let size := classDumpSize p in
    '(_, r1) ← readFull "reading class dump" size r; POk (p, remaining - size, r1)
  else if tag =? subInstanceDump then
    '(obj, consumed, r1) ← parseInstanceDump p r; POk (addObject obj p, remaining - consumed, r1)
  else if tag =? subObjArrayDump then
    '(obj, consumed, r1) ← parseObjArrayDump p r; POk (addObject obj p, remaining - consumed, r1)
  else if tag =? subPrimArrayDump then
    '(obj, consumed, r1) ← parsePrimArrayDump p r; POk (addObject obj p, remaining - consumed, r1)
  else PErr (UnknownSubRecord tag remaining).

Fixpoint parseHeapDump (fuel : nat) (p : HPROFParser) (remaining : Z) (r : bytes) : presult (HPROFParser * bytes) :=
  match fuel with
  | O => PFuel
  | S fuel' =>
      if 0 <? remaining then
        '(b, r1) ← readFull "reading subtag" 1 r;
        '(p', remaining', r2) ← sub_record p (be b) (remaining - 1) r1;
        parseHeapDump fuel' p' remaining' r2
      else POk (p, r)
  end.

Definition tagString := 1.
Definition tagLoadClass := 2.
Definition tagHeapDump := 12.
Definition tagHeapDumpSeg := 28.

Definition record (p : HPROFParser) (tag recLen : Z) (r : bytes) : presult (HPROFParser * bytes) :=
  if tag =? tagString then parseString p recLen r
  else if tag =? tagLoadClass then parseLoadClass p recLen r
  else if (tag =? tagHeapDump) || (tag =? tagHeapDumpSeg) then parseHeapDump (S (length r)) p recLen r
  else '(_, r1) ← readFull "skipping record" recLen r; POk (p, r1).

(** The loop over records: the end of the file before a tag ends it. *)
Fixpoint parse_records (fuel : nat) (p : HPROFParser) (r : bytes) : presult HPROFParser :=
  match fuel with
  | O => PFuel
  | S fuel' =>
      match r with
      | [] => POk p
      | tag :: r1 =>
          '(_, r2) ← readFull "reading time" 4 r1;
          '(len, r3) ← readFull "reading length" 4 r2;
          '(p', r4) ← record p tag (be len) r3;
          parse_records fuel' p' r4
      end
  end.

(** The bytes before the first 0, and what follows it. *)
Fixpoint read_header (r : bytes) : option (bytes * bytes) :=
  match r with
  | [] => None
  | b :: r' => if b =? 0 then Some ([], r') else prod_map (cons b) id <$> read_header r'
  end.

(** "JAVA PROFILE" *)
Definition magic : bytes := [74; 65; 86; 65; 32; 80; 82; 79; 70; 73; 76; 69].

Definition Parse (p : HPROFParser) (r : bytes) : presult HPROFParser :=
  match read_header r with
  | None => PErr (ReadFailed "reading hprof header")
  | Some (headerStr, r1) =>
      if negb (bool_decide (take 12 headerStr = magic)) then PErr InvalidMagic else
      '(b, r2) ← readFull "reading id size" 4 r1;
      let n := be b in
      if negb (n =? 4) && negb (n =? 8) then PErr (UnexpectedIdSize n) else
      '(_, r3) ← readFull "reading timestamp" 8 r2;
      parse_records (S (length r3)) (set_idSize n p) r3
  end.

(** * Lemmas *)

(** ** Reading *)

Lemma readFull_ok w n r x :
  readFull w n r = POk x → 0 <= n →
  x = (take (Z.to_nat n) r, drop (Z.to_nat n) r) ∧ Z.of_nat (length x.1) = n ∧
  Z.of_nat (length r) = n + Z.of_nat (length x.2).
Proof.
  unfold readFull. intros H Hn. destruct (Z.ltb_spec (Z.of_nat (length r)) n); simplify_eq. simpl.
  rewrite length_take, length_drop. split; [done|]. lia.
Qed.

Lemma readFull_cases w n r : (∃ x, readFull w n r = POk x) ∨ readFull w n r = PErr (ReadFailed w).
Proof. unfold readFull. destruct (_ <? _); eauto. Qed.

Lemma slice_in buf off n : off + n <= Z.of_nat (length buf) → slice buf off n = POk (take (Z.to_nat n) (drop (Z.to_nat off) buf)).
Proof. intros H. unfold slice. by rewrite (proj2 (Z.ltb_ge _ _)). Qed.

(** Run a read: what it gives, or the error it returns. *)
Ltac reads H :=
  match goal with
  | |- context [readFull ?w ?n ?r] =>
      let E := fresh "E" in
      destruct (readFull_cases w n r) as [[[? ?] E]|E]; rewrite E; cbn [mbind presult_bind];
      [apply readFull_ok in E as H; [|try lia]; simpl in H|]
  end.

Definition all_bytes (r : bytes) : Prop := Forall (λ b, 0 <= b < 256) r.

(** An object of a dump and the bytes it takes. *)
Definition obj_result (p : HPROFParser) (r : bytes) (res : presult (HeapObject * Z * bytes)) : Prop :=
  match res with
  | POk (obj, consumed, r') =>
      0 <= consumed ∧ Z.of_nat (length r) = consumed + Z.of_nat (length r') ∧ 0 <= ob_Size obj <= consumed ∧ all_bytes r'
  | PErr _ => True
  | PPanic | PFuel => False
  end.

Lemma be_app l b : be (l ++ [b]) = be l * 256 + b.
Proof. unfold be. by rewrite foldl_app. Qed.

Lemma be_nonneg l : all_bytes l → 0 <= be l.
Proof.
  induction l as [|b l IH] using rev_ind; [done|]. intros [Hl Hb]%Forall_app. rewrite be_app.
  apply Forall_cons in Hb as [? _]. specialize (IH Hl). lia.
Qed.

Lemma primTypeSize_range t : 1 <= primTypeSize t <= 8.
Proof. unfold primTypeSize. destruct_ifs; lia. Qed.

Lemma to_u32_le z : 0 <= z → 0 <= to_u32 z <= z.
Proof. intros. unfold to_u32, wrap_u. split; [apply Z.mod_pos_bound; lia|apply Z.mod_le; lia]. Qed.

Lemma all_bytes_take n r : all_bytes r → all_bytes (take n r).
Proof. apply Forall_take. Qed.
Lemma all_bytes_drop n r : all_bytes r → all_bytes (drop n r).
Proof. apply Forall_drop. Qed.

Create HintDb hprof.
#[local] Hint Resolve be_nonneg all_bytes_take all_bytes_drop : hprof.

Section objects.
Context (p : HPROFParser) (Hid : idSize p = 4 ∨ idSize p = 8).

Lemma parseInstanceDump_result r : all_bytes r → obj_result p r (parseInstanceDump p r).
Proof.
  intros Hr. unfold parseInstanceDump. reads H1; [|done]. destruct H1 as (? & H1 & H2). simplify_eq.
  rewrite !slice_in by lia. simpl. set (n := be _). assert (0 <= n) by (unfold n; eauto 10 with hprof).
  reads H3; [|done]. destruct H3 as (? & ? & ?). simplify_eq. simpl. split_and!; [lia..|eauto with hprof].
Qed.

Lemma parseObjArrayDump_result r : all_bytes r → obj_result p r (parseObjArrayDump p r).
Proof.
  intros Hr. unfold parseObjArrayDump. reads H1; [|done]. destruct H1 as (? & H1 & H2). simplify_eq.
  rewrite !slice_in by lia. simpl. set (n := be _). assert (0 <= n) by (unfold n; eauto 10 with hprof).
  assert (0 <= n * idSize p) by (destruct Hid; nia). reads H3; [|done].
  destruct H3 as (? & ? & ?). simplify_eq. simpl. pose proof (to_u32_le (n * idSize p) ltac:(done)).
  split_and!; [lia..|eauto with hprof].
Qed.

Lemma parsePrimArrayDump_result r : all_bytes r → obj_result p r (parsePrimArrayDump p r).
Proof.
  intros Hr. unfold parsePrimArrayDump. reads H1; [|done]. destruct H1 as (? & H1 & H2). simplify_eq.
  rewrite !slice_in by lia. simpl. set (n := be _). assert (0 <= n) by (unfold n; eauto 10 with hprof).
  set (sz := primTypeSize _). pose proof (primTypeSize_range (be (take (Z.to_nat 1) (drop (Z.to_nat (idSize p + 4 + 4))
    (take (Z.to_nat (idSize p + 4 + 4 + 1)) r))))) as Hsz. fold sz in Hsz.
  assert (0 <= n * sz) by nia. reads H3; [|done]. destruct H3 as (? & ? & ?). simplify_eq. simpl.
  pose proof (to_u32_le (n * sz) ltac:(done)). split_and!; [lia..|eauto with hprof].
Qed.
End objects.

(** ** Accounts *)

Definition sizes (l : list HeapObject) : Z := foldr (λ o acc, ob_Size o + acc) 0 l.
Definition of_class (cid : Z) (l : list HeapObject) : list HeapObject := filter (λ o, ob_ClassID o = cid) l.

(** The totals are those of the objects, over all and for every class. *)
Definition accounts_ok (p : HPROFParser) : Prop :=
  totalSize p = sizes (objects p) ∧ totalObj p = Z.of_nat (length (objects p)) ∧
  ∀ cid, match of_class cid (objects p) with
         | [] => sizeByCls p !! cid = None
         | l => ∃ name, sizeByCls p !! cid = Some (mkAccum name (Z.of_nat (length l)) (sizes l))
         end.

Lemma sizes_app l1 l2 : sizes (l1 ++ l2) = sizes l1 + sizes l2.
Proof. induction l1 as [|o l1 IH]; simpl; [done|]. rewrite IH. lia. Qed.

Lemma of_class_snoc cid l o :
  of_class cid (l ++ [o]) = (of_class cid l ++ if decide (ob_ClassID o = cid) then [o] else [])%list.
Proof. unfold of_class. by rewrite filter_app, filter_cons. Qed.

Lemma of_class_le cid l :
  Forall (λ o, 0 <= ob_Size o) l → 0 <= sizes (of_class cid l) <= sizes l ∧ (length (of_class cid l) <= length l)%nat.
Proof.
  unfold of_class. induction 1 as [|o l Ho _ IH]; simpl; [lia|]. rewrite filter_cons. case_decide; simpl; lia.
Qed.

Lemma wrap_s_id z : - 2 ^ 63 <= z < 2 ^ 63 → wrap_s 64 z = z.
Proof. intros Hz. unfold wrap_s. rewrite Z.mod_small; lia. Qed.

(** [k] bytes of [n] are still to be read. *)
Definition good (n k : Z) (p : HPROFParser) : Prop :=
  accounts_ok p ∧ Forall (λ o, 0 <= ob_Size o) (objects p) ∧
  sizes (objects p) <= n - k ∧ Z.of_nat (length (objects p)) <= n - k.

Lemma addObject_good n k k' o p :
  n < 2 ^ 63 → 0 <= k' → good n k p → 0 <= ob_Size o → ob_Size o + k' <= k → 1 + k' <= k → good n k' (addObject o p).
Proof.
  intros Hn Hk' ((Ht & Hc & Hcls) & Hpos & Hs & Hl) Ho Hk1 Hk2.
  assert (0 <= sizes (objects p)) as H0 by (destruct (of_class_le 0 (objects p) Hpos); lia).
  split; [|split; [|split]]; simpl.
  - split; [|split]; simpl.
    + rewrite Ht, sizes_app. simpl. rewrite wrap_s_id by lia. lia.
    + rewrite Hc, length_app. simpl. rewrite wrap_s_id by lia. lia.
    + intros cid. rewrite of_class_snoc. specialize (Hcls cid). destruct (of_class_le cid (objects p) Hpos) as [Hsz Hln].
      destruct (decide (ob_ClassID o = cid)) as [<-|Hne].
      2: { rewrite app_nil_r, lookup_insert_ne by done. exact Hcls. }
      rewrite lookup_insert_eq. set (l := of_class (ob_ClassID o) (objects p)) in *.
      assert (∃ name, default (mkAccum match classes p !! ob_ClassID o with Some cls => ClassName cls | None => unknown end 0 0)
        (sizeByCls p !! ob_ClassID o) = mkAccum name (Z.of_nat (length l)) (sizes l)) as [name ->].
      { destruct l; [rewrite Hcls; by eexists|]. destruct Hcls as [name ->]. by eexists. }
      destruct (l ++ [o])%list as [|x l'] eqn:E; [by destruct l|]. exists name.
      apply (f_equal sizes) in E as Es. rewrite sizes_app in Es. apply (f_equal length) in E as El.
      rewrite length_app in El. simpl in *. rewrite !wrap_s_id by lia. do 2 f_equal; lia.
  - apply Forall_app. split; [done|]. by apply Forall_singleton.
  - rewrite sizes_app. simpl. lia.
  - rewrite length_app. simpl. lia.
Qed.

Lemma good_le n k k' p : good n k p → k' <= k → good n k' p.
Proof. intros (? & ? & ? & ?) ?. split_and!; [done..|lia|lia]. Qed.

(** ** The loops *)

Definition idsize_ok (p : HPROFParser) : Prop := idSize p = 4 ∨ idSize p = 8.

Lemma rootSubRecordSize_nonneg p tag : idsize_ok p → 0 <= rootSubRecordSize p tag.
Proof. unfold idsize_ok, rootSubRecordSize. destruct_ifs; lia. Qed.

Section loops.
Context (n : Z) (Hn : n < 2 ^ 63).

Abbreviation len r := (Z.of_nat (length r)).

(** What a step that does not fail leaves: the id size, bytes, and accounts. *)
Definition kept (p : HPROFParser) (k : Z) (p' : HPROFParser) (r' : bytes) : Prop :=
  idSize p' = idSize p ∧ all_bytes r' ∧ len r' <= k ∧ (good n k p → good n (len r') p').

Lemma kept_trans p k p1 r1 p2 r2 : kept p k p1 r1 → kept p1 (len r1) p2 r2 → kept p k p2 r2.
Proof. intros (? & ? & ? & ?) (? & ? & ? & ?). split_and!; [congruence|done|lia|auto]. Qed.

Lemma kept_same p k r' : all_bytes r' → len r' <= k → kept p k p r'.
Proof. intros ? ?. split_and!; [done..|]. intros Hg. by apply (good_le n k). Qed.

Lemma sub_record_result p tag remaining r :
  idsize_ok p → all_bytes r →
  match sub_record p tag remaining r with
  | POk (p', _, r') => kept p (1 + len r) p' r' ∧ len r' <= len r
  | PErr _ => True
  | PPanic | PFuel => False
  end.
Proof.
  intros Hid Hr. unfold sub_record.
  assert (∀ w size, 0 <= size →
    match ('(_, r1) ← readFull w size r; POk (p, remaining - size, r1)) with
    | POk (p', _, r') => kept p (1 + len r) p' r' ∧ len r' <= len r
    | PErr _ => True | PPanic | PFuel => False end) as Hskip.
  { intros w size Hs. reads H1; [|done]. destruct H1 as (? & ? & ?). simplify_eq.
    split; [apply kept_same; [eauto with hprof|lia]|lia]. }
  assert (∀ res, obj_result p r res →
    match ('(obj, consumed, r1) ← res; POk (addObject obj p, remaining - consumed, r1)) with
    | POk (p', _, r') => kept p (1 + len r) p' r' ∧ len r' <= len r
    | PErr _ => True | PPanic | PFuel => False end) as Hobj.
  { intros [[[obj consumed] r1]|e| |] Hres; simpl in *; try done. destruct Hres as (? & ? & ? & ?).
    split; [split_and!; [done..|lia|]|lia]. intros Hg. apply (addObject_good n (1 + len r)); [done|lia|done|lia..]. }
  destruct (is_root tag); [by apply Hskip, rootSubRecordSize_nonneg|].
  destruct (tag =? subClassDump); [apply Hskip; unfold classDumpSize; destruct Hid; lia|].
  destruct (tag =? subInstanceDump); [by apply Hobj, parseInstanceDump_result|].
  destruct (tag =? subObjArrayDump); [by apply Hobj, parseObjArrayDump_result|].
  destruct (tag =? subPrimArrayDump); [by apply Hobj, parsePrimArrayDump_result|]. done.
Qed.

Lemma parseHeapDump_result fuel p remaining r :
  idsize_ok p → all_bytes r → (length r < fuel)%nat →
  match parseHeapDump fuel p remaining r with
  | POk (p', r') => kept p (len r) p' r'
  | PErr _ => True
  | PPanic | PFuel => False
  end.
Proof.
  revert p remaining r. induction fuel as [|fuel IH]; intros p remaining r Hid Hr Hf; [lia|]. cbn [parseHeapDump].
  destruct (0 <? remaining); [|by apply kept_same]. reads H1; [|done]. destruct H1 as (? & ? & Hl). simplify_eq.
  pose proof (sub_record_result p (be (take 1 r)) (remaining - 1) (drop 1 r) Hid ltac:(eauto with hprof)) as Hs.
  change (Z.to_nat 1) with 1%nat in *. destruct (sub_record _ _ _ _) as [[[p' rem'] r']|e| |]; simpl; try done.
  destruct Hs as [Hk Hle]. pose proof Hk as (Hid' & Hr' & _).
  specialize (IH p' rem' r'). destruct (parseHeapDump fuel p' rem' r') as [[p2 r2]|e| |]; try done.
  - eapply kept_trans; [|apply IH; [unfold idsize_ok; by rewrite Hid'|done|lia]].
    replace (len r) with (1 + len (drop 1 r)) by lia. done.
  - apply IH; [unfold idsize_ok; by rewrite Hid'|done|lia].
  - apply IH; [unfold idsize_ok; by rewrite Hid'|done|lia].
Qed.

(** A string or class record too short for its ids. *)
Definition short_record (p : HPROFParser) (tag recLen : Z) : Prop :=
  tag = tagString ∧ recLen < idSize p ∨ tag = tagLoadClass ∧ recLen < 8 + 2 * idSize p.

Lemma parseString_result p recLen r :
  idsize_ok p → all_bytes r → 0 <= recLen →
  match parseString p recLen r with
  | POk (p', r') => kept p (len r) p' r'
  | PErr _ => len r < recLen
  | PPanic => recLen <= len r ∧ recLen < idSize p
  | PFuel => False
  end.
Proof.
  intros Hid Hr Hl. unfold parseString. reads H1; [|unfold readFull in *; destruct (Z.ltb_spec (len r) recLen); simplify_eq; done].
  destruct H1 as ([= -> ->] & Hl1 & Hl2). unfold slice. rewrite Hl1.
  destruct (Z.ltb_spec recLen (0 + idSize p)); simpl; [lia|].
  split_and!; [done|eauto with hprof|lia|]. intros Hg. apply (good_le n (len r)); [|lia]. apply Hg.
Qed.

Lemma parseLoadClass_result p recLen r :
  idsize_ok p → all_bytes r → 0 <= recLen →
  match parseLoadClass p recLen r with
  | POk (p', r') => kept p (len r) p' r'
  | PErr _ => len r < recLen
  | PPanic => recLen <= len r ∧ recLen < 8 + 2 * idSize p
  | PFuel => False
  end.
Proof.
  intros Hid Hr Hl. unfold parseLoadClass. reads H1; [|unfold readFull in *; destruct (Z.ltb_spec (len r) recLen); simplify_eq; done].
  destruct H1 as ([= -> ->] & Hl1 & Hl2). unfold slice. rewrite Hl1. unfold idsize_ok in Hid.
  destruct (Z.ltb_spec recLen (0 + 4)); simpl; [lia|].
  destruct (Z.ltb_spec recLen (4 + idSize p)); simpl; [lia|].
  destruct (Z.ltb_spec recLen (4 + idSize p + 4 + idSize p)); simpl; [lia|].
  split_and!; [done|eauto with hprof|lia|]. intros Hg. apply (good_le n (len r)); [|lia]. apply Hg.
Qed.

Lemma record_result p tag recLen r :
  idsize_ok p → all_bytes r → 0 <= recLen →
  match record p tag recLen r with
  | POk (p', r') => kept p (len r) p' r'
  | PErr _ => True
  | PPanic => recLen <= len r ∧ short_record p tag recLen
  | PFuel => False
  end.
Proof.
  intros Hid Hr Hl. unfold record, short_record.
  destruct (Z.eqb_spec tag tagString) as [->|].
  { pose proof (parseString_result p recLen r Hid Hr Hl). destruct (parseString p recLen r) as [[? ?]|e| |]; naive_solver. }
  destruct (Z.eqb_spec tag tagLoadClass) as [->|].
  { pose proof (parseLoadClass_result p recLen r Hid Hr Hl). destruct (parseLoadClass p recLen r) as [[? ?]|e| |]; naive_solver. }
  destruct (_ || _).
  { pose proof (parseHeapDump_result (S (length r)) p recLen r Hid Hr ltac:(lia)).
    destruct (parseHeapDump _ _ _ _) as [[? ?]|e| |]; done. }
  reads H1; [|done]. destruct H1 as (? & ? & ?). simplify_eq. apply kept_same; [eauto with hprof|lia].
Qed.

Lemma parse_records_result fuel p r :
  idsize_ok p → all_bytes r → (length r < fuel)%nat →
  match parse_records fuel p r with
  | POk p' => good n (len r) p → good n 0 p'
  | PFuel => False
  | _ => True
  end.
Proof.
  revert p r. induction fuel as [|fuel IH]; intros p r Hid Hr Hf; [lia|]. cbn [parse_records].
  destruct r as [|tag r]; [done|]. apply Forall_cons in Hr as [_ Hr]. reads H1; [|done].
  destruct H1 as (? & ? & ?). simplify_eq. reads H3; [|done]. destruct H3 as (? & ? & ?). simplify_eq.
  set (recLen := be _). assert (0 <= recLen) by (unfold recLen; eauto 10 with hprof).
  set (r3 := drop _ (drop _ r)) in *. assert (all_bytes r3) as Hr3 by (unfold r3; eauto with hprof).
  pose proof (record_result p tag recLen r3 Hid Hr3 ltac:(done)) as Hrec.
  destruct (record p tag recLen r3) as [[p' r']|e| |]; simpl; try done. destruct Hrec as (Hid' & Hr' & Hle & Hg).
  simpl in Hf. specialize (IH p' r' ltac:(unfold idsize_ok; by rewrite Hid') Hr' ltac:(lia)).
  destruct (parse_records fuel p' r'); try done. intros Hgood. apply IH, Hg. eapply good_le; [exact Hgood|].
  simpl. lia.
Qed.
End loops.

(** Short records do panic. *)
Lemma record_panics p tag recLen r :
  idsize_ok p → recLen <= Z.of_nat (length r) ∧ short_record p tag recLen → 0 <= recLen → record p tag recLen r = PPanic.
Proof.
  intros Hid [Hle Hs] Hl. unfold record. assert (∀ w, readFull w recLen r = POk (take (Z.to_nat recLen) r, drop (Z.to_nat recLen) r))
    as Hread by (intros; unfold readFull; by rewrite (proj2 (Z.ltb_ge _ _))).
  assert (Z.of_nat (length (take (Z.to_nat recLen) r)) = recLen) as Hlen by (rewrite length_take; lia).
  destruct Hs as [[-> Hs]|[-> Hs]]; simpl.
  - unfold parseString. rewrite Hread. cbn [mbind presult_bind]. unfold slice. by rewrite Hlen, (proj2 (Z.ltb_lt _ _)) by lia.
  - unfold parseLoadClass. rewrite Hread. cbn [mbind presult_bind]. unfold slice. rewrite Hlen.
    destruct (Z.ltb_spec recLen (0 + 4)); simpl; [done|]. destruct (Z.ltb_spec recLen (4 + idSize p)); simpl; [done|].
    by rewrite (proj2 (Z.ltb_lt _ _)) by lia.
Qed.

Lemma read_header_suffix r h r1 : read_header r = Some (h, r1) → ∃ k, r1 = drop k r ∧ (length r1 < length r)%nat.
Proof.
  revert h. induction r as [|b r IH]; intros h; simpl; [done|]. destruct (b =? 0).
  - intros [= <- <-]. exists 1%nat. split; [done|lia].
  - intros H. apply fmap_Some in H as ([h' r'] & H & [= -> ->]). destruct (IH _ H) as (k & -> & ?).
    exists (S k). split; [done|]. lia.
Qed.

Lemma read_header_app h rest : (0 ∉ h) → read_header (h ++ 0 :: rest) = Some (h, rest).
Proof.
  induction h as [|b h IH]; intros Hb; simpl; [done|]. destruct (Z.eqb_spec b 0); [set_solver|].
  rewrite IH by set_solver. done.
Qed.

(** ** Writing a dump *)

(** Big-endian numbers. *)
Fixpoint enc (n : nat) (z : Z) : bytes :=
  match n with O => [] | S n' => (enc n' (z / 256) ++ [z mod 256])%list end.

Lemma length_enc n z : length (enc n z) = n.
Proof. revert z. induction n as [|n IH]; intros z; simpl; [done|]. rewrite length_app, IH. simpl. lia. Qed.

Lemma be_enc n z : 0 <= z < 256 ^ Z.of_nat n → be (enc n z) = z.
Proof.
  revert z. induction n as [|n IH]; intros z Hz; [simpl in *; change (be []) with 0; lia|].
  rewrite Nat2Z.inj_succ, Z.pow_succ_r in Hz by lia. simpl. rewrite be_app, IH.
  - rewrite (Z.div_mod z 256) at 3; lia.
  - split; [apply Z.div_pos; lia|]. apply Z.div_lt_upper_bound; lia.
Qed.

#[local] Opaque enc.

Definition long (n : Z) (l : bytes) : Prop := Z.of_nat (length l) = n.

Lemma readFull_app what n a b : long n a → readFull what n (a ++ b) = POk (a, b).
Proof.
  unfold long. intros H. unfold readFull. rewrite length_app, (proj2 (Z.ltb_ge _ _)) by lia.
  by rewrite <-H, Nat2Z.id, take_app_length, drop_app_length.
Qed.

Lemma slice_mid a b c off n : long off a → long n b → slice (a ++ b ++ c) off n = POk b.
Proof.
  unfold long. intros Ha Hb. rewrite slice_in by (rewrite !length_app; lia). f_equal.
  by rewrite <-Ha, <-Hb, !Nat2Z.id, drop_app_length, take_app_length.
Qed.

Lemma slice_last a b off n : long off a → long n b → slice (a ++ b) off n = POk b.
Proof. intros Ha Hb. rewrite <-(app_nil_r b) at 1. by apply slice_mid. Qed.

Lemma slice_first b c n : long n b → slice (b ++ c) 0 n = POk b.
Proof. intros Hb. by apply (slice_mid []). Qed.

Lemma long_enc n z : long (Z.of_nat n) (enc n z).
Proof. unfold long. by rewrite length_enc. Qed.

(** *** The HPROF format

    The parts of a dump as the format documents them.  The time of a record, the stack
    trace of an object, the data of an instance and the entries of a class dump are bytes
    of the right number. *)
Inductive prim := PBoolean | PChar | PFloat | PDouble | PByte | PShort | PInt | PLong.

Definition prim_code (t : prim) : Z :=
  match t with
  | PBoolean => 4 | PChar => 5 | PFloat => 6 | PDouble => 7 | PByte => 8 | PShort => 9 | PInt => 10 | PLong => 11
  end.
Definition prim_bytes (t : prim) : nat :=
  match t with PBoolean | PByte => 1 | PChar | PShort => 2 | PFloat | PInt => 4 | PDouble | PLong => 8 end.

Inductive sub :=
  | SClassDump (cls : Z) (trace : bytes) (refs : list Z) (instance_size : Z) (constants statics fields : list bytes)
  | SInstance (id : Z) (trace : bytes) (cls : Z) (data : bytes)
  | SObjArray (id : Z) (trace : bytes) (cls : Z) (elements : list Z)
  | SPrimArray (id : Z) (trace : bytes) (t : prim) (elements : list Z).

Inductive rec :=
  | RString (time : bytes) (id : Z) (s : bytes)
  | RClass (time : bytes) (serial id : Z) (trace : bytes) (name : Z)
  | RHeap (time : bytes) (segment : bool) (subs : list sub)
  | ROther (time : bytes) (tag : Z) (payload : bytes).

Section dump.
(** The size of ids. *)
Context (w : nat) (Hw : w = 4%nat ∨ w = 8%nat).

(** The bytes of a root after its tag. *)
Definition root_bytes (tag : Z) : option Z :=
  let id := Z.of_nat w in
  if tag =? 255 then Some id                    (* unknown: an object *)
  else if tag =? 1 then Some (id + id)          (* JNI global: an object and a reference *)
  else if tag =? 2 then Some (id + 4 + 4)       (* JNI local: an object, a thread, a frame *)
  else if tag =? 3 then Some (id + 4 + 4)       (* Java frame *)
  else if tag =? 4 then Some (id + 4)           (* native stack: an object and a thread *)
  else if tag =? 5 then Some id                 (* sticky class *)
  else if tag =? 6 then Some (id + 4)           (* thread block *)
  else if tag =? 7 then Some id                 (* monitor used *)
  else if tag =? 8 then Some (id + 4 + 4)       (* thread: an object, a thread, a stack trace *)
  else None.

(** A table of entries with its count before it. *)
Definition table (entries : list bytes) : bytes :=
  (enc 2 (Z.of_nat (length entries)) ++ concat entries)%list.
Definition ids (l : list Z) : bytes := concat (map (enc w) l).

Definition class_body (cls : Z) (trace : bytes) (refs : list Z) (isize : Z) (cp st fs : list bytes) : bytes :=
  (enc w cls ++ trace ++ ids refs ++ enc 4 isize ++ table cp ++ table st ++ table fs)%list.

Definition encode_sub (s : sub) : bytes :=
  (match s with
  | SClassDump cls trace refs isize cp st fs => 32 :: class_body cls trace refs isize cp st fs
  | SInstance id trace cls data =>
      33 :: (enc w id ++ trace ++ enc w cls ++ enc 4 (Z.of_nat (length data))) ++ data
  | SObjArray id trace cls elements =>
      34 :: (enc w id ++ trace ++ enc 4 (Z.of_nat (length elements)) ++ enc w cls) ++ ids elements
  | SPrimArray id trace t elements =>
      35 :: (enc w id ++ trace ++ enc 4 (Z.of_nat (length elements)) ++ [prim_code t]) ++
        concat (map (enc (prim_bytes t)) elements)
  end)%list.

Definition encode_rec (r : rec) : bytes :=
  let frame := λ tag time payload, (tag :: time ++ enc 4 (Z.of_nat (length payload)) ++ payload)%list in
  match r with
  | RString time id s => frame 1 time (enc w id ++ s)%list
  | RClass time serial id trace name => frame 2 time (enc 4 serial ++ enc w id ++ trace ++ enc w name)%list
  | RHeap time segment subs => frame (if segment then 28 else 12) time (concat (map encode_sub subs))
  | ROther time tag payload => frame tag time payload
  end.

Definition encode_dump (header time : bytes) (recs : list rec) : bytes :=
  (header ++ 0 :: enc 4 (Z.of_nat w) ++ time ++ concat (map encode_rec recs))%list.

Definition is_id (z : Z) : Prop := 0 <= z < 256 ^ Z.of_nat w.
Definition with_id : HPROFParser := set_idSize (Z.of_nat w) NewHPROFParser.

(** The numbers fit their fields; a class dump has its six references, and ten bytes of
    entries, which is what the parser takes every class dump to have. *)
Definition sub_ok (s : sub) : Prop :=
  match s with
  | SClassDump cls trace refs isize cp st fs =>
      long 4 trace ∧ length refs = 6%nat ∧ (length (concat cp) + length (concat st) + length (concat fs) = 10)%nat
  | SInstance id trace cls data => is_id id ∧ long 4 trace ∧ is_id cls ∧ is_u32 (Z.of_nat (length data))
  | SObjArray id trace cls elements => is_id id ∧ long 4 trace ∧ is_id cls ∧ is_u32 (Z.of_nat (length elements))
  | SPrimArray id trace t elements => is_id id ∧ long 4 trace ∧ is_u32 (Z.of_nat (length elements))
  end.

Definition rec_ok (r : rec) : Prop :=
  match r with
  | RString time id s => long 4 time ∧ is_id id ∧ is_u32 (Z.of_nat (w + length s))
  | RClass time serial id trace name => long 4 time ∧ is_u32 serial ∧ is_id id ∧ long 4 trace ∧ is_id name
  | RHeap time _ subs => long 4 time ∧ Forall sub_ok subs ∧ is_u32 (Z.of_nat (length (concat (map encode_sub subs))))
  | ROther time tag payload => long 4 time ∧ (tag ∉ [1; 2; 12; 28]) ∧ is_u32 (Z.of_nat (length payload))
  end.

(** *** What the dump says *)

Definition object_of (s : sub) : option HeapObject :=
  match s with
  | SClassDump _ _ _ _ _ _ _ => None
  | SInstance id _ cls data => Some (mkObj id cls (Z.of_nat (length data)) instance)
  | SObjArray id _ cls elements => Some (mkObj id cls (Z.of_nat (length elements * w) mod 2 ^ 32) objarray)
  | SPrimArray id _ t elements => Some (mkObj id 0 (Z.of_nat (length elements * prim_bytes t) mod 2 ^ 32) primarray)
  end.

(** "Lpackage/Name;" or "package/Name" as package.Name. *)
Definition dotted (s : bytes) : bytes := map (λ c, if c =? 47 then 46 else c) s.
Definition readable (s : bytes) : bytes :=
  match s with
  | 76 :: t => if bool_decide (last t = Some 59) then dotted (removelast t) else dotted s
  | _ => dotted s
  end.

Record contents := mkContents {
  co_strings : gmap Z bytes;
  co_classes : gmap Z ClassInfo;
  co_objects : list HeapObject;
}.

Definition says (c : contents) (r : rec) : contents :=
  match r with
  | RString _ id s => mkContents (<[id := s]> (co_strings c)) (co_classes c) (co_objects c)
  | RClass _ serial id _ name =>
      mkContents (co_strings c)
        (<[id := mkClass serial id (readable (default [] (co_strings c !! name)))]> (co_classes c)) (co_objects c)
  | RHeap _ _ subs => mkContents (co_strings c) (co_classes c) (co_objects c ++ omap object_of subs)
  | ROther _ _ _ => c
  end.
Definition dump_says (recs : list rec) : contents := foldl says (mkContents ∅ ∅ []) recs.

(** *** Lemmas *)

(** The state of the parser after a record. *)
Definition load_rec (p : HPROFParser) (r : rec) : HPROFParser :=
  match r with
  | RString _ id s => set_string id s p
  | RClass _ serial id _ name => set_class (mkClass serial id (class_name (default [] (stringMap p !! name)))) p
  | RHeap _ _ subs => foldl (λ p o, addObject o p) p (omap object_of subs)
  | ROther _ _ _ => p
  end.

Lemma class_name_readable s : class_name s = readable s.
Proof.
  unfold class_name, readable, dotted. destruct s as [|c t]; [done|]. cbn [head].
  destruct (decide (c = 76)) as [->|Hne].
  - rewrite bool_decide_eq_true_2 by done. cbn [andb]. destruct t as [|d t]; [done|]. cbn [drop].
    change (last (76 :: d :: t)) with (last (d :: t)). case_bool_decide as Hl; [|done]. f_equal.
    apply last_Some in Hl as [t' E]. rewrite E, removelast_last. cbn [length]. rewrite length_app. simpl.
    by rewrite Nat.add_sub, take_app_length.
  - rewrite bool_decide_eq_false_2 by congruence. cbn [andb]. repeat (case_match; try done).
Qed.

(** The parser's contents after the records. *)
Definition contents_of (p : HPROFParser) : contents := mkContents (stringMap p) (classes p) (objects p).

Lemma add_objects_contents l p :
  contents_of (foldl (λ p o, addObject o p) p l) = mkContents (stringMap p) (classes p) (objects p ++ l).
Proof.
  revert p. induction l as [|o l IH]; intros p; simpl; [by rewrite app_nil_r|]. rewrite IH. simpl.
  by rewrite <-(assoc_L (++)).
Qed.

Lemma load_rec_says p r : contents_of (load_rec p r) = says (contents_of p) r.
Proof.
  destruct r; simpl; [done| |by rewrite add_objects_contents|done]. unfold contents_of, set_class. simpl.
  by rewrite class_name_readable.
Qed.

Lemma load_recs_says recs p : contents_of (foldl load_rec p recs) = foldl says (contents_of p) recs.
Proof. revert p. induction recs as [|r recs IH]; intros p; simpl; [done|]. by rewrite IH, load_rec_says. Qed.

(** The sizes of the format against those of the parser. *)
Lemma primTypeSize_code t : primTypeSize (prim_code t) = Z.of_nat (prim_bytes t).
Proof. by destruct t. Qed.

Lemma root_sizes tag n : root_bytes tag = Some n → is_root tag = true ∧ rootSubRecordSize with_id tag = n + 4.
Proof.
  unfold root_bytes, rootSubRecordSize, with_id, subRootJniGlobal, subRootJniLocal, subRootJavaFrame, subRootNativeStack,
    subRootThreadBlock, subRootThreadObj. cbn [idSize set_idSize].
  repeat match goal with
  | |- (if tag =? ?k then _ else _) = _ → _ => destruct (Z.eqb_spec tag k) as [->|]
  | |- Some _ = Some _ → _ => intros [= <-]; split; [reflexivity|simpl; lia]
  end. done.
Qed.

Lemma length_ids l : length (ids l) = (length l * w)%nat.
Proof. unfold ids. induction l as [|x l IH]; simpl; [done|]. rewrite length_app, length_enc, IH. lia. Qed.
Lemma length_elements n l : length (concat (map (enc n) l)) = (length l * n)%nat.
Proof. induction l as [|x l IH]; simpl; [done|]. rewrite length_app, length_enc, IH. lia. Qed.

Lemma class_body_size cls trace refs isize cp st fs :
  sub_ok (SClassDump cls trace refs isize cp st fs) →
  long (classDumpSize with_id) (class_body cls trace refs isize cp st fs).
Proof.
  simpl. unfold long, class_body, table, classDumpSize. intros (Ht & Hr & He). simpl.
  rewrite !length_app, !length_enc, length_ids, Hr. lia.
Qed.

Lemma readID_enc p id : idSize p = Z.of_nat w → is_id id → readID p (enc w id) = id.
Proof.
  intros Hp Hid. unfold readID. rewrite Hp. destruct (Z.eqb_spec (Z.of_nat w) 8);
    (rewrite take_ge by (rewrite length_enc; lia); by apply be_enc).
Qed.

(** Lengths of pieces. *)
Ltac lengths := unfold long in *; rewrite ?length_app, ?length_enc in *; cbn [length] in *; lia.

Section reading.
Context (p : HPROFParser) (Hp : idSize p = Z.of_nat w).

Lemma parseInstanceDump_enc id trace cls data rest :
  is_id id → long 4 trace → is_id cls → is_u32 (Z.of_nat (length data)) →
  ∃ consumed, parseInstanceDump p
    ((enc w id ++ trace ++ enc w cls ++ enc 4 (Z.of_nat (length data))) ++ data ++ rest)%list =
    POk (mkObj id cls (Z.of_nat (length data)) instance, consumed, rest) ∧
    consumed = Z.of_nat (length ((enc w id ++ trace ++ enc w cls ++ enc 4 (Z.of_nat (length data))) ++ data)).
Proof.
  intros Hid Ht Hcls Hd. unfold parseInstanceDump. rewrite Hp.
  rewrite readFull_app by lengths. simpl.
  rewrite slice_first by lengths. simpl. rewrite (assoc_L (++) (enc w id) trace).
  rewrite (slice_mid _ _ _ (Z.of_nat w + 4) (Z.of_nat w)) by lengths. simpl.
  rewrite (assoc_L (++) (enc w id ++ trace) (enc w cls)).
  rewrite slice_last by lengths. simpl.
  rewrite !readID_enc, be_enc by done. rewrite readFull_app by done. simpl. eexists. split; [done|].
  lengths.
Qed.

Lemma parseObjArrayDump_enc id trace cls count elements rest :
  is_id id → long 4 trace → is_id cls → is_u32 count → long (count * Z.of_nat w) elements →
  ∃ consumed, parseObjArrayDump p ((enc w id ++ trace ++ enc 4 count ++ enc w cls) ++ elements ++ rest)%list =
    POk (mkObj id cls (to_u32 (count * Z.of_nat w)) objarray, consumed, rest) ∧
    consumed = Z.of_nat (length ((enc w id ++ trace ++ enc 4 count ++ enc w cls) ++ elements)).
Proof.
  intros Hid Ht Hcls Hc He. unfold parseObjArrayDump. rewrite Hp.
  rewrite readFull_app by lengths. simpl. rewrite slice_first by lengths. simpl.
  rewrite (assoc_L (++) (enc w id) trace). rewrite (slice_mid _ _ _ (Z.of_nat w + 4) 4) by lengths. simpl.
  rewrite (assoc_L (++) (enc w id ++ trace) (enc 4 count)). rewrite slice_last by lengths. simpl.
  rewrite !readID_enc, be_enc by done. rewrite readFull_app by done. simpl. eexists. split; [done|]. lengths.
Qed.

Lemma parsePrimArrayDump_enc id trace elemType count elements rest :
  is_id id → long 4 trace → is_u32 count → long (count * primTypeSize elemType) elements →
  ∃ consumed, parsePrimArrayDump p ((enc w id ++ trace ++ enc 4 count ++ [elemType]) ++ elements ++ rest)%list =
    POk (mkObj id 0 (to_u32 (count * primTypeSize elemType)) primarray, consumed, rest) ∧
    consumed = Z.of_nat (length ((enc w id ++ trace ++ enc 4 count ++ [elemType]) ++ elements)).
Proof.
  intros Hid Ht Hc He. unfold parsePrimArrayDump. rewrite Hp.
  rewrite readFull_app by lengths. simpl. rewrite slice_first by lengths. simpl.
  rewrite (assoc_L (++) (enc w id) trace). rewrite (slice_mid _ _ _ (Z.of_nat w + 4) 4) by lengths. simpl.
  rewrite (assoc_L (++) (enc w id ++ trace) (enc 4 count)). rewrite slice_last by lengths. simpl.
  rewrite !readID_enc, be_enc by done. change (be [elemType]) with elemType.
  rewrite readFull_app by done. simpl. eexists. split; [done|]. lengths.
Qed.

(** One sub-record. *)
Lemma sub_record_enc s remaining rest :
  sub_ok s →
  ∃ tag payload, encode_sub s = tag :: payload ∧
    sub_record p tag remaining (payload ++ rest) =
    POk (from_option (λ o, addObject o p) p (object_of s), remaining - Z.of_nat (length payload), rest).
Proof.
  assert (classDumpSize p = classDumpSize with_id) as Hcls by (unfold classDumpSize, with_id; simpl; by rewrite Hp).
  destruct s as [cls trace refs isize cp st fs|id trace cls data|id trace cls els|id trace t els];
    intros Hok; (do 2 eexists; split; [done|]); unfold sub_record.
  - apply class_body_size in Hok. change (is_root 32) with false. cbn [Z.eqb]. simpl.
    rewrite Hcls, readFull_app by done. simpl. by rewrite Hok.
  - change (is_root 33) with false. simpl. rewrite <-(assoc_L (++)).
    destruct (parseInstanceDump_enc id trace cls data rest) as (c & -> & ->); naive_solver.
  - change (is_root 34) with false. simpl. rewrite <-(assoc_L (++)). destruct Hok as (? & ? & ? & ?).
    destruct (parseObjArrayDump_enc id trace cls (Z.of_nat (length els)) (ids els) rest) as (c & -> & ->);
      [done..|unfold long; rewrite length_ids; lia|]. simpl. unfold to_u32. by rewrite Nat2Z.inj_mul.
  - change (is_root 35) with false. simpl. rewrite <-(assoc_L (++)). destruct Hok as (? & ? & ?).
    destruct (parsePrimArrayDump_enc id trace (prim_code t) (Z.of_nat (length els)) (concat (map (enc (prim_bytes t)) els)) rest)
      as (c & -> & ->); [done..|unfold long; rewrite length_elements, primTypeSize_code; lia|].
    simpl. rewrite primTypeSize_code. unfold to_u32. by rewrite Nat2Z.inj_mul.
Qed.
End reading.

Lemma parseHeapDump_enc subs fuel p rest :
  Forall sub_ok subs → idSize p = Z.of_nat w → (length (concat (map encode_sub subs)) < fuel)%nat →
  parseHeapDump fuel p (Z.of_nat (length (concat (map encode_sub subs)))) (concat (map encode_sub subs) ++ rest) =
  POk (foldl (λ p o, addObject o p) p (omap object_of subs), rest).
Proof.
  intros Hok. revert fuel p. induction Hok as [|s subs Hs _ IH]; intros fuel p Hp Hf; (destruct fuel as [|fuel]; [lia|]).
  { done. }
  cbn [map concat] in *. rewrite length_app in *. set (r := concat (map encode_sub subs)) in *.
  destruct (sub_record_enc p Hp s (Z.of_nat (length (encode_sub s) + length r) - 1) (r ++ rest) Hs)
    as (tag & payload & E & Hsub). rewrite E in Hsub, Hf |- *. cbn [parseHeapDump]. cbn [length] in *.
  rewrite (proj2 (Z.ltb_lt _ _)) by lia. change ((tag :: payload) ++ r)%list with ([tag] ++ payload ++ r)%list.
  rewrite <-!(assoc_L (++)), readFull_app by done. cbn [mbind presult_bind]. change (be [tag]) with tag. rewrite Hsub.
  cbn [mbind presult_bind]. replace (Z.of_nat (S (length payload) + length r) - 1 - Z.of_nat (length payload)) with
    (Z.of_nat (length r)) by lia.
  rewrite IH; [|by destruct (object_of s)|lia]. cbn [omap list_omap]. by destruct (object_of s).
Qed.

(** One record. *)
Lemma record_enc r p rest :
  rec_ok r → idSize p = Z.of_nat w →
  ∃ tag time payload, encode_rec r = (tag :: time ++ enc 4 (Z.of_nat (length payload)) ++ payload)%list ∧
    long 4 time ∧ is_u32 (Z.of_nat (length payload)) ∧
    record p tag (Z.of_nat (length payload)) (payload ++ rest) = POk (load_rec p r, rest).
Proof.
  intros Hok Hp. destruct r as [time id s|time serial id trace name|time seg subs|time tag payload]; simpl in *;
    (do 3 eexists; split; [done|]).
  - destruct Hok as (? & ? & ?). split_and!; [done|by rewrite length_app, length_enc|]. unfold record, parseString. simpl.
    rewrite readFull_app by done. cbn [mbind presult_bind]. rewrite Hp, slice_first by lengths. cbn [mbind presult_bind].
    rewrite readID_enc, Nat2Z.id by done. by rewrite drop_app_length' by (by rewrite length_enc).
  - destruct Hok as (? & ? & ? & ? & ?). split_and!; [done|unfold is_u32; lengths|]. unfold record, parseLoadClass. simpl.
    rewrite readFull_app by done. cbn [mbind presult_bind]. rewrite Hp, slice_first by lengths. cbn [mbind presult_bind].
    rewrite (slice_mid _ _ _ 4 (Z.of_nat w)) by lengths. cbn [mbind presult_bind].
    rewrite (assoc_L (++) (enc w id) trace), (assoc_L (++) (enc 4 serial)). rewrite slice_last by lengths.
    cbn [mbind presult_bind]. by rewrite !readID_enc, be_enc.
  - destruct Hok as (? & ? & ?). split_and!; [done..|].
    replace (record p (if seg then 28 else 12) _ _) with
      (parseHeapDump (S (length (concat (map encode_sub subs) ++ rest))) p
        (Z.of_nat (length (concat (map encode_sub subs)))) (concat (map encode_sub subs) ++ rest)) by (by destruct seg).
    apply parseHeapDump_enc; [done..|]. rewrite length_app. lia.
  - destruct Hok as (? & Htag & ?). split_and!; [done..|]. unfold record.
    assert (tag ≠ tagString ∧ tag ≠ tagLoadClass ∧ tag ≠ tagHeapDump ∧ tag ≠ tagHeapDumpSeg) as (? & ? & ? & ?) by set_solver.
    rewrite !(proj2 (Z.eqb_neq _ _)) by done. simpl. by rewrite readFull_app.
Qed.

Lemma load_rec_id p r : idSize (load_rec p r) = idSize p.
Proof.
  destruct r as [| |time seg subs|]; simpl; try done. generalize (omap object_of subs). intros l. revert p.
  induction l as [|o l IH]; intros p; simpl; [done|]. by rewrite IH.
Qed.

Lemma parse_records_enc recs fuel p :
  Forall rec_ok recs → idSize p = Z.of_nat w → (length (concat (map encode_rec recs)) < fuel)%nat →
  parse_records fuel p (concat (map encode_rec recs)) = POk (foldl load_rec p recs).
Proof.
  intros Hok. revert fuel p. induction Hok as [|r recs Hr _ IH]; intros fuel p Hp Hf; (destruct fuel as [|fuel]; [lia|]).
  { done. }
  cbn [map concat] in *. destruct (record_enc r p (concat (map encode_rec recs)) Hr Hp)
    as (tag & time & payload & E & Ht & Hl & Hrec). rewrite E in Hf |- *.
  cbn [parse_records app]. rewrite <-!(assoc_L (++)). rewrite (readFull_app _ 4) by done. cbn [mbind presult_bind].
  rewrite (readFull_app _ 4) by lengths. cbn [mbind presult_bind]. rewrite be_enc by done. rewrite Hrec.
  cbn [mbind presult_bind]. apply IH; [by rewrite load_rec_id|]. cbn [length app] in Hf. rewrite !length_app in Hf. lia.
Qed.
End dump.

(** * Analyze

    [order] is the order in which the loop meets the classes, [sort_slice] is
    [sort.Slice], which is not stable, and [percent] the floating-point share. *)
Record LeakSuspect (F : Type) := mkSuspect {
  ls_ClassName : bytes;
  ls_Count : Z;
  ls_TotalSize : Z;
  ls_Percent : F;
}.
Arguments mkSuspect {F} _ _ _ _.
Arguments ls_TotalSize {F} _.

Record AnalysisResult (F : Type) := mkAnalysis {
  an_TotalSize : Z;
  an_TotalObjects : Z;
  an_ClassCount : Z;
  an_TopObjects : list (LeakSuspect F);
  an_BigObjects : list HeapObject;
}.
Arguments mkAnalysis {F} _ _ _ _ _.
Arguments an_TopObjects {F} _.
Arguments an_BigObjects {F} _.

Section analyze.
Context {F : Type} (zero : F) (percent : Z → Z → F).
Context (sort_slice : ∀ A, (A → Z) → list A → list A).

(** [obj.Size < 1024*1024] ends the loop, and so do [topN] objects. *)
Fixpoint big_loop (topN : Z) (objs : list HeapObject) (bigObjs : list HeapObject) : list HeapObject :=
  match objs with
  | [] => bigObjs
  | obj :: objs' =>
      if ob_Size obj <? 1024 * 1024 then bigObjs else
      let bigObjs' := (bigObjs ++ [mkObj (ob_ID obj) 0 (ob_Size obj) (ob_Type obj)])%list in
      if topN <=? Z.of_nat (length bigObjs') then bigObjs' else big_loop topN objs' bigObjs'
  end.

Definition Analyze (order : list (Z * clsAccum)) (topN0 : Z) (p : HPROFParser) : AnalysisResult F :=
  let topN := if topN0 <=? 0 then 20 else topN0 in
  let suspects := map (λ e, mkSuspect (ac_name e.2) (ac_count e.2) (ac_totalSize e.2)
    (if 0 <? totalSize p then percent (ac_totalSize e.2) (totalSize p) else zero)) order in
  let suspects := sort_slice _ ls_TotalSize suspects in
  let suspects := if topN <? Z.of_nat (length suspects) then take (Z.to_nat topN) suspects else suspects in
  mkAnalysis (totalSize p) (totalObj p) (Z.of_nat (size (classes p))) suspects
    (big_loop topN (sort_slice _ ob_Size (objects p)) []).

(** The loop takes a prefix of the sorted objects. *)
Lemma big_loop_prefix topN objs acc :
  Z.of_nat (length acc) < topN →
  ∃ k, big_loop topN objs acc =
    (acc ++ map (λ o, mkObj (ob_ID o) 0 (ob_Size o) (ob_Type o)) (take k objs))%list ∧
    Z.of_nat (length acc + k) <= topN ∧ Forall (λ o, 1024 * 1024 <= ob_Size o) (take k objs) ∧
    (Z.of_nat (length acc + k) = topN ∨ objs = take k objs ∨ ∃ o, objs !! k = Some o ∧ ob_Size o < 1024 * 1024).
Proof.
  revert acc. induction objs as [|o objs IH]; intros acc Hacc; cbn [big_loop].
  { exists 0%nat. simpl. rewrite app_nil_r. split_and!; [done|lia|constructor|auto]. }
  destruct (Z.ltb_spec (ob_Size o) (1024 * 1024)).
  { exists 0%nat. simpl. rewrite app_nil_r. split_and!; [done|lia|constructor|]. right; right. by exists o. }
  destruct (Z.leb_spec topN (Z.of_nat (length (acc ++ [mkObj (ob_ID o) 0 (ob_Size o) (ob_Type o)])))) as [Hle|Hlt];
    rewrite length_app in *; simpl in *.
  { exists 1%nat. simpl. rewrite take_0. split_and!; [done|lia|by repeat constructor|left; lia]. }
  destruct (IH (acc ++ [mkObj (ob_ID o) 0 (ob_Size o) (ob_Type o)])%list) as (k & -> & Hk & Hall & Hend).
  { rewrite length_app. simpl. lia. }
  rewrite length_app in *. simpl in *. exists (S k). simpl. rewrite <-(assoc_L (++)). split_and!; [done|lia|by constructor|].
  destruct Hend as [?|[Ho|(o' & Ho & Hs)]]; [left; lia|right; left; congruence|right; right; by exists o'].
Qed.

(** What [sort.Slice] promises. *)
Context (sort_perm : ∀ A (k : A → Z) l, sort_slice A k l ≡ₚ l).
Context (sort_sorted : ∀ A (k : A → Z) l, StronglySorted (λ x y, k y <= k x) (sort_slice A k l)).

(** The big objects of the report are the largest ones, from 1 MiB on, without their
    class. *)
Theorem big_objects_largest order topN p :
  0 < topN →
  let big := an_BigObjects (Analyze order topN p) in
  Forall (λ b, ob_ClassID b = 0 ∧ 1024 * 1024 <= ob_Size b ∧
    ∃ o, o ∈ objects p ∧ ob_ID o = ob_ID b ∧ ob_Size o = ob_Size b) big ∧
  ∀ o, o ∈ objects p → 1024 * 1024 <= ob_Size o →
    (∃ b, b ∈ big ∧ ob_ID b = ob_ID o ∧ ob_Size b = ob_Size o) ∨
    Z.of_nat (length big) = topN ∧ Forall (λ b, ob_Size o <= ob_Size b) big.
Proof.
  intros Hpos. unfold Analyze. cbn [an_BigObjects]. rewrite (proj2 (Z.leb_gt _ _)) by done.
  set (s := sort_slice _ ob_Size (objects p)). assert (s ≡ₚ objects p) as Hperm by apply sort_perm.
  destruct (big_loop_prefix topN s [] Hpos) as (k & -> & Hk & Hall & Hend). cbn [app]. split.
  - apply Forall_map. rewrite Forall_forall in Hall |- *. intros o Ho. split_and!; [done|apply (Hall o Ho)|].
    exists o. split; [|done]. rewrite <-Hperm, <-(take_drop k s). set_solver.
  - intros o Ho Hsize. rewrite <-Hperm, <-(take_drop k s) in Ho. apply elem_of_app in Ho as [Ho|Ho]; [left|right].
    + exists (mkObj (ob_ID o) 0 (ob_Size o) (ob_Type o)). split; [|done]. apply list_elem_of_fmap. by exists o.
    + assert (∀ x, x ∈ take k s → ob_Size o <= ob_Size x) as Hle
        by (intros x Hx; by apply (sorted_take ob_Size k s x o); [apply sort_sorted|..]).
      split; [|by apply Forall_map, Forall_forall]. rewrite length_map, length_take.
      apply list_elem_of_lookup in Ho as [i Hi]. rewrite lookup_drop in Hi. apply lookup_lt_Some in Hi as Hlt.
      destruct Hend as [Hend|[Hend|(o' & Ho' & Hs)]]; [simpl in Hend; lia| |].
      * apply (f_equal length) in Hend. rewrite length_take in Hend. lia.
      * exfalso. assert (ob_Size o <= ob_Size o') as Hoo'; [|lia]. destruct i as [|i].
        { rewrite Nat.add_0_r, Ho' in Hi. by simplify_eq. }
        apply (sorted_take ob_Size (S k) s o' o); [apply sort_sorted|..]; apply list_elem_of_lookup.
        -- exists k. by rewrite lookup_take, decide_True by lia.
        -- exists i. rewrite lookup_drop. by replace (S k + i)%nat with (k + S i)%nat by lia.
Qed.
End analyze.

(** * Claims *)

(** C21: Parsing a heap dump always returns: whatever the bytes, it ends with a result or an
    error (the fuel is enough), or it panics on a record of a string or class that is
    too short for its ids, and there only.  The totals of a result are right: the total
    size and number are those of the objects, and every class that has objects is
    accounted with exactly its own.  (Files are shorter than 2^63 bytes, so no counter
    wraps.) *)
Theorem heap_parse_accounts r :
  all_bytes r → Z.of_nat (length r) < 2 ^ 63 →
  match Parse NewHPROFParser r with
  | POk p => accounts_ok p
  | PFuel => False
  | _ => True
  end ∧
  (∀ p tag recLen r', idsize_ok p → all_bytes r' → 0 <= recLen →
     (record p tag recLen r' = PPanic ↔ recLen <= Z.of_nat (length r') ∧ short_record p tag recLen)).
Proof.
  intros Hr Hn. split.
  - unfold Parse. destruct (read_header r) as [[h r1]|] eqn:E; [|done]. apply read_header_suffix in E as (k & -> & Hk).
    destruct (negb _); [done|]. reads H1; [|done]. destruct H1 as ([= -> ->] & H1 & H2).
    set (n := be _). destruct (negb (n =? 4) && negb (n =? 8)) eqn:En; [done|].
    reads H3; [|done]. destruct H3 as ([= -> ->] & H3 & H4). set (r3 := drop _ (drop _ (drop _ r))) in *.
    pose proof (parse_records_result (Z.of_nat (length r)) Hn (S (length r3)) (set_idSize n NewHPROFParser) r3) as Hres.
    destruct (parse_records _ _ _) as [p| | |]; try done.
    + apply Hres; [unfold idsize_ok; simpl; lia|unfold r3; eauto with hprof|lia|].
      split; [by split_and!|]. simpl. split_and!; [constructor|lia|lia].
    + apply Hres; [unfold idsize_ok; simpl; lia|unfold r3; eauto with hprof|lia].
  - intros p tag recLen r' Hid Hr' Hl. pose proof (record_result 0 ltac:(done) p tag recLen r' Hid Hr' Hl) as Hres.
    split; [by intros E; rewrite E in Hres|]. intros Hs. by apply record_panics.
Qed.

(** C20: How far the parser reads the HPROF format.  A dump with strings, classes,
    instances and arrays (of every primitive type) in its segments, whose numbers fit their
    fields, without roots and with class dumps of ten bytes of entries, is read as it was
    written: the strings, the classes under readable names, and the objects with their
    ids, classes and sizes, in order.  A root of any kind is taken to be four bytes longer
    than the format has it, and a class dump to have ten bytes of entries whatever it
    has, so that the parser loses its place in every other dump. *)
Theorem heap_dump_roundtrip w :
  (w = 4 ∨ w = 8)%nat →
  (∀ header time recs, (0 ∉ header) → take 12 header = magic → long 8 time → Forall (rec_ok w) recs →
     ∃ p, Parse NewHPROFParser (encode_dump w header time recs) = POk p ∧ contents_of p = dump_says w recs) ∧
  (∀ tag n, root_bytes w tag = Some n → is_root tag = true ∧ rootSubRecordSize (with_id w) tag = n + 4) ∧
  (∀ cls trace refs isize cp st fs, long 4 trace → length refs = 6%nat →
     classDumpSize (with_id w) + Z.of_nat (length (concat cp) + length (concat st) + length (concat fs)) =
     Z.of_nat (length (class_body w cls trace refs isize cp st fs)) + 10).
Proof.
  intros Hw. split; [|split; [intros tag n; by apply root_sizes|]].
  - intros header time recs H0 Hm Ht Hok. exists (foldl (load_rec w) (with_id w) recs).
    split; [|apply (load_recs_says w recs (with_id w))]. unfold Parse, encode_dump. rewrite read_header_app by done.
    rewrite (bool_decide_eq_true_2 _ Hm). cbn [negb]. rewrite (readFull_app _ 4) by (unfold long; by rewrite length_enc).
    cbn [mbind presult_bind]. rewrite be_enc by (destruct Hw; subst; simpl; lia).
    assert (negb (Z.of_nat w =? 4) && negb (Z.of_nat w =? 8) = false) as -> by (destruct Hw; by subst).
    rewrite readFull_app by done. cbn [mbind presult_bind]. apply parse_records_enc; [done..|lia].
  - intros cls trace refs isize cp st fs Ht Hr. unfold long, class_body, table, classDumpSize in *. simpl.
    rewrite !length_app, !length_enc, length_ids, Hr by done. lia.
Qed.

(** A string, its class, and a segment with an instance of it and a byte array. *)
Definition dump0 : list rec :=
  [RString (enc 4 0) 1 [76; 97; 47; 66; 59];
   RClass (enc 4 0) 1 10 (enc 4 0) 1;
   RHeap (enc 4 0) true [SInstance 100 (enc 4 0) 10 [0; 0; 0]; SPrimArray 200 (enc 4 0) PByte [1; 2]]].
Definition header0 : bytes := (magic ++ [32; 49; 46; 48; 46; 50])%list.
Definition file0 : bytes := encode_dump 8 header0 (enc 8 0) dump0.

Lemma heap_parse_accounts_witness :
  ∃ p, Parse NewHPROFParser file0 = POk p ∧ totalSize p = 5 ∧ accounts_ok p.
Proof.
  destruct (heap_parse_accounts file0) as [H _].
  - apply (bool_decide_unpack _). vm_compute. done.
  - vm_compute. done.
  - assert (∃ p, Parse NewHPROFParser file0 = POk p ∧ totalSize p = 5) as (p & E & Ht)
      by (eexists; split; vm_compute; reflexivity).
    rewrite E in H. by exists p.
Defined.

Lemma heap_dump_roundtrip_witness :
  (∃ p, Parse NewHPROFParser file0 = POk p ∧ contents_of p = dump_says 8 dump0) ∧
  ClassName <$> co_classes (dump_says 8 dump0) !! 10 = Some [97; 46; 66] ∧
  map ob_Size (co_objects (dump_says 8 dump0)) = [3; 2].
Proof.
  split; [|vm_compute; done]. apply (heap_dump_roundtrip 8); [by right|..].
  - apply (bool_decide_unpack _). vm_compute. done.
  - reflexivity.
  - reflexivity.
  - apply Forall_cons; split; [split_and!; [vm_compute; reflexivity|split; vm_compute; done..]|].
    apply Forall_cons; split.
    { split_and!; [vm_compute; reflexivity|split; vm_compute; done..|vm_compute; reflexivity|split; vm_compute; done]. }
    apply Forall_cons; split; [|apply Forall_nil; exact I].
    split; [vm_compute; reflexivity|]. split; [|split; vm_compute; done].
    apply Forall_cons; split; [|apply Forall_cons; split; [|apply Forall_nil; exact I]].
    + split_and!; [split; vm_compute; done|vm_compute; reflexivity|split; vm_compute; done..].
    + split_and!; [split; vm_compute; done|vm_compute; reflexivity|split; vm_compute; done].
Defined.

(** In a heap dump as the JVM writes it a root "sticky class" is its id alone (and every
    other root four bytes shorter than the parser takes it to be): the parser reads into
    the sub-record that follows. *)
Example standard_root_misread :
  Parse NewHPROFParser (encode_dump 4 header0 (enc 8 0)
    [ROther (enc 4 0) tagHeapDump
      (subRootStickyClass :: enc 4 10 ++ subInstanceDump :: enc 4 100 ++ enc 4 0 ++ enc 4 10 ++ enc 4 1 ++ [7])]) =
  PErr (UnknownSubRecord 100 13).
Proof. vm_compute. reflexivity. Qed.
