(* ===== verification/NlSentence.v ===== *)
(** From a sentence to the queue of an agent: nl_parser.py behind parseNLIntent of
    nl_handler.go, the task that NLChat makes of the answer, and its way to
    drop_server. *)
From stdpp Require Import base gmap list strings.
From Stdlib Require Import ZArith Lia Ascii.
From S2P Require Import Prelude CppString OrdMap Json Proto TaskQueue PGStore ApiStatements Server ApiServer Scheduler.
From S2P Require Import OS EbpfLoader ProfilerFactory NlChat Platform PyText Utf8 PyRegex NlParser Advisor.

(** * A sentence *)

Definition num (n : Z) : pystr := of_ascii (to_string n).
Definition ip_text (a b c d : Z) : pystr := (num a ++ [46] ++ num b ++ [46] ++ num c ++ [46] ++ num d)%list.

(** The example that NLChat shows its users, with a duration. *)
Definition sentence (a b c d pid seconds : Z) : pystr :=
  (u "过去一小时" ++ ip_text a b c d ++ u "上" ++ u "PID" ++ u "为" ++ num pid ++ u "的" ++ u "CPU" ++ u "飙高，" ++
   u "采集" ++ num seconds ++ u "秒")%list.

Section sentence.
Context (udecimal : Z → option Z) (ulower : Z → pystr).
(** None of the Chinese characters of the sentence is a digit. *)
Context (chinese : Forall (λ c, udecimal c = None) (u "过去一小时上为的飙高，采集秒")).

Lemma num_digits n : 0 <= n → Forall (λ c, digit udecimal c = true) (num n).
Proof.
  intros Hn. eapply Forall_impl; [exact (to_string_ascii n Hn)|]. simpl. intros c Hc. unfold digit, decimal, within.
  apply bool_decide_eq_true. rewrite (proj2 (Z.ltb_lt c 128)) by lia.
  rewrite (proj2 (Z.leb_le 48 c)), (proj2 (Z.leb_le c 57)) by lia. by eexists.
Qed.

Lemma num_nonempty n : ∃ x ds, num n = x :: ds.
Proof. unfold num. destruct (to_string n) eqn:E; [by apply to_string_nonempty in E|]. rewrite of_ascii_cons. eauto. Qed.

Lemma num_head n : 0 <= n → ∃ x ds, num n = x :: ds ∧ 48 <= x <= 57.
Proof.
  intros Hn. destruct (num_nonempty n) as (x & ds & E). exists x, ds. split; [done|].
  pose proof (to_string_ascii n Hn) as Ha. fold (num n) in Ha. rewrite E in Ha. by apply Forall_cons in Ha as [? _].
Qed.

Lemma not_digit c : c ∈ u "过去一小时上为的飙高，采集秒" → digit udecimal c = false.
Proof.
  intros Hc. assert (Forall (λ c, 128 <= c) (u "过去一小时上为的飙高，采集秒")) as H128
    by (vm_compute; repeat constructor; discriminate).
  rewrite Forall_forall in chinese, H128. unfold digit, decimal. apply bool_decide_eq_false.
  rewrite (proj2 (Z.ltb_ge c 128)) by (by apply H128). rewrite chinese by done. by intros [].
Qed.

Lemma not_digits s : Forall (λ c, c ∈ u "过去一小时上为的飙高，采集秒") s → Forall (λ c, digit udecimal c = false) s.
Proof. intros Hs. eapply Forall_impl; [exact Hs|]. apply not_digit. Qed.

(** Digits and dots are in no class of Chinese or Latin letters. *)
Lemma ip_ascii a b c d :
  0 <= a → 0 <= b → 0 <= c → 0 <= d → Forall (λ x, 46 <= x <= 57) (ip_text a b c d).
Proof.
  intros. assert (∀ n, 0 <= n → Forall (λ x, 46 <= x <= 57) (num n)) as Hn.
  { intros n Hn. eapply Forall_impl; [exact (to_string_ascii n Hn)|]. simpl. lia. }
  unfold ip_text. rewrite !Forall_app. split_and!; try by apply Hn. all: constructor; [lia|constructor].
Qed.

Lemma first_one p c rest cs : p c = true → first_run (one p) (c :: rest, cs) (rest, cs).
Proof. intros Hc. apply (first_rep 1 (Some 1%nat) p [c] rest); [by constructor|done|simpl; lia|by left]. Qed.

Lemma first_number_group p n rest cs :
  0 <= n → (∀ c, digit udecimal c = true → p c = true) → match rest with c :: _ => p c = false | [] => True end →
  first_run (PGroup 1 (some p)) ((num n ++ rest)%list, cs) (rest, (1%nat, num n) :: cs).
Proof.
  intros Hn Hp Hr. apply first_group, first_rep; [|destruct (num_nonempty n) as (x & ds & ->); simpl; lia|done|by right].
  eapply Forall_impl; [by apply num_digits|]. auto.
Qed.

Ltac literal := vm_compute; repeat constructor.
(** Each of the digits and the dot, one by one. *)
Ltac ascii_cases x Hx :=
  assert (x = 46 ∨ x = 47 ∨ x = 48 ∨ x = 49 ∨ x = 50 ∨ x = 51 ∨ x = 52 ∨ x = 53 ∨ x = 54 ∨ x = 55 ∨ x = 56 ∨ x = 57)
    by lia; clear Hx; destruct_or!; subst; reflexivity.

Section numbers.
Context (a b c d pid seconds : Z).
Context (Ha : 0 <= a < 256) (Hb : 0 <= b < 256) (Hc : 0 <= c < 256) (Hd : 0 <= d < 256).
Context (Hpid : 0 <= pid < 2 ^ 31) (Hsec : 0 <= seconds < 2 ^ 31).

Lemma ip_range : Forall (λ x, 46 <= x <= 57) (ip_text a b c d).
Proof. apply ip_ascii; lia. Qed.

Lemma num_value n : 0 <= n < 2 ^ 31 → py_int udecimal (num n) = Some n.
Proof. intros. apply py_int_to_string. unfold is_u64. lia. Qed.

Lemma group_int_num n cs : 0 <= n < 2 ^ 31 → group_int udecimal ((1%nat, num n) :: cs) = Some n.
Proof. exact (num_value n). Qed.

(** The characters before the word PID. *)
Lemma skip_to_pid r s :
  null r = false → (∀ x, 46 <= x <= 57 → may_start r x = false) →
  Forall (λ x, may_start r x = false) (u "过去一小时") → Forall (λ x, may_start r x = false) (u "上") →
  re_search r ((u "过去一小时" ++ ip_text a b c d ++ u "上" ++ s)%list) = re_search r s.
Proof.
  intros Hn Hx H1 H2. rewrite !(assoc_L (++)). apply re_search_skip; [done|]. rewrite !Forall_app. split_and!; [done| |done].
  eapply Forall_impl; [apply ip_range|]. simpl. auto.
Qed.

Lemma ascii_not_in x s : 46 <= x <= 57 → Forall (λ y, 57 < y) s → one_of s x = false.
Proof. intros Hx Hs. apply bool_decide_eq_false. rewrite Forall_forall in Hs. intros ?%Hs. lia. Qed.

Lemma ascii_not_space x : 46 <= x <= 57 → py_isspace x = false.
Proof. unfold py_isspace, within. lia. Qed.

Lemma num_not p n s : 0 <= n → (∀ x, 46 <= x <= 57 → p x = false) → match (num n ++ s)%list with x :: _ => p x = false | [] => True end.
Proof. intros Hn Hp. destruct (num_head n Hn) as (x & ds & -> & Hx). apply Hp. lia. Qed.

Lemma sentence_pid : extract_pid udecimal (sentence a b c d pid seconds) = Some (Some pid).
Proof.
  unfold extract_pid, pid_patterns, sentence. cbn [extract_pid_by]. set (r := _ +r digits udecimal).
  rewrite skip_to_pid; [|done| |by literal|by literal].
  2: { intros x Hx. unfold r, pid_word, one. cbn [may_start null Nat.eqb andb orb]. rewrite !orb_false_r.
       apply ascii_not_in; [done|]. by literal. }
  rewrite (re_search_here r _ (u "的" ++ u "CPU" ++ u "飙高，" ++ u "采集" ++ num seconds ++ u "秒")%list [(1%nat, num pid)]).
  { by rewrite group_int_num. }
  unfold r. eapply first_cat; [eapply first_cat; [|apply (first_rep 1 None _ (u "为"))]|].
  - unfold pid_word. repeat eapply first_cat; apply first_one; reflexivity.
  - by literal.
  - done.
  - done.
  - right. apply num_not; [lia|]. intros x Hx. unfold in_class. rewrite ascii_not_space by done.
    rewrite orb_false_r. destruct (decide (x = 58)); [lia|]. apply bool_decide_eq_false. vm_compute (u _). set_unfold. lia.
  - apply first_number_group; [lia|done|]. change (digit udecimal (hd 0 (u "的")) = false). apply not_digit. by literal.
Qed.

Lemma parse_lit s m cs : parse (lit s) m cs → m = s.
Proof.
  revert m cs. induction s as [|x s IH]; intros m cs; cbn [lit foldr parse].
  - intros (_ & _ & _ & Hl). by destruct m; simpl in Hl; [|lia].
  - intros (m1 & m2 & cs1 & cs2 & -> & _ & (_ & Hm & Hlo & Hhi) & ->%IH).
    destruct m1 as [|y [|z m1]]; simpl in Hlo, Hhi; [lia| |lia]. apply Forall_cons in Hm as [Hy _].
    unfold char in Hy. apply Z.eqb_eq in Hy as ->. done.
Qed.

(** The last character of "hour" could begin "for as long as", and does not. *)
Lemma hour_begins_nothing s : runs (sampling_pattern udecimal) ((u "时" ++ ip_text a b c d ++ s)%list, []) = [].
Proof.
  destruct (runs _ _) as [|[rest cs] l] eqn:E; [done|exfalso]. apply runs_cons in E as (m & Hm & Hp).
  destruct Hp as (m1 & m2 & cs1 & cs2 & -> & _ & Hp & _). destruct Hp as (m3 & m4 & cs3 & cs4 & -> & _ & Hp & _).
  destruct Hp as (m5 & m6 & cs5 & cs6 & -> & _ & Hp & _). destruct Hp as (m7 & m8 & cs7 & cs8 & -> & _ & Hp & _).
  unfold ip_text in Hm. destruct (num_head a ltac:(lia)) as (x & ds & Ex & Hx). rewrite Ex in Hm.
  destruct Hp as [Hp|[Hp|[Hp|Hp]]]; apply parse_lit in Hp as ->; vm_compute (u _) in Hm;
    simpl in Hm; injection Hm; lia.
Qed.

Lemma sentence_duration : extract_duration udecimal (sentence a b c d pid seconds) = Some seconds.
Proof.
  unfold extract_duration, sentence. set (r := sampling_pattern udecimal).
  assert (∀ x, 46 <= x <= 57 → may_start r x = false) as Hx by (intros x Hx; ascii_cases x Hx).
  change (u "过去一小时") with (u "过去一小" ++ u "时")%list. rewrite <-(assoc_L (++)).
  rewrite re_search_skip; [|done|by literal].
  change (u "时" ++ ?s)%list with (hd 0 (u "时") :: s). rewrite re_search_pass by apply hour_begins_nothing.
  rewrite re_search_skip; [|done|eapply Forall_impl; [apply ip_range|]; simpl; auto].
  change (u "上" ++ u "PID" ++ u "为" ++ ?s)%list with (u "上PID为" ++ s)%list. rewrite re_search_skip; [|done|by literal].
  rewrite re_search_skip; [|done|eapply Forall_impl; [exact (to_string_ascii pid ltac:(lia))|]; simpl; intros; apply Hx; lia].
  change (u "的" ++ u "CPU" ++ u "飙高，" ++ ?s)%list with (u "的CPU飙高，" ++ s)%list. rewrite re_search_skip; [|done|by literal].
  rewrite (re_search_here r _ [] [(1%nat, num seconds)]); [by rewrite group_int_num|].
  unfold r, sampling_pattern.
  eapply first_cat; [eapply first_cat; [eapply first_cat; [eapply first_cat|]|]|].
  - apply first_alt_l, first_lit.
  - apply (first_rep 0 None _ []); [constructor|simpl; lia|done|]. right. apply num_not; [lia|].
    intros x Hx'. ascii_cases x Hx'.
  - apply first_number_group; [lia|done|]. change (digit udecimal (hd 0 (u "秒")) = false). apply not_digit. by literal.
  - apply (first_rep 0 None _ []); [constructor|simpl; lia|done|by right].
  - exact (first_lit (u "秒") [] _).
Qed.

Lemma octet_run n rest cs :
  0 <= n < 256 → match rest with x :: _ => digit udecimal x = false | [] => True end →
  first_run (octet udecimal) ((num n ++ rest)%list, cs) (rest, cs).
Proof.
  intros Hn Hr. apply first_rep; [by apply num_digits; lia|destruct (num_nonempty n) as (x & ds & ->); simpl; lia| |by right].
  apply (to_string_short 2). lia.
Qed.

Lemma dot_run rest cs : first_run (one (char 46)) (([46] ++ rest)%list, cs) (rest, cs).
Proof. by apply first_one. Qed.

Lemma sentence_ip : extract_target_ip udecimal (sentence a b c d pid seconds) = Some (ip_text a b c d).
Proof.
  unfold extract_target_ip, sentence. rewrite re_search_skip; [|done|].
  2: { eapply Forall_impl; [apply (not_digits (u "过去一小时")); by literal|]. simpl. intros x ->. done. }
  set (rest := (u "上" ++ _)%list). rewrite (re_search_here _ _ rest [(1%nat, ip_text a b c d)]); [done|].
  apply first_group. unfold ip_text. rewrite <-!(assoc_L (++)).
  repeat eapply first_cat; first [apply dot_run|apply octet_run; [lia|try done]].
  change (digit udecimal (hd 0 (u "上")) = false). apply not_digit. by literal.
Qed.

Lemma sentence_time now :
  0 <= now → extract_time_range udecimal now (sentence a b c d pid seconds) =
    Some (range_from now (now - 3600 * 1000000)).
Proof.
  intros Hnow. unfold extract_time_range, sentence.
  set (rest := (ip_text a b c d ++ _)%list).
  rewrite (re_search_here _ _ rest [(2%nat, u "小时"); (1%nat, [])]).
  - cbn [fmap option_fmap option_map]. change (group 1 _) with (Some (@nil Z)). change (group 2 _) with (Some (u "小时")).
    cbn [default from_option]. rewrite bool_decide_eq_true_2 by done. change (unit_us (id (u "小时"))) with (3600 * 1000000).
    unfold before. rewrite (proj2 (Z.ltb_ge _ _)) by (vm_compute; discriminate).
    rewrite (proj2 (Z.ltb_ge _ _)); [done|]. unfold datetime_min. lia.
  - unfold relative_pattern. change (u "过去一小时" ++ rest)%list with (u "过去" ++ u "一" ++ u "小时" ++ rest)%list.
    assert (digit udecimal (hd 0 (u "小时")) = false) as Hd' by (apply not_digit; by literal).
    eapply first_cat; [eapply first_cat; [eapply first_cat; [eapply first_cat; [eapply first_cat|]|]|]|].
    + apply first_alt_l, first_lit.
    + apply (first_rep 0 None _ []); [constructor|simpl; lia|done|by right].
    + apply (first_rep 0 (Some 1%nat) _ (u "一")); [by literal|simpl; lia|simpl; lia|by left].
    + apply (first_group 1 _ []). apply (first_rep 0 None _ []); [constructor|simpl; lia|done|right; exact Hd'].
    + apply (first_rep 0 None _ []); [constructor|simpl; lia|done|by right].
    + apply (first_group 2 _ (u "小时")). apply first_alt_r; [reflexivity|]. apply first_alt_l, first_lit.
Qed.

Lemma sentence_profiler : extract_profiler_type ulower (sentence a b c d pid seconds) = Some 0.
Proof.
  unfold extract_profiler_type, sentence, PROFILER_KEYWORDS. cbn [keyword_loop map existsb].
  rewrite (proj2 (contains_spec (u "cpu") _)); [done|]. unfold lower_text. rewrite !bind_app.
  set (p1 := mbind _ (u "过去一小时")). set (p2 := mbind _ (ip_text _ _ _ _)). set (p3 := mbind _ (u "上")).
  set (p4 := mbind _ (u "PID")). set (p5 := mbind _ (u "为")). set (p6 := mbind _ (num pid)). set (p7 := mbind _ (u "的")).
  change (mbind _ (u "CPU")) with (u "cpu"). set (rest := (mbind _ (u "飙高，") ++ _)%list).
  exists (p1 ++ p2 ++ p3 ++ p4 ++ p5 ++ p6 ++ p7)%list, rest. by rewrite <-!(assoc_L (++)).
Qed.

Lemma sentence_parsed now agents :
  0 <= now → parse_intent udecimal ulower now (sentence a b c d pid seconds) agents =
    Some (mkPyIntent pid 0 seconds (Some (ip_text a b c d)) (range_from now (now - 3600 * 1000000))
            (sentence a b c d pid seconds)).
Proof.
  intros Hnow. unfold parse_intent.
  by rewrite sentence_pid, sentence_duration, sentence_time, sentence_ip, sentence_profiler by done.
Qed.
End numbers.
End sentence.

(** * The script behind parseNLIntent *)

(** A JSON number as a [float64]; [None] when it is out of range. *)
Definition json_float (z : Z) : option goval :=
  let n := Z.abs z in
  let e := Z.max 0 (Z.log2 n - 52) in
  let r := round_div n (2 ^ e) * 2 ^ e in
  if r <? 2 ^ 1024 then Some (GoFloat (Z.sgn z * r)) else None.

Lemma round_div_1 a : round_div a 1 = a.
Proof. unfold round_div. by rewrite Z.div_1_r, Z.mod_1_r. Qed.

Lemma json_float_exact z : 0 <= z < 2 ^ 31 → json_float z = Some (GoFloat z).
Proof.
  intros Hz. unfold json_float. rewrite Z.abs_eq by lia.
  assert (Z.log2 z - 52 <= 0).
  { destruct (decide (z = 0)) as [->|]; [done|]. pose proof (Z.log2_lt_pow2 z 31 ltac:(lia)). lia. }
  rewrite Z.max_l by lia. rewrite Z.pow_0_r, round_div_1, Z.mul_1_r. rewrite (proj2 (Z.ltb_lt z (2 ^ 1024))) by lia. do 2 f_equal.
  destruct (decide (z = 0)) as [->|]; [done|]. rewrite Z.sgn_pos by lia. lia.
Qed.

(** The object the script prints, read by [json.Unmarshal]. *)
Definition intent_object (i : intent) : option (gmap string goval) :=
  match json_float (pi_pid i), json_float (pi_profiler_type i), json_float (pi_duration i) with
  | Some pid, Some profiler, Some duration =>
      Some {["pid" := pid; "profiler_type" := profiler; "duration" := duration;
             "target_ip" := match pi_target_ip i with Some ip => GoStr (encode ip) | None => GoOther end;
             "time_range" := GoOther; "raw_text" := GoStr (encode (pi_raw_text i))]}
  | _, _, _ => None
  end.

(** [python3 nl_parser.py text --agents ...]: nothing when it fails. *)
Definition nl_script (udecimal : Z → option Z) (ulower : Z → pystr) (now : Z) (agents : list string) (msg : string)
    : option (gmap string goval) :=
  match parse_intent udecimal ulower now (u msg) (map (λ ip, Some (u ip)) agents) with
  | Some i => intent_object i
  | None => None
  end.

Definition getAvailableAgents (ok : bool) (a : api) : list string :=
  let result := if ok then map a_ip_addr (filter (λ r, a_online r = true) (agent_info (ap_db a))) else [] in
  if bool_decide (result = []) then ["127.0.0.1"] else result.

(** * The sentence as a message *)

Definition ip_string (a b c d : Z) : string :=
  to_string a +:+ "." +:+ to_string b +:+ "." +:+ to_string c +:+ "." +:+ to_string d.

Lemma ip_text_string a b c d : ip_text a b c d = of_ascii (ip_string a b c d).
Proof. unfold ip_string. rewrite !of_ascii_app. done. Qed.

Section message.
Context (a b c d pid seconds : Z).
Context (Ha : 0 <= a < 256) (Hb : 0 <= b < 256) (Hc : 0 <= c < 256) (Hd : 0 <= d < 256).
Context (Hpid : 0 <= pid < 2 ^ 31) (Hsec : 0 <= seconds < 2 ^ 31).

Lemma num_chars n : 0 <= n → Forall (λ x, 0 <= x < 128) (num n).
Proof. intros Hn. eapply Forall_impl; [exact (to_string_ascii n Hn)|]. simpl. lia. Qed.

Lemma ip_chars : Forall (λ x, 0 <= x < 128) (ip_text a b c d).
Proof. eapply Forall_impl; [apply ip_ascii; lia|]. simpl. lia. Qed.

Lemma sentence_chars : Forall is_char (sentence a b c d pid seconds).
Proof.
  unfold sentence. rewrite !Forall_app. split_and!;
    match goal with
    | |- Forall _ (u _) => apply chars_checked; reflexivity
    | |- Forall _ (num _) => apply ascii_is_char, num_chars; lia
    | _ => apply ascii_is_char, ip_chars
    end.
Qed.

Lemma ip_encoded : encode (ip_text a b c d) = ip_string a b c d.
Proof.
  rewrite ip_text_string. apply encode_of_ascii. rewrite <-ip_text_string.
  eapply Forall_impl; [apply ip_chars|]. simpl. lia.
Qed.

(** The message is short enough for its title not to be cut. *)
Lemma sentence_short : (String.length (encode (sentence a b c d pid seconds)) <= 100)%nat.
Proof.
  rewrite length_encode. unfold sentence. rewrite !bind_app, !length_app.
  rewrite (ascii_bytes (ip_text a b c d)) by apply ip_chars.
  rewrite (ascii_bytes (num pid)), (ascii_bytes (num seconds)) by (apply num_chars; lia).
  pose proof (to_string_short 9 pid ltac:(lia)) as H1. pose proof (to_string_short 9 seconds ltac:(lia)) as H2.
  assert (length (ip_text a b c d) <= 15)%nat as H3.
  { unfold ip_text. rewrite !length_app. pose proof (to_string_short 2 a ltac:(lia)).
    pose proof (to_string_short 2 b ltac:(lia)). pose proof (to_string_short 2 c ltac:(lia)).
    pose proof (to_string_short 2 d ltac:(lia)). unfold num. simpl. lia. }
  fold (num pid) in H1. fold (num seconds) in H2.
  repeat match goal with |- context [length (u ?s ≫= utf8_bytes)] =>
    let n := eval vm_compute in (length (u s ≫= utf8_bytes)) in change (length (u s ≫= utf8_bytes)) with n end. lia.
Qed.
End message.

(** The intent that NLChat reads from the script's answer. *)
Lemma sentence_intent udecimal ulower now a b c d pid seconds agents :
  Forall (λ c, udecimal c = None) (u "过去一小时上为的飙高，采集秒") →
  0 <= a < 256 → 0 <= b < 256 → 0 <= c < 256 → 0 <= d < 256 → 0 <= pid < 2 ^ 31 → 0 < seconds < 2 ^ 31 → 0 <= now →
  let msg := encode (sentence a b c d pid seconds) in
  read_intent (parseNLIntent (nl_script udecimal ulower now agents msg) msg) =
    mkIntent pid 0 seconds (ip_string a b c d).
Proof.
  intros Hch Ha Hb Hc Hd Hp Hs Hn msg. unfold nl_script, msg. rewrite u_encode by (apply sentence_chars; lia).
  rewrite sentence_parsed by (try done; lia). unfold intent_object.
  cbn [pi_pid pi_profiler_type pi_duration pi_target_ip pi_raw_text]. rewrite !json_float_exact by lia.
  rewrite ip_encoded by lia. unfold parseNLIntent, read_intent. simplify_map_eq. unfold assert_float, assert_string, float_to_int.
  rewrite (proj2 (Z.eqb_neq seconds 0)) by lia. rewrite !bool_decide_eq_true_2 by lia.
  f_equal. rewrite bool_decide_eq_false_2; [done|]. intros He. apply (f_equal String.length) in He. unfold ip_string in He.
  destruct (to_string a) eqn:E; [by apply to_string_nonempty in E|done].
Qed.

(** What NLChat does with a message that fits and creates a task. *)
Lemma NLChat_creates env pj b1 b2 script text uid name a i :
  Forall is_char text → text ≠ [] → (String.length (encode text) <= 100)%nat →
  read_intent (parseNLIntent script (encode text)) = i → ce_insert env = true →
  hotmethod_task (ap_db a) !! genTID (ce_rand env) = None →
  ∃ a', NLChat env pj b1 b2 script (Some (encode text, "")) uid name a =
    (done_with (NlTaskCreated (genTID (ce_rand env))), a',
     if ap_grpc a' then [(genTID (ce_rand env), mkReq "" 0 (ni_profiler i) (ni_ip i) (ni_pid i) (ni_duration i) 99 "")] else []) ∧
    create_rows env (genTID (ce_rand env)) "自然语言触发，任务已创建"
      (new_columns ("NL: " +:+ encode text) 0 (ni_profiler i) (ni_ip i) (nl_params (ni_pid i) (ni_duration i)) uid name
         (ce_now env) "") a = Some a'.
Proof.
  intros Hch Hne Hlen <- Hi Hfree. unfold NLChat. pose proof (length_encode_ge text) as Hge.
  assert (length text ≠ 0%nat) by (by destruct text).
  rewrite (proj2 (Nat.eqb_neq _ _)), (proj2 (Nat.ltb_ge _ _)) by lia. cbn [orb]. rewrite bool_decide_eq_true_2 by done.
  cbn [negb]. unfold truncate. rewrite (proj2 (Nat.leb_le _ _) Hlen).
  assert (utf8 ("NL: " +:+ encode text) = true) as ->.
  { change ("NL: ") with (encode (u "NL: ")). rewrite <-encode_app. apply utf8_encode, Forall_app. split; [|done].
    apply chars_checked. reflexivity. }
  destruct (create_rows _ _ _ _ _) as [a1|] eqn:E; [by exists a1|]. unfold create_rows in E.
  rewrite Hi, bool_decide_eq_true_2 in E by done. done.
Qed.

(** A hand-over that arrives and is answered leaves the API server's tables alone. *)
Lemma handed_over ctx uenv tid req p ip :
  pf_inv p → is_ok (CheckDeadline ctx) = true → sendable req →
  let '(answer, p2) := hand_over true "" ctx tid req p in
  let p3 := go_answered uenv tid answer p2 in
  pf_api p3 = pf_api p ∧
  queue_of ip (g_task_queue (pf_server p3)) =
    queue_of ip (g_task_queue (pf_server p)) ++ (if decide (rq_target_ip req = ip) then [requested tid req] else []).
Proof.
  intros Hp Hc Hs. rewrite hand_over_queue by done. split; [exact (with_queue_api p _ Hp)|].
  unfold go_answered. rewrite with_api_queue. simpl. by rewrite queue_of_Push.
Qed.

(** * Claims *)

(** C7: A sentence reaches the agent it is about.  A message of the form the API server
    suggests to its users, with any address, process id and duration, goes through
    nl_parser.py, NLChat, the hand-over and drop_server as it was meant: the task is
    in the database, PENDING and owned by the user, and exactly one perf task with that
    process id and duration is appended to the queue of the agent with that address
    and to no other.  (The time range of the sentence is parsed, and used by nothing.) *)
Theorem sentence_reaches_agent udecimal ulower now a b c d pid seconds env pj b1 b2 ok ctx uenv uid name p ip :
  Forall (λ c, udecimal c = None) (u "过去一小时上为的飙高，采集秒") →
  0 <= a < 256 → 0 <= b < 256 → 0 <= c < 256 → 0 <= d < 256 → 0 <= pid < 2 ^ 31 → 0 < seconds < 2 ^ 31 → 0 <= now →
  pf_inv p → ap_grpc (pf_api p) = true → ce_insert env = true → ce_history env = true →
  hotmethod_task (ap_db (pf_api p)) !! genTID (ce_rand env) = None → is_ok (CheckDeadline ctx) = true →
  let msg := encode (sentence a b c d pid seconds) in
  let script := nl_script udecimal ulower now (getAvailableAgents ok (pf_api p)) msg in
  let tid := genTID (ce_rand env) in
  let req := mkReq "" 0 0 (ip_string a b c d) pid seconds 99 "" in
  let '(r, a', gs) := NLChat env pj b1 b2 script (Some (msg, "")) uid name (pf_api p) in
  r = done_with (NlTaskCreated tid) ∧ gs = [(tid, req)] ∧
  let '(answer, p2) := hand_over true "" ctx tid req (requested_by a' gs p) in
  let p3 := go_answered uenv tid answer p2 in
  (∃ row, hotmethod_task (ap_db (pf_api p3)) !! tid = Some row ∧ t_status row = kPending ∧
     c_uid (t_cols row) = uid ∧ c_target_ip (t_cols row) = ip_string a b c d) ∧
  queue_of ip (g_task_queue (pf_server p3)) =
    queue_of ip (g_task_queue (pf_server p)) ++ (if decide (ip_string a b c d = ip) then [requested tid req] else []).
Proof.
  intros Hch Ha Hb Hc Hd Hpid Hsec Hnow Hp Hg Hi Hh Hfree Hctx msg script tid req.
  destruct (NLChat_creates env pj b1 b2 script (sentence a b c d pid seconds) uid name (pf_api p)
    (mkIntent pid 0 seconds (ip_string a b c d))) as (a' & Hchat & Hrows); try done.
  { apply sentence_chars; lia. }
  { apply sentence_short; lia. }
  { apply sentence_intent; try done; lia. }
  fold msg in Hchat. apply create_rows_rows in Hrows as Hrow; [|done|apply (inv_db p Hp)].
  destruct Hrow as (Hrow & _ & Hgr). rewrite Hgr, Hg in Hchat. cbn [ni_pid ni_profiler ni_duration ni_ip] in *.
  rewrite Hchat. split_and!; [done..|].
  assert (pf_inv (requested_by a' [(tid, req)] p)) as Hp1
    by (eapply pf_step_inv; [exact Hp|]; by eapply pf_request, ar_nl).
  assert (sendable req) as Hs by (unfold sendable, is_u32, is_i32; simpl; lia).
  pose proof (handed_over ctx uenv tid req _ ip Hp1 Hctx Hs) as Hq.
  destruct (hand_over _ _ _ _ _ _) as [answer p2]. destruct Hq as [Hapi Hq]. split.
  - rewrite Hapi. eexists. by split_and!.
  - rewrite Hq. unfold requested_by. cbn [pf_server with_gos]. by rewrite with_api_queue.
Qed.

Lemma sentence_reaches_agent_witness :
  let msg := encode (sentence 10 0 0 1 1234 30) in
  let script := nl_script (λ _, None) (λ c, [c]) 0 (getAvailableAgents true (pf_api platform0)) msg in
  let '(r, a', gs) := NLChat cenv0 (λ _, false) true true script (Some (msg, "")) "u" "n" (pf_api platform0) in
  r = done_with (NlTaskCreated "abcdefghijkl") ∧ gs = [("abcdefghijkl", mkReq "" 0 0 "10.0.0.1" 1234 30 99 "")].
Proof.
  pose proof (sentence_reaches_agent (λ _, None) (λ c, [c]) 0 10 0 0 1 1234 30 cenv0 (λ _, false) true true true ctx0 env_fine
    "u" "n" platform0 "10.0.0.1" ltac:(by apply Forall_true) ltac:(lia) ltac:(lia) ltac:(lia) ltac:(lia) ltac:(lia) ltac:(lia)
    ltac:(lia) platform0_inv eq_refl eq_refl eq_refl eq_refl eq_refl) as H.
  cbv zeta in H |- *.
  change (genTID (ce_rand cenv0)) with "abcdefghijkl" in H. change (ip_string 10 0 0 1) with "10.0.0.1" in H.
  destruct (NLChat _ _ _ _ _ _ _ _ _) as [[r a'] gs]. destruct H as (-> & -> & _). by split.
Defined.

(** The parser's type 2 (Go) is one that no agent has a profiler for; any text with "go" in
    it, and none of the earlier keywords, asks for it. *)
Example go_sentence_has_no_profiler `{OS W} `{BPF W} :
  extract_profiler_type (λ c, [c]) (u "MongoDB 延迟高") = Some 2 ∧ CreateProfiler (W := W) 2 = None.
Proof. by split. Qed.
