(* ===== verification/Routes.v ===== *)
(** apiserver/main.go and apiserver/middleware: the start of the API server, the middleware
    and the routes in front of its handlers, and who may do what through them; the two
    handlers of nl_handler.go that answer about a task, one of them a stream of events. *)
From stdpp Require Import base gmap strings list relations.
From Stdlib Require Import ZArith Lia Ascii SpecFloat.
From S2P Require Import Prelude CppString Json Proto PGStore ApiStatements ApiServer Scheduler AnalysisScheduler.
From S2P Require Import Server ServerRows ProfileWindow Utf8 NlChat Platform Advisor.

(** * Configuration and start-up *)

Record ServerConfig := mkServerConfig { Port : string; DevMode : bool }.
Record PGConfig := mkPGConfig { DSN : string; MaxOpenConns : Z; MaxIdleConns : Z; ConnMaxLifetime : Z }.
Record S3Config := mkS3Config {
  Endpoint : string; AccessKey : string; SecretKey : string; Bucket : string; UseSSL : bool; PreSignExp : Z }.
Record GRPCConfig := mkGRPCConfig { Addr : string }.
Record LLMConfig := mkLLMConfig {
  APIKey : string; BaseURL : string; Model : string; MaxTokens : Z; Temperature : spec_float }.
Record Config := mkConfig {
  cf_Server : ServerConfig; cf_PG : PGConfig; cf_S3 : S3Config; cf_GRPC : GRPCConfig; cf_LLM : LLMConfig }.

Definition or_zero (x d : Z) : Z := if x =? 0 then d else x.
Definition or_empty (s d : string) : string := if bool_decide (s = "") then d else s.

(** [raw] is what viper read, when it could read and decode the file. *)
Definition Load (raw : option Config) : option Config :=
  match raw with
  | None => None
  | Some (mkConfig (mkServerConfig port dev) (mkPGConfig dsn open idle life)
            (mkS3Config endpoint access secret bucket ssl exp) grpc llm) =>
      Some (mkConfig (mkServerConfig (or_empty port ":8191") dev)
              (mkPGConfig dsn (or_zero open 100) (or_zero idle 10) (or_zero life 3600))
              (mkS3Config endpoint access secret (or_empty bucket "drop-data") ssl (or_zero exp 3600)) grpc llm)
  end.

(** [main] up to [r.Run]: [None] is [log.Fatalf].  [tables] is what the database holds,
    [objects] the bucket; the answers say which of the steps succeed. *)
Record start_env := mkStartEnv {
  st_logger : bool; st_open : bool; st_migrate : bool; st_dial : bool; st_minio : bool; st_find : bool }.

Definition apiserver_main (parses : string → bool) (env : start_env) (devMode : bool) (raw : option Config)
    (tables : api) (objects : gmap string string) : option (bool * string * api) :=
  match Load raw with
  | None => None
  | Some cfg =>
      let dev := devMode || DevMode (cf_Server cfg) in
      if negb (st_logger env && st_open env && st_migrate env) then None else
      let grpcConn := negb (bool_decide (Addr (cf_GRPC cfg) = "")) && st_dial env in
      let objStore := if negb (bool_decide (Endpoint (cf_S3 cfg) = "")) && st_minio env then Some objects else None in
      let srv := mkApi (ap_db tables) (ap_users tables) (ap_agent_gid tables) (ap_multi tables) (ap_groups tables)
        (ap_groups_seq tables) (ap_members tables) (ap_suggestions tables) (ap_segments tables)
        (ap_segments_seq tables) cron_empty grpcConn objStore in
      Some (dev, Port (cf_Server cfg), loadExistingSchedules parses (st_find env) srv)
  end.

(** * NLChatFollowup and NLStreamSSE *)

Definition NLChatFollowup (parses_json : string → bool) (sel_ok sug_ok : bool) (tid : string)
    (req : option string) (a : api) : reply nl_reply :=
  match req with
  | None => fail 400 4000201
  | Some msg =>
      if (String.length msg =? 0)%nat || (1000 <? String.length msg)%nat then fail 400 4000202
      else done_with (nlAnswerAboutTask parses_json sel_ok sug_ok tid a)
  end.

Inductive sse_event :=
  | SseStatus (status : Z) (status_info : string) (analysis_status : Z)
  | SseComplete (suggestions : list suggestion)
  | SseError (text : string).

(** What the [select] of the loop finds: the client has gone, or a tick at a time (in
    nanoseconds), with the answers to the two statements on the state of that time. *)
Inductive stream_poll :=
  | ClientGone
  | PollTick (now : Z) (sel_ok sug_ok : bool) (a : api).

Definition tick_interval : Z := 3 * 1000000000.
Definition stream_timeout : Z := 300 * 1000000000.

Definition status_event (task : task_row) : sse_event :=
  SseStatus (t_status task) (t_status_info task) (c_analysis_status (t_cols task)).

(** The events sent, and whether the handler has returned. *)
Fixpoint NLStreamSSE (tid : string) (start : Z) (polls : list stream_poll) : list sse_event * bool :=
  match polls with
  | [] => ([], false)
  | ClientGone :: _ => ([], true)
  | PollTick now sel_ok sug_ok a :: polls' =>
      if stream_timeout <? now - start then ([SseError "timeout waiting for analysis"], true) else
      match (if sel_ok then find_live tid (ap_db a) else None) with
      | None => ([SseError "task not found"], true)
      | Some task =>
          if c_analysis_status (t_cols task) =? AnalysisStatusSuccess
          then ([status_event task; SseComplete (find_suggestions sug_ok tid a)], true)
          else if c_analysis_status (t_cols task) =? AnalysisStatusFailed
          then ([status_event task; SseError ("analysis failed: " +:+ t_status_info task)], true)
          else if t_status task =? kFailed
          then ([status_event task; SseError ("task failed: " +:+ t_status_info task)], true)
          else let '(events, returned) := NLStreamSSE tid start polls' in (status_event task :: events, returned)
      end
  end.

(** * Routes *)

(** A request after gin has matched and bound it, with what the world answers to the
    statements and calls of its handler. *)
Inductive endpoint :=
  | GET_healthz
  | GET_auth_check
  | POST_upload (put_ok sel_ok upd_ok : bool) (tid filename : string) (file : option string)
  | POST_segments (ok : bool) (tid : string) (req : option (Z * Z * string))
  | GET_users (found created : bool)
  | GET_agents (ok : bool)
  | GET_agent_stat (ok : bool) (proxied : option (list AgentInfo)) (ip : string)
  | POST_tasks (env : create_env) (req : option CreateTaskReq)
  | GET_tasks (count_ok find_ok : bool) (page page_size : Z)
  | GET_task (select_ok list_ok : bool) (tid : string)
  | DELETE_task (del_ok sug_ok list_ok : bool) (obj_ok : string → bool) (now : Z) (tid : string)
  | POST_retry (select_ok : bool) (env : update_env) (tid : string)
  | GET_cosfiles (list_ok : bool) (tid : string)
  | POST_group (ins_ok mem_ok : bool) (name : option string)
  | GET_groups (pluck_ok find_ok : bool)
  | POST_group_member (ok : bool) (req : option (Z * string))
  | DELETE_group_member (ok : bool) (req : option (Z * string))
  | POST_group_agent (ok : bool) (req : option (Z * Z))
  | DELETE_group_agent (ok : bool) (req : option (Z * Z))
  | POST_schedule_task (rand : list Z) (ins_ok : bool) (req : option CreateScheduleReq)
  | GET_schedules (ok : bool)
  | PUT_schedule_toggle (upd_ok sel_ok : bool) (tid : string) (enabled : option bool)
  | DELETE_schedule (ok : bool) (tid : string)
  | GET_segments (ok : bool) (tid : string)
  | GET_profile_window (find_ok : bool) (get_ok : string → bool) (range : gmap string Z → list (string * Z))
      (tid : string) (window : option (Z * Z))
  | GET_suggestions (ok : bool) (tid : string)
  | POST_nl_chat (env : create_env) (sel_ok sug_ok : bool) (script : option (gmap string goval))
      (req : option (string * string))
  | POST_nl_chat_tid (sel_ok sug_ok : bool) (tid : string) (req : option string)
  | GET_nl_stream (tid : string) (start : Z) (polls : list stream_poll).

Inductive body :=
  | BNone
  | BUid (uid : string)
  | BUser (u : user_row)
  | BAgents (l : list agent_row)
  | BAgentInfos (l : list AgentInfo)
  | BTid (tid : string)
  | BTasks (p : task_page)
  | BTask (task : task_row) (files : option (list (string * string)))
  | BFiles (l : list (string * string))
  | BId (id : Z)
  | BGroups (l : list group_row)
  | BSchedule (tid expr : string)
  | BSchedules (l : list (string * multi_task))
  | BToggled (tid : string) (enabled : bool)
  | BSegments (l : list segment)
  | BText (s : string)
  | BSuggestions (l : list suggestion)
  | BNl (r : nl_reply)
  | BEvents (l : list sse_event).

Definition response : Type := reply body.
Definition as_body {A} (f : A → body) (r : reply A) : response := mkReply (http r) (rcode r) (f <$> rdata r).

(** The routes outside the group with the Auth middleware. *)
Definition public (e : endpoint) : bool :=
  match e with
  | GET_healthz | GET_auth_check | POST_upload _ _ _ _ _ _ | POST_segments _ _ _ => true
  | _ => false
  end.

Section Routes.
Context (parses : string → bool) (parses_json : string → bool).

Definition only_replies {A} (f : A → body) (r : reply A) (a : api) : response * api * list goroutine := (as_body f r, a, []).
Definition writes {A} (f : A → body) (x : reply A * api) : response * api * list goroutine := (as_body f x.1, x.2, []).
Definition starts {A} (f : A → body) (x : reply A * api * list goroutine) : response * api * list goroutine :=
  (as_body f x.1.1, x.1.2, x.2).

(** The handler of a route; [uid] and [name] are what Auth put into the context. *)
Definition handle (devMode : bool) (cookie uid name : string) (e : endpoint) (a : api)
    : response * api * list goroutine :=
  match e with
  | GET_healthz => (done_with BNone, a, [])
  | GET_auth_check => only_replies BUid (AuthCheck devMode cookie) a
  | POST_upload b1 b2 b3 tid filename file => writes BTid (UploadTaskFile b1 b2 b3 tid filename file a)
  | POST_segments ok tid req => writes BId (CreateSegment ok tid req a)
  | GET_users b1 b2 => writes BUser (GetUser b1 b2 uid name a)
  | GET_agents ok => only_replies BAgents (ApiServer.ListAgents ok uid a) a
  | GET_agent_stat ok proxied ip => only_replies BAgentInfos (ApiServer.StatAgent ok proxied ip a) a
  | POST_tasks env req => starts BTid (ApiServer.CreateTask env req uid name a)
  | GET_tasks b1 b2 page size => only_replies BTasks (ListTasks b1 b2 uid page size a) a
  | GET_task b1 b2 tid => only_replies (λ x, BTask x.1 x.2) (GetTask b1 b2 tid uid a) a
  | DELETE_task b1 b2 b3 ok now tid => writes BTid (DeleteTask b1 b2 b3 ok now tid uid a)
  | POST_retry ok env tid => starts BTid (RetryTask ok env tid uid a)
  | GET_cosfiles ok tid => only_replies BFiles (ListCosFiles ok tid a) a
  | POST_group b1 b2 gname => writes BId (CreateGroup b1 b2 gname uid a)
  | GET_groups b1 b2 => only_replies BGroups (ListGroups b1 b2 uid a) a
  | POST_group_member ok req => writes (λ _, BNone) (AddGroupMember ok req a)
  | DELETE_group_member ok req => writes (λ _, BNone) (RemoveGroupMember ok req a)
  | POST_group_agent ok req => writes (λ _, BNone) (AddGroupAgent ok req a)
  | DELETE_group_agent ok req => writes (λ _, BNone) (RemoveGroupAgent ok req a)
  | POST_schedule_task rand ok req => writes (λ x, BSchedule x.1 x.2) (CreateScheduleTask parses rand ok req a)
  | GET_schedules ok => only_replies BSchedules (ListSchedules ok a) a
  | PUT_schedule_toggle b1 b2 tid en => writes (λ x, BToggled x.1 x.2) (ToggleSchedule parses b1 b2 tid en a)
  | DELETE_schedule ok tid => writes BTid (DeleteSchedule ok tid a)
  | GET_segments ok tid => only_replies BSegments (ListSegments ok tid a) a
  | GET_profile_window b1 b2 range tid w => only_replies BText (GetProfileWindow b1 b2 range tid w a) a
  | GET_suggestions ok tid => only_replies BSuggestions (ListSuggestions ok tid a) a
  | POST_nl_chat env b1 b2 script req => starts BNl (NLChat env parses_json b1 b2 script req uid name a)
  | POST_nl_chat_tid b1 b2 tid req => only_replies BNl (NLChatFollowup parses_json b1 b2 tid req a) a
  | GET_nl_stream tid start polls => only_replies BEvents (done_with (NLStreamSSE tid start polls).1) a
  end.

(** * Middleware *)

Definition bodyMaxLog : nat := Z.to_nat 10240.

(** The body the next handlers read, and whether the request is logged before them (with
    a status that is not yet set). *)
Definition AccessLog (b : string) : string * bool :=
  let bodyBuf := str_take (S bodyMaxLog) b in
  (bodyBuf +:+ str_drop (S bodyMaxLog) b, (bodyMaxLog <? String.length bodyBuf)%nat).

(** The middleware that may answer a request itself; [allow] is the answer of the rate
    limiter. *)
Definition CORS (options : bool) : option response := if options then Some (fail 204 0) else None.
Definition RateLimit (allow : bool) : option response := if negb allow then Some (fail 429 4290001) else None.

(** [rq_route] is gin: the route of method and path, bound to the body it is given. *)
Record request := mkRequest {
  rq_options : bool;
  rq_body : string;
  rq_route : string → option endpoint;
  rq_uid : string;
  rq_user_name : string;
}.

Definition serve (devMode allow : bool) (rq : request) (a : api) : response * api * list goroutine :=
  let '(b, _) := AccessLog (rq_body rq) in
  match CORS (rq_options rq) with
  | Some r => (r, a, [])
  | None =>
      match RateLimit allow with
      | Some r => (r, a, [])
      | None =>
          match rq_route rq b with
          | None => (fail 404 0, a, [])
          | Some e =>
              if public e then handle devMode (rq_uid rq) "" "" e a else
              match Auth devMode (rq_uid rq) (rq_user_name rq) with
              | None => (fail 401 4010001, a, [])
              | Some (uid, name) => handle devMode (rq_uid rq) uid name e a
              end
          end
      end
  end.

(** * Lemmas *)

Lemma AccessLog_body b : (AccessLog b).1 = b.
Proof. apply str_take_drop. Qed.

(** Without the middleware: what is asked for, of what the body says. *)
Lemma serve_eq devMode allow rq a :
  serve devMode allow rq a =
  if rq_options rq then (fail 204 0, a, []) else
  if negb allow then (fail 429 4290001, a, []) else
  match rq_route rq (rq_body rq) with
  | None => (fail 404 0, a, [])
  | Some e =>
      if public e then handle devMode (rq_uid rq) "" "" e a else
      match Auth devMode (rq_uid rq) (rq_user_name rq) with
      | None => (fail 401 4010001, a, [])
      | Some (uid, name) => handle devMode (rq_uid rq) uid name e a
      end
  end.
Proof.
  unfold serve. rewrite (surjective_pairing (AccessLog _)), AccessLog_body.
  by destruct (rq_options rq), allow.
Qed.

(** ** Requests are steps of the platform *)

Lemma handle_request devMode cookie uid name e a r a' gs :
  handle devMode cookie uid name e a = (r, a', gs) → a' = a ∧ gs = [] ∨ api_request a a' gs.
Proof.
  destruct e; simpl; unfold only_replies, writes, starts; intros [= <- <- <-]; first [by left|right].
  - eapply ar_upload, surjective_pairing.
  - eapply ar_segment, surjective_pairing.
  - eapply ar_user, surjective_pairing.
  - eapply ar_create. rewrite <-!surjective_pairing. done.
  - eapply ar_delete, surjective_pairing.
  - eapply ar_retry. rewrite <-!surjective_pairing. done.
  - eapply ar_group, surjective_pairing.
  - eapply ar_member. left. apply surjective_pairing.
  - eapply ar_member. right. apply surjective_pairing.
  - eapply ar_agent. left. apply surjective_pairing.
  - eapply ar_agent. right. apply surjective_pairing.
  - eapply ar_schedule, ss_create.
  - eapply ar_schedule, ss_toggle.
  - apply (ar_schedule parses), ss_delete.
  - eapply ar_nl. rewrite <-!surjective_pairing. done.
Qed.

Lemma serve_request devMode allow rq a r a' gs :
  serve devMode allow rq a = (r, a', gs) → a' = a ∧ gs = [] ∨ api_request a a' gs.
Proof.
  rewrite serve_eq. destruct (rq_options rq); [by intros; simplify_eq; left|].
  destruct allow; simpl; [|by intros; simplify_eq; left].
  destruct (rq_route _ _) as [e|]; [|by intros; simplify_eq; left].
  destruct (public e); [apply handle_request|].
  destruct (Auth _ _ _) as [[uid name]|]; [apply handle_request|by intros; simplify_eq; left].
Qed.

(** A request that is served is no step of the platform or one of its steps, so what
    [Platform] shows of them holds of everything that comes in over HTTP. *)
Lemma serve_platform devMode allow rq p r a' gs :
  serve devMode allow rq (pf_api p) = (r, a', gs) →
  (a' = pf_api p ∧ gs = []) ∨ pf_step p (requested_by a' gs p).
Proof. intros [?|?]%serve_request; [by left|right; by apply pf_request]. Qed.

(** The server starts with its tables, a listening address and the cron rules registered
    once each. *)
Lemma apiserver_main_ready env devMode raw tables objects dev port a :
  apiserver_main parses env devMode raw tables objects = Some (dev, port, a) →
  port ≠ "" ∧ ap_db a = ap_db tables ∧ cron_ok (ap_cron a) ∧ (ap_store a = Some objects ∨ ap_store a = None).
Proof.
  unfold apiserver_main. destruct raw as [[[p d] [dsn o i l] [e ak sk b ss x] g llm]|]; [|done]. simpl.
  destruct (negb _); [done|]. intros [= <- <- <-]. split_and!.
  - unfold or_empty. by case_bool_decide.
  - by destruct (st_find env).
  - apply loadExistingSchedules_ok, cron_empty_ok.
  - unfold loadExistingSchedules. destruct (st_find env); simpl; destruct (negb _ && _); auto.
Qed.

(** ** What a handler leaves alone *)

Definition object (key : string) (a : api) : option string := ap_store a ≫= λ s, s !! key.

Record task_kept (tid : string) (a a' : api) : Prop := mkKept {
  un_row : hotmethod_task (ap_db a') !! tid = hotmethod_task (ap_db a) !! tid;
  un_objects : ∀ name, object (tid +:+ "/" +:+ name) a' = object (tid +:+ "/" +:+ name) a;
  un_segments : ap_segments a' = ap_segments a;
  un_suggestions : ap_suggestions a' = ap_suggestions a;
}.

#[global] Instance untouched_preorder tid : PreOrder (task_kept tid).
Proof.
  split; [by intros a; split|]. intros a1 a2 a3 [H1 H2 H3 H4] [K1 K2 K3 K4].
  split; [congruence|intros name; congruence|congruence|congruence].
Qed.

Lemma untouched_db tid a a' :
  hotmethod_task (ap_db a') !! tid = hotmethod_task (ap_db a) !! tid → a' = set_db (ap_db a') a → task_kept tid a a'.
Proof. intros Hr E. rewrite E. by split. Qed.

Lemma untouched_update env tid tid' n reason a :
  tid ≠ tid' → task_kept tid a (run_stmt true (UpdateStatus env tid' n reason) a).
Proof.
  intros Hne. apply untouched_db; [|done]. unfold run_stmt. rewrite api_update_effect, ap_db_set_db.
  destruct (api_update_cases env tid' n reason (ap_db a)) as [->|[reason' ->]]; [done|by apply update_spec_other].
Qed.

Lemma untouched_create env tid tid' info cols a a' :
  is_Some (hotmethod_task (ap_db a) !! tid) → create_rows env tid' info cols a = Some a' →
  tid ≠ tid' ∧ task_kept tid a a'.
Proof.
  intros [row Hrow] E. unfold create_rows in E. destruct (_ && _) eqn:Ec; [|done]. simplify_eq.
  apply andb_true_iff in Ec as [_ Hno%bool_decide_eq_true].
  assert (tid ≠ tid') as Hne by congruence. split; [done|]. apply untouched_db; [|by destruct (ce_history env)].
  unfold run_stmt. destruct (ce_history env); simpl; unfold insert_task; rewrite Hno; simpl;
    by rewrite lookup_insert_ne.
Qed.

(** Keys under another id are other keys. *)
Lemma under_other tid tid' name :
  no_char "/" tid → no_char "/" tid' → str_take (String.length (tid' +:+ "/")) (tid +:+ "/" +:+ name) = tid' +:+ "/" →
  tid = tid'.
Proof.
  revert tid'. induction tid as [|x tid IH]; intros [|y tid']; simpl.
  - done.
  - rewrite no_char_cons. intros _ [Hy _] [= ]. congruence.
  - rewrite no_char_cons. intros [Hx _] _ [= ]. congruence.
  - rewrite !no_char_cons. intros [_ H1] [_ H2] [= -> E]. f_equal. by apply IH.
Qed.

Lemma lookup_foldr_delete (keys : list string) (s : gmap string string) k :
  k ∉ keys → foldr delete s keys !! k = s !! k.
Proof.
  induction keys as [|k' keys IH]; [done|]. rewrite not_elem_of_cons. intros [Hne Hk]. simpl.
  rewrite lookup_delete_ne by done. by apply IH.
Qed.

Lemma lookup_deleted_keys (keys : list string) (s : gmap string string) k :
  (∀ v, s !! k = Some v → k ∈ keys) → foldr delete s keys !! k = None.
Proof.
  intros Hk. destruct (s !! k) as [v|] eqn:E.
  - specialize (Hk v eq_refl). clear E. induction Hk as [k keys|k k' keys _ IH]; simpl; [apply lookup_delete_eq|].
    by apply lookup_delete_None; right.
  - clear Hk. induction keys as [|k' keys IH]; simpl; [done|]. by apply lookup_delete_None; right.
Qed.

Lemma delete_suggestions_none ok tid a : delete_suggestions ok tid a = a.
Proof. unfold delete_suggestions. by rewrite andb_false_r. Qed.

Lemma untouched_delete b1 b2 b3 ok now tid tid' uid a row :
  (∀ t, is_Some (hotmethod_task (ap_db a) !! t) → no_char "/" t) →
  hotmethod_task (ap_db a) !! tid = Some row → visible uid (c_uid (t_cols row)) (ap_members a) = false →
  task_kept tid a (DeleteTask b1 b2 b3 ok now tid' uid a).2.
Proof.
  intros Hids Hrow Hvis. unfold DeleteTask. destruct b1; [|done].
  destruct (find_visible tid' uid a) as [row'|] eqn:Ef; [|done]. unfold find_visible in Ef.
  destruct (find_live tid' (ap_db a)) as [r|] eqn:El; [|done]. apply find_live_Some in El as [El _].
  assert (tid ≠ tid') as Hne. { intros ->. rewrite Hrow in El. simplify_eq. by rewrite Hvis in Ef. }
  rewrite delete_suggestions_none. cbn [snd].
  assert (task_kept tid a (run_stmt true (SoftDelete tid' now) a)) as Hsd
    by (apply untouched_db; [simpl; by rewrite lookup_alter_ne|done]).
  etrans; [exact Hsd|]. destruct (ap_store _) as [store|] eqn:Es; [|done]. split; [done| |done|done].
  intros name. unfold object. rewrite Es. cbn [ap_store set_store mbind option_bind]. apply lookup_foldr_delete.
  rewrite list_elem_of_filter. intros [_ Hk]. revert Hk.
  destruct b3; [|apply not_elem_of_nil]. unfold objects_under. rewrite list_elem_of_filter. intros [Hp _].
  apply Hne. eapply under_other; [| |exact Hp]; apply Hids; by eexists.
Qed.

(** Nothing is written and no goroutine started. *)
Ltac quiet := split; [done|apply not_elem_of_nil].

Lemma untouched_retry b env tid tid' uid a row :
  hotmethod_task (ap_db a) !! tid = Some row → visible uid (c_uid (t_cols row)) (ap_members a) = false →
  let x := RetryTask b env tid' uid a in task_kept tid a x.1.2 ∧ tid ∉ map fst x.2.
Proof.
  intros Hrow Hvis x. subst x. unfold RetryTask. destruct b; [|quiet].
  destruct (find_live tid' (ap_db a)) as [r|] eqn:El; [|quiet].
  destruct (bool_decide _ && _) eqn:Ec; [|quiet].
  apply andb_true_iff in Ec as [Ho%bool_decide_eq_true _]. apply find_live_Some in El as [El _].
  assert (tid ≠ tid') as Hne.
  { intros ->. rewrite Hrow in El. simplify_eq. unfold visible in Hvis. by rewrite bool_decide_eq_true_2 in Hvis. }
  rewrite updateTaskStatus_atomic. cbn [committed].
  assert (task_kept tid a (set_db (api_update_spec env tid' kPending "用户触发重试" (ap_db a)) a)) as Hu.
  { rewrite <-api_update_effect. by apply (untouched_update env tid tid' kPending "用户触发重试" a). }
  destruct (api_update_error _ _ _ _); (split; [exact Hu|]); [apply not_elem_of_nil|]. cbn [snd].
  destruct (ap_grpc _); [|apply not_elem_of_nil]. by intros ?%list_elem_of_singleton.
Qed.

Lemma untouched_create_task env req tid uid name a :
  is_Some (hotmethod_task (ap_db a) !! tid) →
  let x := ApiServer.CreateTask env req uid name a in task_kept tid a x.1.2 ∧ tid ∉ map fst x.2.
Proof.
  intros Hrow x. subst x. unfold ApiServer.CreateTask.
  destruct req as [req|]; [|quiet].
  destruct (create_rows _ _ _ _ _) as [a1|] eqn:E; [|quiet].
  apply (untouched_create _ tid) in E as [Hne Hu]; [|done]. destruct (ap_grpc a1); cbn [fst snd map].
  - split; [done|]. by intros ?%list_elem_of_singleton.
  - split; [|apply not_elem_of_nil]. etrans; [exact Hu|]. by apply untouched_update.
Qed.

Lemma untouched_nl env b1 b2 script req tid uid name a :
  is_Some (hotmethod_task (ap_db a) !! tid) →
  let x := NLChat env parses_json b1 b2 script req uid name a in task_kept tid a x.1.2 ∧ tid ∉ map fst x.2.
Proof.
  intros Hrow x. subst x. unfold NLChat.
  destruct req as [[msg about]|]; [|quiet].
  destruct (_ || _); [quiet|]. destruct (negb _); [quiet|].
  destruct (utf8 _); [|quiet].
  destruct (create_rows _ _ _ _ _) as [a1|] eqn:E; [|quiet].
  apply (untouched_create _ tid) in E as [Hne Hu]; [|done]. split; [done|]. cbn [snd].
  destruct (ap_grpc a1); [|apply not_elem_of_nil]. by intros ?%list_elem_of_singleton.
Qed.

Lemma sched_step_untouched tid a a' :
  sched_step parses a a' → task_kept tid a a'.
Proof.
  destruct 1 as [rand ok req a|ok1 ok2 t en a|ok t a|env ok1 ok2 id expr t a _].
  - unfold CreateScheduleTask. destruct req; [|done]. by destruct (_ && _).
  - unfold ToggleSchedule. destruct en as [en|]; [|done]. by case_match.
  - unfold DeleteSchedule. by case_match.
  - by rewrite dispatchContinuousTask_nothing.
Qed.

Lemma handle_untouched devMode cookie uid name e a tid row :
  public e = false →
  (∀ t, is_Some (hotmethod_task (ap_db a) !! t) → no_char "/" t) →
  hotmethod_task (ap_db a) !! tid = Some row → visible uid (c_uid (t_cols row)) (ap_members a) = false →
  let x := handle devMode cookie uid name e a in task_kept tid a x.1.2 ∧ tid ∉ map fst x.2.
Proof.
  intros Hp Hids Hrow Hvis x. subst x.
  assert (is_Some (hotmethod_task (ap_db a) !! tid)) as Hsome by (by eexists).
  assert (∀ A (f : A → body) (y : reply A * api), task_kept tid a y.2 →
    task_kept tid a (writes f y).1.2 ∧ tid ∉ map fst (writes f y).2) as Hw
    by (intros; quiet).
  destruct e; try done; simpl handle; try apply Hw; try quiet.
  - unfold GetUser. case_match; [done|]. by destruct (_ && _).
  - by apply untouched_create_task.
  - by eapply untouched_delete.
  - by eapply untouched_retry.
  - unfold CreateGroup. destruct name0; [|done]. destruct (_ && _); [|done]. by destruct mem_ok.
  - unfold AddGroupMember. destruct req; [|done]. by destruct ok.
  - unfold RemoveGroupMember. destruct req; [|done]. by destruct ok.
  - unfold AddGroupAgent. destruct req as [[]|]; [|done]. simpl. by destruct (_ && _).
  - unfold RemoveGroupAgent. destruct req as [[]|]; [|done]. simpl. by destruct (_ && _).
  - apply sched_step_untouched, ss_create.
  - apply sched_step_untouched, ss_toggle.
  - apply sched_step_untouched, ss_delete.
  - by apply untouched_nl.
Qed.

(** ** What a user sees *)

Lemma GetTask_invisible b1 b2 tid uid a row :
  hotmethod_task (ap_db a) !! tid = Some row → visible uid (c_uid (t_cols row)) (ap_members a) = false →
  GetTask b1 b2 tid uid a = fail 404 4040001.
Proof.
  intros Hrow Hvis. unfold GetTask, find_visible, find_live. rewrite Hrow. destruct b1; [|done].
  destruct (deleted row); [done|]. by rewrite Hvis.
Qed.

Lemma ListTasks_visible b1 b2 uid page size a p tid row :
  rdata (ListTasks b1 b2 uid page size a) = Some p → (tid, row) ∈ pg_list p →
  hotmethod_task (ap_db a) !! tid = Some row ∧ deleted row = false ∧
  visible uid (c_uid (t_cols row)) (ap_members a) = true.
Proof.
  unfold ListTasks. intros [= <-] Hin. cbn [pg_list] in Hin.
  assert ((tid, row) ∈ merge_sort newer (visible_tasks uid a)) as Hin'.
  { destruct (negb b2); [by apply not_elem_of_nil in Hin|].
    destruct (_ <? 0); [|apply elem_of_take in Hin as (i & Hi & _); apply list_elem_of_lookup_2 in Hi as Hin];
      apply list_elem_of_lookup in Hin as [j Hj]; rewrite lookup_drop in Hj; by eapply list_elem_of_lookup_2. }
  rewrite merge_sort_Permutation in Hin'. unfold visible_tasks in Hin'.
  apply list_elem_of_filter in Hin' as [Hb Hm]. apply elem_of_map_to_list in Hm. simpl in Hb.
  apply Is_true_true, andb_true_iff in Hb as [Hd%negb_true_iff Hv]. done.
Qed.

Lemma handle_lists devMode cookie uid name e a r a' gs :
  handle devMode cookie uid name e a = (r, a', gs) →
  (∀ p tid row, rdata r = Some (BTasks p) → (tid, row) ∈ pg_list p →
     hotmethod_task (ap_db a) !! tid = Some row ∧ visible uid (c_uid (t_cols row)) (ap_members a) = true) ∧
  (∀ l, rdata r = Some (BAgents l) → Forall (λ x, visible uid (a_uid x) (ap_members a) = true) l) ∧
  (∀ l, rdata r = Some (BGroups l) → Forall (λ g, (gr_gid g, uid) ∈ ap_members a) l).
Proof.
  intros Hs.
  assert (∀ A (f : A → body) (x : reply A) y, rdata (as_body f x) = Some y → ∃ z, rdata x = Some z ∧ y = f z) as Hb.
  { intros A f [h c [z|]] y; simpl; [|done]. intros [= <-]. eauto. }
  split_and!; intros l; [intros tid row|..]; intros Hl; destruct e; simpl in Hs; unfold only_replies, writes, starts in Hs;
    injection Hs as <- <- <-; try done; apply Hb in Hl as (z & Hz & ?); try done; simplify_eq.
  - intros Hin. destruct (ListTasks_visible _ _ _ _ _ _ _ _ _ Hz Hin) as (? & _ & ?). done.
  - unfold ApiServer.ListAgents in Hz. simplify_eq/=. destruct ok; [|done]. apply Forall_forall.
    intros x [Hv _]%list_elem_of_filter. by apply Is_true_true.
  - unfold ListGroups in Hz. simplify_eq/=. destruct (negb _); [done|]. apply Forall_forall.
    by intros x [Hv _]%list_elem_of_filter.
Qed.

Lemma serve_protected devMode allow rq a r a' gs :
  serve devMode allow rq a = (r, a', gs) →
  (∀ e, rq_route rq (rq_body rq) = Some e → public e = false) →
  (a' = a ∧ gs = [] ∧ rdata r = None) ∨
  ∃ e uid name, rq_route rq (rq_body rq) = Some e ∧ Auth devMode (rq_uid rq) (rq_user_name rq) = Some (uid, name) ∧
    handle devMode (rq_uid rq) uid name e a = (r, a', gs).
Proof.
  rewrite serve_eq. intros Hs Hp. destruct (rq_options rq); [by simplify_eq; left|].
  destruct (negb allow); [by simplify_eq; left|]. destruct (rq_route _ _) as [e|]; [|by simplify_eq; left].
  rewrite (Hp e) in Hs by done. destruct (Auth _ _ _) as [[uid name]|]; [|by simplify_eq; left]. right. eauto 10.
Qed.
End Routes.

(** ** Joining the owner of a task *)

Lemma shares_group_intro uid owner members gid :
  (gid, owner) ∈ members → (gid, uid) ∈ members → shares_group uid owner members = true.
Proof.
  intros H1 H2. unfold shares_group. apply existsb_exists. exists (gid, owner).
  split; [by apply list_elem_of_In, elem_of_elements|]. simpl. by rewrite !bool_decide_eq_true_2.
Qed.

Lemma joined uid gname owner a :
  Forall (λ g, gr_name g ≠ gname) (ap_groups a) →
  let a1 := (CreateGroup true true (Some gname) uid a).2 in
  let a2 := (AddGroupMember true (Some (ap_groups_seq a + 1, owner)) a1).2 in
  ap_db a2 = ap_db a ∧ ap_store a2 = ap_store a ∧ visible uid owner (ap_members a2) = true.
Proof.
  intros Hg a1 a2. subst a2 a1. unfold CreateGroup. rewrite (bool_decide_eq_true_2 _ Hg). split_and!; [done..|].
  unfold visible. apply orb_true_iff. right. apply (shares_group_intro _ _ _ (ap_groups_seq a + 1)); simpl; set_solver.
Qed.

Lemma deletes_visible now tid uid row a store :
  find_live tid (ap_db a) = Some row → visible uid (c_uid (t_cols row)) (ap_members a) = true → ap_store a = Some store →
  let a' := (DeleteTask true true true (λ _, true) now tid uid a).2 in
  hotmethod_task (ap_db a') !! tid = Some (with_cols (set_deleted now) row) ∧
  find_live tid (ap_db a') = None ∧ ∀ key, object (tid +:+ "/" +:+ key) a' = None.
Proof.
  intros Hf Hv Hst a'. subst a'. unfold DeleteTask, find_visible. rewrite Hf, Hv, delete_suggestions_none.
  apply find_live_Some in Hf as [Hrow Hd].
  assert (hotmethod_task (ap_db (run_stmt true (SoftDelete tid now) a)) !! tid = Some (with_cols (set_deleted now) row))
    as Hrow' by (simpl; rewrite lookup_alter_eq, Hrow; simpl; unfold if_live; by rewrite Hd).
  change (ap_store (run_stmt _ _ _)) with (ap_store a). rewrite Hst. cbn [snd set_store ap_db].
  split_and!; [done|by unfold find_live; rewrite Hrow'|]. intros key. unfold object. simpl.
  apply lookup_deleted_keys. intros v Hk. unfold objects_under. apply list_elem_of_filter. split; [done|].
  apply list_elem_of_filter. split.
  - rewrite <-str_app_assoc. apply str_take_app.
  - apply list_elem_of_fmap. exists (tid +:+ "/" +:+ key, v). split; [done|by apply elem_of_map_to_list].
Qed.

Lemma upload_overwrites tid filename content store a :
  tid ≠ "" → ap_store a = Some store →
  object (tid +:+ "/" +:+ filename) (UploadTaskFile true true true tid ("/" +:+ filename) (Some content) a).2 = Some content.
Proof.
  intros Ht Hst. pose proof (upload_key true true tid filename content a store Ht Hst) as H.
  change ("/" +:+ filename) with (String "/"%char filename). destruct (UploadTaskFile _ _ _ _ _ _ _) as [r a'].
  destruct H as (_ & Hs & _). unfold object. cbn [snd]. rewrite Hs. cbn [mbind option_bind]. apply lookup_insert_eq.
Qed.
(** * Claims *)

(** C22: Access control of the REST interface, request by request.  Without a user a request
    to a protected route changes nothing, starts nothing and is answered without data.
    With one, a request changes nothing of a task that the user does not see (neither
    his nor of someone he shares a group with): not its row, its objects in the
    storage, any segment or suggestion, and no goroutine is started for it; asking for
    the task finds nothing, and the lists of tasks, agents and groups hold only what
    the user sees.  Other routes that read (files, segments, suggestions, profile
    windows, schedules, chat and stream) do not ask who the user is, and nothing is
    said of their answers. *)
Theorem access_control parses parses_json devMode allow rq a r a' gs :
  serve parses parses_json devMode allow rq a = (r, a', gs) →
  (∀ e, rq_route rq (rq_body rq) = Some e → public e = false) →
  match Auth devMode (rq_uid rq) (rq_user_name rq) with
  | None => a' = a ∧ gs = [] ∧ rdata r = None
  | Some (uid, _) =>
      (∀ tid row, hotmethod_task (ap_db a) !! tid = Some row →
         visible uid (c_uid (t_cols row)) (ap_members a) = false →
         (∀ t, is_Some (hotmethod_task (ap_db a) !! t) → no_char "/" t) →
         task_kept tid a a' ∧ (tid ∉ map fst gs) ∧
         (∀ b1 b2, rq_route rq (rq_body rq) = Some (GET_task b1 b2 tid) → rdata r = None) ∧
         (∀ p, rdata r = Some (BTasks p) → tid ∉ map fst (pg_list p))) ∧
      (∀ l, rdata r = Some (BAgents l) → Forall (λ x, visible uid (a_uid x) (ap_members a) = true) l) ∧
      (∀ l, rdata r = Some (BGroups l) → Forall (λ g, (gr_gid g, uid) ∈ ap_members a) l)
  end.
Proof.
  intros Hs Hp. apply serve_protected in Hs as [(-> & -> & Hr)|(e & uid & name & He & HA & Hs)]; [| |done].
  { rewrite Hr. destruct (Auth _ _ _) as [[uid name]|]; [|done]. split; [|done]. intros tid row _ _ _.
    split_and!; [done|apply not_elem_of_nil|done|done]. }
  rewrite HA. destruct (handle_lists _ _ _ _ _ _ _ _ _ _ _ Hs) as (Ht & Hag & Hg). split_and!; [|done|done].
  intros tid row Hrow Hvis Hids.
  destruct (handle_untouched parses parses_json devMode (rq_uid rq) uid name e a tid row) as [Hu Hgs];
    [by apply Hp|done|done|done|]. rewrite Hs in Hu, Hgs. split_and!; [done|done| |].
  - intros b1 b2 He'. rewrite He in He'. simplify_eq/=. unfold only_replies in Hs.
    rewrite (GetTask_invisible _ _ _ _ _ row) in Hs by done. by simplify_eq.
  - intros p Hpg ([tid' row'] & ? & Hin)%list_elem_of_fmap. simpl in *. subst tid'.
    destruct (Ht p tid row') as [Hrow' Hv]; [done..|]. congruence.
Qed.

Definition owned (uid : string) : task_row :=
  mkTask kDone "" (Some 1) (Some 9) (new_columns "x" 0 0 "10.0.0.1" (JObj []) uid "n" 0 "").
Definition api_two : api :=
  set_db (mkDb [] 0 {["aaaa" := owned "alice"; "bbbb" := owned "bob"]} [] []) (set_store (Some {["aaaa/perf.data" := "x"]}) api0).
Definition asks (uid : string) (e : endpoint) : request := mkRequest false "" (λ _, Some e) uid "".

Lemma access_control_witness :
  let x := serve (λ _, true) (λ _, true) false true (asks "bob" (DELETE_task true true true (λ _, true) 5 "aaaa")) api_two in
  task_kept "aaaa" api_two x.1.2 ∧ http x.1.1 = 404.
Proof.
  split; [|reflexivity].
  pose proof (access_control (λ _, true) (λ _, true) false true (asks "bob" (DELETE_task true true true (λ _, true) 5 "aaaa")) api_two
    _ _ _ eq_refl ltac:(intros e [= <-]; reflexivity)) as [H _].
  apply (H "aaaa" (owned "alice")); [reflexivity|reflexivity|].
  intros t Ht. cbn in Ht. destruct Ht as [row [[<- _]|[_ [<- _]%lookup_singleton_Some]]%lookup_insert_Some];
    reflexivity.
Defined.

(** C38: What the rule above is worth.  Members are added to groups without a check, so any
    user makes every task his to see: he creates a group with an unused name, puts the
    owner of the task into it, and may delete the task, row and objects.  And without
    any user at all the objects of every task can be overwritten, since the upload
    route is outside the protected group. *)
Theorem access_control_bypassed parses parses_json uid name gname tid row now filename content store a :
  uid ≠ "" → tid ≠ "" → find_live tid (ap_db a) = Some row → Forall (λ g, gr_name g ≠ gname) (ap_groups a) →
  ap_store a = Some store →
  let send u e s := (serve parses parses_json false true (mkRequest false "" (λ _, Some e) u name) s).1.2 in
  let a1 := send uid (POST_group true true (Some gname)) a in
  let a2 := send uid (POST_group_member true (Some (ap_groups_seq a + 1, c_uid (t_cols row)))) a1 in
  let a3 := send uid (DELETE_task true true true (λ _, true) now tid) a2 in
  hotmethod_task (ap_db a3) !! tid = Some (with_cols (set_deleted now) row) ∧
  find_live tid (ap_db a3) = None ∧
  (∀ key, object (tid +:+ "/" +:+ key) a3 = None) ∧
  object (tid +:+ "/" +:+ filename) (send "" (POST_upload true true true tid ("/" +:+ filename) (Some content)) a) =
    Some content.
Proof.
  intros Hu Ht Hf Hg Hst send a1 a2 a3.
  assert (∀ e s, public e = false → send uid e s = (handle parses parses_json false uid uid name e s).1.2) as Hsend.
  { intros e s He. subst send. simpl. rewrite serve_eq. simpl. rewrite He. unfold Auth. simpl.
    by rewrite bool_decide_eq_false_2 by done. }
  assert (ap_db a2 = ap_db a ∧ ap_store a2 = ap_store a ∧ visible uid (c_uid (t_cols row)) (ap_members a2) = true)
    as (Hdb & Hstore & Hvis).
  { subst a2 a1. rewrite !Hsend by done. apply (joined uid gname (c_uid (t_cols row)) a Hg). }
  split_and!.
  1-3: subst a3; rewrite Hsend by done; apply (deletes_visible now tid uid row _ store); congruence.
  subst send. cbv beta. rewrite serve_eq. cbn [rq_options rq_route public negb handle writes fst snd].
  by eapply upload_overwrites.
Qed.

Lemma access_control_bypassed_witness :
  let send u e s := (serve (λ _, true) (λ _, true) false true (mkRequest false "" (λ _, Some e) u "Bob") s).1.2 in
  let a1 := send "bob" (POST_group true true (Some "g")) api_two in
  let a2 := send "bob" (POST_group_member true (Some (1, "alice"))) a1 in
  hotmethod_task (ap_db (send "bob" (DELETE_task true true true (λ _, true) 5 "aaaa") a2)) !! "aaaa" =
    Some (with_cols (set_deleted 5) (owned "alice")).
Proof.
  apply (access_control_bypassed (λ _, true) (λ _, true) "bob" "Bob" "g" "aaaa" (owned "alice") 5 "f" ""
    {["aaaa/perf.data" := "x"]} api_two);
    [discriminate|discriminate|reflexivity|constructor|reflexivity].
Defined.

(** ** The stream *)

(** The ticks of a ticker made at [created]: the [n]-th that is received comes no earlier
    than [n] intervals later. *)
Fixpoint ticker (created : Z) (n : nat) (polls : list stream_poll) : Prop :=
  match polls with
  | [] => True
  | ClientGone :: _ => True
  | PollTick now _ _ _ :: polls' => created + tick_interval * Z.of_nat n <= now ∧ ticker created (S n) polls'
  end.

(** A stream_poll that finds the task at work. *)
Definition at_work (tid : string) (start : Z) (p : stream_poll) (task : task_row) : Prop :=
  match p with
  | ClientGone => False
  | PollTick now sel_ok _ a =>
      now - start <= stream_timeout ∧ sel_ok = true ∧ find_live tid (ap_db a) = Some task ∧
      c_analysis_status (t_cols task) ≠ AnalysisStatusSuccess ∧
      c_analysis_status (t_cols task) ≠ AnalysisStatusFailed ∧ t_status task ≠ kFailed
  end.

Lemma stream_at_work tid start polls tasks polls' :
  Forall2 (at_work tid start) polls tasks →
  NLStreamSSE tid start (polls ++ polls') =
  let '(events, returned) := NLStreamSSE tid start polls' in (map status_event tasks ++ events, returned)%list.
Proof.
  induction 1 as [|p task polls tasks Hp _ IH]; simpl; [by destruct (NLStreamSSE _ _ _)|].
  destruct p as [|now sel_ok sug_ok a]; [done|]. destruct Hp as (Hnow & -> & Hf & H1 & H2 & H3).
  rewrite IH, Hf.
  rewrite (proj2 (Z.ltb_ge _ _)) by done.
  rewrite (proj2 (Z.eqb_neq _ _) H1), (proj2 (Z.eqb_neq _ _) H2), (proj2 (Z.eqb_neq _ _) H3).
  by destruct (NLStreamSSE tid start polls').
Qed.

Lemma stream_returns tid start created polls n :
  ticker created (S n) polls → created <= start →
  stream_timeout + (start - created) < tick_interval * Z.of_nat (n + length polls) →
  tick_interval * Z.of_nat n <= stream_timeout + (start - created) →
  (NLStreamSSE tid start polls).2 = true ∧ (length (NLStreamSSE tid start polls).1 <= S (length polls))%nat.
Proof.
  revert n. induction polls as [|p polls IH]; intros n Ht Hc Hl Hn; simpl; [rewrite Nat.add_0_r in Hl; lia|].
  destruct p as [|now sel_ok sug_ok a]; [split; [done|simpl; lia]|]. destruct Ht as [Hnow Ht].
  destruct (Z.ltb_spec stream_timeout (now - start)) as [|Hno]; [split; [done|simpl; lia]|].
  destruct (if sel_ok then _ else _) as [task|]; [|split; [done|simpl; lia]].
  do 3 (destruct (_ =? _); [split; [done|simpl; lia]|]).
  destruct (IH (S n)) as [Hr Hlen]; [done|done|simpl in Hl; by rewrite Nat.add_succ_r in Hl|lia|].
  destruct (NLStreamSSE tid start polls) as [ev ret]. simpl in *. split; [done|lia].
Qed.

(** C33: The stream about a task ends: whatever the database answers, when the ticker ticks
    for longer than the five minutes (a hundred and one ticks are enough when the start
    is taken within three seconds of the ticker) the handler has returned, with at most
    two events for the last tick and one for each other.  Until then it reports: after
    polls that found the task at work, the stream_poll that finds its analysis done sends that
    state and completes the stream, with no suggestions whatever was stored, since they
    are looked up by a column their table does not have. *)
Theorem stream_ends tid start created polls :
  ticker created 1 polls → created <= start →
  stream_timeout + (start - created) < tick_interval * Z.of_nat (length polls) →
  (NLStreamSSE tid start polls).2 = true ∧
  (length (NLStreamSSE tid start polls).1 <= S (length polls))%nat ∧
  ∀ before tasks now sug_ok a task after,
    polls = before ++ PollTick now true sug_ok a :: after → Forall2 (at_work tid start) before tasks →
    now - start <= stream_timeout → find_live tid (ap_db a) = Some task →
    c_analysis_status (t_cols task) = AnalysisStatusSuccess →
    NLStreamSSE tid start polls = (map status_event (tasks ++ [task]) ++ [SseComplete []], true)%list.
Proof.
  intros Ht Hc Hl. destruct (stream_returns tid start created polls 0) as [Hr Hlen]; [done|done|done| |].
  { unfold stream_timeout. lia. }
  split_and!; [done|done|]. intros before tasks now sug_ok a task after -> Hw Hnow Hf Hs.
  rewrite (stream_at_work _ _ _ _ _ Hw). simpl. rewrite (proj2 (Z.ltb_ge _ _)) by done.
  rewrite Hf, Hs, find_suggestions_none. simpl. by rewrite map_app, <-app_assoc.
Qed.

(** The analysis of a task of alice is running for a hundred polls, then done. *)
Definition analysed (st : Z) : api :=
  set_db (mkDb [] 0 {["aaaa" := with_cols (set_analysis st) (owned "alice")]} [] []) api0.
Definition polls0 : list stream_poll :=
  map (λ n, PollTick (tick_interval * Z.of_nat n) true true (analysed (if (n =? 50)%nat then 2 else 1))) (seq 1 101).

Lemma stream_ends_witness :
  (NLStreamSSE "aaaa" 0 polls0).2 = true ∧ length (NLStreamSSE "aaaa" 0 polls0).1 = 51%nat.
Proof.
  split; [|vm_compute; reflexivity]. apply (stream_ends "aaaa" 0 0 polls0).
  - vm_compute. repeat split; discriminate.
  - lia.
  - vm_compute. reflexivity.
Defined.
