(* ===== verification/ContinuousView.v ===== *)
(** Continuous profiling from the memory of the agent to the view of the user: the agent's
    [flush_segment] of continuous_profiler.cpp, run in a world whose curl talks to the
    API server, and GetProfileWindow on what it leaves there. *)
From stdpp Require Import base gmap strings list.
From Stdlib Require Import ZArith Lia Ascii.
From S2P Require Import Prelude CppString OrdMap OS Collapsed Proto Json PGStore ApiStatements ApiServer.
From S2P Require Import ContinuousProfiler Scheduler ProfileWindow Routes.

(** * A world with the API server behind curl *)

(** The requests the agent makes, and the file an upload sends. *)
Inductive http_call :=
  | CallUpload (path tid rel : string)
  | CallSegment (tid : string) (start_ts end_ts : Z) (key : string).

Section World.
Context {W : Type} `{OS W} (parses parses_json : string → bool).
(** What curl makes of a command line. *)
Context (curl : string → option http_call).

(** A request of the agent: no cookies. *)
Definition post (e : endpoint) (a : api) : Z * api :=
  let '(r, a', _) := serve parses parses_json false true (mkRequest false "" (λ _, Some e) "" "") a in (http r, a').

(** The status and the server afterwards; [None] when there is no such file. *)
Definition perform (call : http_call) (w : W * api) : option (Z * api) :=
  match call with
  | CallUpload path tid rel =>
      (λ c, post (POST_upload true true true tid ("/" +:+ rel) (Some c)) w.2) <$> os_read path w.1
  | CallSegment tid st en key => Some (post (POST_segments true tid (Some (st, en, key))) w.2)
  end.

(** [curl -sf -w '%{http_code}']: the status is printed; exit status 22 for an error of the
    server, 26 for a file that cannot be read. *)
Definition run_curl (c : string) (w : W * api) : option (string * Z) * (W * api) :=
  match curl c with
  | None => below (os_popen c) w
  | Some call =>
      match perform call w with
      | None => (Some ("000", 26 * 256), w)
      | Some (status, a') => (Some (to_string status, if status =? 200 then 0 else 22 * 256), (w.1, a'))
      end
  end.

#[local] Instance world_os : OS (W * api) := {|
  os_mkdirs p := below (os_mkdirs p);
  os_exists p w := os_exists p w.1;
  os_size p w := os_size p w.1;
  os_read p w := os_read p w.1;
  os_write p c := below (os_write p c);
  os_remove p := below (os_remove p);
  os_chmod p := below (os_chmod p);
  os_spawn r := below (os_spawn r);
  os_popen := run_curl;
  os_pipe_run a := below (os_pipe_run a);
  os_self_exe w := os_self_exe w.1;
  os_cwd w := os_cwd w.1;
  os_canonical p w := os_canonical p w.1;
  os_getenv v w := os_getenv v w.1;
  os_now w := os_now w.1;
  os_sleep d w := (os_sleep d w.1, w.2);
|}.

(** * Lemmas *)

(** ** Paths *)

Definition segment_name (ts : Z) : string := to_string ts +:+ "/collapsed.txt".
Definition segment_key (tid : string) (ts : Z) : string := tid +:+ "/" +:+ segment_name ts.

Lemma to_string_no_slash n : 0 <= n → no_char "/" (to_string n).
Proof.
  intros Hn. rewrite to_string_nonneg by done. apply print_base_no_char; [lia|done|]. intros d Hd.
  assert (Forall (λ n, digit_char (Z.of_nat n) ≠ "/"%char) (seq 0 36)) as Hf by (repeat constructor; done).
  rewrite Forall_forall in Hf. rewrite <-(Z2Nat.id d) by lia. apply Hf, elem_of_seq. lia.
Qed.

Lemma relative_path_segment dir s :
  0 <= segment_start_ts s → relative_path (segment_file dir s) = Ret (segment_name (segment_start_ts s)).
Proof.
  intros Hts%to_string_no_slash. unfold relative_path, segment_file, segment_name. set (t := to_string _) in *.
  set (base := dir +:+ String "/" t).
  assert (dir +:+ "/" +:+ t +:+ "/collapsed.txt" = base +:+ String "/" "collapsed.txt") as E
    by (unfold base; rewrite str_app_assoc; done).
  rewrite E, rfind_app by done. assert (String.length base = S (String.length dir + String.length t)) as Hl
    by (unfold base; rewrite str_length_app; simpl; lia).
  rewrite Hl. unfold rfind_upto. rewrite <-Hl, str_take_app. unfold base at 1. rewrite rfind_app by done.
  unfold substr. rewrite bool_decide_eq_true_2 by (rewrite str_length_app; lia). f_equal.
  unfold base. rewrite str_app_assoc. apply (str_drop_app_S dir "/"%char (t +:+ "/collapsed.txt")).
Qed.

(** ** The requests *)

Lemma post_upload tid rel content a store :
  tid ≠ "" → ap_store a = Some store →
  let '(status, a') := post (POST_upload true true true tid ("/" +:+ rel) (Some content)) a in
  status = 200 ∧ ap_store a' = Some (<[tid +:+ "/" +:+ rel := content]> store) ∧ ap_segments a' = ap_segments a.
Proof.
  intros Htid Hst. unfold post. rewrite serve_eq. cbn [rq_options rq_route public negb handle writes].
  pose proof (upload_key true true tid rel content a store Htid Hst) as Hk.
  change ("/" +:+ rel) with (String "/"%char rel).
  assert (ap_segments (UploadTaskFile true true true tid (String "/"%char rel) (Some content) a).2 = ap_segments a) as Hseg.
  { unfold UploadTaskFile. destruct (_ || _); [done|]. rewrite Hst. simpl. by repeat case_match. }
  assert (http (UploadTaskFile true true true tid (String "/"%char rel) (Some content) a).1 = 200) as Hh.
  { unfold UploadTaskFile. rewrite !bool_decide_eq_false_2 by done. simpl. by rewrite Hst. }
  destruct (UploadTaskFile _ _ _ _ _ _ _) as [r a']. destruct Hk as (_ & Hk & _). done.
Qed.

Lemma post_segment tid st en key a :
  post (POST_segments true tid (Some (st, en, key))) a = (200, add_segment tid st en key a).
Proof. done. Qed.

(** ** One flush *)

Lemma flush_runs tid dir s w a store w1 w2 n :
  let f := segment_file dir s in
  let ts := segment_start_ts s in
  let text := collapsed_text (stacks_ s) in
  curl (c_str (upload_command (apiserver_addr s) tid f (segment_name ts))) = Some (CallUpload f tid (segment_name ts)) →
  curl (c_str (register_command (apiserver_addr s) tid ts (os_now w) (segment_key tid ts))) =
    Some (CallSegment tid ts (os_now w) (segment_key tid ts)) →
  os_mkdirs (dir +:+ "/" +:+ to_string ts) w = (true, w1) → os_write f text w1 = (true, w2) →
  os_read f w2 = Some text → os_size f w2 = Some n →
  tid ≠ "" → 0 <= ts → ap_store a = Some store →
  ∃ a', flush_segment tid dir s (w, a) =
    (Ret (true, "", mkC [] ts (apiserver_addr s) (flushed_files s ++ [segment_name ts])), (w2, a')) ∧
    ap_store a' = Some (<[segment_key tid ts := text]> store) ∧
    ap_segments a' = ap_segments a ++ [mkSegment (ap_segments_seq a' ) tid ts (os_now w) (segment_key tid ts)].
Proof.
  intros f ts text Hup Hreg Hmk Hwr Hrd Hsz Htid Hts Hst.
  pose proof (post_upload tid (segment_name ts) text a store Htid Hst) as Hpost.
  destruct (post _ _) as [status a1] eqn:Epost. destruct Hpost as (-> & Hst1 & Hseg1).
  exists (add_segment tid ts (os_now w) (segment_key tid ts) a1). split_and!; [|done|simpl; by rewrite Hseg1].
  unfold flush_segment. rewrite (prog_bind_step _ _ _ (os_now w) (w, a)) by done. cbv beta zeta.
  rewrite (prog_bind_step _ _ _ tt (w1, a))
    by (unfold create_directories; simpl; unfold below; simpl; fold ts; by rewrite Hmk).
  rewrite (prog_bind_step _ _ _ true (w2, a))
    by (unfold write_file, act; simpl; unfold below; simpl; fold f text; by rewrite Hwr).
  cbn [negb]. rewrite (prog_bind_step _ _ _ n (w2, a)) by (unfold file_size, fs_gets; simpl; fold f; by rewrite Hsz).
  rewrite (prog_bind_step _ _ _ (true, segment_key tid ts) (w2, a1)).
  2: { unfold upload_segment. fold f. rewrite (prog_bind_step _ _ _ (segment_name ts) (w2, a))
         by (unfold lift; f_equal; by apply relative_path_segment).
       rewrite (prog_bind_step _ _ _ (Some ("200", 0)) (w2, a1)); [by vm_compute|].
       unfold popen, act. cbn [os_popen world_os]. unfold run_curl. cbn [apiserver_addr set_stacks]. rewrite Hup.
       cbn [perform fst snd]. rewrite Hrd. cbn [fmap option_fmap option_map]. by rewrite Epost. }
  cbn [negb]. rewrite (prog_bind_step _ _ _ true (w2, add_segment tid ts (os_now w) (segment_key tid ts) a1)); [done|].
  unfold register_segment. rewrite (prog_bind_step _ _ _ (Some ("200", 0)) (w2, add_segment tid ts (os_now w) (segment_key tid ts) a1));
    [by vm_compute|].
  unfold popen, act. cbn [os_popen world_os]. unfold run_curl. cbn [apiserver_addr set_stacks segment_start_ts].
  fold ts. by rewrite Hreg.
Qed.
End World.

(** * What the server shows *)

(** A segment as it was flushed: when it began, when it ended, and the stacks. *)
Definition flushed : Type := Z * Z * stacks.

Definition segment_of (tid : string) (g : segment) (f : flushed) : Prop :=
  seg_tid g = tid ∧ start_ts g = f.1.1 ∧ end_ts g = f.1.2 ∧ s3_key g = segment_key tid f.1.1.

(** The server has the segments [l] of the task, with their files. *)
Record shows (tid : string) (l : list flushed) (a : api) : Prop := mkShows {
  sh_segments : Forall2 (segment_of tid) (filter (λ g, seg_tid g = tid) (ap_segments a)) l;
  sh_objects : Forall (λ f, object (segment_key tid f.1.1) a = Some (collapsed_text f.2)) l;
}.

Definition in_window (start end_ : Z) (f : flushed) : Prop := f.1.1 < end_ ∧ start < f.1.2.
#[global] Instance in_window_dec start end_ f : Decision (in_window start end_ f).
Proof. unfold in_window. apply _. Defined.
Definition samples_in (start end_ : Z) (l : list flushed) : list (string * Z) :=
  concat (map snd (filter (in_window start end_) l)).

(** ** Lemmas *)

#[global] Instance total_perm : Proper ((≡ₚ) ==> (=)) total.
Proof. induction 1; simpl; lia. Qed.

#[global] Instance count_of_perm s : Proper ((≡ₚ) ==> (=)) (count_of s).
Proof. intros l1 l2 E. unfold count_of. by rewrite E. Qed.

Lemma concat_map_perm {A B} (f : A → list B) l1 l2 : l1 ≡ₚ l2 → concat (map f l1) ≡ₚ concat (map f l2).
Proof.
  induction 1 as [|x l1 l2 _ IH|x y l|l1 l2 l3 _ IH1 _ IH2]; simpl; [done|by rewrite IH| |by rewrite IH1].
  by rewrite !(assoc_L (++)), (Permutation_app_comm (f y)).
Qed.

Lemma segment_key_inj tid ts1 ts2 : segment_key tid ts1 = segment_key tid ts2 → ts1 = ts2.
Proof.
  unfold segment_key, segment_name. intros E. apply to_string_inj.
  assert (to_string ts1 +:+ "/collapsed.txt" = to_string ts2 +:+ "/collapsed.txt") as E'.
  { rewrite <-!str_app_assoc in E. rewrite !(str_app_assoc (tid +:+ "/")) in E.
    apply (f_equal (str_drop (String.length (tid +:+ "/")))) in E. by rewrite !str_drop_app in E. }
  assert (String.length (to_string ts1) = String.length (to_string ts2)) as Hl.
  { apply (f_equal String.length) in E'. rewrite !str_length_app in E'. lia. }
  apply (f_equal (str_take (String.length (to_string ts1)))) in E'. rewrite str_take_app, Hl, str_take_app in E'. done.
Qed.

Section Window.
Context (tid : string) (start end_ : Z) (store : gmap string string).

(** What the file of a segment says. *)
Definition content_of (g : segment) : stacks := merge_text (default "" (store !! s3_key g)) [].

Lemma contents_of gs l :
  Forall2 (segment_of tid) gs l → Forall (λ f, store !! segment_key tid f.1.1 = Some (collapsed_text f.2)) l →
  Forall (λ f, stacks_ok f.2) l →
  map content_of (filter (overlaps tid start end_) gs) = map snd (filter (in_window start end_) l).
Proof.
  induction 1 as [|g f gs l (Ht & Hs & He & Hk) _ IH]; [done|]. intros [Hf Hl]%Forall_cons [Hok Hoks]%Forall_cons.
  rewrite !filter_cons. assert (content_of g = f.2) as Hc.
  { unfold content_of. rewrite Hk, Hf. simpl. rewrite merge_text_collapsed by done. by apply add_counts_self. }
  assert (overlaps tid start end_ g = (f.1.1 <? end_) && (start <? f.1.2)) as ->
    by (unfold overlaps; rewrite (bool_decide_eq_true_2 _ Ht), Hs, He; done).
  unfold in_window at 1.
  destruct (Z.ltb_spec f.1.1 end_), (Z.ltb_spec start f.1.2); cbn [andb];
    repeat case_decide; try done; try lia; simpl; rewrite ?Hc; f_equal; by apply IH.
Qed.

Lemma window_shows range l a :
  (∀ m, range m ≡ₚ map_to_list m) → start ≠ 0 → end_ ≠ 0 → ap_store a = Some store → shows tid l a →
  Forall (λ f, stacks_ok f.2 ∧ file_ok f.2) l → samples_in start end_ l ≠ [] →
  ∃ text, GetProfileWindow true (λ _, true) range tid (Some (start, end_)) a = done_with text ∧
    ∀ s, om_get s (merge_text text []) =
      if decide (s ∈ map fst (samples_in start end_ l)) then Some (to_u64 (count_of s (samples_in start end_ l))) else None.
Proof.
  intros Hrange Hs He Hst [Hseg Hobj] Hok Hne.
  assert (Forall (λ f, store !! segment_key tid f.1.1 = Some (collapsed_text f.2)) l) as Hobj'
    by (unfold object in Hobj; by rewrite Hst in Hobj).
  assert (filter (overlaps tid start end_) (ap_segments a) =
          filter (overlaps tid start end_) (filter (λ g, seg_tid g = tid) (ap_segments a))) as Hfilter.
  { rewrite list_filter_filter. apply list_filter_iff. intros g. unfold overlaps. case_bool_decide; naive_solver. }
  assert (segs_perm : window_segments tid start end_ a ≡ₚ filter (overlaps tid start end_) (ap_segments a))
    by apply merge_sort_Permutation.
  assert (concat (map content_of (window_segments tid start end_ a)) ≡ₚ samples_in start end_ l) as Hperm.
  { rewrite (concat_map_perm _ _ _ segs_perm), Hfilter. rewrite (contents_of _ l); [done|done|done|].
    eapply Forall_impl; [exact Hok|]. naive_solver. }
  destruct (profile_window_exact range tid start end_ a store content_of Hrange Hs He Hst) as (_ & text & Htext & Hcount).
  - rewrite segs_perm, Hfilter. apply Forall_forall. intros g [_ Hg]%list_elem_of_filter.
    apply list_elem_of_lookup in Hg as [i Hg]. destruct (Forall2_lookup_l _ _ _ _ _ Hseg Hg) as (f & Hf & _ & _ & _ & Hk).
    apply list_elem_of_lookup_2 in Hf.
    rewrite Forall_forall in Hobj', Hok. destruct (Hok f Hf) as [Hf1 Hf2]. unfold content_of.
    rewrite Hk, (Hobj' f Hf). simpl. rewrite merge_text_collapsed by done. by rewrite add_counts_self.
  - intros E. rewrite E in Hperm. by apply Permutation_nil_l in Hperm.
  - exists text. split; [done|]. intros s. rewrite Hcount.
    destruct (decide (s ∈ map fst (samples_in start end_ l))) as [Hin|Hin].
    + rewrite decide_True; [by rewrite Hperm|]. by rewrite Hperm.
    + rewrite decide_False; [done|]. by rewrite Hperm.
Qed.
End Window.

Lemma shows_add tid l a a' store ts now id m :
  shows tid l a → ap_store a = Some store → Forall (λ f, f.1.1 ≠ ts) l →
  ap_store a' = Some (<[segment_key tid ts := collapsed_text m]> store) →
  ap_segments a' = (ap_segments a ++ [mkSegment id tid ts now (segment_key tid ts)])%list →
  shows tid (l ++ [(ts, now, m)]) a'.
Proof.
  intros [Hseg Hobj] Hst Hnew Hst' Hseg'. split.
  - rewrite Hseg', filter_app. apply Forall2_app; [done|]. rewrite filter_cons, decide_True by done.
    by repeat constructor.
  - apply Forall_app. split.
    + apply Forall_forall. intros f Hf. rewrite Forall_forall in Hobj, Hnew. unfold object. rewrite Hst'. simpl.
      rewrite lookup_insert_ne; [|by intros ?%segment_key_inj; eapply Hnew].
      specialize (Hobj f Hf). unfold object in Hobj. by rewrite Hst in Hobj.
    + apply Forall_singleton. unfold object. rewrite Hst'. simpl. apply lookup_insert_eq.
Qed.

(** * Claims *)

(** C19: What the agent had in memory is what the user sees.  When the server shows the
    segments flushed so far and the agent flushes another one (the file system and
    curl do their work, and the start of the segment is a new one), the flush
    succeeds, the memory is empty and the server shows that segment too; and the
    profile of every time window has for each stack exactly the sum of its counts
    over the flushed segments that overlap the window (modulo 2^64), and no other
    stack. *)
Theorem flushes_in_window {W} `{OS W} parses parses_json curl tid dir s w a store l w1 w2 n :
  let f := segment_file dir s in
  let ts := segment_start_ts s in
  let text := collapsed_text (stacks_ s) in
  let now := os_now w in
  curl (c_str (upload_command (apiserver_addr s) tid f (segment_name ts))) = Some (CallUpload f tid (segment_name ts)) →
  curl (c_str (register_command (apiserver_addr s) tid ts now (segment_key tid ts))) =
    Some (CallSegment tid ts now (segment_key tid ts)) →
  os_mkdirs (dir +:+ "/" +:+ to_string ts) w = (true, w1) → os_write f text w1 = (true, w2) →
  os_read f w2 = Some text → os_size f w2 = Some n →
  tid ≠ "" → 0 <= ts → ap_store a = Some store → shows tid l a → Forall (λ x, x.1.1 ≠ ts) l →
  Forall (λ x, stacks_ok x.2 ∧ file_ok x.2) l → stacks_ok (stacks_ s) → file_ok (stacks_ s) →
  let l' := (l ++ [(ts, now, stacks_ s)])%list in
  ∃ s' a', flush_segment (H := world_os parses parses_json curl) tid dir s (w, a) = (Ret (true, "", s'), (w2, a')) ∧
    stacks_ s' = [] ∧ flushed_files s' = (flushed_files s ++ [segment_name ts])%list ∧ shows tid l' a' ∧
    ∀ range start end_, (∀ m, range m ≡ₚ map_to_list m) → start ≠ 0 → end_ ≠ 0 → samples_in start end_ l' ≠ [] →
      ∃ profile, GetProfileWindow true (λ _, true) range tid (Some (start, end_)) a' = done_with profile ∧
        ∀ st, om_get st (merge_text profile []) =
          if decide (st ∈ map fst (samples_in start end_ l'))
          then Some (to_u64 (count_of st (samples_in start end_ l'))) else None.
Proof.
  intros f ts text now Hup Hreg Hmk Hwr Hrd Hsz Htid Hts Hst Hshows Hnew Hok Hok1 Hok2 l'.
  destruct (flush_runs parses parses_json curl tid dir s w a store w1 w2 n Hup Hreg Hmk Hwr Hrd Hsz Htid Hts Hst)
    as (a' & Hrun & Hst' & Hseg'). eexists _, a'. split; [exact Hrun|].
  pose proof (shows_add tid l a a' store ts now _ (stacks_ s) Hshows Hst Hnew Hst' Hseg') as Hshows'.
  split_and!; [done..|]. intros range start end_ Hrange Hs He Hne.
  apply (window_shows tid start end_ _ range l' a' Hrange Hs He Hst' Hshows'); [|done].
  apply Forall_app. split; [done|]. by apply Forall_singleton.
Qed.

(** The second segment of a task, in a world whose curl knows the two commands. *)
Definition cs_second : cstate := mkC [("main;f", 4)] 1000 "http://api" ["700/collapsed.txt"].
Definition sim_flush : sim := mkSim ∅ 1300 ∅ None [] [] [].
Definition curl_flush (c : string) : option http_call :=
  if bool_decide (c = c_str (upload_command "http://api" "t1" "/out/1000/collapsed.txt" "1000/collapsed.txt"))
  then Some (CallUpload "/out/1000/collapsed.txt" "t1" "1000/collapsed.txt")
  else if bool_decide (c = c_str (register_command "http://api" "t1" 1000 1300 "t1/1000/collapsed.txt"))
  then Some (CallSegment "t1" 1000 1300 "t1/1000/collapsed.txt") else None.
Definition api_first : api :=
  add_segment "t1" 700 1000 "t1/700/collapsed.txt"
    (set_store (Some {["t1/700/collapsed.txt" := collapsed_text [("main;f", 3); ("main;g", 1)]]}) api0).

Lemma flushes_in_window_witness :
  ∃ s' a' profile, flush_segment (H := world_os (λ _, true) (λ _, true) curl_flush) "t1" "/out" cs_second (sim_flush, api_first) =
      (Ret (true, "", s'), (set_files {["/out/1000/collapsed.txt" := collapsed_text [("main;f", 4)]]} sim_flush, a')) ∧
    GetProfileWindow true (λ _, true) map_to_list "t1" (Some (800, 1200)) a' = done_with profile ∧
    om_get "main;f" (merge_text profile []) = Some 7.
Proof.
  destruct (flushes_in_window (λ _, true) (λ _, true) curl_flush "t1" "/out" cs_second sim_flush api_first
    {["t1/700/collapsed.txt" := collapsed_text [("main;f", 3); ("main;g", 1)]]}
    [(700, 1000, [("main;f", 3); ("main;g", 1)])] sim_flush
    (set_files {["/out/1000/collapsed.txt" := collapsed_text [("main;f", 4)]]} sim_flush) 9)
    as (s' & a' & Hrun & _ & _ & _ & Hwin).
  - vm_compute. reflexivity.
  - vm_compute. reflexivity.
  - reflexivity.
  - reflexivity.
  - vm_compute. reflexivity.
  - vm_compute. reflexivity.
  - discriminate.
  - cbn. lia.
  - reflexivity.
  - split; [|apply Forall_singleton; vm_compute; reflexivity].
    vm_compute. repeat constructor.
  - apply Forall_singleton. discriminate.
  - apply Forall_singleton. split; [split|]; apply (bool_decide_unpack _); vm_compute; reflexivity.
  - split; apply (bool_decide_unpack _); vm_compute; reflexivity.
  - apply (bool_decide_unpack _). vm_compute. reflexivity.
  - destruct (Hwin map_to_list 800 1200) as (profile & Hp & Hc); [done|discriminate|discriminate|vm_compute; discriminate|].
    exists s', a', profile. split_and!; [exact Hrun|exact Hp|]. rewrite Hc. vm_compute. reflexivity.
Defined.
