(* ===== verification/ContainerInfo.v ===== *)
(** Detection of the container environment (container_info.cpp). *)
From stdpp Require Import base strings list.
From Stdlib Require Import ZArith Lia Ascii.
From S2P Require Import Prelude CppString OS.

Local Open Scope string_scope.

Record ContainerInfo := mkContainerInfo {
  is_container : bool;
  container_type : Z;
  container_id : string;
  runtime : string;
  cgroup_path : string;
}.
Definition container_info0 : ContainerInfo := mkContainerInfo false 0 "" "" "".

(** The runtime and the type number. *)
Definition DetectContainerType (cgroup_path : string) : string * Z :=
  if contains "/docker/" cgroup_path then ("docker", 1) else
  if contains "/kubepods" cgroup_path then ("k8s", 3) else
  if contains "/containerd/" cgroup_path || contains "/system.slice/containerd" cgroup_path
  then ("containerd", 2) else
  if contains "/machine.slice/machine-" cgroup_path then ("systemd-nspawn", 4) else
  if contains "/lxc/" cgroup_path then ("lxc", 1) else
  ("unknown", 0).

(** What follows the second colon of a line. *)
Definition cgroup_of_line (line : string) : option string :=
  match find_char ":"%char line with
  | None => None
  | Some first_colon =>
      match find_from ":"%char line (S first_colon) with
      | None => None
      | Some second_colon => Some (str_drop (S second_colon) line)
      end
  end.

(** The short id: the first 12 characters of the last component, if there are as
    many and they are hexadecimal digits. *)
Definition short_id (cgroup_path : string) : option string :=
  match rfind_char "/"%char cgroup_path with
  | None => None
  | Some last_slash =>
      if bool_decide (S last_slash < String.length cgroup_path)%nat then
        let last_comp := str_drop (S last_slash) cgroup_path in
        if bool_decide (12 <= String.length last_comp)%nat &&
           all_of isxdigit (String.list_ascii_of_string (str_take 12 last_comp))
        then Some (str_take 12 last_comp) else None
      else None
  end.

(** The loop of [ParseCgroup]. *)
Fixpoint parse_lines (lines : list string) (info : ContainerInfo) : bool * ContainerInfo :=
  match lines with
  | [] => (false, info)
  | line :: rest =>
      match cgroup_of_line line with
      | None => parse_lines rest info
      | Some path =>
          if bool_decide (path = "") || bool_decide (path = "/") then parse_lines rest info else
          let '(rt, ty) := DetectContainerType path in
          let info1 := mkContainerInfo (is_container info) ty (container_id info) rt path in
          if bool_decide (0 < ty) then
            (true, mkContainerInfo true ty (default (container_id info) (short_id path)) rt path)
          else parse_lines rest info1
      end
  end.

Section Detect.
Context {W : Type} `{OS W}.

Definition ParseCgroup (info : ContainerInfo) : prog W (bool * ContainerInfo) :=
  content ← read_file "/proc/self/cgroup";
  mret match content with
       | None => (false, info)
       | Some c => parse_lines (getlines ch_nl c) info
       end.

Definition DetectContainerInfo : prog W ContainerInfo :=
  dockerenv ← read_file "/.dockerenv";
  r ← ParseCgroup container_info0;
  let '(from_cgroup, info) := r in
  let info1 :=
    if negb from_cgroup && bool_decide (is_Some dockerenv)
    then mkContainerInfo true 1 (container_id info) "docker" (cgroup_path info) else info in
  k8s_service ← gets (os_getenv "KUBERNETES_SERVICE_HOST");
  mret (if is_container info1 then info1
        else match k8s_service with
             | Some _ => mkContainerInfo true 3 (container_id info1) "k8s" (cgroup_path info1)
             | None => info1
             end).
End Detect.

(** * Lemmas *)

Definition known_type (ty : Z) (rt : string) : Prop :=
  (ty, rt) ∈ [(1, "docker"); (3, "k8s"); (2, "containerd"); (4, "systemd-nspawn"); (1, "lxc")].

Lemma detect_type_cases p :
  DetectContainerType p = ("unknown", 0) ∨
  (known_type (DetectContainerType p).2 (DetectContainerType p).1 ∧ 0 < (DetectContainerType p).2).
Proof.
  unfold DetectContainerType, known_type.
  repeat case_match; simpl; [right..|by left]; (split; [|lia]); set_solver.
Qed.

(** A short id is empty or twelve hexadecimal digits. *)
Definition id_ok (s : string) : Prop :=
  s = "" ∨ (String.length s = 12%nat ∧ forallb isxdigit (String.list_ascii_of_string s) = true).

Lemma short_id_ok p s : short_id p = Some s → id_ok s.
Proof.
  unfold short_id. destruct (rfind_char _ p); [|done]. case_bool_decide; [|done].
  case_bool_decide as Hlen; [|done]. cbn [andb]. destruct (all_of _ _) eqn:E; [|done].
  intros Hs. right. apply (inj Some) in Hs. rewrite <-Hs. split; [|done]. rewrite str_take_length. lia.
Qed.

(** A container is reported with a known type and runtime, else nothing is. *)
Definition info_ok (i : ContainerInfo) : Prop :=
  id_ok (container_id i) ∧
  if is_container i then known_type (container_type i) (runtime i)
  else container_type i = 0 ∧ container_id i = "".

Lemma parse_lines_ok lines i b i' :
  is_container i = false → info_ok i → parse_lines lines i = (b, i') →
  info_ok i' ∧ is_container i' = b.
Proof.
  revert i. induction lines as [|l lines IH]; intros i Hc Hok; simpl; [by intros [= <- <-]|].
  destruct (cgroup_of_line l) as [p|]; [|by apply IH]. destruct (_ || _); [by apply IH|].
  pose proof (detect_type_cases p) as Hcases. destruct (DetectContainerType p) as [rt ty].
  unfold info_ok in Hok. rewrite Hc in Hok. destruct Hok as (Hid & _ & Hid0).
  case_bool_decide as Hty.
  - intros [= <- <-]. destruct Hcases as [?|[Hk _]]; [simplify_eq; lia|]. split; [|done]. split; [|done].
    simpl. destruct (short_id p) eqn:Es; [by eapply short_id_ok|done].
  - destruct Hcases as [Hu|[_ Hpos]]; [|simpl in Hpos; lia]. simplify_eq.
    apply IH; [done|]. split; [done|]. simpl. by rewrite Hc.
Qed.

(** * Claims *)

(** Container detection is total and consistent for every content of the files
    and of the environment: a container is reported exactly with one of the five
    pairs of type and runtime of the table, no container exactly with type 0 and
    no id; the id is empty or twelve hexadecimal digits; and none is reported
    exactly when there is no /.dockerenv, no Kubernetes variable and no line of the
    cgroup file with a container path. *)
Theorem container_info_consistent {W} `{OS W} (w : W) :
  ∃ i, DetectContainerInfo w = (Ret i, w) ∧ info_ok i ∧
  (is_container i = false ↔
     os_read "/.dockerenv" w = None ∧ os_getenv "KUBERNETES_SERVICE_HOST" w = None ∧
     (parse_lines (getlines ch_nl (default "" (os_read "/proc/self/cgroup" w))) container_info0).1 = false).
Proof.
  unfold DetectContainerInfo, ParseCgroup, read_file, gets, mbind, prog_bind. simpl.
  set (r := match os_read "/proc/self/cgroup" w with
            | Some c => parse_lines (getlines ch_nl c) container_info0
            | None => (false, container_info0) end).
  assert (r = parse_lines (getlines ch_nl (default "" (os_read "/proc/self/cgroup" w))) container_info0) as Hr
    by (subst r; by destruct (os_read _ w)).
  rewrite <-Hr. destruct r as [b i]. symmetry in Hr.
  apply parse_lines_ok in Hr as [[Hid Hok] <-]; [|done|split; [by left|done]].
  eexists. split; [done|]. unfold info_ok.
  destruct (is_container i) eqn:Ei; simpl.
  - rewrite !Ei. split; [by split|]. naive_solver.
  - destruct (os_read "/.dockerenv" w); simpl.
    + split; [split; [done|]|naive_solver]. unfold known_type. set_solver.
    + rewrite Ei. destruct (os_getenv _ w); simpl.
      * split; [split; [done|]|naive_solver]. unfold known_type. set_solver.
      * rewrite !Ei. split; [by split|done].
Qed.
