(* ===== verification/CosClient.v ===== *)
(** The upload chain of cos_client.cpp: five modes tried in order, each a run of
    curl whose standard output goes to a file that is then read for the HTTP
    status. *)
From stdpp Require Import base strings list.
From Stdlib Require Import ZArith Lia Ascii.
From S2P Require Import Prelude CppString OS Proto.

Local Open Scope string_scope.

Inductive CosUploadMode :=
  | INTRANET_FLAG
  | PUBLIC
  | FLAG_INTRANET
  | CONFIG_INTRANET
  | HTTP_PROXY.

Definition mode_num (m : CosUploadMode) : Z :=
  match m with
  | INTRANET_FLAG => 1 | PUBLIC => 2 | FLAG_INTRANET => 3 | CONFIG_INTRANET => 4 | HTTP_PROXY => 5
  end.

Record CosUploadResult := mkCosUploadResult {
  cur_success : bool;
  cur_used_mode : CosUploadMode;
  cur_cos_key : string;
  cur_error_msg : string;
}.

Record CosClient := mkCosClient {
  cc_config : CosConfig;
  cc_apiserver : string;
  cc_intranet : string;
  cc_flag : string;
  cc_proxy : string;
}.

Definition new_CosClient (cfg : CosConfig) (apiserver : string) : CosClient :=
  mkCosClient cfg apiserver "" "" "".
Definition SetIntranetEndpoint (e : string) (c : CosClient) : CosClient :=
  mkCosClient (cc_config c) (cc_apiserver c) e (cc_flag c) (cc_proxy c).
Definition SetFlag (f : string) (c : CosClient) : CosClient :=
  mkCosClient (cc_config c) (cc_apiserver c) (cc_intranet c) f (cc_proxy c).
Definition SetHttpProxy (p : string) (c : CosClient) : CosClient :=
  mkCosClient (cc_config c) (cc_apiserver c) (cc_intranet c) (cc_flag c) p.

Definition BuildUrl (c : CosClient) (mode : CosUploadMode) (object_key : string) : string :=
  let bucket := bucket (cc_config c) in
  let region := region (cc_config c) in
  let base := if bool_decide (cc_intranet c = "")
              then "https://" +:+ bucket +:+ ".cos-internal." +:+ region +:+ ".myqcloud.com"
              else cc_intranet c in
  let flag := if bool_decide (cc_flag c = "") then "" else "?flag=" +:+ cc_flag c in
  match mode with
  | INTRANET_FLAG => base +:+ "/" +:+ object_key +:+ flag
  | PUBLIC => "https://" +:+ bucket +:+ ".cos." +:+ region +:+ ".myqcloud.com/" +:+ object_key
  | FLAG_INTRANET => base +:+ "/" +:+ object_key +:+ flag
  | CONFIG_INTRANET => base +:+ "/" +:+ object_key
  | HTTP_PROXY => cc_apiserver c +:+ "/api/v1/upload/" +:+ object_key
  end.

Section Upload.
Context {W : Type} `{OS W}.

(** The part after [fork] that [CurlPut] and [CurlProxyUpload] share: wait, look at
    the exit status (a signal is not looked at), read the first line of the code
    file, remove it, and judge the number. *)
Definition curl_status (exit_msg none_msg http_msg code_path : string) (r : run_outcome) :
    prog W (bool * string) :=
  match r with
  | ForkFailed e => mret (false, "fork() failed: " +:+ e)
  | Ran _ (WaitFailed e) => mret (false, "waitpid failed: " +:+ e)
  | Ran _ wr =>
      let bad := match wr with Exited c => if bool_decide (c = 0) then None else Some c | _ => None end in
      match bad with Some c => mret (false, exit_msg +:+ to_string c) | None =>
      content ← read_file code_path;
      let code := match content with
                  | None => ""
                  | Some s => default "" (head (getlines ch_nl s))
                  end in
      remove_file code_path;;
      if bool_decide (code = "") then mret (false, none_msg) else
      status ← lift (stoi code);
      if bool_decide (200 <= status) && bool_decide (status < 300) then mret (true, "")
      else mret (false, http_msg +:+ code)
      end
  end.

Definition put_request (url local_path auth_header token_header : string) : spawn_req :=
  mkSpawn "curl"
    ["curl"; "-sf"; "-X"; "PUT"; "-w"; "%{http_code}"; "-H"; c_str auth_header;
     "-H"; c_str token_header; "-T"; c_str local_path; c_str url]
    (Some (local_path +:+ ".curl_code")) None None.

Definition CurlPut (url local_path auth_header token_header : string) : prog W (bool * string) :=
  r ← spawn (put_request url local_path auth_header token_header);
  curl_status "curl exited with code " "no HTTP code from curl" "HTTP " (local_path +:+ ".curl_code") r.

Definition proxy_request (c : CosClient) (local_path object_key : string) : spawn_req :=
  mkSpawn "curl"
    ["curl"; "-sf"; "-w"; "%{http_code}"; "-F"; c_str ("file=@" +:+ local_path);
     c_str (cc_apiserver c +:+ "/api/v1/upload/" +:+ object_key)]
    (Some (local_path +:+ ".proxy_code")) None None.

Definition CurlProxyUpload (c : CosClient) (local_path object_key : string) : prog W (bool * string) :=
  r ← spawn (proxy_request c local_path object_key);
  curl_status "curl proxy exited with code " "no HTTP code from proxy curl" "proxy HTTP "
    (local_path +:+ ".proxy_code") r.

Definition modes : list CosUploadMode :=
  [INTRANET_FLAG; PUBLIC; FLAG_INTRANET; CONFIG_INTRANET; HTTP_PROXY].

Definition try_mode (c : CosClient) (mode : CosUploadMode) (local_path object_key : string) :
    prog W (bool * string) :=
  match mode with
  | HTTP_PROXY => CurlProxyUpload c local_path object_key
  | _ =>
      CurlPut (BuildUrl c mode object_key) local_path
        ("Authorization: COS " +:+ tmp_ak (cc_config c) +:+ "/" +:+ tmp_sk (cc_config c))
        ("x-cos-security-token: " +:+ tmp_token (cc_config c))
  end.

Fixpoint try_modes (c : CosClient) (ms : list CosUploadMode) (local_path object_key last_error : string) :
    prog W CosUploadResult :=
  match ms with
  | [] => mret (mkCosUploadResult false HTTP_PROXY "" ("all upload modes failed; last: " +:+ last_error))
  | m :: ms' =>
      if bool_decide (BuildUrl c m object_key = "") then try_modes c ms' local_path object_key last_error else
      r ← try_mode c m local_path object_key;
      let '(ok, error_msg) := r in
      if (ok : bool) then mret (mkCosUploadResult true m object_key "")
      else try_modes c ms' local_path object_key ("mode " +:+ to_string (mode_num m) +:+ ": " +:+ error_msg)
  end.

Definition UploadFile (c : CosClient) (local_path object_key : string) : prog W CosUploadResult :=
  there ← fs_exists local_path;
  if negb there then mret (mkCosUploadResult false HTTP_PROXY "" ("file not found: " +:+ local_path))
  else try_modes c modes local_path object_key "".
End Upload.

(** * Lemmas *)

(** The command of a mode. *)
Definition mode_request (c : CosClient) (m : CosUploadMode) (local_path object_key : string) : spawn_req :=
  match m with
  | HTTP_PROXY => proxy_request c local_path object_key
  | _ => put_request (BuildUrl c m object_key) local_path
           ("Authorization: COS " +:+ tmp_ak (cc_config c) +:+ "/" +:+ tmp_sk (cc_config c))
           ("x-cos-security-token: " +:+ tmp_token (cc_config c))
  end.

Lemma build_url_nonempty c m k : BuildUrl c m k ≠ "".
Proof.
  unfold BuildUrl. destruct m; intros E; repeat apply str_app_eq_nil in E as [? E]; done.
Qed.

Lemma curl_status_trace {W} `{OS W} em nm hm path r (w : traced W) b w' :
  curl_status em nm hm path r w = (Ret b, w') → w'.2 = w.2.
Proof.
  unfold curl_status, read_file. intros Hr. prog_inv; eauto using remove_file_trace.
Qed.

Lemma try_mode_trace {W} `{OS W} c m p k (w : traced W) b w' :
  try_mode c m p k w = (Ret b, w') → w'.2 = (w.2 ++ [mode_request c m p k])%list.
Proof.
  assert (∀ req em nm hm path b w', (r ← spawn req; curl_status em nm hm path r) w = (Ret b, w') →
    w'.2 = (w.2 ++ [req])%list) as Hgen.
  { intros req em nm hm path b0 w0 Hr. apply prog_bind_Ret in Hr as (o & w1 & Hs & Hr).
    unfold spawn in Hs. apply (proj1 (act_Ret _ _ _ _)) in Hs. simpl in Hs.
    destruct (os_spawn req w.1) as [o' w2]. apply curl_status_trace in Hr. by simplify_eq. }
  unfold try_mode, CurlPut, CurlProxyUpload. destruct m; apply Hgen.
Qed.

Lemma try_modes_trace {W} `{OS W} c ms p k e (w : traced W) res w' :
  try_modes c ms p k e w = (Ret res, w') →
  (∃ n m, ms !! n = Some m ∧ w'.2 = (w.2 ++ ((λ m, mode_request c m p k) <$> take (S n) ms))%list ∧
     res = mkCosUploadResult true m k "") ∨
  (w'.2 = (w.2 ++ ((λ m, mode_request c m p k) <$> ms))%list ∧ cur_success res = false ∧
     cur_error_msg res ≠ "" ∧ cur_cos_key res = "").
Proof.
  revert e w. induction ms as [|m ms IH]; intros e w Hr; cbn [try_modes] in Hr.
  { prog_inv. right. by rewrite app_nil_r. }
  rewrite bool_decide_eq_false_2 in Hr by apply build_url_nonempty.
  apply prog_bind_Ret in Hr as ([ok msg] & w1 & Hm & Hr). apply try_mode_trace in Hm.
  destruct ok.
  - prog_inv. left. exists O, m. by rewrite Hm.
  - apply IH in Hr as [(n & m' & Hn & Ht & ->)|(Ht & ?)].
    + left. exists (S n), m'. split; [done|]. split; [|done]. rewrite Ht, Hm, <-app_assoc. done.
    + right. rewrite Ht, Hm, <-app_assoc. done.
Qed.

Lemma getlines_head a s : a ≠ ch_nl → ∃ t, head (getlines ch_nl (String a s)) = Some (String a t).
Proof.
  intros Ha. simpl. destruct (ascii_dec a ch_nl); [done|].
  destruct (getlines ch_nl s); by eexists.
Qed.

(** * Claims *)

(** The upload chain, in every world: a missing file is reported without any
    upload; else the modes are tried in the order 1 to 5, each with its own curl
    command, up to the first that succeeds, whose mode and the object key are
    returned; when all five fail, the result says so with a non-empty message and
    no key. *)
Theorem cos_upload_chain {W} `{OS W} c p k (w : W) l res w' l' :
  UploadFile (W := traced W) c p k (w, l) = (Ret res, (w', l')) →
  (os_exists p w = Some false ∧ l' = l ∧ cur_success res = false ∧
     cur_error_msg res = "file not found: " +:+ p) ∨
  (∃ n m, modes !! n = Some m ∧ l' = (l ++ ((λ m, mode_request c m p k) <$> take (S n) modes))%list ∧
     res = mkCosUploadResult true m k "") ∨
  (l' = (l ++ ((λ m, mode_request c m p k) <$> modes))%list ∧ cur_success res = false ∧
     cur_error_msg res ≠ "" ∧ cur_cos_key res = "").
Proof.
  unfold UploadFile, fs_exists. intros Hr.
  apply prog_bind_Ret in Hr as (there & w1 & [He <-]%fs_gets_Ret & Hr). simpl in He.
  destruct there; cbn [negb] in Hr.
  - right. by apply try_modes_trace in Hr.
  - left. prog_inv. done.
Qed.

(** The first two modes fail with curl errors, the third answers 204. *)
Definition sim_cos : sim :=
  mkSim {["/f" := "data"]} 0 ∅ None
    [(Ran false (Exited 6), []); (Ran false (Exited 22), []); (Ran false (Exited 0), [("/f.curl_code", "204")])] [] [].
Definition cos_run : outcome CosUploadResult * traced sim :=
  UploadFile (W := traced sim) (new_CosClient default_cos "http://api") "/f" "k1" (sim_cos, []).

Lemma cos_upload_chain_witness :
  length cos_run.2.2 = 3%nat ∧
  ∃ n m, modes !! n = Some m ∧ mkCosUploadResult true FLAG_INTRANET "k1" "" = mkCosUploadResult true m "k1" "".
Proof.
  split; [vm_compute; reflexivity|].
  destruct (cos_upload_chain (new_CosClient default_cos "http://api") "/f" "k1" sim_cos []
    (mkCosUploadResult true FLAG_INTRANET "k1" "") cos_run.2.1 cos_run.2.2)
    as [(_ & _ & E & _)|[(n & m & Hn & _ & E)|(_ & E & _)]].
  - vm_compute. reflexivity.
  - discriminate E.
  - exists n, m. split; [exact Hn|exact E].
  - discriminate E.
Defined.

(** curl is run without [-o], so the body of the answer precedes the status in
    the code file: when the server answers a successful upload with a JSON body
    (as the apiserver does), [stoi] throws and the exception leaves [UploadFile],
    instead of the success that the upload was; the same holds for every PUT mode,
    whose fallback to the next mode is then never tried. *)
Theorem cos_json_body_throws {W} `{OS W} c p k url auth token (w : W) w1 w2 rest :
  (os_spawn (proxy_request c p k) w = (Ran false (Exited 0), w1) →
   os_read (p +:+ ".proxy_code") w1 = Some (String "{"%char rest) →
   os_remove (p +:+ ".proxy_code") w1 = (true, w2) →
   CurlProxyUpload c p k w = (Throw invalid_argument, w2)) ∧
  (os_spawn (put_request url p auth token) w = (Ran false (Exited 0), w1) →
   os_read (p +:+ ".curl_code") w1 = Some (String "{"%char rest) →
   os_remove (p +:+ ".curl_code") w1 = (true, w2) →
   CurlPut url p auth token w = (Throw invalid_argument, w2)).
Proof.
  destruct (getlines_head "{"%char rest) as [t Ht]; [done|].
  assert (∀ em nm hm path, os_read path w1 = Some (String "{"%char rest) → os_remove path w1 = (true, w2) →
    curl_status em nm hm path (Ran false (Exited 0)) w1 = (Throw invalid_argument, w2)) as Hgen.
  { intros em nm hm path Hread Hrm. unfold curl_status.
    rewrite (bool_decide_eq_true_2 (0 = 0)) by done. cbv zeta.
    unfold read_file, gets, remove_file, mbind, prog_bind. rewrite Hread, Ht, Hrm. done. }
  unfold CurlProxyUpload, CurlPut, spawn, act.
  split; intros Hs Hread Hrm; unfold mbind, prog_bind; rewrite Hs; by apply Hgen.
Qed.

(** The upload went through: curl exits with 0 after the body and the status. *)
Definition sim_json : sim :=
  mkSim {["/f" := "data"]} 0 ∅ None
    [(Ran false (Exited 0), [("/f.proxy_code", "{" +:+ quote +:+ "code" +:+ quote +:+ ":0}200")])] [] [].
Definition api_client : CosClient := new_CosClient default_cos "http://api".
Definition json_world : sim := (os_spawn (proxy_request api_client "/f" "k1") sim_json).2.

Lemma cos_json_body_throws_witness :
  CurlProxyUpload api_client "/f" "k1" sim_json =
    (Throw invalid_argument, (os_remove "/f.proxy_code" json_world).2).
Proof.
  apply (cos_json_body_throws api_client "/f" "k1" "" "" "" sim_json json_world (os_remove "/f.proxy_code" json_world).2
    (quote +:+ "code" +:+ quote +:+ ":0}200")).
  - vm_compute. reflexivity.
  - vm_compute. reflexivity.
  - reflexivity.
Defined.
