(* ===== verification/SelfStats.v ===== *)
(** The agent's self monitoring (agent/main.cpp): the counters of /proc/self and the
    rates computed from them.

    [double] is the binary64 of [SpecFloat]; the conversion of a [double] to
    [uint64_t] is undefined outside its range. *)
From stdpp Require Import base strings list.
From Stdlib Require Import ZArith Lia Ascii SpecFloat.
From S2P Require Import Prelude CppString OS Proto.

Local Open Scope string_scope.

(** * Doubles *)

Definition f64_of_Z (z : Z) : f64 := binary_normalize 53 1024 z 0 false.
Definition f64_div : f64 → f64 → f64 := SFdiv 53 1024.
Definition f64_mul : f64 → f64 → f64 := SFmul 53 1024.
Definition f64_lt (a b : f64) : bool :=
  match SFcompare a b with Some Lt => true | _ => false end.
(** The literals 0.01 and 100.0 *)
Definition f64_001 : f64 := f64_div (f64_of_Z 1) (f64_of_Z 100).
Definition f64_100 : f64 := f64_of_Z 100.

(** [static_cast<uint64_t>]: truncation, undefined when the value does not fit. *)
Definition f64_to_u64 (f : f64) : outcome Z :=
  match f with
  | S754_zero _ => Ret 0
  | S754_finite s m e =>
      let v := (if s then -1 else 1) * Z.quot (Z.pos m * 2 ^ Z.max e 0) (2 ^ Z.max (- e) 0) in
      if bool_decide (0 <= v < 2 ^ 64) then Ret v else UB "conversion of a double out of range"
  | _ => UB "conversion of a double out of range"
  end.

(** * The counters *)

Record ProcStats := mkProcStats {
  utime : Z;
  stime : Z;
  rss_pages : Z;
  read_bytes : Z;
  write_bytes : Z;
  cpu_percent : f64;
  rss_mb : Z;
  read_kbs : Z;
  write_kbs : Z;
}.
Definition procstats0 : ProcStats := mkProcStats 0 0 0 0 0 (S754_zero false) 0 0 0.

(** [if (field == 14) ... else if (field == 15) ... else if (field == 24) ...] *)
Definition set_field (field : Z) (tok : string) (out : ProcStats) : outcome ProcStats :=
  if bool_decide (field = 14) then
    n ← stoull tok;
    Ret (mkProcStats n (stime out) (rss_pages out) (read_bytes out) (write_bytes out)
           (cpu_percent out) (rss_mb out) (read_kbs out) (write_kbs out))
  else if bool_decide (field = 15) then
    n ← stoull tok;
    Ret (mkProcStats (utime out) n (rss_pages out) (read_bytes out) (write_bytes out)
           (cpu_percent out) (rss_mb out) (read_kbs out) (write_kbs out))
  else if bool_decide (field = 24) then
    n ← stoull tok;
    Ret (mkProcStats (utime out) (stime out) n (read_bytes out) (write_bytes out)
           (cpu_percent out) (rss_mb out) (read_kbs out) (write_kbs out))
  else Ret out.

(** The loop over the tokens; [s] is [rest] from [pos] on, which shrinks by at least
    one character a round. *)
Fixpoint stat_loop (fuel : nat) (s : string) (field : Z) (out : ProcStats) : outcome ProcStats :=
  match fuel, s with
  | O, _ | _, "" => Ret out
  | S fuel', _ =>
      let '(tok, s') := match find_char " "%char s with
                        | Some next => (str_take next s, str_drop (S next) s)
                        | None => (s, "")
                        end in
      out' ← set_field field tok out;
      if bool_decide (24 < field + 1) then Ret out' else stat_loop fuel' s' (field + 1) out'
  end.

(** [(rss_pages * g_page_size) / (1024 * 1024)] in uint64_t *)
Definition pages_to_mb (pages page_size : Z) : Z := to_u64 (pages * page_size) / (1024 * 1024).

Definition set_rss_mb (page_size : Z) (out : ProcStats) : ProcStats :=
  mkProcStats (utime out) (stime out) (rss_pages out) (read_bytes out) (write_bytes out)
    (cpu_percent out) (pages_to_mb (rss_pages out) page_size) (read_kbs out) (write_kbs out).

Definition parse_stat (page_size : Z) (line : string) (out : ProcStats) : outcome (bool * ProcStats) :=
  match rfind_char ")"%char line with
  | None => Ret (false, out)
  | Some comm_end =>
      rest ← substr line (comm_end + 2);
      out' ← stat_loop (String.length rest) rest 3 out;
      Ret (true, set_rss_mb page_size out')
  end.

(** The loop of [ReadSelfIO] *)
Fixpoint io_loop (lines : list string) (out : ProcStats) : outcome ProcStats :=
  match lines with
  | [] => Ret out
  | l :: ls =>
      out' ← (if String.prefix "read_bytes:" l then
                n ← stoull (str_drop 11 l);
                Ret (mkProcStats (utime out) (stime out) (rss_pages out) n (write_bytes out)
                       (cpu_percent out) (rss_mb out) (read_kbs out) (write_kbs out))
              else if String.prefix "write_bytes:" l then
                n ← stoull (str_drop 12 l);
                Ret (mkProcStats (utime out) (stime out) (rss_pages out) (read_bytes out) n
                       (cpu_percent out) (rss_mb out) (read_kbs out) (write_kbs out))
              else Ret out);
      io_loop ls out'
  end.

Section Read.
Context {W : Type} `{OS W}.

Definition ReadSelfStat (page_size : Z) (out : ProcStats) : prog W (bool * ProcStats) :=
  content ← read_file "/proc/self/stat";
  match content with
  | None => mret (false, out)
  | Some c => lift (parse_stat page_size (default "" (head (getlines ch_nl c))) out)
  end.

Definition ReadSelfIO (out : ProcStats) : prog W (bool * ProcStats) :=
  content ← read_file "/proc/self/io";
  match content with
  | None => mret (false, out)
  | Some c => out' ← lift (io_loop (getlines ch_nl c) out); mret (true, out')
  end.
End Read.

(** * The rates *)

(** [std::chrono::duration<double>(ns).count()], at least 0.01 *)
Definition elapsed_seconds (ns : Z) : f64 :=
  let e := f64_div (f64_of_Z ns) (f64_of_Z 1000000000) in
  if f64_lt e f64_001 then f64_001 else e.

(** Unsigned differences wrap around. *)
Definition u64_delta (cur prev : Z) : Z := to_u64 (cur - prev).

Definition cpu_rate (cur prev : ProcStats) (elapsed : f64) (clk_tck : Z) : f64 :=
  f64_mul
    (f64_div (f64_of_Z (to_u64 (u64_delta (utime cur) (utime prev) + u64_delta (stime cur) (stime prev))))
       (f64_mul elapsed (f64_of_Z clk_tck)))
    f64_100.

Definition kbs_rate (cur prev : Z) (elapsed : f64) : outcome Z :=
  f64_to_u64 (f64_div (f64_div (f64_of_Z (u64_delta cur prev)) elapsed) (f64_of_Z 1024)).

(** The part of [ComputePidStats] after the two reads: [prev] and [prev_time] are its
    static variables; the new [prev] is the second result. *)
Definition compute_rates (getpid page_size clk_tck elapsed_ns : Z) (prev cur : ProcStats) :
    outcome (PidStats * ProcStats) :=
  let elapsed := elapsed_seconds elapsed_ns in
  let cpu := cpu_rate cur prev elapsed clk_tck in
  let mb := pages_to_mb (rss_pages cur) page_size in
  r ← kbs_rate (read_bytes cur) (read_bytes prev) elapsed;
  w ← kbs_rate (write_bytes cur) (write_bytes prev) elapsed;
  Ret (mkPidStats "drop_agent" getpid (utime cur) (stime cur) (rss_pages cur) cpu mb r w,
       mkProcStats (utime cur) (stime cur) (rss_pages cur) (read_bytes cur) (write_bytes cur) cpu mb r w).

Section Compute.
Context {W : Type} `{OS W}.

(** [elapsed_ns] is [now - prev_time]. *)
Definition ComputePidStats (getpid page_size clk_tck elapsed_ns : Z) (prev : ProcStats) :
    prog W (PidStats * ProcStats) :=
  r1 ← ReadSelfStat page_size procstats0;
  r2 ← ReadSelfIO r1.2;
  lift (compute_rates getpid page_size clk_tck elapsed_ns prev r2.2).
End Compute.

(** * A line of /proc/self/stat *)

Fixpoint join_words (l : list string) : string :=
  match l with
  | [] => ""
  | [x] => x
  | x :: l' => x +:+ " " +:+ join_words l'
  end.

(** "pid (comm) state ppid ...": the name may contain spaces and parentheses. *)
Definition stat_line (pid comm : string) (fields : list string) : string :=
  pid +:+ " (" +:+ comm +:+ ") " +:+ join_words fields.

Definition word_ok (f : string) : Prop := f ≠ "" ∧ no_char " "%char f ∧ no_char ")"%char f.

Lemma join_words_cons x l :
  join_words (x :: l) = match l with [] => x | _ => x +:+ String " "%char (join_words l) end.
Proof. by destruct l. Qed.

Lemma find_char_app c s t : no_char c s → find_char c (s +:+ String c t) = Some (String.length s).
Proof.
  unfold no_char. induction s as [|a s IH]; simpl.
  - by destruct (ascii_dec c c).
  - destruct (ascii_dec a c); [done|]. destruct (find_char c s) eqn:E; [done|]. intros _.
    by rewrite IH.
Qed.

(** One round of the loop takes one word. *)
Lemma stat_loop_step fuel f fs field out :
  word_ok f →
  stat_loop (S fuel) (join_words (f :: fs)) field out =
    out' ← set_field field f out;
    if bool_decide (24 < field + 1) then Ret out' else stat_loop fuel (join_words fs) (field + 1) out'.
Proof.
  intros (Hne & Hsp & _). rewrite join_words_cons. destruct fs as [|g fs].
  - cbn [stat_loop]. destruct f as [|a f]; [done|]. by rewrite Hsp.
  - set (t := join_words (g :: fs)). cbn [stat_loop].
    destruct (f +:+ String " "%char t) as [|a s] eqn:E; [by apply str_app_eq_nil in E as [? _]|].
    rewrite <-E, find_char_app by done. by rewrite str_take_app, str_drop_app_S.
Qed.

(** The length of the text is fuel enough. *)
Lemma stat_loop_fuel f1 f2 s field out :
  (String.length s <= f1)%nat → (String.length s <= f2)%nat →
  stat_loop f1 s field out = stat_loop f2 s field out.
Proof.
  revert f2 s field out. induction f1 as [|f1 IH]; intros f2 s field out H1 H2.
  { destruct s; [|simpl in H1; lia]. by destruct f2. }
  destruct s as [|a s]; [by destruct f2|]. destruct f2 as [|f2]; [simpl in H2; lia|].
  cbn [stat_loop]. set (s0 := String a s) in *.
  destruct (match find_char " "%char s0 with Some _ => _ | None => _ end) as [tok s'] eqn:E.
  assert (String.length s' < String.length s0)%nat as Hlt.
  { destruct (find_char " "%char s0); simplify_eq; [rewrite str_drop_length|]; simpl; lia. }
  destruct (set_field field tok out); simpl; [|done..]. case_bool_decide; [done|]. apply IH; lia.
Qed.

Lemma join_words_length f fs : word_ok f → (String.length (join_words fs) < String.length (join_words (f :: fs)))%nat.
Proof.
  intros (Hne & _). rewrite join_words_cons. destruct fs; [destruct f; simpl; [done|lia]|].
  rewrite str_length_app. simpl. lia.
Qed.

(** The loop reads the numbers of the fields 14, 15 and 24. *)
Definition numbered (val : Z → Z) (field : Z) (fs : list string) : Prop :=
  ∀ i f, fs !! i = Some f →
    field + Z.of_nat i = 14 ∨ field + Z.of_nat i = 15 ∨ field + Z.of_nat i = 24 →
    f = to_string (val (field + Z.of_nat i)) ∧ is_u64 (val (field + Z.of_nat i)).

Definition pick (val : Z → Z) (k field : Z) (fs : list string) (old : Z) : Z :=
  if bool_decide (field <= k < field + Z.of_nat (length fs)) then val k else old.

Lemma set_field_spec val field f fs out :
  numbered val field (f :: fs) →
  ∃ out', set_field field f out = Ret out' ∧
    utime out' = (if bool_decide (field = 14) then val 14 else utime out) ∧
    stime out' = (if bool_decide (field = 15) then val 15 else stime out) ∧
    rss_pages out' = (if bool_decide (field = 24) then val 24 else rss_pages out) ∧
    read_bytes out' = read_bytes out ∧ write_bytes out' = write_bytes out.
Proof.
  intros Hn. specialize (Hn O f eq_refl). rewrite Z.add_0_r in Hn. unfold set_field.
  repeat case_bool_decide; simplify_eq; try lia; try (by eexists);
    (destruct Hn as [-> Hu]; [by auto|]); rewrite stoull_to_string by done; by eexists.
Qed.

Lemma stat_loop_spec val fs fuel field out :
  Forall word_ok fs → numbered val field fs → field <= 24 →
  (String.length (join_words fs) <= fuel)%nat →
  ∃ out', stat_loop fuel (join_words fs) field out = Ret out' ∧
    utime out' = pick val 14 field fs (utime out) ∧
    stime out' = pick val 15 field fs (stime out) ∧
    rss_pages out' = pick val 24 field fs (rss_pages out) ∧
    read_bytes out' = read_bytes out ∧ write_bytes out' = write_bytes out.
Proof.
  revert fuel field out. induction fs as [|f fs IH]; intros fuel field out Hok Hn Hf Hfuel.
  - exists out. split; [by destruct fuel|]. unfold pick. simpl.
    rewrite !bool_decide_eq_false_2 by lia. done.
  - apply Forall_cons in Hok as [Hw Hok]. pose proof (join_words_length f fs Hw).
    destruct fuel as [|fuel]; [lia|]. rewrite stat_loop_step by done.
    destruct (set_field_spec val field f fs out Hn) as (o1 & -> & Hu & Hs & Hr & Hrb & Hwb). simpl.
    destruct (bool_decide (24 < field + 1)) eqn:Hend;
      [apply bool_decide_eq_true in Hend|apply bool_decide_eq_false in Hend].
    + exists o1. split; [done|]. rewrite Hu, Hs, Hr. unfold pick. simpl length.
      split_and!; try done; repeat case_bool_decide; try done; lia.
    + destruct (IH fuel (field + 1) o1) as (o2 & -> & Hu2 & Hs2 & Hr2 & Hrb2 & Hwb2); [done| |lia|lia|].
      * intros i g Hg. specialize (Hn (S i) g Hg).
        replace (field + Z.of_nat (S i)) with (field + 1 + Z.of_nat i) in Hn by lia. done.
      * exists o2. split; [done|]. rewrite Hu2, Hs2, Hr2, Hu, Hs, Hr. unfold pick. simpl length.
        split_and!; try congruence; repeat case_bool_decide; try done; lia.
Qed.

Lemma join_words_no_paren fs : Forall word_ok fs → no_char ")"%char (join_words fs).
Proof.
  induction 1 as [|f fs (_ & _ & Hf) _ IH]; [done|]. rewrite join_words_cons.
  destruct fs; [done|]. apply no_char_app. split; [done|]. apply no_char_cons. done.
Qed.

Lemma parse_stat_line page_size pid comm fs out :
  Forall word_ok fs →
  parse_stat page_size (stat_line pid comm fs) out =
    out' ← stat_loop (String.length (join_words fs)) (join_words fs) 3 out;
    Ret (true, set_rss_mb page_size out').
Proof.
  intros Hok. unfold parse_stat, stat_line.
  change (") " +:+ join_words fs) with (String ")"%char (String " "%char (join_words fs))).
  rewrite <-!str_app_assoc. rewrite rfind_app.
  2: { apply no_char_cons. split; [done|]. by apply join_words_no_paren. }
  set (p := ((pid +:+ " (") +:+ comm)). unfold substr.
  rewrite bool_decide_eq_true_2 by (rewrite str_length_app; simpl; lia).
  assert (str_drop (String.length p + 2) (p +:+ String ")"%char (String " "%char (join_words fs))) = join_words fs)
    as ->; [|done].
  induction p as [|a p IH]; [done|]. rewrite str_app_cons. apply IH.
Qed.

(** Counters that go back, as when /proc/self/io cannot be read for once: the
    difference wraps around and a rate of nearly 2^54 KB/s is reported. *)
Example backwards_counter_rate :
  let io n := mkProcStats 0 0 0 n 0 (S754_zero false) 0 0 0 in
  (λ r, ps_read_kbs r.1) <$> (match compute_rates 1 4096 100 1000000000 (io 5000) (io 0) with
                              | Ret r => Some r | _ => None end) = Some (2 ^ 54 - 4).
Proof. vm_compute. reflexivity. Qed.

(** * Claims *)

(** From a line of /proc/self/stat the agent reads user time, system time and
    resident pages of the fields 14, 15 and 24, whatever the process name contains
    (spaces and parentheses included), and never throws on such a line; the
    resident size in MB is the pages times the page size, in 64-bit arithmetic. *)
Theorem self_stat_fields page_size pid comm fields u s r out :
  Forall word_ok fields →
  fields !! 11%nat = Some (to_string u) → fields !! 12%nat = Some (to_string s) →
  fields !! 21%nat = Some (to_string r) → is_u64 u → is_u64 s → is_u64 r →
  ∃ out', parse_stat page_size (stat_line pid comm fields) out = Ret (true, out') ∧
    utime out' = u ∧ stime out' = s ∧ rss_pages out' = r ∧
    rss_mb out' = to_u64 (r * page_size) / (1024 * 1024).
Proof.
  intros Hok Hu Hs Hr Uu Us Ur. rewrite parse_stat_line by done.
  set (val := λ k, if bool_decide (k = 14) then u else if bool_decide (k = 15) then s else r).
  destruct (stat_loop_spec val fields (String.length (join_words fields)) 3 out)
    as (o & -> & Ho1 & Ho2 & Ho3 & _); [done| |lia|done|].
  - intros i f Hf [E|[E|E]]; rewrite E.
    + assert (i = 11%nat) as -> by lia. rewrite Hu in Hf. by simplify_eq.
    + assert (i = 12%nat) as -> by lia. rewrite Hs in Hf. by simplify_eq.
    + assert (i = 21%nat) as -> by lia. rewrite Hr in Hf. by simplify_eq.
  - apply lookup_lt_Some in Hr as Hlen. unfold pick in *.
    rewrite bool_decide_eq_true_2 in Ho1, Ho2, Ho3 by lia.
    eexists. split; [done|]. simpl. by rewrite Ho1, Ho2, Ho3.
Qed.

Definition stat_words : list string :=
  ["S"; "1"; "2"; "3"; "0"; "-1"; "5"; "6"; "7"; "8"; "9"; "120"; "34"; "0"; "0"; "20"; "0"; "4"; "0"; "77";
   "1000"; "512"; "18"].

Lemma self_stat_fields_witness :
  ∃ out', parse_stat 4096 (stat_line "42" "drop) (agent" stat_words) procstats0 = Ret (true, out') ∧
    utime out' = 120 ∧ stime out' = 34 ∧ rss_pages out' = 512 ∧ rss_mb out' = 2.
Proof.
  apply (self_stat_fields 4096 "42" "drop) (agent" stat_words 120 34 512 procstats0).
  - unfold stat_words. repeat (apply Forall_cons; split; [by split_and!|]). apply Forall_nil. exact I.
  - reflexivity.
  - reflexivity.
  - reflexivity.
  - by split.
  - by split.
  - by split.
Defined.
