(* ===== verification/Agent.v ===== *)
(** The agent (agent/main.cpp): start-up, the heartbeat thread, the worker thread
    and the upload of results.

    The gRPC calls are an interface, [RPC]; a call's channel is the one of the
    server pool.  One round of the heartbeat thread and one task of the worker
    thread are programs over the world; they share the queue, which both change
    under its lock. *)
From stdpp Require Import base strings list.
From Stdlib Require Import ZArith Lia Ascii.
From S2P Require Import Prelude CppString OrdMap OS Proto ServerPool Symbols Profilers EbpfLoader.
From S2P Require Import ProfilerFactory ContinuousProfiler SelfStats PGStore Server.

Local Open Scope string_scope.

(** * State *)

Record flags := mkFlags {
  FLAGS_hostname : string;
  FLAGS_ip : string;
  FLAGS_uid : string;
  FLAGS_agent_version : string;
  FLAGS_apiserver_addr : string;
  FLAGS_server_addr : string;
  FLAGS_foreground : bool;
}.

(** [g_worker] *)
Record WorkerState := mkWorker {
  queue : list TaskDesc;
  shutdown : bool;
}.

(** The system constants of PidStats and the process id. *)
Record sysconf := mkSysconf {
  sc_clk_tck : Z;
  sc_page_size : Z;
  sc_pid : Z;
}.

(** The globals, and the local and static variables of the heartbeat thread.
    [g_continuous] is the map of continuous profilers (pointers as numbers),
    [live] the objects that are allocated. *)
Record agent := mkAgent {
  g_worker : WorkerState;
  g_server_pool : ServerPool;
  registered : bool;
  consecutive_failures : Z;
  prev_stats : ProcStats;
  g_continuous : list (string * Z);
  live : list Z;
}.

Definition set_worker (k : WorkerState) (a : agent) : agent :=
  mkAgent k (g_server_pool a) (registered a) (consecutive_failures a) (prev_stats a)
    (g_continuous a) (live a).
Definition set_prev (p : ProcStats) (a : agent) : agent :=
  mkAgent (g_worker a) (g_server_pool a) (registered a) (consecutive_failures a) p
    (g_continuous a) (live a).
Definition set_hb_vars (p : ServerPool) (r : bool) (f : Z) (a : agent) : agent :=
  mkAgent (g_worker a) p r f (prev_stats a) (g_continuous a) (live a).
Definition set_cont (g : list (string * Z)) (l : list Z) (a : agent) : agent :=
  mkAgent (g_worker a) (g_server_pool a) (registered a) (consecutive_failures a) (prev_stats a) g l.

(** * gRPC *)

Class RPC (W : Type) := {
  (** [None] is a status that is not OK. *)
  rpc_health : option string → HealthCheckRequest → W → option HealthCheckResponse * W;
  rpc_register : option string → RegisterAgentRequest → W → bool * W;
  rpc_notify : option string → TaskResult → W → bool * W;
}.

(** * Start-up *)

Definition detect_hostname (gethostname : option string) : string := default "unknown" gethostname.
Definition detect_ip (gethostname : option string) (lookup : string → option string) : string :=
  match gethostname with
  | Some h => default "127.0.0.1" (lookup h)
  | None => "127.0.0.1"
  end.

(** The flags after auto-detection; [getpid] names the uid. *)
Definition detect_flags (gethostname : option string) (lookup : string → option string) (getpid : Z)
    (f : flags) : flags :=
  let hostname := or_default (FLAGS_hostname f) (detect_hostname gethostname) in
  let ip := or_default (FLAGS_ip f) (detect_ip gethostname lookup) in
  mkFlags hostname ip (or_default (FLAGS_uid f) (ip +:+ "-" +:+ to_string getpid))
    (FLAGS_agent_version f) (FLAGS_apiserver_addr f) (FLAGS_server_addr f) (FLAGS_foreground f).

Definition detect_sysconf (clk_tck page_size getpid : Z) : sysconf :=
  mkSysconf (if bool_decide (clk_tck <= 0) then 100 else clk_tck)
    (if bool_decide (page_size <= 0) then 4096 else page_size) getpid.

(** What a process does in [Daemonize]: it exits, or it is the daemon. *)
Inductive daemon_role := DExit (status : Z) | DDaemon.

Definition daemon_role_of (fork1 setsid fork2 : Z) : daemon_role :=
  if bool_decide (fork1 < 0) then DExit 1 else
  if bool_decide (0 < fork1) then DExit 0 else
  if bool_decide (setsid < 0) then DExit 1 else
  if bool_decide (fork2 < 0) then DExit 1 else
  if bool_decide (0 < fork2) then DExit 0 else DDaemon.

Definition agent_init (f : flags) : outcome agent :=
  pool ← Init (FLAGS_server_addr f) empty_pool;
  Ret (mkAgent (mkWorker [] false) pool false 0 procstats0 [] []).

Definition SignalHandler (a : agent) : agent := set_worker (mkWorker (queue (g_worker a)) true) a.

(** * Heartbeats *)

Definition kFailoverThreshold : Z := 3.

(** A failed heartbeat. *)
Definition on_failure (a : agent) : outcome agent :=
  f ← i32_add (consecutive_failures a) 1;
  if bool_decide (kFailoverThreshold <= f) && bool_decide (1 < length (addrs (g_server_pool a)))%nat then
    p ← Failover (g_server_pool a);
    Ret (set_hb_vars p false 0 a)
  else Ret (set_hb_vars (g_server_pool a) (registered a) f a).

(** The pending task goes to the queue unless one with its id is there. *)
Definition enqueue (t : TaskDesc) (k : WorkerState) : WorkerState :=
  if existsb (λ t', bool_decide (task_id t' = task_id t)) (queue k) then k
  else mkWorker (queue k ++ [t])%list (shutdown k).

Definition on_pending (resp : HealthCheckResponse) (a : agent) : agent :=
  match hc_pending resp, hc_task_desc resp with
  | true, Some t => set_worker (enqueue t (g_worker a)) a
  | _, _ => a
  end.

Inductive hb_result :=
  | HbExit
  | HbFailed (a : agent)
  | HbOk (a : agent) (resp : HealthCheckResponse).

Section Threads.
Context {W : Type} `{OS W} `{BPF W} `{RPC W}.
Context (fl : flags) (sc : sysconf).

(** One round of [HeartbeatThread]; [elapsed_ns] is the time since the last one. *)
Definition heartbeat_round (elapsed_ns : Z) (a : agent) : prog W hb_result :=
  if shutdown (g_worker a) then mret HbExit else
  let channel := GetChannel (g_server_pool a) in
  ps ← ComputePidStats (sc_pid sc) (sc_page_size sc) (sc_clk_tck sc) elapsed_ns (prev_stats a);
  let a1 := set_prev ps.2 a in
  let req := mkHealthCheckRequest (FLAGS_hostname fl) (FLAGS_ip fl) (FLAGS_uid fl) (FLAGS_agent_version fl)
               ps.1 default_pidstats in
  resp ← act (rpc_health channel req);
  match resp with
  | None =>
      a2 ← lift (on_failure a1);
      modify (os_sleep 1);;
      mret (HbFailed a2)
  | Some r =>
      let a2 := set_hb_vars (g_server_pool a1) (registered a1) 0 a1 in
      reg ← (if registered a2 then mret true else
             act (rpc_register channel (mkRegisterAgentRequest (FLAGS_hostname fl) (FLAGS_ip fl)
               (FLAGS_uid fl) (FLAGS_agent_version fl))));
      let a3 := on_pending r (set_hb_vars (g_server_pool a2) reg 0 a2) in
      modify (os_sleep 1);;
      mret (HbOk a3 r)
  end.

(** ** A round in two parts

    Until Do has returned, and after it: other threads run in between. *)

Inductive hb_sent :=
  | HbStop
  | HbGot (channel : option string) (resp : option HealthCheckResponse) (a : agent).

Definition hb_send (elapsed_ns : Z) (a : agent) : prog W hb_sent :=
  if shutdown (g_worker a) then mret HbStop else
  let channel := GetChannel (g_server_pool a) in
  ps ← ComputePidStats (sc_pid sc) (sc_page_size sc) (sc_clk_tck sc) elapsed_ns (prev_stats a);
  let req := mkHealthCheckRequest (FLAGS_hostname fl) (FLAGS_ip fl) (FLAGS_uid fl) (FLAGS_agent_version fl)
               ps.1 default_pidstats in
  resp ← act (rpc_health channel req);
  mret (HbGot channel resp (set_prev ps.2 a)).

Definition hb_receive (channel : option string) (resp : option HealthCheckResponse) (a : agent) :
    prog W hb_result :=
  match resp with
  | None => a' ← lift (on_failure a); modify (os_sleep 1);; mret (HbFailed a')
  | Some r =>
      reg ← (if registered a then mret true else
             act (rpc_register channel (mkRegisterAgentRequest (FLAGS_hostname fl) (FLAGS_ip fl)
               (FLAGS_uid fl) (FLAGS_agent_version fl))));
      let a' := on_pending r (set_hb_vars (g_server_pool a) reg 0 a) in
      modify (os_sleep 1);;
      mret (HbOk a' r)
  end.

(** * Uploads *)

(** [pipe], [fork] and [exec] of curl; a failed [waitpid] leaves the status 0. *)
Definition UploadFileToAPI (tid filepath : string) : prog W (bool * string) :=
  let filename := basename filepath in
  let url := FLAGS_apiserver_addr fl +:+ "/api/v1/tasks/" +:+ tid +:+ "/upload/" +:+ filename in
  r ← act (os_pipe_run ["curl"; "-sf"; "-o"; "/dev/null"; "-w"; "%{http_code}"; "-F";
                        c_str ("file=@" +:+ filepath); c_str url]);
  match r with
  | inl e => mret (false, e)
  | inr (out, wr) =>
      let result := trim_back is_crlf out in
      let exited_0 := match wr with Exited c => bool_decide (c = 0) | WaitFailed _ => true | Signaled _ => false end in
      if negb exited_0 || negb (bool_decide (http_code result = 200))
      then mret (false, "upload HTTP " +:+ result)
      else mret (true, tid +:+ "/" +:+ filename)
  end.

(** The loop over the collected files: an error message, or the key of the first
    file. *)
Fixpoint upload_files (tid output_dir : string) (fs : list string) (key : option string) :
    prog W (string + string) :=
  match fs with
  | [] => mret (inr (default "" key))
  | f :: fs' =>
      r ← UploadFileToAPI tid (output_dir +:+ "/" +:+ f);
      let '(ok, this_key) := r in
      if negb ok then mret (inl ("upload failed: " +:+ this_key))
      else upload_files tid output_dir fs' (Some (default this_key key))
  end.

(** * The worker *)

(** The result a single-shot task reports. *)
Definition single_result (t : TaskDesc) : prog W TaskResult :=
  let tid := task_id t in
  let output_dir := "/tmp/drop_" +:+ tid in
  match CreateProfiler (profiler_type t) with
  | None => mret (task_result tid ("unsupported profiler_type=" +:+ to_string (profiler_type t)) "")
  | Some p =>
      r ← p_record p t output_dir (mkR "" []);
      let '(ok, st) := r in
      if negb ok then mret (task_result tid (error_msg st) "") else
      u ← upload_files tid output_dir (collect_result st) None;
      mret match u with
           | inl e => task_result tid e ""
           | inr key => task_result tid "" key
           end
  end.

(** The thread of a continuous task, up to the [delete]: [n] rounds pass before a
    stop request is seen. *)
Definition continuous_result (n : nat) (t : TaskDesc) : prog W TaskResult :=
  r ← continuous_record n t ("/tmp/drop_" +:+ task_id t) ""
        (mkC [] 0 (FLAGS_apiserver_addr fl) []);
  let '(ok, e, _) := r in
  mret (task_result (task_id t) (if (ok : bool) then "" else e) "").

Inductive worker_step :=
  | WkBlock
  | WkExit
  | WkTask (t : TaskDesc) (a : agent).

(** Waiting for work. *)
Definition worker_take (a : agent) : worker_step :=
  match queue (g_worker a) with
  | t :: q => WkTask t (set_worker (mkWorker q (shutdown (g_worker a))) a)
  | [] => if shutdown (g_worker a) then WkExit else WkBlock
  end.

(** A new number for an object. *)
Definition fresh_object (a : agent) : Z := 1 + foldr Z.max 0 (live a ++ (g_continuous a).*2)%list.

(** [new ContinuousProfiler()], entered in [g_continuous_profilers]. *)
Definition start_continuous (t : TaskDesc) (a : agent) : agent :=
  set_cont (om_set (task_id t) (fresh_object a) (g_continuous a)) (fresh_object a :: live a) a.

(** The end of the runner thread of object [cp]: report, then [delete cp]. *)
Definition finish_continuous (n : nat) (t : TaskDesc) (cp : Z) (a : agent) : prog W agent :=
  r ← continuous_result n t;
  act (rpc_notify (GetChannel (g_server_pool a)) r);;
  mret (set_cont (g_continuous a) (filter (λ x, x ≠ cp) (live a)) a).

(** One task: a single-shot one is run and reported, a continuous one is handed to a
    thread of its own. *)
Definition worker_task (t : TaskDesc) (a : agent) : prog W agent :=
  if bool_decide (task_type t = 1) then mret (start_continuous t a)
  else
    r ← single_result t;
    act (rpc_notify (GetChannel (g_server_pool a)) r);;
    mret a.

(** * The process *)

Definition pid_file : string := "/tmp/drop_agent.pid".

(** [Daemonize] with the results of its system calls; the daemon writes its pid. *)
Definition Daemonize (fork1 setsid fork2 getpid : Z) : prog W daemon_role :=
  match daemon_role_of fork1 setsid fork2 with
  | DExit s => mret (DExit s)
  | DDaemon => write_file pid_file (to_string getpid);; mret DDaemon
  end.

(** [main] up to the start of the threads: the exit status, or the agent. *)
Definition agent_main (fork1 setsid fork2 getpid : Z) : prog W (Z + agent) :=
  role ← (if FLAGS_foreground fl then mret DDaemon else Daemonize fork1 setsid fork2 getpid);
  match role with
  | DExit s => mret (inl s)
  | DDaemon => a ← lift (agent_init fl); mret (inr a)
  end.

(** The end of [main], after the worker was joined. *)
Definition agent_exit : prog W Z :=
  (if FLAGS_foreground fl then mret tt else unlink_file pid_file);;
  mret 0.
End Threads.

(** * Lemmas *)

Section Lemmas.
Context {W : Type} `{OS W} `{BPF W}.
Context (fl : flags).

(** curl sent the file and the apiserver answered 200. *)
Definition accepted (tid filepath : string) (w w' : W) : Prop :=
  ∃ out wr,
    os_pipe_run ["curl"; "-sf"; "-o"; "/dev/null"; "-w"; "%{http_code}"; "-F";
      c_str ("file=@" +:+ filepath);
      c_str (FLAGS_apiserver_addr fl +:+ "/api/v1/tasks/" +:+ tid +:+ "/upload/" +:+ basename filepath)] w
    = (inr (out, wr), w') ∧
    (wr = Exited 0 ∨ ∃ e, wr = WaitFailed e) ∧ http_code (trim_back is_crlf out) = 200.

(** Every file, one after the other. *)
Inductive all_accepted (tid dir : string) : list string → W → W → Prop :=
  | accepted_nil w : all_accepted tid dir [] w w
  | accepted_cons f fs w w1 w2 :
      accepted tid (dir +:+ "/" +:+ f) w w1 → all_accepted tid dir fs w1 w2 →
      all_accepted tid dir (f :: fs) w w2.

(** The profiler succeeded and every file it left was uploaded. *)
Definition task_succeeds (t : TaskDesc) (w : W) : Prop :=
  ∃ p st w1 w2, CreateProfiler (profiler_type t) = Some p ∧
    p_record p t ("/tmp/drop_" +:+ task_id t) (mkR "" []) w = (Ret (true, st), w1) ∧
    all_accepted (task_id t) ("/tmp/drop_" +:+ task_id t) (collect_result st) w1 w2.

Lemma UploadFileToAPI_spec tid path (w : W) ok k w' :
  UploadFileToAPI fl tid path w = (Ret (ok, k), w') →
  if ok then accepted tid path w w' else ∀ w'', ¬ accepted tid path w w''.
Proof.
  unfold UploadFileToAPI, accepted. intros Hr. apply prog_bind_Ret in Hr as (r & w1 & Hp & Hr).
  apply (proj1 (act_Ret _ _ _ _)) in Hp. destruct r as [e|[out wr]].
  { prog_inv. intros w'' (out & wr & Hp' & _). congruence. }
  cbv zeta in Hr. destruct (negb _ || negb _) eqn:Hbad; prog_inv.
  - intros w'' (out' & wr' & Hp' & Hwr & Hcode). rewrite Hp in Hp'. simplify_eq.
    rewrite (bool_decide_eq_true_2 _ Hcode) in Hbad. by destruct Hwr as [->|[e ->]].
  - apply orb_false_iff in Hbad as [Hwr%negb_false_iff Hcode%negb_false_iff].
    apply bool_decide_eq_true in Hcode. exists out, wr. split_and!; [done| |done].
    destruct wr; [by eauto| |done]. apply bool_decide_eq_true in Hwr. left. by f_equal.
Qed.

Lemma upload_files_spec tid dir fs key (w : W) r w' :
  upload_files fl tid dir fs key w = (Ret r, w') →
  match r with
  | inr _ => all_accepted tid dir fs w w'
  | inl e => e ≠ "" ∧ ∀ w'', ¬ all_accepted tid dir fs w w''
  end.
Proof.
  revert key w. induction fs as [|f fs IH]; intros key w Hu; cbn [upload_files] in Hu.
  { prog_inv. constructor. }
  apply prog_bind_Ret in Hu as ([ok k] & w1 & Hf%UploadFileToAPI_spec & Hu). destruct ok; cbn [negb] in Hu.
  - apply IH in Hu. destruct r as [e|k']; [|by econstructor].
    destruct Hu as [He Hno]. split; [done|]. intros w'' Hall. inversion_clear Hall as [|????? Ha Hrest].
    destruct Hf as (? & ? & Hp & _), Ha as (? & ? & Hp' & _). rewrite Hp in Hp'. simplify_eq. by eapply Hno.
  - prog_inv. split; [done|]. intros w'' Hall. inversion_clear Hall. by eapply Hf.
Qed.

Lemma single_result_error t (w : W) r w' :
  single_result fl t w = (Ret r, w') →
  r_task_id r = task_id t ∧ (r_error_message r = "" ↔ task_succeeds t w).
Proof.
  unfold single_result, task_succeeds. intros Hr.
  destruct (CreateProfiler (profiler_type t)) as [p|] eqn:Hp.
  2: { prog_inv. split; [done|]. split; [by intros [? _]%str_app_eq_nil|naive_solver]. }
  apply prog_bind_Ret in Hr as ([ok st] & w1 & Hrec & Hr). destruct ok; cbn [negb] in Hr.
  - apply prog_bind_Ret in Hr as (u & w2 & Hu%upload_files_spec & Hr). destruct u as [e|key]; prog_inv; simpl.
    + destruct Hu as [He Hno]. split; [done|]. split; [done|].
      intros (p' & st' & w1' & w2' & [= <-] & Hrec' & Hall). rewrite Hrec in Hrec'. simplify_eq. by apply Hno in Hall.
    + split; [done|]. split; [|done]. intros _. by exists p, st, w1, w'.
  - prog_inv. simpl. apply CreateProfiler_spec in Hp as Hspec.
    pose proof (record_failure t _ _ _ _ _ Hrec) as Hne. split; [done|]. split; [done|].
    intros (p' & st' & w1' & w2' & [= <-] & Hrec' & _). by rewrite Hrec in Hrec'.
Qed.
End Lemmas.

(** ** Heartbeats *)

Section Heartbeat.
Context {W : Type} `{OS W} `{RPC W}.
Context (fl : flags) (sc : sysconf).

(** [n] rounds that fail one after the other. *)
Inductive fail_run : nat → agent → W → agent → W → Prop :=
  | fail_run_O a w : fail_run O a w a w
  | fail_run_S n a w e a1 w1 a2 w2 :
      heartbeat_round fl sc e a w = (Ret (HbFailed a1), w1) →
      fail_run n a1 w1 a2 w2 → fail_run (S n) a w a2 w2.

Lemma heartbeat_failed e a (w : W) a1 w1 :
  heartbeat_round fl sc e a w = (Ret (HbFailed a1), w1) → ∃ p, on_failure (set_prev p a) = Ret a1.
Proof. unfold heartbeat_round. intros Hr. prog_inv. eauto. Qed.

Lemma on_failure_step p a a1 :
  pool_ok (g_server_pool a) → (1 < length (addrs (g_server_pool a)))%nat →
  0 <= consecutive_failures a < 3 → on_failure (set_prev p a) = Ret a1 →
  g_worker a1 = g_worker a ∧ pool_ok (g_server_pool a1) ∧ addrs (g_server_pool a1) = addrs (g_server_pool a) ∧
  if bool_decide (consecutive_failures a = 2)
  then consecutive_failures a1 = 0 ∧ registered a1 = false ∧
       current_idx (g_server_pool a1) = ((current_idx (g_server_pool a) + 1) mod length (addrs (g_server_pool a)))%nat
  else consecutive_failures a1 = consecutive_failures a + 1 ∧ registered a1 = registered a ∧
       current_idx (g_server_pool a1) = current_idx (g_server_pool a).
Proof.
  intros Hok Hlen Hf Hr. unfold on_failure in Hr. simpl in Hr.
  rewrite i32_add_ok in Hr by (unfold is_i32; lia). simpl in Hr.
  rewrite (bool_decide_eq_true_2 (1 < length _)%nat) in Hr by done.
  unfold kFailoverThreshold in Hr.
  destruct (decide (consecutive_failures a = 2)) as [E|E];
    [rewrite (bool_decide_eq_true_2 _ E)|rewrite (bool_decide_eq_false_2 _ E)].
  - rewrite bool_decide_eq_true_2 in Hr by lia. simpl in Hr.
    destruct (Failover_ok _ Hok) as (p' & Hp & Hok' & Ha & Hi). rewrite Hp in Hr. simpl in Hr.
    simplify_eq/=. done.
  - rewrite bool_decide_eq_false_2 in Hr by lia. simpl in Hr. by simplify_eq/=.
Qed.

Lemma fail_run_spec n a (w : W) a' w' :
  fail_run n a w a' w' → pool_ok (g_server_pool a) → (1 < length (addrs (g_server_pool a)))%nat →
  0 <= consecutive_failures a < 3 →
  let k := (Z.to_nat (consecutive_failures a) + n)%nat in
  g_worker a' = g_worker a ∧ pool_ok (g_server_pool a') ∧ addrs (g_server_pool a') = addrs (g_server_pool a) ∧
  consecutive_failures a' = Z.of_nat (k mod 3) ∧
  current_idx (g_server_pool a') =
    ((current_idx (g_server_pool a) + k / 3) mod length (addrs (g_server_pool a)))%nat.
Proof.
  induction 1 as [a w|n a w e a1 w1 a2 w2 Hr _ IH]; intros Hok Hlen Hf; cbv zeta.
  - split_and!; try done.
    + rewrite Nat.add_0_r, Nat.mod_small by lia. lia.
    + rewrite Nat.add_0_r, Nat.div_small, Nat.add_0_r by lia. symmetry. apply Nat.mod_small, Hok.
  - destruct (heartbeat_failed _ _ _ _ _ Hr) as [p Hp].
    destruct (on_failure_step p a a1 Hok Hlen Hf Hp) as (Hw & Hok1 & Ha & Hc).
    destruct (IH Hok1) as (Hw' & Hok' & Ha' & Hf' & Hi'); [by rewrite Ha|case_bool_decide; lia|].
    rewrite Hw', Ha', Hf', Hi', Ha. split_and!; try done.
    + f_equal. case_bool_decide as E; destruct Hc as (-> & _ & _).
      * rewrite E. change (Z.to_nat 0) with 0%nat. change (Z.to_nat 2) with 2%nat.
        replace (2 + S n)%nat with (n + 1 * 3)%nat by lia. by rewrite Nat.Div0.mod_add.
      * f_equal. lia.
    + case_bool_decide as E; destruct Hc as (-> & _ & ->).
      * rewrite E. change (Z.to_nat 0) with 0%nat. change (Z.to_nat 2) with 2%nat.
        replace (2 + S n)%nat with (n + 1 * 3)%nat by lia. rewrite Nat.div_add by lia.
        rewrite Nat.Div0.add_mod_idemp_l. rewrite Nat.add_0_l. f_equal. generalize (n / 3)%nat. lia.
      * do 2 f_equal. f_equal. lia.
Qed.
End Heartbeat.

(** ** The queue *)

Lemma enqueue_spec t k :
  (∃ t', t' ∈ queue k ∧ task_id t' = task_id t ∧ enqueue t k = k) ∨
  ((∀ t', t' ∈ queue k → task_id t' ≠ task_id t) ∧
   enqueue t k = mkWorker (queue k ++ [t])%list (shutdown k)).
Proof.
  unfold enqueue. destruct (existsb _ (queue k)) eqn:E.
  - left. apply existsb_exists in E as (t' & Hin & Ht%bool_decide_eq_true).
    exists t'. split; [by apply list_elem_of_In|done].
  - right. split; [|done]. intros t' Hin Ht.
    assert (existsb (λ t', bool_decide (task_id t' = task_id t)) (queue k) = true); [|congruence].
    apply existsb_exists. exists t'. split; [by apply list_elem_of_In|by apply bool_decide_eq_true].
Qed.

Definition queue_ok (k : WorkerState) : Prop := NoDup (task_id <$> queue k).

Lemma enqueue_ok t k : queue_ok k → queue_ok (enqueue t k).
Proof.
  intros Hk. destruct (enqueue_spec t k) as [(_ & _ & _ & ->)|[Hno ->]]; [done|].
  unfold queue_ok. simpl. rewrite fmap_app. apply NoDup_app. split; [done|].
  split; [|apply NoDup_singleton]. intros x (t' & -> & Hin)%list_elem_of_fmap Hx.
  apply list_elem_of_singleton in Hx. by apply (Hno t').
Qed.

Lemma on_pending_ok r a : queue_ok (g_worker a) → queue_ok (g_worker (on_pending r a)).
Proof. unfold on_pending. destruct (hc_pending r), (hc_task_desc r); simpl; auto using enqueue_ok. Qed.

Lemma heartbeat_ok {W} `{OS W} `{RPC W} fl sc e a (w : W) a' resp w' :
  heartbeat_round fl sc e a w = (Ret (HbOk a' resp), w') →
  ∃ p reg, a' = on_pending resp (set_hb_vars (g_server_pool a) reg 0 (set_prev p a)) ∧
    (registered a = true → reg = true).
Proof.
  unfold heartbeat_round. intros Hr. prog_inv; eexists _, _; (split; [done|]); intros; simpl in *; congruence.
Qed.

(** A round is its two parts one after the other. *)
Lemma heartbeat_round_split {W} `{OS W} `{RPC W} fl sc e a (w : W) :
  heartbeat_round fl sc e a w =
  (x ← hb_send fl sc e a;
   match x with HbStop => mret HbExit | HbGot ch resp a1 => hb_receive fl ch resp a1 end) w.
Proof.
  unfold heartbeat_round, hb_send. destruct (shutdown _); [done|].
  unfold mbind, prog_bind, act. destruct (ComputePidStats _ _ _ _ _ w) as [[ps| |] w1]; [|done..].
  destruct (rpc_health _ _ w1) as [[r|] w2]; [|done]. simpl. unfold mbind, prog_bind.
  by destruct (registered a).
Qed.

(** The pointer of a finished continuous task stays in the map. *)
Lemma continuous_pointer_dangles {W} `{OS W} `{BPF W} `{RPC W} fl n t a (w : W) a' w' :
  let a1 := start_continuous t a in
  finish_continuous fl n t (fresh_object a) a1 w = (Ret a', w') →
  om_get (task_id t) (g_continuous a') = Some (fresh_object a) ∧ fresh_object a ∉ live a'.
Proof.
  cbv zeta. unfold finish_continuous. intros Hr. prog_inv. simpl. split.
  - unfold om_set. by rewrite om_get_upd_eq.
  - rewrite list_elem_of_filter. naive_solver.
Qed.

(** * A concrete world for the agent *)

Record rpc_script := mkScript {
  s_health : list (option HealthCheckResponse);
  s_register : bool;
  s_sent : list TaskResult;
}.

Definition asim : Type := ksim * rpc_script.
#[global] Instance asim_os : OS asim := prod_os.
#[global] Instance asim_bpf : BPF asim := prod_bpf.
#[global] Instance asim_rpc : RPC asim := {|
  rpc_health _ _ w :=
    match s_health w.2 with
    | [] => (None, w)
    | r :: rest => (r, (w.1, mkScript rest (s_register w.2) (s_sent w.2)))
    end;
  rpc_register _ _ w := (s_register w.2, w);
  rpc_notify _ r w := (true, (w.1, mkScript (s_health w.2) (s_register w.2) (s_sent w.2 ++ [r])%list));
|}.

Definition flags0 : flags := mkFlags "h" "10.0.0.1" "u" "0.1.0" "http://api" "a:1, b:2" true.
Definition sysconf0 : sysconf := mkSysconf 100 4096 77.
Definition agent0 : agent :=
  mkAgent (mkWorker [] false) (mkPool ["a:1"; "b:2"] 0 (Some "a:1")) false 0 procstats0 [] [].
Definition idle : asim := (mkKsim sim0 ∅ ∅ cache0, mkScript [] true []).

Example agent_init_flags0 : agent_init flags0 = Ret agent0.
Proof. reflexivity. Qed.

(** * Claims *)

(** C10: From a task of the agent to the database of the server: when the worker
    reports a running single-shot task and the server handles the report, the task
    is DONE exactly when the profiler succeeded and the apiserver accepted every
    file it left, and FAILED otherwise; for every profiler type, known or not, and
    whatever the profiled system, curl and the file system answer, as long as the
    run does not end in an exception. *)
Theorem task_outcome_reaches_database {W} `{OS W} `{BPF W} fl t (w : W) r w' ctx env1 env2 s d row :
  single_result fl t w = (Ret r, w') →
  is_ok (CheckDeadline ctx) = true → env_commits env1 = true → env_commits env2 = true →
  g_pg s = Some (mkSession d NoTxn) → statuses_ok d →
  hotmethod_task d !! c_str (task_id t) = Some row → t_status row = kRunning →
  ∃ s' d' row', NotifyResult ctx env1 env2 r s = Ret (status_ok, s') ∧
    g_pg s' = Some (mkSession d' NoTxn) ∧ hotmethod_task d' !! c_str (task_id t) = Some row' ∧
    ((task_succeeds fl t w ∧ t_status row' = kDone) ∨ (¬ task_succeeds fl t w ∧ t_status row' = kFailed)).
Proof.
  intros Hr Hctx Hc1 Hc2 Hpg Hok Hrow Hst.
  destruct (single_result_error fl t w r w' Hr) as [Htid Hsucc]. rewrite <-Htid in Hrow.
  destruct (NotifyResult_report ctx env1 env2 r s d row Hctx Hc1 Hc2 Hpg Hok Hrow)
    as (d' & row' & Hn & Hrow' & Hs' & _).
  eexists _, d', row'. split; [exact Hn|]. split; [done|]. split; [by rewrite <-Htid|].
  rewrite Hs', Hst. case_bool_decide as He.
  - left. split; [by apply Hsucc|done].
  - right. split; [by rewrite <-Hsucc|done].
Qed.

(** perf succeeds; the upload answers 200. *)
Definition perf_world : ksim :=
  mkKsim (mkSim ∅ 0 ∅ None [(Ran false (Exited 0), [("/tmp/drop_t1/perf.data", "PERFILE2")])] []
    [inr ("200", Exited 0)]) ∅ ∅ cache0.
Definition perf_report : TaskResult := task_result "t1" "" "t1/perf.data".

Lemma task_outcome_reaches_database_witness :
  let s := mkServer ∅ ∅ (Some (mkSession db1 NoTxn)) in
  ∃ s' d' row', NotifyResult ctx0 env_fine env_fine perf_report s = Ret (status_ok, s') ∧
    g_pg s' = Some (mkSession d' NoTxn) ∧ hotmethod_task d' !! "t1" = Some row' ∧
    ((task_succeeds flags0 (task_pid 42) perf_world ∧ t_status row' = kDone) ∨
     (¬ task_succeeds flags0 (task_pid 42) perf_world ∧ t_status row' = kFailed)).
Proof.
  apply (task_outcome_reaches_database flags0 (task_pid 42) perf_world perf_report
    (single_result flags0 (task_pid 42) perf_world).2 ctx0 env_fine env_fine
    (mkServer ∅ ∅ (Some (mkSession db1 NoTxn))) db1 (mkTask 1 "running" (Some 5) None no_columns)).
  - vm_compute. reflexivity.
  - reflexivity.
  - reflexivity.
  - reflexivity.
  - reflexivity.
  - apply statuses_ok_db1.
  - reflexivity.
  - reflexivity.
Defined.

(** Failover: with several servers, [n] heartbeats that fail one after the
    other move the agent exactly [n / 3] servers on around the list, with the
    channel of the server it is at, and leave [n mod 3] failures counted; the
    tasks it has queued are kept. *)
Theorem heartbeat_failover {W} `{OS W} `{RPC W} fl sc n a (w : W) a' w' :
  fail_run fl sc n a w a' w' → pool_ok (g_server_pool a) → (1 < length (addrs (g_server_pool a)))%nat →
  consecutive_failures a = 0 →
  pool_ok (g_server_pool a') ∧ addrs (g_server_pool a') = addrs (g_server_pool a) ∧
  current_idx (g_server_pool a') =
    ((current_idx (g_server_pool a) + n / 3) mod length (addrs (g_server_pool a)))%nat ∧
  consecutive_failures a' = Z.of_nat (n mod 3) ∧ g_worker a' = g_worker a.
Proof.
  intros Hr Hok Hlen Hf. destruct (fail_run_spec fl sc n a w a' w' Hr Hok Hlen) as (? & ? & ? & Hc & Hi); [lia|].
  rewrite Hf in Hc, Hi. done.
Qed.

Lemma heartbeat_failover_witness :
  ∃ a' w', fail_run flags0 sysconf0 4 agent0 idle a' w' ∧
    current_idx (g_server_pool a') = 1%nat ∧ consecutive_failures a' = 1.
Proof.
  set (round := λ p : agent * asim, match heartbeat_round flags0 sysconf0 1000000000 p.1 p.2 with
                                    | (Ret (HbFailed a), w) => (a, w) | _ => p end).
  set (p4 := round (round (round (round (agent0, idle))))).
  assert (fail_run flags0 sysconf0 4 agent0 idle p4.1 p4.2) as Hrun.
  - eapply (fail_run_S _ _ 3 _ _ 1000000000 (round (agent0, idle)).1 (round (agent0, idle)).2);
      [vm_compute; reflexivity|].
    eapply (fail_run_S _ _ 2 _ _ 1000000000 (round (round (agent0, idle))).1 (round (round (agent0, idle))).2);
      [vm_compute; reflexivity|].
    eapply (fail_run_S _ _ 1 _ _ 1000000000 (round (round (round (agent0, idle)))).1
      (round (round (round (agent0, idle)))).2); [vm_compute; reflexivity|].
    eapply (fail_run_S _ _ 0 _ _ 1000000000 p4.1 p4.2); [vm_compute; reflexivity|]. apply fail_run_O.
  - exists p4.1, p4.2. split; [exact Hrun|].
    destruct (heartbeat_failover flags0 sysconf0 4 agent0 idle p4.1 p4.2 Hrun) as (_ & _ & Hi & Hf & _).
    + split; [simpl; lia|reflexivity].
    + simpl. lia.
    + reflexivity.
    + split; [exact Hi|exact Hf].
Defined.

(** A successful heartbeat, in every world: the failure count is reset, an
    agent that was registered stays so, the pending task is appended to the queue
    unless one with its id waits there already, and the queue never holds a task
    id twice; nothing else waits or leaves. *)
Theorem heartbeat_enqueues {W} `{OS W} `{RPC W} fl sc e a (w : W) a' resp w' :
  heartbeat_round fl sc e a w = (Ret (HbOk a' resp), w') → queue_ok (g_worker a) →
  queue_ok (g_worker a') ∧ consecutive_failures a' = 0 ∧ (registered a = true → registered a' = true) ∧
  g_server_pool a' = g_server_pool a ∧ shutdown (g_worker a') = shutdown (g_worker a) ∧
  queue (g_worker a') = (queue (g_worker a) ++
    match hc_pending resp, hc_task_desc resp with
    | true, Some t =>
        if decide (task_id t ∈ task_id <$> queue (g_worker a)) then [] else [t]
    | _, _ => []
    end)%list.
Proof.
  intros Hr Hq. apply heartbeat_ok in Hr as (p & reg & -> & Hreg).
  split; [by apply on_pending_ok|]. unfold on_pending.
  destruct (hc_pending resp); [|by rewrite app_nil_r].
  destruct (hc_task_desc resp) as [t|]; [|by rewrite app_nil_r]. simpl.
  destruct (enqueue_spec t (g_worker a)) as [(t' & Hin & Ht & ->)|[Hno ->]].
  - rewrite decide_True; [by rewrite app_nil_r|]. rewrite <-Ht. by apply list_elem_of_fmap_2.
  - rewrite decide_False; [done|]. intros (t' & Ht & Hin)%list_elem_of_fmap. by apply (Hno t').
Qed.

Definition busy_world : asim :=
  (mkKsim sim0 ∅ ∅ cache0, mkScript [Some (mkHealthCheckResponse SERVING true (Some (task_pid 42)))] true []).
Definition busy_agent : agent :=
  match heartbeat_round flags0 sysconf0 1000000000 agent0 busy_world with
  | (Ret (HbOk a _), _) => a | _ => agent0 end.

Lemma heartbeat_enqueues_witness :
  queue (g_worker busy_agent) = [task_pid 42] ∧ queue_ok (g_worker busy_agent).
Proof.
  split; [vm_compute; reflexivity|].
  apply (heartbeat_enqueues flags0 sysconf0 1000000000 agent0 busy_world busy_agent
    (mkHealthCheckResponse SERVING true (Some (task_pid 42)))
    (heartbeat_round flags0 sysconf0 1000000000 agent0 busy_world).2).
  - vm_compute. reflexivity.
  - constructor.
Defined.
