(* ===== verification/AgentThreads.v ===== *)
(** The threads of the agent at the grain of locking (agent/main.cpp): the heartbeat
    thread, the worker thread and the signal handler around [g_worker.mu] and
    [g_worker.cv].

    [System] takes the critical sections as single steps; here the lock, the condition
    variable (with spurious wake-ups) and the two calls of notify are steps of their
    own, and the handler of SIGTERM and SIGINT runs on top of one of the threads, which
    stands still meanwhile.  The bodies of the critical sections are those of [Agent]
    ([enqueue], [worker_take]). *)
From stdpp Require Import base strings list relations.
From Stdlib Require Import ZArith Lia.
From S2P Require Import Prelude Proto Agent.

(** * State *)

Inductive thread := TMain | THeartbeat | TWorker.

(** Who holds [mu]. *)
Inductive owner := OHeartbeat | OWorker | OHandler.

(** The worker: before the lock, at the test of the predicate (with the lock), in
    [cv.wait], at work, ended. *)
Inductive worker_pc := KLock | KTest | KWait | KBusy (t : TaskDesc) | KEnded.

(** The heartbeat thread: at the top of the loop, in the call of Do, before the lock,
    in the critical section, before [notify_one], asleep, ended. *)
Inductive heartbeat_pc :=
  | BTop | BCall | BLock (t : TaskDesc) | BPush (t : TaskDesc) | BNotify | BSleep | BEnded.

(** The handler, with the thread it interrupted. *)
Inductive handler_pc := GNone | GLock (v : thread) | GSet (v : thread) | GNotify (v : thread).

Record threads := mkThreads {
  mu : option owner;
  shared : WorkerState;
  wk : worker_pc;
  hb : heartbeat_pc;
  sg : handler_pc;
}.

Definition threads_init : threads := mkThreads None (mkWorker [] false) KLock BTop GNone.

Definition interrupted (g : handler_pc) (v : thread) : Prop :=
  match g with GNone => False | GLock v' | GSet v' | GNotify v' => v' = v end.

(** [notify_one], [notify_all]: there is one thread to wait. *)
Definition notify (k : worker_pc) : worker_pc := match k with KWait => KLock | _ => k end.

(** * Steps *)

Inductive event := EPush (t : TaskDesc) | ETake (t : TaskDesc) | ESignal (v : thread) | ESpurious | EStep.

Inductive thread_step : threads → event → threads → Prop :=
  (** WorkerThread *)
  | k_lock s h g :
      ¬ interrupted g TWorker →
      thread_step (mkThreads None s KLock h g) EStep (mkThreads (Some OWorker) s KTest h g)
  | k_wait s h g m :
      ¬ interrupted g TWorker → queue s = [] → shutdown s = false →
      thread_step (mkThreads m s KTest h g) EStep (mkThreads None s KWait h g)
  | k_spurious m s h g :
      ¬ interrupted g TWorker →
      thread_step (mkThreads m s KWait h g) ESpurious (mkThreads m s KLock h g)
  | k_take s h g m t q :
      ¬ interrupted g TWorker → queue s = t :: q →
      thread_step (mkThreads m s KTest h g) (ETake t) (mkThreads None (mkWorker q (shutdown s)) (KBusy t) h g)
  | k_exit s h g m :
      ¬ interrupted g TWorker → queue s = [] → shutdown s = true →
      thread_step (mkThreads m s KTest h g) EStep (mkThreads None s KEnded h g)
  | k_done m s h g t :
      ¬ interrupted g TWorker →
      thread_step (mkThreads m s (KBusy t) h g) EStep (mkThreads m s KLock h g)
  (** HeartbeatThread; [shutdown] is read without the lock *)
  | b_stop m s k g :
      ¬ interrupted g THeartbeat → shutdown s = true →
      thread_step (mkThreads m s k BTop g) EStep (mkThreads m s k BEnded g)
  | b_go m s k g :
      ¬ interrupted g THeartbeat → shutdown s = false →
      thread_step (mkThreads m s k BTop g) EStep (mkThreads m s k BCall g)
  | b_nothing m s k g :
      ¬ interrupted g THeartbeat →
      thread_step (mkThreads m s k BCall g) EStep (mkThreads m s k BSleep g)
  | b_task m s k g t :
      ¬ interrupted g THeartbeat →
      thread_step (mkThreads m s k BCall g) EStep (mkThreads m s k (BLock t) g)
  | b_lock s k g t :
      ¬ interrupted g THeartbeat →
      thread_step (mkThreads None s k (BLock t) g) EStep (mkThreads (Some OHeartbeat) s k (BPush t) g)
  | b_push m s k g t :
      ¬ interrupted g THeartbeat →
      thread_step (mkThreads m s k (BPush t) g) (EPush t)
        (mkThreads None (enqueue t s) k
           (if existsb (λ t', bool_decide (task_id t' = task_id t)) (queue s) then BSleep else BNotify) g)
  | b_notify m s k g :
      ¬ interrupted g THeartbeat →
      thread_step (mkThreads m s k BNotify g) EStep (mkThreads m s (notify k) BSleep g)
  | b_sleep m s k g :
      ¬ interrupted g THeartbeat →
      thread_step (mkThreads m s k BSleep g) EStep (mkThreads m s k BTop g)
  (** SignalHandler, on the thread the kernel chose *)
  | g_deliver m s k h v :
      thread_step (mkThreads m s k h GNone) (ESignal v) (mkThreads m s k h (GLock v))
  | g_lock s k h v :
      thread_step (mkThreads None s k h (GLock v)) EStep (mkThreads (Some OHandler) s k h (GSet v))
  | g_set m s k h v :
      thread_step (mkThreads m s k h (GSet v)) EStep
        (mkThreads None (mkWorker (queue s) true) k h (GNotify v))
  | g_notify m s k h v :
      thread_step (mkThreads m s k h (GNotify v)) EStep (mkThreads m s (notify k) h GNone).

Inductive thread_run : threads → list event → threads → Prop :=
  | thread_nil x : thread_run x [] x
  | thread_cons x ev x' evs x'' :
      thread_step x ev x' → thread_run x' evs x'' → thread_run x (ev :: evs) x''.

(** * Invariant *)

(** Who is in a critical section; the lock says the same. *)
Definition in_section (x : threads) : list owner :=
  match wk x with KTest => [OWorker] | _ => [] end ++
  match hb x with BPush _ => [OHeartbeat] | _ => [] end ++
  match sg x with GSet _ => [OHandler] | _ => [] end.

Definition lock_ok (x : threads) : Prop := in_section x = option_list (mu x).

(** A worker that waits has nothing to do, or a notify is on its way. *)
Definition wakeup_ok (x : threads) : Prop :=
  wk x = KWait → (queue (shared x) ≠ [] ∨ shutdown (shared x) = true) →
  hb x = BNotify ∨ ∃ v, sg x = GNotify v.

Definition threads_ok (x : threads) : Prop := lock_ok x ∧ wakeup_ok x.

Lemma init_ok : threads_ok threads_init.
Proof. by split. Qed.

(** One holder at a time, so leaving a section frees the lock. *)
Lemma lock_step x ev x' : thread_step x ev x' → lock_ok x → lock_ok x'.
Proof.
  unfold lock_ok, in_section.
  destruct 1 as [s h g|s h g m|m s h g|s h g m t q|s h g m|m s h g t|m s k g|m s k g|m s k g|m s k g t|s k g t
    |m s k g t|m s k g|m s k g|m s k h v|s k h v|m s k h v|m s k h v]; cbn [wk hb sg mu]; intros E.
  all: try (destruct (existsb _ _)); try (destruct m as [[]|]); try (destruct k); try (destruct h); try (destruct g);
    simpl in *; congruence.
Qed.

Lemma enqueue_found t s :
  existsb (λ t', bool_decide (task_id t' = task_id t)) (queue s) = true → enqueue t s = s ∧ queue s ≠ [].
Proof. intros E. unfold enqueue. rewrite E. split; [done|]. intros Hq. by rewrite Hq in E. Qed.

Lemma enqueue_shutdown t s : shutdown (enqueue t s) = shutdown s.
Proof. unfold enqueue. by destruct (existsb _ _). Qed.

Lemma notify_awake k : notify k ≠ KWait.
Proof. by destruct k. Qed.

Lemma wakeup_step x ev x' : thread_step x ev x' → wakeup_ok x → wakeup_ok x'.
Proof.
  unfold wakeup_ok. destruct 1; cbn [wk hb sg mu shared]; intros Hok Hk Hp; try discriminate Hk;
    try (by apply notify_awake in Hk); try (by right; eauto);
    try (destruct (Hok Hk Hp) as [Hb|[v' Hg]]; [discriminate Hb || by left|discriminate Hg || by right; eauto]).
  - destruct Hp as [?|?]; congruence.
  - destruct (existsb _ (queue s)) eqn:E; [|by left]. apply enqueue_found in E as [_ Hq].
    destruct (Hok Hk (or_introl Hq)) as [Hb|?]; [discriminate Hb|by right].
Qed.

Lemma run_threads_ok x evs x' : thread_run x evs x' → threads_ok x → threads_ok x'.
Proof. induction 1 as [|????? Hs _ IH]; [done|]. intros [??]. apply IH. split; eauto using lock_step, wakeup_step. Qed.

(** * Shutdown *)

Definition is_signal (ev : event) : bool := match ev with ESignal _ => true | _ => false end.
Definition is_spurious (ev : event) : bool := match ev with ESpurious => true | _ => false end.

Definition taken (evs : list event) : list TaskDesc :=
  omap (λ ev, match ev with ETake t => Some t | _ => None end) evs.

(** The handler, if it runs, runs on the main thread. *)
Definition on_main (x : threads) : Prop := ¬ interrupted (sg x) TWorker ∧ ¬ interrupted (sg x) THeartbeat.

Definition all_ended (x : threads) : Prop := wk x = KEnded ∧ hb x = BEnded ∧ sg x = GNone.

(** The steps that are left once [shutdown] is set: three for each queued task, and
    those of the threads; a heartbeat under way may still bring one task. *)
Definition steps_left (x : threads) : nat :=
  3 * length (queue (shared x)) +
  match wk x with KEnded => 0 | KTest => 1 | KLock => 2 | KBusy _ | KWait => 3 end +
  match hb x with BEnded => 0 | BTop => 1 | BSleep => 2 | BNotify => 3 | BPush _ => 7 | BLock _ => 8 | BCall => 9 end +
  match sg x with GNone => 0 | GNotify _ => 1 | GSet _ => 2 | GLock _ => 3 end.

Lemma shutdown_step x ev x' :
  thread_step x ev x' → is_signal ev = false → shutdown (shared x) = true →
  shutdown (shared x') = true ∧ (steps_left x' < steps_left x)%nat ∧ (on_main x → on_main x').
Proof.
  unfold steps_left, on_main. destruct 1 as [s h g|s h g m|m s h g|s h g m t q Hi Hq|s h g m|m s h g t|m s k g|m s k g|m s k g|m s k g t|s k g t
    |m s k g t|m s k g|m s k g|m s k h v|s k h v|m s k h v|m s k h v]; cbn [wk hb sg mu shared queue shutdown is_signal];
    intros Hev Hsd; rewrite ?enqueue_shutdown; try congruence; (split; [done|]); (split; [|by intros [? ?]; split; simpl in *; auto]); try lia.
  - rewrite Hq. simpl. lia.
  - unfold enqueue. destruct (existsb _ _); simpl; rewrite ?length_app; simpl; lia.
  - destruct k; simpl; lia.
  - destruct k; simpl; lia.
Qed.

(** Without spurious wake-ups: the holder of the lock, or a notifier, or a thread that
    takes the free lock. *)
Lemma shutdown_progress x :
  threads_ok x → on_main x → shutdown (shared x) = true → ¬ all_ended x →
  ∃ ev x', thread_step x ev x' ∧ is_signal ev = false ∧ is_spurious ev = false.
Proof.
  intros [Hl Hw] [Hi1 Hi2] Hsd Hne. destruct x as [m s k h g]. unfold all_ended, lock_ok, in_section, wakeup_ok in *.
  cbn [wk hb sg mu shared] in *.
  assert (∀ ev x', thread_step (mkThreads m s k h g) ev x' → is_signal ev = false → is_spurious ev = false →
    ∃ ev x', thread_step (mkThreads m s k h g) ev x' ∧ is_signal ev = false ∧ is_spurious ev = false) as Hgo by eauto.
  destruct g as [|v|v|v]; [| |eapply Hgo; [apply g_set|done..]|eapply Hgo; [apply g_notify|done..]].
  - destruct h as [| |t|t| | |]; try (by eapply Hgo; [by constructor|done..]).
    + destruct m as [o|]; [|by eapply Hgo; [by constructor|done..]]. destruct k; try (by destruct o).
      destruct (queue s) as [|t' q] eqn:Eq; (eapply Hgo; [by constructor|done..]).
    + destruct k; try (by destruct Hne); try (by destruct m; try done; eapply Hgo; [by constructor|done..]).
      * destruct (queue s) as [|t' q] eqn:Eq; (eapply Hgo; [by constructor|done..]).
      * destruct (Hw eq_refl (or_intror Hsd)) as [?|[? ?]]; done.
  - destruct m as [o|]; [|by eapply Hgo; [apply g_lock|done..]].
    destruct k; simpl in Hl.
    all: try (destruct h; try (by destruct o); by eapply Hgo; [by constructor|done..]).
    destruct (queue s) as [|t' q] eqn:Eq; (eapply Hgo; [by constructor|done..]).
Qed.

(** What was queued is taken, in order, before the worker ends. *)
Lemma worker_drains x evs x' :
  thread_run x evs x' → wk x ≠ KEnded → wk x' = KEnded → queue (shared x) `prefix_of` taken evs.
Proof.
  induction 1 as [x|x ev x1 evs x' Hs Hrun IH]; [done|]. intros Hk Hk'.
  destruct (decide (queue (shared x) = [])) as [->|Hq]; [apply prefix_nil|].
  destruct Hs as [s h g|s h g m|m s h g|s h g m t q Hi Et|s h g m|m s h g t|m s k g|m s k g|m s k g|m s k g t|s k g t
    |m s k g t|m s k g|m s k g|m s k h v|s k h v|m s k h v|m s k h v]; cbn [wk hb sg mu shared queue shutdown] in *;
    try congruence; try (by apply IH).
  - rewrite Et. apply prefix_cons. by apply IH.
  - etransitivity; [|by apply IH]. destruct (enqueue_spec t s) as [(_ & _ & _ & ->)|[_ ->]]; simpl; [done|by exists [t]].
  - apply IH; [by destruct k|done].
  - apply IH; [by destruct k|done].
Qed.

Lemma shutdown_run x evs x' :
  thread_run x evs x' → Forall (λ ev, is_signal ev = false) evs → shutdown (shared x) = true → on_main x →
  shutdown (shared x') = true ∧ on_main x' ∧ (length evs + steps_left x' <= steps_left x)%nat.
Proof.
  induction 1 as [x|x ev x1 evs x' Hs _ IH]; intros Hev Hsd Hm; [done|].
  apply Forall_cons in Hev as [Hev Hevs]. destruct (shutdown_step _ _ _ Hs Hev Hsd) as (Hsd1 & Hlt & Hm1).
  destruct (IH Hevs Hsd1 (Hm1 Hm)) as (? & ? & ?). split_and!; [done..|]. simpl. lia.
Qed.

(** * A handler on top of the holder of the lock *)

Definition self_locked (x : threads) : Prop :=
  mu x = Some OWorker ∧ wk x = KTest ∧ sg x = GLock TWorker ∨
  mu x = Some OHeartbeat ∧ (∃ t, hb x = BPush t) ∧ sg x = GLock THeartbeat.

Lemma self_locked_step x ev x' :
  thread_step x ev x' → lock_ok x → self_locked x → self_locked x' ∧ shared x' = shared x ∧ taken [ev] = [].
Proof.
  unfold self_locked, lock_ok, in_section. destruct 1; cbn [wk hb sg mu shared]; intros Hl [(Hm & Hk & Hg)|(Hm & [t' Hh] & Hg)];
    simplify_eq; simpl in *; try done; eauto 10.
Qed.

Lemma self_locked_run x evs x' :
  thread_run x evs x' → lock_ok x → self_locked x → self_locked x' ∧ shared x' = shared x ∧ taken evs = [].
Proof.
  induction 1 as [x|x ev x1 evs x' Hs _ IH]; intros Hl Hx; [done|].
  destruct (self_locked_step _ _ _ Hs Hl Hx) as (Hx1 & Hsh & Ht). destruct (IH (lock_step _ _ _ Hs Hl) Hx1) as (? & ? & Hts).
  split_and!; [done|congruence|]. change (ev :: evs) with ([ev] ++ evs). unfold taken in *. by rewrite omap_app, Ht, Hts.
Qed.

(** * Concrete runs *)

(** One step by the rule [c]. *)
Tactic Notation "step" uconstr(c) := eapply thread_cons; [apply c; solve [done | intros []]|].

Definition job : TaskDesc := mkTaskDesc "t1" 0 0 default_argv "" 0 0 default_cos "".

(** The worker waits; a task comes in and wakes it. *)
Definition wakeup_events : list event := [EStep; EStep; EStep; EStep; EStep; EPush job].
Lemma wakeup_run :
  thread_run threads_init wakeup_events (mkThreads None (mkWorker [job] false) KWait BNotify GNone).
Proof.
  step k_lock. step k_wait.
  step b_go. step (b_task _ _ _ _ job).
  step b_lock. step b_push. constructor.
Qed.

(** The signal comes while the heartbeat thread waits for the reply: the worker ends
    with an empty queue, and the task the reply carries is never taken. *)
Lemma late_task_lost :
  ∃ evs x, thread_run threads_init evs x ∧ all_ended x ∧ taken evs = [] ∧ queue (shared x) = [job].
Proof.
  exists [EStep; ESignal TMain; EStep; EStep; EStep; EStep; EStep; EStep; EStep; EPush job; EStep; EStep; EStep].
  eexists (mkThreads None (mkWorker [job] true) KEnded BEnded GNone). split; [|done].
  step b_go. step g_deliver.
  step g_lock. step g_set. step g_notify.
  step k_lock. step k_exit.
  step (b_task _ _ _ _ job). step b_lock.
  step b_push. step b_notify.
  step b_sleep. step b_stop. constructor.
Qed.

(** * Claims *)

(** C12: No lost wake-up, in every interleaving of the heartbeat thread, the worker and
    the signal handler, spurious wake-ups included: the lock is held exactly by the one
    thread that is in its critical section, and a worker blocked in wait has an empty
    queue and no shutdown to see unless a notify is about to come. *)
Theorem no_lost_wakeup evs x :
  thread_run threads_init evs x →
  in_section x = option_list (mu x) ∧
  (wk x = KWait → hb x ≠ BNotify → (∀ v, sg x ≠ GNotify v) →
   queue (shared x) = [] ∧ shutdown (shared x) = false).
Proof.
  intros [Hl Hw]%run_threads_ok; [|apply init_ok]. split; [done|]. intros Hk Hb Hg.
  assert (¬ (queue (shared x) ≠ [] ∨ shutdown (shared x) = true)) as Hno.
  { intros Hp. destruct (Hw Hk Hp) as [?|[v ?]]; [done|by apply (Hg v)]. }
  split; [|destruct (shutdown (shared x)); [exfalso; auto|done]].
  destruct (queue (shared x)); [done|]. exfalso. auto.
Qed.

Lemma no_lost_wakeup_witness :
  in_section (mkThreads None (mkWorker [job] false) KWait BNotify GNone) = [].
Proof. apply (no_lost_wakeup wakeup_events _ wakeup_run). Defined.

(** C13: Shutdown: once the flag is set and the handler runs on the main thread, under
    every schedule without another signal at most [steps_left] steps remain; until the
    worker and the heartbeat thread have ended one of them can step, without help of a
    spurious wake-up; and the worker takes every task that was queued, in order, before
    it ends.  (A handler that interrupts another thread can deadlock instead, as shown
    below.) *)
Theorem shutdown_drains x evs x' :
  threads_ok x → on_main x → shutdown (shared x) = true →
  thread_run x evs x' → Forall (λ ev, is_signal ev = false) evs →
  (length evs <= steps_left x)%nat ∧
  (all_ended x' ∨ ∃ ev x'', thread_step x' ev x'' ∧ is_signal ev = false ∧ is_spurious ev = false) ∧
  (wk x ≠ KEnded → wk x' = KEnded → queue (shared x) `prefix_of` taken evs).
Proof.
  intros Hok Hm Hsd Hrun Hev. destruct (shutdown_run _ _ _ Hrun Hev Hsd Hm) as (Hsd' & Hm' & Hlen).
  split; [lia|]. split; [|by apply worker_drains].
  assert (all_ended x' ∨ ¬ all_ended x') as [?|Hne]; [|by left|].
  { unfold all_ended. destruct (wk x'), (hb x'), (sg x'); naive_solver. }
  right. apply shutdown_progress; [by eapply run_threads_ok|done..].
Qed.

Lemma shutdown_drains_witness :
  let x := mkThreads None (mkWorker [job] true) KLock BSleep GNone in
  let evs := [EStep; ETake job; EStep; EStep; EStep; EStep; EStep] in
  (length evs <= steps_left x)%nat ∧ queue (shared x) `prefix_of` taken evs.
Proof.
  intros x evs.
  destruct (shutdown_drains x evs (mkThreads None (mkWorker [] true) KEnded BEnded GNone)) as (Hlen & _ & Hd).
  - split; [reflexivity|]. intros Hk. discriminate Hk.
  - split; intros [].
  - reflexivity.
  - step k_lock. step k_take.
    step k_done. step k_lock.
    step k_exit. step b_sleep.
    step b_stop. apply thread_nil.
  - repeat constructor.
  - split; [exact Hlen|]. apply Hd; [discriminate|reflexivity].
Defined.

(** C39: The handler locks the mutex the code it interrupts may hold: it is reachable
    that a signal arrives on the worker inside its critical section, and from every
    reachable state in which the handler interrupted the holder of the lock the process
    never leaves that state: the flag is never set, no task is taken or queued any
    more, and the worker never ends. *)
Theorem signal_handler_deadlocks :
  (∃ evs x, thread_run threads_init evs x ∧ self_locked x) ∧
  (∀ evs0 x evs x', thread_run threads_init evs0 x → self_locked x → thread_run x evs x' →
     self_locked x' ∧ shared x' = shared x ∧ taken evs = []).
Proof.
  split.
  - exists [EStep; ESignal TWorker]. eexists (mkThreads (Some OWorker) (mkWorker [] false) KTest BTop (GLock TWorker)).
    split; [|left; by split_and!].
    step k_lock. step g_deliver. constructor.
  - intros evs0 x evs x' H0 Hx Hrun. apply self_locked_run; [done| |done].
    by apply (run_threads_ok _ _ _ H0 init_ok).
Qed.
