(* ===== verification/System.v ===== *)
(** The whole system: drop_server, one agent, and the calls between them.

    The agent's gRPC calls ([RPC]) are the handlers of [Server], over a network that
    may lose a request or a reply ([net_rpc]).  A state holds the server, the
    agent, what its heartbeat thread and its worker thread are doing, and the
    continuous tasks that run beside them; a step ([sys_step]) is one handler call of
    somebody else, one half of a heartbeat round, or one action of the worker, with
    the definitions of [Agent] and [Server] for what it does.  The world of the agent
    is not part of the state: each step may find files, processes and clock changed in
    any way. *)
From stdpp Require Import base gmap strings list relations.
From Stdlib Require Import ZArith Lia.
From S2P Require Import Prelude CppString OrdMap OS Proto TaskQueue PGStore Server ServerRows ServerPool.
From S2P Require Import Symbols Profilers EbpfLoader ProfilerFactory ContinuousProfiler SelfStats Agent.

(** * The network *)

(** The fate of one call: whether the request reaches the server and the reply
    the agent, and what clock and database answer while it is handled. *)
Record delivery := mkDelivery {
  dv_arrives : bool;
  dv_returns : bool;
  dv_ctx : ServerContext;
  dv_do : do_env;
  dv_upsert : upsert_env;
  dv_update1 : update_env;
  dv_update2 : update_env;
}.

Section Net.
Context {W : Type} `{OS W} `{BPF W}.
(** The address of the server; a channel to another one does not lead to it. *)
Context (addr : string).

Definition reaches (dv : delivery) (channel : option string) : bool :=
  dv_arrives dv && bool_decide (channel = Some addr).

(** A handler that throws is answered with an error by gRPC. *)
Definition net_health (dv : delivery) (channel : option string) (req : HealthCheckRequest) (s : server) :
    option HealthCheckResponse * server :=
  if reaches dv channel then
    match HealthCheck_Do (dv_ctx dv) (dv_do dv) req s with
    | Ret (st, resp, s') => (if is_ok st && dv_returns dv then resp else None, s')
    | _ => (None, s)
    end
  else (None, s).

Definition net_register (dv : delivery) (channel : option string) (req : RegisterAgentRequest) (s : server) :
    bool * server :=
  if reaches dv channel then
    let '(st, _, s') := RegisterAgent (dv_ctx dv) (dv_upsert dv) req s in (is_ok st && dv_returns dv, s')
  else (false, s).

Definition net_notify (dv : delivery) (channel : option string) (req : TaskResult) (s : server) :
    bool * server :=
  if reaches dv channel then
    match NotifyResult (dv_ctx dv) (dv_update1 dv) (dv_update2 dv) req s with
    | Ret (st, s') => (is_ok st && dv_returns dv, s')
    | _ => (false, s)
    end
  else (false, s).

(** A call of the part of the world beside the agent's. *)
Definition beside {A} (f : server → A * server) (w : W * server) : A * (W * server) :=
  let '(a, s) := f w.2 in (a, (w.1, s)).

Definition net_os : OS (W * server) := prod_os.
Definition net_rpc (dv : delivery) : RPC (W * server) := {|
  rpc_health ch req := beside (net_health dv ch req);
  rpc_register ch req := beside (net_register dv ch req);
  rpc_notify ch req := beside (net_notify dv ch req);
|}.
End Net.

(** * States and steps *)

Inductive hb_state :=
  | HbIdle
  | HbAnswered (channel : option string) (resp : option HealthCheckResponse)
  | HbEnded.

Inductive wk_state := WkIdle | WkRunning (t : TaskDesc) | WkGone.

(** [sy_conts]: the continuous tasks that run, with their profiler objects. *)
Record sys := mkSys {
  sy_server : server;
  sy_agent : agent;
  sy_hb : hb_state;
  sy_worker : wk_state;
  sy_conts : list (TaskDesc * Z);
}.

Inductive sys_label :=
  | SServer (l : label)
  | SSend (dv : delivery)
  | SReceive (dv : delivery)
  | STake (t : TaskDesc)
  | SFinish (t : TaskDesc) (dv : delivery)
  | SDetach (t : TaskDesc)
  | SCont (t : TaskDesc) (dv : delivery)
  | SStop
  | SSignal
  | SExit.

Definition hb_agent (r : hb_result) (a : agent) : agent :=
  match r with HbExit => a | HbFailed a' => a' | HbOk a' _ => a' end.

Section System.
Context {W : Type} `{OS W} `{BPF W}.
Context (fl : flags) (sc : sysconf) (addr : string).

#[local] Existing Instance net_os.

(** The address this agent polls under; it is the only one that does. *)
Definition ip : string := FLAGS_ip fl.

Inductive sys_step : sys → sys_label → sys → Prop :=
  (** Another agent, the API server or the scanner. *)
  | sy_other l s' a h k c s :
      server_step s l s' → (∀ d, l ≠ Dispatched ip d) →
      sys_step (mkSys s a h k c) (SServer l) (mkSys s' a h k c)
  (** The heartbeat thread. *)
  | sy_send dv e (w w' : W) s a k c ch resp a' s' :
      k ≠ WkGone →
      hb_send (H1 := net_rpc addr dv) fl sc e a (w, s) = (Ret (HbGot ch resp a'), (w', s')) →
      sys_step (mkSys s a HbIdle k c) (SSend dv) (mkSys s' a' (HbAnswered ch resp) k c)
  | sy_receive dv (w w' : W) s a k c ch resp r s' :
      k ≠ WkGone →
      hb_receive (H1 := net_rpc addr dv) fl ch resp a (w, s) = (Ret r, (w', s')) →
      sys_step (mkSys s a (HbAnswered ch resp) k c) (SReceive dv) (mkSys s' (hb_agent r a) HbIdle k c)
  | sy_stop dv e (w : W) s a k c :
      hb_send (H1 := net_rpc addr dv) fl sc e a (w, s) = (Ret HbStop, (w, s)) →
      sys_step (mkSys s a HbIdle k c) SStop (mkSys s a HbEnded k c)
  (** The worker thread. *)
  | sy_take s a h c t a' :
      worker_take a = WkTask t a' →
      sys_step (mkSys s a h WkIdle c) (STake t) (mkSys s a' h (WkRunning t) c)
  | sy_finish dv (w w1 : W) s a h c t r ok s' :
      task_type t ≠ 1 → single_result fl t w = (Ret r, w1) →
      net_notify addr dv (GetChannel (g_server_pool a)) r s = (ok, s') →
      sys_step (mkSys s a h (WkRunning t) c) (SFinish t dv) (mkSys s' a h WkIdle c)
  | sy_detach s a h c t :
      task_type t = 1 →
      sys_step (mkSys s a h (WkRunning t) c) (SDetach t)
        (mkSys s (start_continuous t a) h WkIdle ((t, fresh_object a) :: c))
  | sy_exit s a h c :
      worker_take a = WkExit → sys_step (mkSys s a h WkIdle c) SExit (mkSys s a h WkGone c)
  (** The thread of a continuous task, the signal handler. *)
  | sy_cont dv n (w w1 : W) s a h k c1 c2 t cp r ok s' :
      k ≠ WkGone → continuous_result fl n t w = (Ret r, w1) →
      net_notify addr dv (GetChannel (g_server_pool a)) r s = (ok, s') →
      sys_step (mkSys s a h k (c1 ++ (t, cp) :: c2)) (SCont t dv)
        (mkSys s' (set_cont (g_continuous a) (filter (λ x, x ≠ cp) (live a)) a) h k (c1 ++ c2))
  | sy_signal s a h k c : sys_step (mkSys s a h k c) SSignal (mkSys s (SignalHandler a) h k c).

(** Runs all of whose steps satisfy [P]. *)
Inductive run_where (P : sys → sys_label → sys → Prop) : sys → list sys_label → sys → Prop :=
  | run_where_nil s : run_where P s [] s
  | run_where_cons s l s' ls s'' :
      sys_step s l s' → P s l s' → run_where P s' ls s'' → run_where P s (l :: ls) s''.

Definition sys_run : sys → list sys_label → sys → Prop := run_where (λ _ _ _, True).

(** * Where the tasks of the agent are *)

Definition in_flight (h : hb_state) : list TaskDesc :=
  match h with
  | HbAnswered _ (Some r) => if hc_pending r then option_list (hc_task_desc r) else []
  | _ => []
  end.
Definition running (k : wk_state) : list TaskDesc :=
  match k with WkRunning t => [t] | _ => [] end.

(** Dispatched and not finished: with the worker, in the agent's queue, on the way. *)
Definition started (s : sys) : list TaskDesc :=
  running (sy_worker s) ++ queue (g_worker (sy_agent s)) ++ in_flight (sy_hb s).
Definition waiting (s : sys) : list TaskDesc := queue_of ip (g_task_queue (sy_server s)).
Definition pipeline (s : sys) : list TaskDesc := started s ++ waiting s.

(** The tasks created for the agent, and those it has worked off. *)
Definition created (ls : list sys_label) : list TaskDesc :=
  omap (λ l, match l with SServer (Queued ip' t) => if decide (ip' = ip) then Some t else None | _ => None end) ls.
Definition executed (ls : list sys_label) : list TaskDesc :=
  omap (λ l, match l with SFinish t _ | SDetach t => Some t | _ => None end) ls.

(** The system at its start. *)
Definition sys_init (s : server) (a : agent) : sys := mkSys s a HbIdle WkIdle [].

(** ** The two halves of a heartbeat *)

Lemma ComputePidStats_reads {W'} `{OS W'} p g c e prev (w : W') r w' :
  ComputePidStats p g c e prev w = (Ret r, w') → w' = w.
Proof. unfold ComputePidStats, ReadSelfStat, ReadSelfIO, read_file. intros Hr. by prog_inv. Qed.

Lemma hb_send_net dv e a (w w' : W) s ch resp a' s' :
  hb_send (H1 := net_rpc addr dv) fl sc e a (w, s) = (Ret (HbGot ch resp a'), (w', s')) →
  ch = GetChannel (g_server_pool a) ∧ shutdown (g_worker a) = false ∧
  ∃ req p, hc_ip_addr req = ip ∧ net_health addr dv ch req s = (resp, s') ∧ a' = set_prev p a.
Proof.
  unfold hb_send. destruct (shutdown _); intros Hr; [by prog_inv|].
  apply prog_bind_Ret in Hr as (ps & w1 & ->%ComputePidStats_reads & Hr).
  apply prog_bind_Ret in Hr as (rs & w2 & Hact & Hr). apply (proj1 (act_Ret _ _ _ _)) in Hact.
  cbn [rpc_health net_rpc] in Hact. unfold beside in Hact.
  destruct (net_health _ _ _ _ _) as [rs' s2] eqn:E. simplify_eq/=. prog_inv.
  split_and!; [done..|]. eexists _, _. split_and!; [|exact E|done]. done.
Qed.

Lemma on_failure_worker a a' : on_failure a = Ret a' → g_worker a' = g_worker a.
Proof.
  unfold on_failure. intros (f & _ & Hr)%bind_Ret. destruct (_ && _); [|by simplify_eq].
  apply bind_Ret in Hr as (p & _ & Hr). by simplify_eq.
Qed.

Lemma on_pending_worker r a : g_worker (on_pending r a) =
  match hc_pending r, hc_task_desc r with true, Some t => enqueue t (g_worker a) | _, _ => g_worker a end.
Proof. unfold on_pending. by destruct (hc_pending r), (hc_task_desc r). Qed.

Lemma hb_receive_net dv ch resp a (w w' : W) s r s' :
  hb_receive (H1 := net_rpc addr dv) fl ch resp a (w, s) = (Ret r, (w', s')) →
  (s' = s ∨ ∃ ctx env rq st o, RegisterAgent ctx env rq s = (st, o, s')) ∧
  g_worker (hb_agent r a) =
    match resp with Some rs => g_worker (on_pending rs a) | None => g_worker a end.
Proof.
  unfold hb_receive. destruct resp as [rs|]; intros Hr.
  - apply prog_bind_Ret in Hr as (reg & w1 & Hreg & Hr). revert Hreg. prog_inv. intros Hreg.
    unfold modify in *. simplify_eq/=. rewrite !on_pending_worker. split; [|done].
    destruct (registered a); [prog_inv; by left|]. apply (proj1 (act_Ret _ _ _ _)) in Hreg.
    simpl in Hreg. unfold beside, net_register in Hreg. destruct (reaches _ _ _); [|simplify_eq/=; by left].
    destruct (RegisterAgent _ _ _ _) as [[st o] s1] eqn:E. simplify_eq/=. right. eauto 10.
  - prog_inv. unfold modify in *. simplify_eq/=. split; [by left|]. by apply on_failure_worker.
Qed.

Lemma net_notify_cases dv ch r s ok s' :
  net_notify addr dv ch r s = (ok, s') →
  s' = s ∨ ∃ st, NotifyResult (dv_ctx dv) (dv_update1 dv) (dv_update2 dv) r s = Ret (st, s').
Proof.
  unfold net_notify. destruct (reaches _ _ _); [|intros; simplify_eq; by left].
  destruct (NotifyResult _ _ _ _ _) as [[st s1]| |]; intros; simplify_eq; eauto.
Qed.

Lemma net_health_cases dv ch req s resp s' :
  net_health addr dv ch req s = (resp, s') →
  (resp = None ∧ s' = s) ∨
  ∃ st o, HealthCheck_Do (dv_ctx dv) (dv_do dv) req s = Ret (st, o, s') ∧ (resp = None ∨ resp = o).
Proof.
  unfold net_health. destruct (reaches _ _ _); [|intros; simplify_eq; by left].
  destruct (HealthCheck_Do _ _ _ _) as [[[st o] s1]| |]; intros; simplify_eq; [right|by left..].
  exists st, o. split; [done|]. destruct (_ && _); auto.
Qed.

(** Whatever the agent does is a run of the server. *)
Lemma sys_server_step s l s' :
  sys_step s l s' →
  sy_server s' = sy_server s ∨ ∃ l0, server_step (sy_server s) l0 (sy_server s').
Proof.
  destruct 1 as [?????????|dv e w w' s a k c ch resp a' s' _ Hs|dv w w' s a k c ch resp r s' _ Hr|?|?
    |dv w w1 s a h c t r ok s' _ _ Hn|?|?|dv n w w1 s a h k c1 c2 t cp r ok s' _ _ Hn|?]; simpl; try by eauto.
  - apply hb_send_net in Hs as (_ & _ & req & p & Hip & Hh & _).
    apply net_health_cases in Hh as [[_ ->]|(st & o & Hdo & _)]; [by left|]. right. eauto using server_step, drop_step.
  - apply hb_receive_net in Hr as [[->|(ctx & env & rq & st & o & Hreg)] _]; [by left|]. right. eauto using server_step, drop_step.
  - apply net_notify_cases in Hn as [->|[st Hn]]; [by left|]. right. eauto using server_step, drop_step.
  - apply net_notify_cases in Hn as [->|[st Hn]]; [by left|]. right. eauto using server_step, drop_step.
Qed.

(** The tasks a heartbeat takes out of the queue of the server. *)
Lemma net_health_queue dv ch req s resp s' :
  hc_ip_addr req = ip → net_health addr dv ch req s = (resp, s') →
  ∃ lost, queue_of ip (g_task_queue s) =
    lost ++ in_flight (HbAnswered ch resp) ++ queue_of ip (g_task_queue s').
Proof.
  intros Hip Hh. apply net_health_cases in Hh as [[-> ->]|(st & o & Hdo & Hresp)]; [by exists []|].
  pose proof (server_step_queue _ _ _ ip (step_do _ _ _ _ _ _ _ Hdo)) as Hq.
  rewrite Hip in Hq. unfold resp_label in Hq.
  destruct o as [r|]; [destruct (hc_task_desc r) as [d|] eqn:Ed|]; simpl in Hq;
    rewrite ?app_nil_r, ?decide_True in Hq by done; simpl in Hq.
  - exists (match in_flight (HbAnswered ch resp) with [] => [d] | _ => [] end). rewrite Hq.
    destruct Hresp as [->| ->]; simpl; [done|]. rewrite Ed. by destruct (hc_pending r).
  - exists []. rewrite Hq. destruct Hresp as [->| ->]; simpl; [done|]. rewrite Ed. by destruct (hc_pending r).
  - exists []. rewrite Hq. by destruct Hresp as [->| ->].
Qed.

Lemma net_notify_queue dv ch r s ok s' :
  net_notify addr dv ch r s = (ok, s') → g_task_queue s' = g_task_queue s.
Proof. intros [->|[st Hn]]%net_notify_cases; [done|]. by apply NotifyResult_queue in Hn. Qed.

Lemma RegisterAgent_queue ctx env rq s st o s' :
  RegisterAgent ctx env rq s = (st, o, s') → g_task_queue s' = g_task_queue s.
Proof. unfold RegisterAgent. destruct (negb _); intros; simplify_eq; [done|]. apply pg_upsert_queue. Qed.

Lemma enqueue_sublist t k : queue (enqueue t k) `sublist_of` queue k ++ [t].
Proof.
  destruct (enqueue_spec t k) as [(_ & _ & _ & ->)|[_ ->]]; [|done]. by apply sublist_inserts_r.
Qed.

(** The queue of the agent after a reply. *)
Lemma hb_receive_queue dv ch resp a (w w' : W) s r s' :
  hb_receive (H1 := net_rpc addr dv) fl ch resp a (w, s) = (Ret r, (w', s')) →
  queue (g_worker (hb_agent r a)) `sublist_of` queue (g_worker a) ++ in_flight (HbAnswered ch resp) ∧
  g_task_queue s' = g_task_queue s.
Proof.
  intros [Hs Hw]%hb_receive_net. split; [|by destruct Hs as [->|(? & ? & ? & ? & ? & ->%RegisterAgent_queue)]].
  rewrite Hw. destruct resp as [rs|]; simpl; [|by rewrite app_nil_r]. rewrite on_pending_worker.
  destruct (hc_pending rs), (hc_task_desc rs); simpl; rewrite ?app_nil_r; auto using enqueue_sublist.
Qed.

Lemma worker_take_queue a t a' :
  worker_take a = WkTask t a' → queue (g_worker a) = t :: queue (g_worker a').
Proof. unfold worker_take. destruct (queue (g_worker a)) eqn:E; [by destruct (shutdown _)|]. by intros [= <- <-]. Qed.

(** A server step of somebody else. *)
Lemma other_queue s l s' :
  server_step s l s' → (∀ d, l ≠ Dispatched ip d) →
  queue_of ip (g_task_queue s') = queue_of ip (g_task_queue s) ++ created [SServer l].
Proof.
  intros Hq%(server_step_queue _ _ _ ip) Hl. unfold created. destruct l as [ip' d|ip' d|]; simpl in *.
  - rewrite <-Hq. by destruct (decide (ip' = ip)).
  - destruct (decide (ip' = ip)) as [->|]; [by destruct (Hl d)|]. simpl in Hq. by rewrite app_nil_r in *.
  - by rewrite app_nil_r in *.
Qed.

(** What a step does to the tasks of the agent, whatever is lost. *)
Lemma sys_step_pipeline s l s' :
  sys_step s l s' → executed [l] ++ pipeline s' `sublist_of` pipeline s ++ created [l].
Proof.
  unfold pipeline, started, waiting.
  destruct 1 as [l s' a h k c s Hl Hip|dv e w w' s a k c ch resp a' s' _ Hs|dv w w' s a k c ch resp r s' _ Hr|?
    |s a h c t a' Ht|dv w w1 s a h c t r ok s' _ _ Hn|?|?|dv n w w1 s a h k c1 c2 t cp r ok s' _ _ Hn|?];
    cbn [sy_server sy_agent sy_hb sy_worker]; simpl executed; simpl created; rewrite ?app_nil_r; try done.
  - fold (created [SServer l]). rewrite (other_queue _ _ _ Hl Hip). simpl. by rewrite <-!(assoc_L (++)).
  - apply hb_send_net in Hs as (_ & _ & req & p & Hreq & Hh & ->).
    destruct (net_health_queue _ _ _ _ _ _ Hreq Hh) as [lost ->]. simpl g_worker.
    rewrite app_nil_l, <-!(assoc_L (++)). do 2 (apply sublist_app; [done|]). by apply sublist_inserts_l.
  - apply hb_receive_queue in Hr as [Hq ->]. rewrite app_nil_l.
    apply sublist_app; [|done]. by apply sublist_app.
  - apply worker_take_queue in Ht as ->. done.
  - by apply net_notify_queue in Hn as ->.
  - by apply net_notify_queue in Hn as ->.
Qed.

Lemma run_where_pipeline P s ls s' :
  run_where P s ls s' → executed ls ++ pipeline s' `sublist_of` pipeline s ++ created ls.
Proof.
  induction 1 as [s|s l s1 ls s2 Hstep _ _ IH]; [by rewrite app_nil_r|].
  apply sys_step_pipeline in Hstep. change (l :: ls) with ([l] ++ ls).
  unfold executed, created in *. rewrite !omap_app, <-(assoc_L (++)).
  etransitivity; [apply sublist_app; [reflexivity|exact IH]|].
  rewrite !(assoc_L (++)). by apply sublist_app.
Qed.
End System.

(** * A concrete run

    A task is created, dispatched, run and reported; then the agent polls again.
    (The database refuses the upserts of the agent table, so the states repeat.) *)

Definition ue_down : upsert_env := mkUpsertEnv false false false 1 1.
Definition dv_up : delivery := mkDelivery true true ctx0 (mkDoEnv 1 ue_down env_fine) ue_down env_fine env_fine.
Definition t1 : TaskDesc := task_pid 42.
Definition db_pending : database := mkDb [] 0 {["t1" := mkTask 0 "" None None no_columns]} [] [].
Definition x0 : sys := sys_init (mkServer ∅ ∅ (Some (mkSession db_pending NoTxn))) agent0.

Definition idle_world : ksim := mkKsim sim0 ∅ ∅ cache0.

(** The successors of a state under the deliveries above. *)
Definition next_create (s : sys) : sys :=
  mkSys (CreateTask ctx0 (mkCreateTaskRequest "10.0.0.1" "" t1) (sy_server s)).2
    (sy_agent s) (sy_hb s) (sy_worker s) (sy_conts s).
Definition next_send (s : sys) : sys :=
  match hb_send (H := net_os) (H1 := net_rpc "a:1" dv_up) flags0 sysconf0 1000000000 (sy_agent s) (idle_world, sy_server s) with
  | (Ret (HbGot ch resp a), (_, s')) => mkSys s' a (HbAnswered ch resp) (sy_worker s) (sy_conts s)
  | _ => s
  end.
Definition next_receive (s : sys) : sys :=
  match sy_hb s with
  | HbAnswered ch resp =>
      match hb_receive (H := net_os) (H1 := net_rpc "a:1" dv_up) flags0 ch resp (sy_agent s) (idle_world, sy_server s) with
      | (Ret r, (_, s')) => mkSys s' (hb_agent r (sy_agent s)) HbIdle (sy_worker s) (sy_conts s)
      | _ => s
      end
  | _ => s
  end.
Definition next_take (s : sys) : sys :=
  match worker_take (sy_agent s) with
  | WkTask t a => mkSys (sy_server s) a (sy_hb s) (WkRunning t) (sy_conts s)
  | _ => s
  end.
Definition next_finish (s : sys) : sys :=
  mkSys (net_notify "a:1" dv_up (GetChannel (g_server_pool (sy_agent s))) perf_report (sy_server s)).2
    (sy_agent s) (sy_hb s) WkIdle (sy_conts s).

Definition x1 : sys := Eval vm_compute in next_create x0.
Definition x2 : sys := Eval vm_compute in next_send x1.
Definition x3 : sys := Eval vm_compute in next_receive x2.
Definition x4 : sys := Eval vm_compute in next_take x3.
Definition x5 : sys := Eval vm_compute in next_finish x4.
Definition x6 : sys := Eval vm_compute in next_send x5.

Example x6_repeats : next_receive x6 = x5.
Proof. vm_compute. reflexivity. Qed.

Lemma send_from x :
  sy_hb x = HbIdle → sy_worker x ≠ WkGone →
  match hb_send (H := net_os) (H1 := net_rpc "a:1" dv_up) flags0 sysconf0 1000000000 (sy_agent x) (idle_world, sy_server x) with
  | (Ret (HbGot _ _ _), _) => True | _ => False end →
  sys_step (W := ksim) flags0 sysconf0 "a:1" x (SSend dv_up) (next_send x).
Proof.
  destruct x as [s a h k c]. simpl. intros -> Hk Hs. unfold next_send. cbn [sy_agent sy_server sy_worker sy_conts].
  destruct (hb_send _ _ _ _ _) as [[[|ch resp a']| |] [w' s']] eqn:E; try done.
  by apply (sy_send _ _ _ dv_up 1000000000 idle_world w').
Qed.

Lemma receive_from x ch resp :
  sy_hb x = HbAnswered ch resp → sy_worker x ≠ WkGone →
  match hb_receive (H := net_os) (H1 := net_rpc "a:1" dv_up) flags0 ch resp (sy_agent x) (idle_world, sy_server x) with
  | (Ret _, _) => True | _ => False end →
  sys_step (W := ksim) flags0 sysconf0 "a:1" x (SReceive dv_up) (next_receive x).
Proof.
  destruct x as [s a h k c]. simpl. intros -> Hk Hs. unfold next_receive. cbn [sy_agent sy_server sy_worker sy_conts sy_hb].
  destruct (hb_receive _ _ _ _ _) as [[r| |] [w' s']] eqn:E; try done.
  by apply (sy_receive _ _ _ dv_up idle_world w').
Qed.

Definition run_state (i : nat) : sys :=
  match i with
  | 0 => x0 | 1 => x1 | 2 => x2 | 3 => x3 | 4 => x4
  | S (S (S (S (S n)))) => if Nat.even n then x5 else x6
  end%nat.
Definition run_label (i : nat) : sys_label :=
  match i with
  | 0 => SServer (Queued "10.0.0.1" t1) | 1 => SSend dv_up | 2 => SReceive dv_up | 3 => STake t1
  | 4 => SFinish t1 dv_up
  | S (S (S (S (S n)))) => if Nat.even n then SSend dv_up else SReceive dv_up
  end%nat.

Lemma run_steps i : sys_step (W := ksim) flags0 sysconf0 "a:1" (run_state i) (run_label i) (run_state (S i)).
Proof.
  assert (sys_step (W := ksim) flags0 sysconf0 "a:1" x5 (SSend dv_up) x6) as H5 by (by apply (send_from x5)).
  assert (sys_step (W := ksim) flags0 sysconf0 "a:1" x6 (SReceive dv_up) x5) as H6.
  { rewrite <-x6_repeats. by eapply receive_from. }
  destruct i as [|[|[|[|[|n]]]]].
  - apply sy_other; [|done]. by apply (step_create ctx0 (mkCreateTaskRequest "10.0.0.1" "" t1) status_ok
      (mkCreateTaskResponse true "task queued")).
  - by apply (send_from x1).
  - by eapply (receive_from x2).
  - by apply sy_take.
  - eapply (sy_finish _ _ _ dv_up perf_world); [done|vm_compute; reflexivity|vm_compute; reflexivity].
  - change (sys_step (W := ksim) flags0 sysconf0 "a:1" (if Nat.even n then x5 else x6)
      (if Nat.even n then SSend dv_up else SReceive dv_up) (if Nat.even (S n) then x5 else x6)).
    rewrite Nat.even_succ, <-Nat.negb_even. by destruct (Nat.even n).
Qed.

Lemma example_run (P : sys → sys_label → sys → Prop) n :
  (∀ i, (i < n)%nat → P (run_state i) (run_label i) (run_state (S i))) →
  run_where (W := ksim) flags0 sysconf0 "a:1" P x0 (map run_label (seq 0 n)) (run_state n).
Proof.
  intros HP. assert (∀ k i, (i + k <= n)%nat →
    run_where (W := ksim) flags0 sysconf0 "a:1" P (run_state i) (map run_label (seq i k)) (run_state (i + k))) as Hgen.
  { induction k as [|k IH]; intros i Hi; simpl; [rewrite Nat.add_0_r; constructor|].
    econstructor; [apply run_steps|apply HP; lia|].
    replace (i + S k)%nat with (S i + k)%nat by lia. apply IH. lia. }
  apply (Hgen n O). lia.
Qed.

(** * Claims *)

(** C9: In every run of the system, whatever requests, replies and reports are lost,
    whatever the database answers and whatever the other agents, the API server and
    the scanner do: the tasks the agent has worked off, followed by those it has, those
    on their way and those waiting at the server, are among the tasks created for it,
    in the order of their creation.  A task is executed at most once for each time it
    was created, never before one created earlier, and never by an agent it was not
    meant for. *)
Theorem system_at_most_once {W} `{OS W} `{BPF W} fl sc addr s a ls s' :
  queue (g_worker a) = [] → queue_of (ip fl) (g_task_queue s) = [] →
  sys_run (W := W) fl sc addr (sys_init s a) ls s' →
  executed ls ++ pipeline fl s' `sublist_of` created fl ls.
Proof.
  intros Ha Hs Hrun. apply run_where_pipeline in Hrun. unfold pipeline at 2, started, waiting in Hrun.
  simpl in Hrun. by rewrite Ha, Hs in Hrun.
Qed.

Lemma system_at_most_once_witness :
  executed (map run_label (seq 0 8)) ++ pipeline flags0 x6 `sublist_of` created flags0 (map run_label (seq 0 8)) ∧
  executed (map run_label (seq 0 8)) = [t1].
Proof.
  split; [|reflexivity].
  apply (system_at_most_once (W := ksim) flags0 sysconf0 "a:1" (sy_server x0) (sy_agent x0) (map run_label (seq 0 8)) x6).
  - reflexivity.
  - reflexivity.
  - apply (example_run _ 8). done.
Defined.
