(* ===== verification/Jobs.v ===== *)
(** What the system promises, and what breaks the promise.

    [job_step] is the specification of the system of [System] for one agent: jobs are
    started in the order of their submission, run one after the other, and each ends
    once.  Runs in which nothing is lost ([lossless]) refine it, and the rows of the
    database agree with the jobs.  [loses] names the two messages whose loss leaves a
    task RUNNING for ever. *)
From stdpp Require Import base gmap strings list relations.
From Stdlib Require Import ZArith Lia.
From S2P Require Import Prelude CppString OrdMap OS Proto TaskQueue PGStore Server ServerRows ServerPool.
From S2P Require Import Symbols Profilers EbpfLoader ProfilerFactory ContinuousProfiler SelfStats Agent System.

(** * Runs without loss *)

Section Lossless.
Context {W : Type} `{OS W} `{BPF W}.
Context (fl : flags) (sc : sysconf) (addr : string).

(** A heartbeat that arrives is handled in time, its reply comes back, and the
    database commits; one that does not arrive does no harm. *)
Definition answered (dv : delivery) : Prop :=
  dv_arrives dv = true →
  is_ok (CheckDeadline (dv_ctx dv)) = true ∧ dv_returns dv = true ∧ env_commits (de_update (dv_do dv)) = true.

(** A report that arrives, is handled in time and committed. *)
Definition handled (dv : delivery) : Prop :=
  dv_arrives dv = true ∧ is_ok (CheckDeadline (dv_ctx dv)) = true ∧
  env_commits (dv_update1 dv) = true ∧ env_commits (dv_update2 dv) = true.

Definition has_status (s : server) (t : TaskDesc) (st : Z) : Prop :=
  ∃ row, task_of (task_id t) s = Some row ∧ t_status row = st.

Lemma has_status_of s t st : has_status s t st ↔ status_of (task_id t) s = Some st.
Proof.
  unfold has_status, status_of. destruct (task_of (task_id t) s); simpl; naive_solver.
Qed.

(** The statuses of the agent's unfinished tasks are left alone. *)
Definition untouched (s s' : sys) : Prop :=
  ∀ t, t ∈ pipeline fl s → status_of (task_id t) (sy_server s') = status_of (task_id t) (sy_server s).

(** The API server creates a task whose row is PENDING, and not twice. *)
Definition submittable (s : sys) (t : TaskDesc) : Prop :=
  c_str (task_id t) = task_id t ∧ ¬ (task_id t ∈ task_id <$> pipeline fl s) ∧ has_status (sy_server s) t kPending.

Definition lossless (s : sys) (l : sys_label) (s' : sys) : Prop :=
  match l with
  | SServer l0 => untouched s s' ∧ ∀ t, l0 = Queued (ip fl) t → submittable s t
  | SSend dv => answered dv
  | SFinish t dv => handled dv ∧ GetChannel (g_server_pool (sy_agent s)) = Some addr
  | SCont _ _ => untouched s s'
  | _ => True
  end.

Definition lossless_run : sys → list sys_label → sys → Prop := run_where (W := W) fl sc addr lossless.

(** * The specification *)

(** The jobs of the agent with their statuses. *)
Definition jobs (s : sys) : list (TaskDesc * Z) :=
  map (λ t, (t, kRunning)) (started s) ++ map (λ t, (t, kPending)) (waiting fl s).

(** Distinct ids that PostgreSQL can store, and the rows say what the jobs say. *)
Definition jobs_ok (s : server) (js : list (TaskDesc * Z)) : Prop :=
  NoDup (map (λ j, task_id j.1) js) ∧ Forall (λ j, c_str (task_id j.1) = task_id j.1) js ∧
  Forall (λ j, has_status s j.1 j.2) js.

Definition sys_ok (s : sys) : Prop :=
  server_inv (sy_server s) ∧ g_pg (sy_server s) ≠ None ∧ jobs_ok (sy_server s) (jobs s).
End Lossless.

Inductive job_label :=
  | Submit (t : TaskDesc)
  | Start (t : TaskDesc)
  | End (t : TaskDesc) (st : Z)
  | Tau.

(** A single-shot job ends DONE or FAILED; a continuous one is handed to a thread of
    its own and goes on running. *)
Definition end_status (t : TaskDesc) (st : Z) : Prop :=
  if decide (task_type t = 1) then st = kRunning else st = kDone ∨ st = kFailed.

Inductive job_step : list (TaskDesc * Z) → job_label → list (TaskDesc * Z) → Prop :=
  | job_submit js t : job_step js (Submit t) (js ++ [(t, kPending)])
  | job_start js1 t js2 :
      Forall (λ j, j.2 = kRunning) js1 →
      job_step (js1 ++ (t, kPending) :: js2) (Start t) (js1 ++ (t, kRunning) :: js2)
  | job_end js t st : end_status t st → job_step ((t, kRunning) :: js) (End t st) js
  | job_tau js : job_step js Tau js.

Inductive job_run : list (TaskDesc * Z) → list job_label → list (TaskDesc * Z) → Prop :=
  | job_nil js : job_run js [] js
  | job_cons js l js' ls js'' : job_step js l js' → job_run js' ls js'' → job_run js (l :: ls) js''.

Definition submits (ls : list job_label) : list TaskDesc :=
  omap (λ l, match l with Submit t => Some t | _ => None end) ls.
Definition ends (ls : list job_label) : list TaskDesc :=
  omap (λ l, match l with End t _ => Some t | _ => None end) ls.

(** The jobs come in, wait and leave in one order. *)
Lemma job_run_fifo js ls js' :
  job_run js ls js' → map fst js ++ submits ls = ends ls ++ map fst js'.
Proof.
  induction 1 as [js|js l js1 ls js2 Hstep _ IH]; [by rewrite app_nil_r|].
  destruct Hstep as [js t|js1 t js2' _|js t st _|js]; simpl.
  - by rewrite <-IH, map_app, <-(assoc_L (++)).
  - by rewrite <-IH, !map_app.
  - by rewrite <-IH.
  - done.
Qed.

Section Refinement.
Context {W : Type} `{OS W} `{BPF W}.
Context (fl : flags) (sc : sysconf) (addr : string).

(** What a step of the system is for the jobs. *)
Definition job_of (l : sys_label) (jl : job_label) (s' : sys) : Prop :=
  submits [jl] = created fl [l] ∧ ends [jl] = executed [l] ∧
  ∀ t st, jl = End t st → has_status (sy_server s') t st.

Lemma jobs_pipeline s : map fst (jobs fl s) = pipeline fl s.
Proof. unfold jobs, pipeline. by rewrite map_app, !map_map, !map_id. Qed.

Lemma jobs_ok_frame s s' js :
  jobs_ok s js → (∀ t, t ∈ map fst js → status_of (task_id t) s' = status_of (task_id t) s) → jobs_ok s' js.
Proof.
  intros (Hnd & Hnul & Hst) Hfr. split_and!; [done..|]. rewrite Forall_forall in *. intros j Hj.
  rewrite has_status_of, Hfr by (apply list_elem_of_fmap_2; done). by apply has_status_of, Hst.
Qed.

Lemma jobs_ok_tail s j js : jobs_ok s (j :: js) → jobs_ok s js ∧ ∀ t, t ∈ map fst js → task_id t ≠ task_id j.1.
Proof.
  intros (Hnd & Hnul & Hst). simpl in Hnd. apply NoDup_cons in Hnd as [Hni Hnd].
  apply Forall_cons in Hnul as [_ ?], Hst as [_ ?]. split; [done|].
  intros t (j' & -> & Hj)%list_elem_of_fmap Heq. apply Hni. rewrite <-Heq.
  by apply (list_elem_of_fmap_2 (λ j, task_id j.1)).
Qed.

(** The first job that waits starts. *)
Lemma jobs_ok_start s s' js1 t js2 :
  jobs_ok s (js1 ++ (t, kPending) :: js2) →
  (∀ tid, tid ≠ c_str (task_id t) → task_of tid s' = task_of tid s) →
  (∀ row, task_of (c_str (task_id t)) s = Some row → t_status row = kPending →
     ∃ row', task_of (c_str (task_id t)) s' = Some row' ∧ t_status row' = kRunning) →
  jobs_ok s' (js1 ++ (t, kRunning) :: js2).
Proof.
  unfold jobs_ok. rewrite !map_app, !Forall_app, !Forall_cons. simpl.
  intros (Hnd & (? & Hnul & ?) & (Hst1 & (row & Hrow & Hp) & Hst2)) Hother Hrun. rewrite Hnul in *.
  apply NoDup_app in Hnd as Hnd'. destruct Hnd' as (_ & Hno & [Hni _]%NoDup_cons).
  assert (∀ j, j ∈ js1 ∨ j ∈ js2 → task_id j.1 ≠ task_id t) as Hne.
  { intros j [Hj|Hj] Heq.
    - apply (Hno (task_id j.1)); [by apply (list_elem_of_fmap_2 (λ j, task_id j.1))|]. rewrite Heq. by left.
    - apply Hni. rewrite <-Heq. by apply (list_elem_of_fmap_2 (λ j, task_id j.1)). }
  split_and!; try done.
  - rewrite Forall_forall in *. intros j Hj. unfold has_status. rewrite Hother by auto. by apply Hst1.
  - destruct (Hrun row Hrow Hp) as (row' & ? & ?). by exists row'.
  - rewrite Forall_forall in *. intros j Hj. unfold has_status. rewrite Hother by auto. by apply Hst2.
Qed.

Definition simulated (s : sys) (l : sys_label) (s' : sys) : Prop :=
  sys_ok fl s' ∧ ∃ jl, job_step (jobs fl s) jl (jobs fl s') ∧ job_of l jl s'.

(** Every step keeps the database consistent and connected. *)
Lemma sys_step_inv s l s' :
  sys_step (W := W) fl sc addr s l s' → server_inv (sy_server s) → g_pg (sy_server s) ≠ None →
  server_inv (sy_server s') ∧ g_pg (sy_server s') ≠ None.
Proof.
  intros [->|[l0 Hl]]%sys_server_step Hinv Hpg; [done|].
  destruct (server_step_pg _ _ _ Hl Hinv) as [? Hpg']. auto.
Qed.

(** A step that moves no job. *)
Lemma simulated_tau s l s' :
  sys_ok fl s → server_inv (sy_server s') → g_pg (sy_server s') ≠ None →
  jobs fl s' = jobs fl s → untouched fl s s' → created fl [l] = [] → executed [l] = [] → simulated s l s'.
Proof.
  intros (Hinv & Hpg & Hok) Hinv' Hpg' Hj Hun Hc He. unfold simulated, sys_ok. rewrite Hj. split_and!; try done.
  - eapply jobs_ok_frame; [done|]. intros t. rewrite jobs_pipeline. apply Hun.
  - exists Tau. split; [constructor|]. by split_and!.
Qed.

Lemma simulated_other l s a h k c s' :
  let x := mkSys s a h k c in let x' := mkSys s' a h k c in
  sys_ok fl x → server_step s l s' → (∀ d, l ≠ Dispatched (ip fl) d) →
  lossless fl addr x (SServer l) x' → simulated x (SServer l) x'.
Proof.
  intros x x' Hok Hl Hip [Hun Hsub]. pose proof Hok as (Hinv & Hpg & Hjobs).
  destruct (server_step_pg _ _ _ Hl Hinv) as [Hinv' Hpg'].
  pose proof (other_queue fl _ _ _ Hl Hip) as Hq.
  destruct (created fl [SServer l]) as [|t ts] eqn:Ec.
  { apply simulated_tau; auto. unfold jobs, waiting. simpl. by rewrite Hq, app_nil_r. }
  assert (l = Queued (ip fl) t ∧ ts = []) as [-> ->].
  { unfold created in Ec. destruct l as [ip' d| |]; try done. simpl in Ec. destruct (decide (ip' = ip fl)) as [->|]; [|done].
    by simplify_eq. }
  assert (jobs fl x' = jobs fl x ++ [(t, kPending)]) as Hj.
  { unfold jobs, waiting. simpl. by rewrite Hq, map_app, (assoc_L (++)). }
  destruct (Hsub t eq_refl) as (Hnul & Hnew & Hst).
  assert (task_of (task_id t) s' = task_of (task_id t) s) as Hsame.
  { inversion Hl as [? ? ? Hd|]; subst. inversion Hd as [| |? ? ? ? ? ? Hc| | | |]; subst.
    - unfold resp_label in *. repeat case_match; simplify_eq.
    - unfold CreateTask in Hc. destruct (negb _); by simplify_eq. }
  split; [|exists (Submit t); split; [rewrite Hj; constructor|by split_and!]].
  split_and!; [done|by apply Hpg'|]. rewrite Hj.
  destruct (jobs_ok_frame s s' (jobs fl x) Hjobs) as (Hnd & Hn & Hs).
  { intros t'. rewrite jobs_pipeline. apply Hun. }
  split_and!; rewrite ?map_app, ?Forall_app; simpl.
  - apply NoDup_app. split_and!; [done| |apply NoDup_singleton].
    intros i Hi ->%list_elem_of_singleton. apply Hnew. rewrite <-jobs_pipeline.
    unfold fmap. by rewrite <-(map_map fst task_id) in Hi.
  - by split; [|constructor].
  - split; [done|]. constructor; [|done]. unfold has_status. simpl. by rewrite Hsame.
Qed.

#[local] Existing Instance net_os.

Lemma simulated_send dv e (w w' : W) s a k c ch resp a' s' :
  let x := mkSys s a HbIdle k c in let x' := mkSys s' a' (HbAnswered ch resp) k c in
  sys_ok fl x → sys_step (W := W) fl sc addr x (SSend dv) x' →
  hb_send (H1 := net_rpc addr dv) fl sc e a (w, s) = (Ret (HbGot ch resp a'), (w', s')) →
  answered dv → simulated x (SSend dv) x'.
Proof.
  intros x x' Hok Hstep Hs Hans. pose proof Hok as (Hinv & Hpg & Hjobs).
  destruct (sys_step_inv _ _ _ Hstep Hinv Hpg) as [Hinv' Hpg'].
  apply hb_send_net in Hs as (-> & _ & req & p & Hreq & Hh & ->). unfold net_health in Hh.
  destruct (reaches addr dv _) eqn:Er; [|simplify_eq; by apply simulated_tau].
  apply andb_true_iff in Er as [Harr _]. destruct (Hans Harr) as (Hctx & Hret & Hcom).
  destruct (proj1 (server_handlers_total s Hinv) (dv_ctx dv) (dv_do dv) req) as (st & o & s1 & Hdo).
  rewrite Hdo, Hret in Hh. apply Do_rows in Hdo as [-> Hdo]; [|done..]. rewrite Hreq in Hdo. simpl in Hh. simplify_eq.
  destruct Hdo as [(Hq & Hq' & -> & Hrows)|(t & Hq & -> & Hother & Hrun)].
  { apply simulated_tau; try done; [|intros t _; by apply status_of_task, Hrows]. unfold jobs, waiting. simpl. by rewrite Hq, Hq'. }
  set (js1 := map (λ t, (t, kRunning)) (started x)). set (js2 := map (λ t, (t, kPending)) (waiting fl x')).
  assert (jobs fl x = js1 ++ (t, kPending) :: js2) as Hj.
  { unfold jobs. subst js1 js2. unfold waiting at 1. simpl. by rewrite Hq. }
  assert (jobs fl x' = js1 ++ (t, kRunning) :: js2) as Hj'.
  { unfold jobs, started. subst js1 js2. simpl. unfold started. simpl. rewrite !map_app, <-!(assoc_L (++)). done. }
  unfold simulated, sys_ok. rewrite Hj, Hj' in *. split; [|exists (Start t); split].
  2: { constructor. subst js1. apply (proj2 (Forall_map _ _ _)). by apply Forall_true. }
  2: { by split_and!. }
  split_and!; [done..|]. apply (jobs_ok_start s); [done|done|eauto].
Qed.

(** The reply is queued: no task of its id is there. *)
Lemma simulated_receive dv (w w' : W) s a k c ch resp r s' :
  let x := mkSys s a (HbAnswered ch resp) k c in let x' := mkSys s' (hb_agent r a) HbIdle k c in
  sys_ok fl x → sys_step (W := W) fl sc addr x (SReceive dv) x' →
  hb_receive (H1 := net_rpc addr dv) fl ch resp a (w, s) = (Ret r, (w', s')) →
  simulated x (SReceive dv) x'.
Proof.
  intros x x' Hok Hstep Hr. pose proof Hok as (Hinv & Hpg & Hjobs & _).
  destruct (sys_step_inv _ _ _ Hstep Hinv Hpg) as [Hinv' Hpg'].
  pose proof Hr as Hnet. apply hb_receive_queue in Hr as [_ Hsq]. apply hb_receive_net in Hnet as [Hs Hw].
  apply simulated_tau; try done.
  2: { intros t _. apply status_of_task. simpl. destruct Hs as [->|(? & ? & ? & ? & ? & Hreg)]; [done|]. by eapply Register_rows. }
  assert (queue (g_worker (hb_agent r a)) = queue (g_worker a) ++ in_flight (HbAnswered ch resp)) as Hq.
  2: { unfold jobs, started, waiting. simpl sy_server. simpl sy_worker. simpl sy_agent. simpl sy_hb.
       by rewrite Hsq, Hq, app_nil_r. }
  rewrite Hw. destruct resp as [rs|]; simpl; [|by rewrite app_nil_r]. rewrite on_pending_worker.
  destruct (hc_pending rs) eqn:Ep; [|by rewrite app_nil_r].
  destruct (hc_task_desc rs) as [t|] eqn:Et; simpl; [|by rewrite app_nil_r].
  destruct (enqueue_spec t (g_worker a)) as [(t' & Hin & Hid & _)|[_ ->]]; [exfalso|done].
  rewrite <-(map_map fst task_id), jobs_pipeline in Hjobs. unfold pipeline, started in Hjobs. simpl in Hjobs.
  rewrite Ep, Et in Hjobs. simpl in Hjobs. rewrite !map_app in Hjobs.
  apply NoDup_app in Hjobs as [Hjobs _]. apply NoDup_app in Hjobs as (_ & _ & Hjobs).
  apply NoDup_app in Hjobs as (_ & Hno & _). apply (Hno (task_id t)); [|by left].
  rewrite <-Hid. by apply list_elem_of_fmap_2.
Qed.

(** The worker ends a task: the jobs behind it keep their rows. *)
Lemma simulated_end l s a h k c t x' st :
  let x := mkSys s a h k c in
  sys_ok fl x → server_inv (sy_server x') → g_pg (sy_server x') ≠ None →
  jobs fl x = (t, kRunning) :: jobs fl x' →
  (∀ tid, tid ≠ task_id t → task_of tid (sy_server x') = task_of tid s) →
  created fl [l] = [] → executed [l] = [t] → end_status t st → has_status (sy_server x') t st →
  simulated x l x'.
Proof.
  intros x (Hinv & Hpg & Hok) Hinv' Hpg' Hj Hother Hc He Hend Hst. rewrite Hj in Hok.
  apply jobs_ok_tail in Hok as [Hok Hne]. split.
  - split_and!; [done..|]. eapply jobs_ok_frame; [exact Hok|]. intros t' Ht'.
    apply status_of_task, Hother. by apply (Hne t').
  - exists (End t st). rewrite Hj. split; [by constructor|]. split_and!; [done..|]. intros; by simplify_eq.
Qed.

Lemma simulated_finish dv (w w1 : W) s a h c t r ok s' :
  let x := mkSys s a h (WkRunning t) c in let x' := mkSys s' a h WkIdle c in
  sys_ok fl x → sys_step (W := W) fl sc addr x (SFinish t dv) x' →
  task_type t ≠ 1 → single_result fl t w = (Ret r, w1) →
  net_notify addr dv (GetChannel (g_server_pool a)) r s = (ok, s') →
  handled dv → GetChannel (g_server_pool a) = Some addr → simulated x (SFinish t dv) x'.
Proof.
  intros x x' Hok Hstep Hty Hr Hn (Harr & Hctx & Hc1 & Hc2) Hch. pose proof Hok as (Hinv & Hpg & _ & Hnul & Hst).
  destruct (sys_step_inv _ _ _ Hstep Hinv Hpg) as [Hinv' Hpg'].
  apply single_result_error in Hr as [Htid _].
  unfold net_notify, reaches in Hn. rewrite Harr, Hch, bool_decide_eq_true_2 in Hn by done. simpl in Hn.
  apply Forall_cons in Hnul as [Hnul _], Hst as [(row & Hrow & Hrun) _]. simpl in Hnul, Hrow, Hrun.
  unfold server_inv, task_of in Hinv, Hrow. simpl in Hinv, Hpg. destruct (g_pg s) as [[d tx]|] eqn:E; [|done].
  destruct Hinv as [Htx Hdb]. simpl in Htx, Hrow. subst tx.
  destruct (NotifyResult_report (dv_ctx dv) (dv_update1 dv) (dv_update2 dv) r s d row Hctx Hc1 Hc2 E)
    as (d' & row' & Hnr & Hrow' & Hst' & _); [apply Hdb|by rewrite Htid, Hnul|].
  rewrite Hnr in Hn. simplify_eq/=.
  apply (simulated_end (SFinish t dv) s a h (WkRunning t) c t x' (t_status row')); try done.
  - intros tid Hne. eapply Notify_rows; [|exact Hnr|by rewrite Htid, Hnul]. unfold server_inv. by rewrite E.
  - unfold end_status. rewrite decide_False, Hst', Hrun by done. by case_bool_decide; [left|right].
  - exists row'. split; [|done]. unfold task_of. simpl. by rewrite <-Hnul, <-Htid.
Qed.

Lemma sys_step_simulated s l s' :
  sys_ok fl s → sys_step (W := W) fl sc addr s l s' → lossless fl addr s l s' → simulated s l s'.
Proof.
  intros Hok Hstep Hl. pose proof Hok as (Hinv & Hpg & _ & _ & Hst).
  destruct (sys_step_inv _ _ _ Hstep Hinv Hpg) as [Hinv' Hpg']. pose proof Hstep as Hstep0.
  destruct Hstep0 as [| | |?|s a h c t a' Ht| |s a h c t Hty|?
    |dv n w w1 s a h k c1 c2 t cp r ok s' _ _ Hn|?].
  - by apply simulated_other.
  - by eapply simulated_send.
  - by eapply simulated_receive.
  - by apply simulated_tau.
  - apply simulated_tau; try done. apply worker_take_queue in Ht. unfold jobs, started. simpl.
    rewrite Ht. done.
  - destruct Hl. by eapply simulated_finish.
  - apply Forall_cons in Hst as [Hst _].
    apply (simulated_end (SDetach t) s a h (WkRunning t) c t _ kRunning); try done.
    unfold end_status. by rewrite decide_True.
  - by apply simulated_tau.
  - apply simulated_tau; try done. unfold jobs, waiting. simpl. by rewrite (net_notify_queue _ _ _ _ _ _ _ Hn).
  - by apply simulated_tau.
Qed.

Lemma lossless_run_refines s ls s' :
  sys_ok fl s → lossless_run (W := W) fl sc addr s ls s' →
  sys_ok fl s' ∧ ∃ jls, job_run (jobs fl s) jls (jobs fl s') ∧ submits jls = created fl ls ∧ ends jls = executed ls.
Proof.
  intros Hok Hrun. induction Hrun as [s|s l s1 ls s2 Hstep Hl _ IH].
  { split; [done|]. exists []. split; [constructor|done]. }
  destruct (sys_step_simulated _ _ _ Hok Hstep Hl) as [Hok1 (jl & Hj & Hsub & Hend & _)].
  destruct (IH Hok1) as [Hok2 (jls & Hjs & Hsubs & Hends)]. split; [done|]. exists (jl :: jls).
  split; [by econstructor|]. change (jl :: jls) with ([jl] ++ jls). change (l :: ls) with ([l] ++ ls).
  unfold submits, ends, created, executed in *. by rewrite !omap_app, Hsub, Hend, Hsubs, Hends.
Qed.
End Refinement.

(** * Tasks that got lost *)

Section Lost.
Context {W : Type} `{OS W} `{BPF W}.
Context (fl : flags) (sc : sysconf) (addr : string) (tid : string).

(** Neither the agent's threads nor the queues have a task with the row [tid]. *)
Definition absent (s : sys) : Prop :=
  ∀ t, t ∈ pipeline fl s ++ map fst (sy_conts s) → c_str (task_id t) ≠ tid.

(** The other parties leave the status alone and do not create the task again. *)
Definition spares (s : sys) (l : sys_label) (s' : sys) : Prop :=
  match l with
  | SServer l0 =>
      status_of tid (sy_server s') = status_of tid (sy_server s) ∧
      ∀ t, l0 = Queued (ip fl) t → c_str (task_id t) ≠ tid
  | _ => True
  end.

Lemma continuous_result_id n t (w : W) r w' : continuous_result fl n t w = (Ret r, w') → r_task_id r = task_id t.
Proof. unfold continuous_result. intros Hr. apply prog_bind_Ret in Hr as ([[ok e] c] & w1 & _ & Hr). by prog_inv. Qed.

Lemma absent_step s l s' :
  sys_step (W := W) fl sc addr s l s' → spares s l s' → absent s → absent s' ∧ Forall (λ t, c_str (task_id t) ≠ tid) (executed [l]).
Proof.
  intros Hstep Hsp Habs. pose proof (sys_step_pipeline _ _ _ _ _ _ Hstep) as Hsub.
  assert (∀ t, t ∈ executed [l] ++ pipeline fl s' → c_str (task_id t) ≠ tid) as Hall.
  { intros t Ht. pose proof (elem_of_sublist _ _ t Ht Hsub) as [Ht'|Ht']%elem_of_app.
    - apply Habs, elem_of_app. by left.
    - destruct l as [[ip' d| |]| | | | | | | | |]; try by apply not_elem_of_nil in Ht'.
      unfold created in Ht'. simpl in Ht'. destruct (decide (ip' = ip fl)) as [->|]; [|by apply not_elem_of_nil in Ht'].
      apply list_elem_of_singleton in Ht' as ->. by apply Hsp. }
  split; [|apply Forall_forall; intros t Ht; apply Hall, elem_of_app; by left].
  intros t [Ht|Ht]%elem_of_app; [apply Hall, elem_of_app; by right|].
  assert (t ∈ executed [l] ∨ t ∈ map fst (sy_conts s)) as [Hx|Hx];
    [|apply Hall, elem_of_app; by left|apply Habs, elem_of_app; by right].
  destruct Hstep as [|?|?|?|?|?|s a h c t' _|?|dv n w w1 s a h k c1 c2 t' cp r ok s' _ _ _|?]; simpl in *; auto.
  - apply elem_of_cons in Ht as [->|Ht]; [left; by left|by right].
  - right. rewrite map_app in *. set_solver.
Qed.

(** No step of the agent touches the status then. *)
Lemma absent_row s l s' :
  sys_step (W := W) fl sc addr s l s' → spares s l s' → absent s → server_inv (sy_server s) →
  status_of tid (sy_server s') = status_of tid (sy_server s).
Proof.
  intros Hstep Hsp Habs Hinv. unfold absent, pipeline, started, waiting in Habs.
  destruct Hstep as [?|dv e w w' s a k c ch resp a' s' _ Hs|dv w w' s a k c ch resp r s' _ Hr|?|?
    |dv w w1 s a h c t r ok s' _ Hres Hn|?|?|dv n w w1 s a h k c1 c2 t cp r ok s' _ Hres Hn|?]; simpl in *; try done.
  - by apply Hsp.
  - apply status_of_task. apply hb_send_net in Hs as (_ & _ & req & p & Hreq & Hh & _).
    apply net_health_cases in Hh as [[_ ->]|(st & o & Hdo & _)]; [done|].
    destruct (is_ok (CheckDeadline (dv_ctx dv))) eqn:Hctx.
    2: { unfold HealthCheck_Do in Hdo. rewrite Hctx in Hdo. by simplify_eq/=. }
    apply Do_rows in Hdo as [_ [(_ & _ & _ & Hsame)|(t & Hq & _ & Hother & _)]]; [by apply Hsame| |done..].
    apply Hother. intros Heq. apply (Habs t); [|done]. rewrite Hreq in Hq. rewrite Hq. set_solver.
  - apply hb_receive_net in Hr as [[->|(? & ? & ? & ? & ? & Hreg)] _]; [done|].
    apply status_of_task. by eapply Register_rows.
  - apply net_notify_cases in Hn as [->|[st Hn]]; [done|]. apply status_of_task. apply single_result_error in Hres as [Hid _].
    eapply Notify_rows; [done|exact Hn|]. rewrite Hid. intros Heq. by apply (Habs t); [set_solver|].
  - apply net_notify_cases in Hn as [->|[st Hn]]; [done|].
    apply status_of_task. apply continuous_result_id in Hres as Hid.
    eapply Notify_rows; [done|exact Hn|]. rewrite Hid. intros Heq. apply (Habs t); [|done].
    rewrite map_app. simpl. set_solver.
Qed.

Lemma absent_run s ls s' :
  run_where (W := W) fl sc addr spares s ls s' → absent s → server_inv (sy_server s) →
  status_of tid (sy_server s') = status_of tid (sy_server s) ∧
  Forall (λ t, c_str (task_id t) ≠ tid) (executed ls).
Proof.
  induction 1 as [s|s l s1 ls s2 Hstep Hsp _ IH]; intros Habs Hinv; [by split|].
  destruct (absent_step _ _ _ Hstep Hsp Habs) as [Habs1 Hx].
  assert (server_inv (sy_server s1)) as Hinv1.
  { destruct (sys_server_step _ _ _ _ _ _ Hstep) as [->|[l0 Hl]]; [done|]. by eapply server_step_pg. }
  destruct (IH Habs1 Hinv1) as [Hrow Hxs]. split.
  - rewrite Hrow. by apply (absent_row _ l).
  - change (l :: ls) with ([l] ++ ls). unfold executed in *. rewrite omap_app. by apply Forall_app.
Qed.
End Lost.

Section Lost_messages.
Context {W : Type} `{OS W} `{BPF W}.
Context (fl : flags) (sc : sysconf) (addr : string).

(** The messages whose loss costs a task: the reply that carries it, and the report of
    its result. *)
Inductive loses (s : sys) (t : TaskDesc) : sys_label → Prop :=
  | lost_reply dv q :
      waiting fl s = t :: q → dv_arrives dv = true → GetChannel (g_server_pool (sy_agent s)) = Some addr →
      is_ok (CheckDeadline (dv_ctx dv)) = true → env_commits (de_update (dv_do dv)) = true →
      dv_returns dv = false → loses s t (SSend dv)
  | lost_report dv : sy_worker s = WkRunning t → dv_arrives dv = false → loses s t (SFinish t dv).

(** After the loss the task is RUNNING and nobody has it. *)
Lemma loses_step s t l s1 :
  sys_ok fl s → sys_step (W := W) fl sc addr s l s1 → loses s t l →
  has_status (sy_server s1) t kRunning ∧ sy_conts s1 = sy_conts s ∧ pipeline fl s ≡ₚ t :: pipeline fl s1.
Proof.
  intros (Hinv & Hpg & _ & Hnul & Hst) Hstep Hl. destruct Hl as [dv q Hq Harr Hch Hctx Hcom Hret|dv Hk Harr].
  - inversion Hstep as [|? e w w' sv a k c ch resp a' s' _ Hs| | | | | | | |]; subst. simpl in *.
    apply hb_send_net in Hs as (-> & _ & req & p & Hreq & Hh & ->).
    unfold net_health, reaches in Hh. rewrite Harr, Hch, bool_decide_eq_true_2 in Hh by done. simpl in Hh.
    destruct (proj1 (server_handlers_total sv Hinv) (dv_ctx dv) (dv_do dv) req) as (st & o & s2 & Hdo).
    rewrite Hdo, Hret, andb_false_r in Hh. apply Do_rows in Hdo as [_ Hdo]; [|done..]. rewrite Hreq in Hdo. simplify_eq.
    unfold waiting in Hq. simpl in Hq. destruct Hdo as [(Hq' & _)|(t' & Hq' & _ & _ & Hrun)]; [congruence|].
    rewrite Hq in Hq'. injection Hq' as <- ->.
    unfold jobs in Hnul, Hst. unfold waiting at 1 in Hnul; unfold waiting at 1 in Hst. simpl in Hnul, Hst. rewrite Hq in Hnul, Hst.
    apply Forall_app in Hnul as [_ [Hnul _]%Forall_cons], Hst as [_ [(row & Hrow & Hp) _]%Forall_cons].
    simpl in Hnul, Hrow, Hp. rewrite Hnul in Hrun. split; [by apply (Hrun row)|]. split; [done|].
    unfold pipeline, started, waiting. simpl. rewrite Hq, app_nil_r. by rewrite <-Permutation_middle.
  - inversion Hstep as [| | | | |? w w1 sv a h c ? r ok s' Hty Hr Hn| | | |]; subst. simpl in *.
    unfold net_notify, reaches in Hn. rewrite Harr in Hn. simpl in Hn. simplify_eq.
    apply Forall_cons in Hst as [Hrun _]. by split_and!.
Qed.

Lemma lost_run s t l s1 ls s2 :
  sys_ok fl s → sys_step (W := W) fl sc addr s l s1 → loses s t l →
  (∀ t', t' ∈ map fst (sy_conts s) → c_str (task_id t') ≠ task_id t) →
  run_where (W := W) fl sc addr (spares fl (task_id t)) s1 ls s2 →
  has_status (sy_server s2) t kRunning ∧ Forall (λ t', c_str (task_id t') ≠ task_id t) (executed ls).
Proof.
  intros Hok Hstep Hl Hconts Hrun. destruct (loses_step _ _ _ _ Hok Hstep Hl) as (Hst & Hc & Hp).
  destruct Hok as (Hinv & Hpg & Hnd & Hnul & _). destruct (sys_step_inv _ _ _ _ _ _ Hstep Hinv Hpg) as [Hinv1 _].
  rewrite <-(map_map fst task_id), jobs_pipeline, Hp in Hnd. simpl in Hnd. apply NoDup_cons in Hnd as [Hni _].
  assert (absent fl (task_id t) s1) as Habs.
  { intros t' [Ht'|Ht']%elem_of_app; [|rewrite Hc in Ht'; by apply Hconts].
    assert (t' ∈ map fst (jobs fl s)) as (j & -> & Hj)%list_elem_of_fmap by (rewrite jobs_pipeline, Hp; by right).
    rewrite Forall_forall in Hnul. rewrite (Hnul _ Hj). intros Heq. apply Hni. rewrite <-Heq. by apply list_elem_of_fmap_2. }
  destruct (absent_run _ _ _ _ _ _ _ Hrun Habs Hinv1) as [Hrow Hx]. split; [|done].
  apply has_status_of. rewrite Hrow. by apply has_status_of.
Qed.
End Lost_messages.

(** * The example of [System] *)

Lemma x0_ok : sys_ok flags0 x0.
Proof.
  split; [|split]; [|done|repeat constructor]. split; [done|]. split; [by apply map_Forall_singleton|].
  split; [|repeat split; constructor]. split; [|by split]. intros tid row Hrow.
  simpl in Hrow. by apply lookup_singleton_Some in Hrow as [<- <-].
Qed.

(** * Claims *)

(** C1: Refinement: a run of the whole system in which nothing is lost is a run of
    [job_step]: tasks enter as PENDING jobs, the first that waits becomes RUNNING when
    it is dispatched, jobs leave in order of entry, a single-shot one as DONE or
    FAILED; and the row of every unfinished task in the database says what its job
    says.  In particular every created task was executed or is still there. *)
Theorem system_refines_jobs {W} `{OS W} `{BPF W} fl sc addr s ls s' :
  sys_ok fl s → lossless_run (W := W) fl sc addr s ls s' →
  (∃ jls, job_run (jobs fl s) jls (jobs fl s') ∧ submits jls = created fl ls ∧ ends jls = executed ls) ∧
  Forall (λ j, has_status (sy_server s') j.1 j.2) (jobs fl s') ∧
  pipeline fl s ++ created fl ls = executed ls ++ pipeline fl s'.
Proof.
  intros Hok Hrun. destruct (lossless_run_refines _ _ _ _ _ _ Hok Hrun) as [(_ & _ & _ & _ & Hst) (jls & Hj & Hs & He)].
  split_and!; [by exists jls|done|]. rewrite <-!jobs_pipeline, <-Hs, <-He. by apply job_run_fifo.
Qed.

Lemma example_lossless i : (i < 8)%nat → lossless flags0 "a:1" (run_state i) (run_label i) (run_state (S i)).
Proof.
  intros Hi. destruct i as [|[|[|[|[|[|[|[|i]]]]]]]]; try done; [|lia].
  split; [done|]. intros t [= <-]. split_and!; [done|by apply not_elem_of_nil|by eexists].
Qed.

Lemma system_refines_jobs_witness :
  pipeline flags0 x0 ++ created flags0 (map run_label (seq 0 3)) =
  executed (map run_label (seq 0 3)) ++ pipeline flags0 x3 ∧
  Forall (λ j, has_status (sy_server x3) j.1 j.2) [(t1, kRunning)].
Proof.
  destruct (system_refines_jobs (W := ksim) flags0 sysconf0 "a:1" x0 (map run_label (seq 0 3)) x3 x0_ok) as (_ & Hst & Hp).
  - apply (example_run _ 3). intros i Hi. apply example_lossless. lia.
  - split; [exact Hp|exact Hst].
Defined.

(** C35: A lost message costs the task: when the reply that carries it is lost after the
    server took it out of its queue, or the report of its result does not arrive, the
    task is RUNNING in the database and stays so in every later run in which the
    other parties leave its status alone and do not create it again, and it is not
    executed (again): neither side sends anything a second time. *)
Theorem lost_message_strands_task {W} `{OS W} `{BPF W} fl sc addr s t l s1 ls s2 :
  sys_ok fl s → sys_step (W := W) fl sc addr s l s1 → loses fl addr s t l →
  (∀ t', t' ∈ map fst (sy_conts s) → c_str (task_id t') ≠ task_id t) →
  run_where (W := W) fl sc addr (spares fl (task_id t)) s1 ls s2 →
  has_status (sy_server s2) t kRunning ∧ Forall (λ t', c_str (task_id t') ≠ task_id t) (executed ls).
Proof. apply lost_run. Qed.

Definition dv_lost : delivery := mkDelivery true false ctx0 (mkDoEnv 1 ue_down env_fine) ue_down env_fine env_fine.
Definition x2_lost : sys :=
  match hb_send (H := net_os) (H1 := net_rpc "a:1" dv_lost) flags0 sysconf0 1000000000 (sy_agent x1) (idle_world, sy_server x1) with
  | (Ret (HbGot ch resp a), (_, s')) => mkSys s' a (HbAnswered ch resp) WkIdle []
  | _ => x1
  end.

Lemma x1_ok : sys_ok flags0 x1.
Proof.
  apply (lossless_run_refines (W := ksim) flags0 sysconf0 "a:1" x0 [run_label 0] x1 x0_ok).
  apply (example_run _ 1). intros i Hi. apply example_lossless. lia.
Qed.

Lemma lost_message_strands_task_witness :
  has_status (sy_server x2_lost) t1 kRunning ∧ Forall (λ t', c_str (task_id t') ≠ task_id t1) (executed [SSignal]).
Proof.
  apply (lost_message_strands_task (W := ksim) flags0 sysconf0 "a:1" x1 t1 (SSend dv_lost) x2_lost [SSignal]
    (mkSys (sy_server x2_lost) (SignalHandler (sy_agent x2_lost)) (sy_hb x2_lost) WkIdle [])).
  - apply x1_ok.
  - eapply (sy_send _ _ _ dv_lost 1000000000 idle_world idle_world); [discriminate|]. vm_compute. reflexivity.
  - by apply (lost_reply _ _ _ _ _ []).
  - intros t' []%not_elem_of_nil.
  - eapply run_where_cons; [|exact I|apply run_where_nil]. apply sy_signal.
Defined.
