(* ===== verification/Liveness.v ===== *)
(** Progress of the system of [System]: infinite runs.

    A run is a sequence of states and one of labels.  [fair_run] says what the code
    relies on: heartbeats get through again and again, a worker that has something to
    do wakes up, and a task that runs ends.  Then every task that is created for the
    agent ends, and the database says so.  The proof follows the first job through
    its stations (the server's queue, the reply, the agent's queue, the worker). *)
From stdpp Require Import base gmap strings list.
From Stdlib Require Import ZArith Lia.
From S2P Require Import Prelude CppString OS Proto TaskQueue PGStore Server ServerRows ServerPool.
From S2P Require Import Symbols Profilers EbpfLoader ProfilerFactory SelfStats Agent System Jobs.

Section Liveness.
Context {W : Type} `{OS W} `{BPF W}.
Context (fl : flags) (sc : sysconf) (addr : string).

Record fair_run (e : nat → sys) (lab : nat → sys_label) : Prop := mkFairRun {
  fr_start : sys_ok fl (e O);
  fr_step i : sys_step (W := W) fl sc addr (e i) (lab i) (e (S i));
  fr_lossless i : lossless fl addr (e i) (lab i) (e (S i));
  (** Heartbeats reach the server infinitely often. *)
  fr_heartbeats i : ∃ j dv, (i <= j)%nat ∧ lab j = SSend dv ∧ dv_arrives dv = true ∧
    GetChannel (g_server_pool (sy_agent (e j))) = Some addr;
  (** The worker thread is scheduled, and a task it runs ends. *)
  fr_takes i : sy_worker (e i) = WkIdle → queue (g_worker (sy_agent (e i))) ≠ [] →
    ∃ j t, (i <= j)%nat ∧ lab j = STake t;
  fr_ends i t : sy_worker (e i) = WkRunning t → ∃ j, (i <= j)%nat ∧ executed [lab j] ≠ [];
}.

(** ** Single steps *)

(** The pipeline of a step without loss: in at the end, out at the front. *)
Lemma lossless_pipeline s l s' :
  sys_ok fl s → sys_step (W := W) fl sc addr s l s' → lossless fl addr s l s' →
  pipeline fl s ++ created fl [l] = executed [l] ++ pipeline fl s'.
Proof.
  intros Hok Hstep Hl.
  destruct (sys_step_simulated _ _ _ _ _ _ Hok Hstep Hl) as [_ (jl & Hj & Hsub & Hend & _)].
  rewrite <-!jobs_pipeline, <-Hsub, <-Hend. eapply job_run_fifo. econstructor; [exact Hj|constructor].
Qed.

Lemma executed_one l : executed [l] ≠ [] → ∃ t, executed [l] = [t].
Proof. destruct l; simpl; eauto; done. Qed.

(** A reply in flight stays until it is received, and is queued then. *)
Lemma in_flight_step s l s' :
  sys_ok fl s → sys_step (W := W) fl sc addr s l s' → lossless fl addr s l s' → in_flight (sy_hb s) ≠ [] →
  in_flight (sy_hb s') ≠ [] ∨ queue (g_worker (sy_agent s')) ≠ [].
Proof.
  intros Hok Hstep Hl Hne. pose proof (lossless_pipeline _ _ _ Hok Hstep Hl) as Hp.
  destruct Hstep as [|?|dv w w' s a k c ch resp r s' _ Hr|?|?|?|?|?|?|?]; simpl in *; try done; auto.
  right. apply hb_receive_queue in Hr as [_ Hsq]. unfold pipeline, started, waiting in Hp. simpl in Hp.
  rewrite Hsq, !app_nil_r, <-!(assoc_L (++)) in Hp. apply app_inv_head in Hp.
  intros Hnil. rewrite Hnil in Hp. simpl in Hp. apply (f_equal length) in Hp. rewrite !length_app in Hp.
  apply Hne, nil_length_inv. lia.
Qed.

(** A waiting task stays, or is sent to the agent. *)
Lemma waiting_step s l s' :
  sys_ok fl s → sys_step (W := W) fl sc addr s l s' → lossless fl addr s l s' → waiting fl s ≠ [] →
  waiting fl s' ≠ [] ∨ in_flight (sy_hb s') ≠ [].
Proof.
  intros Hok Hstep Hl Hne. pose proof (lossless_pipeline _ _ _ Hok Hstep Hl) as Hp.
  destruct Hstep as [l s' a h k c s Hs Hip|dv e w w' s a k c ch resp a' s' _ Hs
    |dv w w' s a k c ch resp r s' _ Hr|?|?|dv w w1 s a h c t r ok s' _ _ Hn|?|?
    |dv n w w1 s a h k c1 c2 t cp r ok s' _ _ Hn|?]; unfold waiting in *; simpl in *; try by left.
  - left. rewrite (other_queue fl _ _ _ Hs Hip). by intros [? _]%app_eq_nil.
  - apply hb_send_net in Hs as (_ & _ & _ & p & _ & _ & ->).
    unfold pipeline, started, waiting in Hp. simpl in Hp. rewrite !app_nil_r, <-!(assoc_L (++)) in Hp.
    do 2 apply app_inv_head in Hp. destruct (queue_of _ (g_task_queue s')) eqn:E; [right|by left].
    rewrite app_nil_r in Hp. by rewrite Hp in Hne.
  - apply hb_receive_queue in Hr as [_ ->]. by left.
  - apply net_notify_queue in Hn as ->. by left.
  - apply net_notify_queue in Hn as ->. by left.
Qed.

(** A heartbeat that arrives takes the first waiting task along. *)
Lemma send_step s dv s' :
  sys_ok fl s → sys_step (W := W) fl sc addr s (SSend dv) s' → lossless fl addr s (SSend dv) s' →
  dv_arrives dv = true → GetChannel (g_server_pool (sy_agent s)) = Some addr → waiting fl s ≠ [] →
  in_flight (sy_hb s') ≠ [].
Proof.
  intros (Hinv & _) Hstep Hl Harr Hch Hne.
  inversion Hstep as [|? e w w' sv a k c ch resp a' s1 _ Hs| | | | | | | |]; subst. simpl in *.
  apply hb_send_net in Hs as (-> & _ & req & p & Hreq & Hh & ->). destruct (Hl Harr) as (Hctx & Hret & _).
  unfold net_health, reaches in Hh. rewrite Harr, Hch, bool_decide_eq_true_2 in Hh by done. simpl in Hh.
  destruct (proj1 (server_handlers_total sv Hinv) (dv_ctx dv) (dv_do dv) req) as (st & o & s2 & Hdo).
  rewrite Hdo, Hret in Hh. apply Do_rows in Hdo as [-> Hdo]; [|done..]. rewrite Hreq in Hdo. simpl in Hh. simplify_eq.
  destruct Hdo as [(Hq & _)|(t & _ & -> & _)]; [|done]. by destruct Hne.
Qed.

(** ** Runs *)

Context (e : nat → sys) (lab : nat → sys_label) (Hfair : fair_run e lab).

Lemma run_ok i : sys_ok fl (e i).
Proof.
  induction i as [|i IH]; [apply Hfair|].
  by apply (sys_step_simulated _ _ _ _ _ _ IH (fr_step _ _ Hfair i) (fr_lossless _ _ Hfair i)).
Qed.

Lemma run_pipeline i :
  pipeline fl (e i) ++ created fl [lab i] = executed [lab i] ++ pipeline fl (e (S i)).
Proof. apply lossless_pipeline; [apply run_ok|apply Hfair|apply Hfair]. Qed.

(** A property that each step keeps or that turns into another: some time up to [i + n]
    the other holds, or the first still does. *)
Lemma keeps_until (P Q : sys → Prop) n i :
  (∀ j, P (e j) → P (e (S j)) ∨ Q (e (S j))) → P (e i) → (∃ j, (i <= j)%nat ∧ Q (e j)) ∨ P (e (i + n)%nat).
Proof.
  intros Hk. revert i. induction n as [|n IH]; intros i Hi; [right; by rewrite Nat.add_0_r|].
  destruct (Hk i Hi) as [HS|HQ]; [|left; exists (S i); split; [lia|done]].
  destruct (IH (S i) HS) as [(j & ? & ?)|HP]; [left; exists j; split; [lia|done]|right].
  by replace (i + S n)%nat with (S i + n)%nat by lia.
Qed.

Lemma worker_never_gone i : sy_worker (e i) ≠ WkGone.
Proof.
  intros Hg. destruct (fr_heartbeats _ _ Hfair i) as (j & dv & Hle & Hlab & _).
  assert (sy_worker (e j) = WkGone) as Hj.
  { destruct (keeps_until (λ s, sy_worker s = WkGone) (λ _, False) (j - i) i) as [(? & _ & [])|Hj]; [|done|].
    - intros n Hn. left. pose proof (fr_step _ _ Hfair n) as Hs. by destruct Hs; simpl in *.
    - by replace (i + (j - i))%nat with j in Hj by lia. }
  pose proof (fr_step _ _ Hfair j) as Hs. rewrite Hlab in Hs.
  inversion Hs as [|? ? ? ? ? ? ? ? ? ? ? ? Hk ? Hej| | | | | | | |]. by rewrite <-Hej in Hj.
Qed.

Lemma queue_ends i : queue (g_worker (sy_agent (e i))) ≠ [] → ∃ j, (i <= j)%nat ∧ executed [lab j] ≠ [].
Proof.
  intros Hq. destruct (sy_worker (e i)) as [|t|] eqn:Ek.
  - destruct (fr_takes _ _ Hfair i Ek Hq) as (j & t & Hle & Hlab).
    assert (sy_worker (e (S j)) = WkRunning t) as Hrun.
    { pose proof (fr_step _ _ Hfair j) as Hs. rewrite Hlab in Hs. by inversion Hs. }
    destruct (fr_ends _ _ Hfair _ _ Hrun) as (j' & ? & ?). exists j'. split; [lia|done].
  - by apply (fr_ends _ _ Hfair _ t).
  - by destruct (worker_never_gone i).
Qed.

Lemma in_flight_ends i : in_flight (sy_hb (e i)) ≠ [] → ∃ j, (i <= j)%nat ∧ executed [lab j] ≠ [].
Proof.
  intros Hf. destruct (fr_heartbeats _ _ Hfair i) as (j & dv & Hle & Hlab & _).
  destruct (keeps_until (λ s, in_flight (sy_hb s) ≠ []) (λ s, queue (g_worker (sy_agent s)) ≠ []) (j - i) i)
    as [(j' & Hle' & Hq)|Hj]; [|done| |].
  - intros n Hn. eapply in_flight_step; [apply run_ok|apply Hfair|apply Hfair|done].
  - destruct (queue_ends _ Hq) as (j'' & ? & ?). exists j''. split; [lia|done].
  - replace (i + (j - i))%nat with j in Hj by lia. pose proof (fr_step _ _ Hfair j) as Hs. rewrite Hlab in Hs.
    inversion Hs as [|? ? ? ? ? ? ? ? ? ? ? ? Hk ? Hej| | | | | | | |]. by rewrite <-Hej in Hj.
Qed.

Lemma waiting_ends i : waiting fl (e i) ≠ [] → ∃ j, (i <= j)%nat ∧ executed [lab j] ≠ [].
Proof.
  intros Hw. destruct (fr_heartbeats _ _ Hfair i) as (j & dv & Hle & Hlab & Harr & Hch).
  assert (∃ j', (i <= j')%nat ∧ in_flight (sy_hb (e j')) ≠ []) as (j' & Hle' & Hf).
  { destruct (keeps_until (λ s, waiting fl s ≠ []) (λ s, in_flight (sy_hb s) ≠ []) (j - i) i) as [?|Hj]; [|done..|].
    - intros n Hn. eapply waiting_step; [apply run_ok|apply Hfair|apply Hfair|done].
    - replace (i + (j - i))%nat with j in Hj by lia. exists (S j). split; [lia|].
      pose proof (fr_step _ _ Hfair j) as Hs. pose proof (fr_lossless _ _ Hfair j) as Hl. rewrite Hlab in Hs, Hl.
      by eapply send_step; [apply run_ok|..]. }
  destruct (in_flight_ends _ Hf) as (j'' & ? & ?). exists j''. split; [lia|done].
Qed.

Lemma pipeline_ends i : pipeline fl (e i) ≠ [] → ∃ j, (i <= j)%nat ∧ executed [lab j] ≠ [].
Proof.
  intros Hp. destruct (waiting fl (e i)) eqn:Ew; [|by apply waiting_ends; rewrite Ew].
  destruct (in_flight (sy_hb (e i))) eqn:Ef; [|by apply in_flight_ends; rewrite Ef].
  destruct (queue (g_worker (sy_agent (e i)))) eqn:Eq; [|by apply queue_ends; rewrite Eq].
  destruct (sy_worker (e i)) as [|t|] eqn:Ek; [|by apply (fr_ends _ _ Hfair _ t)|].
  - destruct Hp. unfold pipeline, started. by rewrite Ew, Ef, Eq, Ek.
  - by destruct (worker_never_gone i).
Qed.

(** Up to the next end a job keeps its place. *)
Lemma place_until_end n i k t :
  pipeline fl (e i) !! k = Some t → executed [lab (i + n)%nat] ≠ [] →
  ∃ j, (i <= j)%nat ∧ executed [lab j] ≠ [] ∧ pipeline fl (e j) !! k = Some t.
Proof.
  revert i. induction n as [|n IH]; intros i Hk Hend; [rewrite Nat.add_0_r in Hend; by exists i|].
  destruct (executed [lab i]) eqn:E; [|exists i; rewrite E; by split_and!].
  pose proof (run_pipeline i) as Hp. rewrite E in Hp. simpl in Hp.
  destruct (IH (S i)) as (j & ? & ? & ?); [rewrite <-Hp; by apply lookup_app_l_Some| |exists j; split_and!; [lia|done..]].
  by replace (S i + n)%nat with (i + S n)%nat by lia.
Qed.

(** Every job is executed. *)
Lemma job_executed k i t :
  pipeline fl (e i) !! k = Some t → ∃ j, (i <= j)%nat ∧ executed [lab j] = [t].
Proof.
  revert i. induction k as [|k IH]; intros i Hk.
  all: destruct (pipeline_ends i) as (j0 & Hle0 & Hend0); [by intros Hnil; rewrite Hnil in Hk|].
  all: replace j0 with (i + (j0 - i))%nat in Hend0 by lia.
  all: destruct (place_until_end _ _ _ _ Hk Hend0) as (j & Hle & [t' Ht']%executed_one & Hkj).
  all: pose proof (run_pipeline j) as Hp; rewrite Ht' in Hp; apply (lookup_app_l_Some _ (created fl [lab j])) in Hkj.
  all: rewrite Hp in Hkj; simpl in Hkj.
  - exists j. split; [done|]. by simplify_eq.
  - destruct (IH _ Hkj) as (j' & ? & ?). exists j'. split; [lia|done].
Qed.

Lemma executed_ended j t :
  executed [lab j] = [t] → ∃ st, end_status t st ∧ has_status (sy_server (e (S j))) t st.
Proof.
  intros Hx. destruct (sys_step_simulated _ _ _ _ _ _ (run_ok j) (fr_step _ _ Hfair j) (fr_lossless _ _ Hfair j))
    as [_ (jl & Hj & _ & Hend & Hst)]. rewrite Hx in Hend. destruct Hj; simplify_eq/=. eauto.
Qed.

Lemma created_ends i t :
  lab i = SServer (Queued (ip fl) t) →
  ∃ j st, (i < j)%nat ∧ end_status t st ∧ has_status (sy_server (e j)) t st.
Proof.
  intros Hlab. pose proof (run_pipeline i) as Hp. rewrite Hlab in Hp. unfold created in Hp. simpl in Hp.
  rewrite decide_True in Hp by done.
  destruct (job_executed (length (pipeline fl (e i))) (S i) t) as (j & Hle & Hx).
  { rewrite <-Hp. by apply list_lookup_middle. }
  destruct (executed_ended _ _ Hx) as (st & ? & ?). exists (S j), st. split; [lia|done].
Qed.
End Liveness.

(** * The example of [System] is such a run *)

Lemma run_fair : fair_run (W := ksim) flags0 sysconf0 "a:1" run_state run_label.
Proof.
  split.
  - apply x0_ok.
  - apply run_steps.
  - intros [|[|[|[|[|n]]]]]; try done.
    + split; [done|]. intros t [= <-]. split_and!; [done|by apply not_elem_of_nil|by eexists].
    + simpl. by destruct (Nat.even n).
  - intros i. exists (5 + 2 * i)%nat, dv_up. split; [lia|].
    assert (Nat.even (2 * i) = true) as He by (by rewrite Nat.even_mul).
    cbn [run_label run_state Nat.add]. by rewrite He.
  - intros [|[|[|[|[|n]]]]] Hk Hq; try done; [by exists 3%nat, t1|]. exfalso. revert Hq. simpl. by destruct (Nat.even n).
  - intros [|[|[|[|[|n]]]]] t; try done; [intros _; by exists 4%nat|]. simpl. by destruct (Nat.even n).
Qed.

(** * Claims *)

(** C2: Liveness: in a run in which nothing is lost, heartbeats reach the server
    again and again, the worker thread is scheduled and what it runs ends, every
    single-shot task that is created for the agent is, at some later time, DONE
    or FAILED in the database, whatever tasks were queued before it, whatever other
    agents, the API server and the scanner do to other rows meanwhile, and whatever
    the profilers and uploads of the agent meet. *)
Theorem created_task_ends {W} `{OS W} `{BPF W} fl sc addr e lab i t :
  fair_run (W := W) fl sc addr e lab → lab i = SServer (Queued (ip fl) t) → task_type t ≠ 1 →
  ∃ j, (i < j)%nat ∧ (has_status (sy_server (e j)) t kDone ∨ has_status (sy_server (e j)) t kFailed).
Proof.
  intros Hf Hlab Hty. destruct (created_ends _ _ _ _ _ Hf i t Hlab) as (j & st & Hlt & Hend & Hst).
  unfold end_status in Hend. rewrite decide_False in Hend by done. exists j. split; [done|].
  destruct Hend as [->| ->]; auto.
Qed.

Lemma created_task_ends_witness :
  ∃ j, (0 < j)%nat ∧ (has_status (sy_server (run_state j)) t1 kDone ∨ has_status (sy_server (run_state j)) t1 kFailed).
Proof.
  apply (created_task_ends flags0 sysconf0 "a:1" run_state run_label 0 t1 run_fair).
  - reflexivity.
  - discriminate.
Defined.
