(* ===== verification/Tests.v ===== *)
(** The unit tests of drop/tests on the model.

    The tests of core_test.cpp, async_profiler_test.cpp and ebpf_loader_test.cpp as
    definitions: the calls of the test in its order, and its expectations as a boolean
    (the one-line tests of the state machine are one definition, and tests that repeat
    another one are not repeated).  The programs the tests start (sh, curl, asprof) and
    the kernel's maps are those of the scripted worlds [sim] and [ksim], with the
    outcome the test is about.  All evaluate to [true]: where the project says what its
    code does, the definitions do the same.  Left out are NoZombieProcesses,
    PidFilterWorks and LoadInvalidPathFails, which ask the operating system. *)
From stdpp Require Import base gmap strings list.
From Stdlib Require Import ZArith Ascii.
From S2P Require Import Prelude CppString OrdMap OS Proto TaskQueue PGStore ServerPool Profilers.
From S2P Require Import Offcpu Symbols Collapsed EbpfLoader ProfilerFactory ContainerInfo CosClient.

Local Open Scope string_scope.

(** * TaskQueue *)

Definition makeTask (tid : string) : TaskDesc :=
  mkTaskDesc tid 0 0 default_argv "" 0 0 default_cos "".

(** [ASSERT_TRUE(q.Pop(ip, &out)); EXPECT_EQ(out.task_id(), tid)] *)
Definition pops (ip tid : string) (q : gmap string (list TaskDesc)) : bool :=
  match Pop ip q with (Some t, _) => bool_decide (task_id t = tid) | (None, _) => false end.
Definition pop_fails (ip : string) (q : gmap string (list TaskDesc)) : bool :=
  match Pop ip q with (None, _) => true | _ => false end.

Definition PushThenPopSameIP : bool := pops "10.0.0.1" "t1" (Push "10.0.0.1" (makeTask "t1") ∅).
Definition PopReturnsFIFO : bool :=
  let q := Push "10.0.0.1" (makeTask "second") (Push "10.0.0.1" (makeTask "first") ∅) in
  pops "10.0.0.1" "first" q && pops "10.0.0.1" "second" (Pop "10.0.0.1" q).2.
Definition PopEmptyReturnsFalse : bool := pop_fails "10.0.0.1" ∅.
Definition PopUnknownIPReturnsFalse : bool := pop_fails "10.0.0.2" (Push "10.0.0.1" (makeTask "t1") ∅).
Definition SizeTracksDepth : bool :=
  let q1 := Push "10.0.0.1" (makeTask "t1") ∅ in
  let q2 := Push "10.0.0.1" (makeTask "t2") q1 in
  bool_decide (Size "10.0.0.1" ∅ = 0%nat ∧ Size "10.0.0.1" q1 = 1%nat ∧ Size "10.0.0.1" q2 = 2%nat).
Definition SizeZeroForUnknownIP : bool := bool_decide (Size "unknown" ∅ = 0%nat).
Definition DifferentIPsAreIndependent : bool :=
  let q := Push "10.0.0.2" (makeTask "b") (Push "10.0.0.1" (makeTask "a") ∅) in
  let q' := (Pop "10.0.0.1" q).2 in
  bool_decide (Size "10.0.0.1" q = 1%nat ∧ Size "10.0.0.2" q = 1%nat) && pops "10.0.0.1" "a" q &&
  bool_decide (Size "10.0.0.1" q' = 0%nat ∧ Size "10.0.0.2" q' = 1%nat).

(** Two threads: the schedule says whose turn it is; the consumer's failed attempts do
    not count. *)
Fixpoint push_pop (sched : list bool) (pushed popped : nat) (q : gmap string (list TaskDesc)) : nat * nat :=
  match sched with
  | [] => (pushed, popped)
  | true :: sched' =>
      push_pop sched' (S pushed) popped (Push "10.0.0.1" (makeTask ("t" +:+ to_string (Z.of_nat pushed))) q)
  | false :: sched' =>
      match Pop "10.0.0.1" q with
      | (Some _, q') => push_pop sched' pushed (S popped) q'
      | (None, q') => push_pop sched' pushed popped q'
      end
  end.

(** For every schedule: what was pushed is popped or still there. *)
Lemma push_pop_counts sched pushed popped q :
  ∃ q', let '(n, m) := push_pop sched pushed popped q in
  (pushed - popped = Size "10.0.0.1" q → popped <= pushed → n - m = Size "10.0.0.1" q' ∧ m <= n)%nat.
Proof.
  revert pushed popped q. induction sched as [|[] sched IH]; intros pushed popped q; cbn [push_pop].
  - exists q. auto.
  - destruct (IH (S pushed) popped (Push "10.0.0.1" (makeTask ("t" +:+ to_string (Z.of_nat pushed))) q)) as [q' Hq'].
    exists q'. destruct (push_pop _ _ _ _) as [n m]. intros Hs Hle. apply Hq'; [|lia].
    rewrite Size_queue_of, queue_of_Push, length_app, decide_True, <-Size_queue_of, <-Hs by done. simpl. lia.
  - destruct (Pop "10.0.0.1" q) as [[t|] q1] eqn:EP; destruct (IH pushed (S popped) q1) as [q' Hq'];
      [|destruct (IH pushed popped q1) as [q'' Hq'']].
    + exists q'. destruct (push_pop _ _ _ _) as [n m]. intros Hs Hle. apply Pop_Some in EP.
      rewrite Size_queue_of, EP, length_cons, <-Size_queue_of in Hs. apply Hq'; lia.
    + exists q''. destruct (push_pop sched pushed popped q1) as [n m]. intros Hs Hle.
      apply Pop_None in EP as [_ ->]. by apply Hq''.
Qed.

Definition ConcurrentPushPop : bool :=
  bool_decide (push_pop (mjoin (replicate 100 [true; false; false])) 0 0 ∅ = (100%nat, 100%nat)).

(** * HeartbeatTracker *)

Definition IsOnlineAfterUpdate : bool := IsOnline "10.0.0.1" 30 7 (Update "10.0.0.1" 5 ∅).
Definition IsOfflineForUnknownIP : bool := negb (IsOnline "10.0.0.1" 30 7 ∅).
Definition IsOfflineAfterTimeout : bool := negb (IsOnline "10.0.0.1" 0 7 (Update "10.0.0.1" 5 ∅)).
Definition AllAgentsMixedStatus : bool :=
  let agents := AllAgents 30 (λ _, 7) (Update "10.0.0.2" 6 (Update "10.0.0.1" 5 ∅)) in
  bool_decide (length agents = 2%nat) && forallb snd agents.

(** * The state machine *)

Definition StateMachineTest : bool :=
  forallb (λ p, IsTransitionAllowed p.1 p.2) [(0, 1); (0, 4); (1, 2); (1, 4); (2, 3); (2, 4); (4, 0)] &&
  forallb (λ p, negb (IsTransitionAllowed p.1 p.2)) [(0, 0); (3, 1); (0, 3); (1, 3); (3, 4)].

(** * ProfilerFactory *)

Definition creates (ty : Z) : bool :=
  match CreateProfiler (W := ksim) ty with Some p => bool_decide (p_type p = ty) | None => false end.
Definition creates_none (ty : Z) : bool :=
  match CreateProfiler (W := ksim) ty with Some _ => false | None => true end.

Definition CreatePerf : bool := creates 0.
Definition CreateAsyncProfiler : bool := creates 1.
Definition CreateEbpf : bool := creates 3.
Definition UnknownTypeReturnsNull : bool := creates_none 2 && creates_none 99.
(** A new object has no files. *)
Definition CollectResultEmptyBeforeRecord : bool := bool_decide (collect_result (mkR "" []) = []).

(** [EXPECT_FALSE(p->record(desc, dir, &err))] with [part] in the message *)
Definition record_fails {W} (p : IProfiler W) (t : TaskDesc) (dir part : string) (w : W) : bool :=
  match p_record p t dir (mkR "" []) w with
  | (Ret (ok, st), _) => negb ok && negb (bool_decide (error_msg st = "")) && contains part (error_msg st)
  | _ => false
  end.

Definition task_of_pid (p : Z) : TaskDesc :=
  mkTaskDesc "" 0 0 (mkRecordArgv 0 5 p "" false "") "" 0 0 default_cos "".
Definition AsyncProfilerRejectsPidZero : bool :=
  record_fails AsyncProfilerProfiler (task_of_pid 0) "/tmp" "PID" sim0.
Definition AsyncProfilerRejectsNegativePid : bool :=
  record_fails AsyncProfilerProfiler (task_of_pid (-1)) "/tmp" "" sim0.
(** No asprof on the machine. *)
Definition RecordFailsWithoutAsprof : bool :=
  record_fails AsyncProfilerProfiler
    (mkTaskDesc "" 0 0 (mkRecordArgv 99 1 42 "" false "cpu") "" 0 0 default_cos "")
    "/tmp/drop_ap_test_noprof" "asprof" sim0.

(** * ScriptRunner *)

Definition script_task (script : string) (timeout : Z) : TaskDesc :=
  mkTaskDesc "" 0 0 default_argv "" 0 timeout default_cos script.

(** A world in which the script ends like [r] and prints [out]. *)
Definition script_world (r : run_outcome) (out : string) : sim :=
  mkSim ∅ 0 ∅ None [(r, [("/tmp/s/script_output.txt", out)])] [] [].

Definition FactoryCreatesScriptRunner : bool := creates 5.
Definition script_prints (script out : string) (lines : list string) : bool :=
  match script_record (script_task script 10) "/tmp/s" (mkR "" []) (script_world (Ran false (Exited 0)) out) with
  | (Ret (ok, st), w) =>
      ok && bool_decide (collect_result st = ["script_output.txt"]) &&
      bool_decide (getlines ch_nl (default "" (files w !! "/tmp/s/script_output.txt")) = lines)
  | _ => false
  end.
Definition ExecutesEchoHello : bool := script_prints "echo hello_world" ("hello_world" +:+ nl) ["hello_world"].
Definition CapturesMultiLineOutput : bool :=
  script_prints ("echo line1" +:+ nl +:+ "echo line2" +:+ nl +:+ "echo line3")
    ("line1" +:+ nl +:+ "line2" +:+ nl +:+ "line3" +:+ nl) ["line1"; "line2"; "line3"].
Definition RejectsEmptyScript : bool := record_fails ScriptRunner (script_task "" 0) "/tmp/s" "empty" sim0.
Definition HandlesFailingScript : bool :=
  record_fails ScriptRunner (script_task "exit 42" 10) "/tmp/s" "42" (script_world (Ran false (Exited 42)) "").
Definition TimeoutKillsScript : bool :=
  record_fails ScriptRunner (script_task "sleep 300" 2) "/tmp/s" "timed out" (script_world (Ran true (Signaled 15)) "").

(** * CosClient *)

Definition MakeConfig : CosConfig :=
  mkCosConfig "ap-guangzhou" "test-bucket-1234567890" "test_ak" "test_sk" "test_token" 9999999999.
Definition test_client : CosClient := new_CosClient MakeConfig "http://localhost:8191".

Definition BuildUrlIntranetFlag : bool :=
  let url := BuildUrl (SetFlag "myflag" test_client) INTRANET_FLAG "dir/file.dat" in
  contains "cos-internal" url && contains "flag=myflag" url && contains "dir/file.dat" url.
Definition BuildUrlPublic : bool :=
  let url := BuildUrl test_client PUBLIC "dir/file.dat" in
  contains "cos.ap-guangzhou" url && contains "test-bucket-1234567890" url.
Definition BuildUrlHttpProxy : bool :=
  let url := BuildUrl test_client HTTP_PROXY "dir/file.dat" in
  contains "localhost:8191" url && contains "/api/v1/upload/" url.
Definition BuildUrlCustomIntranetEndpoint : bool :=
  contains "minio:9000" (BuildUrl (SetIntranetEndpoint "http://minio:9000" test_client) CONFIG_INTRANET "dir/file.dat").

Definition upload_fails (c : CosClient) (path part : string) (w : sim) : bool :=
  match UploadFile c path "test_key" w with
  | (Ret r, _) => negb (cur_success r) && contains part (cur_error_msg r)
  | _ => false
  end.
Definition UploadNonexistentFileFails : bool := upload_fails test_client "/tmp/nonexistent_file_12345" "not found" sim0.
(** curl cannot connect, five times. *)
Definition ChainFallbackReachesHttpProxy : bool :=
  upload_fails (new_CosClient MakeConfig "http://localhost:1") "/tmp/c/test.dat" "all upload modes failed"
    (mkSim {["/tmp/c/test.dat" := "test data"]} 0 ∅ None (replicate 5 (Ran false (Exited 7), [])) [] []).

(** * ServerPool *)

Definition pool_after (n : nat) (l : string) : option ServerPool :=
  match (p ← Init l empty_pool; failovers n p) with Ret p => Some p | _ => None end.
Definition idx_after (n : nat) (l : string) : option nat := CurrentIdx <$> pool_after n l.

Definition SingleAddressInit : bool :=
  bool_decide ((addrs <$> pool_after 0 "192.168.1.1:50051") = Some ["192.168.1.1:50051"] ∧
    idx_after 0 "192.168.1.1:50051" = Some 0%nat).
Definition MultipleAddressInit : bool :=
  bool_decide ((addrs <$> pool_after 0 "10.0.0.1:50051, 10.0.0.2:50051, 10.0.0.3:50051") =
    Some ["10.0.0.1:50051"; "10.0.0.2:50051"; "10.0.0.3:50051"]).
Definition FailoverRotates : bool :=
  bool_decide (map (λ n, idx_after n "addr1:50051, addr2:50051, addr3:50051") [0; 1; 2; 3]%nat =
    [Some 0; Some 1; Some 2; Some 0]%nat).
Definition FailoverSingleServerNoop : bool :=
  bool_decide (map (λ n, idx_after n "only-one:50051") [0; 1]%nat = [Some 0; Some 0]%nat).
Definition GetChannelReturnsNonNull : bool :=
  match pool_after 0 "localhost:50051" with Some p => bool_decide (is_Some (GetChannel p)) | None => false end.
Definition EmptyStringUsesDefault : bool :=
  bool_decide ((addrs <$> pool_after 0 "") = Some ["127.0.0.1:50051"]).

(** * ContainerInfo *)

Definition detects (path : string) (ty : Z) (runtime : string) : bool :=
  bool_decide (DetectContainerType path = (runtime, ty)).
Definition DetectDockerCgroup : bool := detects "/docker/abc123def456789" 1 "docker".
Definition DetectK8sCgroup : bool := detects "/kubepods/besteffort/poduid123/ctr456" 3 "k8s".
Definition DetectContainerdCgroup : bool := detects "/containerd/abc123" 2 "containerd".
Definition DetectSystemdNspawn : bool := detects "/machine.slice/machine-mycontainer" 4 "systemd-nspawn".
Definition UnknownCgroupReturnsZero : bool := detects "/user.slice/user-1000" 0 "unknown".

(** Outside of a container. *)
Definition DetectContainerInfoRuns : bool :=
  match DetectContainerInfo sim0 with (Ret i, _) => bool_decide (0 <= container_type i) | _ => false end.

(** * EbpfLoader *)

(** Two switches of one task, with a kernel stack in __schedule. *)
Definition key1 : stack_key := mkSK 42 42 (-1) 7.
Definition sched_maps (w : ksim) : ksim :=
  mkKsim (k_base w) {[key1 := 2]} {[7 := [18446744071578845200; 0]]} (k_cache w).
Definition bpf_world : ksim :=
  mkKsim (mkSim {["/proc/kallsyms" := "ffffffff81000000 T __schedule" +:+ nl]} 0 ∅ None [] [] []) ∅ ∅ cache0.

(** load and attach. *)
Definition ready (pid : Z) : prog ksim Impl :=
  l ← load "/root/Drop/drop/common/bpf/offcpu.bpf.o" "" impl0;
  a ← attach pid "" l.2;
  mret a.2.

Definition LoadAndUnload : bool :=
  match (l ← load "/root/Drop/drop/common/bpf/offcpu.bpf.o" "" impl0;
         i ← unload l.2; i' ← unload i; mret (l.1.1, i')) bpf_world with
  | (Ret (ok, i), _) => ok && negb (loaded i) && bool_decide (obj i = None)
  | _ => false
  end.

(** The last word of a line is a positive number. *)
Definition folded_line (l : string) : bool :=
  match rfind_char " "%char l with
  | Some i => match stoi (str_drop (S i) l) with Ret n => bool_decide (0 < n) | _ => false end
  | None => false
  end.
Definition lines_of (path : string) (w : ksim) : list string :=
  getlines ch_nl (default "" (files (k_base w) !! path)).

Definition LifecycleProducesOutput : bool :=
  match (i ← ready 0; modify sched_maps;; r ← poll 2 "/tmp/ebpf_test_lifecycle.txt" "" i; detach i ≫= unload;; mret r)
          bpf_world with
  | (Ret (ok, _), w) => ok && existsb folded_line (lines_of "/tmp/ebpf_test_lifecycle.txt" w)
  | _ => false
  end.
Definition MapCleanupAllowsRepeatedPolls : bool :=
  match (i ← ready 0; modify sched_maps;; poll 2 "/tmp/1" "" i;; modify sched_maps;; poll 2 "/tmp/2" "" i;;
         detach i ≫= unload) bpf_world with
  | (Ret _, w) => negb (bool_decide (lines_of "/tmp/1" w = [])) && negb (bool_decide (lines_of "/tmp/2" w = []))
  | _ => false
  end.
Definition KernelSymbolsResolve : bool :=
  match (i ← ready 0; modify sched_maps;; poll 2 "/tmp/ebpf_test_ksym.txt" "" i) bpf_world with
  | (Ret _, w) => existsb (contains "__schedule") (lines_of "/tmp/ebpf_test_ksym.txt" w)
  | _ => false
  end.

(** * All of them *)

Definition core_tests : list bool :=
  [PushThenPopSameIP; PopReturnsFIFO; PopEmptyReturnsFalse; PopUnknownIPReturnsFalse; SizeTracksDepth;
   SizeZeroForUnknownIP; DifferentIPsAreIndependent; ConcurrentPushPop;
   IsOnlineAfterUpdate; IsOfflineForUnknownIP; IsOfflineAfterTimeout; AllAgentsMixedStatus; StateMachineTest;
   CreatePerf; CreateAsyncProfiler; CreateEbpf; UnknownTypeReturnsNull; CollectResultEmptyBeforeRecord;
   AsyncProfilerRejectsPidZero; AsyncProfilerRejectsNegativePid; RecordFailsWithoutAsprof;
   FactoryCreatesScriptRunner; ExecutesEchoHello; RejectsEmptyScript; HandlesFailingScript; TimeoutKillsScript;
   CapturesMultiLineOutput;
   BuildUrlIntranetFlag; BuildUrlPublic; BuildUrlHttpProxy; BuildUrlCustomIntranetEndpoint;
   UploadNonexistentFileFails; ChainFallbackReachesHttpProxy;
   SingleAddressInit; MultipleAddressInit; FailoverRotates; FailoverSingleServerNoop; GetChannelReturnsNonNull;
   EmptyStringUsesDefault;
   DetectDockerCgroup; DetectK8sCgroup; DetectContainerdCgroup; DetectSystemdNspawn; UnknownCgroupReturnsZero;
   DetectContainerInfoRuns;
   LoadAndUnload; LifecycleProducesOutput; MapCleanupAllowsRepeatedPolls; KernelSymbolsResolve].

Example core_tests_pass : core_tests = replicate 49 true.
Proof. vm_compute. reflexivity. Qed.
