(* ===== verification/CLayout.v ===== *)
(** Layout of C records (x86-64 System V): the size, the alignment and the bit
    position of every member of a struct or union, bit-fields included.  Vmlinux
    instantiates it with the kernel types of drop/common/bpf/vmlinux.h. *)
From stdpp Require Import base strings list.
From Stdlib Require Import ZArith Lia.
From S2P Require Import Prelude.

(** * Types *)

(** A scalar has a size and an alignment in bytes.  A member has a name (empty for
    an anonymous one), a type, and a width when it is a bit-field.  A record may have
    the attribute [packed]; vmlinux.h has no [aligned] one. *)
Inductive ctype :=
  | CPrim (size align : Z)
  | CArr (t : ctype) (n : Z)
  | CRec (is_union packed : bool) (fs : list (string * ctype * option Z)).

Definition c_char : ctype := CPrim 1 1.
Definition c_short : ctype := CPrim 2 2.
Definition c_int : ctype := CPrim 4 4.
Definition c_long : ctype := CPrim 8 8.
Definition c_int128 : ctype := CPrim 16 16.
Definition c_ptr : ctype := CPrim 8 8.

Definition struct_ (fs : list (string * ctype * option Z)) : ctype := CRec false false fs.
Definition union_ (fs : list (string * ctype * option Z)) : ctype := CRec true false fs.
(** A plain member, a bit-field. *)
Definition fld (n : string) (t : ctype) : string * ctype * option Z := (n, t, None).
Definition bitfld (n : string) (t : ctype) (w : Z) : string * ctype * option Z := (n, t, Some w).

(** * The algorithm *)

Definition round_up (x a : Z) : Z := (x + a - 1) / a * a.

(** A member once its type has been laid out. *)
Record member := mkMember {
  mb_name : string;
  mb_size : Z;
  mb_align : Z;
  mb_bits : option Z;
}.

(** Where a member starts when [cur] bits are used. *)
Definition member_pos (packed : bool) (cur : Z) (x : member) : Z :=
  match mb_bits x with
  | None => round_up cur (8 * mb_align x)
  | Some w =>
      let unit := 8 * mb_size x in
      if bool_decide (w = 0) then round_up cur unit
      else if packed then cur
      else if bool_decide (unit < cur mod unit + w) then round_up cur unit else cur
  end.
Definition member_width (x : member) : Z :=
  match mb_bits x with Some w => w | None => 8 * mb_size x end.

Fixpoint place (packed : bool) (cur : Z) (xs : list member) : list (member * Z) * Z :=
  match xs with
  | [] => ([], cur)
  | x :: xs' =>
      let p := member_pos packed cur x in
      let '(ps, e) := place packed (p + member_width x) xs' in ((x, p) :: ps, e)
  end.

(** What a member asks of the alignment of its record: an unnamed bit-field
    nothing. *)
Definition member_demand (packed : bool) (x : member) : Z :=
  match mb_bits x with
  | Some _ => if packed || bool_decide (mb_name x = "") then 1 else mb_align x
  | None => mb_align x
  end.

Definition rec_align (packed : bool) (xs : list member) : Z :=
  foldr (λ x acc, Z.max (member_demand packed x) acc) 1 xs.

Definition rec_bits (is_union packed : bool) (xs : list member) : Z :=
  if is_union then foldr (λ x acc, Z.max (member_width x) acc) 0 xs else (place packed 0 xs).2.

(** Size and alignment in bytes. *)
Fixpoint layout (t : ctype) : Z * Z :=
  match t with
  | CPrim s a => (s, a)
  | CArr t' n => let '(s, a) := layout t' in (s * n, a)
  | CRec u pk fs =>
      let xs := map (λ f, let '(n, t', w) := f in
                          let '(s, a) := layout t' in
                          mkMember n s (if (pk : bool) then 1 else a) w) fs in
      let a := rec_align pk xs in
      (round_up (round_up (rec_bits u pk xs) 8 / 8) a, a)
  end.

Definition sizeof (t : ctype) : Z := (layout t).1.
Definition alignof (t : ctype) : Z := (layout t).2.

Definition members (pk : bool) (fs : list (string * ctype * option Z)) : list member :=
  map (λ f, let '(n, t', w) := f in
            let '(s, a) := layout t' in
            mkMember n s (if (pk : bool) then 1 else a) w) fs.

(** The members of a record with their bit positions. *)
Definition bit_positions (t : ctype) : list (member * Z) :=
  match t with
  | CRec false pk fs => (place pk 0 (members pk fs)).1
  | CRec true pk fs => map (λ x, (x, 0)) (members pk fs)
  | _ => []
  end.

(** [offsetof(t, name)] *)
Definition field_offset (t : ctype) (name : string) : option Z :=
  (λ p, p.2 / 8) <$> head (filter (λ p, mb_name p.1 = name) (bit_positions t)).

(** * Well-formed types, decidably *)

Definition field_wf (s : Z) (w : option Z) : bool :=
  match w with None => true | Some k => bool_decide (0 <= k <= 8 * s) && bool_decide (0 < s) end.

Fixpoint ctype_wf (t : ctype) : bool :=
  match t with
  | CPrim s a => bool_decide (0 <= s) && bool_decide (0 < a) && bool_decide (s mod a = 0)
  | CArr t' n => ctype_wf t' && bool_decide (0 <= n)
  | CRec _ _ fs =>
      forallb (λ f, let '(_, t', w) := f in ctype_wf t' && field_wf (layout t').1 w) fs
  end.

(** * Properties *)

Lemma round_up_spec x a : 0 < a → x <= round_up x a < x + a ∧ round_up x a mod a = 0.
Proof.
  intros Ha. unfold round_up. split; [|apply Z.mod_mul; lia].
  pose proof (Z.div_mod (x + a - 1) a). pose proof (Z.mod_pos_bound (x + a - 1) a Ha). nia.
Qed.

Definition member_ok (x : member) : Prop :=
  0 <= mb_size x ∧ 0 < mb_align x ∧
  match mb_bits x with Some w => 0 <= w <= 8 * mb_size x ∧ 0 < mb_size x | None => True end.

Lemma member_pos_spec packed cur x :
  0 <= cur → member_ok x →
  cur <= member_pos packed cur x ∧ 0 <= member_width x ∧
  (mb_bits x = None → member_pos packed cur x mod (8 * mb_align x) = 0).
Proof.
  intros Hc (Hs & Ha & Hb). unfold member_pos, member_width.
  destruct (mb_bits x) as [w|].
  - destruct Hb as [Hw Hs']. pose proof (round_up_spec cur (8 * mb_size x)) as [Hr _]; [lia|].
    split; [|split; [lia|done]]. destruct packed; repeat case_bool_decide; lia.
  - pose proof (round_up_spec cur (8 * mb_align x)) as [? ?]; [lia|]. split; [lia|]. split; [lia|done].
Qed.

(** Members in order: each starts at or after the end of the one before it. *)
Fixpoint ordered (from : Z) (ps : list (member * Z)) (upto : Z) : Prop :=
  match ps with
  | [] => from <= upto
  | (x, p) :: ps' => from <= p ∧ 0 <= member_width x ∧ ordered (p + member_width x) ps' upto
  end.

Lemma ordered_weaken from ps u u' : ordered from ps u → u <= u' → ordered from ps u'.
Proof.
  revert from. induction ps as [|[x p] ps IH]; simpl; intros from; [lia|]. naive_solver.
Qed.

Lemma place_ordered packed cur xs :
  0 <= cur → Forall member_ok xs →
  ordered cur (place packed cur xs).1 (place packed cur xs).2 ∧ cur <= (place packed cur xs).2 ∧
  Forall (λ p, mb_bits p.1 = None → p.2 mod (8 * mb_align p.1) = 0) (place packed cur xs).1.
Proof.
  intros Hc Hxs. revert cur Hc. induction Hxs as [|x xs Hx _ IH]; intros cur Hc; simpl.
  { split_and!; [lia|lia|constructor]. }
  destruct (member_pos_spec packed cur x Hc Hx) as (Hp & Hw & Hal).
  destruct (IH (member_pos packed cur x + member_width x)) as (Ho & Hle & Hall); [lia|].
  destruct (place packed _ xs) as [ps e]. simpl in *. split_and!; try done; [lia|]. by constructor.
Qed.

Lemma rec_align_pos packed xs : 0 < rec_align packed xs.
Proof. unfold rec_align. induction xs; simpl; lia. Qed.

Lemma rec_bits_pos u packed xs : Forall member_ok xs → 0 <= rec_bits u packed xs.
Proof.
  intros Hxs. unfold rec_bits. destruct u.
  - induction Hxs as [|x xs _ _ IH]; simpl; lia.
  - destruct (place_ordered packed 0 xs) as (_ & ? & _); [lia|done|lia].
Qed.

Definition layout_ok (t : ctype) : Prop :=
  0 <= sizeof t ∧ 0 < alignof t ∧ sizeof t mod alignof t = 0.

Lemma layout_rec u pk fs :
  Forall member_ok (members pk fs) → layout_ok (CRec u pk fs).
Proof.
  intros Hfs. unfold layout_ok, sizeof, alignof. cbn [layout fst snd].
  fold (members pk fs). pose proof (rec_align_pos pk (members pk fs)) as Ha.
  pose proof (rec_bits_pos u pk _ Hfs).
  destruct (round_up_spec (rec_bits u pk (members pk fs)) 8) as [? ?]; [lia|].
  destruct (round_up_spec (round_up (rec_bits u pk (members pk fs)) 8 / 8)
    (rec_align pk (members pk fs))) as [? ?]; [done|].
  assert (0 <= round_up (rec_bits u pk (members pk fs)) 8 / 8) by (apply Z.div_pos; lia).
  split_and!; [lia|done|done].
Qed.

Lemma ctype_wf_ok t : ctype_wf t = true → layout_ok t.
Proof.
  revert t. fix IH 1. intros [s a|t n|u pk fs] Hwf.
  - simpl in Hwf. unfold layout_ok, sizeof, alignof. simpl. repeat apply andb_prop in Hwf as [Hwf ?].
    repeat match goal with E : bool_decide _ = true |- _ => apply bool_decide_eq_true in E end. done.
  - cbn [ctype_wf] in Hwf. apply andb_prop in Hwf as [Ht Hn%bool_decide_eq_true].
    destruct (IH t Ht) as (Hs & Ha & Hm). unfold layout_ok, sizeof, alignof in *. simpl.
    destruct (layout t) as [s a]. simpl in *. split_and!; [lia|done|].
    rewrite Z.mul_mod, Hm, Z.mul_0_l by lia. apply Z.mod_0_l. lia.
  - cbn [ctype_wf] in Hwf. rename Hwf into Hfs. apply layout_rec. unfold members.
    induction fs as [|[[nm t] w] fs IHfs]; [constructor|]. cbn [forallb map] in *.
    apply andb_prop in Hfs as [Hf Hfs]. constructor; [|by apply IHfs].
    apply andb_prop in Hf as [Ht Hw].
    destruct (IH t Ht) as (Hs & Ha & _). unfold sizeof, alignof in *.
    destruct (layout t) as [s a]. simpl in *. unfold member_ok. simpl. split_and!; [done|destruct pk; lia|].
    destruct w as [w|]; [|done]. simpl in Hw.
    apply andb_prop in Hw as [Hw1%bool_decide_eq_true Hw2%bool_decide_eq_true]. done.
Qed.

Lemma ctype_wf_members u pk fs : ctype_wf (CRec u pk fs) = true → Forall member_ok (members pk fs).
Proof.
  cbn [ctype_wf]. intros Hfs. unfold members.
  induction fs as [|[[nm t] w] fs IHfs]; [constructor|]. cbn [forallb map] in *.
  apply andb_prop in Hfs as [Hf Hfs]. constructor; [|by apply IHfs].
  apply andb_prop in Hf as [Ht Hw].
  destruct (ctype_wf_ok t Ht) as (Hs & Ha & _). unfold sizeof, alignof in *.
  destruct (layout t) as [s a]. simpl in *. unfold member_ok. simpl. split_and!; [done|destruct pk; lia|].
  destruct w as [w|]; [|done]. simpl in Hw.
  apply andb_prop in Hw as [Hw1%bool_decide_eq_true Hw2%bool_decide_eq_true]. done.
Qed.

(** What a layout promises: the members of a struct follow one another without
    overlap inside the struct, plain members at multiples of their alignment; the
    members of a union all start at 0 and fit; sizes are multiples of the
    alignment. *)
Definition layout_sound (t : ctype) : Prop :=
  layout_ok t ∧
  match t with
  | CRec false pk _ =>
      ordered 0 (bit_positions t) (8 * sizeof t) ∧
      Forall (λ p, mb_bits p.1 = None → p.2 mod (8 * mb_align p.1) = 0) (bit_positions t)
  | CRec true pk _ => Forall (λ p, p.2 = 0 ∧ member_width p.1 <= 8 * sizeof t) (bit_positions t)
  | _ => True
  end.

Lemma rec_size_bits u pk fs :
  Forall member_ok (members pk fs) → rec_bits u pk (members pk fs) <= 8 * sizeof (CRec u pk fs).
Proof.
  intros Hfs. unfold sizeof. cbn [layout fst]. fold (members pk fs).
  pose proof (rec_align_pos pk (members pk fs)) as Ha.
  destruct (round_up_spec (rec_bits u pk (members pk fs)) 8) as [Hr Hm]; [lia|].
  destruct (round_up_spec (round_up (rec_bits u pk (members pk fs)) 8 / 8)
    (rec_align pk (members pk fs))) as [Hr2 _]; [done|].
  apply Z.div_exact in Hm; lia.
Qed.

Lemma ctype_wf_sound t : ctype_wf t = true → layout_sound t.
Proof.
  intros Hwf. split; [by apply ctype_wf_ok|]. destruct t as [| |u pk fs]; [done..|].
  pose proof (ctype_wf_members u pk fs Hwf) as Hfs.
  pose proof (rec_size_bits u pk fs Hfs) as Hsz. unfold rec_bits in Hsz. destruct u; cbn [bit_positions].
  - apply Forall_map. induction (members pk fs) as [|x xs IH]; [constructor|]. simpl in Hsz.
    constructor; [simpl; split; [done|lia]|]. apply Forall_cons in Hfs as [_ Hfs]. apply IH; [done|lia].
  - destruct (place_ordered pk 0 (members pk fs)) as (Ho & _ & Hal); [lia|done|].
    split; [|done]. by eapply ordered_weaken.
Qed.

(** * Enumerations *)

(** Enumerators with their explicit values; the others count on from the one
    before. *)
Fixpoint enum_values (next : Z) (es : list (string * option Z)) : list (string * Z) :=
  match es with
  | [] => []
  | (n, v) :: es' => let x := default next v in (n, x) :: enum_values (x + 1) es'
  end.

Definition enum_value (n : string) (es : list (string * option Z)) : option Z :=
  snd <$> head (filter (λ p, p.1 = n) (enum_values 0 es)).

(** * Memory *)

(** Bytes by address; a scalar is stored little-endian. *)
Fixpoint load (mem : Z → Z) (a : Z) (n : nat) : Z :=
  match n with
  | O => 0
  | S n' => mem a + 256 * load mem (a + 1) n'
  end.
Fixpoint store (mem : Z → Z) (a : Z) (n : nat) (v : Z) : Z → Z :=
  match n with
  | O => mem
  | S n' => store (λ a', if bool_decide (a' = a) then v mod 256 else mem a') (a + 1) n' (v / 256)
  end.

Definition member_addr (p : member * Z) : Z := p.2 / 8.
Definition member_bytes (p : member * Z) : nat := Z.to_nat (mb_size p.1).

(** Stores to the members of a struct, in order. *)
Fixpoint store_members (mem : Z → Z) (ps : list (member * Z)) (vs : list Z) : Z → Z :=
  match ps, vs with
  | p :: ps', v :: vs' => store_members (store mem (member_addr p) (member_bytes p) v) ps' vs'
  | _, _ => mem
  end.

(** A struct without bit-fields. *)
Definition plain_struct (t : ctype) : bool :=
  match t with
  | CRec false _ _ => forallb (λ p, bool_decide (mb_bits p.1 = None)) (bit_positions t)
  | _ => false
  end.

Lemma store_out mem a n v x : x < a ∨ a + Z.of_nat n <= x → store mem a n v x = mem x.
Proof.
  revert mem a v. induction n as [|n IH]; intros mem a v Hx; [done|]. cbn [store].
  rewrite IH by lia. case_bool_decide; [lia|done].
Qed.

Lemma load_ext mem mem' a n :
  (∀ x, a <= x < a + Z.of_nat n → mem x = mem' x) → load mem a n = load mem' a n.
Proof.
  revert a. induction n as [|n IH]; intros a Hx; [done|]. cbn [load].
  rewrite (Hx a), (IH (a + 1)); [done| |lia]. intros x ?. apply Hx. lia.
Qed.

Lemma load_store mem a n v : load (store mem a n v) a n = v mod 256 ^ Z.of_nat n.
Proof.
  revert mem a v. induction n as [|n IH]; intros mem a v; [by rewrite Z.mod_1_r|]. cbn [load store].
  rewrite IH, store_out, bool_decide_true by lia.
  rewrite Nat2Z.inj_succ, Z.pow_succ_r, Z.rem_mul_r by lia. done.
Qed.

Lemma load_store_members mem ps vs a n :
  Forall (λ p, a + Z.of_nat n <= member_addr p) ps → load (store_members mem ps vs) a n = load mem a n.
Proof.
  intros Hps. revert mem vs. induction Hps as [|p ps Hp _ IH]; intros mem [|v vs]; simpl; try done.
  rewrite IH. apply load_ext. intros x ?. apply store_out. lia.
Qed.

(** Plain members in order: addresses past the end of an earlier member. *)
Lemma ordered_addr from ps upto :
  ordered from ps upto → Forall (λ p, from / 8 <= member_addr p) ps.
Proof.
  revert from. induction ps as [|[x p] ps IH]; intros from; [constructor|].
  intros (Hp & Hw & Ho). constructor; [apply Z.div_le_mono; simpl; lia|].
  eapply Forall_impl; [by apply IH|]. intros q Hq. simpl in Hq. etransitivity; [|done].
  apply Z.div_le_mono; lia.
Qed.

Definition plain_aligned (p : member * Z) : Prop := mb_bits p.1 = None ∧ 0 <= mb_size p.1 ∧ p.2 mod 8 = 0.

Lemma store_members_lookup mem from ps upto vs i p v :
  ordered from ps upto → Forall plain_aligned ps →
  ps !! i = Some p → vs !! i = Some v →
  load (store_members mem ps vs) (member_addr p) (member_bytes p) = v mod 256 ^ mb_size p.1.
Proof.
  intros Ho Hal. revert mem from vs i Ho. induction Hal as [|[x q] ps (Hb & Hs & Hq) Hal IH]; [done|].
  intros mem from [|v' vs] i (_ & _ & Ho) Hi Hv; [done|]. simpl in Hb, Hs, Hq.
  destruct i as [|i]; [|by eapply IH]. simplify_eq/=.
  rewrite load_store_members.
  { rewrite load_store. unfold member_bytes. simpl. by rewrite Z2Nat.id. }
  eapply Forall_impl; [by eapply ordered_addr|]. intros r Hr. simpl in Hr. etransitivity; [|done].
  unfold member_addr, member_bytes, member_width. simpl. rewrite Hb, Z2Nat.id by done.
  apply Z.div_exact in Hq; [|lia]. rewrite Hq at 2.
  replace (8 * (q / 8) + 8 * mb_size x) with ((q / 8 + mb_size x) * 8) by lia. by rewrite Z.div_mul.
Qed.

Lemma place_members packed cur xs : (place packed cur xs).1.*1 = xs.
Proof.
  revert cur. induction xs as [|x xs IH]; intros cur; simpl; [done|].
  specialize (IH (member_pos packed cur x + member_width x)).
  destruct (place packed _ xs) as [ps e]. simpl in *. by f_equal.
Qed.

Lemma plain_struct_aligned t :
  ctype_wf t = true → plain_struct t = true → Forall plain_aligned (bit_positions t).
Proof.
  intros Hwf Hpl. destruct t as [| |[] pk fs]; try done.
  destruct (ctype_wf_sound _ Hwf) as [_ [_ Hal]].
  pose proof (ctype_wf_members _ _ _ Hwf) as Hok. rewrite <- (place_members pk 0) in Hok.
  rewrite Forall_fmap in Hok. unfold plain_struct in Hpl. rewrite forallb_forall in Hpl.
  rewrite Forall_forall in Hok, Hal |- *. intros p Hp.
  destruct (Hok p Hp) as (Hs & Ha & _). specialize (Hal p Hp).
  apply list_elem_of_In in Hp. specialize (Hpl p Hp). apply bool_decide_eq_true in Hpl.
  split_and!; [done..|]. specialize (Hal Hpl). apply Z.mod_divide in Hal; [|lia].
  apply Z.mod_divide; [lia|]. etransitivity; [|exact Hal]. apply Z.divide_factor_l.
Qed.

(** Every member of a well-formed struct without bit-fields holds its own value
    after all of them were stored, at the width of the member. *)
Lemma struct_roundtrip t mem vs i p v :
  ctype_wf t = true → plain_struct t = true →
  bit_positions t !! i = Some p → vs !! i = Some v →
  load (store_members mem (bit_positions t) vs) (member_addr p) (member_bytes p)
  = v mod 256 ^ mb_size p.1.
Proof.
  intros Hwf Hpl. destruct t as [| |[] pk fs]; try done.
  destruct (ctype_wf_sound _ Hwf) as [_ [Ho Hal]].
  eapply store_members_lookup; [done|]. by apply plain_struct_aligned.
Qed.
