(* ===== verification/Vmlinux.v ===== *)
(** The kernel types drop/common/bpf/vmlinux.h declares for the probe: the
    scheduler tracepoints, the types a sched_switch handler can reach by value from
    its task, run queue and memory descriptor, the perf and BPF objects, and the
    enumerations of the BPF interface.  One definition per declaration, members in
    the order of the header; a pointer or a function type is [c_ptr].  The offsets
    are those of the header: its attribute [preserve_access_index] (vmlinux.h:5) has
    libbpf replace them by those of the running kernel when it loads the probe, which
    MapBytes accounts for. *)
From stdpp Require Import base strings list.
From Stdlib Require Import ZArith.
From S2P Require Import Prelude CLayout.

Local Open Scope string_scope.
Local Open Scope Z_scope.

Definition s_trace_entry : ctype := struct_ [
  fld "type" c_short;
  fld "flags" c_char;
  fld "preempt_count" c_char;
  fld "pid" c_int].
Definition t___kernel_pid_t : ctype := c_int.
Definition t_pid_t : ctype := t___kernel_pid_t.
Definition s_trace_event_raw_sched_kthread_stop : ctype := struct_ [
  fld "ent" s_trace_entry;
  fld "comm" (CArr c_char 16);
  fld "pid" t_pid_t;
  fld "__data" (CArr c_char 0)].
Definition s_trace_event_raw_sched_kthread_stop_ret : ctype := struct_ [
  fld "ent" s_trace_entry;
  fld "ret" c_int;
  fld "__data" (CArr c_char 0)].
Definition s_trace_event_raw_sched_kthread_work_queue_work : ctype := struct_ [
  fld "ent" s_trace_entry;
  fld "work" c_ptr;
  fld "function" c_ptr;
  fld "worker" c_ptr;
  fld "__data" (CArr c_char 0)].
Definition s_trace_event_raw_sched_kthread_work_execute_start : ctype := struct_ [
  fld "ent" s_trace_entry;
  fld "work" c_ptr;
  fld "function" c_ptr;
  fld "__data" (CArr c_char 0)].
Definition s_trace_event_raw_sched_kthread_work_execute_end : ctype := struct_ [
  fld "ent" s_trace_entry;
  fld "work" c_ptr;
  fld "function" c_ptr;
  fld "__data" (CArr c_char 0)].
Definition s_trace_event_raw_sched_wakeup_template : ctype := struct_ [
  fld "ent" s_trace_entry;
  fld "comm" (CArr c_char 16);
  fld "pid" t_pid_t;
  fld "prio" c_int;
  fld "target_cpu" c_int;
  fld "__data" (CArr c_char 0)].
Definition s_trace_event_raw_sched_switch : ctype := struct_ [
  fld "ent" s_trace_entry;
  fld "prev_comm" (CArr c_char 16);
  fld "prev_pid" t_pid_t;
  fld "prev_prio" c_int;
  fld "prev_state" c_long;
  fld "next_comm" (CArr c_char 16);
  fld "next_pid" t_pid_t;
  fld "next_prio" c_int;
  fld "__data" (CArr c_char 0)].
Definition s_trace_event_raw_sched_migrate_task : ctype := struct_ [
  fld "ent" s_trace_entry;
  fld "comm" (CArr c_char 16);
  fld "pid" t_pid_t;
  fld "prio" c_int;
  fld "orig_cpu" c_int;
  fld "dest_cpu" c_int;
  fld "__data" (CArr c_char 0)].
Definition s_trace_event_raw_sched_process_template : ctype := struct_ [
  fld "ent" s_trace_entry;
  fld "comm" (CArr c_char 16);
  fld "pid" t_pid_t;
  fld "prio" c_int;
  fld "__data" (CArr c_char 0)].
Definition s_trace_event_raw_sched_process_wait : ctype := struct_ [
  fld "ent" s_trace_entry;
  fld "comm" (CArr c_char 16);
  fld "pid" t_pid_t;
  fld "prio" c_int;
  fld "__data" (CArr c_char 0)].
Definition s_trace_event_raw_sched_process_fork : ctype := struct_ [
  fld "ent" s_trace_entry;
  fld "parent_comm" (CArr c_char 16);
  fld "parent_pid" t_pid_t;
  fld "child_comm" (CArr c_char 16);
  fld "child_pid" t_pid_t;
  fld "__data" (CArr c_char 0)].
Definition t___u32 : ctype := c_int.
Definition t_u32 : ctype := t___u32.
Definition s_trace_event_raw_sched_process_exec : ctype := struct_ [
  fld "ent" s_trace_entry;
  fld "__data_loc_filename" t_u32;
  fld "pid" t_pid_t;
  fld "old_pid" t_pid_t;
  fld "__data" (CArr c_char 0)].
Definition t___u64 : ctype := c_long.
Definition t_u64 : ctype := t___u64.
Definition s_trace_event_raw_sched_stat_template : ctype := struct_ [
  fld "ent" s_trace_entry;
  fld "comm" (CArr c_char 16);
  fld "pid" t_pid_t;
  fld "delay" t_u64;
  fld "__data" (CArr c_char 0)].
Definition s_trace_event_raw_sched_stat_runtime : ctype := struct_ [
  fld "ent" s_trace_entry;
  fld "comm" (CArr c_char 16);
  fld "pid" t_pid_t;
  fld "runtime" t_u64;
  fld "__data" (CArr c_char 0)].
Definition s_trace_event_raw_sched_pi_setprio : ctype := struct_ [
  fld "ent" s_trace_entry;
  fld "comm" (CArr c_char 16);
  fld "pid" t_pid_t;
  fld "oldprio" c_int;
  fld "newprio" c_int;
  fld "__data" (CArr c_char 0)].
Definition s_trace_event_raw_sched_process_hang : ctype := struct_ [
  fld "ent" s_trace_entry;
  fld "comm" (CArr c_char 16);
  fld "pid" t_pid_t;
  fld "__data" (CArr c_char 0)].
Definition s_trace_event_raw_sched_move_numa : ctype := struct_ [
  fld "ent" s_trace_entry;
  fld "pid" t_pid_t;
  fld "tgid" t_pid_t;
  fld "ngid" t_pid_t;
  fld "src_cpu" c_int;
  fld "src_nid" c_int;
  fld "dst_cpu" c_int;
  fld "dst_nid" c_int;
  fld "__data" (CArr c_char 0)].
Definition s_trace_event_raw_sched_numa_pair_template : ctype := struct_ [
  fld "ent" s_trace_entry;
  fld "src_pid" t_pid_t;
  fld "src_tgid" t_pid_t;
  fld "src_ngid" t_pid_t;
  fld "src_cpu" c_int;
  fld "src_nid" c_int;
  fld "dst_pid" t_pid_t;
  fld "dst_tgid" t_pid_t;
  fld "dst_ngid" t_pid_t;
  fld "dst_cpu" c_int;
  fld "dst_nid" c_int;
  fld "__data" (CArr c_char 0)].
Definition s_trace_event_raw_sched_skip_vma_numa : ctype := struct_ [
  fld "ent" s_trace_entry;
  fld "numa_scan_offset" c_long;
  fld "vm_start" c_long;
  fld "vm_end" c_long;
  fld "reason" c_int;
  fld "__data" (CArr c_char 0)].
Definition s_trace_event_raw_sched_wake_idle_without_ipi : ctype := struct_ [
  fld "ent" s_trace_entry;
  fld "cpu" c_int;
  fld "__data" (CArr c_char 0)].
Definition s_thread_info : ctype := struct_ [
  fld "flags" c_long;
  fld "syscall_work" c_long;
  fld "status" t_u32;
  fld "cpu" t_u32].
Definition t_atomic_t : ctype := struct_ [
    fld "counter" c_int].
Definition s_refcount_struct : ctype := struct_ [
  fld "refs" t_atomic_t].
Definition t_refcount_t : ctype := s_refcount_struct.
Definition s_llist_node : ctype := struct_ [
  fld "next" c_ptr].
Definition t___u16 : ctype := c_short.
Definition t_u16 : ctype := t___u16.
Definition s___call_single_node : ctype := struct_ [
  fld "llist" s_llist_node;
  fld "" (union_ [
    fld "u_flags" c_int;
    fld "a_flags" t_atomic_t]);
  fld "src" t_u16;
  fld "dst" t_u16].
Definition s_load_weight : ctype := struct_ [
  fld "weight" c_long;
  fld "inv_weight" t_u32].
Definition s_rb_node : ctype := struct_ [
  fld "__rb_parent_color" c_long;
  fld "rb_right" c_ptr;
  fld "rb_left" c_ptr].
Definition s_list_head : ctype := struct_ [
  fld "next" c_ptr;
  fld "prev" c_ptr].
Definition t___s64 : ctype := c_long.
Definition t_s64 : ctype := t___s64.
Definition s_sched_avg : ctype := struct_ [
  fld "last_update_time" t_u64;
  fld "load_sum" t_u64;
  fld "runnable_sum" t_u64;
  fld "util_sum" t_u32;
  fld "period_contrib" t_u32;
  fld "load_avg" c_long;
  fld "runnable_avg" c_long;
  fld "util_avg" c_long;
  fld "util_est" c_int].
Definition s_sched_entity : ctype := struct_ [
  fld "load" s_load_weight;
  fld "run_node" s_rb_node;
  fld "deadline" t_u64;
  fld "min_vruntime" t_u64;
  fld "group_node" s_list_head;
  fld "on_rq" c_int;
  fld "exec_start" t_u64;
  fld "sum_exec_runtime" t_u64;
  fld "prev_sum_exec_runtime" t_u64;
  fld "vruntime" t_u64;
  fld "vlag" t_s64;
  fld "slice" t_u64;
  fld "nr_migrations" t_u64;
  fld "depth" c_int;
  fld "parent" c_ptr;
  fld "cfs_rq" c_ptr;
  fld "my_q" c_ptr;
  fld "runnable_weight" c_long;
  bitfld "" c_long 64;
  bitfld "" c_long 64;
  fld "avg" s_sched_avg].
Definition s_sched_rt_entity : ctype := struct_ [
  fld "run_list" s_list_head;
  fld "timeout" c_long;
  fld "watchdog_stamp" c_long;
  fld "time_slice" c_int;
  fld "on_rq" c_short;
  fld "on_list" c_short;
  fld "back" c_ptr].
Definition t_ktime_t : ctype := t_s64.
Definition s_timerqueue_node : ctype := struct_ [
  fld "node" s_rb_node;
  fld "expires" t_ktime_t].
Definition t___u8 : ctype := c_char.
Definition t_u8 : ctype := t___u8.
Definition s_hrtimer : ctype := struct_ [
  fld "node" s_timerqueue_node;
  fld "_softexpires" t_ktime_t;
  fld "function" c_ptr;
  fld "base" c_ptr;
  fld "state" t_u8;
  fld "is_rel" t_u8;
  fld "is_soft" t_u8;
  fld "is_hard" t_u8].
Definition t_dl_server_has_tasks_f : ctype := c_ptr.
Definition t_dl_server_pick_f : ctype := c_ptr.
Definition s_sched_dl_entity : ctype := struct_ [
  fld "rb_node" s_rb_node;
  fld "dl_runtime" t_u64;
  fld "dl_deadline" t_u64;
  fld "dl_period" t_u64;
  fld "dl_bw" t_u64;
  fld "dl_density" t_u64;
  fld "runtime" t_s64;
  fld "deadline" t_u64;
  fld "flags" c_int;
  bitfld "dl_throttled" c_int 1;
  bitfld "dl_yielded" c_int 1;
  bitfld "dl_non_contending" c_int 1;
  bitfld "dl_overrun" c_int 1;
  bitfld "dl_server" c_int 1;
  fld "dl_timer" s_hrtimer;
  fld "inactive_timer" s_hrtimer;
  fld "rq" c_ptr;
  fld "server_has_tasks" t_dl_server_has_tasks_f;
  fld "server_pick" t_dl_server_pick_f;
  fld "pi_se" c_ptr].
Definition s_uclamp_se : ctype := struct_ [
  bitfld "value" c_int 11;
  bitfld "bucket_id" c_int 3;
  bitfld "active" c_int 1;
  bitfld "user_defined" c_int 1].
Definition s_sched_statistics : ctype := struct_ [
  fld "wait_start" t_u64;
  fld "wait_max" t_u64;
  fld "wait_count" t_u64;
  fld "wait_sum" t_u64;
  fld "iowait_count" t_u64;
  fld "iowait_sum" t_u64;
  fld "sleep_start" t_u64;
  fld "sleep_max" t_u64;
  fld "sum_sleep_runtime" t_s64;
  fld "block_start" t_u64;
  fld "block_max" t_u64;
  fld "sum_block_runtime" t_s64;
  fld "exec_max" t_s64;
  fld "slice_max" t_u64;
  fld "nr_migrations_cold" t_u64;
  fld "nr_failed_migrations_affine" t_u64;
  fld "nr_failed_migrations_running" t_u64;
  fld "nr_failed_migrations_hot" t_u64;
  fld "nr_forced_migrations" t_u64;
  fld "nr_wakeups" t_u64;
  fld "nr_wakeups_sync" t_u64;
  fld "nr_wakeups_migrate" t_u64;
  fld "nr_wakeups_local" t_u64;
  fld "nr_wakeups_remote" t_u64;
  fld "nr_wakeups_affine" t_u64;
  fld "nr_wakeups_affine_attempts" t_u64;
  fld "nr_wakeups_passive" t_u64;
  fld "nr_wakeups_idle" t_u64;
  fld "core_forceidle_sum" t_u64;
  bitfld "" c_long 64;
  bitfld "" c_long 64;
  bitfld "" c_long 64].
Definition s_hlist_head : ctype := struct_ [
  fld "first" c_ptr].
Definition s_cpumask : ctype := struct_ [
  fld "bits" (CArr c_long 128)].
Definition t_cpumask_t : ctype := s_cpumask.
Definition u_rcu_special : ctype := union_ [
  fld "b" (struct_ [
    fld "blocked" t_u8;
    fld "need_qs" t_u8;
    fld "exp_hint" t_u8;
    fld "need_mb" t_u8]);
  fld "s" t_u32].
Definition s_sched_info : ctype := struct_ [
  fld "pcount" c_long;
  fld "run_delay" c_long;
  fld "last_arrival" c_long;
  fld "last_queued" c_long].
Definition s_plist_node : ctype := struct_ [
  fld "prio" c_int;
  fld "prio_list" s_list_head;
  fld "node_list" s_list_head].
Definition t___kernel_clockid_t : ctype := c_int.
Definition t_clockid_t : ctype := t___kernel_clockid_t.
Definition s_restart_block : ctype := struct_ [
  fld "arch_data" c_long;
  fld "fn" c_ptr;
  fld "" (union_ [
    fld "futex" (struct_ [
      fld "uaddr" c_ptr;
      fld "val" t_u32;
      fld "flags" t_u32;
      fld "bitset" t_u32;
      fld "time" t_u64;
      fld "uaddr2" c_ptr]);
    fld "nanosleep" (struct_ [
      fld "clockid" t_clockid_t;
      fld "type" c_int;
      fld "" (union_ [
        fld "rmtp" c_ptr;
        fld "compat_rmtp" c_ptr]);
      fld "expires" t_u64]);
    fld "poll" (struct_ [
      fld "ufds" c_ptr;
      fld "nfds" c_int;
      fld "has_timeout" c_int;
      fld "tv_sec" c_long;
      fld "tv_nsec" c_long])])].
Definition s_hlist_node : ctype := struct_ [
  fld "next" c_ptr;
  fld "pprev" c_ptr].
Definition s_qspinlock : ctype := struct_ [
  fld "" (union_ [
    fld "val" t_atomic_t;
    fld "" (struct_ [
      fld "locked" t_u8;
      fld "pending" t_u8]);
    fld "" (struct_ [
      fld "locked_pending" t_u16;
      fld "tail" t_u16])])].
Definition t_arch_spinlock_t : ctype := s_qspinlock.
Definition s_raw_spinlock : ctype := struct_ [
  fld "raw_lock" t_arch_spinlock_t].
Definition t_raw_spinlock_t : ctype := s_raw_spinlock.
Definition s_prev_cputime : ctype := struct_ [
  fld "utime" t_u64;
  fld "stime" t_u64;
  fld "lock" t_raw_spinlock_t].
Definition s_seqcount : ctype := struct_ [
  fld "sequence" c_int].
Definition t_seqcount_t : ctype := s_seqcount.
Definition s_vtime : ctype := struct_ [
  fld "seqcount" t_seqcount_t;
  fld "starttime" c_long;
  fld "state" c_int;
  fld "cpu" c_int;
  fld "utime" t_u64;
  fld "stime" t_u64;
  fld "gtime" t_u64].
Definition s_rb_root : ctype := struct_ [
  fld "rb_node" c_ptr].
Definition s_rb_root_cached : ctype := struct_ [
  fld "rb_root" s_rb_root;
  fld "rb_leftmost" c_ptr].
Definition s_timerqueue_head : ctype := struct_ [
  fld "rb_root" s_rb_root_cached].
Definition s_posix_cputimer_base : ctype := struct_ [
  fld "nextevt" t_u64;
  fld "tqhead" s_timerqueue_head].
Definition s_posix_cputimers : ctype := struct_ [
  fld "bases" (CArr s_posix_cputimer_base 3);
  fld "timers_active" c_int;
  fld "expiry_active" c_int].
Definition s_callback_head : ctype := struct_ [
  fld "next" c_ptr;
  fld "func" c_ptr].
Definition t_atomic64_t : ctype := struct_ [
    fld "counter" t_s64].
Definition t_atomic_long_t : ctype := t_atomic64_t.
Definition s_optimistic_spin_queue : ctype := struct_ [
  fld "tail" t_atomic_t].
Definition s_mutex : ctype := struct_ [
  fld "owner" t_atomic_long_t;
  fld "wait_lock" t_raw_spinlock_t;
  fld "osq" s_optimistic_spin_queue;
  fld "wait_list" s_list_head].
Definition s_posix_cputimers_work : ctype := struct_ [
  fld "work" s_callback_head;
  fld "mutex" s_mutex;
  fld "scheduled" c_int].
Definition s_sysv_sem : ctype := struct_ [
  fld "undo_list" c_ptr].
Definition s_sysv_shm : ctype := struct_ [
  fld "shm_clist" s_list_head].
Definition t_sigset_t : ctype := struct_ [
    fld "sig" (CArr c_long 1)].
Definition s_sigpending : ctype := struct_ [
  fld "list" s_list_head;
  fld "signal" t_sigset_t].
Definition t___kernel_ulong_t : ctype := c_long.
Definition t___kernel_size_t : ctype := t___kernel_ulong_t.
Definition t_size_t : ctype := t___kernel_size_t.
Definition t___kernel_uid32_t : ctype := c_int.
Definition t_uid_t : ctype := t___kernel_uid32_t.
Definition t_kuid_t : ctype := struct_ [
    fld "val" t_uid_t].
Definition s_seccomp : ctype := struct_ [
  fld "mode" c_int;
  fld "filter_count" t_atomic_t;
  fld "filter" c_ptr].
Definition t_bool : ctype := c_char.
Definition s_syscall_user_dispatch : ctype := struct_ [
  fld "selector" c_ptr;
  fld "offset" c_long;
  fld "len" c_long;
  fld "on_dispatch" t_bool].
Definition s_spinlock : ctype := struct_ [
  fld "" (union_ [
    fld "rlock" s_raw_spinlock])].
Definition t_spinlock_t : ctype := s_spinlock.
Definition s_wake_q_node : ctype := struct_ [
  fld "next" c_ptr].
Definition s_task_io_accounting : ctype := struct_ [
  fld "rchar" t_u64;
  fld "wchar" t_u64;
  fld "syscr" t_u64;
  fld "syscw" t_u64;
  fld "read_bytes" t_u64;
  fld "write_bytes" t_u64;
  fld "cancelled_write_bytes" t_u64].
Definition t_nodemask_t : ctype := struct_ [
    fld "bits" (CArr c_long 16)].
Definition s_seqcount_spinlock : ctype := struct_ [
  fld "seqcount" t_seqcount_t].
Definition t_seqcount_spinlock_t : ctype := s_seqcount_spinlock.
Definition s_arch_tlbflush_unmap_batch : ctype := struct_ [
  fld "cpumask" s_cpumask].
Definition s_tlbflush_unmap_batch : ctype := struct_ [
  fld "arch" s_arch_tlbflush_unmap_batch;
  fld "flush_required" t_bool;
  fld "writable" t_bool].
Definition s_page_frag : ctype := struct_ [
  fld "page" c_ptr;
  fld "offset" t___u32;
  fld "size" t___u32].
Definition s_latency_record : ctype := struct_ [
  fld "backtrace" (CArr c_long 12);
  fld "count" c_int;
  fld "time" c_long;
  fld "max" c_long].
Definition t_gfp_t : ctype := c_int.
Definition s_kmap_ctrl : ctype := struct_ [].
Definition s_timer_list : ctype := struct_ [
  fld "entry" s_hlist_node;
  fld "expires" c_long;
  fld "function" c_ptr;
  fld "flags" t_u32].
Definition s_llist_head : ctype := struct_ [
  fld "first" c_ptr].
Definition s_da_monitor : ctype := struct_ [
  fld "monitoring" t_bool;
  fld "curr_state" c_int].
Definition u_rv_task_monitor : ctype := union_ [
  fld "da_mon" s_da_monitor].
Definition s_desc_struct : ctype := struct_ [
  fld "limit0" t_u16;
  fld "base0" t_u16;
  bitfld "base1" t_u16 8;
  bitfld "type" t_u16 4;
  bitfld "s" t_u16 1;
  bitfld "dpl" t_u16 2;
  bitfld "p" t_u16 1;
  bitfld "limit1" t_u16 4;
  bitfld "avl" t_u16 1;
  bitfld "l" t_u16 1;
  bitfld "d" t_u16 1;
  bitfld "g" t_u16 1;
  bitfld "base2" t_u16 8].
Definition s_thread_shstk : ctype := struct_ [
  fld "base" t_u64;
  fld "size" t_u64].
Definition s_fpu_state_perm : ctype := struct_ [
  fld "__state_perm" t_u64;
  fld "__state_size" c_int;
  fld "__user_state_size" c_int].
Definition s_fregs_state : ctype := struct_ [
  fld "cwd" t_u32;
  fld "swd" t_u32;
  fld "twd" t_u32;
  fld "fip" t_u32;
  fld "fcs" t_u32;
  fld "foo" t_u32;
  fld "fos" t_u32;
  fld "st_space" (CArr t_u32 20);
  fld "status" t_u32].
Definition s_fxregs_state : ctype := struct_ [
  fld "cwd" t_u16;
  fld "swd" t_u16;
  fld "twd" t_u16;
  fld "fop" t_u16;
  fld "" (union_ [
    fld "" (struct_ [
      fld "rip" t_u64;
      fld "rdp" t_u64]);
    fld "" (struct_ [
      fld "fip" t_u32;
      fld "fcs" t_u32;
      fld "foo" t_u32;
      fld "fos" t_u32])]);
  fld "mxcsr" t_u32;
  fld "mxcsr_mask" t_u32;
  fld "st_space" (CArr t_u32 32);
  fld "xmm_space" (CArr t_u32 64);
  fld "padding" (CArr t_u32 12);
  fld "" (union_ [
    fld "padding1" (CArr t_u32 12);
    fld "sw_reserved" (CArr t_u32 12)])].
Definition s_swregs_state : ctype := struct_ [
  fld "cwd" t_u32;
  fld "swd" t_u32;
  fld "twd" t_u32;
  fld "fip" t_u32;
  fld "fcs" t_u32;
  fld "foo" t_u32;
  fld "fos" t_u32;
  fld "st_space" (CArr t_u32 20);
  fld "ftop" t_u8;
  fld "changed" t_u8;
  fld "lookahead" t_u8;
  fld "no_update" t_u8;
  fld "rm" t_u8;
  fld "alimit" t_u8;
  fld "info" c_ptr;
  fld "entry_eip" t_u32].
Definition s_xstate_header : ctype := struct_ [
  fld "xfeatures" t_u64;
  fld "xcomp_bv" t_u64;
  fld "reserved" (CArr t_u64 6)].
Definition s_xregs_state : ctype := struct_ [
  fld "i387" s_fxregs_state;
  fld "header" s_xstate_header;
  fld "extended_state_area" (CArr t_u8 0)].
Definition u_fpregs_state : ctype := union_ [
  fld "fsave" s_fregs_state;
  fld "fxsave" s_fxregs_state;
  fld "soft" s_swregs_state;
  fld "xsave" s_xregs_state;
  fld "__padding" (CArr t_u8 4096)].
Definition s_fpstate : ctype := struct_ [
  fld "size" c_int;
  fld "user_size" c_int;
  fld "xfeatures" t_u64;
  fld "user_xfeatures" t_u64;
  fld "xfd" t_u64;
  bitfld "is_valloc" c_int 1;
  bitfld "is_guest" c_int 1;
  bitfld "is_confidential" c_int 1;
  bitfld "in_use" c_int 1;
  bitfld "" c_long 64;
  bitfld "" c_long 64;
  bitfld "" c_long 64;
  fld "regs" u_fpregs_state].
Definition s_fpu : ctype := struct_ [
  fld "last_cpu" c_int;
  fld "avx512_timestamp" c_long;
  fld "fpstate" c_ptr;
  fld "__task_fpstate" c_ptr;
  fld "perm" s_fpu_state_perm;
  fld "guest_perm" s_fpu_state_perm;
  fld "__fpstate" s_fpstate].
Definition s_thread_struct : ctype := struct_ [
  fld "tls_array" (CArr s_desc_struct 3);
  fld "sp" c_long;
  fld "es" c_short;
  fld "ds" c_short;
  fld "fsindex" c_short;
  fld "gsindex" c_short;
  fld "fsbase" c_long;
  fld "gsbase" c_long;
  fld "ptrace_bps" (CArr c_ptr 4);
  fld "virtual_dr6" c_long;
  fld "ptrace_dr7" c_long;
  fld "cr2" c_long;
  fld "trap_nr" c_long;
  fld "error_code" c_long;
  fld "io_bitmap" c_ptr;
  fld "iopl_emul" c_long;
  bitfld "iopl_warn" c_int 1;
  fld "pkru" t_u32;
  fld "features" c_long;
  fld "features_locked" c_long;
  fld "shstk" s_thread_shstk;
  bitfld "" c_long 64;
  fld "fpu" s_fpu].
Definition s_task_struct : ctype := struct_ [
  fld "thread_info" s_thread_info;
  fld "__state" c_int;
  fld "saved_state" c_int;
  fld "stack" c_ptr;
  fld "usage" t_refcount_t;
  fld "flags" c_int;
  fld "ptrace" c_int;
  fld "on_cpu" c_int;
  fld "wake_entry" s___call_single_node;
  fld "wakee_flips" c_int;
  fld "wakee_flip_decay_ts" c_long;
  fld "last_wakee" c_ptr;
  fld "recent_used_cpu" c_int;
  fld "wake_cpu" c_int;
  fld "on_rq" c_int;
  fld "prio" c_int;
  fld "static_prio" c_int;
  fld "normal_prio" c_int;
  fld "rt_priority" c_int;
  fld "se" s_sched_entity;
  fld "rt" s_sched_rt_entity;
  fld "dl" s_sched_dl_entity;
  fld "dl_server" c_ptr;
  fld "sched_class" c_ptr;
  fld "core_node" s_rb_node;
  fld "core_cookie" c_long;
  fld "core_occupation" c_int;
  fld "sched_task_group" c_ptr;
  fld "uclamp_req" (CArr s_uclamp_se 2);
  fld "uclamp" (CArr s_uclamp_se 2);
  bitfld "" c_long 64;
  fld "stats" s_sched_statistics;
  fld "preempt_notifiers" s_hlist_head;
  fld "btrace_seq" c_int;
  fld "policy" c_int;
  fld "nr_cpus_allowed" c_int;
  fld "cpus_ptr" c_ptr;
  fld "user_cpus_ptr" c_ptr;
  fld "cpus_mask" t_cpumask_t;
  fld "migration_pending" c_ptr;
  fld "migration_disabled" c_short;
  fld "migration_flags" c_short;
  fld "rcu_read_lock_nesting" c_int;
  fld "rcu_read_unlock_special" u_rcu_special;
  fld "rcu_node_entry" s_list_head;
  fld "rcu_blocked_node" c_ptr;
  fld "rcu_tasks_nvcsw" c_long;
  fld "rcu_tasks_holdout" t_u8;
  fld "rcu_tasks_idx" t_u8;
  fld "rcu_tasks_idle_cpu" c_int;
  fld "rcu_tasks_holdout_list" s_list_head;
  fld "rcu_tasks_exit_cpu" c_int;
  fld "rcu_tasks_exit_list" s_list_head;
  fld "trc_reader_nesting" c_int;
  fld "trc_ipi_to_cpu" c_int;
  fld "trc_reader_special" u_rcu_special;
  fld "trc_holdout_list" s_list_head;
  fld "trc_blkd_node" s_list_head;
  fld "trc_blkd_cpu" c_int;
  fld "sched_info" s_sched_info;
  fld "tasks" s_list_head;
  fld "pushable_tasks" s_plist_node;
  fld "pushable_dl_tasks" s_rb_node;
  fld "mm" c_ptr;
  fld "active_mm" c_ptr;
  fld "faults_disabled_mapping" c_ptr;
  fld "exit_state" c_int;
  fld "exit_code" c_int;
  fld "exit_signal" c_int;
  fld "pdeath_signal" c_int;
  fld "jobctl" c_long;
  fld "personality" c_int;
  bitfld "sched_reset_on_fork" c_int 1;
  bitfld "sched_contributes_to_load" c_int 1;
  bitfld "sched_migrated" c_int 1;
  bitfld "sched_task_hot" c_int 1;
  bitfld "" c_long 28;
  bitfld "sched_remote_wakeup" c_int 1;
  bitfld "sched_rt_mutex" c_int 1;
  bitfld "in_execve" c_int 1;
  bitfld "in_iowait" c_int 1;
  bitfld "restore_sigmask" c_int 1;
  bitfld "in_user_fault" c_int 1;
  bitfld "in_lru_fault" c_int 1;
  bitfld "no_cgroup_migration" c_int 1;
  bitfld "frozen" c_int 1;
  bitfld "use_memdelay" c_int 1;
  bitfld "in_memstall" c_int 1;
  bitfld "in_eventfd" c_int 1;
  bitfld "pasid_activated" c_int 1;
  bitfld "reported_split_lock" c_int 1;
  bitfld "in_thrashing" c_int 1;
  fld "atomic_flags" c_long;
  fld "restart_block" s_restart_block;
  fld "pid" t_pid_t;
  fld "tgid" t_pid_t;
  fld "stack_canary" c_long;
  fld "real_parent" c_ptr;
  fld "parent" c_ptr;
  fld "children" s_list_head;
  fld "sibling" s_list_head;
  fld "group_leader" c_ptr;
  fld "ptraced" s_list_head;
  fld "ptrace_entry" s_list_head;
  fld "thread_pid" c_ptr;
  fld "pid_links" (CArr s_hlist_node 4);
  fld "thread_node" s_list_head;
  fld "vfork_done" c_ptr;
  fld "set_child_tid" c_ptr;
  fld "clear_child_tid" c_ptr;
  fld "worker_private" c_ptr;
  fld "utime" t_u64;
  fld "stime" t_u64;
  fld "gtime" t_u64;
  fld "prev_cputime" s_prev_cputime;
  fld "vtime" s_vtime;
  fld "tick_dep_mask" t_atomic_t;
  fld "nvcsw" c_long;
  fld "nivcsw" c_long;
  fld "start_time" t_u64;
  fld "start_boottime" t_u64;
  fld "min_flt" c_long;
  fld "maj_flt" c_long;
  fld "posix_cputimers" s_posix_cputimers;
  fld "posix_cputimers_work" s_posix_cputimers_work;
  fld "ptracer_cred" c_ptr;
  fld "real_cred" c_ptr;
  fld "cred" c_ptr;
  fld "cached_requested_key" c_ptr;
  fld "comm" (CArr c_char 16);
  fld "nameidata" c_ptr;
  fld "sysvsem" s_sysv_sem;
  fld "sysvshm" s_sysv_shm;
  fld "last_switch_count" c_long;
  fld "last_switch_time" c_long;
  fld "fs" c_ptr;
  fld "files" c_ptr;
  fld "io_uring" c_ptr;
  fld "nsproxy" c_ptr;
  fld "signal" c_ptr;
  fld "sighand" c_ptr;
  fld "blocked" t_sigset_t;
  fld "real_blocked" t_sigset_t;
  fld "saved_sigmask" t_sigset_t;
  fld "pending" s_sigpending;
  fld "sas_ss_sp" c_long;
  fld "sas_ss_size" t_size_t;
  fld "sas_ss_flags" c_int;
  fld "task_works" c_ptr;
  fld "audit_context" c_ptr;
  fld "loginuid" t_kuid_t;
  fld "sessionid" c_int;
  fld "seccomp" s_seccomp;
  fld "syscall_dispatch" s_syscall_user_dispatch;
  fld "parent_exec_id" t_u64;
  fld "self_exec_id" t_u64;
  fld "alloc_lock" t_spinlock_t;
  fld "pi_lock" t_raw_spinlock_t;
  fld "wake_q" s_wake_q_node;
  fld "pi_waiters" s_rb_root_cached;
  fld "pi_top_task" c_ptr;
  fld "pi_blocked_on" c_ptr;
  fld "in_ubsan" c_int;
  fld "journal_info" c_ptr;
  fld "bio_list" c_ptr;
  fld "plug" c_ptr;
  fld "reclaim_state" c_ptr;
  fld "io_context" c_ptr;
  fld "capture_control" c_ptr;
  fld "ptrace_message" c_long;
  fld "last_siginfo" c_ptr;
  fld "ioac" s_task_io_accounting;
  fld "psi_flags" c_int;
  fld "acct_rss_mem1" t_u64;
  fld "acct_vm_mem1" t_u64;
  fld "acct_timexpd" t_u64;
  fld "mems_allowed" t_nodemask_t;
  fld "mems_allowed_seq" t_seqcount_spinlock_t;
  fld "cpuset_mem_spread_rotor" c_int;
  fld "cpuset_slab_spread_rotor" c_int;
  fld "cgroups" c_ptr;
  fld "cg_list" s_list_head;
  fld "closid" t_u32;
  fld "rmid" t_u32;
  fld "robust_list" c_ptr;
  fld "compat_robust_list" c_ptr;
  fld "pi_state_list" s_list_head;
  fld "pi_state_cache" c_ptr;
  fld "futex_exit_mutex" s_mutex;
  fld "futex_state" c_int;
  fld "perf_event_ctxp" c_ptr;
  fld "perf_event_mutex" s_mutex;
  fld "perf_event_list" s_list_head;
  fld "mempolicy" c_ptr;
  fld "il_prev" c_short;
  fld "pref_node_fork" c_short;
  fld "numa_scan_seq" c_int;
  fld "numa_scan_period" c_int;
  fld "numa_scan_period_max" c_int;
  fld "numa_preferred_nid" c_int;
  fld "numa_migrate_retry" c_long;
  fld "node_stamp" t_u64;
  fld "last_task_numa_placement" t_u64;
  fld "last_sum_exec_runtime" t_u64;
  fld "numa_work" s_callback_head;
  fld "numa_group" c_ptr;
  fld "numa_faults" c_ptr;
  fld "total_numa_faults" c_long;
  fld "numa_faults_locality" (CArr c_long 3);
  fld "numa_pages_migrated" c_long;
  fld "rseq" c_ptr;
  fld "rseq_len" t_u32;
  fld "rseq_sig" t_u32;
  fld "rseq_event_mask" c_long;
  fld "mm_cid" c_int;
  fld "last_mm_cid" c_int;
  fld "migrate_from_cpu" c_int;
  fld "mm_cid_active" c_int;
  fld "cid_work" s_callback_head;
  fld "tlb_ubc" s_tlbflush_unmap_batch;
  fld "splice_pipe" c_ptr;
  fld "task_frag" s_page_frag;
  fld "delays" c_ptr;
  fld "nr_dirtied" c_int;
  fld "nr_dirtied_pause" c_int;
  fld "dirty_paused_when" c_long;
  fld "latency_record_count" c_int;
  fld "latency_record" (CArr s_latency_record 32);
  fld "timer_slack_ns" t_u64;
  fld "default_timer_slack_ns" t_u64;
  fld "curr_ret_stack" c_int;
  fld "curr_ret_depth" c_int;
  fld "ret_stack" c_ptr;
  fld "ftrace_timestamp" c_long;
  fld "trace_overrun" t_atomic_t;
  fld "tracing_graph_pause" t_atomic_t;
  fld "trace_recursion" c_long;
  fld "memcg_in_oom" c_ptr;
  fld "memcg_oom_gfp_mask" t_gfp_t;
  fld "memcg_oom_order" c_int;
  fld "memcg_nr_pages_over_high" c_int;
  fld "active_memcg" c_ptr;
  fld "objcg" c_ptr;
  fld "throttle_disk" c_ptr;
  fld "utask" c_ptr;
  fld "sequential_io" c_int;
  fld "sequential_io_avg" c_int;
  fld "kmap_ctrl" s_kmap_ctrl;
  fld "rcu" s_callback_head;
  fld "rcu_users" t_refcount_t;
  fld "pagefault_disabled" c_int;
  fld "oom_reaper_list" c_ptr;
  fld "oom_reaper_timer" s_timer_list;
  fld "stack_vm_area" c_ptr;
  fld "stack_refcount" t_refcount_t;
  fld "patch_state" c_int;
  fld "security" c_ptr;
  fld "bpf_storage" c_ptr;
  fld "bpf_ctx" c_ptr;
  fld "mce_vaddr" c_ptr;
  fld "mce_kflags" t___u64;
  fld "mce_addr" t_u64;
  bitfld "mce_ripv" t___u64 1;
  bitfld "mce_whole_page" t___u64 1;
  bitfld "__mce_reserved" t___u64 62;
  fld "mce_kill_me" s_callback_head;
  fld "mce_count" c_int;
  fld "kretprobe_instances" s_llist_head;
  fld "rethooks" s_llist_head;
  fld "l1d_flush_kill" s_callback_head;
  fld "rv" (CArr u_rv_task_monitor 1);
  fld "user_event_mm" c_ptr;
  fld "thread" s_thread_struct].
Definition t_smp_call_func_t : ctype := c_ptr.
Definition s___call_single_data : ctype := struct_ [
  fld "node" s___call_single_node;
  fld "func" t_smp_call_func_t;
  fld "info" c_ptr].
Definition t_call_single_data_t : ctype := s___call_single_data.
Definition s_uclamp_bucket : ctype := struct_ [
  bitfld "value" c_long 11;
  bitfld "tasks" c_long 53].
Definition s_uclamp_rq : ctype := struct_ [
  fld "value" c_int;
  fld "bucket" (CArr s_uclamp_bucket 5)].
Definition s_cfs_rq : ctype := struct_ [
  fld "load" s_load_weight;
  fld "nr_running" c_int;
  fld "h_nr_running" c_int;
  fld "idle_nr_running" c_int;
  fld "idle_h_nr_running" c_int;
  fld "avg_vruntime" t_s64;
  fld "avg_load" t_u64;
  fld "exec_clock" t_u64;
  fld "zero_vruntime" t_u64;
  fld "forceidle_seq" c_int;
  fld "zero_vruntime_fi" t_u64;
  fld "tasks_timeline" s_rb_root_cached;
  fld "curr" c_ptr;
  fld "next" c_ptr;
  fld "nr_spread_over" c_int;
  bitfld "" c_long 64;
  fld "avg" s_sched_avg;
  fld "removed" (struct_ [
    fld "lock" t_raw_spinlock_t;
    fld "nr" c_int;
    fld "load_avg" c_long;
    fld "util_avg" c_long;
    fld "runnable_avg" c_long;
    bitfld "" c_long 64;
    bitfld "" c_long 64;
    bitfld "" c_long 64;
    bitfld "" c_long 64]);
  fld "last_update_tg_load_avg" t_u64;
  fld "tg_load_avg_contrib" c_long;
  fld "propagate" c_long;
  fld "prop_runnable_sum" c_long;
  fld "h_load" c_long;
  fld "last_h_load_update" t_u64;
  fld "h_load_next" c_ptr;
  fld "rq" c_ptr;
  fld "on_list" c_int;
  fld "leaf_cfs_rq_list" s_list_head;
  fld "tg" c_ptr;
  fld "idle" c_int;
  fld "runtime_enabled" c_int;
  fld "runtime_remaining" t_s64;
  fld "throttled_pelt_idle" t_u64;
  fld "throttled_clock" t_u64;
  fld "throttled_clock_pelt" t_u64;
  fld "throttled_clock_pelt_time" t_u64;
  fld "throttled_clock_self" t_u64;
  fld "throttled_clock_self_time" t_u64;
  fld "throttled" c_int;
  fld "throttle_count" c_int;
  fld "throttled_list" s_list_head;
  fld "throttled_csd_list" s_list_head;
  bitfld "" c_long 64;
  bitfld "" c_long 64;
  bitfld "" c_long 64;
  bitfld "" c_long 64;
  bitfld "" c_long 64;
  bitfld "" c_long 64;
  bitfld "" c_long 64].
Definition s_rt_prio_array : ctype := struct_ [
  fld "bitmap" (CArr c_long 2);
  fld "queue" (CArr s_list_head 100)].
Definition s_plist_head : ctype := struct_ [
  fld "node_list" s_list_head].
Definition s_rt_rq : ctype := struct_ [
  fld "active" s_rt_prio_array;
  fld "rt_nr_running" c_int;
  fld "rr_nr_running" c_int;
  fld "highest_prio" (struct_ [
    fld "curr" c_int;
    fld "next" c_int]);
  fld "overloaded" c_int;
  fld "pushable_tasks" s_plist_head;
  fld "rt_queued" c_int;
  fld "rt_throttled" c_int;
  fld "rt_time" t_u64;
  fld "rt_runtime" t_u64;
  fld "rt_runtime_lock" t_raw_spinlock_t].
Definition s_dl_rq : ctype := struct_ [
  fld "root" s_rb_root_cached;
  fld "dl_nr_running" c_int;
  fld "earliest_dl" (struct_ [
    fld "curr" t_u64;
    fld "next" t_u64]);
  fld "overloaded" c_int;
  fld "pushable_dl_tasks_root" s_rb_root_cached;
  fld "running_bw" t_u64;
  fld "this_bw" t_u64;
  fld "extra_bw" t_u64;
  fld "max_bw" t_u64;
  fld "bw_ratio" t_u64].
Definition t_cpu_stop_fn_t : ctype := c_ptr.
Definition s_cpu_stop_work : ctype := struct_ [
  fld "list" s_list_head;
  fld "fn" t_cpu_stop_fn_t;
  fld "caller" c_long;
  fld "arg" c_ptr;
  fld "done" c_ptr].
Definition s_rcuwait : ctype := struct_ [
  fld "task" c_ptr].
Definition t_cpumask_var_t : ctype := c_ptr.
Definition s_rq : ctype := struct_ [
  fld "__lock" t_raw_spinlock_t;
  fld "nr_running" c_int;
  fld "nr_numa_running" c_int;
  fld "nr_preferred_running" c_int;
  fld "numa_migrate_on" c_int;
  fld "last_blocked_load_update_tick" c_long;
  fld "has_blocked_load" c_int;
  bitfld "" c_long 64;
  bitfld "" c_long 64;
  bitfld "" c_long 64;
  fld "nohz_csd" t_call_single_data_t;
  fld "nohz_tick_stopped" c_int;
  fld "nohz_flags" t_atomic_t;
  fld "ttwu_pending" c_int;
  fld "nr_switches" t_u64;
  bitfld "" c_long 64;
  fld "uclamp" (CArr s_uclamp_rq 2);
  fld "uclamp_flags" c_int;
  bitfld "" c_long 64;
  bitfld "" c_long 64;
  bitfld "" c_long 64;
  fld "cfs" s_cfs_rq;
  fld "rt" s_rt_rq;
  fld "dl" s_dl_rq;
  fld "leaf_cfs_rq_list" s_list_head;
  fld "tmp_alone_branch" c_ptr;
  fld "nr_uninterruptible" c_long;
  fld "curr" c_ptr;
  fld "idle" c_ptr;
  fld "stop" c_ptr;
  fld "next_balance" c_long;
  fld "prev_mm" c_ptr;
  fld "clock_update_flags" c_int;
  fld "clock" t_u64;
  bitfld "" c_long 64;
  bitfld "" c_long 64;
  bitfld "" c_long 64;
  bitfld "" c_long 64;
  bitfld "" c_long 64;
  fld "clock_task" t_u64;
  fld "clock_pelt" t_u64;
  fld "lost_idle_time" c_long;
  fld "clock_pelt_idle" t_u64;
  fld "clock_idle" t_u64;
  fld "nr_iowait" t_atomic_t;
  fld "last_seen_need_resched_ns" t_u64;
  fld "ticks_without_resched" c_int;
  fld "membarrier_state" c_int;
  fld "rd" c_ptr;
  fld "sd" c_ptr;
  fld "cpu_capacity" c_long;
  fld "balance_callback" c_ptr;
  fld "nohz_idle_balance" c_char;
  fld "idle_balance" c_char;
  fld "misfit_task_load" c_long;
  fld "active_balance" c_int;
  fld "push_cpu" c_int;
  fld "active_balance_work" s_cpu_stop_work;
  fld "cpu" c_int;
  fld "online" c_int;
  fld "cfs_tasks" s_list_head;
  fld "avg_rt" s_sched_avg;
  fld "avg_dl" s_sched_avg;
  fld "idle_stamp" t_u64;
  fld "avg_idle" t_u64;
  fld "max_idle_balance_cost" t_u64;
  fld "hotplug_wait" s_rcuwait;
  fld "prev_steal_time" t_u64;
  fld "calc_load_update" c_long;
  fld "calc_load_active" c_long;
  bitfld "" c_long 64;
  fld "hrtick_csd" t_call_single_data_t;
  fld "hrtick_timer" s_hrtimer;
  fld "hrtick_time" t_ktime_t;
  fld "rq_sched_info" s_sched_info;
  fld "rq_cpu_time" c_long;
  fld "yld_count" c_int;
  fld "sched_count" c_int;
  fld "sched_goidle" c_int;
  fld "ttwu_count" c_int;
  fld "ttwu_local" c_int;
  fld "idle_state" c_ptr;
  fld "nr_pinned" c_int;
  fld "push_busy" c_int;
  fld "push_work" s_cpu_stop_work;
  fld "core" c_ptr;
  fld "core_pick" c_ptr;
  fld "core_enabled" c_int;
  fld "core_sched_seq" c_int;
  fld "core_tree" s_rb_root;
  fld "core_task_seq" c_int;
  fld "core_pick_seq" c_int;
  fld "core_cookie" c_long;
  fld "core_forceidle_count" c_int;
  fld "core_forceidle_seq" c_int;
  fld "core_forceidle_occupation" c_int;
  fld "core_forceidle_start" t_u64;
  fld "scratch_mask" t_cpumask_var_t;
  bitfld "" c_long 64;
  fld "cfsb_csd" t_call_single_data_t;
  fld "cfsb_csd_list" s_list_head;
  bitfld "" c_long 64;
  bitfld "" c_long 64].
Definition t_lockdep_map_p : ctype := struct_ [].
Definition s_maple_tree : ctype := struct_ [
  fld "" (union_ [
    fld "ma_lock" t_spinlock_t;
    fld "ma_external_lock" t_lockdep_map_p]);
  fld "ma_flags" c_int;
  fld "ma_root" c_ptr].
Definition s_rw_semaphore : ctype := struct_ [
  fld "count" t_atomic_long_t;
  fld "owner" t_atomic_long_t;
  fld "osq" s_optimistic_spin_queue;
  fld "wait_lock" t_raw_spinlock_t;
  fld "wait_list" s_list_head].
Definition s_percpu_counter : ctype := struct_ [
  fld "lock" t_raw_spinlock_t;
  fld "count" t_s64;
  fld "list" s_list_head;
  fld "counters" c_ptr].
Definition t___s16 : ctype := c_short.
Definition t_s16 : ctype := t___s16.
Definition t_mm_context_t : ctype := struct_ [
    fld "ctx_id" t_u64;
    fld "tlb_gen" t_atomic64_t;
    fld "next_trim_cpumask" c_long;
    fld "ldt_usr_sem" s_rw_semaphore;
    fld "ldt" c_ptr;
    fld "flags" c_long;
    fld "lock" s_mutex;
    fld "vdso" c_ptr;
    fld "vdso_image" c_ptr;
    fld "perf_rdpmc_allowed" t_atomic_t;
    fld "pkey_allocation_map" t_u16;
    fld "execute_only_pkey" t_s16].
Definition s_uprobes_state : ctype := struct_ [
  fld "xol_area" c_ptr].
Definition t_work_func_t : ctype := c_ptr.
Definition s_work_struct : ctype := struct_ [
  fld "data" t_atomic_long_t;
  fld "entry" s_list_head;
  fld "func" t_work_func_t].
Definition s_mm_struct : ctype := struct_ [
  fld "" (struct_ [
    fld "" (struct_ [
      fld "mm_count" t_atomic_t;
      bitfld "" c_long 64;
      bitfld "" c_long 64;
      bitfld "" c_long 64;
      bitfld "" c_long 64;
      bitfld "" c_long 64;
      bitfld "" c_long 64;
      bitfld "" c_long 64]);
    fld "mm_mt" s_maple_tree;
    fld "get_unmapped_area" c_ptr;
    fld "mmap_base" c_long;
    fld "mmap_legacy_base" c_long;
    fld "mmap_compat_base" c_long;
    fld "mmap_compat_legacy_base" c_long;
    fld "task_size" c_long;
    fld "pgd" c_ptr;
    fld "membarrier_state" t_atomic_t;
    fld "mm_users" t_atomic_t;
    fld "pcpu_cid" c_ptr;
    fld "mm_cid_next_scan" c_long;
    fld "pgtables_bytes" t_atomic_long_t;
    fld "map_count" c_int;
    fld "page_table_lock" t_spinlock_t;
    fld "mmap_lock" s_rw_semaphore;
    fld "mmlist" s_list_head;
    fld "mm_lock_seq" c_int;
    fld "hiwater_rss" c_long;
    fld "hiwater_vm" c_long;
    fld "total_vm" c_long;
    fld "locked_vm" c_long;
    fld "pinned_vm" t_atomic64_t;
    fld "data_vm" c_long;
    fld "exec_vm" c_long;
    fld "stack_vm" c_long;
    fld "def_flags" c_long;
    fld "write_protect_seq" t_seqcount_t;
    fld "arg_lock" t_spinlock_t;
    fld "start_code" c_long;
    fld "end_code" c_long;
    fld "start_data" c_long;
    fld "end_data" c_long;
    fld "start_brk" c_long;
    fld "brk" c_long;
    fld "start_stack" c_long;
    fld "arg_start" c_long;
    fld "arg_end" c_long;
    fld "env_start" c_long;
    fld "env_end" c_long;
    fld "saved_auxv" (CArr c_long 52);
    fld "rss_stat" (CArr s_percpu_counter 4);
    fld "binfmt" c_ptr;
    fld "context" t_mm_context_t;
    fld "flags" c_long;
    fld "ioctx_lock" t_spinlock_t;
    fld "ioctx_table" c_ptr;
    fld "owner" c_ptr;
    fld "user_ns" c_ptr;
    fld "exe_file" c_ptr;
    fld "notifier_subscriptions" c_ptr;
    fld "numa_next_scan" c_long;
    fld "numa_scan_offset" c_long;
    fld "numa_scan_seq" c_int;
    fld "tlb_flush_pending" t_atomic_t;
    fld "tlb_flush_batched" t_atomic_t;
    fld "uprobes_state" s_uprobes_state;
    fld "hugetlb_usage" t_atomic_long_t;
    fld "async_put_work" s_work_struct;
    fld "iommu_mm" c_ptr;
    fld "ksm_merging_pages" c_long;
    fld "ksm_rmap_items" c_long;
    fld "ksm_zero_pages" t_atomic_long_t;
    fld "lru_gen" (struct_ [
      fld "list" s_list_head;
      fld "bitmap" c_long;
      fld "memcg" c_ptr]);
    bitfld "" c_long 64;
    bitfld "" c_long 64]);
  fld "cpu_bitmap" (CArr c_long 0)].
Definition t_local_t : ctype := struct_ [
    fld "a" t_atomic_long_t].
Definition t_local64_t : ctype := struct_ [
    fld "a" t_local_t].
Definition t___s32 : ctype := c_int.
Definition s_perf_event_attr : ctype := struct_ [
  fld "type" t___u32;
  fld "size" t___u32;
  fld "config" t___u64;
  fld "" (union_ [
    fld "sample_period" t___u64;
    fld "sample_freq" t___u64]);
  fld "sample_type" t___u64;
  fld "read_format" t___u64;
  bitfld "disabled" t___u64 1;
  bitfld "inherit" t___u64 1;
  bitfld "pinned" t___u64 1;
  bitfld "exclusive" t___u64 1;
  bitfld "exclude_user" t___u64 1;
  bitfld "exclude_kernel" t___u64 1;
  bitfld "exclude_hv" t___u64 1;
  bitfld "exclude_idle" t___u64 1;
  bitfld "mmap" t___u64 1;
  bitfld "comm" t___u64 1;
  bitfld "freq" t___u64 1;
  bitfld "inherit_stat" t___u64 1;
  bitfld "enable_on_exec" t___u64 1;
  bitfld "task" t___u64 1;
  bitfld "watermark" t___u64 1;
  bitfld "precise_ip" t___u64 2;
  bitfld "mmap_data" t___u64 1;
  bitfld "sample_id_all" t___u64 1;
  bitfld "exclude_host" t___u64 1;
  bitfld "exclude_guest" t___u64 1;
  bitfld "exclude_callchain_kernel" t___u64 1;
  bitfld "exclude_callchain_user" t___u64 1;
  bitfld "mmap2" t___u64 1;
  bitfld "comm_exec" t___u64 1;
  bitfld "use_clockid" t___u64 1;
  bitfld "context_switch" t___u64 1;
  bitfld "write_backward" t___u64 1;
  bitfld "namespaces" t___u64 1;
  bitfld "ksymbol" t___u64 1;
  bitfld "bpf_event" t___u64 1;
  bitfld "aux_output" t___u64 1;
  bitfld "cgroup" t___u64 1;
  bitfld "text_poke" t___u64 1;
  bitfld "build_id" t___u64 1;
  bitfld "inherit_thread" t___u64 1;
  bitfld "remove_on_exec" t___u64 1;
  bitfld "sigtrap" t___u64 1;
  bitfld "__reserved_1" t___u64 26;
  fld "" (union_ [
    fld "wakeup_events" t___u32;
    fld "wakeup_watermark" t___u32]);
  fld "bp_type" t___u32;
  fld "" (union_ [
    fld "bp_addr" t___u64;
    fld "kprobe_func" t___u64;
    fld "uprobe_path" t___u64;
    fld "config1" t___u64]);
  fld "" (union_ [
    fld "bp_len" t___u64;
    fld "kprobe_addr" t___u64;
    fld "probe_offset" t___u64;
    fld "config2" t___u64]);
  fld "branch_sample_type" t___u64;
  fld "sample_regs_user" t___u64;
  fld "sample_stack_user" t___u32;
  fld "clockid" t___s32;
  fld "sample_regs_intr" t___u64;
  fld "aux_watermark" t___u32;
  fld "sample_max_stack" t___u16;
  fld "__reserved_2" t___u16;
  fld "aux_sample_size" t___u32;
  fld "__reserved_3" t___u32;
  fld "sig_data" t___u64;
  fld "config3" t___u64].
Definition s_hw_perf_event_extra : ctype := struct_ [
  fld "config" t_u64;
  fld "reg" c_int;
  fld "alloc" c_int;
  fld "idx" c_int].
Definition s_arch_hw_breakpoint : ctype := struct_ [
  fld "address" c_long;
  fld "mask" c_long;
  fld "len" t_u8;
  fld "type" t_u8].
Definition s_rhash_head : ctype := struct_ [
  fld "next" c_ptr].
Definition s_rhlist_head : ctype := struct_ [
  fld "rhead" s_rhash_head;
  fld "next" c_ptr].
Definition s_hw_perf_event : ctype := struct_ [
  fld "" (union_ [
    fld "" (struct_ [
      fld "config" t_u64;
      fld "last_tag" t_u64;
      fld "config_base" c_long;
      fld "event_base" c_long;
      fld "event_base_rdpmc" c_int;
      fld "idx" c_int;
      fld "last_cpu" c_int;
      fld "flags" c_int;
      fld "extra_reg" s_hw_perf_event_extra;
      fld "branch_reg" s_hw_perf_event_extra]);
    fld "" (struct_ [
      fld "hrtimer" s_hrtimer]);
    fld "" (struct_ [
      fld "tp_list" s_list_head]);
    fld "" (struct_ [
      fld "pwr_acc" t_u64;
      fld "ptsc" t_u64]);
    fld "" (struct_ [
      fld "info" s_arch_hw_breakpoint;
      fld "bp_list" s_rhlist_head]);
    fld "" (struct_ [
      fld "iommu_bank" t_u8;
      fld "iommu_cntr" t_u8;
      fld "padding" t_u16;
      fld "conf" t_u64;
      fld "conf1" t_u64])]);
  fld "target" c_ptr;
  fld "addr_filters" c_ptr;
  fld "addr_filters_gen" c_long;
  fld "state" c_int;
  fld "prev_count" t_local64_t;
  fld "sample_period" t_u64;
  fld "" (union_ [
    fld "" (struct_ [
      fld "last_period" t_u64;
      fld "period_left" t_local64_t]);
    fld "" (struct_ [
      fld "saved_metric" t_u64;
      fld "saved_slots" t_u64])]);
  fld "interrupts_seq" t_u64;
  fld "interrupts" t_u64;
  fld "freq_time_stamp" t_u64;
  fld "freq_count_stamp" t_u64].
Definition s_wait_queue_head : ctype := struct_ [
  fld "lock" t_spinlock_t;
  fld "head" s_list_head].
Definition t_wait_queue_head_t : ctype := s_wait_queue_head.
Definition s_irq_work : ctype := struct_ [
  fld "node" s___call_single_node;
  fld "func" c_ptr;
  fld "irqwait" s_rcuwait].
Definition s_perf_addr_filters_head : ctype := struct_ [
  fld "list" s_list_head;
  fld "lock" t_raw_spinlock_t;
  fld "nr_file_filters" c_int].
Definition t_perf_overflow_handler_t : ctype := c_ptr.
Definition t_ftrace_func_t : ctype := c_ptr.
Definition s_ftrace_ops_hash : ctype := struct_ [
  fld "notrace_hash" c_ptr;
  fld "filter_hash" c_ptr;
  fld "regex_lock" s_mutex].
Definition t_ftrace_ops_func_t : ctype := c_ptr.
Definition s_ftrace_ops : ctype := struct_ [
  fld "func" t_ftrace_func_t;
  fld "next" c_ptr;
  fld "flags" c_long;
  fld "private" c_ptr;
  fld "saved_func" t_ftrace_func_t;
  fld "local_hash" s_ftrace_ops_hash;
  fld "func_hash" c_ptr;
  fld "old_hash" s_ftrace_ops_hash;
  fld "trampoline" c_long;
  fld "trampoline_size" c_long;
  fld "list" s_list_head;
  fld "ops_func" t_ftrace_ops_func_t;
  fld "direct_call" c_long].
Definition s_perf_event : ctype := struct_ [
  fld "event_entry" s_list_head;
  fld "sibling_list" s_list_head;
  fld "active_list" s_list_head;
  fld "group_node" s_rb_node;
  fld "group_index" t_u64;
  fld "migrate_entry" s_list_head;
  fld "hlist_entry" s_hlist_node;
  fld "active_entry" s_list_head;
  fld "nr_siblings" c_int;
  fld "event_caps" c_int;
  fld "group_caps" c_int;
  fld "group_generation" c_int;
  fld "group_leader" c_ptr;
  fld "pmu" c_ptr;
  fld "pmu_private" c_ptr;
  fld "state" c_int;
  fld "attach_state" c_int;
  fld "count" t_local64_t;
  fld "child_count" t_atomic64_t;
  fld "total_time_enabled" t_u64;
  fld "total_time_running" t_u64;
  fld "tstamp" t_u64;
  fld "attr" s_perf_event_attr;
  fld "header_size" t_u16;
  fld "id_header_size" t_u16;
  fld "read_size" t_u16;
  fld "hw" s_hw_perf_event;
  fld "ctx" c_ptr;
  fld "pmu_ctx" c_ptr;
  fld "refcount" t_atomic_long_t;
  fld "child_total_time_enabled" t_atomic64_t;
  fld "child_total_time_running" t_atomic64_t;
  fld "child_mutex" s_mutex;
  fld "child_list" s_list_head;
  fld "parent" c_ptr;
  fld "oncpu" c_int;
  fld "cpu" c_int;
  fld "owner_entry" s_list_head;
  fld "owner" c_ptr;
  fld "mmap_mutex" s_mutex;
  fld "mmap_count" t_atomic_t;
  fld "rb" c_ptr;
  fld "rb_entry" s_list_head;
  fld "rcu_batches" c_long;
  fld "rcu_pending" c_int;
  fld "waitq" t_wait_queue_head_t;
  fld "fasync" c_ptr;
  fld "pending_wakeup" c_int;
  fld "pending_kill" c_int;
  fld "pending_disable" c_int;
  fld "pending_sigtrap" c_int;
  fld "pending_addr" c_long;
  fld "pending_irq" s_irq_work;
  fld "pending_task" s_callback_head;
  fld "pending_work" c_int;
  fld "pending_work_wait" s_rcuwait;
  fld "event_limit" t_atomic_t;
  fld "addr_filters" s_perf_addr_filters_head;
  fld "addr_filter_ranges" c_ptr;
  fld "addr_filters_gen" c_long;
  fld "aux_event" c_ptr;
  fld "destroy" c_ptr;
  fld "callback_head" s_callback_head;
  fld "ns" c_ptr;
  fld "id" t_u64;
  fld "lost_samples" t_atomic64_t;
  fld "clock" c_ptr;
  fld "overflow_handler" t_perf_overflow_handler_t;
  fld "overflow_handler_context" c_ptr;
  fld "orig_overflow_handler" t_perf_overflow_handler_t;
  fld "prog" c_ptr;
  fld "bpf_cookie" t_u64;
  fld "tp_event" c_ptr;
  fld "filter" c_ptr;
  fld "ftrace_ops" s_ftrace_ops;
  fld "cgrp" c_ptr;
  fld "security" c_ptr;
  fld "sb_list" s_list_head;
  fld "orig_type" t___u32].
Definition s_bpf_map : ctype := struct_ [
  fld "ops" c_ptr;
  fld "inner_map_meta" c_ptr;
  fld "security" c_ptr;
  fld "map_type" c_int;
  fld "key_size" t_u32;
  fld "value_size" t_u32;
  fld "max_entries" t_u32;
  fld "map_extra" t_u64;
  fld "map_flags" t_u32;
  fld "id" t_u32;
  fld "record" c_ptr;
  fld "numa_node" c_int;
  fld "btf_key_type_id" t_u32;
  fld "btf_value_type_id" t_u32;
  fld "btf_vmlinux_value_type_id" t_u32;
  fld "btf" c_ptr;
  fld "objcg" c_ptr;
  fld "name" (CArr c_char 16);
  bitfld "" c_long 64;
  bitfld "" c_long 64;
  fld "refcnt" t_atomic64_t;
  fld "usercnt" t_atomic64_t;
  fld "" (union_ [
    fld "work" s_work_struct;
    fld "rcu" s_callback_head]);
  fld "freeze_mutex" s_mutex;
  fld "writecnt" t_atomic64_t;
  fld "owner_lock" t_spinlock_t;
  fld "owner" c_ptr;
  fld "bypass_spec_v1" t_bool;
  fld "frozen" t_bool;
  fld "free_after_mult_rcu_gp" t_bool;
  fld "free_after_rcu_gp" t_bool;
  fld "sleepable_refcnt" t_atomic64_t;
  fld "elem_count" c_ptr;
  fld "cookie" t_u64;
  bitfld "" c_long 64;
  bitfld "" c_long 64;
  bitfld "" c_long 64;
  bitfld "" c_long 64;
  bitfld "" c_long 64;
  bitfld "" c_long 64;
  bitfld "" c_long 64].
Definition s_sock_filter : ctype := struct_ [
  fld "code" t___u16;
  fld "jt" t___u8;
  fld "jf" t___u8;
  fld "k" t___u32].
Definition s_bpf_insn : ctype := struct_ [
  fld "code" t___u8;
  bitfld "dst_reg" t___u8 4;
  bitfld "src_reg" t___u8 4;
  fld "off" t___s16;
  fld "imm" t___s32].
Definition s_bpf_prog : ctype := struct_ [
  fld "pages" t_u16;
  bitfld "jited" t_u16 1;
  bitfld "jit_requested" t_u16 1;
  bitfld "gpl_compatible" t_u16 1;
  bitfld "cb_access" t_u16 1;
  bitfld "dst_needed" t_u16 1;
  bitfld "blinding_requested" t_u16 1;
  bitfld "blinded" t_u16 1;
  bitfld "is_func" t_u16 1;
  bitfld "kprobe_override" t_u16 1;
  bitfld "has_callchain_buf" t_u16 1;
  bitfld "enforce_expected_attach_type" t_u16 1;
  bitfld "call_get_stack" t_u16 1;
  bitfld "call_get_func_ip" t_u16 1;
  bitfld "tstamp_type_access" t_u16 1;
  fld "type" c_int;
  fld "expected_attach_type" c_int;
  fld "len" t_u32;
  fld "jited_len" t_u32;
  fld "tag" (CArr t_u8 8);
  fld "stats" c_ptr;
  fld "active" c_ptr;
  fld "bpf_func" c_ptr;
  fld "aux" c_ptr;
  fld "orig_prog" c_ptr;
  fld "" (union_ [
    fld "" (struct_ [
      fld "__empty_insns" (struct_ []);
      fld "insns" (CArr s_sock_filter 0)]);
    fld "" (struct_ [
      fld "__empty_insnsi" (struct_ []);
      fld "insnsi" (CArr s_bpf_insn 0)])])].
Definition s_latch_tree_node : ctype := struct_ [
  fld "node" (CArr s_rb_node 2)].
Definition s_bpf_ksym : ctype := struct_ [
  fld "start" c_long;
  fld "end" c_long;
  fld "name" (CArr c_char 512);
  fld "lnode" s_list_head;
  fld "tnode" s_latch_tree_node;
  fld "prog" t_bool].
Definition s_bpf_prog_aux : ctype := struct_ [
  fld "refcnt" t_atomic64_t;
  fld "used_map_cnt" t_u32;
  fld "used_btf_cnt" t_u32;
  fld "max_ctx_offset" t_u32;
  fld "max_pkt_offset" t_u32;
  fld "max_tp_access" t_u32;
  fld "stack_depth" t_u32;
  fld "id" t_u32;
  fld "func_cnt" t_u32;
  fld "real_func_cnt" t_u32;
  fld "func_idx" t_u32;
  fld "attach_btf_id" t_u32;
  fld "ctx_arg_info_size" t_u32;
  fld "max_rdonly_access" t_u32;
  fld "max_rdwr_access" t_u32;
  fld "attach_btf" c_ptr;
  fld "ctx_arg_info" c_ptr;
  fld "dst_mutex" s_mutex;
  fld "dst_prog" c_ptr;
  fld "dst_trampoline" c_ptr;
  fld "saved_dst_prog_type" c_int;
  fld "saved_dst_attach_type" c_int;
  fld "verifier_zext" t_bool;
  fld "dev_bound" t_bool;
  fld "offload_requested" t_bool;
  fld "attach_btf_trace" t_bool;
  fld "attach_tracing_prog" t_bool;
  fld "func_proto_unreliable" t_bool;
  fld "sleepable" t_bool;
  fld "tail_call_reachable" t_bool;
  fld "xdp_has_frags" t_bool;
  fld "exception_cb" t_bool;
  fld "exception_boundary" t_bool;
  fld "is_extended" t_bool;
  fld "prog_array_member_cnt" t_u64;
  fld "ext_mutex" s_mutex;
  fld "attach_func_proto" c_ptr;
  fld "attach_func_name" c_ptr;
  fld "func" c_ptr;
  fld "jit_data" c_ptr;
  fld "poke_tab" c_ptr;
  fld "kfunc_tab" c_ptr;
  fld "kfunc_btf_tab" c_ptr;
  fld "size_poke_tab" t_u32;
  fld "ksym" s_bpf_ksym;
  fld "ops" c_ptr;
  fld "used_maps" c_ptr;
  fld "used_maps_mutex" s_mutex;
  fld "used_btfs" c_ptr;
  fld "prog" c_ptr;
  fld "user" c_ptr;
  fld "load_time" t_u64;
  fld "verified_insns" t_u32;
  fld "cgroup_atype" c_int;
  fld "cgroup_storage" (CArr c_ptr 2);
  fld "name" (CArr c_char 16);
  fld "bpf_exception_cb" c_ptr;
  fld "security" c_ptr;
  fld "offload" c_ptr;
  fld "btf" c_ptr;
  fld "func_info" c_ptr;
  fld "func_info_aux" c_ptr;
  fld "linfo" c_ptr;
  fld "jited_linfo" c_ptr;
  fld "func_info_cnt" t_u32;
  fld "nr_linfo" t_u32;
  fld "linfo_idx" t_u32;
  fld "mod" c_ptr;
  fld "num_exentries" t_u32;
  fld "extable" c_ptr;
  fld "" (union_ [
    fld "work" s_work_struct;
    fld "rcu" s_callback_head])].
Definition s_pcpu_freelist_head : ctype := struct_ [
  fld "first" c_ptr;
  fld "lock" t_raw_spinlock_t].
Definition s_pcpu_freelist : ctype := struct_ [
  fld "freelist" c_ptr;
  fld "extralist" s_pcpu_freelist_head].
Definition s_bpf_stack_map : ctype := struct_ [
  fld "map" s_bpf_map;
  fld "elems" c_ptr;
  fld "freelist" s_pcpu_freelist;
  fld "n_buckets" t_u32;
  fld "buckets" (CArr c_ptr 0);
  bitfld "" c_long 64;
  bitfld "" c_long 64;
  bitfld "" c_long 64].
Definition s_cpu_itimer : ctype := struct_ [
  fld "expires" t_u64;
  fld "incr" t_u64].
Definition s_task_cputime_atomic : ctype := struct_ [
  fld "utime" t_atomic64_t;
  fld "stime" t_atomic64_t;
  fld "sum_exec_runtime" t_atomic64_t].
Definition s_thread_group_cputimer : ctype := struct_ [
  fld "cputime_atomic" s_task_cputime_atomic].
Definition t_seqlock_t : ctype := struct_ [
    fld "seqcount" t_seqcount_spinlock_t;
    fld "lock" t_spinlock_t].
Definition s_rlimit : ctype := struct_ [
  fld "rlim_cur" t___kernel_ulong_t;
  fld "rlim_max" t___kernel_ulong_t].
Definition s_pacct_struct : ctype := struct_ [
  fld "ac_flag" c_int;
  fld "ac_exitcode" c_long;
  fld "ac_mem" c_long;
  fld "ac_utime" t_u64;
  fld "ac_stime" t_u64;
  fld "ac_minflt" c_long;
  fld "ac_majflt" c_long].
Definition s_signal_struct : ctype := struct_ [
  fld "sigcnt" t_refcount_t;
  fld "live" t_atomic_t;
  fld "nr_threads" c_int;
  fld "quick_threads" c_int;
  fld "thread_head" s_list_head;
  fld "wait_chldexit" t_wait_queue_head_t;
  fld "curr_target" c_ptr;
  fld "shared_pending" s_sigpending;
  fld "multiprocess" s_hlist_head;
  fld "group_exit_code" c_int;
  fld "notify_count" c_int;
  fld "group_exec_task" c_ptr;
  fld "group_stop_count" c_int;
  fld "flags" c_int;
  fld "core_state" c_ptr;
  bitfld "is_child_subreaper" c_int 1;
  bitfld "has_child_subreaper" c_int 1;
  fld "next_posix_timer_id" c_int;
  fld "posix_timers" s_list_head;
  fld "real_timer" s_hrtimer;
  fld "it_real_incr" t_ktime_t;
  fld "it" (CArr s_cpu_itimer 2);
  fld "cputimer" s_thread_group_cputimer;
  fld "posix_cputimers" s_posix_cputimers;
  fld "pids" (CArr c_ptr 4);
  fld "tick_dep_mask" t_atomic_t;
  fld "tty_old_pgrp" c_ptr;
  fld "leader" c_int;
  fld "tty" c_ptr;
  fld "autogroup" c_ptr;
  fld "stats_lock" t_seqlock_t;
  fld "utime" t_u64;
  fld "stime" t_u64;
  fld "cutime" t_u64;
  fld "cstime" t_u64;
  fld "gtime" t_u64;
  fld "cgtime" t_u64;
  fld "prev_cputime" s_prev_cputime;
  fld "nvcsw" c_long;
  fld "nivcsw" c_long;
  fld "cnvcsw" c_long;
  fld "cnivcsw" c_long;
  fld "min_flt" c_long;
  fld "maj_flt" c_long;
  fld "cmin_flt" c_long;
  fld "cmaj_flt" c_long;
  fld "inblock" c_long;
  fld "oublock" c_long;
  fld "cinblock" c_long;
  fld "coublock" c_long;
  fld "maxrss" c_long;
  fld "cmaxrss" c_long;
  fld "ioac" s_task_io_accounting;
  fld "sum_sched_runtime" c_long;
  fld "rlim" (CArr s_rlimit 16);
  fld "pacct" s_pacct_struct;
  fld "stats" c_ptr;
  fld "audit_tty" c_int;
  fld "tty_audit_buf" c_ptr;
  fld "oom_flag_origin" t_bool;
  fld "oom_score_adj" c_short;
  fld "oom_score_adj_min" c_short;
  fld "oom_mm" c_ptr;
  fld "cred_guard_mutex" s_mutex;
  fld "exec_update_lock" s_rw_semaphore].
Definition s_bpf_mem_alloc : ctype := struct_ [
  fld "caches" c_ptr;
  fld "cache" c_ptr;
  fld "objcg" c_ptr;
  fld "percpu" t_bool;
  fld "work" s_work_struct].
Definition s_bpf_lru_list : ctype := struct_ [
  fld "lists" (CArr s_list_head 3);
  fld "counts" (CArr c_int 2);
  fld "next_inactive_rotation" c_ptr;
  fld "lock" t_raw_spinlock_t;
  bitfld "" c_long 64;
  bitfld "" c_long 64;
  bitfld "" c_long 64;
  bitfld "" c_long 64;
  bitfld "" c_long 64;
  bitfld "" c_long 64;
  bitfld "" c_long 64].
Definition s_bpf_common_lru : ctype := struct_ [
  fld "lru_list" s_bpf_lru_list;
  fld "local_list" c_ptr;
  bitfld "" c_long 64;
  bitfld "" c_long 64;
  bitfld "" c_long 64;
  bitfld "" c_long 64;
  bitfld "" c_long 64;
  bitfld "" c_long 64;
  bitfld "" c_long 64].
Definition t_del_from_htab_func : ctype := c_ptr.
Definition s_bpf_lru : ctype := struct_ [
  fld "" (union_ [
    fld "common_lru" s_bpf_common_lru;
    fld "percpu_lru" c_ptr]);
  fld "del_from_htab" t_del_from_htab_func;
  fld "del_arg" c_ptr;
  fld "hash_offset" c_int;
  fld "target_free" c_int;
  fld "nr_scans" c_int;
  fld "percpu" t_bool;
  bitfld "" c_long 64;
  bitfld "" c_long 64;
  bitfld "" c_long 64;
  bitfld "" c_long 64].
Definition s_lock_class_key : ctype := struct_ [].
Definition s_bpf_htab : ctype := struct_ [
  fld "map" s_bpf_map;
  fld "ma" s_bpf_mem_alloc;
  fld "pcpu_ma" s_bpf_mem_alloc;
  fld "buckets" c_ptr;
  fld "elems" c_ptr;
  bitfld "" c_long 64;
  bitfld "" c_long 64;
  bitfld "" c_long 64;
  bitfld "" c_long 64;
  bitfld "" c_long 64;
  bitfld "" c_long 64;
  fld "" (union_ [
    fld "freelist" s_pcpu_freelist;
    fld "lru" s_bpf_lru]);
  fld "extra_elems" c_ptr;
  fld "pcount" s_percpu_counter;
  fld "count" t_atomic_t;
  fld "use_percpu_counter" t_bool;
  fld "n_buckets" t_u32;
  fld "elem_size" t_u32;
  fld "hashrnd" t_u32;
  fld "lockdep_key" s_lock_class_key;
  fld "map_locked" (CArr c_ptr 8);
  bitfld "" c_long 64;
  bitfld "" c_long 64;
  bitfld "" c_long 64;
  bitfld "" c_long 64;
  bitfld "" c_long 64;
  bitfld "" c_long 64;
  bitfld "" c_long 64].
Definition s_bpf_link : ctype := struct_ [
  fld "refcnt" t_atomic64_t;
  fld "id" t_u32;
  fld "type" c_int;
  fld "ops" c_ptr;
  fld "prog" c_ptr;
  fld "" (union_ [
    fld "rcu" s_callback_head;
    fld "work" s_work_struct])].
Definition s_trace_event : ctype := struct_ [
  fld "node" s_hlist_node;
  fld "type" c_int;
  fld "funcs" c_ptr].
Definition s_trace_event_call : ctype := struct_ [
  fld "list" s_list_head;
  fld "class" c_ptr;
  fld "" (union_ [
    fld "name" c_ptr;
    fld "tp" c_ptr]);
  fld "event" s_trace_event;
  fld "print_fmt" c_ptr;
  fld "filter" c_ptr;
  fld "" (union_ [
    fld "module" c_ptr;
    fld "refcnt" t_atomic_t]);
  fld "data" c_ptr;
  fld "flags" c_int;
  fld "perf_refcount" c_int;
  fld "perf_events" c_ptr;
  fld "prog_array" c_ptr;
  fld "perf_perm" c_ptr].
Definition s_perf_event_groups : ctype := struct_ [
  fld "tree" s_rb_root;
  fld "index" t_u64].
Definition s_perf_event_context : ctype := struct_ [
  fld "lock" t_raw_spinlock_t;
  fld "mutex" s_mutex;
  fld "pmu_ctx_list" s_list_head;
  fld "pinned_groups" s_perf_event_groups;
  fld "flexible_groups" s_perf_event_groups;
  fld "event_list" s_list_head;
  fld "nr_events" c_int;
  fld "nr_user" c_int;
  fld "is_active" c_int;
  fld "nr_task_data" c_int;
  fld "nr_stat" c_int;
  fld "nr_freq" c_int;
  fld "rotate_disable" c_int;
  fld "refcount" t_refcount_t;
  fld "task" c_ptr;
  fld "time" t_u64;
  fld "timestamp" t_u64;
  fld "timeoffset" t_u64;
  fld "parent_ctx" c_ptr;
  fld "parent_gen" t_u64;
  fld "generation" t_u64;
  fld "pin_count" c_int;
  fld "nr_cgroups" c_int;
  fld "callback_head" s_callback_head;
  fld "nr_pending" t_local_t].
Definition t_pgprotval_t : ctype := c_long.
Definition s_pgprot : ctype := struct_ [
  fld "pgprot" t_pgprotval_t].
Definition t_pgprot_t : ctype := s_pgprot.
Definition t_vm_flags_t : ctype := c_long.
Definition s_vm_userfaultfd_ctx : ctype := struct_ [
  fld "ctx" c_ptr].
Definition s_vm_area_struct : ctype := struct_ [
  fld "" (union_ [
    fld "" (struct_ [
      fld "vm_start" c_long;
      fld "vm_end" c_long]);
    fld "vm_rcu" s_callback_head]);
  fld "vm_mm" c_ptr;
  fld "vm_page_prot" t_pgprot_t;
  fld "" (union_ [
    fld "vm_flags" t_vm_flags_t;
    fld "__vm_flags" t_vm_flags_t]);
  fld "vm_lock_seq" c_int;
  fld "vm_lock" c_ptr;
  fld "detached" t_bool;
  fld "shared" (struct_ [
    fld "rb" s_rb_node;
    fld "rb_subtree_last" c_long]);
  fld "anon_vma_chain" s_list_head;
  fld "anon_vma" c_ptr;
  fld "vm_ops" c_ptr;
  fld "vm_pgoff" c_long;
  fld "vm_file" c_ptr;
  fld "vm_private_data" c_ptr;
  fld "anon_name" c_ptr;
  fld "swap_readahead_info" t_atomic_long_t;
  fld "vm_policy" c_ptr;
  fld "numab_state" c_ptr;
  fld "vm_userfaultfd_ctx" s_vm_userfaultfd_ctx].
Definition u_perf_sample_weight : ctype := union_ [
  fld "full" t___u64;
  fld "" (struct_ [
    fld "var1_dw" t___u32;
    fld "var2_w" t___u16;
    fld "var3_w" t___u16])].
Definition u_perf_mem_data_src : ctype := union_ [
  fld "val" t___u64;
  fld "" (struct_ [
    bitfld "mem_op" t___u64 5;
    bitfld "mem_lvl" t___u64 14;
    bitfld "mem_snoop" t___u64 5;
    bitfld "mem_lock" t___u64 2;
    bitfld "mem_dtlb" t___u64 7;
    bitfld "mem_lvl_num" t___u64 4;
    bitfld "mem_remote" t___u64 1;
    bitfld "mem_snoopx" t___u64 2;
    bitfld "mem_blk" t___u64 3;
    bitfld "mem_hops" t___u64 3;
    bitfld "mem_rsvd" t___u64 18])].
Definition s_perf_regs : ctype := struct_ [
  fld "abi" t___u64;
  fld "regs" c_ptr].
Definition s_perf_sample_data : ctype := struct_ [
  fld "sample_flags" t_u64;
  fld "period" t_u64;
  fld "dyn_size" t_u64;
  fld "type" t_u64;
  fld "tid_entry" (struct_ [
    fld "pid" t_u32;
    fld "tid" t_u32]);
  fld "time" t_u64;
  fld "id" t_u64;
  fld "cpu_entry" (struct_ [
    fld "cpu" t_u32;
    fld "reserved" t_u32]);
  fld "ip" t_u64;
  fld "callchain" c_ptr;
  fld "raw" c_ptr;
  fld "br_stack" c_ptr;
  fld "br_stack_cntr" c_ptr;
  fld "weight" u_perf_sample_weight;
  fld "data_src" u_perf_mem_data_src;
  fld "txn" t_u64;
  fld "regs_user" s_perf_regs;
  fld "regs_intr" s_perf_regs;
  fld "stack_user_size" t_u64;
  fld "stream_id" t_u64;
  fld "cgroup" t_u64;
  fld "addr" t_u64;
  fld "phys_addr" t_u64;
  fld "data_page_size" t_u64;
  fld "code_page_size" t_u64;
  fld "aux_size" t_u64;
  bitfld "" c_long 64;
  bitfld "" c_long 64;
  bitfld "" c_long 64;
  bitfld "" c_long 64].
Definition s_fred_cs : ctype := struct_ [
  bitfld "cs" t_u64 16;
  bitfld "sl" t_u64 2;
  bitfld "wfe" t_u64 1].
Definition s_fred_ss : ctype := struct_ [
  bitfld "ss" t_u64 16;
  bitfld "sti" t_u64 1;
  bitfld "swevent" t_u64 1;
  bitfld "nmi" t_u64 1;
  bitfld "" c_int 13;
  bitfld "vector" t_u64 8;
  bitfld "" c_short 8;
  bitfld "type" t_u64 4;
  bitfld "" c_char 4;
  bitfld "enclave" t_u64 1;
  bitfld "lm" t_u64 1;
  bitfld "nested" t_u64 1;
  bitfld "" c_char 1;
  bitfld "insnlen" t_u64 4].
Definition s_pt_regs : ctype := struct_ [
  fld "r15" c_long;
  fld "r14" c_long;
  fld "r13" c_long;
  fld "r12" c_long;
  fld "bp" c_long;
  fld "bx" c_long;
  fld "r11" c_long;
  fld "r10" c_long;
  fld "r9" c_long;
  fld "r8" c_long;
  fld "ax" c_long;
  fld "cx" c_long;
  fld "dx" c_long;
  fld "si" c_long;
  fld "di" c_long;
  fld "orig_ax" c_long;
  fld "ip" c_long;
  fld "" (union_ [
    fld "cs" t_u16;
    fld "csx" t_u64;
    fld "fred_cs" s_fred_cs]);
  fld "flags" c_long;
  fld "sp" c_long;
  fld "" (union_ [
    fld "ss" t_u16;
    fld "ssx" t_u64;
    fld "fred_ss" s_fred_ss])].
Definition s_bpf_map_ops : ctype := struct_ [
  fld "map_alloc_check" c_ptr;
  fld "map_alloc" c_ptr;
  fld "map_release" c_ptr;
  fld "map_free" c_ptr;
  fld "map_get_next_key" c_ptr;
  fld "map_release_uref" c_ptr;
  fld "map_lookup_elem_sys_only" c_ptr;
  fld "map_lookup_batch" c_ptr;
  fld "map_lookup_and_delete_elem" c_ptr;
  fld "map_lookup_and_delete_batch" c_ptr;
  fld "map_update_batch" c_ptr;
  fld "map_delete_batch" c_ptr;
  fld "map_lookup_elem" c_ptr;
  fld "map_update_elem" c_ptr;
  fld "map_delete_elem" c_ptr;
  fld "map_push_elem" c_ptr;
  fld "map_pop_elem" c_ptr;
  fld "map_peek_elem" c_ptr;
  fld "map_lookup_percpu_elem" c_ptr;
  fld "map_fd_get_ptr" c_ptr;
  fld "map_fd_put_ptr" c_ptr;
  fld "map_gen_lookup" c_ptr;
  fld "map_fd_sys_lookup_elem" c_ptr;
  fld "map_seq_show_elem" c_ptr;
  fld "map_check_btf" c_ptr;
  fld "map_poke_track" c_ptr;
  fld "map_poke_untrack" c_ptr;
  fld "map_poke_run" c_ptr;
  fld "map_direct_value_addr" c_ptr;
  fld "map_direct_value_meta" c_ptr;
  fld "map_mmap" c_ptr;
  fld "map_poll" c_ptr;
  fld "map_local_storage_charge" c_ptr;
  fld "map_local_storage_uncharge" c_ptr;
  fld "map_owner_storage_ptr" c_ptr;
  fld "map_redirect" c_ptr;
  fld "map_meta_equal" c_ptr;
  fld "map_set_for_each_callback_args" c_ptr;
  fld "map_for_each_callback" c_ptr;
  fld "map_mem_usage" c_ptr;
  fld "map_btf_id" c_ptr;
  fld "iter_seq_info" c_ptr].
Definition t___kernel_gid32_t : ctype := c_int.
Definition t_gid_t : ctype := t___kernel_gid32_t.
Definition t_kgid_t : ctype := struct_ [
    fld "val" t_gid_t].
Definition t_kernel_cap_t : ctype := struct_ [
    fld "val" t_u64].
Definition s_cred : ctype := struct_ [
  fld "usage" t_atomic_long_t;
  fld "uid" t_kuid_t;
  fld "gid" t_kgid_t;
  fld "suid" t_kuid_t;
  fld "sgid" t_kgid_t;
  fld "euid" t_kuid_t;
  fld "egid" t_kgid_t;
  fld "fsuid" t_kuid_t;
  fld "fsgid" t_kgid_t;
  fld "securebits" c_int;
  fld "cap_inheritable" t_kernel_cap_t;
  fld "cap_permitted" t_kernel_cap_t;
  fld "cap_effective" t_kernel_cap_t;
  fld "cap_bset" t_kernel_cap_t;
  fld "cap_ambient" t_kernel_cap_t;
  fld "jit_keyring" c_char;
  fld "session_keyring" c_ptr;
  fld "process_keyring" c_ptr;
  fld "thread_keyring" c_ptr;
  fld "request_key_auth" c_ptr;
  fld "security" c_ptr;
  fld "user" c_ptr;
  fld "user_ns" c_ptr;
  fld "ucounts" c_ptr;
  fld "group_info" c_ptr;
  fld "" (union_ [
    fld "non_rcu" c_int;
    fld "rcu" s_callback_head])].
Definition s_perf_callchain_entry : ctype := struct_ [
  fld "nr" t___u64;
  fld "ip" (CArr t___u64 0)].
Definition s_sched_class : ctype := struct_ [
  fld "uclamp_enabled" c_int;
  fld "enqueue_task" c_ptr;
  fld "dequeue_task" c_ptr;
  fld "yield_task" c_ptr;
  fld "yield_to_task" c_ptr;
  fld "wakeup_preempt" c_ptr;
  fld "pick_next_task" c_ptr;
  fld "put_prev_task" c_ptr;
  fld "set_next_task" c_ptr;
  fld "balance" c_ptr;
  fld "select_task_rq" c_ptr;
  fld "pick_task" c_ptr;
  fld "migrate_task_rq" c_ptr;
  fld "task_woken" c_ptr;
  fld "set_cpus_allowed" c_ptr;
  fld "rq_online" c_ptr;
  fld "rq_offline" c_ptr;
  fld "find_lock_rq" c_ptr;
  fld "task_tick" c_ptr;
  fld "task_fork" c_ptr;
  fld "task_dead" c_ptr;
  fld "switched_from" c_ptr;
  fld "switched_to" c_ptr;
  fld "prio_changed" c_ptr;
  fld "get_rr_interval" c_ptr;
  fld "update_curr" c_ptr;
  fld "task_change_group" c_ptr;
  fld "task_is_throttled" c_ptr].
Definition s_static_key : ctype := struct_ [
  fld "enabled" t_atomic_t;
  fld "" (union_ [
    fld "type" c_long;
    fld "entries" c_ptr;
    fld "next" c_ptr])].
Definition s_tracepoint : ctype := struct_ [
  fld "name" c_ptr;
  fld "key" s_static_key;
  fld "static_call_key" c_ptr;
  fld "static_call_tramp" c_ptr;
  fld "iterator" c_ptr;
  fld "probestub" c_ptr;
  fld "regfunc" c_ptr;
  fld "unregfunc" c_ptr;
  fld "funcs" c_ptr].
Definition s_bpf_raw_event_map : ctype := struct_ [
  fld "tp" c_ptr;
  fld "bpf_func" c_ptr;
  fld "num_args" t_u32;
  fld "writable_size" t_u32;
  bitfld "" c_long 64].
Definition s_bpf_perf_link : ctype := struct_ [
  fld "link" s_bpf_link;
  fld "perf_file" c_ptr].
Definition s_perf_cpu_context : ctype := struct_ [
  fld "ctx" s_perf_event_context;
  fld "task_ctx" c_ptr;
  fld "online" c_int;
  fld "cgrp" c_ptr;
  fld "heap_size" c_int;
  fld "heap" c_ptr;
  fld "heap_default" (CArr c_ptr 2)].
Definition s_percpu_ref : ctype := struct_ [
  fld "percpu_count_ptr" c_long;
  fld "data" c_ptr].
Definition s_rcu_work : ctype := struct_ [
  fld "work" s_work_struct;
  fld "rcu" s_callback_head;
  fld "wq" c_ptr].
Definition s_cgroup_subsys_state : ctype := struct_ [
  fld "cgroup" c_ptr;
  fld "ss" c_ptr;
  fld "refcnt" s_percpu_ref;
  fld "sibling" s_list_head;
  fld "children" s_list_head;
  fld "rstat_css_node" s_list_head;
  fld "id" c_int;
  fld "flags" c_int;
  fld "serial_nr" t_u64;
  fld "online_cnt" t_atomic_t;
  fld "destroy_work" s_work_struct;
  fld "destroy_rwork" s_rcu_work;
  fld "parent" c_ptr].
Definition s_perf_cgroup : ctype := struct_ [
  fld "css" s_cgroup_subsys_state;
  fld "info" c_ptr].
Definition u_bpf_attr : ctype := union_ [
  fld "" (struct_ [
    fld "map_type" t___u32;
    fld "key_size" t___u32;
    fld "value_size" t___u32;
    fld "max_entries" t___u32;
    fld "map_flags" t___u32;
    fld "inner_map_fd" t___u32;
    fld "numa_node" t___u32;
    fld "map_name" (CArr c_char 16);
    fld "map_ifindex" t___u32;
    fld "btf_fd" t___u32;
    fld "btf_key_type_id" t___u32;
    fld "btf_value_type_id" t___u32;
    fld "btf_vmlinux_value_type_id" t___u32;
    fld "map_extra" t___u64]);
  fld "" (struct_ [
    fld "map_fd" t___u32;
    fld "key" t___u64;
    fld "" (union_ [
      fld "value" t___u64;
      fld "next_key" t___u64]);
    fld "flags" t___u64]);
  fld "batch" (struct_ [
    fld "in_batch" t___u64;
    fld "out_batch" t___u64;
    fld "keys" t___u64;
    fld "values" t___u64;
    fld "count" t___u32;
    fld "map_fd" t___u32;
    fld "elem_flags" t___u64;
    fld "flags" t___u64]);
  fld "" (struct_ [
    fld "prog_type" t___u32;
    fld "insn_cnt" t___u32;
    fld "insns" t___u64;
    fld "license" t___u64;
    fld "log_level" t___u32;
    fld "log_size" t___u32;
    fld "log_buf" t___u64;
    fld "kern_version" t___u32;
    fld "prog_flags" t___u32;
    fld "prog_name" (CArr c_char 16);
    fld "prog_ifindex" t___u32;
    fld "expected_attach_type" t___u32;
    fld "prog_btf_fd" t___u32;
    fld "func_info_rec_size" t___u32;
    fld "func_info" t___u64;
    fld "func_info_cnt" t___u32;
    fld "line_info_rec_size" t___u32;
    fld "line_info" t___u64;
    fld "line_info_cnt" t___u32;
    fld "attach_btf_id" t___u32;
    fld "" (union_ [
      fld "attach_prog_fd" t___u32;
      fld "attach_btf_obj_fd" t___u32]);
    fld "core_relo_cnt" t___u32;
    fld "fd_array" t___u64;
    fld "core_relos" t___u64;
    fld "core_relo_rec_size" t___u32;
    fld "log_true_size" t___u32]);
  fld "" (struct_ [
    fld "pathname" t___u64;
    fld "bpf_fd" t___u32;
    fld "file_flags" t___u32;
    fld "path_fd" t___s32]);
  fld "" (struct_ [
    fld "" (union_ [
      fld "target_fd" t___u32;
      fld "target_ifindex" t___u32]);
    fld "attach_bpf_fd" t___u32;
    fld "attach_type" t___u32;
    fld "attach_flags" t___u32;
    fld "replace_bpf_fd" t___u32;
    fld "" (union_ [
      fld "relative_fd" t___u32;
      fld "relative_id" t___u32]);
    fld "expected_revision" t___u64]);
  fld "test" (struct_ [
    fld "prog_fd" t___u32;
    fld "retval" t___u32;
    fld "data_size_in" t___u32;
    fld "data_size_out" t___u32;
    fld "data_in" t___u64;
    fld "data_out" t___u64;
    fld "repeat" t___u32;
    fld "duration" t___u32;
    fld "ctx_size_in" t___u32;
    fld "ctx_size_out" t___u32;
    fld "ctx_in" t___u64;
    fld "ctx_out" t___u64;
    fld "flags" t___u32;
    fld "cpu" t___u32;
    fld "batch_size" t___u32]);
  fld "" (struct_ [
    fld "" (union_ [
      fld "start_id" t___u32;
      fld "prog_id" t___u32;
      fld "map_id" t___u32;
      fld "btf_id" t___u32;
      fld "link_id" t___u32]);
    fld "next_id" t___u32;
    fld "open_flags" t___u32]);
  fld "info" (struct_ [
    fld "bpf_fd" t___u32;
    fld "info_len" t___u32;
    fld "info" t___u64]);
  fld "query" (struct_ [
    fld "" (union_ [
      fld "target_fd" t___u32;
      fld "target_ifindex" t___u32]);
    fld "attach_type" t___u32;
    fld "query_flags" t___u32;
    fld "attach_flags" t___u32;
    fld "prog_ids" t___u64;
    fld "" (union_ [
      fld "prog_cnt" t___u32;
      fld "count" t___u32]);
    fld "prog_attach_flags" t___u64;
    fld "link_ids" t___u64;
    fld "link_attach_flags" t___u64;
    fld "revision" t___u64]);
  fld "raw_tracepoint" (struct_ [
    fld "name" t___u64;
    fld "prog_fd" t___u32]);
  fld "" (struct_ [
    fld "btf" t___u64;
    fld "btf_log_buf" t___u64;
    fld "btf_size" t___u32;
    fld "btf_log_size" t___u32;
    fld "btf_log_level" t___u32;
    fld "btf_log_true_size" t___u32]);
  fld "task_fd_query" (struct_ [
    fld "pid" t___u32;
    fld "fd" t___u32;
    fld "flags" t___u32;
    fld "buf_len" t___u32;
    fld "buf" t___u64;
    fld "prog_id" t___u32;
    fld "fd_type" t___u32;
    fld "probe_offset" t___u64;
    fld "probe_addr" t___u64]);
  fld "link_create" (struct_ [
    fld "" (union_ [
      fld "prog_fd" t___u32;
      fld "map_fd" t___u32]);
    fld "" (union_ [
      fld "target_fd" t___u32;
      fld "target_ifindex" t___u32]);
    fld "attach_type" t___u32;
    fld "flags" t___u32;
    fld "" (union_ [
      fld "target_btf_id" t___u32;
      fld "" (struct_ [
        fld "iter_info" t___u64;
        fld "iter_info_len" t___u32]);
      fld "perf_event" (struct_ [
        fld "bpf_cookie" t___u64]);
      fld "kprobe_multi" (struct_ [
        fld "flags" t___u32;
        fld "cnt" t___u32;
        fld "syms" t___u64;
        fld "addrs" t___u64;
        fld "cookies" t___u64]);
      fld "tracing" (struct_ [
        fld "target_btf_id" t___u32;
        fld "cookie" t___u64]);
      fld "netfilter" (struct_ [
        fld "pf" t___u32;
        fld "hooknum" t___u32;
        fld "priority" t___s32;
        fld "flags" t___u32]);
      fld "tcx" (struct_ [
        fld "" (union_ [
          fld "relative_fd" t___u32;
          fld "relative_id" t___u32]);
        fld "expected_revision" t___u64]);
      fld "uprobe_multi" (struct_ [
        fld "path" t___u64;
        fld "offsets" t___u64;
        fld "ref_ctr_offsets" t___u64;
        fld "cookies" t___u64;
        fld "cnt" t___u32;
        fld "flags" t___u32;
        fld "pid" t___u32]);
      fld "netkit" (struct_ [
        fld "" (union_ [
          fld "relative_fd" t___u32;
          fld "relative_id" t___u32]);
        fld "expected_revision" t___u64])])]);
  fld "link_update" (struct_ [
    fld "link_fd" t___u32;
    fld "" (union_ [
      fld "new_prog_fd" t___u32;
      fld "new_map_fd" t___u32]);
    fld "flags" t___u32;
    fld "" (union_ [
      fld "old_prog_fd" t___u32;
      fld "old_map_fd" t___u32])]);
  fld "link_detach" (struct_ [
    fld "link_fd" t___u32]);
  fld "enable_stats" (struct_ [
    fld "type" t___u32]);
  fld "iter_create" (struct_ [
    fld "link_fd" t___u32;
    fld "flags" t___u32]);
  fld "prog_bind_map" (struct_ [
    fld "prog_fd" t___u32;
    fld "map_fd" t___u32;
    fld "flags" t___u32])].
Definition e_bpf_prog_type : list (string * option Z) := [
  ("BPF_PROG_TYPE_UNSPEC", Some 0); ("BPF_PROG_TYPE_SOCKET_FILTER", Some 1);
  ("BPF_PROG_TYPE_KPROBE", Some 2); ("BPF_PROG_TYPE_SCHED_CLS", Some 3); ("BPF_PROG_TYPE_SCHED_ACT",
  Some 4); ("BPF_PROG_TYPE_TRACEPOINT", Some 5); ("BPF_PROG_TYPE_XDP", Some 6);
  ("BPF_PROG_TYPE_PERF_EVENT", Some 7); ("BPF_PROG_TYPE_CGROUP_SKB", Some 8);
  ("BPF_PROG_TYPE_CGROUP_SOCK", Some 9); ("BPF_PROG_TYPE_LWT_IN", Some 10);
  ("BPF_PROG_TYPE_LWT_OUT", Some 11); ("BPF_PROG_TYPE_LWT_XMIT", Some 12);
  ("BPF_PROG_TYPE_SOCK_OPS", Some 13); ("BPF_PROG_TYPE_SK_SKB", Some 14);
  ("BPF_PROG_TYPE_CGROUP_DEVICE", Some 15); ("BPF_PROG_TYPE_SK_MSG", Some 16);
  ("BPF_PROG_TYPE_RAW_TRACEPOINT", Some 17); ("BPF_PROG_TYPE_CGROUP_SOCK_ADDR", Some 18);
  ("BPF_PROG_TYPE_LWT_SEG6LOCAL", Some 19); ("BPF_PROG_TYPE_LIRC_MODE2", Some 20);
  ("BPF_PROG_TYPE_SK_REUSEPORT", Some 21); ("BPF_PROG_TYPE_FLOW_DISSECTOR", Some 22);
  ("BPF_PROG_TYPE_CGROUP_SYSCTL", Some 23); ("BPF_PROG_TYPE_RAW_TRACEPOINT_WRITABLE", Some 24);
  ("BPF_PROG_TYPE_CGROUP_SOCKOPT", Some 25); ("BPF_PROG_TYPE_TRACING", Some 26);
  ("BPF_PROG_TYPE_STRUCT_OPS", Some 27); ("BPF_PROG_TYPE_EXT", Some 28); ("BPF_PROG_TYPE_LSM", Some
  29); ("BPF_PROG_TYPE_SK_LOOKUP", Some 30); ("BPF_PROG_TYPE_SYSCALL", Some 31);
  ("BPF_PROG_TYPE_NETFILTER", Some 32); ("__MAX_BPF_PROG_TYPE", Some 33)].
Definition e_bpf_attach_type : list (string * option Z) := [
  ("BPF_CGROUP_INET_INGRESS", Some 0); ("BPF_CGROUP_INET_EGRESS", Some 1);
  ("BPF_CGROUP_INET_SOCK_CREATE", Some 2); ("BPF_CGROUP_SOCK_OPS", Some 3);
  ("BPF_SK_SKB_STREAM_PARSER", Some 4); ("BPF_SK_SKB_STREAM_VERDICT", Some 5); ("BPF_CGROUP_DEVICE",
  Some 6); ("BPF_SK_MSG_VERDICT", Some 7); ("BPF_CGROUP_INET4_BIND", Some 8);
  ("BPF_CGROUP_INET6_BIND", Some 9); ("BPF_CGROUP_INET4_CONNECT", Some 10);
  ("BPF_CGROUP_INET6_CONNECT", Some 11); ("BPF_CGROUP_INET4_POST_BIND", Some 12);
  ("BPF_CGROUP_INET6_POST_BIND", Some 13); ("BPF_CGROUP_UDP4_SENDMSG", Some 14);
  ("BPF_CGROUP_UDP6_SENDMSG", Some 15); ("BPF_LIRC_MODE2", Some 16); ("BPF_FLOW_DISSECTOR", Some
  17); ("BPF_CGROUP_SYSCTL", Some 18); ("BPF_CGROUP_UDP4_RECVMSG", Some 19);
  ("BPF_CGROUP_UDP6_RECVMSG", Some 20); ("BPF_CGROUP_GETSOCKOPT", Some 21);
  ("BPF_CGROUP_SETSOCKOPT", Some 22); ("BPF_TRACE_RAW_TP", Some 23); ("BPF_TRACE_FENTRY", Some 24);
  ("BPF_TRACE_FEXIT", Some 25); ("BPF_MODIFY_RETURN", Some 26); ("BPF_LSM_MAC", Some 27);
  ("BPF_TRACE_ITER", Some 28); ("BPF_CGROUP_INET4_GETPEERNAME", Some 29);
  ("BPF_CGROUP_INET6_GETPEERNAME", Some 30); ("BPF_CGROUP_INET4_GETSOCKNAME", Some 31);
  ("BPF_CGROUP_INET6_GETSOCKNAME", Some 32); ("BPF_XDP_DEVMAP", Some 33);
  ("BPF_CGROUP_INET_SOCK_RELEASE", Some 34); ("BPF_XDP_CPUMAP", Some 35); ("BPF_SK_LOOKUP", Some
  36); ("BPF_XDP", Some 37); ("BPF_SK_SKB_VERDICT", Some 38); ("BPF_SK_REUSEPORT_SELECT", Some 39);
  ("BPF_SK_REUSEPORT_SELECT_OR_MIGRATE", Some 40); ("BPF_PERF_EVENT", Some 41);
  ("BPF_TRACE_KPROBE_MULTI", Some 42); ("BPF_LSM_CGROUP", Some 43); ("BPF_STRUCT_OPS", Some 44);
  ("BPF_NETFILTER", Some 45); ("BPF_TCX_INGRESS", Some 46); ("BPF_TCX_EGRESS", Some 47);
  ("BPF_TRACE_UPROBE_MULTI", Some 48); ("BPF_CGROUP_UNIX_CONNECT", Some 49);
  ("BPF_CGROUP_UNIX_SENDMSG", Some 50); ("BPF_CGROUP_UNIX_RECVMSG", Some 51);
  ("BPF_CGROUP_UNIX_GETPEERNAME", Some 52); ("BPF_CGROUP_UNIX_GETSOCKNAME", Some 53);
  ("BPF_NETKIT_PRIMARY", Some 54); ("BPF_NETKIT_PEER", Some 55); ("__MAX_BPF_ATTACH_TYPE", Some 56)].
Definition e_bpf_netdev_command : list (string * option Z) := [
  ("XDP_SETUP_PROG", Some 0); ("XDP_SETUP_PROG_HW", Some 1); ("BPF_OFFLOAD_MAP_ALLOC", Some 2);
  ("BPF_OFFLOAD_MAP_FREE", Some 3); ("XDP_SETUP_XSK_POOL", Some 4)].
Definition e_bpf_map_type : list (string * option Z) := [
  ("BPF_MAP_TYPE_UNSPEC", Some 0); ("BPF_MAP_TYPE_HASH", Some 1); ("BPF_MAP_TYPE_ARRAY", Some 2);
  ("BPF_MAP_TYPE_PROG_ARRAY", Some 3); ("BPF_MAP_TYPE_PERF_EVENT_ARRAY", Some 4);
  ("BPF_MAP_TYPE_PERCPU_HASH", Some 5); ("BPF_MAP_TYPE_PERCPU_ARRAY", Some 6);
  ("BPF_MAP_TYPE_STACK_TRACE", Some 7); ("BPF_MAP_TYPE_CGROUP_ARRAY", Some 8);
  ("BPF_MAP_TYPE_LRU_HASH", Some 9); ("BPF_MAP_TYPE_LRU_PERCPU_HASH", Some 10);
  ("BPF_MAP_TYPE_LPM_TRIE", Some 11); ("BPF_MAP_TYPE_ARRAY_OF_MAPS", Some 12);
  ("BPF_MAP_TYPE_HASH_OF_MAPS", Some 13); ("BPF_MAP_TYPE_DEVMAP", Some 14); ("BPF_MAP_TYPE_SOCKMAP",
  Some 15); ("BPF_MAP_TYPE_CPUMAP", Some 16); ("BPF_MAP_TYPE_XSKMAP", Some 17);
  ("BPF_MAP_TYPE_SOCKHASH", Some 18); ("BPF_MAP_TYPE_CGROUP_STORAGE_DEPRECATED", Some 19);
  ("BPF_MAP_TYPE_CGROUP_STORAGE", Some 19); ("BPF_MAP_TYPE_REUSEPORT_SOCKARRAY", Some 20);
  ("BPF_MAP_TYPE_PERCPU_CGROUP_STORAGE_DEPRECATED", Some 21); ("BPF_MAP_TYPE_PERCPU_CGROUP_STORAGE",
  Some 21); ("BPF_MAP_TYPE_QUEUE", Some 22); ("BPF_MAP_TYPE_STACK", Some 23);
  ("BPF_MAP_TYPE_SK_STORAGE", Some 24); ("BPF_MAP_TYPE_DEVMAP_HASH", Some 25);
  ("BPF_MAP_TYPE_STRUCT_OPS", Some 26); ("BPF_MAP_TYPE_RINGBUF", Some 27);
  ("BPF_MAP_TYPE_INODE_STORAGE", Some 28); ("BPF_MAP_TYPE_TASK_STORAGE", Some 29);
  ("BPF_MAP_TYPE_BLOOM_FILTER", Some 30); ("BPF_MAP_TYPE_USER_RINGBUF", Some 31);
  ("BPF_MAP_TYPE_CGRP_STORAGE", Some 32)].
Definition e_bpf_cgroup_iter_order : list (string * option Z) := [
  ("BPF_CGROUP_ITER_ORDER_UNSPEC", Some 0); ("BPF_CGROUP_ITER_SELF_ONLY", Some 1);
  ("BPF_CGROUP_ITER_DESCENDANTS_PRE", Some 2); ("BPF_CGROUP_ITER_DESCENDANTS_POST", Some 3);
  ("BPF_CGROUP_ITER_ANCESTORS_UP", Some 4)].
Definition e_bpf_link_type : list (string * option Z) := [
  ("BPF_LINK_TYPE_UNSPEC", Some 0); ("BPF_LINK_TYPE_RAW_TRACEPOINT", Some 1);
  ("BPF_LINK_TYPE_TRACING", Some 2); ("BPF_LINK_TYPE_CGROUP", Some 3); ("BPF_LINK_TYPE_ITER", Some
  4); ("BPF_LINK_TYPE_NETNS", Some 5); ("BPF_LINK_TYPE_XDP", Some 6); ("BPF_LINK_TYPE_PERF_EVENT",
  Some 7); ("BPF_LINK_TYPE_KPROBE_MULTI", Some 8); ("BPF_LINK_TYPE_STRUCT_OPS", Some 9);
  ("BPF_LINK_TYPE_NETFILTER", Some 10); ("BPF_LINK_TYPE_TCX", Some 11);
  ("BPF_LINK_TYPE_UPROBE_MULTI", Some 12); ("BPF_LINK_TYPE_NETKIT", Some 13);
  ("__MAX_BPF_LINK_TYPE", Some 14)].
Definition e_bpf_iter_task_type : list (string * option Z) := [
  ("BPF_TASK_ITER_ALL", Some 0); ("BPF_TASK_ITER_TID", Some 1); ("BPF_TASK_ITER_TGID", Some 2)].
Definition e_bpf_reg_type : list (string * option Z) := [
  ("NOT_INIT", Some 0); ("SCALAR_VALUE", Some 1); ("PTR_TO_CTX", Some 2); ("CONST_PTR_TO_MAP", Some
  3); ("PTR_TO_MAP_VALUE", Some 4); ("PTR_TO_MAP_KEY", Some 5); ("PTR_TO_STACK", Some 6);
  ("PTR_TO_PACKET_META", Some 7); ("PTR_TO_PACKET", Some 8); ("PTR_TO_PACKET_END", Some 9);
  ("PTR_TO_FLOW_KEYS", Some 10); ("PTR_TO_SOCKET", Some 11); ("PTR_TO_SOCK_COMMON", Some 12);
  ("PTR_TO_TCP_SOCK", Some 13); ("PTR_TO_TP_BUFFER", Some 14); ("PTR_TO_XDP_SOCK", Some 15);
  ("PTR_TO_BTF_ID", Some 16); ("PTR_TO_MEM", Some 17); ("PTR_TO_BUF", Some 18); ("PTR_TO_FUNC", Some
  19); ("CONST_PTR_TO_DYNPTR", Some 20); ("__BPF_REG_TYPE_MAX", Some 21);
  ("PTR_TO_MAP_VALUE_OR_NULL", Some 260); ("PTR_TO_SOCKET_OR_NULL", Some 267);
  ("PTR_TO_SOCK_COMMON_OR_NULL", Some 268); ("PTR_TO_TCP_SOCK_OR_NULL", Some 269);
  ("PTR_TO_BTF_ID_OR_NULL", Some 272); ("__BPF_REG_TYPE_LIMIT", Some 134217727)].
Definition e_bpf_tramp_prog_type : list (string * option Z) := [
  ("BPF_TRAMP_FENTRY", Some 0); ("BPF_TRAMP_FEXIT", Some 1); ("BPF_TRAMP_MODIFY_RETURN", Some 2);
  ("BPF_TRAMP_MAX", Some 3); ("BPF_TRAMP_REPLACE", Some 4)].
Definition e_bpf_jit_poke_reason : list (string * option Z) := [
  ("BPF_POKE_REASON_TAIL_CALL", Some 0)].
Definition e_bpf_text_poke_type : list (string * option Z) := [
  ("BPF_MOD_CALL", Some 0); ("BPF_MOD_JUMP", Some 1)].
Definition e_bpf_task_fd_type : list (string * option Z) := [
  ("BPF_FD_TYPE_RAW_TRACEPOINT", Some 0); ("BPF_FD_TYPE_TRACEPOINT", Some 1); ("BPF_FD_TYPE_KPROBE",
  Some 2); ("BPF_FD_TYPE_KRETPROBE", Some 3); ("BPF_FD_TYPE_UPROBE", Some 4);
  ("BPF_FD_TYPE_URETPROBE", Some 5)].
Definition e_bpf_cgroup_storage_type : list (string * option Z) := [
  ("BPF_CGROUP_STORAGE_SHARED", Some 0); ("BPF_CGROUP_STORAGE_PERCPU", Some 1);
  ("__BPF_CGROUP_STORAGE_MAX", Some 2)].
Definition e_bpf_xdp_mode : list (string * option Z) := [
  ("XDP_MODE_SKB", Some 0); ("XDP_MODE_DRV", Some 1); ("XDP_MODE_HW", Some 2); ("__MAX_XDP_MODE",
  Some 3)].
Definition e_bpf_func_id : list (string * option Z) := [
  ("BPF_FUNC_unspec", Some 0); ("BPF_FUNC_map_lookup_elem", Some 1); ("BPF_FUNC_map_update_elem",
  Some 2); ("BPF_FUNC_map_delete_elem", Some 3); ("BPF_FUNC_probe_read", Some 4);
  ("BPF_FUNC_ktime_get_ns", Some 5); ("BPF_FUNC_trace_printk", Some 6); ("BPF_FUNC_get_prandom_u32",
  Some 7); ("BPF_FUNC_get_smp_processor_id", Some 8); ("BPF_FUNC_skb_store_bytes", Some 9);
  ("BPF_FUNC_l3_csum_replace", Some 10); ("BPF_FUNC_l4_csum_replace", Some 11);
  ("BPF_FUNC_tail_call", Some 12); ("BPF_FUNC_clone_redirect", Some 13);
  ("BPF_FUNC_get_current_pid_tgid", Some 14); ("BPF_FUNC_get_current_uid_gid", Some 15);
  ("BPF_FUNC_get_current_comm", Some 16); ("BPF_FUNC_get_cgroup_classid", Some 17);
  ("BPF_FUNC_skb_vlan_push", Some 18); ("BPF_FUNC_skb_vlan_pop", Some 19);
  ("BPF_FUNC_skb_get_tunnel_key", Some 20); ("BPF_FUNC_skb_set_tunnel_key", Some 21);
  ("BPF_FUNC_perf_event_read", Some 22); ("BPF_FUNC_redirect", Some 23);
  ("BPF_FUNC_get_route_realm", Some 24); ("BPF_FUNC_perf_event_output", Some 25);
  ("BPF_FUNC_skb_load_bytes", Some 26); ("BPF_FUNC_get_stackid", Some 27); ("BPF_FUNC_csum_diff",
  Some 28); ("BPF_FUNC_skb_get_tunnel_opt", Some 29); ("BPF_FUNC_skb_set_tunnel_opt", Some 30);
  ("BPF_FUNC_skb_change_proto", Some 31); ("BPF_FUNC_skb_change_type", Some 32);
  ("BPF_FUNC_skb_under_cgroup", Some 33); ("BPF_FUNC_get_hash_recalc", Some 34);
  ("BPF_FUNC_get_current_task", Some 35); ("BPF_FUNC_probe_write_user", Some 36);
  ("BPF_FUNC_current_task_under_cgroup", Some 37); ("BPF_FUNC_skb_change_tail", Some 38);
  ("BPF_FUNC_skb_pull_data", Some 39); ("BPF_FUNC_csum_update", Some 40);
  ("BPF_FUNC_set_hash_invalid", Some 41); ("BPF_FUNC_get_numa_node_id", Some 42);
  ("BPF_FUNC_skb_change_head", Some 43); ("BPF_FUNC_xdp_adjust_head", Some 44);
  ("BPF_FUNC_probe_read_str", Some 45); ("BPF_FUNC_get_socket_cookie", Some 46);
  ("BPF_FUNC_get_socket_uid", Some 47); ("BPF_FUNC_set_hash", Some 48); ("BPF_FUNC_setsockopt", Some
  49); ("BPF_FUNC_skb_adjust_room", Some 50); ("BPF_FUNC_redirect_map", Some 51);
  ("BPF_FUNC_sk_redirect_map", Some 52); ("BPF_FUNC_sock_map_update", Some 53);
  ("BPF_FUNC_xdp_adjust_meta", Some 54); ("BPF_FUNC_perf_event_read_value", Some 55);
  ("BPF_FUNC_perf_prog_read_value", Some 56); ("BPF_FUNC_getsockopt", Some 57);
  ("BPF_FUNC_override_return", Some 58); ("BPF_FUNC_sock_ops_cb_flags_set", Some 59);
  ("BPF_FUNC_msg_redirect_map", Some 60); ("BPF_FUNC_msg_apply_bytes", Some 61);
  ("BPF_FUNC_msg_cork_bytes", Some 62); ("BPF_FUNC_msg_pull_data", Some 63); ("BPF_FUNC_bind", Some
  64); ("BPF_FUNC_xdp_adjust_tail", Some 65); ("BPF_FUNC_skb_get_xfrm_state", Some 66);
  ("BPF_FUNC_get_stack", Some 67); ("BPF_FUNC_skb_load_bytes_relative", Some 68);
  ("BPF_FUNC_fib_lookup", Some 69); ("BPF_FUNC_sock_hash_update", Some 70);
  ("BPF_FUNC_msg_redirect_hash", Some 71); ("BPF_FUNC_sk_redirect_hash", Some 72);
  ("BPF_FUNC_lwt_push_encap", Some 73); ("BPF_FUNC_lwt_seg6_store_bytes", Some 74);
  ("BPF_FUNC_lwt_seg6_adjust_srh", Some 75); ("BPF_FUNC_lwt_seg6_action", Some 76);
  ("BPF_FUNC_rc_repeat", Some 77); ("BPF_FUNC_rc_keydown", Some 78); ("BPF_FUNC_skb_cgroup_id", Some
  79); ("BPF_FUNC_get_current_cgroup_id", Some 80); ("BPF_FUNC_get_local_storage", Some 81);
  ("BPF_FUNC_sk_select_reuseport", Some 82); ("BPF_FUNC_skb_ancestor_cgroup_id", Some 83);
  ("BPF_FUNC_sk_lookup_tcp", Some 84); ("BPF_FUNC_sk_lookup_udp", Some 85); ("BPF_FUNC_sk_release",
  Some 86); ("BPF_FUNC_map_push_elem", Some 87); ("BPF_FUNC_map_pop_elem", Some 88);
  ("BPF_FUNC_map_peek_elem", Some 89); ("BPF_FUNC_msg_push_data", Some 90);
  ("BPF_FUNC_msg_pop_data", Some 91); ("BPF_FUNC_rc_pointer_rel", Some 92); ("BPF_FUNC_spin_lock",
  Some 93); ("BPF_FUNC_spin_unlock", Some 94); ("BPF_FUNC_sk_fullsock", Some 95);
  ("BPF_FUNC_tcp_sock", Some 96); ("BPF_FUNC_skb_ecn_set_ce", Some 97);
  ("BPF_FUNC_get_listener_sock", Some 98); ("BPF_FUNC_skc_lookup_tcp", Some 99);
  ("BPF_FUNC_tcp_check_syncookie", Some 100); ("BPF_FUNC_sysctl_get_name", Some 101);
  ("BPF_FUNC_sysctl_get_current_value", Some 102); ("BPF_FUNC_sysctl_get_new_value", Some 103);
  ("BPF_FUNC_sysctl_set_new_value", Some 104); ("BPF_FUNC_strtol", Some 105); ("BPF_FUNC_strtoul",
  Some 106); ("BPF_FUNC_sk_storage_get", Some 107); ("BPF_FUNC_sk_storage_delete", Some 108);
  ("BPF_FUNC_send_signal", Some 109); ("BPF_FUNC_tcp_gen_syncookie", Some 110);
  ("BPF_FUNC_skb_output", Some 111); ("BPF_FUNC_probe_read_user", Some 112);
  ("BPF_FUNC_probe_read_kernel", Some 113); ("BPF_FUNC_probe_read_user_str", Some 114);
  ("BPF_FUNC_probe_read_kernel_str", Some 115); ("BPF_FUNC_tcp_send_ack", Some 116);
  ("BPF_FUNC_send_signal_thread", Some 117); ("BPF_FUNC_jiffies64", Some 118);
  ("BPF_FUNC_read_branch_records", Some 119); ("BPF_FUNC_get_ns_current_pid_tgid", Some 120);
  ("BPF_FUNC_xdp_output", Some 121); ("BPF_FUNC_get_netns_cookie", Some 122);
  ("BPF_FUNC_get_current_ancestor_cgroup_id", Some 123); ("BPF_FUNC_sk_assign", Some 124);
  ("BPF_FUNC_ktime_get_boot_ns", Some 125); ("BPF_FUNC_seq_printf", Some 126);
  ("BPF_FUNC_seq_write", Some 127); ("BPF_FUNC_sk_cgroup_id", Some 128);
  ("BPF_FUNC_sk_ancestor_cgroup_id", Some 129); ("BPF_FUNC_ringbuf_output", Some 130);
  ("BPF_FUNC_ringbuf_reserve", Some 131); ("BPF_FUNC_ringbuf_submit", Some 132);
  ("BPF_FUNC_ringbuf_discard", Some 133); ("BPF_FUNC_ringbuf_query", Some 134);
  ("BPF_FUNC_csum_level", Some 135); ("BPF_FUNC_skc_to_tcp6_sock", Some 136);
  ("BPF_FUNC_skc_to_tcp_sock", Some 137); ("BPF_FUNC_skc_to_tcp_timewait_sock", Some 138);
  ("BPF_FUNC_skc_to_tcp_request_sock", Some 139); ("BPF_FUNC_skc_to_udp6_sock", Some 140);
  ("BPF_FUNC_get_task_stack", Some 141); ("BPF_FUNC_load_hdr_opt", Some 142);
  ("BPF_FUNC_store_hdr_opt", Some 143); ("BPF_FUNC_reserve_hdr_opt", Some 144);
  ("BPF_FUNC_inode_storage_get", Some 145); ("BPF_FUNC_inode_storage_delete", Some 146);
  ("BPF_FUNC_d_path", Some 147); ("BPF_FUNC_copy_from_user", Some 148); ("BPF_FUNC_snprintf_btf",
  Some 149); ("BPF_FUNC_seq_printf_btf", Some 150); ("BPF_FUNC_skb_cgroup_classid", Some 151);
  ("BPF_FUNC_redirect_neigh", Some 152); ("BPF_FUNC_per_cpu_ptr", Some 153);
  ("BPF_FUNC_this_cpu_ptr", Some 154); ("BPF_FUNC_redirect_peer", Some 155);
  ("BPF_FUNC_task_storage_get", Some 156); ("BPF_FUNC_task_storage_delete", Some 157);
  ("BPF_FUNC_get_current_task_btf", Some 158); ("BPF_FUNC_bprm_opts_set", Some 159);
  ("BPF_FUNC_ktime_get_coarse_ns", Some 160); ("BPF_FUNC_ima_inode_hash", Some 161);
  ("BPF_FUNC_sock_from_file", Some 162); ("BPF_FUNC_check_mtu", Some 163);
  ("BPF_FUNC_for_each_map_elem", Some 164); ("BPF_FUNC_snprintf", Some 165); ("BPF_FUNC_sys_bpf",
  Some 166); ("BPF_FUNC_btf_find_by_name_kind", Some 167); ("BPF_FUNC_sys_close", Some 168);
  ("BPF_FUNC_timer_init", Some 169); ("BPF_FUNC_timer_set_callback", Some 170);
  ("BPF_FUNC_timer_start", Some 171); ("BPF_FUNC_timer_cancel", Some 172); ("BPF_FUNC_get_func_ip",
  Some 173); ("BPF_FUNC_get_attach_cookie", Some 174); ("BPF_FUNC_task_pt_regs", Some 175);
  ("BPF_FUNC_get_branch_snapshot", Some 176); ("BPF_FUNC_trace_vprintk", Some 177);
  ("BPF_FUNC_skc_to_unix_sock", Some 178); ("BPF_FUNC_kallsyms_lookup_name", Some 179);
  ("BPF_FUNC_find_vma", Some 180); ("BPF_FUNC_loop", Some 181); ("BPF_FUNC_strncmp", Some 182);
  ("BPF_FUNC_get_func_arg", Some 183); ("BPF_FUNC_get_func_ret", Some 184);
  ("BPF_FUNC_get_func_arg_cnt", Some 185); ("BPF_FUNC_get_retval", Some 186);
  ("BPF_FUNC_set_retval", Some 187); ("BPF_FUNC_xdp_get_buff_len", Some 188);
  ("BPF_FUNC_xdp_load_bytes", Some 189); ("BPF_FUNC_xdp_store_bytes", Some 190);
  ("BPF_FUNC_copy_from_user_task", Some 191); ("BPF_FUNC_skb_set_tstamp", Some 192);
  ("BPF_FUNC_ima_file_hash", Some 193); ("BPF_FUNC_kptr_xchg", Some 194);
  ("BPF_FUNC_map_lookup_percpu_elem", Some 195); ("BPF_FUNC_skc_to_mptcp_sock", Some 196);
  ("BPF_FUNC_dynptr_from_mem", Some 197); ("BPF_FUNC_ringbuf_reserve_dynptr", Some 198);
  ("BPF_FUNC_ringbuf_submit_dynptr", Some 199); ("BPF_FUNC_ringbuf_discard_dynptr", Some 200);
  ("BPF_FUNC_dynptr_read", Some 201); ("BPF_FUNC_dynptr_write", Some 202); ("BPF_FUNC_dynptr_data",
  Some 203); ("BPF_FUNC_tcp_raw_gen_syncookie_ipv4", Some 204);
  ("BPF_FUNC_tcp_raw_gen_syncookie_ipv6", Some 205); ("BPF_FUNC_tcp_raw_check_syncookie_ipv4", Some
  206); ("BPF_FUNC_tcp_raw_check_syncookie_ipv6", Some 207); ("BPF_FUNC_ktime_get_tai_ns", Some
  208); ("BPF_FUNC_user_ringbuf_drain", Some 209); ("BPF_FUNC_cgrp_storage_get", Some 210);
  ("BPF_FUNC_cgrp_storage_delete", Some 211); ("__BPF_FUNC_MAX_ID", Some 212)].
Definition e_bpf_arg_type : list (string * option Z) := [
  ("ARG_DONTCARE", Some 0); ("ARG_CONST_MAP_PTR", Some 1); ("ARG_PTR_TO_MAP_KEY", Some 2);
  ("ARG_PTR_TO_MAP_VALUE", Some 3); ("ARG_PTR_TO_MEM", Some 4); ("ARG_CONST_SIZE", Some 5);
  ("ARG_CONST_SIZE_OR_ZERO", Some 6); ("ARG_PTR_TO_CTX", Some 7); ("ARG_ANYTHING", Some 8);
  ("ARG_PTR_TO_SPIN_LOCK", Some 9); ("ARG_PTR_TO_SOCK_COMMON", Some 10); ("ARG_PTR_TO_SOCKET", Some
  11); ("ARG_PTR_TO_BTF_ID", Some 12); ("ARG_PTR_TO_RINGBUF_MEM", Some 13);
  ("ARG_CONST_ALLOC_SIZE_OR_ZERO", Some 14); ("ARG_PTR_TO_BTF_ID_SOCK_COMMON", Some 15);
  ("ARG_PTR_TO_PERCPU_BTF_ID", Some 16); ("ARG_PTR_TO_FUNC", Some 17); ("ARG_PTR_TO_STACK", Some
  18); ("ARG_PTR_TO_CONST_STR", Some 19); ("ARG_PTR_TO_TIMER", Some 20); ("ARG_PTR_TO_KPTR", Some
  21); ("ARG_PTR_TO_DYNPTR", Some 22); ("__BPF_ARG_TYPE_MAX", Some 23);
  ("ARG_PTR_TO_MAP_VALUE_OR_NULL", Some 259); ("ARG_PTR_TO_MEM_OR_NULL", Some 260);
  ("ARG_PTR_TO_CTX_OR_NULL", Some 263); ("ARG_PTR_TO_SOCKET_OR_NULL", Some 267);
  ("ARG_PTR_TO_STACK_OR_NULL", Some 274); ("ARG_PTR_TO_BTF_ID_OR_NULL", Some 268);
  ("ARG_PTR_TO_UNINIT_MEM", Some 67141636); ("ARG_PTR_TO_FIXED_SIZE_MEM", Some 262148);
  ("__BPF_ARG_TYPE_LIMIT", Some 134217727)].
Definition e_bpf_dynptr_type : list (string * option Z) := [
  ("BPF_DYNPTR_TYPE_INVALID", Some 0); ("BPF_DYNPTR_TYPE_LOCAL", Some 1);
  ("BPF_DYNPTR_TYPE_RINGBUF", Some 2); ("BPF_DYNPTR_TYPE_SKB", Some 3); ("BPF_DYNPTR_TYPE_XDP", Some
  4)].
Definition e_bpf_iter_state : list (string * option Z) := [
  ("BPF_ITER_STATE_INVALID", Some 0); ("BPF_ITER_STATE_ACTIVE", Some 1); ("BPF_ITER_STATE_DRAINED",
  Some 2)].
Definition e_bpf_reg_liveness : list (string * option Z) := [
  ("REG_LIVE_NONE", Some 0); ("REG_LIVE_READ32", Some 1); ("REG_LIVE_READ64", Some 2);
  ("REG_LIVE_READ", Some 3); ("REG_LIVE_WRITTEN", Some 4); ("REG_LIVE_DONE", Some 8)].
Definition e_bpf_return_type : list (string * option Z) := [
  ("RET_INTEGER", Some 0); ("RET_VOID", Some 1); ("RET_PTR_TO_MAP_VALUE", Some 2);
  ("RET_PTR_TO_SOCKET", Some 3); ("RET_PTR_TO_TCP_SOCK", Some 4); ("RET_PTR_TO_SOCK_COMMON", Some
  5); ("RET_PTR_TO_MEM", Some 6); ("RET_PTR_TO_MEM_OR_BTF_ID", Some 7); ("RET_PTR_TO_BTF_ID", Some
  8); ("__BPF_RET_TYPE_MAX", Some 9); ("RET_PTR_TO_MAP_VALUE_OR_NULL", Some 258);
  ("RET_PTR_TO_SOCKET_OR_NULL", Some 259); ("RET_PTR_TO_TCP_SOCK_OR_NULL", Some 260);
  ("RET_PTR_TO_SOCK_COMMON_OR_NULL", Some 261); ("RET_PTR_TO_RINGBUF_MEM_OR_NULL", Some 1286);
  ("RET_PTR_TO_DYNPTR_MEM_OR_NULL", Some 262); ("RET_PTR_TO_BTF_ID_OR_NULL", Some 264);
  ("RET_PTR_TO_BTF_ID_TRUSTED", Some 1048584); ("__BPF_RET_TYPE_LIMIT", Some 134217727)].
Definition e_bpf_access_type : list (string * option Z) := [
  ("BPF_READ", Some 1); ("BPF_WRITE", Some 2)].
Definition e_bpf_type_flag : list (string * option Z) := [
  ("PTR_MAYBE_NULL", Some 256); ("MEM_RDONLY", Some 512); ("MEM_RINGBUF", Some 1024); ("MEM_USER",
  Some 2048); ("MEM_PERCPU", Some 4096); ("OBJ_RELEASE", Some 8192); ("PTR_UNTRUSTED", Some 16384);
  ("MEM_UNINIT", Some 32768); ("DYNPTR_TYPE_LOCAL", Some 65536); ("DYNPTR_TYPE_RINGBUF", Some
  131072); ("MEM_FIXED_SIZE", Some 262144); ("MEM_ALLOC", Some 524288); ("PTR_TRUSTED", Some
  1048576); ("MEM_RCU", Some 2097152); ("NON_OWN_REF", Some 4194304); ("DYNPTR_TYPE_SKB", Some
  8388608); ("DYNPTR_TYPE_XDP", Some 16777216); ("MEM_ALIGNED", Some 33554432); ("MEM_WRITE", Some
  67108864); ("__BPF_TYPE_FLAG_MAX", Some 67108865); ("__BPF_TYPE_LAST_FLAG", Some 67108864)].
Definition e_bpf_stack_slot_type : list (string * option Z) := [
  ("STACK_INVALID", Some 0); ("STACK_SPILL", Some 1); ("STACK_MISC", Some 2); ("STACK_ZERO", Some
  3); ("STACK_DYNPTR", Some 4); ("STACK_ITER", Some 5)].
Definition e_bpf_iter_feature : list (string * option Z) := [
  ("BPF_ITER_RESCHED", Some 1)].
Definition e_bpf_core_relo_kind : list (string * option Z) := [
  ("BPF_CORE_FIELD_BYTE_OFFSET", Some 0); ("BPF_CORE_FIELD_BYTE_SIZE", Some 1);
  ("BPF_CORE_FIELD_EXISTS", Some 2); ("BPF_CORE_FIELD_SIGNED", Some 3);
  ("BPF_CORE_FIELD_LSHIFT_U64", Some 4); ("BPF_CORE_FIELD_RSHIFT_U64", Some 5);
  ("BPF_CORE_TYPE_ID_LOCAL", Some 6); ("BPF_CORE_TYPE_ID_TARGET", Some 7); ("BPF_CORE_TYPE_EXISTS",
  Some 8); ("BPF_CORE_TYPE_SIZE", Some 9); ("BPF_CORE_ENUMVAL_EXISTS", Some 10);
  ("BPF_CORE_ENUMVAL_VALUE", Some 11); ("BPF_CORE_TYPE_MATCHES", Some 12)].
Definition e_bpf_ret_code : list (string * option Z) := [
  ("BPF_OK", Some 0); ("BPF_DROP", Some 2); ("BPF_REDIRECT", Some 7); ("BPF_LWT_REROUTE", Some 128);
  ("BPF_FLOW_DISSECTOR_CONTINUE", Some 129)].
Definition e_bpf_access_src : list (string * option Z) := [
  ("ACCESS_DIRECT", Some 1); ("ACCESS_HELPER", Some 2)].
Definition e_bpf_adj_room_mode : list (string * option Z) := [
  ("BPF_ADJ_ROOM_NET", Some 0); ("BPF_ADJ_ROOM_MAC", Some 1)].
Definition e_bpf_hdr_start_off : list (string * option Z) := [
  ("BPF_HDR_START_MAC", Some 0); ("BPF_HDR_START_NET", Some 1)].
Definition e_bpf_lwt_encap_mode : list (string * option Z) := [
  ("BPF_LWT_ENCAP_SEG6", Some 0); ("BPF_LWT_ENCAP_SEG6_INLINE", Some 1); ("BPF_LWT_ENCAP_IP", Some
  2)].
Definition e_bpf_check_mtu_flags : list (string * option Z) := [
  ("BPF_MTU_CHK_SEGS", Some 1)].
Definition e_bpf_check_mtu_ret : list (string * option Z) := [
  ("BPF_MTU_CHK_RET_SUCCESS", Some 0); ("BPF_MTU_CHK_RET_FRAG_NEEDED", Some 1);
  ("BPF_MTU_CHK_RET_SEGS_TOOBIG", Some 2)].
Definition e_bpf_type : list (string * option Z) := [
  ("BPF_TYPE_UNSPEC", Some 0); ("BPF_TYPE_PROG", Some 1); ("BPF_TYPE_MAP", Some 2);
  ("BPF_TYPE_LINK", Some 3)].
Definition e_bpf_async_type : list (string * option Z) := [
  ("BPF_ASYNC_TYPE_TIMER", Some 0)].
Definition e_bpf_task_vma_iter_find_op : list (string * option Z) := [
  ("task_vma_iter_first_vma", Some 0); ("task_vma_iter_next_vma", Some 1);
  ("task_vma_iter_find_vma", Some 2)].
Definition e_bpf_lru_list_type : list (string * option Z) := [
  ("BPF_LRU_LIST_T_ACTIVE", Some 0); ("BPF_LRU_LIST_T_INACTIVE", Some 1); ("BPF_LRU_LIST_T_FREE",
  Some 2); ("BPF_LRU_LOCAL_LIST_T_FREE", Some 3); ("BPF_LRU_LOCAL_LIST_T_PENDING", Some 4)].
Definition e_bpf_stack_build_id_status : list (string * option Z) := [
  ("BPF_STACK_BUILD_ID_EMPTY", Some 0); ("BPF_STACK_BUILD_ID_VALID", Some 1);
  ("BPF_STACK_BUILD_ID_IP", Some 2)].
Definition e_bpf_struct_ops_state : list (string * option Z) := [
  ("BPF_STRUCT_OPS_STATE_INIT", Some 0); ("BPF_STRUCT_OPS_STATE_INUSE", Some 1);
  ("BPF_STRUCT_OPS_STATE_TOBEFREE", Some 2); ("BPF_STRUCT_OPS_STATE_READY", Some 3)].
Definition e_bpf_cmd : list (string * option Z) := [
  ("BPF_MAP_CREATE", Some 0); ("BPF_MAP_LOOKUP_ELEM", Some 1); ("BPF_MAP_UPDATE_ELEM", Some 2);
  ("BPF_MAP_DELETE_ELEM", Some 3); ("BPF_MAP_GET_NEXT_KEY", Some 4); ("BPF_PROG_LOAD", Some 5);
  ("BPF_OBJ_PIN", Some 6); ("BPF_OBJ_GET", Some 7); ("BPF_PROG_ATTACH", Some 8); ("BPF_PROG_DETACH",
  Some 9); ("BPF_PROG_TEST_RUN", Some 10); ("BPF_PROG_RUN", Some 10); ("BPF_PROG_GET_NEXT_ID", Some
  11); ("BPF_MAP_GET_NEXT_ID", Some 12); ("BPF_PROG_GET_FD_BY_ID", Some 13);
  ("BPF_MAP_GET_FD_BY_ID", Some 14); ("BPF_OBJ_GET_INFO_BY_FD", Some 15); ("BPF_PROG_QUERY", Some
  16); ("BPF_RAW_TRACEPOINT_OPEN", Some 17); ("BPF_BTF_LOAD", Some 18); ("BPF_BTF_GET_FD_BY_ID",
  Some 19); ("BPF_TASK_FD_QUERY", Some 20); ("BPF_MAP_LOOKUP_AND_DELETE_ELEM", Some 21);
  ("BPF_MAP_FREEZE", Some 22); ("BPF_BTF_GET_NEXT_ID", Some 23); ("BPF_MAP_LOOKUP_BATCH", Some 24);
  ("BPF_MAP_LOOKUP_AND_DELETE_BATCH", Some 25); ("BPF_MAP_UPDATE_BATCH", Some 26);
  ("BPF_MAP_DELETE_BATCH", Some 27); ("BPF_LINK_CREATE", Some 28); ("BPF_LINK_UPDATE", Some 29);
  ("BPF_LINK_GET_FD_BY_ID", Some 30); ("BPF_LINK_GET_NEXT_ID", Some 31); ("BPF_ENABLE_STATS", Some
  32); ("BPF_ITER_CREATE", Some 33); ("BPF_LINK_DETACH", Some 34); ("BPF_PROG_BIND_MAP", Some 35)].
Definition e_bpf_perf_event_type : list (string * option Z) := [
  ("BPF_PERF_EVENT_UNSPEC", Some 0); ("BPF_PERF_EVENT_UPROBE", Some 1); ("BPF_PERF_EVENT_URETPROBE",
  Some 2); ("BPF_PERF_EVENT_KPROBE", Some 3); ("BPF_PERF_EVENT_KRETPROBE", Some 4);
  ("BPF_PERF_EVENT_TRACEPOINT", Some 5); ("BPF_PERF_EVENT_EVENT", Some 6)].
Definition e_bpf_stats_type : list (string * option Z) := [
  ("BPF_STATS_RUN_TIME", Some 0)].
Definition e_bpf_audit : list (string * option Z) := [
  ("BPF_AUDIT_LOAD", Some 0); ("BPF_AUDIT_UNLOAD", Some 1); ("BPF_AUDIT_MAX", Some 2)].
Definition e_bpf_struct_walk_result : list (string * option Z) := [
  ("WALK_SCALAR", Some 0); ("WALK_PTR", Some 1); ("WALK_STRUCT", Some 2)].
Definition e_anon_update_flags : list (string * option Z) := [
  ("BPF_ANY", Some 0); ("BPF_NOEXIST", Some 1); ("BPF_EXIST", Some 2); ("BPF_F_LOCK", Some 4)].
Definition e_anon_stackid_flags : list (string * option Z) := [
  ("BPF_F_SKIP_FIELD_MASK", Some 255); ("BPF_F_USER_STACK", Some 256); ("BPF_F_FAST_STACK_CMP", Some 512); ("BPF_F_REUSE_STACKID", Some 1024); ("BPF_F_USER_BUILD_ID", Some 2048)].

(** * Properties *)

Definition kernel_records : list ctype := [
  s_trace_entry; s_trace_event_raw_sched_kthread_stop; s_trace_event_raw_sched_kthread_stop_ret;
  s_trace_event_raw_sched_kthread_work_queue_work;
  s_trace_event_raw_sched_kthread_work_execute_start;
  s_trace_event_raw_sched_kthread_work_execute_end; s_trace_event_raw_sched_wakeup_template;
  s_trace_event_raw_sched_switch; s_trace_event_raw_sched_migrate_task;
  s_trace_event_raw_sched_process_template; s_trace_event_raw_sched_process_wait;
  s_trace_event_raw_sched_process_fork; s_trace_event_raw_sched_process_exec;
  s_trace_event_raw_sched_stat_template; s_trace_event_raw_sched_stat_runtime;
  s_trace_event_raw_sched_pi_setprio; s_trace_event_raw_sched_process_hang;
  s_trace_event_raw_sched_move_numa; s_trace_event_raw_sched_numa_pair_template;
  s_trace_event_raw_sched_skip_vma_numa; s_trace_event_raw_sched_wake_idle_without_ipi;
  s_thread_info; s_refcount_struct; s_llist_node; s___call_single_node; s_load_weight; s_rb_node;
  s_list_head; s_sched_avg; s_sched_entity; s_sched_rt_entity; s_timerqueue_node; s_hrtimer;
  s_sched_dl_entity; s_uclamp_se; s_sched_statistics; s_hlist_head; s_cpumask; u_rcu_special;
  s_sched_info; s_plist_node; s_restart_block; s_hlist_node; s_qspinlock; s_raw_spinlock;
  s_prev_cputime; s_seqcount; s_vtime; s_rb_root; s_rb_root_cached; s_timerqueue_head;
  s_posix_cputimer_base; s_posix_cputimers; s_callback_head; s_optimistic_spin_queue; s_mutex;
  s_posix_cputimers_work; s_sysv_sem; s_sysv_shm; s_sigpending; s_seccomp; s_syscall_user_dispatch;
  s_spinlock; s_wake_q_node; s_task_io_accounting; s_seqcount_spinlock; s_arch_tlbflush_unmap_batch;
  s_tlbflush_unmap_batch; s_page_frag; s_latency_record; s_kmap_ctrl; s_timer_list; s_llist_head;
  s_da_monitor; u_rv_task_monitor; s_desc_struct; s_thread_shstk; s_fpu_state_perm; s_fregs_state;
  s_fxregs_state; s_swregs_state; s_xstate_header; s_xregs_state; u_fpregs_state; s_fpstate; s_fpu;
  s_thread_struct; s_task_struct; s___call_single_data; s_uclamp_bucket; s_uclamp_rq; s_cfs_rq;
  s_rt_prio_array; s_plist_head; s_rt_rq; s_dl_rq; s_cpu_stop_work; s_rcuwait; s_rq; s_maple_tree;
  s_rw_semaphore; s_percpu_counter; s_uprobes_state; s_work_struct; s_mm_struct; s_perf_event_attr;
  s_hw_perf_event_extra; s_arch_hw_breakpoint; s_rhash_head; s_rhlist_head; s_hw_perf_event;
  s_wait_queue_head; s_irq_work; s_perf_addr_filters_head; s_ftrace_ops_hash; s_ftrace_ops;
  s_perf_event; s_bpf_map; s_sock_filter; s_bpf_insn; s_bpf_prog; s_latch_tree_node; s_bpf_ksym;
  s_bpf_prog_aux; s_pcpu_freelist_head; s_pcpu_freelist; s_bpf_stack_map; s_cpu_itimer;
  s_task_cputime_atomic; s_thread_group_cputimer; s_rlimit; s_pacct_struct; s_signal_struct;
  s_bpf_mem_alloc; s_bpf_lru_list; s_bpf_common_lru; s_bpf_lru; s_lock_class_key; s_bpf_htab;
  s_bpf_link; s_trace_event; s_trace_event_call; s_perf_event_groups; s_perf_event_context;
  s_pgprot; s_vm_userfaultfd_ctx; s_vm_area_struct; u_perf_sample_weight; u_perf_mem_data_src;
  s_perf_regs; s_perf_sample_data; s_fred_cs; s_fred_ss; s_pt_regs; s_bpf_map_ops; s_cred;
  s_perf_callchain_entry; s_sched_class; s_static_key; s_tracepoint; s_bpf_raw_event_map;
  s_bpf_perf_link; s_perf_cpu_context; s_percpu_ref; s_rcu_work; s_cgroup_subsys_state;
  s_perf_cgroup; u_bpf_attr].
Definition kernel_enums : list (list (string * option Z)) := [
  e_bpf_prog_type; e_bpf_attach_type; e_bpf_netdev_command; e_bpf_map_type; e_bpf_cgroup_iter_order;
  e_bpf_link_type; e_bpf_iter_task_type; e_bpf_reg_type; e_bpf_tramp_prog_type;
  e_bpf_jit_poke_reason; e_bpf_text_poke_type; e_bpf_task_fd_type; e_bpf_cgroup_storage_type;
  e_bpf_xdp_mode; e_bpf_func_id; e_bpf_arg_type; e_bpf_dynptr_type; e_bpf_iter_state;
  e_bpf_reg_liveness; e_bpf_return_type; e_bpf_access_type; e_bpf_type_flag; e_bpf_stack_slot_type;
  e_bpf_iter_feature; e_bpf_core_relo_kind; e_bpf_ret_code; e_bpf_access_src; e_bpf_adj_room_mode;
  e_bpf_hdr_start_off; e_bpf_lwt_encap_mode; e_bpf_check_mtu_flags; e_bpf_check_mtu_ret; e_bpf_type;
  e_bpf_async_type; e_bpf_task_vma_iter_find_op; e_bpf_lru_list_type; e_bpf_stack_build_id_status;
  e_bpf_struct_ops_state; e_bpf_cmd; e_bpf_perf_event_type; e_bpf_stats_type; e_bpf_audit;
  e_bpf_struct_walk_result; e_anon_update_flags; e_anon_stackid_flags].

Lemma kernel_records_wf : Forall (λ t, ctype_wf t = true) kernel_records.
Proof. refine (bool_decide_eq_true_1 _ _). by vm_compute. Qed.

(** The declarations of vmlinux.h as the compiler lays them out.  For every struct
    and union modelled: the size is a multiple of the alignment, the members of a struct are in order, disjoint, aligned and
    inside it, the members of a union start at 0 and fit; and after any values are
    stored to all members of a struct without bit-fields, in order, loading a member
    gives its own value at its width.  The context of sched_switch has the layout of
    the tracepoint's format, with [prev_pid] in bytes 24 to 27; within each
    enumeration of the BPF interface a name has one value; and the constants
    offcpu.bpf.c uses have the numbers of the BPF interface. *)
Theorem kernel_layouts_sound :
  (∀ t, t ∈ kernel_records →
     layout_sound t ∧
     (plain_struct t = true → ∀ mem vs i p v,
        bit_positions t !! i = Some p → vs !! i = Some v →
        load (store_members mem (bit_positions t) vs) (member_addr p) (member_bytes p)
        = v mod 256 ^ mb_size p.1)) ∧
  s_trace_event_raw_sched_switch ∈ kernel_records ∧
  plain_struct s_trace_event_raw_sched_switch = true ∧
  map (λ p, (mb_name p.1, member_addr p, mb_size p.1)) (bit_positions s_trace_event_raw_sched_switch)
  = [("ent", 0, 8); ("prev_comm", 8, 16); ("prev_pid", 24, 4); ("prev_prio", 28, 4);
     ("prev_state", 32, 8); ("next_comm", 40, 16); ("next_pid", 56, 4); ("next_prio", 60, 4);
     ("__data", 64, 0)] ∧
  Forall (λ es, NoDup (enum_values 0 es).*1) kernel_enums ∧
  enum_value "BPF_MAP_TYPE_HASH" e_bpf_map_type = Some 1 ∧
  enum_value "BPF_MAP_TYPE_STACK_TRACE" e_bpf_map_type = Some 7 ∧
  enum_value "BPF_PROG_TYPE_TRACEPOINT" e_bpf_prog_type = Some 5 ∧
  enum_value "BPF_FUNC_map_lookup_elem" e_bpf_func_id = Some 1 ∧
  enum_value "BPF_FUNC_map_update_elem" e_bpf_func_id = Some 2 ∧
  enum_value "BPF_FUNC_get_stackid" e_bpf_func_id = Some 27 ∧
  enum_value "BPF_ANY" e_anon_update_flags = Some 0 ∧
  enum_value "BPF_F_USER_STACK" e_anon_stackid_flags = Some 256.
Proof.
  split.
  { intros t Ht. pose proof kernel_records_wf as Hwf. rewrite Forall_forall in Hwf.
    specialize (Hwf t Ht). split; [by apply ctype_wf_sound|]. intros Hpl mem vs i p v.
    by apply struct_roundtrip. }
  split; [apply list_elem_of_lookup; by exists 7%nat|].
  split; [by vm_compute|]. split; [by vm_compute|].
  split; [|split_and!; by vm_compute].
  refine (bool_decide_eq_true_1 _ _). by vm_compute.
Qed.
