(* ===== verification/MapBytes.v ===== *)
(** The maps of the off-CPU probe as the kernel holds them, byte strings of a fixed
    size: what drop/common/bpf/offcpu.bpf.c writes through its declarations and what
    drop/common/src/ebpf_loader.cpp reads through its own.

    A [BPF_MAP_TYPE_HASH] map compares keys byte by byte and knows nothing of the
    structs on either side.  The probe fills a zeroed [struct stack_key] and hands
    its address to the map; the loader lets [bpf_map_get_next_key] fill its own
    [struct stack_key].  The context of the tracepoint is memory too: the types of
    vmlinux.h have the attribute [preserve_access_index] (vmlinux.h:5), so the
    offset of [prev_pid] is that of the type of the running kernel, which is a
    parameter here, and the width of the access that of the header. *)
From stdpp Require Import base gmap strings list.
From Stdlib Require Import ZArith Lia.
From S2P Require Import Prelude CLayout Vmlinux Offcpu.

Local Open Scope string_scope.
Local Open Scope Z_scope.

(** * Memory and byte strings *)

(** The first [n] bytes, as a map copies them. *)
Definition bytes_at (mem : Z → Z) (n : nat) : list Z := map (λ i, mem (Z.of_nat i)) (seq 0 n).
(** A byte string copied to address 0. *)
Definition of_bytes (bs : list Z) : Z → Z := λ a, default 0 (bs !! Z.to_nat a).
Definition zeroed : Z → Z := λ _, 0.

Lemma of_bytes_at mem n a : 0 <= a < Z.of_nat n → of_bytes (bytes_at mem n) a = mem a.
Proof.
  intros Ha. unfold of_bytes, bytes_at. rewrite list_lookup_fmap, lookup_seq_lt by lia. simpl.
  by rewrite Z2Nat.id by lia.
Qed.

Lemma load_bytes_at mem n a m :
  0 <= a → a + Z.of_nat m <= Z.of_nat n → load (of_bytes (bytes_at mem n)) a m = load mem a m.
Proof. intros ??. apply load_ext. intros x ?. apply of_bytes_at. lia. Qed.

(** An unsigned scalar of [n] bytes. *)
Definition scalar_bytes (n : nat) (v : Z) : list Z := bytes_at (store zeroed 0 n v) n.
Definition scalar_of (bs : list Z) : Z := load (of_bytes bs) 0 (length bs).

Lemma length_bytes_at mem n : length (bytes_at mem n) = n.
Proof. unfold bytes_at. by rewrite length_map, length_seq. Qed.

Lemma scalar_roundtrip n v : scalar_of (scalar_bytes n v) = v mod 256 ^ Z.of_nat n.
Proof.
  unfold scalar_of, scalar_bytes. rewrite length_bytes_at, load_bytes_at by lia. apply load_store.
Qed.

(** * The declarations *)

(** Variables of type [u32] and [u64]. *)
Definition u32_bytes (v : Z) : list Z := scalar_bytes (Z.to_nat (sizeof t_u32)) v.
Definition u64_bytes (v : Z) : list Z := scalar_bytes (Z.to_nat (sizeof t_u64)) v.

(** [struct stack_key] of the probe. *)
Definition probe_stack_key : ctype := struct_ [
  fld "pid" t_u32;
  fld "tgid" t_u32;
  fld "user_stack_id" c_int;
  fld "kern_stack_id" c_int].

(** [struct stack_key] of the loader; [uint32_t] of the C library. *)
Definition uint32_t : ctype := c_int.
Definition loader_stack_key : ctype := struct_ [
  fld "pid" uint32_t;
  fld "tgid" uint32_t;
  fld "user_stack_id" c_int;
  fld "kern_stack_id" c_int].

(** A member of a struct with its index. *)
Definition find_member (t : ctype) (name : string) : option (nat * (member * Z)) :=
  list_find (λ p, mb_name p.1 = name) (bit_positions t).

(** The member [name] of the struct in [mem]. *)
Definition read_member (t : ctype) (name : string) (mem : Z → Z) : Z :=
  match find_member t name with
  | Some (_, p) => load mem (member_addr p) (member_bytes p)
  | None => 0
  end.

(** An assignment to the member [name]. *)
Definition write_member (t : ctype) (name : string) (v : Z) (mem : Z → Z) : Z → Z :=
  match find_member t name with
  | Some (_, p) => store mem (member_addr p) (member_bytes p) v
  | None => mem
  end.

(** A [struct stack_key] declared as [t]: its bytes, the members assigned one after
    the other in a zeroed struct, and the key a declaration reads from bytes, the
    two stack ids as [int]. *)
Definition key_bytes (t : ctype) (k : stack_key) : list Z :=
  let sk := write_member t "pid" (sk_pid k) zeroed in
  let sk := write_member t "tgid" (sk_tgid k) sk in
  let sk := write_member t "user_stack_id" (user_stack_id k) sk in
  let sk := write_member t "kern_stack_id" (kern_stack_id k) sk in
  bytes_at sk (Z.to_nat (sizeof t)).
Definition read_key (t : ctype) (bs : list Z) : stack_key :=
  let mem := of_bytes bs in
  mkSK (read_member t "pid" mem) (read_member t "tgid" mem)
       (to_i32 (read_member t "user_stack_id" mem)) (to_i32 (read_member t "kern_stack_id" mem)).

(** * The maps *)

Definition BPF_ANY : Z := default (-1) (enum_value "BPF_ANY" e_anon_update_flags).
Definition BPF_F_USER_STACK : Z := default (-1) (enum_value "BPF_F_USER_STACK" e_anon_stackid_flags).

(** [bpf_map_update_elem] of the kernel on a hash map of [room] entries: flag 0 sets
    the element, 1 only a new one, 2 only one that is there. *)
Definition bpf_map_update_elem (room : Z) (k v : list Z) (flags : Z) (m : gmap (list Z) (list Z)) :
    gmap (list Z) (list Z) :=
  let there := bool_decide (is_Some (m !! k)) in
  let put := if there then <[k := v]> m
             else if bool_decide (Z.of_nat (size m) < room) then <[k := v]> m else m in
  if bool_decide (flags = 0) then put
  else if bool_decide (flags = 1) then (if there then m else put)
  else if bool_decide (flags = 2) then (if there then put else m)
  else m.

Record byte_maps := mkBytes {
  counts_b : gmap (list Z) (list Z);
  target_pid_b : gmap (list Z) (list Z);
}.

(** [EbpfLoader::attach]: the filter, when the target is positive. *)
Definition attach_bytes (target : Z) : gmap (list Z) (list Z) :=
  if bool_decide (0 < target)
  then bpf_map_update_elem 1 (u32_bytes 0) (u32_bytes (to_u32 target)) BPF_ANY ∅
  else ∅.

(** * The probe *)

(** A switch as the kernel hands it over: the memory of the context and
    [bpf_get_stackid], which depends on its flags. *)
Record switch_record := mkSwitch {
  sw_ctx : Z → Z;
  sw_stackid : Z → Z;
}.

(** [ctx->prev_pid]: address in the type of the running kernel, width of the
    header; [None] when a type lacks the member, and the object is not loaded. *)
Definition prev_pid_access (kernel : ctype) : option (Z * nat) :=
  '(_, local) ← find_member s_trace_event_raw_sched_switch "prev_pid";
  '(_, target) ← find_member kernel "prev_pid";
  Some (member_addr target, member_bytes local).

(** [trace_sched_switch] on bytes. *)
Definition trace_sched_switch_bytes (access : Z * nat) (m : byte_maps) (e : switch_record) : byte_maps :=
  let filter_tgid := match target_pid_b m !! u32_bytes 0 with
                     | Some v => scalar_of v
                     | None => 0
                     end in
  let prev_pid := to_u32 (load (sw_ctx e) access.1 access.2) in
  if bool_decide (filter_tgid ≠ 0) && bool_decide (prev_pid ≠ filter_tgid) then m else
  let sk := key_bytes probe_stack_key
              (mkSK prev_pid (if bool_decide (filter_tgid ≠ 0) then filter_tgid else prev_pid)
                 (to_i32 (sw_stackid e BPF_F_USER_STACK)) (to_i32 (sw_stackid e 0))) in
  mkBytes
    match counts_b m !! sk with
    | Some val => <[sk := u64_bytes (scalar_of val + 1)]> (counts_b m)
    | None => bpf_map_update_elem MAX_ENTRIES sk (u64_bytes 1) BPF_ANY (counts_b m)
    end
    (target_pid_b m).

Definition run_bytes (access : Z * nat) (target : Z) (es : list switch_record) : byte_maps :=
  foldl (trace_sched_switch_bytes access) (mkBytes ∅ (attach_bytes target)) es.

(** * The kernel's side *)

(** The context of a switch of process [pid]: every member of the kernel's type
    stored, [prev_pid] with the value [pid]. *)
Definition context_of (kernel : ctype) (pid : Z) (ctx : Z → Z) : Prop :=
  ∃ mem vs i p, find_member kernel "prev_pid" = Some (i, p) ∧ vs !! i = Some pid ∧
    ctx = store_members mem (bit_positions kernel) vs.

(** The event of Offcpu that a record is: flag 256 asks for the user stack. *)
Definition event_of (pid : Z) (e : switch_record) : switch_event :=
  mkEvent pid (to_i32 (sw_stackid e 256)) (to_i32 (sw_stackid e 0)).

Definition filter_of (target : Z) : option Z :=
  if bool_decide (0 < target) then Some (to_u32 target) else None.

Lemma u32_roundtrip v : scalar_of (u32_bytes v) = to_u32 v.
Proof. apply scalar_roundtrip. Qed.
Lemma u64_roundtrip v : scalar_of (u64_bytes v) = to_u64 v.
Proof. apply scalar_roundtrip. Qed.

(** * A key through the two declarations *)

(** The values the members of a [struct stack_key] can hold. *)
Definition key_ok (k : stack_key) : Prop :=
  is_u32 (sk_pid k) ∧ is_u32 (sk_tgid k) ∧ is_i32 (user_stack_id k) ∧ is_i32 (kern_stack_id k).

Lemma to_i32_mod v : is_i32 v → to_i32 (v mod 256 ^ 4) = v.
Proof.
  intros Hv. rewrite <- (to_i32_id v Hv) at 2. unfold to_i32, wrap_s.
  rewrite Zplus_mod_idemp_l. done.
Qed.
Lemma u32_mod v : is_u32 v → v mod 256 ^ 4 = v.
Proof. intros Hv. by apply to_u32_id in Hv. Qed.

Lemma load_store_other mem a n v b m :
  b + Z.of_nat m <= a ∨ a + Z.of_nat n <= b → load (store mem a n v) b m = load mem b m.
Proof. intros H. apply load_ext. intros x ?. apply store_out. lia. Qed.

(** Both declarations have the members at 0, 4, 8 and 12 of 16 bytes. *)
Lemma key_bytes_eq t k :
  t = probe_stack_key ∨ t = loader_stack_key →
  key_bytes t k = bytes_at (store (store (store (store zeroed 0 4 (sk_pid k)) 4 4 (sk_tgid k))
                                     8 4 (user_stack_id k)) 12 4 (kern_stack_id k)) 16.
Proof. by intros [->| ->]. Qed.
Lemma read_key_eq bs :
  read_key loader_stack_key bs =
  let m := of_bytes bs in mkSK (load m 0 4) (load m 4 4) (to_i32 (load m 8 4)) (to_i32 (load m 12 4)).
Proof. done. Qed.

(** What the probe writes the loader reads. *)
Lemma read_probe_key k : key_ok k → read_key loader_stack_key (key_bytes probe_stack_key k) = k.
Proof.
  intros (Hp & Ht & Hu & Hk). rewrite key_bytes_eq, read_key_eq by (by left). cbv zeta.
  rewrite !load_bytes_at by lia. rewrite !load_store.
  repeat (rewrite load_store_other by lia; rewrite ?load_store).
  change (Z.of_nat 4) with 4. rewrite !to_i32_mod, !u32_mod by done. by destruct k.
Qed.

Lemma key_bytes_inj k k' :
  key_ok k → key_ok k' → key_bytes probe_stack_key k = key_bytes probe_stack_key k' → k = k'.
Proof. intros Hk Hk' E. rewrite <- (read_probe_key k), <- (read_probe_key k') by done. by rewrite E. Qed.

(** The loader's declaration of a key gives the bytes the kernel has. *)
Lemma loader_key_bytes k : key_bytes loader_stack_key k = key_bytes probe_stack_key k.
Proof. rewrite !key_bytes_eq; auto. Qed.

(** * Simulation *)

(** The bytes hold the counts: one byte key per key, the value a 64-bit number. *)
Record holds (b : gmap (list Z) (list Z)) (c : gmap stack_key Z) : Prop := {
  holds_size : size b = size c;
  holds_bytes kb vb : b !! kb = Some vb →
    ∃ k, key_ok k ∧ kb = key_bytes probe_stack_key k ∧ c !! k = Some (scalar_of vb);
  holds_counts k v : c !! k = Some v →
    key_ok k ∧ ∃ vb, b !! key_bytes probe_stack_key k = Some vb ∧ scalar_of vb = v;
}.

Lemma holds_empty : holds ∅ ∅.
Proof. split; [done|intros ??; by rewrite lookup_empty..]. Qed.

Lemma holds_lookup b c k :
  holds b c → key_ok k → scalar_of <$> b !! key_bytes probe_stack_key k = c !! k.
Proof.
  intros Hh Hk. destruct (b !! _) as [vb|] eqn:E; simpl.
  - destruct (holds_bytes _ _ Hh _ _ E) as (k' & Hk' & Ek & ->%eq_sym).
    by rewrite (key_bytes_inj k k') by done.
  - destruct (c !! k) as [v|] eqn:Ec; [|done].
    destruct (holds_counts _ _ Hh _ _ Ec) as (_ & vb & ? & _). congruence.
Qed.

Lemma holds_insert b c k vb v :
  holds b c → key_ok k → scalar_of vb = v →
  holds (<[key_bytes probe_stack_key k := vb]> b) (<[k := v]> c).
Proof.
  intros Hh Hk Hv. pose proof (holds_lookup b c k Hh Hk) as Hl. split.
  - rewrite !map_size_insert, <- Hl, (holds_size _ _ Hh). by destruct (b !! _).
  - intros kb vb' [[<- <-]|[Hne Hb]]%lookup_insert_Some.
    { exists k. by rewrite lookup_insert_eq, Hv. }
    destruct (holds_bytes _ _ Hh _ _ Hb) as (k' & ? & -> & ?). exists k'. split_and!; [done..|].
    rewrite lookup_insert_ne; [done|]. by intros ->.
  - intros k' v' [[<- <-]|[Hne Hc]]%lookup_insert_Some.
    { split; [done|]. exists vb. by rewrite lookup_insert_eq. }
    destruct (holds_counts _ _ Hh _ _ Hc) as (Hk' & vb' & ? & ?). split; [done|]. exists vb'.
    rewrite lookup_insert_ne; [done|]. by intros ?%key_bytes_inj.
Qed.

(** Counting one switch, on bytes and on the map of keys. *)
Lemma count_one_holds b c k :
  holds b c → key_ok k →
  holds match b !! key_bytes probe_stack_key k with
        | Some val => <[key_bytes probe_stack_key k := u64_bytes (scalar_of val + 1)]> b
        | None => bpf_map_update_elem MAX_ENTRIES (key_bytes probe_stack_key k) (u64_bytes 1) BPF_ANY b
        end (count_one k c).
Proof.
  intros Hh Hk. pose proof (holds_lookup b c k Hh Hk) as Hl. unfold count_one, fetch_and_add. rewrite <- Hl.
  destruct (b !! key_bytes probe_stack_key k) as [val|] eqn:E; simpl.
  - apply holds_insert; [done..|]. by rewrite u64_roundtrip.
  - unfold bpf_map_update_elem, counts_update.
    replace (bool_decide (BPF_ANY = 0)) with true by (by vm_compute).
    rewrite E, <- Hl, (holds_size _ _ Hh).
    rewrite !(bool_decide_eq_false_2 (is_Some None)) by (by intros [? ?]). simpl.
    case_bool_decide; [|done]. apply holds_insert; [done..|]. by rewrite u64_roundtrip.
Qed.

(** The context gives the pid the kernel stored, at 32 bits. *)
Lemma context_prev_pid kernel access pid ctx :
  ctype_wf kernel = true → plain_struct kernel = true →
  prev_pid_access kernel = Some access →
  (∀ i p, find_member kernel "prev_pid" = Some (i, p) → mb_size p.1 = sizeof t_pid_t) →
  context_of kernel pid ctx → load ctx access.1 access.2 = to_u32 pid.
Proof.
  intros Hwf Hpl Ha Hsz (mem & vs & i & p & Hf & Hv & ->).
  specialize (Hsz _ _ Hf). unfold prev_pid_access in Ha. rewrite Hf in Ha.
  replace (find_member s_trace_event_raw_sched_switch "prev_pid")
    with (Some (2%nat, (mkMember "prev_pid" 4 4 None, 192))) in Ha by (by vm_compute).
  simplify_eq/=. apply list_find_Some in Hf as (Hi & _).
  pose proof (struct_roundtrip kernel mem vs i p pid Hwf Hpl Hi Hv) as E.
  unfold member_bytes in E. rewrite Hsz in E. exact E.
Qed.

(** The filter as the probe reads it. *)
Lemma filter_bytes target :
  match attach_bytes target !! u32_bytes 0 with Some v => scalar_of v | None => 0 end
  = default 0 (filter_of target).
Proof.
  unfold attach_bytes, filter_of. case_bool_decide; [|done]. simpl.
  unfold bpf_map_update_elem. replace (bool_decide (BPF_ANY = 0)) with true by (by vm_compute).
  rewrite lookup_empty, (bool_decide_eq_false_2 (is_Some None)) by (by intros [? ?]).
  rewrite bool_decide_eq_true_2 by (rewrite map_size_empty; lia).
  rewrite lookup_insert_eq, u32_roundtrip. apply to_u32_id, to_u32_range.
Qed.

Lemma trace_bytes_simulation kernel access target m c e pid :
  ctype_wf kernel = true → plain_struct kernel = true →
  prev_pid_access kernel = Some access →
  (∀ i p, find_member kernel "prev_pid" = Some (i, p) → mb_size p.1 = sizeof t_pid_t) →
  context_of kernel pid (sw_ctx e) →
  target_pid_b m = attach_bytes target → target_pid c = filter_of target →
  holds (counts_b m) (counts c) →
  holds (counts_b (trace_sched_switch_bytes access m e)) (counts (trace_sched_switch c (event_of pid e))) ∧
  target_pid_b (trace_sched_switch_bytes access m e) = attach_bytes target.
Proof.
  intros Hwf Hpl Ha Hsz Hctx Hm Hc Hh.
  unfold trace_sched_switch_bytes, trace_sched_switch, event_key.
  rewrite Hm, Hc, filter_bytes, (context_prev_pid kernel access pid) by done.
  change BPF_F_USER_STACK with 256. cbn [event_of ev_prev_pid ev_user_id ev_kern_id].
  rewrite (to_u32_id (to_u32 pid)) by apply to_u32_range.
  destruct (_ && _); [done|]. cbn [counts_b target_pid_b counts]. split; [|done].
  apply count_one_holds; [done|]. split_and!; simpl; try apply to_u32_range; try apply to_i32_range.
  case_bool_decide; [|apply to_u32_range]. unfold filter_of in *.
  case_bool_decide; [apply to_u32_range|done].
Qed.

(** C40: the probe and the loader agree on the bytes of the maps.  Let the context of
    the tracepoint have any type of the running kernel that is laid out as a C struct
    without bit-fields and has a [prev_pid] as wide as [pid_t].  Then, for every
    target the loader attaches to and every sequence of switches, run by the probe
    one at a time on byte strings (the filter as the loader stores it, [prev_pid] at
    the offset in the kernel's type, the key through the probe's [struct stack_key],
    flags and widths from vmlinux.h): the keys and counts the loader reads through
    its own [struct stack_key] are exactly those of the map of keys of Offcpu, each
    key has the size of the loader's struct, and the loader's struct written back is
    the key the kernel compares, so its look-ups and deletes find it. *)
Theorem map_bytes_refine kernel access target sws :
  ctype_wf kernel = true → plain_struct kernel = true →
  prev_pid_access kernel = Some access →
  (∀ i p, find_member kernel "prev_pid" = Some (i, p) → mb_size p.1 = sizeof t_pid_t) →
  Forall (λ s, context_of kernel s.1 (sw_ctx s.2)) sws →
  let b := counts_b (run_bytes access target sws.*2) in
  let c := counts (run_probe (filter_of target) (map (λ s, event_of s.1 s.2) sws)) in
  (∀ k v, c !! k = Some v ↔
     ∃ kb vb, b !! kb = Some vb ∧ read_key loader_stack_key kb = k ∧ scalar_of vb = v) ∧
  (∀ kb, is_Some (b !! kb) →
     Z.of_nat (length kb) = sizeof loader_stack_key ∧
     key_bytes loader_stack_key (read_key loader_stack_key kb) = kb).
Proof.
  intros Hwf Hpl Ha Hsz Hall b c.
  assert (holds b c) as Hh.
  { subst b c. unfold run_bytes, run_probe.
    assert (∀ m d, target_pid_b m = attach_bytes target → target_pid d = filter_of target →
      holds (counts_b m) (counts d) →
      holds (counts_b (foldl (trace_sched_switch_bytes access) m sws.*2))
            (counts (foldl trace_sched_switch d (map (λ s, event_of s.1 s.2) sws)))) as Hgen.
    { induction Hall as [|[pid e] sws Hctx _ IH]; intros m d Hm Hd Hh; [done|]. simpl in *.
      destruct (trace_bytes_simulation kernel access target m d e pid) as [Hh' Hm']; [done..|].
      apply IH; [done|by rewrite trace_keep_filter|done]. }
    apply Hgen; [done..|]. apply holds_empty. }
  clearbody b c. split.
  - intros k v. split.
    + intros (Hk & vb & ? & ?)%(holds_counts _ _ Hh). exists (key_bytes probe_stack_key k), vb.
      by rewrite read_probe_key.
    + intros (kb & vb & Hb & <- & <-). destruct (holds_bytes _ _ Hh _ _ Hb) as (k & ? & -> & ?).
      by rewrite read_probe_key.
  - intros kb [vb Hb]. destruct (holds_bytes _ _ Hh _ _ Hb) as (k & ? & -> & _).
    rewrite read_probe_key by done. split; [|apply loader_key_bytes].
    by rewrite key_bytes_eq, length_bytes_at by (by left).
Qed.

(** The type of the header itself, two switches of process 7 with the same stacks
    (no user stack) and one of process 9, which the filter drops. *)
Definition example_context (pid : Z) : Z → Z :=
  store_members zeroed (bit_positions s_trace_event_raw_sched_switch) [0; 0; pid; 120; 1; 0; 9; 120; 0].
Definition example_switches : list (Z * switch_record) :=
  [(7, mkSwitch (example_context 7) (λ f, if bool_decide (f = 256) then -14 else 3));
   (9, mkSwitch (example_context 9) (λ _, 5));
   (7, mkSwitch (example_context 7) (λ f, if bool_decide (f = 256) then -14 else 3))].

Lemma example_context_ok pid :
  context_of s_trace_event_raw_sched_switch pid (example_context pid).
Proof.
  exists zeroed, [0; 0; pid; 120; 1; 0; 9; 120; 0], 2%nat, (mkMember "prev_pid" 4 4 None, 192).
  split_and!; [by vm_compute|done..].
Qed.

Lemma map_bytes_refine_witness :
  prev_pid_access s_trace_event_raw_sched_switch = Some (24, 4%nat) ∧
  ∃ kb vb, counts_b (run_bytes (24, 4%nat) 7 example_switches.*2) !! kb = Some vb ∧
    read_key loader_stack_key kb = mkSK 7 7 (-14) 3 ∧ scalar_of vb = 2.
Proof.
  split; [by vm_compute|].
  apply (map_bytes_refine s_trace_event_raw_sched_switch (24, 4%nat) 7 example_switches).
  - by vm_compute.
  - by vm_compute.
  - by vm_compute.
  - intros i p E. replace (find_member s_trace_event_raw_sched_switch "prev_pid")
      with (Some (2%nat, (mkMember "prev_pid" 4 4 None, 192))) in E by (by vm_compute).
    by simplify_eq/=.
  - unfold example_switches. rewrite !Forall_cons, Forall_nil.
    split_and!; [apply example_context_ok..|done].
  - by vm_compute.
Defined.
